(* ===== verification/_CoqProject ===== *)
-Q . S2P
Prelude.v
Strs.v
HostFs.v
Quota.v
TextMerge.v
Staged.v
Branch.v
Codec.v
View.v
Inode.v
Manager.v
Commit.v
Frame.v
BranchLaws.v
Isolation.v
WorldInv.v
ManagerSpec.v
EditSpec.v
WriteSpec.v
TombLog.v
Restart.v
WalkSpec.v
StagedSpec.v
CommitSpec.v
ConflictSpec.v
Handles.v
Platform.v
Mount.v
Ctl.v
Fuse.v
Daemon.v
Json.v
Cli.v
Quiet.v
FileFrame.v
Lifecycle.v
FuseWalk.v
FuseInv.v
FuseFacts.v
FuseSpec.v
FuseIO.v
ReadOnly.v
RenameSpec.v
FileView.v
Untouched.v
FileSystem.v
Ledger.v
DaemonSpec.v
CtlSpec.v
CliSpec.v
AgentCli.v
UnitTests.v
Answers.v
Scenarios.v
