(* ===== verification/Prelude.v ===== *)
(** * BranchFS: a copy-on-write branching filesystem

    A verification library for branchfs.  The program mounts, over FUSE, views of
    a base directory in which work is done on branches: a branch shows what its
    parent shows until it changes something, keeps its changes in a delta of its
    own, and is in the end committed into its parent or aborted.

    ** The program and the files that model it

    - error.rs: [BranchError] and [errno], in this file, with the state-and-error
      monad [M] in which all the rest is written.  A call that fails keeps what it
      did before it failed; [Panic] is a Rust panic; [OutOfFuel] belongs to the
      model and is proved unreachable where the program terminates.
    - fs_path.rs, and the path and name functions of branch.rs: Strs.v.
    - std::fs and storage.rs, the store helpers and permission guards of branch.rs:
      HostFs.v, over a host that is a finite tree of nodes with modes, owners and
      times, a clock, a supply of uuids and the files removed while still open.  A
      call takes its path as it is, or follows a trailing link where std::fs does;
      links further up are followed where the path comes from outside and can hold
      them: [canonicalize] in the client, and [through] in a revert.
    - branch.rs: Quota.v ([StorageQuota], [dir_size]), TextMerge.v, Staged.v
      ([StagedMerge] with the rollback of its drop), Branch.v (one branch and its
      store directory: metadata, tombstones, touch records), View.v (lookup and
      listing through the parents, snapshots), Manager.v ([BranchManager]: its
      state is [World]), Commit.v (commit and abort).
    - inode.rs: Inode.v.
    - platform/: Platform.v, both targets; the class [Platform] picks one, as the
      cfg attributes do.
    - fs.rs, fs_helpers.rs, fs_ctl.rs: Handles.v (open files, the two handle caches),
      Mount.v ([BranchFs] and its helpers), Ctl.v (control files and their
      commands), Fuse.v (one definition per FUSE callback; [handle] dispatches;
      [run_job] is the blocking worker).
    - daemon.rs, the daemon's half, and parse_size of main.rs: Daemon.v; the
      serialised structs of branch.rs and the answers made from them: Json.v.
    - main.rs, and the client's half of daemon.rs: Cli.v.  A [Machine] is a host with
      the daemons running on it; [main] is one run of the program.
    - the test modules of branch.rs and fs.rs: UnitTests.v.

    State goes through explicitly.  An operation of the manager acts on
    [host * World]; a callback on these two and the mount's own [BranchFs]; a
    request on these two and the [Daemon]; a command on the [Machine].  [mgr],
    [hostio], [on_mount], [on_process] and [on_session] put the smaller calls into the
    larger state, as the source calls through its Arcs and over its socket.

    ** What is outside, and comes in as a parameter

    [Env] has the order directories and hash sets are listed in, uuids and the ids of the
    process; [Serde] is serde_json on the store, with the round trip as its law (Codec.v
    has instances); [Json] its values and [Wire] its lines on the socket; [Kernel] is
    fuser's reply buffer and [open_backing], statvfs and the capabilities of the
    kernel; [Sessions] is fuser::spawn_mount2; [Os] is who runs the client and what
    becomes of the process it starts.  Each has a concrete example instance, which
    the witnesses, UnitTests.v and Scenarios.v run on.

    ** What is proved

    - The whole system (FuseInv.v, Lifecycle.v, DaemonSpec.v, Answers.v): under any
      interleaving of requests, callbacks of all mounts and worker jobs the branches
      stay a forest and the table of mounts stays in order ([system_invariant]);
      every run refines an abstract machine of branch lives
      ([system_refines_lifecycle]); every request to an agent's mount is answered
      with a reply of its kind ([every_request_is_answered]); an agent's mount runs
      no control command.  These rest on one walk through all callbacks, done once
      for every relation with the few closure properties of [FuseWalk.Closed].
    - A mount as a file system (ReadOnly.v, FileView.v, Untouched.v, FileSystem.v):
      the files a process finds walking a branch are a map from paths to contents;
      reads answer from it, every callback or job that changes something changes it
      at the paths named and nowhere else, and lookups, listings, opens, changes of
      attributes and whatever is left to the worker change nothing of it, whatever
      other branches do meanwhile ([mount_refines_files]).  [FileSystem.mount_step] lists what each of these asks
      of the branch; where one of its conditions fails the file system misbehaves, as
      Scenarios.v shows of several.
    - A mount, callback by callback (FuseFacts.v, FuseSpec.v, FuseIO.v, RenameSpec.v,
      CtlSpec.v): reads
      answer what the branch shows, a first write or append is read back, a renamed
      file has its bytes at the new path and nothing at the old, getattr agrees with
      lookup, listings come in pages without loss, frozen branches refuse every
      callback and waiting job, commit and abort through the control file move the
      mount to the parent.
    - The command line (CliSpec.v): a command that asks does what the daemon does
      with its request, and its exit code says whether it did; commit and abort of a
      mount reach the store through the kernel and the control file, and at an agent's
      mount they change no branch and no file (AgentCli.v); a daemon is started once,
      with what it was given; a panic takes it down.
    - The daemon (DaemonSpec.v): requests are the manager's operations, the daemon
      ends with its last mount, sizes are read within 64 bits.
    - The manager (WorldInv.v, ManagerSpec.v, Isolation.v, EditSpec.v, WriteSpec.v):
      edits of a branch stay in its store directory and out of other branches'
      views - a revert under the condition that no symbolic link lies on the way to
      its path, since the program follows such a link
      ([Scenarios.revert_follows_link]); deleted paths are gone with what is below
      them; copy-on-write writes are read back.
    - The quota (Ledger.v, Quota.v): operations one after the other add bytes only
      after a check for them and stay below the limit ([quota_holds]); several
      threads between check and addition exceed it by a bounded amount
      ([overrun_is_bounded], [two_writers_overrun]).
    - Commit and abort (WalkSpec.v, StagedSpec.v, CommitSpec.v, ConflictSpec.v): the
      walk over a delta ends and lists it; a commit publishes it exactly; [main] then
      shows what the branch showed; the merges and conflicts it reports are a
      function of the store before; abort leaves nothing behind.
    - The unit tests of the sources run through ([UnitTests.unit_tests_pass]): a
      regression run of the translation, not a property of the program.
    - Lookup (View.v), restart (Restart.v, TombLog.v), text merge, hide rules,
      inode numbers: in the files that define them.
    Frame.v, BranchLaws.v, Quiet.v, Isolation.v and FileFrame.v say what the
    operations leave alone and carry most of these proofs.  Several theorems state behaviour that
    is surely not meant; Scenarios.v has runs of more of it.

    ** Fuel

    Recursion over directories gets [tree_fuel], one more than the number of
    entries of the host: a walk is never deeper than the tree is large
    ([Answers.make_removable_safe], [WalkSpec.walk_lists_delta]).  [dir_size]
    follows links, so its fuel is that times the links a path may go through.
    Recursion along parents gets [chain_fuel], one more than the number of
    branches, enough in a forest ([View.lineage_length]); when parents form a cycle
    the program does not end ([View.parent_cycle_never_answers]).

    ** Not modelled

    Locks: each operation of manager, mount and daemon is one step, and a worker
    job is a step of its own, which is what their mutexes are for.  Link counts,
    sizes of directories, ctime.  The three atomics of the quota are steps of their own in
    Quota.v only.  An open handle follows the file, as on Linux.
    Names are valid UTF-8 and mountpoints absolute.  The text of error messages is
    kept as the value it is made from, and so is what the client prints; logging is
    left out.

    Clients of a daemon follow one another, and a client runs as the daemon's user on
    absolute paths, its arguments as clap hands them over.  The kernel's way from a
    path below a mountpoint to callbacks is lookup by lookup, an open, the writes; it
    caches nothing.  A panic of the daemon's main thread ends the process; one in a
    session's thread leaves the session as it was.  Two daemons do not mount on one
    mountpoint.  The queue in front of the worker is not a state of its own: a job
    that waits is a step that may come at any time.  Reads and writes of a file opened
    for passthrough are the kernel's and reach no callback.

    The Python wrapper, the benchmarks, the tests that drive a built program from
    outside, and the unit test that watches the worker from another thread are not
    modelled; the lines of the sources no definition stands for are these, imports,
    attributes, log calls and the scaffolding of the tests.

    ** Not proved

    What a rename does to a directory is run (Scenarios.v) and not characterised,
    beyond [RenameSpec.inherited_directory_stays]: it loses what the branch only
    inherits there.  [mount_refines_files] says which files there are and what is in
    them, not which empty directories and links, and nothing of a callback that
    changes something and then fails.  That the
    quota's counter equals the bytes in the store is not proved because it does not
    ([negative_usage_refuses], [Scenarios.rename_onto_file_keeps_its_bytes]).  Links
    further up a path than its last component are followed only as said above:
    a path below a branch's files that the kernel hands to a callback has none, a
    path of the base or of a parent's delta may, and there the model reads it as
    missing. *)

From Stdlib Require Export ZArith Lia.
From Stdlib Require Export Ascii.
From stdpp Require Export base gmap sets list strings fin_maps.

(** ** Errors

    [errno] is the operating-system error a host call reports; only the codes
    the program produces or tests for are named. *)

Inductive errno :=
  | EPERM | ENOENT | EIO | EEXIST | EXDEV | ENOTDIR | EISDIR | EINVAL | ENOTTY
  | EBUSY | EADDRINUSE | ECONNREFUSED | EFBIG | ENOSPC | EROFS | ENOTEMPTY | ELOOP | ESTALE | ENOSYS | EILSEQ.

#[export] Instance errno_eq_dec : EqDecision errno.
Proof. solve_decision. Defined.

(** [BranchError] of error.rs.  The payload of [Io] is the raw OS error. *)
Inductive BranchError :=
  | NotFound (s : string)
  | MountNotFound (s : string)
  | AlreadyExists (s : string)
  | Invalid (s : string)
  | ParentNotFound (s : string)
  | CannotOperateOnMain
  | NotALeaf (s : string)
  | Conflict (s : string)
  | Io (e : errno)
  | Json (s : string)
  | Nix (e : errno).

(** How a call can fail to return: the error it propagates with [?], a Rust
    panic (slice out of range, arithmetic check), or - in the model only - an
    exhausted recursion budget.  The last one is proved unreachable wherever
    the program terminates. *)
Inductive exn :=
  | Throw (e : BranchError)
  | Panic
  | OutOfFuel.

(** ** The state-and-error monad

    Effects made before an error stay made, exactly as in the source. *)

Inductive res (E A : Type) :=
  | Ok (a : A)
  | Err (e : E).
Arguments Ok {E A} a.
Arguments Err {E A} e.

Definition is_ok {E A} (r : res E A) : bool := match r with Ok _ => true | Err _ => false end.
Definition ok {E A} (r : res E A) : option A := match r with Ok a => Some a | Err _ => None end.

Definition M (S A : Type) : Type := S -> res exn A * S.

Definition ret {S A} (a : A) : M S A := fun s => (Ok a, s).
Definition raise {S A} (x : exn) : M S A := fun s => (Err x, s).
Definition throw {S A} (e : BranchError) : M S A := raise (Throw e).
Definition bind {S A B} (c : M S A) (k : A -> M S B) : M S B :=
  fun s => match c s with
           | (Ok a, s') => k a s'
           | (Err x, s') => (Err x, s')
           end.
Definition gets {S A} (f : S -> A) : M S A := fun s => (Ok (f s), s).
Definition modify {S} (f : S -> S) : M S unit := fun s => (Ok tt, f s).

(** [attempt c] is a call whose [Result] the caller inspects or drops; a panic
    goes through. *)
Definition attempt {S A} (c : M S A) : M S (res BranchError A) :=
  fun s => match c s with
           | (Ok a, s') => (Ok (Ok a), s')
           | (Err (Throw e), s') => (Ok (Err e), s')
           | (Err x, s') => (Err x, s')
           end.

Definition of_res {S A} (r : res BranchError A) : M S A :=
  match r with Ok a => ret a | Err e => throw e end.

Declare Scope prog_scope.
Delimit Scope prog_scope with prog.
Notation "'let*' x ':=' c 'in' k" := (bind c (fun x => k))
  (at level 10, x pattern, c at level 100, k at level 200,
   format "'let*'  x  ':='  c  'in' '//' k") : prog_scope.
Notation "'do*' c ';' k" := (bind c (fun _ => k))
  (at level 10, c at level 100, k at level 200,
   format "'do*'  c ';' '//' k") : prog_scope.
Open Scope prog_scope.

(** A [for] loop over a list whose body may return early with [?]. *)
Fixpoint for_each {S A} (l : list A) (f : A -> M S unit) : M S unit :=
  match l with
  | [] => ret tt
  | a :: l' => do* f a; for_each l' f
  end.

Fixpoint fold_m {S A B} (f : B -> A -> M S B) (b : B) (l : list A) : M S B :=
  match l with
  | [] => ret b
  | a :: l' => let* b' := f b a in fold_m f b' l'
  end.

Definition when {S} (b : bool) (c : M S unit) : M S unit := if b then c else ret tt.

(** ** Lemmas of the monad *)

Ltac unfold_m := unfold bind, ret, throw, raise, gets, modify, attempt in *.

Section Monad.
Context {S : Type}.

Lemma bind_ok {A B} (c : M S A) (k : A -> M S B) s b s' :
  bind c k s = (Ok b, s') ->
  exists a s1, c s = (Ok a, s1) /\ k a s1 = (Ok b, s').
Proof. unfold bind. destruct (c s) as [[a|e] s1]; naive_solver. Qed.

Lemma bind_step {A B} (c : M S A) (k : A -> M S B) s a s1 :
  c s = (Ok a, s1) -> bind c k s = k a s1.
Proof. unfold bind. by intros ->. Qed.

Lemma bind_fail {A B} (c : M S A) (k : A -> M S B) s x s1 :
  c s = (Err x, s1) -> bind c k s = (Err x, s1).
Proof. unfold bind. by intros ->. Qed.

Lemma bind_assoc {A B C} (c : M S A) (k : A -> M S B) (k' : B -> M S C) s :
  bind (bind c k) k' s = bind c (fun a => bind (k a) k') s.
Proof. unfold bind. by destruct (c s) as [[a|e] s1]. Qed.

Lemma run_ok {A} (c : M S A) s a : (c s).1 = Ok a -> c s = (Ok a, (c s).2).
Proof. destruct (c s) as [r s1]. simpl. by intros ->. Qed.
Lemma run_err {A} (c : M S A) s x : (c s).1 = Err x -> c s = (Err x, (c s).2).
Proof. destruct (c s) as [r s1]. simpl. by intros ->. Qed.

Lemma attempt_ok {A} (c : M S A) s r s' :
  attempt c s = (Ok r, s') ->
  (exists a, r = Ok a /\ c s = (Ok a, s')) \/ (exists e, r = Err e /\ c s = (Err (Throw e), s')).
Proof. unfold attempt. destruct (c s) as [[a|[]] s1]; naive_solver. Qed.
End Monad.

Ltac inv_ok H :=
  let a := fresh "a" in let s1 := fresh "s" in
  let H1 := fresh "H" in let H2 := fresh "H" in
  apply bind_ok in H as (a & s1 & H1 & H2).

(** Weakest preconditions: [wp c Φ s] says that running [c] from [s] ends with a
    result and state in [Φ].  Proofs about a call walk through it with
    [wp_steps], which takes the calls one at a time and splits on its tests. *)
Definition wp {S A} (c : M S A) (Φ : res exn A -> S -> Prop) (s : S) : Prop := Φ (c s).1 (c s).2.

Section Wp.
Context {S : Type}.

Lemma wp_ret {A} (a : A) Φ (s : S) : Φ (Ok a) s -> wp (ret a) Φ s.
Proof. done. Qed.
Lemma wp_raise {A} x (Φ : res exn A -> S -> Prop) s : Φ (Err x) s -> wp (raise x) Φ s.
Proof. done. Qed.
Lemma wp_throw {A} e (Φ : res exn A -> S -> Prop) s : Φ (Err (Throw e)) s -> wp (throw e) Φ s.
Proof. done. Qed.
Lemma wp_gets {A} (f : S -> A) Φ s : Φ (Ok (f s)) s -> wp (gets f) Φ s.
Proof. done. Qed.
Lemma wp_modify (f : S -> S) Φ s : Φ (Ok tt) (f s) -> wp (modify f) Φ s.
Proof. done. Qed.
Lemma wp_bind {A B} (c : M S A) (k : A -> M S B) Φ s :
  wp c (fun r s' => match r with Ok a => wp (k a) Φ s' | Err x => Φ (Err x) s' end) s ->
  wp (bind c k) Φ s.
Proof. unfold wp, bind. by destruct (c s) as [[a|x] s1]. Qed.
Lemma wp_attempt {A} (c : M S A) Φ s :
  wp c (fun r s' => match r with
                    | Ok a => Φ (Ok (Ok a)) s'
                    | Err (Throw e) => Φ (Ok (Err e)) s'
                    | Err x => Φ (Err x) s'
                    end) s ->
  wp (attempt c) Φ s.
Proof. unfold wp, attempt. by destruct (c s) as [[a|[]] s1]. Qed.
Lemma wp_of_res {A} (r : res BranchError A) Φ (s : S) :
  Φ (match r with Ok a => Ok a | Err e => Err (Throw e) end) s -> wp (of_res r) Φ s.
Proof. by destruct r. Qed.
Lemma wp_mono {A} (c : M S A) (Φ Ψ : res exn A -> S -> Prop) s :
  wp c Φ s -> (forall r s', Φ r s' -> Ψ r s') -> wp c Ψ s.
Proof. unfold wp. auto. Qed.
Lemma wp_run {A} (c : M S A) Φ s : wp c Φ s -> forall r s', c s = (r, s') -> Φ r s'.
Proof. unfold wp. intros H r s' Hc. by rewrite Hc in H. Qed.
Lemma wp_intro {A} (c : M S A) (Φ : res exn A -> S -> Prop) s :
  (forall r s', c s = (r, s') -> Φ r s') -> wp c Φ s.
Proof. unfold wp. intros H. apply H. by destruct (c s). Qed.
End Wp.

Ltac wp_step :=
  lazymatch goal with
  | |- wp (bind _ _) _ _ => apply wp_bind
  | |- wp (ret _) _ _ => apply wp_ret
  | |- wp (raise _) _ _ => apply wp_raise
  | |- wp (throw _) _ _ => apply wp_throw
  | |- wp (gets _) _ _ => apply wp_gets
  | |- wp (modify _) _ _ => apply wp_modify
  | |- wp (attempt _) _ _ => apply wp_attempt
  | |- wp (of_res _) _ _ => apply wp_of_res
  | |- wp (if ?b then _ else _) _ _ => destruct b eqn:?
  | |- wp (match ?x with _ => _ end) _ _ => destruct x eqn:?
  | |- (let '(_, _) := ?x in _) => destruct x eqn:?
  end; cbn beta iota.
(** Boolean tests of the code as propositions. *)
Ltac bool_hyps :=
  repeat match goal with
  | H : bool_decide _ = true |- _ => apply bool_decide_eq_true in H
  | H : bool_decide _ = false |- _ => apply bool_decide_eq_false in H
  | H : negb _ = true |- _ => apply negb_true_iff in H
  | H : negb _ = false |- _ => apply negb_false_iff in H
  | H : (_ && _)%bool = true |- _ => apply andb_true_iff in H as [? ?]
  | H : (_ || _)%bool = false |- _ => apply orb_false_iff in H as [? ?]
  end.

Ltac wp_steps := cbn beta iota; repeat wp_step.

(** A relation between states kept by every step is kept by a computation,
    whether it returns or fails.  [R] is reflexive and transitive in every
    use: "only changes below a directory", "keeps the branch name", ... *)
Definition keeps {S} (R : relation S) {A} (c : M S A) : Prop := forall s, R s (c s).2.

Lemma keeps_wp {S} (R : relation S) {A} (c : M S A) :
  (forall s, wp c (fun _ s' => R s s') s) -> keeps R c.
Proof. intros H s. apply H. Qed.

Lemma wp_keeps {S} (R : relation S) {A} (c : M S A) (Φ : res exn A -> S -> Prop) s :
  keeps R c -> (forall r s', R s s' -> Φ r s') -> wp c Φ s.
Proof. intros H HΦ. apply HΦ, H. Qed.

Lemma wp_rel {S} (R : relation S) {A} (c : M S A) (Φ : res exn A -> S -> Prop) s :
  R s (c s).2 -> (forall r s', R s s' -> Φ r s') -> wp c Φ s.
Proof. intros H HΦ. by apply HΦ. Qed.

Section Keeps.
Context {S : Type} (R : relation S) `{!PreOrder R}.

Lemma keeps_ret {A} (a : A) : keeps R (ret a).
Proof. intros s. by simpl. Qed.
Lemma keeps_raise {A} (x : exn) : keeps R (A:=A) (raise x).
Proof. intros s. by simpl. Qed.
Lemma keeps_throw {A} (e : BranchError) : keeps R (A:=A) (throw e).
Proof. intros s. by simpl. Qed.
Lemma keeps_gets {A} (f : S -> A) : keeps R (gets f).
Proof. intros s. by simpl. Qed.
Lemma keeps_of_res {A} (r : res BranchError A) : keeps R (of_res r).
Proof. intros s. by destruct r. Qed.
Lemma keeps_modify (f : S -> S) : (forall s, R s (f s)) -> keeps R (modify f).
Proof. intros H s. apply H. Qed.
Lemma keeps_bind {A B} (c : M S A) (k : A -> M S B) :
  keeps R c -> (forall a, keeps R (k a)) -> keeps R (bind c k).
Proof.
  intros Hc Hk s. unfold bind. specialize (Hc s).
  destruct (c s) as [[a|e] s1]; simpl in *; [|done].
  transitivity s1; [done|apply Hk].
Qed.
Lemma keeps_attempt {A} (c : M S A) : keeps R c -> keeps R (attempt c).
Proof. intros Hc s. unfold attempt. specialize (Hc s). by destruct (c s) as [[a|[]] s1]. Qed.
Lemma keeps_when b c : keeps R c -> keeps R (when b c).
Proof. intros Hc. destruct b; [done|apply keeps_ret]. Qed.
Lemma keeps_for_each {A} (l : list A) (f : A -> M S unit) :
  (forall a, a ∈ l -> keeps R (f a)) -> keeps R (for_each l f).
Proof.
  intros Hf. induction l; simpl; [apply keeps_ret|].
  apply keeps_bind; [apply Hf; left|intros _; apply IHl; intros; apply Hf; by right].
Qed.
Lemma keeps_fold_m {A B} (f : B -> A -> M S B) b (l : list A) :
  (forall b a, keeps R (f b a)) -> keeps R (fold_m f b l).
Proof.
  intros Hf. revert b. induction l; intros b; simpl; [apply keeps_ret|].
  apply keeps_bind; [apply Hf|done].
Qed.
End Keeps.

Create HintDb keeps discriminated.
Ltac keeps_step :=
  lazymatch goal with
  | |- keeps ?R (bind _ _) => apply (keeps_bind R); [|intros ?]
  | |- keeps ?R (attempt _) => apply (keeps_attempt R)
  | |- keeps ?R (when _ _) => apply (keeps_when R)
  | |- keeps ?R (for_each _ _) => apply (keeps_for_each R); intros ? ?
  | |- keeps ?R (fold_m _ _ _) => apply (keeps_fold_m R); intros ? ?
  | |- keeps ?R (ret _) => apply (keeps_ret R)
  | |- keeps ?R (raise _) => apply (keeps_raise R)
  | |- keeps ?R (throw _) => apply (keeps_throw R)
  | |- keeps ?R (gets _) => apply (keeps_gets R)
  | |- keeps ?R (of_res _) => apply (keeps_of_res R)
  | |- keeps _ (match ?x with _ => _ end) => destruct x
  | |- keeps _ _ => solve [eauto 2 with keeps typeclass_instances]
  end; cbn beta iota.
Ltac keeps_auto := cbn beta iota; repeat keeps_step.

(** ** Machine integers *)

Definition u64_max : Z := 2 ^ 64 - 1.
Definition wrap_u64 (z : Z) : Z := z mod 2 ^ 64.
Definition wrap_i64 (z : Z) : Z := (z + 2 ^ 63) mod 2 ^ 64 - 2 ^ 63.

Lemma wrap_u64_small z : (0 <= z < 2 ^ 64)%Z -> wrap_u64 z = z.
Proof. intros. unfold wrap_u64. by apply Z.mod_small. Qed.

Lemma wrap_i64_small z : (- 2 ^ 63 <= z < 2 ^ 63)%Z -> wrap_i64 z = z.
Proof. intros. unfold wrap_i64. rewrite Z.mod_small; lia. Qed.

Lemma wrap_i64_range z : (- 2 ^ 63 <= wrap_i64 z < 2 ^ 63)%Z.
Proof.
  unfold wrap_i64. pose proof (Z.mod_pos_bound (z + 2 ^ 63) (2 ^ 64)). lia.
Qed.

Lemma wrap_u64_range z : (0 <= wrap_u64 z < 2 ^ 64)%Z.
Proof. unfold wrap_u64. apply Z.mod_pos_bound. lia. Qed.

(** ** Bytes *)

(** File contents and strings are byte sequences; a Rust [str] is one that is
    valid UTF-8. *)
Abbreviation bytes := (list ascii).

Definition bytes_of (s : string) : bytes := String.list_ascii_of_string s.
Definition string_of (b : bytes) : string := String.string_of_list_ascii b.

Lemma string_of_bytes_of s : string_of (bytes_of s) = s.
Proof. apply String.string_of_list_ascii_of_string. Qed.
Lemma string_of_app a b : string_of (a ++ b) = String.append (string_of a) (string_of b).
Proof. induction a as [|x a IH]; [reflexivity|]. exact (f_equal (String.String x) IH). Qed.
Lemma bytes_of_string_of b : bytes_of (string_of b) = b.
Proof. apply String.list_ascii_of_string_of_list_ascii. Qed.

#[export] Instance bytes_of_inj : Inj (=) (=) bytes_of.
Proof. intros a b H. by rewrite <- (string_of_bytes_of a), H, string_of_bytes_of. Qed.

#[global] Arguments String.append !_ _ / : simpl nomatch.

#[export] Instance ascii_eq_dec' : EqDecision ascii := Ascii.ascii_dec.

Lemma bytes_of_cons c s : bytes_of (String c s) = c :: bytes_of s.
Proof. done. Qed.

Lemma bytes_of_app s t : bytes_of (s +:+ t) = bytes_of s ++ bytes_of t.
Proof. induction s as [|c s IH]; [done|].
  change (String c s +:+ t) with (String c (s +:+ t)). by rewrite !bytes_of_cons, IH.
Qed.
