(* ===== verification/Strs.v ===== *)
(** * Strings and relative paths

    The string functions of Rust's [str] the program uses, and the path
    helpers of branch.rs and fs_path.rs that work on relative paths kept as
    strings ("/a/b").  Strings are byte strings; every name is assumed to be
    valid UTF-8, so [to_string_lossy] is the identity. *)

From S2P Require Import Prelude.

Open Scope bool_scope.

(** ** Functions of [str] *)

Definition slash : ascii := "/"%char.

Fixpoint contains_char (c : ascii) (s : string) : bool :=
  match s with
  | EmptyString => false
  | String a s' => bool_decide (a = c) || contains_char c s'
  end.

Fixpoint split_on (c : ascii) (s : string) : list string :=
  match s with
  | EmptyString => [""]
  | String a s' =>
      if bool_decide (a = c) then "" :: split_on c s'
      else match split_on c s' with
           | [] => [String a ""]
           | h :: t => String a h :: t
           end
  end.

Fixpoint strip_prefix (p s : string) : option string :=
  match p, s with
  | EmptyString, _ => Some s
  | String a p', String b s' => if bool_decide (a = b) then strip_prefix p' s' else None
  | String _ _, EmptyString => None
  end.

Definition starts_with (p s : string) : bool := bool_decide (is_Some (strip_prefix p s)).

Fixpoint trim_start_by (f : ascii -> bool) (s : string) : string :=
  match s with
  | EmptyString => ""
  | String a s' => if f a then trim_start_by f s' else s
  end.

Fixpoint trim_end_by (f : ascii -> bool) (s : string) : string :=
  match s with
  | EmptyString => ""
  | String a s' =>
      match trim_end_by f s' with
      | EmptyString => if f a then "" else String a ""
      | t => String a t
      end
  end.

Definition is_slash (a : ascii) : bool := bool_decide (a = slash).
(** [char::is_whitespace], by the bytes the character has in UTF-8: one, two or
    three of them. *)
Definition is_ws (a : ascii) : bool :=
  let n := Ascii.nat_of_ascii a in
  bool_decide (9 <= n <= 13) || bool_decide (n = 32).
Definition is_ws2 (a b : ascii) : bool :=
  let m := Ascii.nat_of_ascii b in
  bool_decide (Ascii.nat_of_ascii a = 194) && (bool_decide (m = 133) || bool_decide (m = 160)).
Definition is_ws3 (a b c : ascii) : bool :=
  let n := Ascii.nat_of_ascii a in
  let m := Ascii.nat_of_ascii b in
  let k := Ascii.nat_of_ascii c in
  (bool_decide (n = 225) && bool_decide (m = 154) && bool_decide (k = 128))
  || (bool_decide (n = 226) && bool_decide (m = 128)
      && (bool_decide (128 <= k <= 138) || bool_decide (k = 168) || bool_decide (k = 169) || bool_decide (k = 175)))
  || (bool_decide (n = 226) && bool_decide (m = 129) && bool_decide (k = 159))
  || (bool_decide (n = 227) && bool_decide (m = 128) && bool_decide (k = 128)).

(** White space, and single bytes that pass [f], taken off the start and the end. *)
Fixpoint trim_start_chars (f : ascii -> bool) (s : string) : string :=
  match s with
  | EmptyString => ""
  | String a s1 =>
      if f a then trim_start_chars f s1
      else match s1 with
           | EmptyString => s
           | String b s2 =>
               if is_ws2 a b then trim_start_chars f s2
               else match s2 with
                    | EmptyString => s
                    | String c s3 => if is_ws3 a b c then trim_start_chars f s3 else s
                    end
           end
  end.
Fixpoint trim_end_chars (f : ascii -> bool) (s : string) : string :=
  if bool_decide (trim_start_chars f s = "") then ""
  else match s with EmptyString => "" | String a s' => String a (trim_end_chars f s') end.

Definition trim_start_slash : string -> string := trim_start_by is_slash.
Definition trim_end_slash : string -> string := trim_end_by is_slash.
Definition trim_slashes (s : string) : string := trim_end_slash (trim_start_slash s).
(** [str::trim] *)
Definition trim (s : string) : string := trim_end_chars is_ws (trim_start_chars is_ws s).

Fixpoint join_with (sep : string) (l : list string) : string :=
  match l with
  | [] => ""
  | [x] => x
  | x :: l' => x +:+ sep +:+ join_with sep l'
  end.

(** [s.find(c)]: the text before the first [c] and the text from it on. *)
Fixpoint cut_at (c : ascii) (s : string) : option (string * string) :=
  match s with
  | EmptyString => None
  | String a s' =>
      if bool_decide (a = c) then Some ("", s)
      else match cut_at c s' with
           | Some (x, y) => Some (String a x, y)
           | None => None
           end
  end.

(** ** Host path components

    [Path::join] followed by a system call: the components of a relative path,
    empty and ["."] ones ignored.  [".."] is kept as a name: the kernel and
    [normalize_branch_rel_path] never let one through. *)
Abbreviation path := (list string).

Definition keep_comp (p : string) : bool := negb (bool_decide (p = "")) && negb (bool_decide (p = ".")).
Definition comps (s : string) : path := filter keep_comp (split_on slash s).

(** A directory entry name: what the kernel passes to the filesystem. *)
Definition name_ok (c : string) : bool :=
  keep_comp c && negb (bool_decide (c = "..")) && negb (contains_char slash c)
  && negb (contains_char Ascii.zero c).
Definition path_ok (p : path) : Prop := Forall (fun c => name_ok c = true) p.

(** The string of a relative path. *)
Fixpoint show_rel (p : path) : string :=
  match p with
  | [] => ""
  | c :: p' => "/" +:+ c +:+ show_rel p'
  end.
Definition show (p : path) : string :=
  match p with [] => "/" | _ => show_rel p end.

(** [format!("{}/{}", parent, name)] as every directory walk builds it. *)
Definition child_rel (rel name : string) : string :=
  if bool_decide (rel = "/") then "/" +:+ name else rel +:+ "/" +:+ name.

(** ** branch.rs path helpers *)

(** [normalize_branch_rel_path]: the components of [Path::components]. *)
Definition normalize_branch_rel_path (p : string) : res BranchError string :=
  if bool_decide (p = "") || contains_char Ascii.zero p then
    Err (Invalid "path cannot be empty or contain null bytes")
  else if existsb (fun c => bool_decide (c = "..")) (split_on slash p) then
    Err (Invalid ("path must stay inside the branch: " +:+ p))
  else
    let parts := comps p in
    match parts with
    | [] => Err (Invalid "cannot revert the branch root")
    | _ => Ok ("/" +:+ join_with "/" parts)
    end.

Definition path_is_same_or_descendant (candidate parent : string) : bool :=
  let candidate := trim_slashes candidate in
  let parent := trim_slashes parent in
  bool_decide (candidate = parent) || starts_with (parent +:+ "/") candidate.

Definition normalize_hide_path (p : string) : option string :=
  let trimmed := trim_end_slash (trim_start_slash (trim p)) in
  if bool_decide (trimmed = "") then None else Some ("/" +:+ trimmed).

(** The body of [Branch::is_hidden] over a branch's hide list. *)
Definition hidden_by (hide_paths : list string) (rel_path : string) : bool :=
  match hide_paths with
  | [] => false
  | _ =>
      match normalize_hide_path rel_path with
      | None => false
      | Some p => existsb (fun h => bool_decide (p = h) || starts_with (h +:+ "/") p) hide_paths
      end
  end.

(** The [scan] of [Branch::is_deleted]: it stops at the first empty part. *)
Fixpoint scan_ancestors (prefix : string) (parts : list string) : list string :=
  match parts with
  | [] => []
  | part :: parts' =>
      if bool_decide (part = "") then []
      else let prefix' := prefix +:+ "/" +:+ part in
           prefix' :: scan_ancestors prefix' parts'
  end.
Definition ancestors_of (p : string) : list string :=
  scan_ancestors "" (split_on slash (trim_start_slash p)).

(** The body of [Branch::is_deleted] over a tombstone set. *)
Definition deleted_by (tombstones : gset string) (p : string) : bool :=
  bool_decide (p ∈ tombstones)
  || existsb (fun a => bool_decide (a ∈ tombstones)) (ancestors_of p).

Definition validate_branch_name (name : string) : res BranchError unit :=
  if bool_decide (name = "") then Err (Invalid "branch name cannot be empty")
  else if bool_decide (name = ".") || bool_decide (name = "..") then
    Err (Invalid ("'" +:+ name +:+ "' is not a valid branch name"))
  else if contains_char slash name || contains_char Ascii.zero name then
    Err (Invalid "branch name cannot contain '/' or null bytes")
  else if starts_with "@" name then
    Err (Invalid "branch name cannot start with '@' (reserved for virtual paths)")
  else if bool_decide (255 < String.length name) then
    Err (Invalid "branch name cannot exceed 255 characters")
  else Ok tt.

(** ** fs_path.rs *)

Definition CTL_FILE : string := ".branchfs_ctl".

Inductive PathContext :=
  | BranchDir (branch : string)
  | BranchCtl (branch : string)
  | BranchPath (branch rel : string)
  | RootCtl
  | RootPath (rel : string).

Definition classify_path (p : string) : PathContext :=
  if bool_decide (p = "/") then RootPath "/"
  else match strip_prefix "/@" p with
       | Some rest =>
           match cut_at slash rest with
           | Some (branch, remainder) =>
               if bool_decide (remainder = "/" +:+ CTL_FILE) then BranchCtl branch
               else BranchPath branch remainder
           | None => BranchDir rest
           end
       | None => RootPath p
       end.

(** ** Lemmas on strings *)

Lemma app_nil_r_str s : s +:+ "" = s.
Proof. induction s as [|x s IH]; simpl; [done|by rewrite IH]. Qed.

Lemma app_assoc_str a b c : (a +:+ b) +:+ c = a +:+ b +:+ c.
Proof. induction a as [|x a IH]; simpl; [done|by rewrite IH]. Qed.

Lemma strip_prefix_Some p s r : strip_prefix p s = Some r <-> s = p +:+ r.
Proof.
  revert s; induction p as [|a p IH]; intros [|b s]; simpl.
  - split; congruence.
  - split; congruence.
  - split; [done|]. by intros ?%(f_equal String.length).
  - case_bool_decide; subst.
    + rewrite IH. split; congruence.
    + split; congruence.
Qed.

Lemma starts_with_spec p s : starts_with p s = true <-> exists r, s = p +:+ r.
Proof.
  unfold starts_with. rewrite bool_decide_eq_true. split.
  - intros [r H]. exists r. by apply strip_prefix_Some.
  - intros [r H]. exists r. by apply strip_prefix_Some.
Qed.

Lemma starts_with_false p s : starts_with p s = false <-> forall r, s <> p +:+ r.
Proof.
  rewrite <- not_true_iff_false, starts_with_spec.
  split; [intros H r Hr; apply H; by exists r|intros H [r Hr]; by apply (H r)].
Qed.

Lemma contains_char_app c a b :
  contains_char c (a +:+ b) = contains_char c a || contains_char c b.
Proof. induction a as [|x a IH]; simpl; [done|]. by rewrite IH, orb_assoc. Qed.

Lemma split_on_lacks c s : contains_char c s = false -> split_on c s = [s].
Proof.
  induction s as [|a s IH]; simpl; [done|]. rewrite orb_false_iff. intros [Ha Hs].
  by rewrite Ha, IH.
Qed.

Lemma split_on_app c a s :
  contains_char c a = false -> split_on c (a +:+ String c s) = a :: split_on c s.
Proof.
  induction a as [|x a IH]; simpl; intros H.
  - by rewrite bool_decide_true.
  - case_bool_decide; simplify_eq/=. by rewrite IH.
Qed.

Lemma cut_at_app c a s :
  contains_char c a = false -> cut_at c (a +:+ String c s) = Some (a, String c s).
Proof.
  induction a as [|x a IH]; simpl; intros H.
  - by rewrite bool_decide_true.
  - case_bool_decide; simplify_eq/=. by rewrite IH.
Qed.

Lemma cut_at_lacks c s : contains_char c s = false -> cut_at c s = None.
Proof.
  induction s as [|a s IH]; simpl; [done|]. rewrite orb_false_iff. intros [Ha Hs].
  by rewrite Ha, IH.
Qed.

(** A byte of ASCII that is no white space stops the trimming. *)
Definition solid (f : ascii -> bool) (a : ascii) : Prop := f a = false /\ Ascii.nat_of_ascii a < 128.
Lemma trim_start_solid f a s : solid f a -> trim_start_chars f (String a s) = String a s.
Proof.
  intros [Hf Ha]. cbn [trim_start_chars]. rewrite Hf. destruct s as [|b s]; [done|]. unfold is_ws2.
  rewrite bool_decide_false by lia. destruct s as [|c s]; [done|]. unfold is_ws3.
  by rewrite !(bool_decide_false (Ascii.nat_of_ascii a = _)) by lia.
Qed.
Lemma trim_end_solid f a s : solid f a -> trim_end_chars f (String a s) = String a (trim_end_chars f s).
Proof. intros Ha. cbn [trim_end_chars]. by rewrite (trim_start_solid f a s Ha), bool_decide_false. Qed.
Lemma trim_end_all f l : Forall (solid f) l -> trim_end_chars f (string_of l) = string_of l.
Proof. induction 1 as [|a l Ha _ IH]; [done|]. change (string_of (a :: l)) with (String a (string_of l)). by rewrite (trim_end_solid f a), IH. Qed.
Lemma trim_solid a s : solid is_ws a -> trim (String a s) = trim_end_chars is_ws (String a s).
Proof. intros Ha. unfold trim. by rewrite trim_start_solid. Qed.
Lemma solid_intro f a : f a = false -> (Ascii.nat_of_ascii a <? 128) = true -> solid f a.
Proof. intros Hf Ha. split; [done|by apply Nat.ltb_lt]. Qed.
Lemma trim_all l : Forall (solid is_ws) l -> trim (string_of l) = string_of l.
Proof.
  intros Hl. unfold trim. destruct l as [|a l]; [done|]. pose proof Hl as [Ha _]%Forall_cons.
  change (string_of (a :: l)) with (String a (string_of l)). rewrite (trim_start_solid is_ws a) by done. by apply (trim_end_all is_ws (a :: l)).
Qed.

Lemma trim_end_by_lacks f s a :
  f a = false -> trim_end_by f (s +:+ String a "") = s +:+ String a "".
Proof.
  intros Ha. induction s as [|x s IH]; simpl; [by rewrite Ha|]. rewrite IH.
  by destruct s.
Qed.

(** ** Entry names and relative paths *)

Lemma name_ok_spec c :
  name_ok c = true <->
  c <> "" /\ c <> "." /\ c <> ".." /\ contains_char slash c = false
  /\ contains_char Ascii.zero c = false.
Proof.
  unfold name_ok, keep_comp. rewrite !andb_true_iff, !negb_true_iff, !bool_decide_eq_false.
  tauto.
Qed.

Lemma name_ok_nonempty c : name_ok c = true -> c <> "".
Proof. rewrite name_ok_spec. tauto. Qed.
Lemma name_ok_no_slash c : name_ok c = true -> contains_char slash c = false.
Proof. rewrite name_ok_spec. tauto. Qed.
Lemma name_ok_keep c : name_ok c = true -> keep_comp c = true.
Proof. unfold name_ok. rewrite !andb_true_iff. tauto. Qed.
#[export] Hint Resolve name_ok_nonempty name_ok_no_slash name_ok_keep : core.

Lemma path_ok_cons c p : path_ok (c :: p) <-> name_ok c = true /\ path_ok p.
Proof. unfold path_ok. by rewrite Forall_cons. Qed.
Lemma path_ok_app p q : path_ok (p ++ q) <-> path_ok p /\ path_ok q.
Proof. unfold path_ok. by rewrite Forall_app. Qed.

Lemma path_ok_prefix p q : p `prefix_of` q -> path_ok q -> path_ok p.
Proof. intros [r ->]. rewrite path_ok_app. tauto. Qed.

Lemma split_show_tail c p :
  name_ok c = true -> path_ok p -> split_on slash (c +:+ show_rel p) = c :: p.
Proof.
  revert c; induction p as [|d p IH]; intros c Hc Hp; simpl.
  - rewrite app_nil_r_str. apply split_on_lacks; auto.
  - apply path_ok_cons in Hp as [Hd Hp]. rewrite split_on_app by auto. by rewrite IH.
Qed.

Lemma split_show_rel p : path_ok p -> p <> [] -> split_on slash (show_rel p) = "" :: p.
Proof.
  destruct p as [|c p]; [done|]. rewrite path_ok_cons. intros [Hc Hp] _.
  change (show_rel (c :: p)) with ("" +:+ String slash (c +:+ show_rel p)).
  rewrite split_on_app by done. by rewrite split_show_tail.
Qed.

Lemma comps_show_rel p : path_ok p -> comps (show_rel p) = p.
Proof.
  intros Hp. unfold comps. destruct (decide (p = [])) as [->|Hne]; [done|].
  rewrite split_show_rel by done. rewrite filter_cons_False by (unfold keep_comp; naive_solver).
  induction p as [|c p IH]; [done|]. apply path_ok_cons in Hp as [Hc Hp].
  rewrite filter_cons_True by (rewrite name_ok_keep; done).
  destruct p; [done|]. rewrite IH; done.
Qed.

Lemma comps_show p : path_ok p -> comps (show p) = p.
Proof. destruct p; [done|]. apply comps_show_rel. Qed.

Lemma show_rel_inj p q : path_ok p -> path_ok q -> show_rel p = show_rel q -> p = q.
Proof. intros Hp Hq H. rewrite <- (comps_show_rel p), H, comps_show_rel; done. Qed.

Lemma show_rel_app p q : show_rel (p ++ q) = show_rel p +:+ show_rel q.
Proof. induction p; simpl; [done|]. by rewrite IHp, app_assoc_str. Qed.

Lemma child_rel_show p c : path_ok p -> name_ok c = true -> child_rel (show p) c = show_rel (p ++ [c]).
Proof.
  intros Hp Hc. unfold child_rel, show. destruct p as [|d p].
  - rewrite bool_decide_true by done. simpl. by rewrite app_nil_r_str.
  - rewrite bool_decide_false.
    + rewrite show_rel_app. simpl. by rewrite app_nil_r_str.
    + simpl. intros [= H]. apply path_ok_cons in Hp as [Hd _].
      apply name_ok_nonempty in Hd. by destruct d.
Qed.

Lemma trim_start_nonslash a s : a <> slash -> trim_start_slash (String a s) = String a s.
Proof. intros H. unfold trim_start_slash. simpl. unfold is_slash. by rewrite bool_decide_false. Qed.

Lemma name_ok_cons c : name_ok c = true -> exists a c', c = String a c' /\ a <> slash.
Proof.
  intros H. apply name_ok_spec in H. destruct c as [|a c']; [by destruct H as [? _]|].
  exists a, c'. split; [done|]. intros ->. by destruct H as (_&_&_&H&_).
Qed.

Lemma trim_start_show_rel c p :
  name_ok c = true -> trim_start_slash (show_rel (c :: p)) = c +:+ show_rel p.
Proof.
  intros Hc. simpl. unfold trim_start_slash. simpl.
  destruct (name_ok_cons c Hc) as (a & c' & -> & Ha). by apply trim_start_nonslash.
Qed.

(** The nonempty prefixes of a path, shortest first: its ancestors and itself. *)
Fixpoint prefixes (p : path) : list path :=
  match p with
  | [] => []
  | c :: p' => [c] :: map (cons c) (prefixes p')
  end.

Lemma elem_of_prefixes q p : q ∈ prefixes p <-> q <> [] /\ q `prefix_of` p.
Proof.
  revert q; induction p as [|c p IH]; intros q; simpl.
  - rewrite elem_of_nil. split; [done|]. intros [Hq Hp]. by apply prefix_nil_inv in Hp.
  - rewrite elem_of_cons, list_elem_of_fmap. setoid_rewrite IH. split.
    + intros [->|(y & -> & Hy & Hp)].
      * split; [done|]. apply prefix_cons, prefix_nil.
      * split; [done|]. by apply prefix_cons.
    + intros [Hq Hp]. destruct q as [|d q]; [done|].
      pose proof (prefix_cons_inv_1 _ _ _ _ Hp) as ->. apply prefix_cons_inv_2 in Hp.
      destruct q as [|e q]; [by left|]. right. by exists (e :: q).
Qed.

Lemma scan_ancestors_show pre p :
  path_ok p -> scan_ancestors pre p = map (fun q => pre +:+ show_rel q) (prefixes p).
Proof.
  revert pre; induction p as [|c p IH]; intros pre; [done|].
  rewrite path_ok_cons. intros [Hc Hp]. simpl. rewrite bool_decide_false by auto.
  rewrite IH by done. f_equal.
  - by rewrite app_nil_r_str.
  - rewrite map_map. apply map_ext. intros q. simpl. by rewrite app_assoc_str.
Qed.

Lemma ancestors_of_show p :
  path_ok p -> ancestors_of (show_rel p) = map show_rel (prefixes p).
Proof.
  intros Hp. unfold ancestors_of. destruct p as [|c p]; [done|].
  apply path_ok_cons in Hp as Hp'. destruct Hp' as [Hc Hp'].
  rewrite trim_start_show_rel, split_show_tail by done.
  rewrite scan_ancestors_show by done. done.
Qed.

(** [Branch::is_deleted] decides: the path or one of its ancestors carries a
    tombstone. *)
Lemma deleted_by_spec T p :
  path_ok p -> p <> [] ->
  deleted_by T (show_rel p) = true <-> exists q, q <> [] /\ q `prefix_of` p /\ show_rel q ∈ T.
Proof.
  intros Hp Hne. unfold deleted_by. rewrite orb_true_iff, bool_decide_eq_true, existsb_exists.
  rewrite ancestors_of_show by done. split.
  - intros [H|(a & Ha & H)].
    + by exists p.
    + apply bool_decide_eq_true in H. apply list_elem_of_In, list_elem_of_fmap in Ha as (q & -> & Hq).
      apply elem_of_prefixes in Hq as [? ?]. by exists q.
  - intros (q & Hq & Hpre & HT). right. exists (show_rel q). split.
    + apply list_elem_of_In, list_elem_of_fmap. exists q. by rewrite elem_of_prefixes.
    + by apply bool_decide_eq_true.
Qed.

Lemma deleted_by_app T p q :
  path_ok (p ++ q) -> p <> [] -> deleted_by T (show_rel p) = true -> deleted_by T (show_rel (p ++ q)) = true.
Proof.
  intros Hpq Hne. pose proof Hpq as [Hp _]%path_ok_app.
  rewrite !deleted_by_spec; [|done|destruct p; done|done|done].
  intros (r & ? & ? & ?). exists r. split_and!; [done|by apply prefix_app_r|done].
Qed.

(** ** Prefix tests on shown paths *)

Lemma cut_component c d X Y :
  contains_char slash c = false -> contains_char slash d = false ->
  (Y = "" \/ exists Y', Y = String slash Y') ->
  d +:+ Y = c +:+ String slash X -> d = c /\ Y = String slash X.
Proof.
  revert d; induction c as [|a c IH]; intros [|b d] Hc Hd HY H; simpl in *.
  - done.
  - by injection H as -> _.
  - destruct HY as [->|[Y' ->]]; [done|]. by injection H as <- _.
  - injection H as -> H. apply orb_false_iff in Hc as [_ Hc], Hd as [_ Hd].
    destruct (IH d Hc Hd HY H) as [-> ->]. done.
Qed.

Lemma show_rel_slash p : show_rel p = "" \/ exists Y, show_rel p = String slash Y.
Proof. destruct p; [by left|right]. simpl. eauto. Qed.

Lemma show_prefix_slash a b r :
  path_ok a -> path_ok b -> show_rel a = show_rel b +:+ String slash r ->
  exists c s, a = b ++ c :: s.
Proof.
  revert a; induction b as [|c b IH]; intros [|d a] Ha Hb H; try done.
  - by exists d, a.
  - apply path_ok_cons in Ha as [Hd Ha], Hb as [Hc Hb].
    simpl in H. injection H as H. rewrite app_assoc_str in H.
    assert (exists X, show_rel b +:+ String slash r = String slash X) as [X HX].
    { destruct (show_rel_slash b) as [->|[Y ->]]; simpl; eauto. }
    rewrite HX in H. apply cut_component in H as [-> H]; [|auto|auto|apply show_rel_slash].
    rewrite <- HX in H. destruct (IH a Ha Hb H) as (e & s & ->). by exists e, s.
Qed.

Lemma starts_with_show_slash a b :
  path_ok a -> path_ok b ->
  starts_with (show_rel b +:+ "/") (show_rel a) = true <-> b `prefix_of` a /\ a <> b.
Proof.
  intros Ha Hb. rewrite starts_with_spec. split.
  - intros [r H]. rewrite app_assoc_str in H. simpl in H.
    destruct (show_prefix_slash a b r Ha Hb H) as (c & s & ->).
    split; [by eexists|]. intros He%(f_equal length). rewrite length_app in He. simpl in He. lia.
  - intros [[[|c s] ->] Hne]; [by rewrite app_nil_r in Hne|].
    exists (c +:+ show_rel s). rewrite show_rel_app, app_assoc_str. done.
Qed.

Lemma trim_end_show_rel p c : path_ok (p ++ [c]) -> trim_end_slash (show_rel (p ++ [c])) = show_rel (p ++ [c]).
Proof.
  intros [Hp Hc]%path_ok_app. apply Forall_cons in Hc as [Hc _].
  assert (show_rel (p ++ [c]) = (show_rel p +:+ "/") +:+ c) as ->.
  { rewrite show_rel_app, app_assoc_str. simpl. by rewrite app_nil_r_str. }
  generalize (show_rel p +:+ "/"). intros s.
  assert (exists c' a, c = c' +:+ String a "" /\ a <> slash) as (c' & a & -> & Ha).
  { apply name_ok_spec in Hc as (Hne & _ & _ & Hs & _). induction c as [|x c IH]; [done|].
    simpl in Hs. apply orb_false_iff in Hs as [Hx Hs]. bool_hyps. destruct c as [|y c].
    - by exists "", x.
    - destruct IH as (c' & a & Heq & Ha); [done..|]. exists (String x c'), a. simpl. by rewrite Heq. }
  rewrite <- !app_assoc_str. apply trim_end_by_lacks. by apply bool_decide_eq_false.
Qed.


(** ** Hide rules *)

(** A path whose last name does not end in white space; [trim] leaves it. *)
Definition tidy (p : path) : Prop := trim (show_rel p) = show_rel p.

Lemma normalize_hide_show p :
  path_ok p -> p <> [] -> tidy p -> normalize_hide_path (show_rel p) = Some (show_rel p).
Proof.
  intros Hp Hne Ht. unfold normalize_hide_path. rewrite Ht.
  destruct p as [|c p]; [done|]. apply path_ok_cons in Hp as Hp'. destruct Hp' as [Hc Hp'].
  rewrite trim_start_show_rel by done.
  assert (trim_end_slash (c +:+ show_rel p) = c +:+ show_rel p) as ->.
  { destruct (exists_last (l := c :: p)) as (q & d & Heq); [done|].
    pose proof (trim_end_show_rel q d) as H. rewrite <- Heq in H. specialize (H Hp).
    simpl in H. unfold trim_end_slash in *. simpl in H.
    destruct (trim_end_by is_slash (c +:+ show_rel p)); [done|by injection H]. }
  rewrite bool_decide_false; [done|]. destruct (name_ok_cons c Hc) as (a & c' & -> & _). done.
Qed.

(** What is below a hidden path is hidden. *)
Lemma hidden_by_app hs p z :
  path_ok (p ++ z) -> p <> [] -> tidy p -> tidy (p ++ z) ->
  hidden_by hs (show_rel p) = true -> hidden_by hs (show_rel (p ++ z)) = true.
Proof.
  intros Hpz Hne Hp Hz. pose proof Hpz as [Hok _]%path_ok_app. unfold hidden_by. destruct hs as [|h hs]; [done|].
  rewrite !normalize_hide_show; [|done|by destruct p|done..]. generalize (h :: hs). clear h hs. intros hs.
  rewrite !existsb_exists. intros (h & Hin & Hh). exists h. split; [done|]. rewrite show_rel_app.
  apply orb_true_iff in Hh as [Hh|Hh].
  - apply bool_decide_eq_true in Hh as <-. destruct z as [|c z].
    + rewrite app_nil_r_str. by rewrite bool_decide_true.
    + apply orb_true_iff. right. apply starts_with_spec. exists (c +:+ show_rel z).
      change (show_rel (c :: z)) with ("/" +:+ (c +:+ show_rel z)). by rewrite app_assoc_str.
  - apply orb_true_iff. right. apply starts_with_spec in Hh as [r ->]. apply starts_with_spec.
    exists (r +:+ show_rel z). by rewrite app_assoc_str.
Qed.

(** A path above another, or equal to it: what a hide rule and a tombstone
    compare. *)
Lemma same_or_below p q :
  path_ok p -> path_ok q ->
  bool_decide (show_rel p = show_rel q) || starts_with (show_rel q +:+ "/") (show_rel p) = true
  <-> q `prefix_of` p.
Proof.
  intros Hp Hq. rewrite orb_true_iff, bool_decide_eq_true, starts_with_show_slash by done. split.
  - intros [H|[H _]]; [|done]. by apply show_rel_inj in H as ->.
  - intros H. destruct (decide (p = q)) as [->|]; [by left|by right].
Qed.

(** The hide rules given for the paths [hides] mask a path exactly when one
    of [hides] is the path itself or a directory above it: nothing below a
    hidden directory escapes, and no sibling whose name merely begins with the
    hidden one ("/.env" and "/.envrc") is caught. *)
Theorem hide_rules_mask_subtrees hides p :
  Forall (fun q => path_ok q /\ q <> [] /\ tidy q) hides -> path_ok p -> p <> [] -> tidy p ->
  hidden_by (omap normalize_hide_path (map show_rel hides)) (show_rel p) = true
  <-> exists q, q ∈ hides /\ q `prefix_of` p.
Proof.
  intros Hh Hp Hne Ht.
  assert (omap normalize_hide_path (map show_rel hides) = map show_rel hides) as ->.
  { induction Hh as [|q hides (H1 & H2 & H3) _ IH]; [done|]. simpl. rewrite normalize_hide_show by done. by f_equal. }
  unfold hidden_by. destruct hides as [|q0 hides]; [split; [done|]; by intros (q & Hq%not_elem_of_nil & _)|].
  rewrite normalize_hide_show by done. cbn [map]. cbn iota.
  change (show_rel q0 :: map show_rel hides) with (map show_rel (q0 :: hides)).
  rewrite existsb_exists. split.
  - intros (x & Hx & Hb). apply list_elem_of_In, list_elem_of_fmap in Hx as (q & -> & Hq).
    exists q. split; [done|]. rewrite Forall_forall in Hh. by apply same_or_below; [|apply Hh|].
  - intros (q & Hq & Hpre). exists (show_rel q). split.
    + apply list_elem_of_In, list_elem_of_fmap. eauto.
    + rewrite Forall_forall in Hh. apply same_or_below; [done|by apply Hh|done].
Qed.

Lemma hide_rules_mask_subtrees_witness :
  hidden_by (omap normalize_hide_path (map show_rel [["etc"]; [".env"]])) (show_rel ["etc"; "key"]) = true
  <-> exists q, q ∈ [["etc"]; [".env"]] /\ q `prefix_of` ["etc"; "key"].
Proof.
  apply hide_rules_mask_subtrees; [|by repeat constructor|done|reflexivity].
  repeat constructor; done.
Defined.

(** ** Paths given to revert *)

Lemma split_on_parts c d s :
  contains_char d s = false -> Forall (fun x => contains_char c x = false /\ contains_char d x = false) (split_on c s).
Proof.
  induction s as [|a s IH]; simpl; [by repeat constructor|]. rewrite orb_false_iff. intros [Ha Hs].
  specialize (IH Hs). destruct (bool_decide (a = c)) eqn:Hac; [by constructor|].
  destruct (split_on c s) as [|x l]; [repeat constructor; simpl; by rewrite ?Hac, ?Ha|].
  apply Forall_cons in IH as [[H1 H2] IH]. constructor; [|done]. simpl. by rewrite H1, H2, Ha, Hac.
Qed.

Lemma join_with_show p : p <> [] -> "/" +:+ join_with "/" p = show_rel p.
Proof.
  induction p as [|c [|d p] IH]; intros Hp; [done| |]; simpl; [by rewrite app_nil_r_str|].
  simpl in IH. by rewrite IH.
Qed.

Lemma lacks_zero_show p : path_ok p -> contains_char Ascii.zero (show_rel p) = false.
Proof.
  induction p as [|c p IH]; [done|]. intros [Hc Hp]%path_ok_cons. simpl.
  rewrite contains_char_app, IH by done. apply name_ok_spec in Hc as (_ & _ & _ & _ & ->). done.
Qed.

Lemma normalize_ok s :
  s <> "" -> contains_char Ascii.zero s = false ->
  existsb (fun c => bool_decide (c = "..")) (split_on slash s) = false -> comps s <> [] ->
  path_ok (comps s) /\ normalize_branch_rel_path s = Ok (show_rel (comps s)).
Proof.
  intros Hs H0 Hdd Hne. split.
  - apply Forall_forall. intros c Hc. unfold comps in Hc. apply list_elem_of_filter in Hc as [Hk Hc].
    pose proof (split_on_parts slash Ascii.zero s H0) as Hparts. rewrite Forall_forall in Hparts.
    destruct (Hparts c Hc) as [H1 H2]. unfold name_ok. apply Is_true_true in Hk. rewrite Hk, H1, H2. simpl.
    rewrite !andb_true_r. apply negb_true_iff, not_true_iff_false. intros Heq.
    apply not_true_iff_false in Hdd. apply Hdd, existsb_exists. exists c. split; [by apply list_elem_of_In|done].
  - unfold normalize_branch_rel_path. rewrite bool_decide_false, H0, Hdd by done. cbn [orb].
    destruct (comps s) as [|c p] eqn:Hc; [done|]. f_equal. by apply (join_with_show (c :: p)).
Qed.

(** What revert works on after normalisation is a proper path of the branch
    - at least one component, none of them empty, "." or ".." - and it names the
    same file as the text given: no text can lead out of the branch or to its
    root. *)
Theorem normalized_path_stays_inside s r :
  normalize_branch_rel_path s = Ok r ->
  exists p, path_ok p /\ p <> [] /\ r = show_rel p /\ comps s = p /\ ".." ∉ split_on slash s.
Proof.
  intros Hr. pose proof Hr as Hr'. unfold normalize_branch_rel_path in Hr'.
  destruct (bool_decide (s = "") || contains_char Ascii.zero s) eqn:H1; [done|].
  destruct (existsb _ _) eqn:H2; [done|]. apply orb_false_iff in H1 as [H0 H1]. bool_hyps.
  destruct (normalize_ok s) as [Hok Hn]; [done|done|done|by intros Hc; rewrite Hc in Hr'|].
  exists (comps s). split; [done|]. split; [by intros Hc; rewrite Hc in Hr'|].
  split; [congruence|]. split; [done|]. intros Hin. apply not_true_iff_false in H2. apply H2, existsb_exists.
  exists "..". split; [by apply list_elem_of_In|done].
Qed.

Lemma normalized_path_stays_inside_witness :
  exists p, path_ok p /\ p <> [] /\ "/a/b" = show_rel p /\ comps "a/./b/" = p /\ ".." ∉ split_on slash "a/./b/".
Proof. apply (normalized_path_stays_inside "a/./b/" "/a/b"). vm_compute. reflexivity. Defined.

(** A hide rule is not brought into the form paths have: given as "./a/b"
    it is stored as "/./a/b" and masks nothing at all, although "./a/b" given to
    revert names that very path. *)
Theorem dot_hide_rule_masks_nothing q p :
  path_ok q -> q <> [] -> tidy q -> path_ok p -> p <> [] -> tidy p ->
  hidden_by (omap normalize_hide_path ["." +:+ show_rel q]) (show_rel p) = false
  /\ normalize_branch_rel_path ("." +:+ show_rel q) = Ok (show_rel q).
Proof.
  intros Hq Hqne Hqt Hp Hpne Hpt.
  assert (normalize_hide_path ("." +:+ show_rel q) = Some ("/." +:+ show_rel q)) as Hn.
  { unfold normalize_hide_path.
    assert (trim ("." +:+ show_rel q) = "." +:+ show_rel q) as ->.
    { destruct q as [|c q]; [done|]. unfold tidy in Hqt. change (show_rel (c :: q)) with (String slash (c +:+ show_rel q)) in *.
      rewrite trim_solid in Hqt by by apply solid_intro. change ("." +:+ ?s) with (String "." s). rewrite trim_solid by by apply solid_intro.
      by rewrite trim_end_solid, Hqt by by apply solid_intro. }
    change (trim_start_slash ("." +:+ show_rel q)) with ("." +:+ show_rel q).
    destruct (exists_last (l := q)) as (q' & d & ->); [done|].
    pose proof (trim_end_show_rel q' d Hq) as H. unfold trim_end_slash in *. simpl. rewrite H.
    by destruct q'. }
  split.
  - assert (omap normalize_hide_path ["." +:+ show_rel q] = ["/." +:+ show_rel q]) as ->.
    { simpl in *. by rewrite Hn. }
    unfold hidden_by. rewrite normalize_hide_show by done. simpl existsb.
    rewrite orb_false_r. apply not_true_iff_false. rewrite orb_true_iff, bool_decide_eq_true, starts_with_spec.
    intros Hc. assert (exists X, show_rel p = "/." +:+ String slash X) as [X HX].
    { destruct q as [|c q]; [done|]. destruct Hc as [->|[r ->]]; simpl; eauto. }
    destruct p as [|c p]; [done|]. apply path_ok_cons in Hp as [Hc' Hp]. simpl in HX. injection HX as HX.
    apply (cut_component "." c X) in HX as [-> _]; [done|done|by auto|apply show_rel_slash].
  - assert (split_on slash ("." +:+ show_rel q) = "." :: q) as Hsp.
    { destruct q as [|c q]; [done|]. change ("." +:+ show_rel (c :: q)) with ("." +:+ String slash (c +:+ show_rel q)).
      apply path_ok_cons in Hq as [Hc Hq]. by rewrite split_on_app, split_show_tail. }
    assert (comps ("." +:+ show_rel q) = q) as Hcs.
    { unfold comps. rewrite Hsp, filter_cons_False by (intros []).
      pose proof (comps_show_rel q Hq) as H. unfold comps in H. rewrite split_show_rel in H by done.
      by rewrite filter_cons_False in H by (intros []). }
    destruct (normalize_ok ("." +:+ show_rel q)) as [_ Hnorm].
    + done.
    + change (contains_char Ascii.zero (show_rel q) = false). by apply lacks_zero_show.
    + rewrite Hsp. apply not_true_iff_false. rewrite existsb_exists. intros (x & Hx & Hxx).
      apply bool_decide_eq_true in Hxx as ->. apply list_elem_of_In, elem_of_cons in Hx as [Hx|Hx]; [done|].
      unfold path_ok in Hq. rewrite Forall_forall in Hq. by apply Hq in Hx.
    + by rewrite Hcs.
    + by rewrite Hnorm, Hcs.
Qed.

Lemma dot_hide_rule_masks_nothing_witness :
  hidden_by (omap normalize_hide_path ["./.env"]) "/.env" = false
  /\ normalize_branch_rel_path "./.env" = Ok "/.env".
Proof. apply (dot_hide_rule_masks_nothing [".env"] [".env"]); (by repeat constructor) || reflexivity. Defined.

(** Hide rules are matched against trimmed paths: a directory "secret " is hidden by
    the rule for "secret", what is in it is not. *)
Example trimmed_name_unhides_below :
  hidden_by ["/secret"] "/secret " = true /\ hidden_by ["/secret"] "/secret /key" = false.
Proof. by split. Qed.
