(* ===== verification/HostFs.v ===== *)
(** * The host filesystem and storage.rs

    The program keeps its data in ordinary directories and works on them with
    [std::fs].  This file models that filesystem: a finite map from absolute
    paths (lists of names) to nodes, and one function per [std::fs] call the
    program makes, with the errors it reports.  On top of it come storage.rs
    and the path helpers at the top of branch.rs.

    Boundary of the model: the process may read and write every node whatever
    its mode (it owns the store, or is root); no directory component of a path
    handed to a call is a symbolic link, while a trailing link is followed
    where the call follows it; writes are not cut short.  Where a path comes from
    a client, and may lead through links, the call is made [through] it;
    [canonicalize] resolves every component. *)

From stdpp Require Import pretty.
From S2P Require Import Prelude Strs.

(** ** Unspecified behaviour

    What the source leaves to its environment: the order in which a directory
    is read and a [HashSet] is iterated, the names drawn by [uuid], and the
    user and group the process runs as. *)
Class Env := {
  set_order : gset string -> list string;
  uuid_v4 : nat -> string;
  proc_uid : Z;
  proc_gid : Z;
}.
Class EnvLaws (E : Env) := {
  set_order_perm : forall X, set_order X ≡ₚ elements X;
}.

(** One possible environment, to run examples in. *)
Definition example_env : Env := {| set_order := elements; uuid_v4 := fun n => "u" +:+ pretty n;
                                   proc_uid := 1000; proc_gid := 1000 |}.
#[export] Instance example_env_laws : EnvLaws example_env.
Proof. by split. Qed.

(** ** Nodes *)

Inductive kind :=
  | KFile (data : bytes)
  | KDir
  | KSymlink (target : string)
  | KOther.

#[export] Instance kind_eq_dec : EqDecision kind.
Proof. solve_decision. Defined.

(** Which entry it is - the host's own inode number, drawn when the entry is
    made - with its owner and access time. *)
Record stamp := Stamp { s_id : Z; s_uid : Z; s_gid : Z; s_atime : Z }.

Record node := Node { n_kind : kind; n_mode : Z; n_mtime : Z; n_stamp : stamp }.

Abbreviation tree := (gmap path node).

(** [h_gone] holds the entries without a name left: what a handle opened
    before the removal still reads and writes. *)
Record host := Host { h_tree : tree; h_clock : Z; h_uuid : nat; h_gone : gmap Z node }.

Definition tree_ids (t : tree) : gset Z := map_fold (fun _ n X => {[s_id (n_stamp n)]} ∪ X) ∅ t.
Definition retire (t t' : tree) (gone : gmap Z node) : gmap Z node :=
  let ids := tree_ids t' in
  map_fold (fun _ n g => if bool_decide (s_id (n_stamp n) ∈ ids) then g else <[s_id (n_stamp n) := n]> g) gone t.

Definition is_dir (n : node) : bool := match n_kind n with KDir => true | _ => false end.
Definition is_file (n : node) : bool := match n_kind n with KFile _ => true | _ => false end.
Definition is_symlink (n : node) : bool := match n_kind n with KSymlink _ => true | _ => false end.

(** [Metadata::len]; the size of a directory is never used. *)
Definition node_len (n : node) : Z :=
  match n_kind n with
  | KFile d => Z.of_nat (length d)
  | KSymlink t => Z.of_nat (String.length t)
  | _ => 0
  end.

Abbreviation IO := (M host).

(** ** Paths of the host *)

Definition parent (p : path) : path := removelast p.
Definition file_name (p : path) : string := List.last p "".
Definition with_file_name (p : path) (n : string) : path := parent p ++ [n].

(** [base.join(rel.trim_start_matches('/'))] *)
Definition join (base : path) (rel : string) : path := base ++ comps (trim_start_slash rel).

Fixpoint strip (a q : path) : option path :=
  match a, q with
  | [], _ => Some q
  | x :: a', y :: q' => if bool_decide (x = y) then strip a' q' else None
  | _ :: _, [] => None
  end.
Definition under (a q : path) : bool := match strip a q with Some _ => true | None => false end.

(** ** Map operations behind the calls *)

Definition prune (a : path) (t : tree) : tree := filter (fun kv => under a kv.1 = false) t.

Definition subtree (a : path) (t : tree) : tree :=
  list_to_map (omap (fun kv => (fun s => (s, kv.2)) <$> strip a kv.1) (map_to_list t)).

(** The tree once the entry [a] and all below it are moved to [b]. *)
Definition move (a b : path) (t : tree) : tree :=
  kmap (app b) (subtree a t) ∪ prune b (prune a t).

Definition children (t : tree) (p : path) : gset string :=
  list_to_set (omap (fun kv => match strip p kv.1 with Some [c] => Some c | _ => None end)
                    (map_to_list t)).

Definition set_mtime (z : Z) (n : node) : node := Node (n_kind n) (n_mode n) z (n_stamp n).
Definition set_mode (m : Z) (n : node) : node := Node (n_kind n) m (n_mtime n) (n_stamp n).

(** An entry of directory [parent p] was added, removed or replaced. *)
Definition bump (now : Z) (p : path) (t : tree) : tree := alter (set_mtime now) (parent p) t.

(** The error of a path that does not name an entry: a component that is not
    a directory, or nothing there. *)
Definition missing (t : tree) (p : path) : errno :=
  if existsb (fun q => match t !! q with Some n => negb (is_dir n) | None => false end) (prefixes p)
  then ENOTDIR else ENOENT.

Definition io_error {A} (e : errno) : IO A := throw (Io e).
Definition now : IO Z := gets h_clock.
Definition get_tree : IO tree := gets h_tree.

(** Install a new tree; the clock moves on with every change. *)
Definition put_tree (t : tree) : IO unit :=
  modify (fun h => Host t (h_clock h + 1) (h_uuid h) (retire (h_tree h) t (h_gone h))).

(** A host call made by code that keeps some more state [X] of its own, and an
    update of that state. *)
Definition zoom {S T A} (get : S -> T) (put : T -> S -> S) (c : M T A) : M S A :=
  fun s => let '(r, t) := c (get s) in (r, put t s).
Definition on_host {X A} (c : IO A) : M (host * X) A := zoom fst (fun h s => (h, s.2)) c.
Definition on_mem {X} (f : X -> X) : M (host * X) unit := modify (fun s => (s.1, f s.2)).

Section Calls.
Context {E : Env}.

(** The stamp of an entry made at [z]. *)
Definition new_stamp (z : Z) : stamp := Stamp z proc_uid proc_gid z.

Definition fresh_uuid : IO string := fun h =>
  (Ok (uuid_v4 (h_uuid h)), Host (h_tree h) (h_clock h) (S (h_uuid h)) (h_gone h)).

(** [Path::symlink_metadata] *)
Definition symlink_metadata (p : path) : IO node :=
  let* t := get_tree in
  match t !! p with
  | Some n => ret n
  | None => io_error (missing t p)
  end.

(** Following a trailing symbolic link, at most [fuel] times. *)
Fixpoint normalize (acc : path) (cs : path) : path :=
  match cs with
  | [] => acc
  | c :: cs' => if bool_decide (c = "..") then normalize (parent acc) cs' else normalize (acc ++ [c]) cs'
  end.
Definition link_dest (p : path) (target : string) : path :=
  normalize (if starts_with "/" target then [] else parent p) (comps target).
Fixpoint follow (fuel : nat) (t : tree) (p : path) : res errno (path * nat) :=
  match t !! p with
  | Some (Node (KSymlink target) _ _ _) =>
      match fuel with
      | O => Err ELOOP
      | S f => follow f t (link_dest p target)
      end
  | _ => Ok (p, fuel)
  end.
Definition max_links : nat := 40.
Definition real_path (p : path) : IO path :=
  let* t := get_tree in
  match follow max_links t p with
  | Ok (q, _) => ret q
  | Err e => io_error e
  end.

(** A path with every component resolved, as the kernel walks it; at most
    [links] links on the way. *)
Fixpoint resolve_links (links : nat) (t : tree) : path -> path -> res errno path :=
  fix walk (at_ rest : path) {struct rest} : res errno path :=
    match rest with
    | [] => Ok at_
    | c :: rest' =>
        if bool_decide (c = "..") then walk (parent at_) rest'
        else
          match t !! (at_ ++ [c]) with
          | None => Err ENOENT
          | Some n =>
              match n_kind n, links with
              | KDir, _ => walk (at_ ++ [c]) rest'
              | KSymlink _, O => Err ELOOP
              | KSymlink target, S l =>
                  resolve_links l t (if starts_with "/" target then [] else at_) (comps target ++ rest')
              | _, _ => match rest' with [] => Ok (at_ ++ [c]) | _ => Err ENOTDIR end
              end
          end
    end.

(** [fs::canonicalize] *)
Definition canonicalize (p : path) : IO path :=
  let* t := get_tree in
  match resolve_links max_links t [] p with
  | Ok q => ret q
  | Err e => io_error e
  end.

(** A call that does not follow a trailing link, on a path that may lead through
    links. *)
Definition through {A} (p : path) (c : path -> IO A) : IO A :=
  match p with
  | [] => c []
  | _ => let* dir := canonicalize (parent p) in c (dir ++ [file_name p])
  end.

Arguments resolve_links : simpl never.
Arguments follow : simpl never.
Arguments retire : simpl never.

(** [Path::metadata], [Path::exists] and [Path::is_dir] follow links. *)
Definition metadata (p : path) : IO node := let* q := real_path p in symlink_metadata q.
Definition exists_ (p : path) : IO bool := let* r := attempt (metadata p) in ret (is_ok r).
Definition is_dir_path (p : path) : IO bool :=
  let* r := attempt (metadata p) in
  ret (match r with Ok n => is_dir n | Err _ => false end).

(** The directory that holds [p] must exist before an entry is made in it. *)
Definition need_parent (p : path) : IO unit :=
  let* n := symlink_metadata (parent p) in
  if is_dir n then ret tt else io_error ENOTDIR.

Definition insert_entry (p : path) (n : node) : IO unit :=
  let* t := get_tree in
  let* z := now in
  put_tree (bump z p (<[p := n]> t)).

(** [fs::create_dir_all] *)
Fixpoint mkdirs (z : Z) (t : tree) (base rest : path) : res errno tree :=
  match rest with
  | [] => Ok t
  | c :: rest' =>
      let q := base ++ [c] in
      match t !! q with
      | None => mkdirs z (bump z q (<[q := Node KDir 493 z (new_stamp z)]> t)) q rest'
      | Some n =>
          if is_dir n then mkdirs z t q rest'
          else match rest' with
               | [] => match follow max_links t q with
                       | Ok (d, _) => if match t !! d with Some m => is_dir m | None => false end
                                      then Ok t else Err EEXIST
                       | Err _ => Err EEXIST
                       end
               | _ => Err ENOTDIR
               end
      end
  end.
Definition create_dir_all (p : path) : IO unit :=
  let* t := get_tree in
  let* z := now in
  match mkdirs z t [] p with
  | Ok t' => put_tree t'
  | Err e => io_error e
  end.

(** [fs::remove_file] (unlink) *)
Definition remove_file_call (p : path) : IO unit :=
  let* n := symlink_metadata p in
  if is_dir n then io_error EISDIR
  else let* t := get_tree in
       let* z := now in
       put_tree (bump z p (delete p t)).

(** [fs::remove_dir] *)
Definition remove_dir (p : path) : IO unit :=
  let* n := symlink_metadata p in
  let* t := get_tree in
  let* z := now in
  if negb (is_dir n) then io_error ENOTDIR
  else if bool_decide (p = []) then io_error EBUSY
  else if bool_decide (children t p = ∅) then put_tree (bump z p (delete p t))
  else io_error ENOTEMPTY.

(** [fs::remove_dir_all]: a directory with all it holds, or just a link. *)
Definition remove_dir_all_call (p : path) : IO unit :=
  let* n := symlink_metadata p in
  let* t := get_tree in
  let* z := now in
  if bool_decide (p = []) then io_error EBUSY
  else if is_dir n then put_tree (bump z p (prune p t))
  else if is_symlink n then put_tree (bump z p (delete p t))
  else io_error ENOTDIR.

(** [fs::rename] *)
Definition rename (a b : path) : IO unit :=
  let* n := symlink_metadata a in
  do* need_parent b;
  let* t := get_tree in
  let* z := now in
  if bool_decide (a = b) then ret tt
  else if under a b then io_error EINVAL
  else
    let clash :=
      match t !! b with
      | None => None
      | Some m =>
          if is_dir m then
            if is_dir n then
              if bool_decide (children t b = ∅) then None else Some ENOTEMPTY
            else Some EISDIR
          else if is_dir n then Some ENOTDIR else None
      end in
    match clash with
    | Some e => io_error e
    | None => put_tree (bump z a (bump z b (move a b t)))
    end.

(** [fs::read_dir]: the names in it, in the order the system gives. *)
Definition read_dir (p : path) : IO (list string) :=
  let* q := real_path p in
  let* n := symlink_metadata q in
  let* t := get_tree in
  if is_dir n then ret (set_order (children t q)) else io_error ENOTDIR.

(** [fs::read] *)
Definition read (p : path) : IO bytes :=
  let* n := metadata p in
  match n_kind n with
  | KFile d => ret d
  | KDir => io_error EISDIR
  | _ => io_error EINVAL
  end.

(** Opening [p] for writing, creating it when it is not there: where the
    data goes, and the node it replaces. *)
Definition open_write (p : path) : IO (path * option node) :=
  let* q := real_path p in
  let* t := get_tree in
  match t !! q with
  | Some n => if is_dir n then io_error EISDIR else ret (q, Some n)
  | None => do* need_parent q; ret (q, None)
  end.

Definition store_file (q : path) (old : option node) (d : bytes) : IO unit :=
  let* t := get_tree in
  let* z := now in
  match old with
  | Some n => put_tree (<[q := Node (KFile d) (n_mode n) z (n_stamp n)]> t)
  | None => put_tree (bump z q (<[q := Node (KFile d) 420 z (new_stamp z)]> t))
  end.

Definition node_data (o : option node) : bytes :=
  match o with Some (Node (KFile d) _ _ _) => d | _ => [] end.

(** [fs::write]; [File::create] is [write p []]. *)
Definition write (p : path) (d : bytes) : IO unit :=
  let* (q, old) := open_write p in store_file q old d.

(** Opening with [append(true)] and writing [d]. *)
Definition append (p : path) (d : bytes) : IO unit :=
  let* (q, old) := open_write p in store_file q old (node_data old ++ d).

(** [fs::copy]: the data and the permission bits. *)
Definition copy (a b : path) : IO Z :=
  let* n := metadata a in
  match n_kind n with
  | KFile d =>
      let* (q, old) := open_write b in
      do* store_file q old d;
      let* t := get_tree in
      do* modify (fun h => Host (alter (set_mode (n_mode n)) q t) (h_clock h) (h_uuid h) (h_gone h));
      ret (Z.of_nat (length d))
  | _ => io_error EINVAL
  end.

(** [std::os::unix::fs::symlink] *)
Definition symlink (target : string) (p : path) : IO unit :=
  let* t := get_tree in
  let* z := now in
  match t !! p with
  | Some _ => io_error EEXIST
  | None => do* need_parent p; insert_entry p (Node (KSymlink target) 511 z (new_stamp z))
  end.

(** [fs::read_link] *)
Definition read_link (p : path) : IO string :=
  let* n := symlink_metadata p in
  match n_kind n with KSymlink t => ret t | _ => io_error EINVAL end.

(** [fs::set_permissions] *)
Definition set_permissions (p : path) (mode : Z) : IO unit :=
  let* q := real_path p in
  let* n := symlink_metadata q in
  modify (fun h => Host (alter (set_mode mode) q (h_tree h)) (h_clock h) (h_uuid h) (h_gone h)).

(** Seek to [off] and write [d]: what a file's bytes become. *)
Definition splice (off : nat) (d old : bytes) : bytes :=
  match d with
  | [] => old
  | _ => take off (old ++ replicate (off - length old) Ascii.zero) ++ d ++ drop (off + length d) old
  end.

(** [File::set_len] *)
Definition resize_bytes (len : nat) (old : bytes) : bytes :=
  take len (old ++ replicate (len - length old) Ascii.zero).
Definition set_len (p : path) (len : Z) : IO unit :=
  let* q := real_path p in
  let* n := symlink_metadata q in
  match n_kind n with
  | KFile d => store_file q (Some n) (resize_bytes (Z.to_nat len) d)
  | _ => io_error EINVAL
  end.

(** ** storage.rs *)

Definition ensure_parent_dirs (p : path) : IO unit :=
  match p with [] => ret tt | _ => create_dir_all (parent p) end.

Definition copy_file (src dst : path) : IO unit :=
  do* ensure_parent_dirs dst;
  let* _ := copy src dst in
  ret tt.

Definition copy_entry (src dst : path) : IO unit :=
  do* ensure_parent_dirs dst;
  let* meta := symlink_metadata src in
  if is_symlink meta then
    let* target := read_link src in
    let* _ := attempt (remove_file_call dst) in
    symlink target dst
  else
    let* _ := copy src dst in
    ret tt.

Definition read_file (p : path) : IO bytes := read p.

Definition write_file (p : path) (data : bytes) : IO unit :=
  do* ensure_parent_dirs p;
  write p data.

Definition file_size (p : path) : IO Z := let* n := metadata p in ret (node_len n).

Definition remove_file (p : path) : IO unit :=
  let* e := exists_ p in
  if e then remove_file_call p else ret tt.

Definition remove_dir_all (p : path) : IO unit :=
  let* e := exists_ p in
  if e then remove_dir_all_call p else ret tt.

(** ** branch.rs: entries of the branch store *)

(** Enough for any recursion over the directories of a tree. *)
Definition tree_fuel (t : tree) : nat := S (size t).

Definition owner_rwx : Z := 448. (* 0o700 *)

Definition add_owner_rwx_if_dir (p : path) : IO (option Z) :=
  let* meta := symlink_metadata p in
  if negb (is_dir meta) then ret None
  else
    let mode := n_mode meta in
    if bool_decide (Z.land mode owner_rwx = owner_rwx) then ret None
    else
      do* set_permissions p (Z.lor mode owner_rwx);
      ret (Some mode).

(** [StoreDirModeGuard]: its construction and its drop. *)
Record StoreDirModeGuard := { guard_path : path; original_mode : option Z }.
Definition guard_new (p : path) : IO StoreDirModeGuard :=
  let* m := add_owner_rwx_if_dir p in
  ret {| guard_path := p; original_mode := m |}.
Definition guard_drop (g : StoreDirModeGuard) : IO unit :=
  match original_mode g with
  | Some mode => let* _ := attempt (set_permissions (guard_path g) mode) in ret tt
  | None => ret tt
  end.

(** Work done while a guard is held; the guard is dropped on every exit. *)
Definition with_guard {A} (p : path) (body : IO A) : IO A :=
  let* g := guard_new p in
  let* r := attempt body in
  do* guard_drop g;
  of_res r.

(** Every ancestor directory of [p], outermost first. *)
Fixpoint guard_dirs (gs : list StoreDirModeGuard) (dirs : list path) : IO (list StoreDirModeGuard) :=
  match dirs with
  | [] => ret gs
  | d :: dirs' =>
      let* r := attempt (symlink_metadata d) in
      match r with
      | Ok meta =>
          if is_dir meta then let* g := guard_new d in guard_dirs (gs ++ [g]) dirs'
          else guard_dirs gs dirs'
      | Err (Io ENOENT) => guard_dirs gs dirs'
      | Err e => throw e
      end
  end.
Definition guard_existing_parent_dirs (p : path) : IO (list StoreDirModeGuard) :=
  guard_dirs [] ([] :: removelast (prefixes p)).

Fixpoint make_branch_store_tree_removable (fuel : nat) (p : path) : IO unit :=
  match fuel with
  | O => raise OutOfFuel
  | S f =>
      let* r := attempt (symlink_metadata p) in
      match r with
      | Ok meta =>
          if is_dir meta then
            let* _ := add_owner_rwx_if_dir p in
            let* names := read_dir p in
            for_each names (fun name =>
              let child := p ++ [name] in
              let* r := attempt (symlink_metadata child) in
              when (match r with Ok m => is_dir m | Err _ => false end)
                   (make_branch_store_tree_removable f child))
          else ret tt
      | Err (Io ENOENT) => ret tt
      | Err e => throw e
      end
  end.

Definition remove_branch_store_dir_all (p : path) : IO unit :=
  let* r := attempt (symlink_metadata p) in
  match r with
  | Ok meta =>
      if is_dir meta then
        let* t := get_tree in
        do* make_branch_store_tree_removable (tree_fuel t) p;
        remove_dir_all_call p
      else remove_file_call p
  | Err (Io ENOENT) => ret tt
  | Err e => throw e
  end.

Definition remove_entry (p : path) : IO unit :=
  let* r := attempt (symlink_metadata p) in
  match r with
  | Ok meta => if is_dir meta then remove_branch_store_dir_all p else remove_file_call p
  | Err (Io ENOENT) => ret tt
  | Err e => throw e
  end.

(** [write_data_to_file]; a seek past [i64::MAX] is refused. *)
Definition write_data_to_file (p : path) (offset : Z) (data : bytes) : IO Z :=
  let* (q, old) := open_write p in
  let* _ := match old with None => store_file q None [] | Some _ => ret tt end in
  if bool_decide (offset < 2 ^ 63)%Z then
    let* n := symlink_metadata q in
    do* when (negb (bool_decide (data = [])))
          (store_file q (Some n) (splice (Z.to_nat offset) data (node_data (Some n))));
    ret (Z.of_nat (length data))
  else io_error EINVAL.
End Calls.

Arguments follow : simpl never.
Arguments retire : simpl never.

(** ** Lemmas: paths *)

Lemma strip_Some a q s : strip a q = Some s <-> q = a ++ s.
Proof.
  revert q; induction a as [|x a IH]; intros [|y q]; simpl.
  - split; congruence.
  - split; congruence.
  - done.
  - case_bool_decide; subst; [rewrite IH|]; split; congruence.
Qed.

Lemma strip_app a s : strip a (a ++ s) = Some s.
Proof. by apply strip_Some. Qed.

Lemma under_true a q : under a q = true <-> exists s, q = a ++ s.
Proof.
  unfold under. destruct (strip a q) eqn:Hs.
  - apply strip_Some in Hs. split; [eauto|done].
  - split; [done|]. intros [s Hq]. apply strip_Some in Hq. congruence.
Qed.

Lemma under_false a q : under a q = false <-> forall s, q <> a ++ s.
Proof.
  rewrite <- not_true_iff_false, under_true.
  split; [intros H s Hs; apply H; by exists s|intros H [s Hs]; by apply (H s)].
Qed.

Lemma under_prefix a q : under a q = true <-> a `prefix_of` q.
Proof. rewrite under_true. done. Qed.

Lemma under_app a s : under a (a ++ s) = true.
Proof. apply under_true. by exists s. Qed.

Lemma under_refl a : under a a = true.
Proof. apply under_true. exists []. by rewrite app_nil_r. Qed.

Lemma under_trans a b c : under a b = true -> under b c = true -> under a c = true.
Proof. rewrite !under_prefix. apply transitivity. Qed.

Lemma under_linear a b q : under a q = true -> under b q = true -> under a b = true \/ under b a = true.
Proof. rewrite !under_prefix. intros Ha Hb. destruct (prefix_weak_total a b q); auto. Qed.

Lemma under_antisym a b : under a b = true -> under b a = true -> a = b.
Proof. rewrite !under_prefix. intros. by apply (anti_symm prefix). Qed.

Lemma under_snoc a p c : under a (p ++ [c]) = true <-> under a p = true \/ a = p ++ [c].
Proof.
  rewrite !under_prefix. split.
  - intros [s H]. destruct s as [|d s _] using rev_ind.
    + right. by rewrite app_nil_r in H.
    + left. rewrite app_assoc in H. apply app_inj_2 in H as [-> _]; [|done]. by eexists.
  - intros [H| ->]; [by apply prefix_app_r|done].
Qed.

Lemma under_app_cancel a b q : under (a ++ b) (a ++ q) = under b q.
Proof.
  apply eq_true_iff_eq. rewrite !under_prefix. split; [apply prefix_app_inv|apply prefix_app].
Qed.

Lemma parent_snoc p c : parent (p ++ [c]) = p.
Proof. apply removelast_last. Qed.

Lemma prefix_parent p : parent p `prefix_of` p.
Proof. destruct p as [|c p _] using rev_ind; [done|]. rewrite parent_snoc. by apply prefix_app_r. Qed.

Lemma file_name_snoc p c : file_name (p ++ [c]) = c.
Proof. apply List.last_last. Qed.

Lemma path_snoc p : p <> [] -> p = parent p ++ [file_name p].
Proof. intros. by apply app_removelast_last. Qed.

Lemma parent_length p : length (parent p) = length p - 1.
Proof. destruct p as [|c p _] using rev_ind; [done|]. rewrite parent_snoc, length_app. simpl. lia. Qed.
Lemma parent_app a p : p <> [] -> parent (a ++ p) = a ++ parent p.
Proof. intros. by apply removelast_app. Qed.

Lemma join_show base p : path_ok p -> join base (show_rel p) = base ++ p.
Proof.
  intros Hp. unfold join. f_equal. destruct p as [|c p]; [done|].
  apply path_ok_cons in Hp as Hp'. destruct Hp' as [Hc Hp'].
  rewrite trim_start_show_rel by done. unfold comps.
  pose proof (comps_show_rel _ Hp) as Hcs. unfold comps in Hcs.
  rewrite split_show_rel in Hcs by done. rewrite filter_cons_False in Hcs by (unfold keep_comp; naive_solver).
  by rewrite split_show_tail.
Qed.

(** ** Lemmas: trees *)

(** What a path holds, times and permission bits aside. *)
Definition look (t : tree) (p : path) : option kind := n_kind <$> t !! p.

(** The bytes of an entry, none for what is no regular file. *)
Definition file_data (k : option kind) : bytes :=
  match k with Some (KFile c) => c | _ => [] end.

Lemma node_data_look t q : node_data (t !! q) = file_data (look t q).
Proof. unfold look. by destruct (t !! q) as [[[] ? ?]|]. Qed.

Lemma look_insert t p n q : look (<[p := n]> t) q = if decide (p = q) then Some (n_kind n) else look t q.
Proof. unfold look. rewrite lookup_insert. by case_decide. Qed.
Lemma look_delete t p q : look (delete p t) q = if decide (p = q) then None else look t q.
Proof. unfold look. rewrite lookup_delete. by case_decide. Qed.

Lemma lookup_bump z p t q :
  bump z p t !! q = if decide (parent p = q) then set_mtime z <$> t !! q else t !! q.
Proof. unfold bump. rewrite lookup_alter. case_decide; congruence. Qed.

Lemma look_bump z p t q : look (bump z p t) q = look t q.
Proof. unfold look. rewrite lookup_bump. case_decide; [|done]. by destruct (t !! q). Qed.

Lemma look_alter_mode m p t q : look (alter (set_mode m) p t) q = look t q.
Proof. unfold look. rewrite lookup_alter. case_decide; [|done]. by destruct (t !! q) as [[]|] eqn:Hq; subst; rewrite ?Hq. Qed.

Lemma lookup_prune a t q : prune a t !! q = if under a q then None else t !! q.
Proof.
  unfold prune. rewrite map_lookup_filter. destruct (t !! q) eqn:Hq; simpl.
  - destruct (under a q) eqn:Hu; case_guard; simpl in *; naive_solver.
  - by destruct (under a q).
Qed.

Lemma look_prune a t q : look (prune a t) q = if under a q then None else look t q.
Proof. unfold look. rewrite lookup_prune. by destruct (under a q). Qed.

Lemma lookup_subtree a t s : subtree a t !! s = t !! (a ++ s).
Proof.
  unfold subtree. apply option_eq. intros n.
  rewrite <- elem_of_list_to_map.
  - rewrite list_elem_of_omap. split.
    + intros ([k n'] & Hin & Hs). apply elem_of_map_to_list in Hin. simpl in Hs.
      destruct (strip a k) as [s'|] eqn:Hst; simplify_eq/=. apply strip_Some in Hst. by subst.
    + intros Hl. exists (a ++ s, n). rewrite elem_of_map_to_list. simpl. by rewrite strip_app.
  - pose proof (NoDup_fst_map_to_list t) as Hnd. revert Hnd.
    generalize (map_to_list t). intros l Hnd. induction l as [|[k n'] l IH]; simpl; [constructor|].
    simpl in Hnd. apply NoDup_cons in Hnd as [Hk Hnd].
    destruct (strip a k) as [s'|] eqn:Hst; simpl; [|by apply IH].
    apply NoDup_cons. split; [|by apply IH].
    intros ([s2 n2] & ? & Hin2)%list_elem_of_fmap. simplify_eq/=.
    apply list_elem_of_omap in Hin2 as ([k3 n3] & Hin3 & Hs3). simpl in Hs3.
    destruct (strip a k3) as [s3|] eqn:Hst3; simplify_eq/=.
    apply strip_Some in Hst, Hst3. subst. apply Hk. apply list_elem_of_fmap. by exists (a ++ s2, n2).
Qed.

#[export] Instance app_inj_l (b : path) : Inj (=) (=) (app b).
Proof. intros x y. apply app_inv_head. Qed.

Lemma lookup_move a b t q :
  move a b t !! q =
    match strip b q with
    | Some s => t !! (a ++ s)
    | None => if under a q then None else t !! q
    end.
Proof.
  unfold move. destruct (strip b q) as [s|] eqn:Hs.
  - apply strip_Some in Hs as ->. rewrite lookup_union.
    rewrite lookup_kmap by apply _. rewrite lookup_subtree, lookup_prune, under_app.
    by destruct (t !! (a ++ s)).
  - assert (under b q = false) as Hb by (unfold under; by rewrite Hs).
    rewrite lookup_union_r.
    + by rewrite lookup_prune, Hb, lookup_prune.
    + apply lookup_kmap_None; [apply _|]. intros i ->. by rewrite under_app in Hb.
Qed.

Lemma look_move a b t q :
  look (move a b t) q =
    match strip b q with
    | Some s => look t (a ++ s)
    | None => if under a q then None else look t q
    end.
Proof. unfold look. rewrite lookup_move. destruct (strip b q); [done|]. by destruct (under a q). Qed.

Lemma elem_of_children t p c : c ∈ children t p <-> is_Some (t !! (p ++ [c])).
Proof.
  unfold children. rewrite elem_of_list_to_set, list_elem_of_omap. split.
  - intros ([k n] & Hin & Hs). apply elem_of_map_to_list in Hin. simpl in Hs.
    destruct (strip p k) as [[|d [|]]|] eqn:Hst; simplify_eq/=.
    apply strip_Some in Hst as ->. by exists n.
  - intros [n Hn]. exists (p ++ [c], n). rewrite elem_of_map_to_list. simpl. by rewrite strip_app.
Qed.

Lemma children_empty t p : children t p = ∅ <-> forall c, t !! (p ++ [c]) = None.
Proof.
  split.
  - intros H c. apply eq_None_not_Some. rewrite <- elem_of_children, H. set_solver.
  - intros H. apply set_eq. intros c. rewrite elem_of_children, H.
    split; [by intros []|set_solver].
Qed.

(** ** Well-formed trees *)

(** The root is a directory and every entry sits in a directory. *)
Record wf_tree (t : tree) : Prop := {
  wf_root : look t [] = Some KDir;
  wf_parent : forall p c, is_Some (t !! (p ++ [c])) -> look t p = Some KDir;
}.

Lemma wf_below t p s : wf_tree t -> s <> [] -> is_Some (t !! (p ++ s)) -> look t p = Some KDir.
Proof.
  intros Hwf. revert p; induction s as [|c s IH]; intros p Hne Hs; [done|].
  destruct s as [|d s]; [by eapply wf_parent|].
  apply (wf_parent _ Hwf p c). rewrite (assoc (++) p [c] (d :: s)) in Hs by done.
  assert (look t (p ++ [c]) = Some KDir) as Hd by (apply IH; [done|]; by rewrite <- app_assoc in * ).
  unfold look in Hd. destruct (t !! (p ++ [c])); [by eexists|done].
Qed.

Lemma wf_childless t p s : wf_tree t -> children t p = ∅ -> s <> [] -> t !! (p ++ s) = None.
Proof.
  intros Hwf Hc Hs. apply eq_None_not_Some. intros H.
  destruct s as [|c s]; [done|]. rewrite children_empty in Hc.
  destruct s as [|d s]; [rewrite Hc in H; by destruct H|].
  assert (look t (p ++ [c]) = Some KDir) as Hd.
  { apply (wf_below t (p ++ [c]) (d :: s)); [done|done|]. by rewrite <- app_assoc. }
  unfold look in Hd. by rewrite Hc in Hd.
Qed.

Lemma look_None t p : look t p = None <-> t !! p = None.
Proof. unfold look. apply fmap_None. Qed.
Lemma look_is_Some t p : is_Some (look t p) <-> is_Some (t !! p).
Proof. unfold look. apply fmap_is_Some. Qed.

Lemma wf_nondir_leaf t p k s : wf_tree t -> look t p = Some k -> k <> KDir -> s <> [] -> t !! (p ++ s) = None.
Proof.
  intros Hwf Hk Hd Hs. apply eq_None_not_Some. intros H. eapply wf_below in H; [|done|done]. congruence.
Qed.

Lemma wf_look_ext t t' : (forall q, look t' q = look t q) -> wf_tree t -> wf_tree t'.
Proof.
  intros Hq [Hr Hp]. split; [by rewrite Hq|]. intros p c. rewrite Hq, <- look_is_Some, Hq, look_is_Some.
  apply Hp.
Qed.

Lemma wf_bump z p t : wf_tree t -> wf_tree (bump z p t).
Proof. apply wf_look_ext. intros. apply look_bump. Qed.

Lemma wf_alter_mode m p t : wf_tree t -> wf_tree (alter (set_mode m) p t).
Proof. apply wf_look_ext. intros. apply look_alter_mode. Qed.

(** Adding an entry to a directory, or replacing one that holds nothing. *)
Lemma wf_insert t p n :
  wf_tree t -> p <> [] -> look t (parent p) = Some KDir ->
  (forall s, s <> [] -> n_kind n <> KDir -> t !! (p ++ s) = None) ->
  wf_tree (<[p := n]> t).
Proof.
  intros Hwf Hp Hpar Hleaf. split.
  - rewrite look_insert, decide_False by done. apply Hwf.
  - intros q c. rewrite look_insert, lookup_insert. case_decide as Heq.
    + intros _. apply (f_equal parent) in Heq. rewrite parent_snoc in Heq. subst.
      rewrite decide_False; [done|]. intros Hq. apply (f_equal length) in Hq.
      rewrite (path_snoc p), length_app in Hq at 1 by done. simpl in Hq. lia.
    + intros Hs. case_decide as Hq; subst.
      * destruct (decide (n_kind n = KDir)) as [->|Hn]; [done|].
        rewrite Hleaf in Hs by done. by destruct Hs.
      * by eapply wf_parent.
Qed.

Lemma wf_delete t p : wf_tree t -> p <> [] -> (forall s, s <> [] -> t !! (p ++ s) = None) -> wf_tree (delete p t).
Proof.
  intros Hwf Hp Hleaf. split.
  - rewrite look_delete, decide_False by done. apply Hwf.
  - intros q c. rewrite look_delete, lookup_delete. case_decide; [by intros []|]. intros Hs.
    case_decide; subst; [rewrite Hleaf in Hs by done; by destruct Hs|]. by eapply wf_parent.
Qed.

Lemma wf_prune t p : wf_tree t -> p <> [] -> wf_tree (prune p t).
Proof.
  intros Hwf Hp. split.
  - rewrite look_prune. destruct (under p []) eqn:Hu; [|apply Hwf].
    apply under_prefix, prefix_nil_inv in Hu. done.
  - intros q c. rewrite look_prune, lookup_prune. destruct (under p (q ++ [c])) eqn:Hu; [by intros []|].
    intros Hs. destruct (under p q) eqn:Hu'; [|by eapply wf_parent].
    assert (under p (q ++ [c]) = true) by (apply under_snoc; auto). congruence.
Qed.

Lemma not_under_parent b : b <> [] -> under b (parent b) = false.
Proof.
  intros Hb. apply not_true_iff_false. intros H. apply under_prefix, prefix_length in H.
  rewrite (path_snoc b), length_app in H at 1 by done. simpl in H. lia.
Qed.

Lemma under_parent b : under (parent b) b = true.
Proof.
  destruct (decide (b = [])) as [->|Hb]; [done|]. apply under_true. exists [file_name b].
  by apply path_snoc.
Qed.

Lemma wf_move t a b :
  wf_tree t -> is_Some (t !! a) -> b <> [] -> look t (parent b) = Some KDir -> under a b = false ->
  wf_tree (move a b t).
Proof.
  intros Hwf Ha Hb Hpar Hab.
  assert (under a (parent b) = false) as Hapb.
  { apply not_true_iff_false. intros H. pose proof (under_trans _ _ _ H (under_parent b)). congruence. }
  split.
  - rewrite look_move. destruct (strip b []) eqn:Hs; [apply strip_Some in Hs; by destruct b|].
    destruct (under a []) eqn:Hu; [|apply Hwf].
    apply under_prefix, prefix_nil_inv in Hu. subst. done.
  - intros q c. rewrite look_move, lookup_move. destruct (strip b (q ++ [c])) as [s|] eqn:Hs.
    + apply strip_Some in Hs. destruct s as [|d s _] using rev_ind.
      * rewrite app_nil_r in Hs. subst. intros _. rewrite parent_snoc in *.
        pose proof (not_under_parent (q ++ [c]) Hb) as Hn. rewrite parent_snoc in Hn.
        unfold under in Hn. destruct (strip (q ++ [c]) q); [done|]. by rewrite Hapb.
      * rewrite app_assoc in Hs. apply app_inj_2 in Hs as [-> [= ->]]; [|done].
        rewrite strip_app. rewrite app_assoc. apply (wf_parent _ Hwf).
    + destruct (under a (q ++ [c])) eqn:Hu; [by intros []|]. intros Hq.
      destruct (strip b q) as [s|] eqn:Hs'.
      * apply strip_Some in Hs' as ->. rewrite <- app_assoc, strip_app in Hs. done.
      * destruct (under a q) eqn:Hu'; [|by eapply wf_parent].
        assert (under a (q ++ [c]) = true) by (apply under_snoc; auto). congruence.
Qed.

Lemma wf_mkdirs {E : Env} z t base rest t' :
  wf_tree t -> look t base = Some KDir -> mkdirs z t base rest = Ok t' -> wf_tree t'.
Proof.
  revert t base; induction rest as [|c rest IH]; intros t base Hwf Hb H; simpl in H; [by simplify_eq|].
  destruct (t !! (base ++ [c])) as [n|] eqn:Hq.
  - destruct (is_dir n) eqn:Hd.
    + apply (IH t (base ++ [c])); [done| |done]. unfold look. rewrite Hq. simpl.
      unfold is_dir in Hd. by destruct (n_kind n).
    + destruct rest; [|done]. destruct (follow max_links t (base ++ [c])) as [[d ?]|]; [|done].
      by destruct (match t !! d with Some m => is_dir m | None => false end); simplify_eq.
  - apply (IH _ (base ++ [c])) in H; [done| |].
    + apply wf_bump, wf_insert; [done|by destruct base| |done]. by rewrite parent_snoc.
    + rewrite look_bump, look_insert. by rewrite decide_True.
Qed.

(** ** Every call keeps the tree well formed *)

Definition wf_host (h : host) : Prop := wf_tree (h_tree h).
Definition wf_step (h h' : host) : Prop := wf_host h -> wf_host h'.

#[export] Instance wf_step_preorder : PreOrder wf_step.
Proof. split; [by intros h Hh|]. intros a b c Hab Hbc Ha. by apply Hbc, Hab. Qed.

Lemma is_dir_look t p n : t !! p = Some n -> is_dir n = true -> look t p = Some KDir.
Proof. unfold look, is_dir. intros ->. simpl. by destruct (n_kind n). Qed.

Lemma nondir_look t p n : t !! p = Some n -> is_dir n = false -> exists k, look t p = Some k /\ k <> KDir.
Proof.
  unfold look, is_dir. intros ->. simpl. intros Hd. exists (n_kind n). split; [done|].
  intros Hk. by rewrite Hk in Hd.
Qed.

(** Walking through a host call. *)
Lemma wp_symlink_metadata p Φ h :
  (forall n, h_tree h !! p = Some n -> Φ (Ok n) h) ->
  (h_tree h !! p = None -> Φ (Err (Throw (Io (missing (h_tree h) p)))) h) ->
  wp (symlink_metadata p) Φ h.
Proof. intros H1 H2. unfold symlink_metadata, get_tree, io_error. wp_steps; auto. Qed.

Ltac io_step :=
  lazymatch goal with
  | |- wp (symlink_metadata _) _ _ => apply wp_symlink_metadata; intros
  | |- wp get_tree _ _ => unfold get_tree
  | |- wp now _ _ => unfold now
  | |- wp (put_tree _) _ _ => unfold put_tree
  | |- wp (io_error _) _ _ => unfold io_error
  | |- wp (insert_entry _ _) _ _ => unfold insert_entry
  | |- wp (need_parent _) _ _ => unfold need_parent
  | |- wp (real_path _) _ _ => unfold real_path
  | |- wp (metadata _) _ _ => unfold metadata
  | |- wp (when ?b _) _ _ => unfold when
  | |- _ => wp_step
  end; cbn beta iota.
Ltac io_steps := cbn beta iota; repeat io_step; bool_hyps; simplify_eq/=.

Section KeepsWf.
Context {E : Env}.

Lemma create_dir_all_wf p : keeps wf_step (create_dir_all p).
Proof.
  apply keeps_wp. intros h. unfold create_dir_all. io_steps; intros Hwf; [|done].
  eapply wf_mkdirs; [done| |done]. apply Hwf.
Qed.

Lemma remove_file_call_wf p : keeps wf_step (remove_file_call p).
Proof.
  apply keeps_wp. intros h. unfold remove_file_call. io_steps; intros Hwf; try done.
  unfold wf_host; simpl. apply wf_bump.
  destruct (nondir_look (h_tree h) p n) as (k & Hk & Hkd); [done..|].
  apply wf_delete; [done| |].
  - intros ->. pose proof (wf_root _ Hwf). congruence.
  - intros s Hs. by eapply wf_nondir_leaf.
Qed.

Lemma remove_dir_wf p : keeps wf_step (remove_dir p).
Proof.
  apply keeps_wp. intros h. unfold remove_dir. io_steps; intros Hwf; try done.
  unfold wf_host; simpl. apply wf_bump, wf_delete; [done|done|]. intros s Hs. by apply wf_childless.
Qed.

Lemma remove_dir_all_call_wf p : keeps wf_step (remove_dir_all_call p).
Proof.
  apply keeps_wp. intros h. unfold remove_dir_all_call. io_steps; intros Hwf; try done.
  - unfold wf_host; simpl. by apply wf_bump, wf_prune.
  - unfold wf_host; simpl. apply wf_bump.
    destruct (nondir_look (h_tree h) p n) as (k & Hk & Hkd); [done..|].
    apply wf_delete; [done|done|]. intros s Hs. by eapply wf_nondir_leaf.
Qed.

Lemma rename_wf a b : keeps wf_step (rename a b).
Proof.
  apply keeps_wp. intros h. unfold rename. io_steps; intros Hwf; try done.
  unfold wf_host; simpl. apply wf_bump, wf_bump, wf_move; [done|by eexists| |by eapply is_dir_look|done].
  intros ->. pose proof (wf_root _ Hwf) as Hr. unfold look in Hr.
  destruct (h_tree h !! []) as [m|] eqn:Hm; [|done]. simpl in Hr.
  assert (is_dir m = true) as Hd by (unfold is_dir; by simplify_eq/=).
  rewrite Hd in Heqo. destruct (is_dir n) eqn:Hn; [|done]. case_bool_decide as Hc; [|done].
  rewrite (wf_childless _ [] a) in H; done.
Qed.

(** The target of a write that goes through, with what it replaces. *)
Lemma wp_open_write p Φ h :
  (forall q f old, follow max_links (h_tree h) p = Ok (q, f) -> h_tree h !! q = old ->
     (forall n, old = Some n -> is_dir n = false) ->
     (old = None -> exists d, h_tree h !! parent q = Some d /\ is_dir d = true) -> Φ (Ok (q, old)) h) ->
  (forall e, Φ (Err (Throw (Io e))) h) ->
  wp (open_write p) Φ h.
Proof.
  intros Hok Herr. unfold open_write. io_steps; try (by apply Herr).
  - eapply Hok; naive_solver.
  - eapply Hok; naive_solver.
Qed.

Lemma store_file_wf q old d h :
  h_tree h !! q = old -> (forall n, old = Some n -> is_dir n = false) ->
  (old = None -> exists m, h_tree h !! parent q = Some m /\ is_dir m = true) ->
  wf_step h (store_file q old d h).2.
Proof.
  intros Hq Hn Hp Hwf. unfold store_file. destruct old as [n|]; unfold wf_host; simpl.
  - destruct (nondir_look _ _ _ Hq (Hn n eq_refl)) as (k & Hk & Hkd).
    apply wf_insert; [done| | |].
    + intros ->. pose proof (wf_root _ Hwf). congruence.
    + eapply (wf_below _ (parent q) [file_name q]); [done|done|].
      rewrite <- path_snoc; [by eexists|]. intros ->. pose proof (wf_root _ Hwf). congruence.
    + intros s Hs _. by eapply wf_nondir_leaf.
  - destruct (Hp eq_refl) as (m & Hm & Hd). pose proof (is_dir_look _ _ _ Hm Hd) as Hpd.
    apply wf_bump, wf_insert; [done| |done|].
    + intros ->. pose proof (wf_root _ Hwf) as Hr. unfold look in Hr. by rewrite Hq in Hr.
    + intros s Hs _. apply eq_None_not_Some. intros Hsome.
      pose proof (wf_below _ _ _ Hwf Hs Hsome) as Hl. unfold look in Hl. by rewrite Hq in Hl.
Qed.

Lemma write_wf p d : keeps wf_step (write p d).
Proof.
  apply keeps_wp. intros h. unfold write. io_steps. apply wp_open_write; [|done].
  intros. io_steps. by apply store_file_wf.
Qed.

Lemma append_wf p d : keeps wf_step (append p d).
Proof.
  apply keeps_wp. intros h. unfold append. io_steps. apply wp_open_write; [|done].
  intros. io_steps. by apply store_file_wf.
Qed.

Lemma set_mode_at_wf m q : keeps wf_step (modify (fun h => Host (alter (set_mode m) q (h_tree h)) (h_clock h) (h_uuid h) (h_gone h))).
Proof. intros h Hwf. by apply wf_alter_mode. Qed.

Lemma copy_wf a b : keeps wf_step (copy a b).
Proof.
  apply keeps_wp. intros h. unfold copy. io_steps; try done. apply wp_open_write; [|done].
  intros. io_steps. apply (wp_rel wf_step); [by apply store_file_wf|].
  intros [[]|] s' Hs'; io_steps; [|done]. intros Hwf. apply wf_alter_mode. by apply Hs'.
Qed.

Lemma symlink_wf target p : keeps wf_step (symlink target p).
Proof.
  apply keeps_wp. intros h. unfold symlink. io_steps; intros Hwf; try done.
  unfold wf_host; simpl. apply wf_bump, wf_insert; [done| |by eapply is_dir_look|].
  - intros ->. pose proof (wf_root _ Hwf) as Hr. unfold look in Hr. by rewrite Heqo in Hr.
  - intros s Hs _. apply eq_None_not_Some. intros Hsome.
    pose proof (wf_below _ _ _ Hwf Hs Hsome) as Hl. unfold look in Hl. by rewrite Heqo in Hl.
Qed.

Lemma set_permissions_wf p m : keeps wf_step (set_permissions p m).
Proof.
  apply keeps_wp. intros h. unfold set_permissions. io_steps; intros Hwf; try done.
  by apply wf_alter_mode.
Qed.

Lemma set_len_wf p n : keeps wf_step (set_len p n).
Proof.
  apply keeps_wp. intros h. unfold set_len. io_steps; intros; try done.
  apply store_file_wf; [done| |done]. intros m [= <-]. unfold is_dir. by rewrite Heqk.
Qed.

(** A second store to a file that is there. *)
Lemma restore_file_wf q n c h :
  h_tree h !! q = Some n -> is_dir n = false -> wf_step h (store_file q (Some n) c h).2.
Proof. intros Hq Hn. apply store_file_wf; [done| |done]. by intros m [= <-]. Qed.

Lemma write_data_wf p off d : keeps wf_step (write_data_to_file p off d).
Proof.
  apply keeps_wp. intros h. unfold write_data_to_file. io_steps. apply wp_open_write; [|done].
  intros q f old Hf Hold Hn Hp. io_steps; try done.
  - apply (wp_rel wf_step); [by apply restore_file_wf; auto|]. intros [] s1 H1; by io_steps.
  - pose proof (store_file_wf q None [] h Hold Hn Hp) as H1. unfold store_file at 1. io_steps; try done.
    + assert (is_dir n = false) as Hd.
      { assert (look (bump (h_clock h) q (<[q:=Node (KFile []) 420 (h_clock h) (new_stamp (h_clock h))]> (h_tree h))) q = Some (KFile [])) as Hl.
        { rewrite look_bump, look_insert. by rewrite decide_True. }
        unfold look in Hl. rewrite H in Hl. unfold is_dir. simpl in Hl. by simplify_eq/=; rewrite Hl. }
      match goal with |- wp (store_file _ _ ?c) _ ?h1 => pose proof (restore_file_wf q n c h1 H Hd) as H2 end.
      apply (wp_rel wf_step); [exact H2|]. intros [] s1 H3; io_steps; (transitivity (store_file q None [] h).2; [done|done]).
Qed.

Lemma fresh_uuid_wf : keeps wf_step fresh_uuid.
Proof. by intros h Hwf. Qed.

End KeepsWf.

(** Calls that only read. *)
Section KeepsRead.
Context {E : Env} (R : relation host) `{!PreOrder R}.

Lemma get_tree_keeps : keeps R get_tree.
Proof. by apply keeps_gets. Qed.
Lemma io_error_keeps {A} e : keeps R (io_error (A:=A) e).
Proof. by apply keeps_throw. Qed.
#[local] Hint Resolve get_tree_keeps io_error_keeps : keeps.
Lemma symlink_metadata_keeps p : keeps R (symlink_metadata p).
Proof. unfold symlink_metadata. keeps_auto. Qed.
#[local] Hint Resolve symlink_metadata_keeps : keeps.
Lemma real_path_keeps p : keeps R (real_path p).
Proof. unfold real_path. keeps_auto. Qed.
#[local] Hint Resolve real_path_keeps : keeps.
Lemma canonicalize_keeps p : keeps R (canonicalize p).
Proof. unfold canonicalize. keeps_auto. Qed.
#[local] Hint Resolve canonicalize_keeps : keeps.
Lemma through_keeps {A} p (c : path -> IO A) : (forall q, keeps R (c q)) -> keeps R (through p c).
Proof. intros Hc. unfold through. destruct p; keeps_auto. Qed.
Lemma metadata_keeps p : keeps R (metadata p).
Proof. unfold metadata. keeps_auto. Qed.
#[local] Hint Resolve metadata_keeps : keeps.
Lemma exists_keeps p : keeps R (exists_ p).
Proof. unfold exists_. keeps_auto. Qed.
Lemma is_dir_path_keeps p : keeps R (is_dir_path p).
Proof. unfold is_dir_path. keeps_auto. Qed.
Lemma read_dir_keeps p : keeps R (read_dir p).
Proof. unfold read_dir. keeps_auto. Qed.
Lemma read_keeps p : keeps R (read p).
Proof. unfold read. keeps_auto. Qed.
Lemma read_link_keeps p : keeps R (read_link p).
Proof. unfold read_link. keeps_auto. Qed.
End KeepsRead.

#[export] Hint Resolve get_tree_keeps io_error_keeps symlink_metadata_keeps real_path_keeps canonicalize_keeps
  metadata_keeps exists_keeps is_dir_path_keeps read_dir_keeps read_keeps read_link_keeps : keeps.
#[export] Hint Resolve create_dir_all_wf remove_file_call_wf remove_dir_wf remove_dir_all_call_wf
  rename_wf write_wf append_wf copy_wf symlink_wf set_permissions_wf set_len_wf fresh_uuid_wf : keeps.

Section StoreWf.
Context {E : Env}.

Lemma ensure_parent_dirs_wf p : keeps wf_step (ensure_parent_dirs p).
Proof. unfold ensure_parent_dirs. keeps_auto. Qed.
#[local] Hint Resolve ensure_parent_dirs_wf : keeps.
Lemma copy_entry_wf a b : keeps wf_step (copy_entry a b).
Proof. unfold copy_entry. keeps_auto. Qed.
Lemma add_owner_wf p : keeps wf_step (add_owner_rwx_if_dir p).
Proof. unfold add_owner_rwx_if_dir. keeps_auto. Qed.
#[local] Hint Resolve add_owner_wf : keeps.
Lemma guard_new_wf p : keeps wf_step (guard_new p).
Proof. unfold guard_new. keeps_auto. Qed.
Lemma guard_drop_wf g : keeps wf_step (guard_drop g).
Proof. unfold guard_drop. keeps_auto. Qed.
#[local] Hint Resolve guard_new_wf guard_drop_wf : keeps.
Lemma guard_dirs_wf gs ds : keeps wf_step (guard_dirs gs ds).
Proof. revert gs. induction ds; intros gs; simpl; keeps_auto. Qed.
Lemma make_removable_wf f p : keeps wf_step (make_branch_store_tree_removable f p).
Proof. revert p. induction f; intros p; simpl; keeps_auto. Qed.
#[local] Hint Resolve make_removable_wf : keeps.
Lemma remove_branch_store_dir_all_wf p : keeps wf_step (remove_branch_store_dir_all p).
Proof. unfold remove_branch_store_dir_all. keeps_auto. Qed.
#[local] Hint Resolve remove_branch_store_dir_all_wf : keeps.
Lemma remove_entry_wf p : keeps wf_step (remove_entry p).
Proof. unfold remove_entry. keeps_auto. Qed.
Lemma guard_existing_wf p : keeps wf_step (guard_existing_parent_dirs p).
Proof. apply guard_dirs_wf. Qed.
End StoreWf.

#[export] Hint Resolve ensure_parent_dirs_wf copy_entry_wf add_owner_wf guard_new_wf guard_drop_wf
  guard_existing_wf make_removable_wf remove_branch_store_dir_all_wf remove_entry_wf : keeps.
