(* ===== verification/Quota.v ===== *)
(** * Storage quota (branch.rs, [StorageQuota])

    The usage counter is an [AtomicI64], the limit a [u64].  Arithmetic is that
    of the release build: conversions and sums wrap around. *)

From S2P Require Import Prelude Strs HostFs.

Record StorageQuota := { used_bytes : Z; max_bytes : option Z }.

Definition quota_new (max : option Z) : StorageQuota := {| used_bytes := 0; max_bytes := max |}.

(** [check]: the counter is cast to [u64] before the addition. *)
Definition quota_check (q : StorageQuota) (additional : Z) : res errno unit :=
  match max_bytes q with
  | Some max =>
      if (max <? wrap_u64 (wrap_u64 (used_bytes q) + additional))%Z then Err ENOSPC else Ok tt
  | None => Ok tt
  end.

Definition quota_add (b : Z) (q : StorageQuota) : StorageQuota :=
  {| used_bytes := wrap_i64 (used_bytes q + wrap_i64 b); max_bytes := max_bytes q |}.

Definition quota_sub (b : Z) (q : StorageQuota) : StorageQuota :=
  {| used_bytes := wrap_i64 (used_bytes q - wrap_i64 b); max_bytes := max_bytes q |}.

Definition quota_used (q : StorageQuota) : Z := Z.max (used_bytes q) 0.
Definition quota_max (q : StorageQuota) : option Z := max_bytes q.

Section Scan.
Context {E : Env}.

(** [dir_size]: [is_dir] follows links, so a link to a directory is counted
    with what it points to; a chain of more than [max_links] links is not
    followed any further.  [links] is what is left of that allowance. *)
Fixpoint dir_size_go (fuel links : nat) (p : path) : IO Z :=
  match fuel with
  | O => raise OutOfFuel
  | S f =>
      let* entries := attempt (read_dir p) in
      match entries with
      | Err _ => ret 0%Z
      | Ok names =>
          fold_m (fun total name =>
            let child := p ++ [name] in
            let* t := get_tree in
            match follow links t child with
            | Ok (q, links') =>
                if match t !! q with Some n => is_dir n | None => false end then
                  let* s := dir_size_go f links' q in
                  ret (wrap_u64 (total + s))
                else
                  let* m := attempt (symlink_metadata child) in
                  ret (match m with Ok n => wrap_u64 (total + node_len n) | Err _ => total end)
            | Err _ =>
                let* m := attempt (symlink_metadata child) in
                ret (match m with Ok n => wrap_u64 (total + node_len n) | Err _ => total end)
            end) 0%Z names
      end
  end.
Definition dir_size (p : path) : IO Z :=
  let* t := get_tree in
  dir_size_go (S max_links * tree_fuel t) max_links p.

Definition scan_usage (storage_path : path) (max : option Z) : IO StorageQuota :=
  let branches_dir := join storage_path "branches" in
  let* e := exists_ branches_dir in
  if e then
    let* b := dir_size branches_dir in
    ret {| used_bytes := wrap_i64 b; max_bytes := max |}
  else ret (quota_new max).

(** [statfs] of fs.rs under a quota: total, free and available blocks. *)
Definition statfs_blocks (q : StorageQuota) : option (Z * Z * Z) :=
  match quota_max q with
  | Some max =>
      let total := (max / 4096)%Z in
      let used := (Z.min (quota_used q) max / 4096)%Z in
      let avail := Z.max (total - used) 0 in
      Some (total, avail, avail)
  | None => None
  end.
End Scan.

(** ** Properties *)

#[local] Open Scope Z_scope.

(** The counter and the limit of a store in normal operation. *)
Definition quota_ok (q : StorageQuota) : Prop :=
  0 <= used_bytes q < 2 ^ 63
  /\ match max_bytes q with Some max => used_bytes q <= max < 2 ^ 63 | None => True end.

Lemma quota_check_exact q max b :
  max_bytes q = Some max -> 0 <= used_bytes q < 2 ^ 63 -> 0 <= b < 2 ^ 63 ->
  quota_check q b = if max <? used_bytes q + b then Err ENOSPC else Ok tt.
Proof.
  intros Hm Hu Hb. unfold quota_check. rewrite Hm.
  rewrite (wrap_u64_small (used_bytes q)) by lia. rewrite wrap_u64_small by lia. done.
Qed.

Lemma quota_add_exact q b :
  0 <= used_bytes q -> 0 <= b -> used_bytes q + b < 2 ^ 63 -> used_bytes (quota_add b q) = used_bytes q + b.
Proof. intros. unfold quota_add. simpl. rewrite (wrap_i64_small b) by lia. apply wrap_i64_small. lia. Qed.

Lemma quota_sub_exact q b :
  0 <= used_bytes q < 2 ^ 63 -> 0 <= b < 2 ^ 63 -> used_bytes (quota_sub b q) = used_bytes q - b.
Proof. intros. unfold quota_sub. simpl. rewrite (wrap_i64_small b) by lia. apply wrap_i64_small. lia. Qed.

(** A check that passes leaves room, whatever the sign of the counter: below zero
    the cast makes it huge, and the sum wraps around to what it should be or stays
    above every limit. *)
Lemma quota_check_room q max c :
  max_bytes q = Some max -> max < 2 ^ 63 -> - 2 ^ 63 <= used_bytes q <= max -> 0 <= c < 2 ^ 63 ->
  quota_check q c = Ok tt -> 0 <= used_bytes q + c <= max.
Proof.
  intros Hm Hlim Hu Hc. unfold quota_check. rewrite Hm. destruct (Z.ltb_spec max (wrap_u64 (wrap_u64 (used_bytes q) + c))); [done|].
  assert (wrap_u64 (wrap_u64 (used_bytes q) + c) = wrap_u64 (used_bytes q + c)) as Hw.
  { unfold wrap_u64. by rewrite Z.add_mod_idemp_l by lia. }
  rewrite Hw in *. intros _. destruct (Z.lt_ge_cases (used_bytes q + c) 0) as [Hneg|Hpos].
  - assert (wrap_u64 (used_bytes q + c) = used_bytes q + c + 2 ^ 64); [|lia].
    unfold wrap_u64. rewrite <- (Z.mod_add _ 1) by lia. apply Z.mod_small. lia.
  - rewrite wrap_u64_small in * by lia. lia.
Qed.

(** ** The ledger

    What happens to the counter while operations run one after the other: bytes
    are added after a check, at the very counter that was checked, and no more of
    them than were asked for; bytes of what is removed are taken off. *)
Inductive Entry :=
  | Charged (asked added : Z)
  | Refunded (freed : Z).

Inductive books : StorageQuota -> list Entry -> StorageQuota -> Prop :=
  | books_nil q : books q [] q
  | books_charged q c b l q' : quota_check q c = Ok tt -> 0 <= b <= c -> books (quota_add b q) l q' ->
      books q (Charged c b :: l) q'
  | books_refunded q b l q' : 0 <= b -> books (quota_sub b q) l q' -> books q (Refunded b :: l) q'.

Lemma books_app q1 l1 q2 l2 q3 : books q1 l1 q2 -> books q2 l2 q3 -> books q1 (l1 ++ l2) q3.
Proof. induction 1; intros; simpl; [done|apply books_charged|apply books_refunded]; auto. Qed.

Definition freed_total (l : list Entry) : Z :=
  foldr (fun e z => match e with Refunded b => b + z | Charged _ _ => z end) 0 l.
(** No single request reaches 2^63 bytes. *)
Definition moderate (l : list Entry) : Prop :=
  Forall (fun e => match e with Charged c _ => c < 2 ^ 63 | Refunded _ => True end) l.

Lemma freed_total_nonneg q l q' : books q l q' -> 0 <= freed_total l.
Proof. induction 1; simpl; lia. Qed.

Lemma quota_add_at q b :
  0 <= b -> - 2 ^ 63 <= used_bytes q -> used_bytes q + b < 2 ^ 63 -> b < 2 ^ 63 ->
  used_bytes (quota_add b q) = used_bytes q + b.
Proof. intros. unfold quota_add. simpl. rewrite (wrap_i64_small b) by lia. apply wrap_i64_small. lia. Qed.
Lemma quota_sub_at q b :
  0 <= b < 2 ^ 63 -> - 2 ^ 63 <= used_bytes q - b -> used_bytes q < 2 ^ 63 ->
  used_bytes (quota_sub b q) = used_bytes q - b.
Proof. intros. unfold quota_sub. simpl. rewrite (wrap_i64_small b) by lia. apply wrap_i64_small. lia. Qed.

#[local] Arguments quota_add : simpl never.
#[local] Arguments quota_sub : simpl never.

(** Along any ledger the counter stays at or below the limit. *)
Lemma books_fit q l q' max :
  books q l q' -> max_bytes q = Some max -> max < 2 ^ 63 -> used_bytes q <= max -> moderate l ->
  freed_total l < 2 ^ 63 -> - 2 ^ 63 <= used_bytes q - freed_total l ->
  used_bytes q - freed_total l <= used_bytes q' <= max /\ max_bytes q' = Some max.
Proof.
  intros Hb Hm Hlim Hu Hl Hf Hd. induction Hb as [q|q c b l q' Hc Hbc Hb IH|q b l q' Hb0 Hb IH].
  - simpl in *. split; [lia|done].
  - apply Forall_cons in Hl as [Hc63 Hl]. cbn [freed_total foldr] in Hf, Hd |- *; fold (freed_total l) in *. pose proof (freed_total_nonneg _ _ _ Hb).
    apply (quota_check_room q max) in Hc; [|done|done|lia|lia].
    rewrite quota_add_at in IH by lia. destruct IH as [IH1 IH2]; [done|lia|done|done|lia|]. split; [lia|done].
  - apply Forall_cons in Hl as [_ Hl]. cbn [freed_total foldr] in Hf, Hd |- *; fold (freed_total l) in *. pose proof (freed_total_nonneg _ _ _ Hb).
    rewrite quota_sub_at in IH by lia. destruct IH as [IH1 IH2]; [done|lia|done|lia|lia|]. split; [lia|done].
Qed.

(** ** Several threads

    The sessions of several mounts and the worker share the counter, and each of
    [check], [add] and [sub] is one relaxed atomic operation: between the check of
    one thread and its addition the others go on.  [pending] are the requests
    that were checked and whose bytes are not added yet, one per thread. *)
Record Shared := { counter : StorageQuota; pending : list Z }.

Inductive atomic (threads : nat) (most : Z) : relation Shared :=
  | at_check q l c : (length l < threads)%nat -> 0 <= c <= most -> quota_check q c = Ok tt ->
      atomic threads most {| counter := q; pending := l |} {| counter := q; pending := c :: l |}
  | at_add q l1 c l2 b : 0 <= b <= c ->
      atomic threads most {| counter := q; pending := l1 ++ c :: l2 |} {| counter := quota_add b q; pending := l1 ++ l2 |}
  | at_drop q l1 c l2 :
      atomic threads most {| counter := q; pending := l1 ++ c :: l2 |} {| counter := q; pending := l1 ++ l2 |}
  | at_sub q l b : 0 <= b < 2 ^ 63 -> - 2 ^ 63 <= used_bytes q - b ->
      atomic threads most {| counter := q; pending := l |} {| counter := quota_sub b q; pending := l |}.

Definition total (l : list Z) : Z := foldr Z.add 0 l.
Lemma total_app l1 l2 : total (l1 ++ l2) = total l1 + total l2.
Proof. induction l1; simpl; lia. Qed.
Lemma total_bounds most l :
  Forall (fun c => 0 <= c <= most) l -> 0 <= total l <= Z.of_nat (length l) * most.
Proof. induction 1; simpl; [lia|]. nia. Qed.

(** What the threads keep: the counter and everything outstanding together exceed
    the limit by no more than the requests of all threads but one. *)
Definition within (threads : nat) (most max : Z) (s : Shared) : Prop :=
  max_bytes (counter s) = Some max /\ - 2 ^ 63 <= used_bytes (counter s)
  /\ Forall (fun c => 0 <= c <= most) (pending s) /\ (length (pending s) <= threads)%nat
  /\ used_bytes (counter s) + total (pending s) <= max + (Z.of_nat threads - 1) * most.

Lemma atomic_within threads most max s s' :
  (0 < threads)%nat -> 0 <= max -> 0 <= most -> max + Z.of_nat threads * most < 2 ^ 63 ->
  within threads most max s -> atomic threads most s s' -> within threads most max s'.
Proof.
  intros Ht Hmax Hmost Hroom (Hm & Hlow & Hl & Hn & Hu) Hs.
  assert (0 <= (Z.of_nat threads - 1) * most) as Hslack by nia.
  destruct Hs as [q l c Hlt Hc Hq|q l1 c l2 b Hb|q l1 c l2|q l b Hb Hd]; simpl in *; pose proof (total_bounds _ _ Hl) as Ht1.
  - assert (used_bytes q + c <= max) as Hfit.
    { destruct (Z.le_gt_cases (used_bytes q) max) as [Hle|Hgt].
      - apply (quota_check_room q max) in Hq; [lia|done|lia|lia|nia].
      - exfalso. rewrite (quota_check_exact q max) in Hq; [|done|lia|nia].
        by rewrite (proj2 (Z.ltb_lt _ _)) in Hq by lia. }
    unfold within; cbn [counter pending length total foldr]; fold (total l).
    split_and!; [done|done|by apply Forall_cons|lia|].
    assert (Z.of_nat (length l) * most <= (Z.of_nat threads - 1) * most) by (apply Z.mul_le_mono_nonneg_r; lia). lia.
  - apply Forall_app in Hl as [Hl1 [Hc Hl2]%Forall_cons]. rewrite length_app in *. rewrite total_app in *. simpl in *.
    pose proof (total_bounds _ _ Hl1). pose proof (total_bounds _ _ Hl2).
    assert (max + (Z.of_nat threads - 1) * most < 2 ^ 63) by lia.
    unfold within; cbn [counter pending]; rewrite ?length_app, ?total_app, quota_add_at by nia. split_and!; [done|lia|by apply Forall_app|lia|lia].
  - apply Forall_app in Hl as [Hl1 [Hc Hl2]%Forall_cons]. rewrite length_app in *. rewrite total_app in *. simpl in *.
    unfold within; cbn [counter pending]; rewrite ?length_app, ?total_app. split_and!; [done|lia|by apply Forall_app|lia|lia].
  - unfold within; cbn [counter pending]; rewrite quota_sub_at by nia. split_and!; [done|lia|done|lia|lia].
Qed.


(** Two writers that both check before either adds. *)
Definition two_writers : Shared :=
  {| counter := quota_add 10 (quota_add 10 (quota_new (Some 10))); pending := [] |}.
Lemma two_writers_run : rtc (atomic 2 10) {| counter := quota_new (Some 10); pending := [] |} two_writers.
Proof.
  eapply rtc_l; [apply (at_check _ _ _ [] 10); [simpl; lia|lia|reflexivity]|].
  eapply rtc_l; [apply (at_check _ _ _ [10] 10); [simpl; lia|lia|reflexivity]|].
  eapply rtc_l; [apply (at_add _ _ _ [] 10 [10] 10); lia|].
  apply rtc_once, (at_add _ _ _ [] 10 [] 10). lia.
Qed.


Example two_writers_overrun :
  rtc (atomic 2 10) {| counter := quota_new (Some 10); pending := [] |} two_writers
  /\ used_bytes (counter two_writers) = 20.
Proof. split; [apply two_writers_run|reflexivity]. Qed.

(** Once the counter has gone below zero - deletions are charged with
    bytes that were never added, e.g. those of a symbolic link - [check]
    refuses every allocation smaller than the deficit under any limit below
    2^63, although [used] reports that nothing is in use. *)
Theorem negative_usage_refuses q max b :
  max_bytes q = Some max -> max < 2 ^ 63 -> - 2 ^ 63 <= used_bytes q < 0 -> 0 <= b < - used_bytes q ->
  quota_check q b = Err ENOSPC /\ quota_used q = 0.
Proof.
  intros Hm Hmax Hu Hb. split; [|unfold quota_used; lia].
  unfold quota_check. rewrite Hm.
  assert (wrap_u64 (used_bytes q) = used_bytes q + 2 ^ 64) as ->.
  { unfold wrap_u64. rewrite <- (Z.mod_add _ 1) by lia. apply Z.mod_small. lia. }
  rewrite wrap_u64_small by lia. by rewrite (proj2 (Z.ltb_lt _ _)) by lia.
Qed.

Lemma negative_usage_refuses_witness :
  let q := quota_sub 6 (quota_new (Some 1000000)) in
  quota_check q 5 = Err ENOSPC /\ quota_used q = 0.
Proof.
  apply (negative_usage_refuses _ 1000000); [reflexivity|lia| |];
    change (used_bytes (quota_sub 6 (quota_new (Some 1000000)))) with (-6); lia.
Defined.

(** The free space [statfs] reports is what the limit leaves, in whole blocks. *)
Lemma statfs_blocks_bounds q total free avail :
  quota_ok q -> statfs_blocks q = Some (total, free, avail) ->
  avail = free /\ 0 <= free <= total
  /\ exists max, max_bytes q = Some max /\ free = max / 4096 - used_bytes q / 4096.
Proof.
  unfold statfs_blocks, quota_max, quota_used. intros [Hu Hm].
  destruct (max_bytes q) as [max|]; [|done]. intros [= <- <- <-].
  rewrite (Z.max_l (used_bytes q)), (Z.min_l (used_bytes q)) by lia.
  pose proof (Z.div_le_mono (used_bytes q) max 4096). pose proof (Z.div_pos (used_bytes q) 4096).
  split; [done|]. split; [lia|]. exists max. split; [done|]. lia.
Qed.
