(* ===== verification/TextMerge.v ===== *)
(** * Three-way text merge (branch.rs)

    [split_lines_keepends], [changed_range] and [try_three_way_text_merge].  A
    line is kept with its newline.  A slice [lines[a..b]] with [a > b] panics in
    Rust, and the merge of this file does so too. *)

From S2P Require Import Prelude Strs.

Definition newline : ascii := "010"%char.

(** [str::split_inclusive('\n')] *)
Fixpoint split_lines_keepends (text : bytes) : list bytes :=
  match text with
  | [] => []
  | a :: t =>
      if bool_decide (a = newline) then [a] :: split_lines_keepends t
      else match split_lines_keepends t with
           | [] => [[a]]
           | l :: ls => (a :: l) :: ls
           end
  end.

(** [std::str::from_utf8] *)
Definition byte_in (lo hi : nat) (a : ascii) : bool :=
  let n := Ascii.nat_of_ascii a in (lo <=? n) && (n <=? hi).
Fixpoint utf8_valid (b : bytes) : bool :=
  match b with
  | [] => true
  | a :: t =>
      if byte_in 0 127 a then utf8_valid t
      else if byte_in 194 223 a then
        match t with x :: t1 => byte_in 128 191 x && utf8_valid t1 | _ => false end
      else if byte_in 224 239 a then
        match t with
        | x :: y :: t2 =>
            (if byte_in 224 224 a then byte_in 160 191 x
             else if byte_in 237 237 a then byte_in 128 159 x else byte_in 128 191 x)
            && byte_in 128 191 y && utf8_valid t2
        | _ => false
        end
      else if byte_in 240 244 a then
        match t with
        | x :: y :: z :: t3 =>
            (if byte_in 240 240 a then byte_in 144 191 x
             else if byte_in 244 244 a then byte_in 128 143 x else byte_in 128 191 x)
            && byte_in 128 191 y && byte_in 128 191 z && utf8_valid t3
        | _ => false
        end
      else false
  end.

(** The two [while] loops of [changed_range]. *)
Fixpoint prefix_loop (fuel prefix : nat) (base changed : list bytes) : nat :=
  match fuel with
  | O => prefix
  | S f =>
      if (prefix <? length base) && (prefix <? length changed)
         && bool_decide (base !! prefix = changed !! prefix)
      then prefix_loop f (S prefix) base changed
      else prefix
  end.

Fixpoint suffix_loop (fuel prefix suffix : nat) (base changed : list bytes) : nat :=
  match fuel with
  | O => suffix
  | S f =>
      if (suffix <? length base - prefix) && (suffix <? length changed - prefix)
         && bool_decide (base !! (length base - 1 - suffix) = changed !! (length changed - 1 - suffix))
      then suffix_loop f prefix (S suffix) base changed
      else suffix
  end.

(** [&l[a..b]] *)
Definition slice (a b : nat) (l : list bytes) : res exn (list bytes) :=
  if (a <=? b) && (b <=? length l) then Ok (take (b - a) (drop a l)) else Err Panic.

Definition changed_range (base changed : list bytes) : nat * nat * list bytes :=
  let prefix := prefix_loop (length base) 0 base changed in
  let suffix := suffix_loop (length base) prefix 0 base changed in
  let base_end := length base - suffix in
  let changed_end := length changed - suffix in
  (prefix, base_end, take (changed_end - prefix) (drop prefix changed)).

(** Lines [s..e] of the base give way to [repl], twice, [first] before [second]. *)
Definition apply_ranges (base : list bytes) (first second : nat * nat * list bytes) : res exn (list bytes) :=
  let '(s1, e1, r1) := first in
  let '(s2, e2, r2) := second in
  match slice 0 s1 base, slice e1 s2 base, slice e2 (length base) base with
  | Ok a, Ok b, Ok c => Ok (a ++ r1 ++ b ++ r2 ++ c)
  | _, _, _ => Err Panic
  end.

Definition try_three_way_text_merge (base current session : bytes) : res exn (option bytes) :=
  if bool_decide (current = session) then Ok (Some session)
  else if bool_decide (base = current) then Ok (Some session)
  else if bool_decide (base = session) then Ok (Some current)
  else if negb (utf8_valid base && utf8_valid current && utf8_valid session) then Ok None
  else
    let base_lines := split_lines_keepends base in
    let cur := changed_range base_lines (split_lines_keepends current) in
    let ses := changed_range base_lines (split_lines_keepends session) in
    let '(cur_start, cur_end, _) := cur in
    let '(ses_start, ses_end, _) := ses in
    if negb ((cur_end <=? ses_start) || (ses_end <=? cur_start)) then Ok None
    else
      match (if cur_start <=? ses_start then apply_ranges base_lines cur ses
             else apply_ranges base_lines ses cur) with
      | Ok merged => Ok (Some (concat merged))
      | Err x => Err x
      end.

Arguments changed_range : simpl never.
Arguments apply_ranges : simpl never.

(** ** Lines *)

Definition text (s : string) : bytes := bytes_of s.
Definition nl : string := String newline "".


Lemma concat_split_lines t : concat (split_lines_keepends t) = t.
Proof.
  induction t as [|a t IH]; [done|]. simpl. case_bool_decide; simpl; [by rewrite IH|].
  destruct (split_lines_keepends t); simpl in *; by rewrite <- IH.
Qed.

Lemma split_lines_inj t u : split_lines_keepends t = split_lines_keepends u -> t = u.
Proof. intros H. by rewrite <- (concat_split_lines t), H, concat_split_lines. Qed.

(** ** The changed range *)

Section Range.
Context (base changed : list bytes).

Lemma prefix_loop_spec fuel p :
  p <= length base -> p <= length changed -> take p base = take p changed ->
  let q := prefix_loop fuel p base changed in
  p <= q /\ q <= length base /\ q <= length changed /\ take q base = take q changed.
Proof.
  revert p; induction fuel as [|f IH]; intros p Hb Hc Ht; simpl; [done|].
  destruct (_ && _) eqn:Hcond; [|done]. rewrite !andb_true_iff, !Nat.ltb_lt, bool_decide_eq_true in Hcond.
  destruct Hcond as [[Hpb Hpc] Heq]. destruct (IH (S p)) as (?&?&?&?); [lia|lia| |split_and!; auto; lia].
  destruct (lookup_lt_is_Some_2 base p Hpb) as [x Hx].
  rewrite (take_S_r base p x), (take_S_r changed p x), Ht; [done|by rewrite <- Heq|done].
Qed.

(** The loop stops because its condition fails, not because it ran out. *)
Lemma prefix_loop_stops fuel p :
  p + fuel = length base ->
  let q := prefix_loop fuel p base changed in
  q = length base \/ q >= length changed \/ base !! q <> changed !! q.
Proof.
  revert p; induction fuel as [|f IH]; intros p Hf; simpl; [left; lia|].
  destruct (_ && _) eqn:Hcond; [apply (IH (S p)); lia|].
  rewrite !andb_false_iff, !Nat.ltb_ge, bool_decide_eq_false in Hcond.
  destruct Hcond as [[H|H]|H]; auto; lia.
Qed.

Lemma suffix_loop_spec fuel p s :
  s <= length base - p -> s <= length changed - p ->
  drop (length base - s) base = drop (length changed - s) changed ->
  let q := suffix_loop fuel p s base changed in
  s <= q /\ q <= length base - p /\ q <= length changed - p
  /\ drop (length base - q) base = drop (length changed - q) changed.
Proof.
  revert s; induction fuel as [|f IH]; intros s Hb Hc Ht; simpl; [done|].
  destruct (_ && _) eqn:Hcond; [|done]. rewrite !andb_true_iff, !Nat.ltb_lt, bool_decide_eq_true in Hcond.
  destruct Hcond as [[Hsb Hsc] Heq]. destruct (IH (S s)) as (?&?&?&?); [lia|lia| |split_and!; auto; lia].
  destruct (lookup_lt_is_Some_2 base (length base - 1 - s)) as [x Hx]; [lia|].
  rewrite Hx in Heq. symmetry in Heq.
  replace (length base - S s) with (length base - 1 - s) by lia.
  replace (length changed - S s) with (length changed - 1 - s) by lia.
  erewrite (drop_S base), (drop_S changed) by done.
  replace (S (length base - 1 - s)) with (length base - s) by lia.
  replace (S (length changed - 1 - s)) with (length changed - s) by lia.
  by rewrite Ht.
Qed.

Lemma changed_range_spec s e r :
  changed_range base changed = (s, e, r) ->
  s <= e /\ e <= length base
  /\ changed = take s base ++ r ++ drop e base.
Proof.
  unfold changed_range. set (p := prefix_loop _ _ _ _). set (q := suffix_loop _ _ _ _ _).
  destruct (prefix_loop_spec (length base) 0) as (_ & Hpb & Hpc & Hpt); [lia|lia|done|].
  fold p in Hpb, Hpc, Hpt.
  destruct (suffix_loop_spec (length base) p 0) as (_ & Hqb & Hqc & Hqt);
    [lia|lia|by rewrite !drop_ge by lia|].
  fold q in Hqb, Hqc, Hqt.
  intros [= <- <- <-]. split_and!; [lia|lia|].
  rewrite Hpt, Hqt. rewrite <- (take_drop p changed) at 1. f_equal.
  rewrite <- (take_drop (length changed - q - p) (drop p changed)) at 1. f_equal.
  rewrite drop_drop. f_equal. lia.
Qed.
End Range.

Lemma slice_ok a b l : a <= b -> b <= length l -> slice a b l = Ok (take (b - a) (drop a l)).
Proof. intros Ha Hb. unfold slice. by rewrite (proj2 (Nat.leb_le _ _) Ha), (proj2 (Nat.leb_le _ _) Hb). Qed.

Lemma slice_panic a b l : b < a -> slice a b l = Err Panic.
Proof. intros Ha. unfold slice. by rewrite (proj2 (Nat.leb_gt _ _) Ha). Qed.

(** Two ranges in order cut the base in five. *)
Lemma apply_ranges_ok (base : list bytes) s1 e1 r1 s2 e2 r2 :
  s1 <= e1 -> e1 <= s2 -> s2 <= e2 -> e2 <= length base ->
  exists A C M S Z,
    base = A ++ C ++ M ++ S ++ Z
    /\ take s1 base = A /\ drop e1 base = M ++ S ++ Z
    /\ take s2 base = A ++ C ++ M /\ drop e2 base = Z
    /\ apply_ranges base (s1, e1, r1) (s2, e2, r2) = Ok (A ++ r1 ++ M ++ r2 ++ Z).
Proof.
  intros H1 H2 H3 H4.
  exists (take s1 base), (take (e1 - s1) (drop s1 base)), (take (s2 - e1) (drop e1 base)),
    (take (e2 - s2) (drop s2 base)), (drop e2 base).
  assert (forall a b, a <= b -> drop a base = take (b - a) (drop a base) ++ drop b base) as Hcut.
  { intros a b Hab. rewrite <- (take_drop (b - a) (drop a base)) at 1. f_equal. rewrite drop_drop. f_equal. lia. }
  assert (forall a b, a <= b -> take b base = take a base ++ take (b - a) (drop a base)) as Hcat.
  { intros a b Hab. rewrite take_drop_commute. rewrite <- (take_drop a (take b base)) at 1.
    rewrite take_take, Nat.min_l by lia. by replace (a + (b - a)) with b by lia. }
  split_and!.
  - rewrite <- (Hcut s2 e2), <- (Hcut e1 s2), <- (Hcut s1 e1) by lia. by rewrite take_drop.
  - done.
  - by rewrite <- (Hcut s2 e2), <- (Hcut e1 s2) by lia.
  - rewrite (Hcat s1 s2) by lia. f_equal.
    rewrite (Hcut s1 e1) at 1 by lia. rewrite take_app. rewrite length_take, length_drop.
    rewrite Nat.min_l by lia. rewrite take_ge by (rewrite length_take, length_drop; lia).
    do 2 f_equal. lia.
  - done.
  - unfold apply_ranges. rewrite !slice_ok by lia. rewrite Nat.sub_0_r, drop_0.
    rewrite (take_ge (drop e2 base)) by (rewrite length_drop; lia). done.
Qed.

(** The part of the merge past its shortcuts, as one case analysis. *)
Lemma try_merge_cases base current session r :
  try_three_way_text_merge base current session = r ->
  (current = session /\ r = Ok (Some session))
  \/ (base = current /\ r = Ok (Some session))
  \/ (base = session /\ r = Ok (Some current))
  \/ (current <> session /\ base <> current /\ base <> session /\
      ((utf8_valid base && utf8_valid current && utf8_valid session = false /\ r = Ok None)
       \/ (utf8_valid base && utf8_valid current && utf8_valid session = true /\
           exists cs ce cr ss se sr,
             changed_range (split_lines_keepends base) (split_lines_keepends current) = (cs, ce, cr)
             /\ changed_range (split_lines_keepends base) (split_lines_keepends session) = (ss, se, sr)
             /\ ((ss < ce /\ cs < se /\ r = Ok None)
                 \/ ((ce <= ss \/ se <= cs) /\
                     r = match (if cs <=? ss
                                then apply_ranges (split_lines_keepends base) (cs, ce, cr) (ss, se, sr)
                                else apply_ranges (split_lines_keepends base) (ss, se, sr) (cs, ce, cr)) with
                         | Ok merged => Ok (Some (concat merged))
                         | Err x => Err x
                         end))))).
Proof.
  intros <-. unfold try_three_way_text_merge.
  case_bool_decide; [by left|]. case_bool_decide; [by right; left|]. case_bool_decide; [by right; right; left|].
  right; right; right. split_and!; [done..|]. destruct (_ && _) eqn:Hu; cbn [negb]; [|by left].
  right. split; [done|].
  destruct (changed_range _ (split_lines_keepends current)) as [[cs ce] cr].
  destruct (changed_range _ (split_lines_keepends session)) as [[ss se] sr].
  exists cs, ce, cr, ss, se, sr. split_and!; [done..|].
  destruct (Nat.leb_spec ce ss), (Nat.leb_spec se cs); simpl;
    [right; split; [lia|done]..|]. left. split_and!; [lia|lia|reflexivity].
Qed.



(** The merge panics (a slice [lines[e..s]] with [s < e]) exactly when the
    session only inserts lines right before a block of lines that the current
    version changed or removed. *)
Theorem three_way_merge_panics_iff base current session :
  try_three_way_text_merge base current session = Err Panic <->
  current <> session /\ base <> current /\ base <> session
  /\ utf8_valid base && utf8_valid current && utf8_valid session = true
  /\ exists p e cr sr,
       changed_range (split_lines_keepends base) (split_lines_keepends current) = (p, e, cr)
       /\ changed_range (split_lines_keepends base) (split_lines_keepends session) = (p, p, sr)
       /\ p < e.
Proof.
  split.
  - intros H. apply try_merge_cases in H.
    destruct H as [[? H]|[[? H]|[[? H]|(?&?&?&[[_ H]|(Hu&cs&ce&cr&ss&se&sr&Hc&Hs&H)])]]]; [done..|].
    destruct H as [(_&_&H)|[Hno H]]; [done|].
    destruct (changed_range_spec _ _ _ _ _ Hc) as (Hc1 & Hc2 & Hc3).
    destruct (changed_range_spec _ _ _ _ _ Hs) as (Hs1 & Hs2 & Hs3).
    split_and!; [done..|]. destruct (Nat.leb_spec cs ss) as [Hle|Hlt].
    + destruct (decide (ce <= ss)) as [Hce|Hce].
      * destruct (apply_ranges_ok (split_lines_keepends base) cs ce cr ss se sr)
          as (A & C & M & S & Z & E & E1 & E2 & E3 & E4 & E5); [lia..|]. by rewrite E5 in H.
      * assert (ss = cs /\ se = cs) as [-> ->] by lia. exists cs, ce, cr, sr. split_and!; [done..|lia].
    + destruct (apply_ranges_ok (split_lines_keepends base) ss se sr cs ce cr)
        as (A & C & M & S & Z & E & E1 & E2 & E3 & E4 & E5); [lia..|]. by rewrite E5 in H.
  - intros (H1 & H2 & H3 & Hu & p & e & cr & sr & Hc & Hs & Hlt).
    unfold try_three_way_text_merge. rewrite !bool_decide_false by done. rewrite Hu. cbn [negb].
    rewrite Hc, Hs. rewrite (proj2 (Nat.leb_gt e p)) by lia. rewrite !Nat.leb_refl. simpl.
    unfold apply_ranges. rewrite (slice_panic e p) by lia. by destruct (slice 0 p _).
Qed.

(** Two siblings: one rewrites the first line, the other adds a line above it. *)
Example three_way_merge_panic_example :
  try_three_way_text_merge (text ("a" +:+ nl +:+ "b" +:+ nl)) (text ("A" +:+ nl +:+ "b" +:+ nl))
    (text ("new" +:+ nl +:+ "a" +:+ nl +:+ "b" +:+ nl)) = Err Panic.
Proof. vm_compute. reflexivity. Qed.

Lemma prefix_loop_app fuel (X Y : list bytes) p :
  fuel = length X - p -> p <= length X -> prefix_loop fuel p X (X ++ Y) = length X.
Proof.
  revert p; induction fuel as [|f IH]; intros p Hf Hp; simpl; [lia|].
  rewrite length_app. rewrite !(proj2 (Nat.ltb_lt _ _)) by lia.
  rewrite lookup_app_l by lia. rewrite bool_decide_true by done. simpl. apply IH; lia.
Qed.

Lemma changed_range_append (X Y : list bytes) :
  changed_range X (X ++ Y) = (length X, length X, Y).
Proof.
  unfold changed_range. rewrite prefix_loop_app by lia.
  assert (forall f, suffix_loop f (length X) 0 X (X ++ Y) = 0) as ->.
  { intros [|f]; simpl; [done|]. by rewrite Nat.sub_diag. }
  rewrite !Nat.sub_0_r, length_app, drop_app_length.
  by rewrite take_ge by lia.
Qed.

Lemma split_lines_app_line (X : bytes) (l : bytes) :
  (X = [] \/ List.last X Ascii.zero = newline) -> l <> [] -> newline ∉ l ->
  split_lines_keepends (X ++ l) = split_lines_keepends X ++ [l].
Proof.
  intros HX Hl Hnl. induction X as [|a X IH]; simpl.
  - clear HX. induction l as [|b l IHl]; [done|]. simpl. rewrite bool_decide_false by set_solver.
    destruct l as [|c l]; [done|]. rewrite IHl; [done|done|set_solver].
  - assert (X = [] \/ List.last X Ascii.zero = newline) as HX'.
    { destruct HX as [|HX]; [done|]. destruct X; [by left|by right]. }
    rewrite IH by done. destruct (bool_decide (a = newline)) eqn:Ha; [done|].
    destruct (split_lines_keepends X) eqn:Hs; [|done].
    assert (X = []) as -> by (rewrite <- (concat_split_lines X), Hs; done).
    destruct HX as [|HX]; [done|]. simpl in HX. apply bool_decide_eq_false in Ha. congruence.
Qed.

(** When both sides append one last line without a final newline, the merge
    is reported clean and the two lines come out glued into one: the text holds
    a line that neither side wrote. *)
Theorem three_way_merge_glues_last_lines base l k :
  (base = [] \/ List.last base Ascii.zero = newline) ->
  l <> [] -> k <> [] -> l <> k -> newline ∉ l -> newline ∉ k ->
  utf8_valid base && utf8_valid (base ++ l) && utf8_valid (base ++ k) = true ->
  try_three_way_text_merge base (base ++ l) (base ++ k) = Ok (Some (base ++ l ++ k)).
Proof.
  intros Hb Hl Hk Hne Hnl Hnk Hu. unfold try_three_way_text_merge.
  assert (forall x : bytes, x <> [] -> base <> base ++ x) as Happ.
  { intros [|c x] Hx H%(f_equal length); [done|]. rewrite length_app in H. simpl in H. lia. }
  rewrite !bool_decide_false; [|by apply Happ|by apply Happ|by intros ?%app_inv_head].
  rewrite Hu. cbn [negb]. rewrite !split_lines_app_line, !changed_range_append by done.
  rewrite !Nat.leb_refl. simpl. unfold apply_ranges. rewrite !slice_ok by lia. rewrite Nat.sub_diag, Nat.sub_0_r, drop_0.
  rewrite firstn_all, drop_all. simpl. rewrite concat_app, concat_split_lines. simpl.
  by rewrite app_nil_r.
Qed.

Lemma three_way_merge_glues_last_lines_witness :
  try_three_way_text_merge (text ("x" +:+ nl)) (text ("x" +:+ nl) ++ text "y") (text ("x" +:+ nl) ++ text "z")
  = Ok (Some (text ("x" +:+ nl) ++ text "y" ++ text "z")).
Proof.
  apply (three_way_merge_glues_last_lines (text ("x" +:+ nl)) (text "y") (text "z"));
    [right; reflexivity|discriminate|discriminate|discriminate| | |vm_compute; reflexivity];
    intros [[=]|[]]%list_elem_of_In.
Defined.
