(* ===== verification/Staged.v ===== *)
(** * Staged merges (branch.rs, [StagedMerge])

    All the destructive work of a commit is first staged next to its final
    place - copies as [.branchfs-tmp.<name>], deletions renamed aside as
    [.branchfs-trash.<name>] - and then published; a merge that is dropped
    before that is rolled back. *)

From S2P Require Import Prelude Strs HostFs.

(** [copies]: (temp path, destination); [deletes]: (trash path, original). *)
Record StagedMerge := {
  copies : list (path * path);
  deletes : list (path * path);
  merged : list string;
  staged_bytes : Z;
  committed : bool;
}.

Definition staged_new : StagedMerge :=
  {| copies := []; deletes := []; merged := []; staged_bytes := 0; committed := false |}.

(** [commit_side_path] *)
Definition side_name (tag name : string) : string := ".branchfs-" +:+ tag +:+ "." +:+ name.
Definition commit_side_path (target : path) (tag : string) : path :=
  with_file_name target (side_name tag (file_name target)).

(** The merge in progress travels with the host state. *)
Abbreviation SIO := (M (host * StagedMerge)).

Section Staged.
Context {E : Env}.

Definition stage_delete (target : path) : SIO unit :=
  let* r := on_host (attempt (symlink_metadata target)) in
  match r with
  | Err _ => ret tt
  | Ok _ =>
      let trash := commit_side_path target "trash" in
      let* _ := on_host (attempt (remove_entry trash)) in
      do* on_host (rename target trash);
      on_mem (fun m => {| copies := copies m; deletes := deletes m ++ [(trash, target)];
                                 merged := merged m; staged_bytes := staged_bytes m;
                                 committed := committed m |})
  end.

(** The copy proper of [stage_copy], with the guards of the source's
    directories dropped when it ends, well or not. *)
Definition guarded_copy_entry (src tmp : path) : IO unit :=
  let* guards := guard_existing_parent_dirs src in
  let* r := attempt (copy_entry src tmp) in
  do* for_each guards guard_drop;
  of_res r.

Definition stage_copy (rel_path : string) (src dest_root : path) : SIO unit :=
  let dest := join dest_root rel_path in
  let* r := on_host (attempt (symlink_metadata dest)) in
  do* when (match r with Ok m => is_dir m | Err _ => false end) (stage_delete dest);
  let tmp := commit_side_path dest "tmp" in
  do* on_host (guarded_copy_entry src tmp);
  let* meta := on_host (attempt (symlink_metadata src)) in
  let len := match meta with Ok m => node_len m | Err _ => 0%Z end in
  on_mem (fun m => {| copies := copies m ++ [(tmp, dest)]; deletes := deletes m;
                             merged := merged m ++ [rel_path]; staged_bytes := staged_bytes m + len;
                             committed := committed m |}).

(** [StagedMerge::commit] *)
Definition publish : SIO (list string) :=
  let* m := gets snd in
  do* on_host (for_each (copies m) (fun c => rename c.1 c.2));
  do* on_host (for_each (deletes m) (fun d => remove_entry d.1));
  do* on_mem (fun m => {| copies := copies m; deletes := deletes m; merged := [];
                                 staged_bytes := staged_bytes m; committed := true |});
  ret (merged m).

(** [Drop for StagedMerge] *)
Definition rollback (m : StagedMerge) : IO unit :=
  if committed m then ret tt
  else
    do* for_each (copies m) (fun c => let* _ := attempt (remove_entry c.1) in ret tt);
    for_each (deletes m) (fun d => let* _ := attempt (rename d.1 d.2) in ret tt).

(** The scope of a [StagedMerge]: it is dropped when the scope is left, by
    a return, an error or a panic. *)
Definition with_staged {A} (body : SIO A) : IO A :=
  fun h => let '(r, (h1, m)) := body (h, staged_new) in (r, (rollback m h1).2).
End Staged.
