(* ===== verification/Branch.v ===== *)
(** * A branch and its store directory (branch.rs, [Branch])

    The state a branch keeps in memory, the files of its directory under
    [<storage>/branches/<name>/], and the operations that keep the two in step:
    metadata, the tombstone set with its append-only log, and the records of
    first touches with theirs.

    [serde_json] is not part of the sources: its functions are the parameters
    of [Serde], what the code relies on are the laws of [SerdeLaws]. *)

From stdpp Require Import sorting.
From S2P Require Import Prelude Strs HostFs TextMerge.

Open Scope bool_scope.

(** ** Data *)

Inductive InheritanceMode := Lazy | Snapshot.
Inductive BranchState := Open | Frozen.
#[export] Instance inheritance_eq_dec : EqDecision InheritanceMode.
Proof. solve_decision. Defined.
#[export] Instance branch_state_eq_dec : EqDecision BranchState.
Proof. solve_decision. Defined.

Record BranchMetadata := {
  m_name : string;
  m_parent : option string;
  m_inheritance : InheritanceMode;
  m_state : BranchState;
  m_parent_version_at_fork : Z;
  m_commit_count : Z;
  m_hide_paths : list string;
}.

Record PathIdentity := {
  pi_exists : bool;
  pi_kind : string;
  pi_bytes : Z;
  pi_mtime_ns : option Z;
}.
#[export] Instance path_identity_eq_dec : EqDecision PathIdentity.
Proof. solve_decision. Defined.

Record TouchRecord := {
  t_path : string;
  base_at_first_touch : PathIdentity;
  base_content_key : option string;
}.
#[export] Instance touch_record_eq_dec : EqDecision TouchRecord.
Proof. solve_decision. Defined.

Class Serde := {
  enc_meta : BranchMetadata -> bytes;
  dec_meta : string -> res string BranchMetadata;
  enc_touch : TouchRecord -> string;
  dec_touch : string -> res string TouchRecord;
  dec_touches : bytes -> res string (gmap string TouchRecord);
}.

(** A record is written as one line of JSON: an object, no raw control
    character, and both directions agree. *)
Class SerdeLaws (J : Serde) := {
  dec_enc_meta : forall m, dec_meta (string_of (enc_meta m)) = Ok m;
  enc_meta_utf8 : forall m, utf8_valid (enc_meta m) = true;
  dec_enc_touch : forall r, dec_touch (enc_touch r) = Ok r;
  enc_touch_object : forall r, exists s, enc_touch r = String "{" s;
  enc_touch_one_line : forall r, contains_char newline (enc_touch r) = false
                                 /\ utf8_valid (bytes_of (enc_touch r)) = true;
}.

(** The in-memory branch; the paths of its files are those of its directory. *)
Record Branch := {
  name : string;
  br_parent : option string;
  branch_dir : path;
  inheritance : InheritanceMode;
  state : BranchState;
  tombstones : gset string;
  touches : gmap string TouchRecord;
  commit_count : Z;
  parent_version_at_fork : Z;
  hide_paths : list string;
}.

Definition branch_dir_of (storage_path : path) (n : string) : path := storage_path ++ ["branches"; n].
Definition files_dir (b : Branch) : path := branch_dir b ++ ["files"].
Definition inherited_dir (b : Branch) : path := branch_dir b ++ ["inherited"].
Definition tombstones_file (d : path) : path := d ++ ["tombstones"].
Definition tombstones_log_file (d : path) : path := d ++ ["tombstones.log"].
Definition touches_file (d : path) : path := d ++ ["touches.json"].
Definition touches_log_file (d : path) : path := d ++ ["touches.log"].
Definition touch_content_dir (b : Branch) : path := branch_dir b ++ ["touch-content"].
Definition staging_dir (b : Branch) : path := branch_dir b ++ ["staging"].
Definition meta_file (d : path) : path := d ++ ["meta.json"].

Definition set_tombs (T : gset string) (b : Branch) : Branch :=
  {| name := name b; br_parent := br_parent b; branch_dir := branch_dir b; inheritance := inheritance b;
     state := state b; tombstones := T; touches := touches b; commit_count := commit_count b;
     parent_version_at_fork := parent_version_at_fork b; hide_paths := hide_paths b |}.
Definition set_touches (m : gmap string TouchRecord) (b : Branch) : Branch :=
  {| name := name b; br_parent := br_parent b; branch_dir := branch_dir b; inheritance := inheritance b;
     state := state b; tombstones := tombstones b; touches := m; commit_count := commit_count b;
     parent_version_at_fork := parent_version_at_fork b; hide_paths := hide_paths b |}.
Definition with_state (st : BranchState) (b : Branch) : Branch :=
  {| name := name b; br_parent := br_parent b; branch_dir := branch_dir b; inheritance := inheritance b;
     state := st; tombstones := tombstones b; touches := touches b; commit_count := commit_count b;
     parent_version_at_fork := parent_version_at_fork b; hide_paths := hide_paths b |}.
Definition with_commit_count (z : Z) (b : Branch) : Branch :=
  {| name := name b; br_parent := br_parent b; branch_dir := branch_dir b; inheritance := inheritance b;
     state := state b; tombstones := tombstones b; touches := touches b; commit_count := z;
     parent_version_at_fork := parent_version_at_fork b; hide_paths := hide_paths b |}.

(** ** [PathIdentity] and the capture of base contents *)

Definition identity_missing : PathIdentity :=
  {| pi_exists := false; pi_kind := "missing"; pi_bytes := 0; pi_mtime_ns := None |}.

Definition kind_name (k : kind) : string :=
  match k with KDir => "dir" | KSymlink _ => "symlink" | KFile _ => "file" | KOther => "other" end.

Definition identity_of (meta : node) : PathIdentity :=
  {| pi_exists := true;
     pi_kind := kind_name (n_kind meta);
     pi_bytes := if is_file meta then node_len meta else 0;
     pi_mtime_ns := if (0 <=? n_mtime meta)%Z then Some (n_mtime meta) else None |}.

(** [PathIdentity::from_path] *)
Definition identity_from_path (p : option path) : IO PathIdentity :=
  match p with
  | None => ret identity_missing
  | Some p =>
      let* r := attempt (symlink_metadata p) in
      ret (match r with Ok meta => identity_of meta | Err _ => identity_missing end)
  end.

Definition MAX_TEXT_MERGE_BYTES : Z := 1024 * 1024.

Definition hex_digit (z : Z) : ascii :=
  Ascii.ascii_of_nat (Z.to_nat (if (z <? 10)%Z then z + 48 else z + 87)%Z).
(** [format!("{:016x}")] *)
Fixpoint hex_digits (n : nat) (z : Z) : string :=
  match n with
  | O => ""
  | S n' => String (hex_digit (Z.land (Z.shiftr z (4 * Z.of_nat n')) 15)) (hex_digits n' z)
  end.

Definition fnv_offset : Z := 14695981039346656037.
Definition fnv_prime : Z := 1099511628211.
Definition fnv_step (hash : Z) (b : ascii) : Z :=
  wrap_u64 (Z.lxor hash (Z.of_nat (Ascii.nat_of_ascii b)) * fnv_prime).
Definition fnv1a (s : string) : Z := foldl fnv_step fnv_offset (bytes_of s).

Definition touch_content_key (rel_path : string) : string :=
  hex_digits 16 (fnv1a rel_path) +:+ ".base".

Definition read_bounded_text (p : path) : IO (option bytes) :=
  let* r := attempt (symlink_metadata p) in
  match r with
  | Err (Io ENOENT) => ret None
  | Err e => throw e
  | Ok meta =>
      if negb (is_file meta) || (MAX_TEXT_MERGE_BYTES <? node_len meta)%Z then ret None
      else
        let* b := read p in
        if existsb (fun c => bool_decide (c = Ascii.zero)) b || negb (utf8_valid b) then ret None
        else ret (Some b)
  end.

(** ** Reading files line by line *)

Definition cr : ascii := "013"%char.

(** One item of [BufRead::lines]: the line without its "\n" or "\r\n";
    [EILSEQ] stands for [ErrorKind::InvalidData]. *)
Definition chomp (l : bytes) : bytes :=
  match rev l with
  | a :: r =>
      if bool_decide (a = newline) then
        match r with
        | c :: r' => if bool_decide (c = cr) then rev r' else rev r
        | [] => []
        end
      else l
  | [] => []
  end.
Definition line_of (l : bytes) : res BranchError string :=
  if utf8_valid l then Ok (string_of (chomp l)) else Err (Io EILSEQ).

Definition read_to_string (p : path) : IO string :=
  let* d := read p in
  if utf8_valid d then ret (string_of d) else io_error EILSEQ.

Definition blank (s : string) : bool := bool_decide (trim s = "").
Definition text_line (s : string) : bytes := bytes_of s ++ [newline].

Definition str_le (a b : string) : Prop := String.leb a b = true.
#[export] Instance str_le_dec : RelDecision str_le.
Proof. intros a b. unfold str_le. apply _. Defined.
Definition sort_strings : list string -> list string := merge_sort str_le.
Fixpoint dedup (l : list string) : list string :=
  match l with
  | x :: (y :: _) as t => if bool_decide (x = y) then dedup t else x :: dedup t
  | _ => l
  end.

(** ** Operations of a branch *)

(** A branch operation works on the host and on the branch's own memory. *)
Abbreviation BIO := (M (host * Branch)).

Section Branch.
Context {E : Env} {J : Serde}.

Definition json {A} (r : res string A) : IO A :=
  match r with Ok a => ret a | Err s => throw (Json s) end.

(** The temporary name [with_extension("<ext>.tmp.<uuid>")] gives. *)
Definition tmp_name (p : path) : IO path :=
  let* u := fresh_uuid in
  ret (with_file_name p (file_name p +:+ ".tmp." +:+ u)).

(** *** Metadata *)

Definition metadata_of (b : Branch) : BranchMetadata :=
  {| m_name := name b; m_parent := br_parent b; m_inheritance := inheritance b; m_state := state b;
     m_parent_version_at_fork := parent_version_at_fork b; m_commit_count := commit_count b;
     m_hide_paths := hide_paths b |}.

Definition write_metadata : BIO unit :=
  let* b := gets snd in
  let data := enc_meta (metadata_of b) in
  let file := meta_file (branch_dir b) in
  on_host (
    do* ensure_parent_dirs file;
    let* tmp := tmp_name file in
    do* write tmp data;
    rename tmp file).

Definition is_hidden (b : Branch) (rel_path : string) : bool := hidden_by (hide_paths b) rel_path.
Definition is_writable (b : Branch) : bool := bool_decide (state b = Open).

Definition set_state (st : BranchState) : BIO unit :=
  do* on_mem (with_state st);
  write_metadata.

(** *** Tombstones *)

(** One line of the tombstone log. *)
Definition replay_tombstone (T : gset string) (line : string) : gset string :=
  if blank line then T
  else match strip_prefix "+ " line with
       | Some p => {[p]} ∪ T
       | None => match strip_prefix "- " line with
                 | Some p => T ∖ {[p]}
                 | None => {[line]} ∪ T
                 end
       end.

Definition load_lines {A} (p : path) (a : A) (f : A -> string -> IO A) : IO A :=
  let* e := exists_ p in
  if e then
    let* d := read p in
    fold_m (fun a l => let* line := of_res (line_of l) in f a line) a (split_lines_keepends d)
  else ret a.

Definition load_tombstones (snapshot_path log_path : path) : IO (gset string) :=
  let* T := load_lines snapshot_path ∅ (fun T line => ret (if blank line then T else {[line]} ∪ T)) in
  load_lines log_path T (fun T line => ret (replay_tombstone T line)).

(** The two lines an operation can log. *)
Definition op_line (op : string) (p : string) : bytes := text_line (op +:+ " " +:+ p).

Definition append_tombstone_op (op p : string) : BIO unit :=
  let* b := gets snd in
  let file := tombstones_log_file (branch_dir b) in
  on_host (do* ensure_parent_dirs file; append file (op_line op p)).

Definition add_tombstone (p : string) : BIO unit :=
  let* b := gets snd in
  if bool_decide (p ∈ tombstones b) then ret tt
  else
    do* on_mem (fun b => set_tombs ({[p]} ∪ tombstones b) b);
    append_tombstone_op "+" p.

Definition remove_tombstone (p : string) : BIO unit :=
  let* b := gets snd in
  if bool_decide (p ∈ tombstones b) then
    do* on_mem (fun b => set_tombs (tombstones b ∖ {[p]}) b);
    append_tombstone_op "-" p
  else ret tt.

Definition remove_tombstones_under (p : string) : BIO unit :=
  let* b := gets snd in
  let removed := List.filter (fun c => path_is_same_or_descendant c p) (set_order (tombstones b)) in
  do* on_mem (fun b => set_tombs (tombstones b ∖ list_to_set removed) b);
  for_each removed (fun t => append_tombstone_op "-" t).

Definition rewrite_tombstones (T : gset string) : BIO unit :=
  let* b := gets snd in
  let d := branch_dir b in
  on_host (
    do* write (tombstones_file d) [];
    do* for_each (set_order T) (fun t => append (tombstones_file d) (text_line t));
    let* r := attempt (remove_file_call (tombstones_log_file d)) in
    match r with
    | Ok _ => ret tt
    | Err (Io ENOENT) => ret tt
    | Err e => throw e
    end).

Definition set_tombstones (T : gset string) : BIO unit :=
  do* on_mem (set_tombs T);
  rewrite_tombstones T.

Definition get_tombstones (b : Branch) : gset string := tombstones b.
Definition is_deleted (b : Branch) (p : string) : bool := deleted_by (tombstones b) p.

(** *** First touches *)

Definition touch_content_path (b : Branch) (key : string) : path := touch_content_dir b ++ [key].
Definition get_touch_record (b : Branch) (rel_path : string) : option TouchRecord := touches b !! rel_path.

(** One line of the touch log. *)
Definition replay_touch (m : gmap string TouchRecord) (line : string) : IO (gmap string TouchRecord) :=
  if blank line then ret m
  else match strip_prefix "- " line with
       | Some p => ret (filter (fun kv => path_is_same_or_descendant kv.1 p = false) m)
       | None => let* r := json (dec_touch line) in ret (<[t_path r := r]> m)
       end.

Definition load_touches (snapshot_path log_path : path) : IO (gmap string TouchRecord) :=
  let* e := exists_ snapshot_path in
  let* m :=
    (if e then
       let* data := read snapshot_path in
       match data with [] => ret ∅ | _ => json (dec_touches data) end
     else ret ∅) in
  load_lines log_path m replay_touch.

Definition append_touch (r : TouchRecord) : BIO unit :=
  let* b := gets snd in
  let file := touches_log_file (branch_dir b) in
  on_host (do* ensure_parent_dirs file; append file (text_line (enc_touch r))).

Definition append_touch_removal (rel_path : string) : BIO unit :=
  let* b := gets snd in
  let file := touches_log_file (branch_dir b) in
  on_host (do* ensure_parent_dirs file; append file (op_line "-" rel_path)).

Definition remove_content (p : path) : IO unit :=
  let* r := attempt (remove_file_call p) in
  match r with
  | Ok _ => ret tt
  | Err (Io ENOENT) => ret tt
  | Err e => throw e
  end.

Definition remove_touch_records_under (rel_path : string) : BIO unit :=
  let* b := gets snd in
  let removed := omap (fun k => touches b !! k)
                   (List.filter (fun k => path_is_same_or_descendant k rel_path)
                                (set_order (dom (touches b)))) in
  do* on_mem (fun b => set_touches (foldl (fun m r => delete (t_path r) m) (touches b) removed) b);
  match removed with
  | [] => ret tt
  | _ =>
      do* append_touch_removal rel_path;
      for_each removed (fun r =>
        match base_content_key r with
        | Some key => on_host (remove_content (touch_content_path b key))
        | None => ret tt
        end)
  end.

(** The base content is kept for a later merge when it is short text. *)
Definition capture_content (b : Branch) (rel_path : string) (inherited : option path) (capture : bool)
  : IO (option string) :=
  match capture, inherited with
  | true, Some p =>
      let* r := read_bounded_text p in
      match r with
      | Some data =>
          let key := touch_content_key rel_path in
          let content_path := touch_content_path b key in
          do* ensure_parent_dirs content_path;
          do* write content_path data;
          ret (Some key)
      | None => ret None
      end
  | _, _ => ret None
  end.

Definition record_first_touch (rel_path : string) (inherited : option path) (capture : bool) : BIO unit :=
  let* b := gets snd in
  if bool_decide (is_Some (touches b !! rel_path)) then ret tt
  else
    let* base_identity := on_host (identity_from_path inherited) in
    let* key := on_host (capture_content b rel_path inherited capture) in
    let r := {| t_path := rel_path; base_at_first_touch := base_identity; base_content_key := key |} in
    do* on_mem (fun b => set_touches (<[rel_path := r]> (touches b)) b);
    append_touch r.

Definition read_touch_base_content (b : Branch) (r : TouchRecord) : IO (option bytes) :=
  match base_content_key r with
  | None => ret None
  | Some key =>
      let* x := attempt (read (touch_content_path b key)) in
      match x with
      | Ok d => ret (Some d)
      | Err (Io ENOENT) => ret None
      | Err e => throw e
      end
  end.

(** *** Stores written by older versions *)

(** The new log takes the place of the old one, which it is a copy of with
    [migrated] in front. *)
Definition install_migrated (log_path : path) (migrated : bytes) : IO unit :=
  let* e := exists_ log_path in
  let* old := (if e then read log_path else ret []) in
  do* ensure_parent_dirs log_path;
  let* tmp := tmp_name log_path in
  do* write tmp (migrated ++ old);
  rename tmp log_path.

Definition migrate_legacy_tombstones (snapshot_path log_path : path) : IO unit :=
  let* e := exists_ snapshot_path in
  if negb e then ret tt
  else
    let* ps := load_lines snapshot_path [] (fun ps line => ret (if blank line then ps else ps ++ [line])) in
    match ps with
    | [] => ret tt
    | _ =>
        let migrated := concat (map (op_line "+") (dedup (sort_strings ps))) in
        do* install_migrated log_path migrated;
        write snapshot_path []
    end.

Definition touch_le (a b : TouchRecord) : Prop := str_le (t_path a) (t_path b).
#[local] Instance touch_le_dec : RelDecision touch_le.
Proof. intros a b. unfold touch_le. apply _. Defined.

Definition migrate_legacy_touches (snapshot_path log_path : path) : IO unit :=
  let* e := exists_ snapshot_path in
  if negb e then ret tt
  else
    let* data := read snapshot_path in
    match data with
    | [] => ret tt
    | _ =>
        let* m := json (dec_touches data) in
        if bool_decide (m = ∅) then ret tt
        else
          let records := merge_sort touch_le (omap (fun k => m !! k) (set_order (dom m))) in
          let migrated := concat (map (fun r => text_line (enc_touch r)) records) in
          do* install_migrated log_path migrated;
          write snapshot_path (text_line "{}")
    end.

Definition migrate_legacy_touch_and_tombstone_snapshots (d : path) : IO unit :=
  do* migrate_legacy_touches (touches_file d) (touches_log_file d);
  migrate_legacy_tombstones (tombstones_file d) (tombstones_log_file d).

(** *** Construction *)

Definition make_store_dirs (d : path) : IO unit :=
  do* create_dir_all (d ++ ["files"]);
  do* create_dir_all (d ++ ["inherited"]);
  do* create_dir_all (d ++ ["touch-content"]);
  do* create_dir_all (d ++ ["staging"]);
  let* e := exists_ (tombstones_file d) in
  when (negb e) (write (tombstones_file d) []).

(** [Branch::new] *)
Definition new (n : string) (parent : option string) (storage_path : path) (pv : Z)
    (inh : InheritanceMode) (hides : list string) : IO Branch :=
  let d := branch_dir_of storage_path n in
  do* make_store_dirs d;
  let* T := load_tombstones (tombstones_file d) (tombstones_log_file d) in
  let* m := load_touches (touches_file d) (touches_log_file d) in
  let b := {| name := n; br_parent := parent; branch_dir := d; inheritance := inh; state := Open;
              tombstones := T; touches := m; commit_count := 0; parent_version_at_fork := pv;
              hide_paths := omap normalize_hide_path hides |} in
  fun h => let '(r, (h1, _)) := write_metadata (h, b) in
           (match r with Ok _ => Ok b | Err x => Err x end, h1).

(** [Branch::load] *)
Definition load (storage_path : path) (n : string) : IO Branch :=
  let d := branch_dir_of storage_path n in
  let* meta_data := read_to_string (meta_file d) in
  let* meta := json (dec_meta meta_data) in
  do* make_store_dirs d;
  do* migrate_legacy_touch_and_tombstone_snapshots d;
  let* T := load_tombstones (tombstones_file d) (tombstones_log_file d) in
  let* m := load_touches (touches_file d) (touches_log_file d) in
  ret {| name := m_name meta; br_parent := m_parent meta; branch_dir := d;
         inheritance := m_inheritance meta; state := m_state meta; tombstones := T; touches := m;
         commit_count := m_commit_count meta; parent_version_at_fork := m_parent_version_at_fork meta;
         hide_paths := m_hide_paths meta |}.

(** *** Paths of a branch *)

Definition delta_path (b : Branch) (rel_path : string) : path := join (files_dir b) rel_path.
Definition inherited_path (b : Branch) (rel_path : string) : path := join (inherited_dir b) rel_path.
Definition staging_path (b : Branch) : IO path :=
  let* u := fresh_uuid in
  ret (staging_dir b ++ ["cow-" +:+ u +:+ ".tmp"]).
Definition has_delta (b : Branch) (rel_path : string) : IO bool :=
  let* r := attempt (symlink_metadata (delta_path b rel_path)) in
  ret (is_ok r).
End Branch.
