(* ===== verification/Codec.v ===== *)
(** * A concrete serialisation

    One pair of functions that has the properties [SerdeLaws] asks of
    [serde_json]; the examples run with it. *)

From stdpp Require Import countable.
From S2P Require Import Prelude Strs HostFs TextMerge Branch.

Fixpoint bits (p : positive) : string :=
  match p with
  | xH => ""
  | xO p => String "0" (bits p)
  | xI p => String "1" (bits p)
  end.
Fixpoint unbits (s : string) : option positive :=
  match s with
  | EmptyString => Some xH
  | String c s' =>
      match unbits s' with
      | Some p => if bool_decide (c = "0"%char) then Some (xO p)
                  else if bool_decide (c = "1"%char) then Some (xI p) else None
      | None => None
      end
  end.

Lemma unbits_bits p : unbits (bits p) = Some p.
Proof. induction p as [p IH|p IH|]; simpl; rewrite ?IH; done. Qed.

Section Object.
Context `{Countable A}.
Definition to_object (x : A) : string := String "{" (bits (encode x)).
Definition of_object (s : string) : res string A :=
  match s with
  | String "{" t =>
      match unbits t with
      | Some p => match decode p with Some x => Ok x | None => Err "invalid value" end
      | None => Err "invalid bits"
      end
  | _ => Err "expected an object"
  end.
Lemma of_to_object x : of_object (to_object x) = Ok x.
Proof. simpl. by rewrite unbits_bits, decode_encode. Qed.

Lemma bits_text p : contains_char newline (bits p) = false /\ utf8_valid (bytes_of (bits p)) = true.
Proof. induction p as [p [H1 H2]|p [H1 H2]|]; done. Qed.
Lemma to_object_text x :
  contains_char newline (to_object x) = false /\ utf8_valid (bytes_of (to_object x)) = true.
Proof. apply bits_text. Qed.
End Object.

#[export] Instance inheritance_countable : Countable InheritanceMode.
Proof.
  apply (inj_countable' (fun i => match i with Lazy => true | Snapshot => false end)
                        (fun b : bool => if b then Lazy else Snapshot)).
  by intros [].
Defined.
#[export] Instance state_countable : Countable BranchState.
Proof.
  apply (inj_countable' (fun i => match i with Open => true | Frozen => false end)
                        (fun b : bool => if b then Open else Frozen)).
  by intros [].
Defined.
#[export] Instance metadata_eq_dec : EqDecision BranchMetadata.
Proof. solve_decision. Defined.
#[export] Instance metadata_countable : Countable BranchMetadata.
Proof.
  apply (inj_countable' (fun m => (m_name m, m_parent m, m_inheritance m, m_state m,
                                   m_parent_version_at_fork m, m_commit_count m, m_hide_paths m))
    (fun t => let '(n, p, i, s, v, c, hs) := t in
       {| m_name := n; m_parent := p; m_inheritance := i; m_state := s; m_parent_version_at_fork := v;
          m_commit_count := c; m_hide_paths := hs |})).
  by intros [].
Defined.
#[export] Instance identity_countable : Countable PathIdentity.
Proof.
  apply (inj_countable' (fun i => (pi_exists i, pi_kind i, pi_bytes i, pi_mtime_ns i))
    (fun t => let '(e, k, b, m) := t in {| pi_exists := e; pi_kind := k; pi_bytes := b; pi_mtime_ns := m |})).
  by intros [].
Defined.
#[export] Instance touch_countable : Countable TouchRecord.
Proof.
  apply (inj_countable' (fun r => (t_path r, base_at_first_touch r, base_content_key r))
    (fun t => let '(p, i, k) := t in {| t_path := p; base_at_first_touch := i; base_content_key := k |})).
  by intros [].
Defined.

Definition example_serde : Serde := {|
  enc_meta m := bytes_of (to_object m);
  dec_meta s := of_object s;
  enc_touch r := to_object r;
  dec_touch s := of_object s;
  dec_touches b :=
    match of_object (A := list TouchRecord) (string_of b) with
    | Ok l => Ok (list_to_map (map (fun r => (t_path r, r)) l))
    | Err e => Err e
    end;
|}.

#[export] Instance example_serde_laws : SerdeLaws example_serde.
Proof.
  split; simpl.
  - intros m. rewrite string_of_bytes_of. apply of_to_object.
  - intros m. apply to_object_text.
  - intros r. apply of_to_object.
  - intros r. by eexists.
  - intros r. apply to_object_text.
Qed.

(** ** The same with the paths in view

    serde_json writes a path as it is, and the tests of the sources look for it
    in the logs.  Here an object starts with its path in braces. *)

Definition plain (c : ascii) : ascii :=
  let n := nat_of_ascii c in if Nat.leb 32 n && Nat.leb n 124 then c else "_"%char.
Fixpoint label (s : string) : string :=
  match s with EmptyString => "" | String c s' => String (plain c) (label s') end.
Fixpoint after_label (s : string) : string :=
  match s with
  | EmptyString => ""
  | String c s' => if bool_decide (c = "}"%char) then s' else after_label s'
  end.

Lemma plain_char c : plain c <> "}"%char /\ plain c <> newline /\ byte_in 0 127 (plain c) = true.
Proof. destruct c as [[] [] [] [] [] [] [] []]; by vm_compute. Qed.

Lemma after_label_app s t : after_label (label s +:+ String "}" t) = t.
Proof.
  induction s as [|c s IH]; [done|]. simpl. rewrite bool_decide_false by apply plain_char. exact IH.
Qed.

Definition one_line (s : string) : Prop := contains_char newline s = false /\ utf8_valid (bytes_of s) = true.

Lemma label_line s t : one_line t -> one_line (label s +:+ t).
Proof.
  intros Ht. induction s as [|c s [H1 H2]]; [done|]. destruct (plain_char c) as (_ & Hc & Ha).
  split; simpl; [by rewrite bool_decide_false|]. by rewrite Ha.
Qed.

Section Named.
Context `{Countable A}.
Definition to_named (l : string) (x : A) : string := String "{" (label l +:+ String "}" (bits (encode x))).
Definition of_named (s : string) : res string A :=
  match s with String "{" t => of_object (String "{" (after_label t)) | _ => Err "expected an object" end.
Lemma of_to_named l x : of_named (to_named l x) = Ok x.
Proof. simpl. rewrite after_label_app. apply of_to_object. Qed.
Lemma to_named_line l x : one_line (to_named l x).
Proof. destruct (label_line l (String "}" (bits (encode x))) (bits_text _)) as [H1 H2]. by split. Qed.
End Named.

(** A whole snapshot of touch records; an empty one is [{}]. *)
Definition touches_text (l : list TouchRecord) : bytes := text_line (to_named "" l).
Definition named_serde : Serde := {|
  enc_meta m := bytes_of (to_object m);
  dec_meta s := of_object s;
  enc_touch r := to_named (t_path r) r;
  dec_touch s := of_named s;
  dec_touches b :=
    if bool_decide (b = text_line "{}") then Ok ∅
    else match of_named (A := list TouchRecord) (string_of (removelast b)) with
         | Ok l => Ok (list_to_map (map (fun r => (t_path r, r)) l))
         | Err e => Err e
         end;
|}.
#[export] Instance named_serde_laws : SerdeLaws named_serde.
Proof.
  split; simpl.
  - intros m. rewrite string_of_bytes_of. apply of_to_object.
  - intros m. apply to_object_text.
  - intros r. rewrite after_label_app. apply of_to_object.
  - intros r. by eexists.
  - intros r. apply (to_named_line (t_path r) r).
Qed.
