(* ===== verification/View.v ===== *)
(** * What a branch shows (branch.rs, [BranchManager] lookup)

    A path of a branch resolves to the file of the first layer that has it:
    the branch's own delta, then - unless a tombstone or a hide rule stops it -
    its parent's view (or its inherited snapshot), and for [main] the base
    directory.  The recursion follows the parent chain; [fuel] bounds it. *)

From S2P Require Import Prelude Strs HostFs TextMerge Branch.

Open Scope bool_scope.

Abbreviation branch_map := (gmap string Branch).

Section View.
Context {E : Env}.

(** [read_dir_names]: the names of a directory, none when it cannot be read. *)
Definition read_dir_names (p : path) : IO (gset string) :=
  let* r := attempt (read_dir p) in
  ret (match r with Ok names => list_to_set names | Err _ => ∅ end).

Definition existing (p : path) : IO (option path) :=
  let* r := attempt (symlink_metadata p) in
  ret (match r with Ok _ => Some p | Err _ => None end).

(** [child_rel] of [collect_dir_names_locked]. *)
Definition listing_child (rel_path n : string) : string :=
  if bool_decide (rel_path = "/") then "/" +:+ n else trim_end_slash rel_path +:+ "/" +:+ n.

Section Layers.
Context (base_path : path) (branches : branch_map).

(** The layer below a branch, given how to look into its parent. *)
Definition below {A} (b : Branch) (base inherited : IO A) (up : string -> IO A) : IO A :=
  match br_parent b with
  | None => base
  | Some p => match inheritance b with Lazy => up p | Snapshot => inherited end
  end.

Fixpoint resolve_path_locked (fuel : nat) (branch_name rel_path : string) : IO (option path) :=
  match fuel with
  | O => raise OutOfFuel
  | S f =>
      match branches !! branch_name with
      | None => throw (NotFound branch_name)
      | Some b =>
          let* d := has_delta b rel_path in
          if d then ret (Some (delta_path b rel_path))
          else if is_deleted b rel_path then ret None
          else if is_hidden b rel_path then ret None
          else below b (existing (join base_path rel_path)) (existing (inherited_path b rel_path))
                     (fun p => resolve_path_locked f p rel_path)
      end
  end.

Definition inherited_resolve_path_locked (fuel : nat) (b : Branch) (rel_path : string) : IO (option path) :=
  below b (existing (join base_path rel_path)) (existing (inherited_path b rel_path))
        (fun p => resolve_path_locked fuel p rel_path).

Definition add_inherited_name (b : Branch) (rel_path : string) (names : gset string) (n : string) : gset string :=
  let c := listing_child rel_path n in
  if is_hidden b c || is_deleted b c then names else {[n]} ∪ names.

Fixpoint collect_dir_names_locked (fuel : nat) (branch_name rel_path : string) : IO (gset string) :=
  match fuel with
  | O => raise OutOfFuel
  | S f =>
      match branches !! branch_name with
      | None => throw (NotFound branch_name)
      | Some b =>
          let* names := read_dir_names (join (files_dir b) rel_path) in
          let* inh := below b (read_dir_names (join base_path rel_path))
                              (read_dir_names (inherited_path b rel_path))
                              (fun p => collect_dir_names_locked f p rel_path) in
          ret (foldl (add_inherited_name b rel_path) names (set_order inh))
      end
  end.

Definition inherited_dir_names_locked (fuel : nat) (b : Branch) (rel_path : string) : IO (gset string) :=
  below b (read_dir_names (join base_path rel_path)) (read_dir_names (inherited_path b rel_path))
        (fun p => collect_dir_names_locked fuel p rel_path).

Definition inherited_path_exists_locked (fuel : nat) (b : Branch) (rel_path : string) : IO bool :=
  if is_hidden b rel_path then ret false
  else let* r := inherited_resolve_path_locked fuel b rel_path in
       ret (bool_decide (is_Some r)).

Definition resolve_inherited_for_touch_locked (fuel : nat) (b : Branch) (rel_path : string)
  : IO (option path) :=
  if is_hidden b rel_path then ret None
  else inherited_resolve_path_locked fuel b rel_path.

(** A parent chain is never longer than the number of branches. *)
Definition chain_fuel : nat := S (size branches).

(** [snapshot_visible_dir]; [depth] bounds the directory recursion. *)
Fixpoint snapshot_visible_dir (depth : nat) (source_branch rel_path : string) (dst_root : path) : IO unit :=
  match depth with
  | O => raise OutOfFuel
  | S dp =>
      let* names := collect_dir_names_locked chain_fuel source_branch rel_path in
      for_each (sort_strings (set_order names)) (fun n =>
        let child := child_rel rel_path n in
        let* src := resolve_path_locked chain_fuel source_branch child in
        match src with
        | None => ret tt
        | Some src =>
            let* meta := symlink_metadata src in
            let dst := join dst_root child in
            if is_dir meta then
              do* create_dir_all dst;
              do* set_permissions dst (n_mode meta);
              snapshot_visible_dir dp source_branch child dst_root
            else copy_entry src dst
        end)
  end.

Definition snapshot_visible_tree (source_branch : string) (dst_root : path) : IO unit :=
  let* e := exists_ dst_root in
  do* when e (remove_dir_all_call dst_root);
  do* create_dir_all dst_root;
  let* t := get_tree in
  snapshot_visible_dir (tree_fuel t) source_branch "/" dst_root.
End Layers.
End View.

(** ** The layers of a branch

    [lineage bs base n l r]: the branches a lookup in [n] goes through are [l],
    nearest first, and below the last one lies the directory [r] - the base
    directory, or the inherited snapshot of the last one. *)
Inductive lineage (base : path) (bs : branch_map) : string -> list Branch -> path -> Prop :=
  | lineage_root n b : bs !! n = Some b -> br_parent b = None -> lineage base bs n [b] base
  | lineage_snapshot n b p :
      bs !! n = Some b -> br_parent b = Some p -> inheritance b = Snapshot ->
      lineage base bs n [b] (inherited_dir b)
  | lineage_lazy n b p l r :
      bs !! n = Some b -> br_parent b = Some p -> inheritance b = Lazy ->
      lineage base bs p l r -> lineage base bs n (b :: l) r.

(** A layer that neither has [p] nor stops the lookup of what lies below. *)
Definition transparent (t : tree) (p : path) (b : Branch) : Prop :=
  t !! (files_dir b ++ p) = None /\ is_deleted b (show p) = false /\ is_hidden b (show p) = false.

Lemma and_iff_compat_l_dep (A B C : Prop) : (A -> (B <-> C)) -> ((A /\ B) <-> (A /\ C)).
Proof. tauto. Qed.

(** [q] is where [p] comes from: the first layer that has it. *)
Definition served (t : tree) (l : list Branch) (r p q : path) : Prop :=
  is_Some (t !! q) /\
  ((exists l1 b l2, l = l1 ++ b :: l2 /\ q = files_dir b ++ p /\ Forall (transparent t p) l1)
   \/ (q = r ++ p /\ Forall (transparent t p) l)).

(** The same as a function. *)
Fixpoint first_layer (t : tree) (l : list Branch) (r p : path) : option path :=
  match l with
  | [] => if decide (is_Some (t !! (r ++ p))) then Some (r ++ p) else None
  | b :: l' =>
      if decide (is_Some (t !! (files_dir b ++ p))) then Some (files_dir b ++ p)
      else if is_deleted b (show p) || is_hidden b (show p) then None
      else first_layer t l' r p
  end.

Lemma first_layer_served t l r p q : first_layer t l r p = Some q <-> served t l r p q.
Proof.
  unfold served. induction l as [|b l IH]; simpl.
  - case_decide as Hr; split.
    + intros [= <-]. split; [done|]. by right.
    + intros [_ [(l1 & b & l2 & Hl & _)|[-> _]]]; [by destruct l1|done].
    + done.
    + intros [Hx [(l1 & b & l2 & Hl & _)|[-> _]]]; [by destruct l1|done].
  - case_decide as Ht.
    + split.
      * intros [= <-]. split; [done|]. left. by exists [], b, l.
      * intros [Hx [(l1 & b' & l2 & Hl & -> & Hf)|[-> Hf]]].
        -- destruct l1 as [|c l1]; simplify_eq/=; [done|]. inversion Hf as [|? ? [H _]].
           rewrite H in Ht. by destruct Ht.
        -- inversion Hf as [|? ? [H _]]. rewrite H in Ht. by destruct Ht.
    + apply eq_None_not_Some in Ht.
      assert (forall l1 b' l2, b :: l = l1 ++ b' :: l2 -> is_Some (t !! (files_dir b' ++ p)) ->
        exists l1', l1 = b :: l1' /\ l = l1' ++ b' :: l2) as Hsplit.
      { intros [|c l1] b' l2 Hl Hs; simplify_eq/=; [|by eauto]. rewrite Ht in Hs. by destruct Hs. }
      destruct (is_deleted b (show p) || is_hidden b (show p)) eqn:Hb.
      * split; [done|]. intros [Hx Hc]. exfalso. assert (transparent t p b) as (_ & H1 & H2).
        { destruct Hc as [(l1 & b' & l2 & Hl & -> & Hf)|[_ Hf]]; [|by inversion Hf].
          destruct (Hsplit _ _ _ Hl Hx) as (l1' & -> & _). by inversion Hf. }
        by rewrite H1, H2 in Hb.
      * apply orb_false_iff in Hb as [H1 H2]. rewrite IH. apply and_iff_compat_l_dep. intros Hx.
        assert (transparent t p b) as Hb by done. rewrite Forall_cons. split.
        -- intros [(l1 & b' & l2 & -> & -> & Hf)|[-> Hf]]; [left|by right].
           exists (b :: l1), b', l2. repeat split. by constructor.
        -- intros [(l1 & b' & l2 & Hl & -> & Hf)|[-> [_ Hf]]]; [left|by right].
           destruct (Hsplit _ _ _ Hl Hx) as (l1' & -> & Hl'). exists l1', b', l2. by inversion Hf.
Qed.

(** The parents form a forest: every parent is there, and no branch is its own
    ancestor. *)
Definition forest (bs : branch_map) : Prop :=
  exists rank : string -> nat, forall n b p,
    bs !! n = Some b -> br_parent b = Some p -> is_Some (bs !! p) /\ rank p < rank n.

Section Resolve.
Context {E : Env}.

Lemma join_show_path base p : path_ok p -> join base (show p) = base ++ p.
Proof. intros Hp. destruct p; [done|]. by apply join_show. Qed.

Lemma existing_eq q h : existing q h = (Ok (if decide (is_Some (h_tree h !! q)) then Some q else None), h).
Proof.
  unfold existing, symlink_metadata, get_tree, io_error, throw, raise, ret, gets, attempt, bind.
  destruct (h_tree h !! q); [by rewrite decide_True by done|].
  rewrite decide_False; [done|]. by intros [].
Qed.

Lemma has_delta_eq b p h :
  path_ok p -> has_delta b (show p) h = (Ok (bool_decide (is_Some (h_tree h !! (files_dir b ++ p)))), h).
Proof.
  intros Hp. unfold has_delta, delta_path. rewrite join_show_path by done.
  unfold symlink_metadata, get_tree, io_error, throw, raise, ret, gets, attempt, bind.
  by destruct (h_tree h !! (files_dir b ++ p)).
Qed.

(** With a lineage and fuel for it, lookup computes [first_layer] and changes
    nothing. *)
Lemma resolve_first_layer base bs n l r p fuel h :
  lineage base bs n l r -> path_ok p -> length l <= fuel ->
  resolve_path_locked base bs fuel n (show p) h = (Ok (first_layer (h_tree h) l r p), h).
Proof.
  intros Hl Hp. revert fuel. induction Hl as [n b Hb Hpar|n b pn Hb Hpar Hi|n b pn l r Hb Hpar Hi Hl IH];
    intros [|fuel] Hf; simpl in Hf; try lia; simpl; rewrite Hb; unfold bind, below;
    rewrite has_delta_eq by done; rewrite Hpar, ?Hi; case_decide as Hd;
    [rewrite bool_decide_true by done; unfold delta_path; by rewrite join_show_path by done| |
     rewrite bool_decide_true by done; unfold delta_path; by rewrite join_show_path by done| |
     rewrite bool_decide_true by done; unfold delta_path; by rewrite join_show_path by done| ];
    rewrite bool_decide_false by done;
    destruct (is_deleted b (show p)); simpl; try done; destruct (is_hidden b (show p)); try done.
  - rewrite join_show_path by done. apply existing_eq.
  - unfold inherited_path. rewrite join_show_path by done. apply existing_eq.
  - apply IH. lia.
Qed.

Lemma lineage_in_map base bs n l r :
  lineage base bs n l r -> Forall (fun b => exists m, bs !! m = Some b) l.
Proof. induction 1; repeat constructor; eauto. Qed.

(** In a forest every branch has a lineage. *)
Lemma forest_lineage base bs n :
  forest bs -> is_Some (bs !! n) -> exists l r, lineage base bs n l r.
Proof.
  intros [rank Hr]. remember (rank n) as k eqn:Hk. revert n Hk.
  induction k as [k IH] using lt_wf_ind; intros n -> [b Hb].
  destruct (br_parent b) as [p|] eqn:Hp; [|by exists [b], base; constructor].
  destruct (inheritance b) eqn:Hi; [|by exists [b], (inherited_dir b); econstructor].
  destruct (Hr n b p) as [Hs Hlt]; [done..|].
  destruct (IH (rank p) Hlt p) as (l & r & Hl); [done..|].
  exists (b :: l), r. by econstructor.
Qed.

(** A lineage visits no branch twice, so it is no longer than the map. *)
Lemma lineage_names base bs rank n l r :
  (forall n b p, bs !! n = Some b -> br_parent b = Some p -> is_Some (bs !! p) /\ rank p < rank n) ->
  lineage base bs n l r ->
  exists ns, length ns = length l /\ NoDup ns /\ Forall (fun m => m ∈ dom bs /\ rank m <= rank n) ns.
Proof.
  intros Hr. induction 1 as [n b Hb _|n b p Hb _ _|n b p l r Hb Hp _ _ (ns & Hlen & Hnd & Hns)].
  - exists [n]. split; [done|]. split; [apply NoDup_singleton|]. constructor; [|done]. by rewrite elem_of_dom.
  - exists [n]. split; [done|]. split; [apply NoDup_singleton|]. constructor; [|done]. by rewrite elem_of_dom.
  - destruct (Hr n b p) as [_ Hlt]; [done..|]. exists (n :: ns). simpl. split; [lia|]. split.
    + constructor; [|done]. intros Hin. rewrite Forall_forall in Hns. apply Hns in Hin. lia.
    + constructor; [by rewrite elem_of_dom|]. eapply Forall_impl; [done|]. simpl. intros m [? ?]. split; [done|lia].
Qed.

Lemma lineage_length base bs n l r : forest bs -> lineage base bs n l r -> length l <= chain_fuel bs.
Proof.
  intros [rank Hr] Hl. destruct (lineage_names _ _ _ _ _ _ Hr Hl) as (ns & Hlen & Hnd & Hns).
  unfold chain_fuel. rewrite <- Hlen, <- (size_list_to_set (C:=gset string)) by done.
  rewrite <- size_dom. apply le_S, subseteq_size. intros m Hm. apply elem_of_list_to_set in Hm.
  rewrite Forall_forall in Hns. by apply Hns.
Qed.

(** [child_rel] of a listing is the path of the child. *)
Lemma listing_child_show p c : path_ok p -> name_ok c = true -> listing_child (show p) c = show (p ++ [c]).
Proof.
  intros Hp Hc. transitivity (show_rel (p ++ [c])); [|by destruct p].
  rewrite <- child_rel_show by done. unfold listing_child, child_rel.
  case_bool_decide; [done|]. f_equal. destruct p as [|d p _] using rev_ind; [done|].
  assert (show (p ++ [d]) = show_rel (p ++ [d])) as -> by (by destruct p).
  by apply trim_end_show_rel.
Qed.

Definition not_link (t : tree) (q : path) : Prop := forall target, look t q <> Some (KSymlink target).

Lemma follow_plain f t q : not_link t q -> follow f t q = Ok (q, f).
Proof.
  intros Hq. unfold not_link, look in Hq. unfold follow. destruct f; simpl;
    destruct (t !! q) as [[[] ? ?]|]; simpl in Hq; try done; by destruct (Hq target).
Qed.

Context {L : EnvLaws E}.

Lemma list_to_set_order (X : gset string) : list_to_set (set_order X) = X.
Proof.
  apply set_eq. intros x. rewrite elem_of_list_to_set, (set_order_perm X). apply elem_of_elements.
Qed.

Lemma read_dir_names_eq q h :
  wf_tree (h_tree h) -> not_link (h_tree h) q ->
  exists X, read_dir_names q h = (Ok X, h) /\ forall c, c ∈ X <-> is_Some (h_tree h !! (q ++ [c])).
Proof.
  intros Hwf Hq.
  exists (if decide (look (h_tree h) q = Some KDir) then children (h_tree h) q else ∅). split.
  - unfold read_dir_names, read_dir, real_path, symlink_metadata, get_tree, io_error, throw, raise, ret,
      gets, attempt, bind. rewrite follow_plain by done. simpl.
    destruct (h_tree h !! q) as [n|] eqn:Hn; simpl.
    + unfold look. rewrite Hn. simpl. unfold is_dir.
      destruct n as [[] ? ?]; simpl; try done. by rewrite list_to_set_order.
    + unfold look. by rewrite Hn.
  - intros c. case_decide as Hd; [apply elem_of_children|]. split; [done|].
    intros Hs. destruct Hd. by apply (wf_below _ q [c]).
Qed.

Lemma add_names_fold b rel names cs c :
  c ∈ foldl (add_inherited_name b rel) names cs <->
  c ∈ names \/ (c ∈ cs /\ is_hidden b (listing_child rel c) = false /\ is_deleted b (listing_child rel c) = false).
Proof.
  revert names; induction cs as [|x cs IH]; intros names; simpl.
  - split; [by left|]. intros [?|[Hin _]]; [done|]. by apply not_elem_of_nil in Hin.
  - rewrite IH, elem_of_cons. unfold add_inherited_name.
    assert (c ∈ (if is_hidden b (listing_child rel x) || is_deleted b (listing_child rel x)
                 then names else {[x]} ∪ names)
      <-> c ∈ names \/ (c = x /\ is_hidden b (listing_child rel c) = false
                       /\ is_deleted b (listing_child rel c) = false)) as ->; [|tauto].
    destruct (is_hidden b (listing_child rel x) || is_deleted b (listing_child rel x)) eqn:Hb.
    + split; [tauto|]. intros [?|(-> & H1 & H2)]; [done|]. by rewrite H1, H2 in Hb.
    + apply orb_false_iff in Hb. rewrite elem_of_union, elem_of_singleton.
      split; [intros [->|?]; tauto|tauto].
Qed.

(** One layer of a listing on top of what the layers below list. *)
Lemma layer_listing t b p c r l X inh :
  path_ok p -> name_ok c = true ->
  (c ∈ X <-> is_Some (t !! ((files_dir b ++ p) ++ [c]))) ->
  (c ∈ inh <-> is_Some (first_layer t l r (p ++ [c]))) ->
  c ∈ foldl (add_inherited_name b (show p)) X (set_order inh) <-> is_Some (first_layer t (b :: l) r (p ++ [c])).
Proof.
  intros Hp Hc HX Hinh. rewrite add_names_fold, listing_child_show by done.
  rewrite (set_order_perm inh), elem_of_elements, HX, Hinh. simpl. rewrite <- app_assoc.
  case_decide as Hd; [split; [by eexists|by left]|].
  destruct (is_deleted b (show (p ++ [c]))), (is_hidden b (show (p ++ [c]))); simpl;
    (split; [intros [?|(?&?&?)]; done|intros Hs; try by destruct Hs]). by right.
Qed.

(** The layers of a lineage list [p] without going through a symbolic link. *)
Definition plain_layers (t : tree) (l : list Branch) (r p : path) : Prop :=
  Forall (fun b => not_link t (files_dir b ++ p)) l /\ not_link t (r ++ p).

Lemma collect_first_layer base bs n l r p fuel h :
  lineage base bs n l r -> path_ok p -> length l <= fuel ->
  wf_tree (h_tree h) -> plain_layers (h_tree h) l r p ->
  exists names, collect_dir_names_locked base bs fuel n (show p) h = (Ok names, h)
    /\ forall c, name_ok c = true -> (c ∈ names <-> is_Some (first_layer (h_tree h) l r (p ++ [c]))).
Proof.
  intros Hl Hp Hf Hwf. revert fuel Hf. assert (forall d, not_link (h_tree h) (d ++ p) ->
    exists X, read_dir_names (join d (show p)) h = (Ok X, h)
              /\ forall c, c ∈ X <-> is_Some (first_layer (h_tree h) [] d (p ++ [c]))) as Hbase.
  { intros d Hd. rewrite join_show_path by done. destruct (read_dir_names_eq (d ++ p) h) as (X & HX & HXc); [done..|].
    exists X. split; [done|]. intros c. rewrite HXc, <- app_assoc. simpl.
    case_decide; [by split; [eexists|]|]. by split; [|intros []]. }
  induction Hl as [n b Hb Hpar|n b pn Hb Hpar Hi|n b pn l r Hb Hpar Hi Hl IH];
    intros [|fuel] Hf [Hfs Hr]; simpl in Hf; try lia; simpl; rewrite Hb; unfold bind, below;
    apply Forall_cons in Hfs as [Hb1 Hfs];
    (destruct (read_dir_names_eq (files_dir b ++ p) h) as (X & HX & HXc); [done..|]);
    rewrite join_show_path, HX, Hpar, ?Hi by done.
  - destruct (Hbase base Hr) as (Y & HY & HYc). rewrite HY. eexists. split; [done|].
    intros c Hc. by apply (layer_listing (h_tree h) b p c base []).
  - unfold inherited_path. destruct (Hbase (inherited_dir b) Hr) as (Y & HY & HYc). rewrite HY.
    eexists. split; [done|]. intros c Hc. by apply (layer_listing (h_tree h) b p c (inherited_dir b) []).
  - destruct (IH fuel) as (Y & HY & HYc); [lia|done|]. rewrite HY. eexists. split; [done|].
    intros c Hc. apply (layer_listing (h_tree h) b p c r l); auto.
Qed.
End Resolve.

(** ** Properties *)

Section Properties.
Context {E : Env}.

(** C6: in a forest of branches every lookup ends, reads only, and finds a path
    in the nearest layer that has it: the branch itself, else its parent, and so
    on down to the base directory (or the inherited snapshot), provided no
    nearer branch has a tombstone or hide rule on the path; otherwise it finds
    nothing.  The chain of parents is never longer than the number of
    branches. *)
Theorem resolve_serves_nearest_layer base bs n p h :
  forest bs -> is_Some (bs !! n) -> path_ok p ->
  exists l r x,
    lineage base bs n l r /\ length l <= chain_fuel bs
    /\ resolve_path_locked base bs (chain_fuel bs) n (show p) h = (Ok x, h)
    /\ forall q, x = Some q <-> served (h_tree h) l r p q.
Proof.
  intros Hf Hn Hp. destruct (forest_lineage base bs n Hf Hn) as (l & r & Hl).
  exists l, r, (first_layer (h_tree h) l r p). pose proof (lineage_length _ _ _ _ _ Hf Hl).
  split; [done|]. split; [done|]. split; [by apply resolve_first_layer|].
  intros q. apply first_layer_served.
Qed.

(** C29: the listing of a directory and lookup agree: a name is listed exactly
    when looking up that child finds something - in every branch, whatever
    tombstones and hide rules lie between it and the base. *)
Theorem listing_agrees_with_lookup `{!EnvLaws E} base bs n p h :
  forest bs -> is_Some (bs !! n) -> path_ok p -> wf_tree (h_tree h) ->
  (forall l r, lineage base bs n l r -> plain_layers (h_tree h) l r p) ->
  exists names,
    collect_dir_names_locked base bs (chain_fuel bs) n (show p) h = (Ok names, h)
    /\ forall c, name_ok c = true ->
         (c ∈ names <-> exists q, resolve_path_locked base bs (chain_fuel bs) n (show (p ++ [c])) h = (Ok (Some q), h)).
Proof.
  intros Hf Hn Hp Hwf Hplain. destruct (forest_lineage base bs n Hf Hn) as (l & r & Hl).
  pose proof (lineage_length _ _ _ _ _ Hf Hl).
  destruct (collect_first_layer base bs n l r p (chain_fuel bs) h) as (names & Hc & Hin); [by auto..|].
  exists names. split; [done|]. intros c Hok. rewrite Hin by done.
  assert (path_ok (p ++ [c])) by (apply path_ok_app; by repeat constructor).
  rewrite (resolve_first_layer base bs n l r) by done.
  split; [intros [q Hq]; exists q; by rewrite Hq|intros [q [= Hq]]; by eexists].
Qed.

(** C33: a tombstone or a hide rule masks everything inherited and nothing of the
    branch's own: the branch resolves such a path to its own delta when it has
    one, and to nothing otherwise, whatever its parents and the base hold. *)
Theorem masked_path_shows_only_own_delta base bs f n b p h :
  bs !! n = Some b -> path_ok p ->
  is_deleted b (show p) = true \/ is_hidden b (show p) = true ->
  resolve_path_locked base bs (S f) n (show p) h
  = (Ok (if decide (is_Some (h_tree h !! (files_dir b ++ p))) then Some (files_dir b ++ p) else None), h).
Proof.
  intros Hb Hp Hm. simpl. rewrite Hb. unfold bind. rewrite has_delta_eq by done.
  case_decide.
  - rewrite bool_decide_true by done. unfold delta_path. by rewrite join_show_path.
  - rewrite bool_decide_false by done. destruct Hm as [->| ->]; [done|]. by destruct (is_deleted b (show p)).
Qed.

(** A cycle among the parents, which only a damaged store can hold, makes
    lookup run for ever: no amount of fuel gives an answer for a path none of
    the branches on the cycle has or masks. *)
Theorem parent_cycle_never_answers base bs f n b h :
  bs !! n = Some b -> br_parent b = Some n -> inheritance b = Lazy ->
  tombstones b = ∅ -> hide_paths b = [] ->
  h_tree h !! (files_dir b ++ ["x"]) = None ->
  resolve_path_locked base bs f n "/x" h = (Err OutOfFuel, h).
Proof.
  intros Hb Hp Hi Ht Hh Hd. induction f as [|f IH]; [done|]. simpl. rewrite Hb. unfold bind.
  rewrite (has_delta_eq b ["x"]) by (by repeat constructor).
  rewrite bool_decide_false by (rewrite Hd; by intros []).
  unfold is_deleted, is_hidden, below. rewrite Ht, Hh, Hp, Hi. done.
Qed.
End Properties.

(** A store with [main] and a child that deleted "/a" and hides "/s", over a
    base holding "/a", "/b" and "/s". *)
Definition example_branch (n : string) (parent : option string) (T : gset string) (hides : list string) : Branch :=
  {| name := n; br_parent := parent; branch_dir := branch_dir_of ["store"] n; inheritance := Lazy;
     state := Open; tombstones := T; touches := ∅; commit_count := 0; parent_version_at_fork := 0;
     hide_paths := hides |}.
Definition example_branches : branch_map :=
  <["fix" := example_branch "fix" (Some "main") {["/a"]} ["/s"]]> {["main" := example_branch "main" None ∅ []]}.
Definition example_file (s : string) : node := Node (KFile (bytes_of s)) 420 0 (Stamp (- fnv1a s) 0 0 0).
Definition example_tree : tree :=
  list_to_map (map (fun p => (p, Node KDir 493 0 (Stamp (-1) 0 0 0)))
    [[]; ["base"]; ["store"]; ["store"; "branches"]; ["store"; "branches"; "main"];
     ["store"; "branches"; "main"; "files"]; ["store"; "branches"; "fix"];
     ["store"; "branches"; "fix"; "files"]])
  ∪ list_to_map [(["base"; "a"], example_file "A"); (["base"; "b"], example_file "B");
                 (["base"; "s"], example_file "S");
                 (["store"; "branches"; "fix"; "files"; "c"], example_file "C")].
Definition example_host : host := Host example_tree 1 0 ∅.

Lemma example_forest : forest example_branches.
Proof.
  exists (fun n => if decide (n = "main") then 0 else 1). intros n b p Hb Hp. unfold example_branches in Hb.
  apply lookup_insert_Some in Hb as [[<- <-]|[_ Hb]].
  - simpl in Hp. simplify_eq. split; [|by vm_compute; lia].
    unfold example_branches. rewrite lookup_insert_ne by done. rewrite lookup_singleton_eq. by eexists.
  - apply lookup_singleton_Some in Hb as [<- <-]. done.
Qed.

Definition wf_treeb (t : tree) : bool :=
  bool_decide (look t [] = Some KDir)
  && forallb (fun kv => match kv.1 with [] => true | _ => bool_decide (look t (parent kv.1) = Some KDir) end)
             (map_to_list t).
Lemma wf_treeb_ok t : wf_treeb t = true -> wf_tree t.
Proof.
  unfold wf_treeb. intros [Hr%bool_decide_eq_true Hall]%andb_true_iff. split; [done|].
  intros q c [n Hn]. rewrite forallb_forall in Hall.
  specialize (Hall (q ++ [c], n)). simpl in Hall.
  assert (In (q ++ [c], n) (map_to_list t)) as Hin by (apply list_elem_of_In, elem_of_map_to_list; done).
  specialize (Hall Hin). rewrite parent_snoc in Hall. destruct (q ++ [c]) eqn:Hq; [by destruct q|].
  by apply bool_decide_eq_true in Hall.
Qed.

Lemma resolve_serves_nearest_layer_witness :
  exists l r x,
    lineage ["base"] example_branches "fix" l r /\ length l <= chain_fuel example_branches
    /\ resolve_path_locked ["base"] example_branches (chain_fuel example_branches) "fix" "/b" example_host
        = (Ok x, example_host)
    /\ forall q, x = Some q <-> served (h_tree example_host) l r ["b"] q.
Proof.
  apply (resolve_serves_nearest_layer ["base"] example_branches "fix" ["b"] example_host).
  - apply example_forest.
  - by eexists.
  - by repeat constructor.
Defined.

Lemma listing_agrees_with_lookup_witness :
  exists names,
    @collect_dir_names_locked example_env ["base"] example_branches (chain_fuel example_branches) "fix" "/" example_host
    = (Ok names, example_host)
    /\ forall c, name_ok c = true ->
         (c ∈ names <-> exists q, resolve_path_locked ["base"] example_branches
                                    (chain_fuel example_branches) "fix" (show ([] ++ [c])) example_host
                                  = (Ok (Some q), example_host)).
Proof.
  apply (@listing_agrees_with_lookup example_env _ ["base"] example_branches "fix" [] example_host).
  - apply example_forest.
  - by eexists.
  - constructor.
  - apply wf_treeb_ok. vm_compute. reflexivity.
  - intros l r Hl.
    assert (l = [example_branch "fix" (Some "main") {["/a"]} ["/s"]; example_branch "main" None ∅ []] /\ r = ["base"])
      as [-> ->].
    { inversion Hl as [n b H1 H2|n b p H1 H2 H3|n b p l' r' H1 H2 H3 H4]; subst;
        vm_compute in H1; injection H1 as <-; simplify_eq/=.
      inversion H4 as [n b H1 H2'|n b p H1 H2' H3'|n b p l'' r'' H1 H2' H3' H4']; subst;
        vm_compute in H1; injection H1 as <-; simplify_eq/=. done. }
    split; [repeat constructor|]; intros target H; vm_compute in H; discriminate H.
Defined.

Lemma masked_path_shows_only_own_delta_witness :
  resolve_path_locked ["base"] example_branches 2 "fix" "/s" example_host = (Ok None, example_host).
Proof.
  apply (masked_path_shows_only_own_delta ["base"] example_branches 1 "fix"
           (example_branch "fix" (Some "main") {["/a"]} ["/s"]) ["s"] example_host).
  - reflexivity.
  - by repeat constructor.
  - right. reflexivity.
Defined.

Lemma parent_cycle_never_answers_witness :
  let b := example_branch "x" (Some "x") ∅ [] in
  resolve_path_locked ["base"] {["x" := b]} 1000 "x" "/x" example_host = (Err OutOfFuel, example_host).
Proof.
  intros b. apply (parent_cycle_never_answers ["base"] {["x" := b]} 1000 "x" b example_host);
    reflexivity.
Defined.
