(* ===== verification/Inode.v ===== *)
(** * Inode numbers (inode.rs, [InodeManager])

    The two maps between paths and inode numbers.  [inode_ok] says they are
    inverse to each other, that the root is always there and that a number is
    never handed out twice. *)

From S2P Require Import Prelude Strs.

Record InodeInfo := { ino : Z; i_path : string; i_is_dir : bool }.

Record InodeManager := {
  next_ino : Z;
  path_to_ino : gmap string Z;
  ino_to_info : gmap Z InodeInfo;
}.

Definition ROOT_INO : Z := 1.
Definition root_info : InodeInfo := {| ino := ROOT_INO; i_path := "/"; i_is_dir := true |}.

(** [InodeManager::new] *)
Definition inode_new : InodeManager :=
  {| next_ino := ROOT_INO + 1; path_to_ino := {["/" := ROOT_INO]}; ino_to_info := {[ROOT_INO := root_info]} |}.

Definition get_or_create (p : string) (dir : bool) (m : InodeManager) : Z * InodeManager :=
  match path_to_ino m !! p with
  | Some i => (i, m)
  | None =>
      let i := next_ino m in
      (i, {| next_ino := wrap_u64 (i + 1);
             path_to_ino := <[p := i]> (path_to_ino m);
             ino_to_info := <[i := {| ino := i; i_path := p; i_is_dir := dir |}]> (ino_to_info m) |})
  end.

Definition get_path (i : Z) (m : InodeManager) : option string := i_path <$> ino_to_info m !! i.
Definition get_ino (p : string) (m : InodeManager) : option Z := path_to_ino m !! p.
Definition get_info (i : Z) (m : InodeManager) : option InodeInfo := ino_to_info m !! i.

Definition remove (p : string) (m : InodeManager) : InodeManager :=
  match path_to_ino m !! p with
  | Some i => {| next_ino := next_ino m; path_to_ino := delete p (path_to_ino m);
                 ino_to_info := delete i (ino_to_info m) |}
  | None => {| next_ino := next_ino m; path_to_ino := delete p (path_to_ino m);
               ino_to_info := ino_to_info m |}
  end.

Definition all_inos (m : InodeManager) : gset Z := dom (ino_to_info m).

Definition clear_prefix (prefix : string) (m : InodeManager) : InodeManager :=
  foldr remove m (List.filter (starts_with prefix) (map fst (map_to_list (path_to_ino m)))).

Definition clear (m : InodeManager) : InodeManager :=
  {| next_ino := next_ino m; path_to_ino := {["/" := ROOT_INO]}; ino_to_info := {[ROOT_INO := root_info]} |}.

(** ** The invariant *)

#[local] Open Scope Z_scope.

Record inode_ok (m : InodeManager) : Prop := {
  ok_bij : forall p i, path_to_ino m !! p = Some i <-> exists d, ino_to_info m !! i = Some {| ino := i; i_path := p; i_is_dir := d |};
  ok_info : forall i x, ino_to_info m !! i = Some x -> ino x = i;
  ok_fresh : forall i x, ino_to_info m !! i = Some x -> 1 <= i < next_ino m;
  ok_next : 1 < next_ino m;
}.

(** The operations of the manager, one step each. *)
Inductive inode_step : InodeManager -> InodeManager -> Prop :=
  | step_create p d m : next_ino m < u64_max -> inode_step m (get_or_create p d m).2
  | step_remove p m : inode_step m (remove p m)
  | step_clear_prefix p m : inode_step m (clear_prefix p m)
  | step_clear m : inode_step m (clear m).

Lemma inode_new_ok : inode_ok inode_new.
Proof.
  split; simpl; [|intros i x [<- <-]%lookup_singleton_Some; done|
                 intros i x [<- <-]%lookup_singleton_Some; unfold ROOT_INO; lia|unfold ROOT_INO; lia].
  intros p i. rewrite lookup_singleton_Some. split.
  - intros [<- <-]. exists true. by rewrite lookup_singleton_eq.
  - intros [d [Hi Hr]%lookup_singleton_Some]. unfold root_info in Hr. by simplify_eq.
Qed.

Lemma get_or_create_ok p d m : inode_ok m -> next_ino m < u64_max -> inode_ok (get_or_create p d m).2.
Proof.
  intros [Hbij Hinfo Hfresh Hnext] Hmax. unfold get_or_create.
  destruct (path_to_ino m !! p) as [i|] eqn:Hp; [done|]. simpl.
  assert (ino_to_info m !! next_ino m = None) as Hno.
  { apply eq_None_not_Some. intros [x Hx]. apply Hfresh in Hx. lia. }
  rewrite wrap_u64_small by (unfold u64_max in *; lia).
  split; simpl; [| |intros i x [[<- <-]|[? Hx%Hfresh]]%lookup_insert_Some; lia|lia].
  - intros q i. rewrite lookup_insert_Some, Hbij. split.
    + intros [[-> <-]|[Hne [d' Hd]]].
      * exists d. by rewrite lookup_insert_eq.
      * exists d'. rewrite lookup_insert_ne; [done|]. intros <-. congruence.
    + intros [d' [[<- Heq]|[Hne Hd]]%lookup_insert_Some]; [by simplify_eq; left|].
      right. split; [|by exists d']. intros ->.
      assert (path_to_ino m !! q = Some i) as H by (apply Hbij; eauto). congruence.
  - intros i x [[<- <-]|[Hne Hx]]%lookup_insert_Some; [done|by apply Hinfo].
Qed.

Lemma remove_ok p m : inode_ok m -> inode_ok (remove p m).
Proof.
  intros [Hbij Hinfo Hfresh Hnext]. unfold remove. destruct (path_to_ino m !! p) as [i|] eqn:Hp.
  - split; simpl; [| | |done].
    + intros q j. rewrite lookup_delete_Some, Hbij. split.
      * intros [Hne [d Hd]]. exists d. rewrite lookup_delete_ne; [done|]. intros ->.
        apply Hbij in Hp as [d' Hd']. congruence.
      * intros [d [Hne Hd]%lookup_delete_Some]. split; [|by exists d]. intros ->.
        assert (path_to_ino m !! q = Some j) as H by (apply Hbij; eauto). congruence.
    + intros j x [_ Hx]%lookup_delete_Some. by apply Hinfo.
    + intros j x [_ Hx]%lookup_delete_Some. by eapply Hfresh.
  - rewrite delete_id by done. by split.
Qed.

Lemma foldr_remove_ok ps m : inode_ok m -> inode_ok (foldr remove m ps).
Proof. intros Hm. induction ps; simpl; [done|]. by apply remove_ok. Qed.

Lemma clear_ok m : inode_ok m -> inode_ok (clear m).
Proof.
  intros [_ _ _ Hnext]. pose proof inode_new_ok as [H1 H2 H3 H4].
  split; [apply H1|apply H2| |done]. intros i x Hx. apply H3 in Hx. simpl in *. unfold ROOT_INO in *. lia.
Qed.

Lemma remove_paths p m : path_to_ino (remove p m) = delete p (path_to_ino m).
Proof. unfold remove. by destruct (path_to_ino m !! p). Qed.

(** What is left after a prefix has been cleared. *)
Lemma foldr_remove_lookup ps m p :
  path_to_ino (foldr remove m ps) !! p = if bool_decide (p ∈ ps) then None else path_to_ino m !! p.
Proof.
  induction ps as [|q ps IH]; [done|]. simpl.
  rewrite remove_paths.
  destruct (decide (q = p)) as [->|Hne].
  - rewrite lookup_delete_eq. rewrite bool_decide_true; [done|by left].
  - rewrite lookup_delete_ne by done. rewrite IH. destruct (decide (p ∈ ps)) as [Hin|Hin].
    + by rewrite !bool_decide_true by (try right; done).
    + rewrite !bool_decide_false; [done|by intros [->|?]%elem_of_cons|done].
Qed.

Lemma clear_prefix_lookup pre m p :
  path_to_ino (clear_prefix pre m) !! p = if starts_with pre p then None else path_to_ino m !! p.
Proof.
  unfold clear_prefix. rewrite foldr_remove_lookup.
  destruct (path_to_ino m !! p) as [i|] eqn:Hp; [|by destruct (bool_decide _), (starts_with pre p)].
  destruct (starts_with pre p) eqn:Hs.
  - rewrite bool_decide_true; [done|]. apply list_elem_of_In, filter_In. split; [|done].
    apply list_elem_of_In, list_elem_of_fmap. exists (p, i). by rewrite elem_of_map_to_list.
  - rewrite bool_decide_false; [done|]. intros Hin%list_elem_of_In%filter_In. by destruct Hin; congruence.
Qed.

(** ** Properties *)

(** C35: whatever the mount does - lookups creating inodes, removals, clearing a
    prefix or everything - the two maps stay inverse to each other, every inode
    number in use was handed out exactly once and is below the next one. *)
Theorem inode_maps_stay_inverse m :
  rtc inode_step inode_new m ->
  (forall p i, path_to_ino m !! p = Some i <-> get_path i m = Some p)
  /\ (forall p q i, path_to_ino m !! p = Some i -> path_to_ino m !! q = Some i -> p = q)
  /\ (forall i, i ∈ all_inos m -> 1 <= i < next_ino m).
Proof.
  intros Hr. assert (inode_ok m) as [Hbij Hinfo Hfresh _].
  { remember inode_new as m0 eqn:Hm0. assert (inode_ok m0) as Hok by (subst; apply inode_new_ok).
    clear Hm0. induction Hr as [|m0 m1 m2 Hs _ IH]; [done|]. apply IH. destruct Hs.
    - by apply get_or_create_ok.
    - by apply remove_ok.
    - by apply foldr_remove_ok.
    - by apply clear_ok. }
  split; [|split].
  - intros p i. rewrite Hbij. unfold get_path. rewrite fmap_Some. split.
    + intros [d Hd]. eexists; split; [done|done].
    + intros ([j q d] & Hx & ->). pose proof (Hinfo _ _ Hx) as Hj. simpl in *. subst. eauto.
  - intros p q i [d Hp]%Hbij [d' Hq]%Hbij. congruence.
  - intros i Hi. unfold all_inos in Hi. apply elem_of_dom in Hi as [x Hx]. by eapply Hfresh.
Qed.

Lemma inode_maps_stay_inverse_witness :
  let m := clear_prefix "/a" (get_or_create "/b" false (get_or_create "/a" true inode_new).2).2 in
  (path_to_ino m !! "/b" = Some 3 <-> get_path 3 m = Some "/b") /\ path_to_ino m !! "/a" = None.
Proof.
  intros m. split; [|vm_compute; reflexivity].
  assert (rtc inode_step inode_new m) as H.
  { eapply rtc_l; [apply (step_create "/a" true); done|].
    eapply rtc_l; [apply (step_create "/b" false); done|].
    eapply rtc_l; [apply (step_clear_prefix "/a")|]. apply rtc_refl. }
  apply (proj1 (inode_maps_stay_inverse m H)).
Defined.

(** Clearing the prefix of a branch's directory (when the branch is
    committed or dropped) also forgets the inodes of every other branch whose
    name continues that name: the prefix is compared as text, not by path
    component.  Such an inode no longer has a path although its branch lives. *)
Theorem clear_prefix_takes_longer_names m b c rel i :
  path_to_ino m !! ("/@" +:+ b +:+ c +:+ rel) = Some i ->
  get_ino ("/@" +:+ b +:+ c +:+ rel) (clear_prefix ("/@" +:+ b) m) = None.
Proof.
  intros _. unfold get_ino. rewrite clear_prefix_lookup.
  assert (starts_with ("/@" +:+ b) ("/@" +:+ b +:+ c +:+ rel) = true) as ->; [|done].
  apply starts_with_spec. exists (c +:+ rel). by rewrite app_assoc_str.
Qed.

Lemma clear_prefix_takes_longer_names_witness :
  let m := (get_or_create "/@fix2/a" false inode_new).2 in
  path_to_ino m !! "/@fix2/a" = Some 2 /\ get_ino "/@fix2/a" (clear_prefix "/@fix" m) = None.
Proof.
  intros m. split; [reflexivity|].
  apply (clear_prefix_takes_longer_names m "fix" "2" "/a" 2). reflexivity.
Defined.

(** [get_or_create] is idempotent: asked again for a path, whatever the
    kind given, it answers the same number and changes nothing; and asking for
    one path never changes the number of another. *)
Theorem get_or_create_stable p q d d' m :
  let '(i, m1) := get_or_create p d m in
  get_or_create p d' m1 = (i, m1)
  /\ (forall j, path_to_ino m !! q = Some j -> path_to_ino m1 !! q = Some j).
Proof.
  unfold get_or_create. destruct (path_to_ino m !! p) as [i|] eqn:Hp; [by rewrite Hp|]. simpl.
  rewrite lookup_insert_eq. split; [done|]. intros j Hj. rewrite lookup_insert_ne; congruence.
Qed.
