(* ===== verification/Manager.v ===== *)
(** * The branch manager (branch.rs, [BranchManager])

    [World] is the manager's state; every public operation of the manager is a
    computation over the host and the world.  The striped path locks of the
    source order concurrent calls on one path; here calls are one at a time. *)

From stdpp Require Import sorting.
From S2P Require Import Prelude Strs Inode HostFs Quota TextMerge Branch View.

Open Scope bool_scope.

(** A [fuser::Notifier], known by the number of the mount it belongs to. *)
Definition notifier := nat.

(** What the manager asks a kernel to forget: [inval_inode(ino, 0, -1)]. *)
Record inval := { iv_notifier : notifier; iv_ino : Z }.

Record World := {
  storage_path : path;
  base_path : path;
  workspace_path : path;
  branches : branch_map;
  epoch : Z;
  notifiers : gmap (string * path) notifier;
  opened_inodes : gmap string (gset Z);
  mount_branches : gmap path string;
  quota : StorageQuota;
  invals : list inval;      (* calls made to the kernel, oldest first *)
}.

Abbreviation MIO := (M (host * World)).

Definition with_branches (bs : branch_map) (w : World) : World :=
  {| storage_path := storage_path w; base_path := base_path w; workspace_path := workspace_path w;
     branches := bs; epoch := epoch w; notifiers := notifiers w; opened_inodes := opened_inodes w;
     mount_branches := mount_branches w; quota := quota w; invals := invals w |}.
Definition bump_epoch (w : World) : World :=
  {| storage_path := storage_path w; base_path := base_path w; workspace_path := workspace_path w;
     branches := branches w; epoch := wrap_u64 (epoch w + 1); notifiers := notifiers w;
     opened_inodes := opened_inodes w; mount_branches := mount_branches w; quota := quota w;
     invals := invals w |}.
Definition with_quota (q : StorageQuota) (w : World) : World :=
  {| storage_path := storage_path w; base_path := base_path w; workspace_path := workspace_path w;
     branches := branches w; epoch := epoch w; notifiers := notifiers w;
     opened_inodes := opened_inodes w; mount_branches := mount_branches w; quota := q; invals := invals w |}.
Definition with_mounts (mb : gmap path string) (ns : gmap (string * path) notifier) (w : World) : World :=
  {| storage_path := storage_path w; base_path := base_path w; workspace_path := workspace_path w;
     branches := branches w; epoch := epoch w; notifiers := ns;
     opened_inodes := opened_inodes w; mount_branches := mb; quota := quota w; invals := invals w |}.
Definition with_opened (o : gmap string (gset Z)) (w : World) : World :=
  {| storage_path := storage_path w; base_path := base_path w; workspace_path := workspace_path w;
     branches := branches w; epoch := epoch w; notifiers := notifiers w;
     opened_inodes := o; mount_branches := mount_branches w; quota := quota w; invals := invals w |}.
Definition with_invals (l : list inval) (w : World) : World :=
  {| storage_path := storage_path w; base_path := base_path w; workspace_path := workspace_path w;
     branches := branches w; epoch := epoch w; notifiers := notifiers w;
     opened_inodes := opened_inodes w; mount_branches := mount_branches w; quota := quota w; invals := l |}.

(** ** Mounts and notifications: no host effect *)

Definition set_mount_branch (mountpoint : path) (b : string) (w : World) : World :=
  with_mounts (<[mountpoint := b]> (mount_branches w)) (notifiers w) w.

Definition get_mount_branch (mountpoint : path) (w : World) : option string := mount_branches w !! mountpoint.

Definition switch_mount_branch (mountpoint : path) (new_branch : string) (w : World) : World :=
  let mb := <[mountpoint := new_branch]> (mount_branches w) in
  match mount_branches w !! mountpoint with
  | Some old =>
      match notifiers w !! (old, mountpoint) with
      | Some n => with_mounts mb (<[(new_branch, mountpoint) := n]> (delete (old, mountpoint) (notifiers w))) w
      | None => with_mounts mb (notifiers w) w
      end
  | None => with_mounts mb (notifiers w) w
  end.

Definition unregister_mount (mountpoint : path) (w : World) : World :=
  let mb := delete mountpoint (mount_branches w) in
  match mount_branches w !! mountpoint with
  | Some old => with_mounts mb (delete (old, mountpoint) (notifiers w)) w
  | None => with_mounts mb (notifiers w) w
  end.

Definition register_notifier (b : string) (mountpoint : path) (n : notifier) (w : World) : World :=
  with_mounts (mount_branches w) (<[(b, mountpoint) := n]> (notifiers w)) w.
Definition unregister_notifier (b : string) (mountpoint : path) (w : World) : World :=
  with_mounts (mount_branches w) (delete (b, mountpoint) (notifiers w)) w.

Definition register_opened_inode (b : string) (ino : Z) (w : World) : World :=
  with_opened (<[b := {[ino]} ∪ default ∅ (opened_inodes w !! b)]> (opened_inodes w)) w.

(** The calls for one notifier: the root, then every opened inode. *)
Definition inval_branch (w : World) (b : string) (n : notifier) : list inval :=
  {| iv_notifier := n; iv_ino := ROOT_INO |} ::
  match opened_inodes w !! b with
  | Some inodes =>
      map (fun i => {| iv_notifier := n; iv_ino := i |})
          (List.filter (fun i => negb (bool_decide (i = ROOT_INO))) (elements inodes))
  | None => []
  end.

Definition invalidate_all_mounts (w : World) : World :=
  with_invals (invals w ++ concat (map (fun kv => inval_branch w kv.1.1 kv.2) (map_to_list (notifiers w)))) w.

Definition invalidate_branches (branch_names : list string) (w : World) : World :=
  with_invals (invals w ++
    concat (map (fun kv => if bool_decide (kv.1.1 ∈ branch_names) then inval_branch w kv.1.1 kv.2 else [])
                (map_to_list (notifiers w)))) w.

Definition list_branches (w : World) : list (string * option string) :=
  map (fun kv => (kv.1, br_parent kv.2)) (map_to_list (branches w)).
Definition is_branch_valid (n : string) (w : World) : bool := bool_decide (is_Some (branches w !! n)).
Definition is_branch_writable (n : string) (w : World) : bool :=
  match branches w !! n with Some b => is_writable b | None => false end.
Definition is_leaf (n : string) (bs : branch_map) : bool :=
  negb (existsb (fun kv => bool_decide (br_parent kv.2 = Some n)) (map_to_list bs)).

Section Manager.
Context {E : Env} {J : Serde}.

Definition lookup_branch (n : string) : MIO Branch :=
  let* w := gets snd in
  match branches w !! n with Some b => ret b | None => throw (NotFound n) end.

(** A method of the branch [n], run in place. *)
Definition on_branch {A} (n : string) (c : BIO A) : MIO A :=
  let* b := lookup_branch n in
  fun s => let '(r, (h, b')) := c (s.1, b) in (r, (h, with_branches (<[n := b']> (branches s.2)) s.2)).

Definition frozen_error (n : string) : BranchError := Invalid ("branch '" +:+ n +:+ "' is frozen/read-only").
Definition writable_branch (n : string) : MIO Branch :=
  let* b := lookup_branch n in
  if is_writable b then ret b else throw (frozen_error n).

(** The view functions over the current branches. *)
Definition view {A} (c : path -> branch_map -> nat -> IO A) : MIO A :=
  let* w := gets snd in
  on_host (c (base_path w) (branches w) (chain_fuel (branches w))).

Definition resolve_path (n rel : string) : MIO (option path) :=
  view (fun base bs f => resolve_path_locked base bs f n rel).
Definition collect_dir_names (n rel : string) : MIO (gset string) :=
  view (fun base bs f => collect_dir_names_locked base bs f n rel).
Definition resolve_inherited_for_touch (b : Branch) (rel : string) : MIO (option path) :=
  view (fun base bs f => resolve_inherited_for_touch_locked base bs f b rel).
Definition inherited_path_exists (n rel : string) : MIO bool :=
  let* b := lookup_branch n in
  view (fun base bs f => inherited_path_exists_locked base bs f b rel).

Definition branch_has_delta (n rel : string) : MIO bool :=
  let* w := gets snd in
  match branches w !! n with Some b => on_host (has_delta b rel) | None => ret false end.

Definition check_quota (z : Z) : MIO unit :=
  let* w := gets snd in
  match quota_check (quota w) z with Ok _ => ret tt | Err e => throw (Io e) end.
Definition add_quota (z : Z) : MIO unit := on_mem (fun w => with_quota (quota_add z (quota w)) w).
Definition sub_quota (z : Z) : MIO unit := on_mem (fun w => with_quota (quota_sub z (quota w)) w).

(** *** Creating branches *)

Definition create_branch_with_options (n parent : string) (inh : InheritanceMode) (hides : list string)
  : MIO unit :=
  do* of_res (validate_branch_name n);
  let* w := gets snd in
  if bool_decide (is_Some (branches w !! n)) then throw (AlreadyExists n)
  else
    match branches w !! parent with
    | None => throw (ParentNotFound parent)
    | Some pb =>
        let* b := on_host (new n (Some parent) (storage_path w) (commit_count pb) inh hides) in
        do* (match inh with
             | Lazy => ret tt
             | Snapshot =>
                 let* r := attempt (on_host (snapshot_visible_tree (base_path w) (branches w)
                                                                   parent (inherited_dir b))) in
                 match r with
                 | Err e =>
                     let* _ := attempt (on_host (remove_branch_store_dir_all (branch_dir_of (storage_path w) n))) in
                     throw e
                 | Ok _ =>
                     on_host (fun h => let '(r, (h1, _)) := write_metadata (h, b) in (r, h1))
                 end
             end);
        on_mem (fun w => bump_epoch (with_branches (<[n := b]> (branches w)) w))
    end.

Definition create_branch_with_mode (n parent : string) (inh : InheritanceMode) : MIO unit :=
  create_branch_with_options n parent inh [].
Definition create_branch (n parent : string) : MIO unit := create_branch_with_mode n parent Lazy.

(** *** Copy on write *)

(** The branch's own copy of an inherited file or link. *)
Definition cow_copy (src delta : path) : MIO unit :=
  let* r := attempt (on_host (symlink_metadata src)) in
  match r with
  | Ok meta =>
      when (is_symlink meta || is_file meta) (
        let src_size := node_len meta in
        do* check_quota src_size;
        do* on_host (copy_entry src delta);
        add_quota src_size)
  | Err _ => ret tt
  end.

Definition ensure_delta_path_for_write (n rel : string) : MIO path :=
  let* b := writable_branch n in
  let delta := delta_path b rel in
  let* d := attempt (on_host (symlink_metadata delta)) in
  do* when (negb (is_ok d)) (
    let* inherited := resolve_inherited_for_touch b rel in
    do* on_branch n (record_first_touch rel inherited true);
    match inherited with
    | Some src => cow_copy src delta
    | None => ret tt
    end);
  do* on_branch n (remove_tombstone rel);
  do* on_host (ensure_parent_dirs delta);
  ret delta.

(** [write_data_to_branch], first write to an inherited file: the data is
    put together in the staging directory and renamed into place. *)
Definition staged_write (b : Branch) (src delta : path) (offset : Z) (data : bytes) : MIO (Z * Z) :=
  do* on_host (ensure_parent_dirs delta);
  do* on_host (create_dir_all (staging_dir b));
  let* staging := on_host (staging_path b) in
  let* r := attempt (on_host (
    let* _ := copy src staging in
    let* written := write_data_to_file staging offset data in
    let* m := metadata staging in
    do* rename staging delta;
    ret (written, node_len m))) in
  match r with
  | Ok x => ret x
  | Err e => let* _ := attempt (on_host (remove_file_call staging)) in throw e
  end.

(** ... and a write into the branch's own file. *)
Definition delta_write (n rel : string) (delta : path) (offset write_end : Z) (data : bytes) : MIO Z :=
  do* on_branch n (remove_tombstone rel);
  let* m := attempt (on_host (metadata delta)) in
  let old_size := match m with Ok m => node_len m | Err _ => 0%Z end in
  do* when (old_size <? write_end)%Z (check_quota (write_end - old_size));
  let* written := on_host (write_data_to_file delta offset data) in
  let* m := attempt (on_host (metadata delta)) in
  let new_size := match m with Ok m => node_len m | Err _ => old_size end in
  do* when (old_size <? new_size)%Z (add_quota (new_size - old_size));
  ret written.

Definition write_data_to_branch (n rel : string) (offset : Z) (data : bytes) : MIO Z :=
  if (offset <? 0)%Z then throw (Io EINVAL)
  else
  let write_end := (offset + Z.of_nat (length data))%Z in
  if (u64_max <? write_end)%Z then throw (Io EFBIG)
  else
  let* b := writable_branch n in
  let delta := delta_path b rel in
  let* d := attempt (on_host (symlink_metadata delta)) in
  if is_ok d then delta_write n rel delta offset write_end data
  else
    let* inherited := resolve_inherited_for_touch b rel in
    do* on_branch n (record_first_touch rel inherited true);
    let* meta := (match inherited with
                  | Some src => let* r := attempt (on_host (symlink_metadata src)) in ret (ok r)
                  | None => ret None
                  end) in
    match inherited, meta with
    | Some src, Some meta =>
        if is_file meta then
          do* check_quota (Z.max (node_len meta) write_end);
          let* (written, final_len) := staged_write b src delta offset data in
          do* add_quota final_len;
          do* on_branch n (remove_tombstone rel);
          ret written
        else
          do* when (is_symlink meta) (
            do* check_quota (node_len meta);
            do* on_host (copy_entry src delta);
            add_quota (node_len meta));
          do* on_host (ensure_parent_dirs delta);
          delta_write n rel delta offset write_end data
    | _, _ =>
        do* on_host (ensure_parent_dirs delta);
        delta_write n rel delta offset write_end data
    end.

(** *** Removing paths *)

(** The loop of [prune_empty_delta_parents]; [rel] is the current directory
    below [files_dir], one component shorter at each turn. *)
Fixpoint prune_loop (b : Branch) (turns : nat) (rel : path) : IO unit :=
  match turns with
  | O => ret tt
  | S k =>
      if bool_decide (is_Some (get_touch_record b (show_rel rel))) then ret tt
      else
        let* r := attempt (remove_dir (files_dir b ++ rel)) in
        match r with
        | Ok _ => prune_loop b k (parent rel)
        | Err _ => ret tt
        end
  end.
Definition prune_empty_delta_parents (b : Branch) (start : path) : IO unit :=
  match strip (files_dir b) start with
  | Some rel => prune_loop b (length rel) rel
  | None => ret tt
  end.

(** The delta of a path goes, with the directories it leaves empty. *)
Definition drop_delta (n rel : string) : MIO unit :=
  let* b := lookup_branch n in
  let delta := delta_path b rel in
  let* r := attempt (on_host (symlink_metadata delta)) in
  match r with
  | Err _ => ret tt
  | Ok meta =>
      let* freed := on_host (if is_dir meta then dir_size delta else ret (node_len meta)) in
      do* on_host (remove_entry delta);
      do* sub_quota freed;
      on_host (prune_empty_delta_parents b (parent delta))
  end.

Definition mark_deleted (n rel : string) (inherited_exists : bool) : MIO unit :=
  if inherited_exists then on_branch n (add_tombstone rel) else on_branch n (remove_tombstone rel).

Definition delete_path_in_branch (n rel : string) : MIO unit :=
  let* b := writable_branch n in
  let* inherited := resolve_inherited_for_touch b rel in
  do* on_branch n (record_first_touch rel inherited false);
  do* drop_delta n rel;
  mark_deleted n rel (bool_decide (is_Some inherited)).

Definition rmdir_path_in_branch (n rel : string) : MIO unit :=
  let* b := writable_branch n in
  let* resolved := resolve_path n rel in
  match resolved with
  | None => throw (Io ENOENT)
  | Some p =>
      let* meta := on_host (symlink_metadata p) in
      if negb (is_dir meta) then throw (Io ENOTDIR)
      else
        let* names := collect_dir_names n rel in
        if negb (bool_decide (names = ∅)) then throw (Io ENOTEMPTY)
        else
          let* inherited := resolve_inherited_for_touch b rel in
          do* on_branch n (record_first_touch rel inherited false);
          do* drop_delta n rel;
          mark_deleted n rel (bool_decide (is_Some inherited))
  end.

(** The same for a path that a client names: the branch may hold a link on the way
    to it, and each call follows that link. *)
Fixpoint prune_loop_through (b : Branch) (turns : nat) (rel : path) : IO unit :=
  match turns with
  | O => ret tt
  | S k =>
      if bool_decide (is_Some (get_touch_record b (show_rel rel))) then ret tt
      else
        let* r := attempt (through (files_dir b ++ rel) remove_dir) in
        match r with
        | Ok _ => prune_loop_through b k (parent rel)
        | Err _ => ret tt
        end
  end.
Definition prune_parents_through (b : Branch) (start : path) : IO unit :=
  match strip (files_dir b) start with
  | Some rel => prune_loop_through b (length rel) rel
  | None => ret tt
  end.

Definition drop_delta_through (n rel : string) : MIO unit :=
  let* b := lookup_branch n in
  let delta := delta_path b rel in
  let* r := attempt (on_host (through delta symlink_metadata)) in
  match r with
  | Err _ => ret tt
  | Ok meta =>
      let* freed := on_host (if is_dir meta then through delta dir_size else ret (node_len meta)) in
      do* on_host (through delta remove_entry);
      do* sub_quota freed;
      on_host (prune_parents_through b (parent delta))
  end.

Definition revert_path_in_branch (n rel : string) : MIO unit :=
  let* rel := of_res (normalize_branch_rel_path rel) in
  let* _ := writable_branch n in
  do* drop_delta_through n rel;
  do* on_branch n (remove_tombstones_under rel);
  do* on_branch n (remove_touch_records_under rel);
  do* on_mem bump_epoch;
  on_mem (invalidate_branches [n]).

(** *** Freezing *)

Definition change_state (st : BranchState) (n : string) : MIO unit :=
  if bool_decide (n = "main") then throw CannotOperateOnMain
  else
    do* on_branch n (set_state st);
    do* on_mem bump_epoch;
    on_mem (invalidate_branches [n]).
Definition freeze_branch : string -> MIO unit := change_state Frozen.
Definition thaw_branch : string -> MIO unit := change_state Open.

(** *** Status *)

Record DiffEntry := { op : string; d_path : string; d_kind : string; d_bytes : Z }.

Definition diff_le (a b : DiffEntry) : Prop :=
  if bool_decide (d_path a = d_path b) then str_le (op a) (op b) else str_le (d_path a) (d_path b).
#[local] Instance diff_le_dec : RelDecision diff_le.
Proof. intros a b. unfold diff_le. destruct (bool_decide _); apply _. Defined.

(** [format!("{}/{}", prefix, name)], [prefix] empty at the root. *)
Definition walk_child (prefix n : string) : string :=
  if bool_decide (prefix = "") then "/" +:+ n else prefix +:+ "/" +:+ n.

Fixpoint collect_delta_diff (fuel : nat) (dir : path) (prefix : string) : IO (list DiffEntry) :=
  match fuel with
  | O => raise OutOfFuel
  | S f =>
      let* r := attempt (symlink_metadata dir) in
      match r with
      | Err (Io ENOENT) => ret []
      | Err e => throw e
      | Ok meta =>
          if negb (is_dir meta) then ret []
          else with_guard dir (
            let* names := read_dir dir in
            fold_m (fun out n =>
              let p := dir ++ [n] in
              let rel := walk_child prefix n in
              let* meta := symlink_metadata p in
              if is_dir meta then
                let* sub := collect_delta_diff f p rel in
                ret (out ++ sub)
              else
                ret (out ++ [{| op := "delta"; d_path := rel;
                                d_kind := if is_symlink meta then "symlink" else "file";
                                d_bytes := if is_file meta then node_len meta else 0 |}])) [] names)
      end
  end.

Record BranchStatus := {
  st_name : string; st_parent : option string; st_inheritance : InheritanceMode; st_state : BranchState;
  st_parent_version_at_fork : Z; st_commit_count : Z; delta_entries : nat; st_tombstones : nat;
  diff : list DiffEntry }.

Definition branch_status (n : string) : MIO BranchStatus :=
  let* b := lookup_branch n in
  let* t := on_host get_tree in
  let* d := on_host (collect_delta_diff (tree_fuel t) (files_dir b) "") in
  let ts := map (fun t => {| op := "delete"; d_path := t; d_kind := "tombstone"; d_bytes := 0 |})
                (set_order (get_tombstones b)) in
  let diff := merge_sort diff_le (d ++ ts) in
  ret {| st_name := name b; st_parent := br_parent b; st_inheritance := inheritance b; st_state := state b;
         st_parent_version_at_fork := parent_version_at_fork b; st_commit_count := commit_count b;
         delta_entries := length (List.filter (fun e => bool_decide (op e = "delta")) diff);
         st_tombstones := length (List.filter (fun e => bool_decide (op e = "delete")) diff);
         diff := diff |}.

(** *** Start *)

Definition load_branches (storage_path : path) : IO branch_map :=
  let dir := storage_path ++ ["branches"] in
  let* entries := attempt (read_dir dir) in
  match entries with
  | Err _ => ret ∅
  | Ok names =>
      fold_m (fun bs n =>
        let* m := attempt (symlink_metadata (dir ++ [n])) in
        if match m with Ok m => is_dir m | Err _ => false end then
          let* e := exists_ (meta_file (dir ++ [n])) in
          if e then
            let* r := attempt (load storage_path n) in
            ret (match r with Ok b => <[n := b]> bs | Err _ => bs end)
          else ret bs
        else ret bs) ∅ names
  end.

(** [BranchManager::new] *)
Definition start (storage_path base_path workspace_path : path) (max_storage : option Z) : IO World :=
  do* create_dir_all storage_path;
  let* q := scan_usage storage_path max_storage in
  let* bs := load_branches storage_path in
  let* bs := (match bs !! "main" with
              | Some _ => ret bs
              | None =>
                  let* m := new "main" None storage_path 0 Lazy [] in
                  ret (<["main" := m]> bs)
              end) in
  ret {| storage_path := storage_path; base_path := base_path; workspace_path := workspace_path;
         branches := bs; epoch := 0; notifiers := ∅; opened_inodes := ∅; mount_branches := ∅;
         quota := q; invals := [] |}.
End Manager.

(** A manager over the example store. *)
Definition example_world : World :=
  {| storage_path := ["store"]; base_path := ["base"]; workspace_path := ["base"];
     branches := example_branches; epoch := 0; notifiers := ∅; opened_inodes := ∅; mount_branches := ∅;
     quota := quota_new (Some 1000%Z); invals := [] |}.
Definition example_fix : Branch := example_branch "fix" (Some "main") {["/a"]} ["/s"].
