(* ===== verification/Commit.v ===== *)
(** * Commit and abort (branch.rs, [commit_with_report], [abort])

    A commit walks the delta of a leaf branch, merges the texts its parent
    changed in the meantime, stages every deletion and copy next to its final
    place, publishes them, and drops the branch.  The destination is the base
    directory for a child of [main], the parent's delta otherwise. *)

From S2P Require Import Prelude Strs HostFs Staged Quota TextMerge Branch View Manager.

Open Scope bool_scope.

Record CommitAutoMerge := { am_path : string; am_resolution : string }.
Record CommitConflict := {
  cf_path : string; session_action : string; cf_resolution : string; reason : string;
  cf_base_at_first_touch : PathIdentity; base_at_commit : PathIdentity }.
Record CommitOutcome := {
  parent_name : string; auto_merges : list CommitAutoMerge; conflicts : list CommitConflict }.

(** What the merge phase hands on: where the merged text of a path is, and the
    report so far. *)
Record MergeState := {
  merge_sources : gmap string path;
  ms_auto : list CommitAutoMerge;
  ms_conflicts : list CommitConflict }.
Definition merge_empty : MergeState := {| merge_sources := ∅; ms_auto := []; ms_conflicts := [] |}.
Definition add_conflict (c : CommitConflict) (m : MergeState) : MergeState :=
  {| merge_sources := merge_sources m; ms_auto := ms_auto m; ms_conflicts := ms_conflicts m ++ [c] |}.
Definition add_merged (rel : string) (p : path) (m : MergeState) : MergeState :=
  {| merge_sources := <[rel := p]> (merge_sources m);
     ms_auto := ms_auto m ++ [{| am_path := rel; am_resolution := "clean_text_merge" |}];
     ms_conflicts := ms_conflicts m |}.

Section Commit.
Context {E : Env} {J : Serde}.

(** [walk_files], collecting what its callback is called with. *)
Fixpoint walk_files (fuel : nat) (dir : path) (prefix : string) : IO (list (string * path)) :=
  match fuel with
  | O => raise OutOfFuel
  | S f =>
      let* r := attempt (symlink_metadata dir) in
      match r with
      | Err (Io ENOENT) => ret []
      | Err e => throw e
      | Ok meta =>
          if negb (is_dir meta) then ret []
          else with_guard dir (
            let* names := read_dir dir in
            fold_m (fun out n =>
              let p := dir ++ [n] in
              let rel := walk_child prefix n in
              let* m := attempt (symlink_metadata p) in
              if match m with Ok m => is_dir m | Err _ => false end then
                let* sub := walk_files f p rel in
                ret (out ++ sub)
              else ret (out ++ [(rel, p)])) [] names)
      end
  end.

(** The record of the first touch, or the one of a path never touched. *)
Definition touch_record_or_missing (b : Branch) (rel : string) : TouchRecord :=
  match get_touch_record b rel with
  | Some r => r
  | None => {| t_path := rel; base_at_first_touch := identity_missing; base_content_key := None |}
  end.

Definition session_won (rel action : string) (r : TouchRecord) (now : PathIdentity) : CommitConflict :=
  {| cf_path := rel; session_action := action; cf_resolution := "session_won";
     reason := "parent_changed_after_first_touch";
     cf_base_at_first_touch := base_at_first_touch r; base_at_commit := now |}.

Definition check_deletion (b : Branch) (m : MergeState) (rel : string) : MIO MergeState :=
  let r := touch_record_or_missing b rel in
  let* current := resolve_inherited_for_touch b rel in
  let* now := on_host (identity_from_path current) in
  ret (if bool_decide (base_at_first_touch r = now) then m
       else add_conflict (session_won rel "delete" r now) m).

Definition of_exn {A} (r : res exn A) : MIO A := match r with Ok a => ret a | Err x => raise x end.

(** A three-way merge when all three texts are at hand. *)
Definition try_merge (b : Branch) (r : TouchRecord) (current : option path) (now : PathIdentity)
    (src : path) : MIO (option bytes) :=
  if bool_decide (pi_kind (base_at_first_touch r) = "file") && bool_decide (pi_kind now = "file") then
    let* base_bytes := on_host (read_touch_base_content b r) in
    let* session_bytes := on_host (read_bounded_text src) in
    match base_bytes, current, session_bytes with
    | Some base_bytes, Some current_path, Some session_bytes =>
        let* current_bytes := on_host (read_bounded_text current_path) in
        match current_bytes with
        | Some current_bytes => of_exn (try_three_way_text_merge base_bytes current_bytes session_bytes)
        | None => ret None
        end
    | _, _, _ => ret None
    end
  else ret None.

Definition check_delta (b : Branch) (merge_content_dir : path) (m : MergeState) (f : string * path)
  : MIO MergeState :=
  let '(rel, src) := f in
  let r := touch_record_or_missing b rel in
  let* current := resolve_inherited_for_touch b rel in
  let* now := on_host (identity_from_path current) in
  if bool_decide (base_at_first_touch r = now) then ret m
  else
    let* merged := try_merge b r current now src in
    match merged with
    | Some text =>
        let merged_path := merge_content_dir ++ [touch_content_key rel] in
        do* on_host (ensure_parent_dirs merged_path);
        do* on_host (write merged_path text);
        ret (add_merged rel merged_path m)
    | None =>
        let action := if pi_exists (base_at_first_touch r) then "modify" else "create" in
        ret (add_conflict (session_won rel action r now) m)
    end.

Definition merge_phase (b : Branch) (merge_content_dir : path) (tombs : list string)
    (delta_files : list (string * path)) : MIO MergeState :=
  let* m := fold_m (check_deletion b) merge_empty tombs in
  fold_m (check_delta b merge_content_dir) m delta_files.

(** Staging the copies, from the merged text where there is one. *)
Definition stage_copies (m : MergeState) (delta_files : list (string * path)) (dest_root : path) : SIO unit :=
  for_each delta_files (fun f =>
    stage_copy f.1 (default f.2 (merge_sources m !! f.1)) dest_root).

(** The branch goes: from memory, then from the store. *)
Definition forget_branch (n : string) : MIO unit :=
  do* on_mem (fun w => with_branches (delete n (branches w)) w);
  let* w := gets snd in
  let dir := branch_dir_of (storage_path w) n in
  let* e := on_host (exists_ dir) in
  when e (on_host (remove_branch_store_dir_all dir)).

Definition count_commit : BIO unit :=
  do* on_mem (fun b => with_commit_count (wrap_u64 (commit_count b + 1)) b);
  write_metadata.

(** *** A child of [main]: the base directory changes *)

Definition publish_to_base (base : path) (m : MergeState) (tombs : list string)
    (delta_files : list (string * path)) : IO (list string) :=
  with_staged (
    do* for_each tombs (fun t => stage_delete (join base t));
    do* stage_copies m delta_files base;
    publish).

Definition clear_main_delta (main : Branch) (rels : list string) : IO unit :=
  for_each rels (fun rel =>
    let* _ := attempt (remove_entry (join (files_dir main) rel)) in ret tt).

Definition commit_to_main (n : string) (m : MergeState) (tombs : list string)
    (delta_files : list (string * path)) : MIO unit :=
  let* w := gets snd in
  let* committed := on_host (publish_to_base (base_path w) m tombs delta_files) in
  do* (match branches w !! "main" with
       | Some main =>
           do* on_host (clear_main_delta main (committed ++ tombs));
           on_branch "main" count_commit
       | None => ret tt
       end);
  do* forget_branch n;
  do* on_mem bump_epoch;
  on_mem invalidate_all_mounts.

(** *** A nested branch: the parent's delta and tombstones change *)

(** What the loop over the child's tombstones accumulates: the parent's new
    tombstones, the delta directories to prune. *)
Definition stage_nested_delete (base : path) (bs : branch_map) (p : Branch)
    (acc : gset string * list path) (t : string) : SIO (gset string * list path) :=
  let '(tombs, dirs) := acc in
  let parent_delta := join (files_dir p) t in
  let* r := on_host (attempt (symlink_metadata parent_delta)) in
  let* inh := on_host (inherited_path_exists_locked base bs (chain_fuel bs) p t) in
  do* stage_delete parent_delta;
  ret (if inh then {[t]} ∪ tombs else tombs ∖ {[t]},
       if is_ok r then dirs ++ [parent parent_delta] else dirs).

Definition publish_to_parent (base : path) (bs : branch_map) (p : Branch) (m : MergeState)
    (tombs : list string) (delta_files : list (string * path))
  : IO (list string * (gset string * list path)) :=
  with_staged (
    let* acc := fold_m (stage_nested_delete base bs p) (get_tombstones p, []) tombs in
    do* stage_copies m delta_files (files_dir p);
    let* copied := publish in
    ret (copied, acc)).

Definition commit_nested (n pn : string) (m : MergeState) (tombs : list string)
    (delta_files : list (string * path)) : MIO unit :=
  let* p := lookup_branch pn in
  let* w := gets snd in
  let* (copied, (parent_tombs, dirs)) :=
    on_host (publish_to_parent (base_path w) (branches w) p m tombs delta_files) in
  do* on_host (for_each dirs (prune_empty_delta_parents p));
  do* on_branch pn (set_tombstones (parent_tombs ∖ list_to_set copied));
  do* on_branch pn count_commit;
  do* forget_branch n;
  do* on_mem bump_epoch;
  on_mem (invalidate_branches [n; pn]).

(** *** The operations *)

(** The branch to commit or abort: a leaf other than [main], with a parent. *)
Definition leaf_with_parent (n : string) : MIO (Branch * string) :=
  if bool_decide (n = "main") then throw CannotOperateOnMain
  else
    let* b := lookup_branch n in
    let* w := gets snd in
    if negb (is_leaf n (branches w)) then throw (NotALeaf n)
    else match br_parent b with
         | Some p => ret (b, p)
         | None => throw (NotFound n)
         end.

Definition commit_with_report (n : string) : MIO CommitOutcome :=
  let* (b, p) := leaf_with_parent n in
  let* pb := lookup_branch p in
  let parent_changed := negb (bool_decide (commit_count pb = parent_version_at_fork b)) in
  let* w := gets snd in
  let merge_content_dir := branch_dir_of (storage_path w) n ++ ["merge-content"] in
  let tombs := set_order (get_tombstones b) in
  let* t := on_host get_tree in
  let* delta_files := on_host (walk_files (tree_fuel t) (files_dir b) "") in
  let* m := (if parent_changed then merge_phase b merge_content_dir tombs delta_files
             else ret merge_empty) in
  do* (if bool_decide (p = "main") then commit_to_main n m tombs delta_files
       else commit_nested n p m tombs delta_files);
  ret {| parent_name := p; auto_merges := ms_auto m; conflicts := ms_conflicts m |}.

Definition commit (n : string) : MIO string :=
  let* o := commit_with_report n in
  ret (parent_name o).

Definition abort (n : string) : MIO string :=
  let* (b, p) := leaf_with_parent n in
  do* forget_branch n;
  do* on_mem (invalidate_branches [n]);
  ret p.
End Commit.
