(* ===== verification/Frame.v ===== *)
(** * What host calls leave alone

    [step_in d P h h']: started with the store directory [d] in order, a call
    leaves it in order and changes what the host holds only at paths in [P].
    "What the host holds" is the kind and content of entries ([look]); modes and
    times are not part of it.  The store is in order when the tree is well
    formed, [d] is a directory and none of its bookkeeping files - everything
    outside [files] and [inherited] - is a symbolic link, so that a write to one
    of them goes where it should. *)

From S2P Require Import Prelude Strs HostFs TextMerge Branch View.

(** ** Paths no link is on the way of *)

(** A path without ".." none of whose proper beginnings is a link. *)
Definition plain_way (t : tree) (p : path) : Prop :=
  ".." ∉ p /\ forall x y, p = x ++ y -> y <> [] -> not_link t x.

Lemma plain_way_prefix t p y x : plain_way t p -> p = x ++ y -> plain_way t x.
Proof.
  intros [H1 H2] ->. split; [set_solver|]. intros a b -> Hb. apply (H2 a (b ++ y)); [by rewrite app_assoc|].
  by destruct b.
Qed.
Lemma plain_way_ext t t' p :
  plain_way t p -> (forall x y, p = x ++ y -> y <> [] -> look t' x = look t x) -> plain_way t' p.
Proof. intros [H1 H2] Hl. split; [done|]. intros x y Hp Hy target. rewrite (Hl x y Hp Hy). by apply (H2 x y). Qed.

(** Nothing is found further on where a beginning is missing or no directory. *)
Lemma nothing_below t x y : wf_tree t -> y <> [] -> look t x <> Some KDir -> t !! (x ++ y) = None.
Proof.
  intros Hwf Hy Hx. apply eq_None_not_Some. intros H. apply Hx. by apply (wf_below t x y Hwf Hy).
Qed.

Lemma resolve_plain l t at_ rest c :
  wf_tree t -> plain_way t (at_ ++ rest ++ [c]) ->
  resolve_links l t at_ rest = Ok (at_ ++ rest)
  \/ exists e, resolve_links l t at_ rest = Err e /\ t !! (at_ ++ rest ++ [c]) = None.
Proof.
  intros Hwf Hway. revert at_ Hway. induction rest as [|d rest IH]; intros at_ Hway.
  - left. rewrite app_nil_r. by destruct l.
  - assert (resolve_links l t at_ (d :: rest) =
      match t !! (at_ ++ [d]) with
      | None => Err ENOENT
      | Some n => match n_kind n with
                  | KDir => resolve_links l t (at_ ++ [d]) rest
                  | KSymlink _ => resolve_links l t at_ (d :: rest)
                  | _ => match rest with [] => Ok (at_ ++ [d]) | _ => Err ENOTDIR end
                  end
      end) as ->.
    { destruct Hway as [Hdots _]. unfold resolve_links. destruct l; cbn -[bool_decide]; fold resolve_links;
        rewrite (bool_decide_false (d = "..")) by (intros ->; apply Hdots; set_solver);
        destruct (t !! (at_ ++ [d])) as [[[] ? ? ?]|]; try done. }
    replace (at_ ++ (d :: rest) ++ [c]) with ((at_ ++ [d]) ++ rest ++ [c]) in * by (by rewrite <- (assoc (++) at_)).
    replace (at_ ++ d :: rest) with ((at_ ++ [d]) ++ rest) by (by rewrite <- (assoc (++) at_)).
    assert (rest ++ [c] <> []) as Hne by (by destruct rest).
    destruct (t !! (at_ ++ [d])) as [n|] eqn:Hn.
    2:{ right. exists ENOENT. split; [done|]. apply nothing_below; [done..|]. unfold look. by rewrite Hn. }
    assert (look t (at_ ++ [d]) = Some (n_kind n)) as Hk by (unfold look; by rewrite Hn).
    destruct (n_kind n) as [data| |target|] eqn:Hkind; [|by apply IH| |].
    + destruct rest as [|e rest]; [left; by rewrite app_nil_r|]. right. exists ENOTDIR. split; [done|].
      apply nothing_below; [done..|]. by rewrite Hk.
    + destruct Hway as [_ Hway]. by destruct (Hway (at_ ++ [d]) (rest ++ [c]) eq_refl Hne target).
    + destruct rest as [|e rest]; [left; by rewrite app_nil_r|]. right. exists ENOTDIR. split; [done|].
      apply nothing_below; [done..|]. by rewrite Hk.
Qed.

(** A call through links is the call itself where there is none. *)
Lemma through_plain p h :
  wf_tree (h_tree h) -> plain_way (h_tree h) p ->
  (forall A (c : path -> IO A), through p c h = c p h)
  \/ h_tree h !! p = None /\ forall A (c : path -> IO A), exists e, through p c h = (Err (Throw (Io e)), h).
Proof.
  intros Hwf Hway. destruct p as [|x p _] using rev_ind; [by left|].
  assert (forall A (c : path -> IO A), through (p ++ [x]) c = let* dir := canonicalize p in c (dir ++ [x])) as Ht.
  { intros A c. unfold through. rewrite parent_snoc, file_name_snoc. by destruct p. }
  destruct (resolve_plain max_links (h_tree h) [] p x Hwf Hway) as [Hr|(e & Hr & Hn)]; [left|right; split; [done|]];
    intros A c; rewrite Ht; unfold canonicalize, bind, get_tree, gets; rewrite Hr; [done|by exists e].
Qed.

(** ** Regions *)

(** The bookkeeping part of a store directory. *)
Definition book (d q : path) : Prop :=
  exists c s, q = d ++ c :: s /\ c <> "files" /\ c <> "inherited".
(** The whole of it, and its delta. *)
Definition within (d q : path) : Prop := under d q = true.
Definition delta_part (d q : path) : Prop := under (d ++ ["files"]) q = true.

Record store_ok (d : path) (h : host) : Prop := {
  so_wf : wf_host h;
  so_dir : look (h_tree h) d = Some KDir;
  so_plain : forall q, book d q -> not_link (h_tree h) q;
}.

Definition step_in (d : path) (P : path -> Prop) (h h' : host) : Prop :=
  store_ok d h -> store_ok d h' /\ forall q, ~ P q -> look (h_tree h') q = look (h_tree h) q.

#[export] Instance step_in_preorder d P : PreOrder (step_in d P).
Proof.
  split; [by intros h Hh|]. intros a b c Hab Hbc Ha.
  destruct (Hab Ha) as [Hb H1]. destruct (Hbc Hb) as [Hc H2]. split; [done|].
  intros q Hq. by rewrite H2, H1.
Qed.

Lemma step_in_mono d (P Q : path -> Prop) h h' :
  (forall q, P q -> Q q) -> step_in d P h h' -> step_in d Q h h'.
Proof. intros HPQ H Hh. destruct (H Hh) as [? H1]. split; [done|]. intros q Hq. apply H1. auto. Qed.

Lemma keeps_mono d (P Q : path -> Prop) {A} (c : IO A) :
  (forall q, P q -> Q q) -> keeps (step_in d P) c -> keeps (step_in d Q) c.
Proof. intros HPQ H h. by eapply step_in_mono. Qed.

Lemma book_within d q : book d q -> within d q.
Proof. intros (c & s & -> & _). apply under_app. Qed.
Lemma delta_within d q : delta_part d q -> within d q.
Proof. intros (s & ->)%under_true. unfold within. rewrite <- app_assoc. apply under_app. Qed.
Lemma book_not_delta d q : book d q -> ~ delta_part d q.
Proof.
  intros (c & s & -> & Hc & _) (s' & H)%under_true. rewrite <- app_assoc in H. apply app_inv_head in H. by simplify_eq/=.
Qed.

#[export] Instance book_dec d q : Decision (book d q).
Proof.
  destruct (strip d q) as [[|c s]|] eqn:Hs.
  - right. intros (c & s & -> & _). by rewrite strip_app in Hs.
  - apply strip_Some in Hs as ->. destruct (decide (c = "files" \/ c = "inherited")) as [H|H].
    + right. intros (c' & s' & Heq & H1 & H2). apply app_inv_head in Heq. simplify_eq. by destruct H.
    + left. exists c, s. tauto.
  - right. intros (c & s & -> & _). by rewrite strip_app in Hs.
Defined.

(** ** Exact effects of the calls on [look] *)

Section Effects.
Context {E : Env}.

Lemma real_path_plain p h : not_link (h_tree h) p -> real_path p h = (Ok p, h).
Proof.
  intros Hp. unfold real_path, get_tree, gets, bind. by rewrite follow_plain.
Qed.

(** A write to a path that is not a link puts a file there, and does nothing
    else. *)
Lemma open_write_plain p h q old h' :
  not_link (h_tree h) p -> open_write p h = (Ok (q, old), h') ->
  q = p /\ h' = h /\ old = h_tree h !! p
  /\ (forall n, old = Some n -> is_dir n = false)
  /\ (old = None -> look (h_tree h) (parent p) = Some KDir).
Proof.
  intros Hp Hw. unfold open_write, bind in Hw. rewrite real_path_plain in Hw by done.
  unfold get_tree, gets, need_parent, symlink_metadata, get_tree, io_error, throw, raise, ret, gets, bind in Hw.
  destruct (h_tree h !! p) as [n|] eqn:Hn.
  - destruct (is_dir n) eqn:Hd; simplify_eq. split_and!; try done. by intros n' [= <-].
  - destruct (h_tree h !! parent p) as [m|] eqn:Hm; simplify_eq.
    destruct (is_dir m) eqn:Hd; simplify_eq. split_and!; try done. intros _. by eapply is_dir_look.
Qed.

Lemma open_write_unchanged p h : (open_write p h).2 = h.
Proof.
  unfold open_write, real_path, need_parent, symlink_metadata, get_tree, io_error, throw, raise, ret, gets, bind.
  repeat (case_match; simplify_eq/=; try done).
Qed.

Lemma store_file_look q old d h r :
  look (h_tree (store_file q old d h).2) r = if decide (q = r) then Some (KFile d) else look (h_tree h) r.
Proof.
  unfold store_file, get_tree, now, put_tree, gets, modify, bind.
  destruct old; simpl; rewrite ?look_bump, look_insert; done.
Qed.

Lemma write_look p d h r h' :
  not_link (h_tree h) p -> write p d h = (r, h') ->
  (forall q, q <> p -> look (h_tree h') q = look (h_tree h) q)
  /\ match r with Ok _ => look (h_tree h') p = Some (KFile d) | Err _ => h' = h end.
Proof.
  intros Hp Hw. unfold write, bind in Hw. destruct (open_write p h) as [[[q old]|x] h1] eqn:Ho.
  - apply open_write_plain in Ho as (-> & -> & _); [|done].
    pose proof (store_file_look p old d h) as Hs. rewrite Hw in Hs. simpl in Hs. split.
    + intros q Hq. rewrite Hs. by rewrite decide_False.
    + assert (r = Ok tt) as ->.
      { unfold store_file, get_tree, now, put_tree, gets, modify, bind in Hw. by destruct old; simplify_eq. }
      rewrite Hs. by rewrite decide_True.
  - simplify_eq. pose proof (open_write_unchanged p h) as H. rewrite Ho in H. simpl in H. by subst.
Qed.

Lemma append_look p d h r h' :
  not_link (h_tree h) p -> append p d h = (r, h') ->
  (forall q, q <> p -> look (h_tree h') q = look (h_tree h) q)
  /\ match r with
     | Ok _ => look (h_tree h') p = Some (KFile (node_data (h_tree h !! p) ++ d))
     | Err _ => h' = h
     end.
Proof.
  intros Hp Hw. unfold append, bind in Hw. destruct (open_write p h) as [[[q old]|x] h1] eqn:Ho.
  - apply open_write_plain in Ho as (-> & -> & -> & _); [|done].
    set (c := node_data (h_tree h !! p) ++ d) in *.
    pose proof (store_file_look p (h_tree h !! p) c h) as Hs. rewrite Hw in Hs. simpl in Hs. split.
    + intros q Hq. rewrite Hs. by rewrite decide_False.
    + assert (r = Ok tt) as ->.
      { unfold store_file, get_tree, now, put_tree, gets, modify, bind in Hw. by destruct (h_tree h !! p); simplify_eq. }
      rewrite Hs. by rewrite decide_True.
  - simplify_eq. pose proof (open_write_unchanged p h) as H. rewrite Ho in H. simpl in H. by subst.
Qed.

(** New directories appear only where nothing was. *)
Lemma mkdirs_look z t base rest t' :
  mkdirs z t base rest = Ok t' ->
  forall q, look t' q = look t q
            \/ (look t q = None /\ look t' q = Some KDir /\ exists s, s <> [] /\ s `prefix_of` rest /\ q = base ++ s).
Proof.
  revert t base; induction rest as [|c rest IH]; intros t base H q; simpl in H; [simplify_eq; by left|].
  assert (forall q, (exists s, s <> [] /\ s `prefix_of` rest /\ q = (base ++ [c]) ++ s) ->
    exists s, s <> [] /\ s `prefix_of` c :: rest /\ q = base ++ s) as Hlift.
  { intros q' (s & Hs & Hp & ->). exists (c :: s). split; [done|]. split; [by apply prefix_cons|].
    by rewrite <- app_assoc. }
  destruct (t !! (base ++ [c])) as [n|] eqn:Hn.
  - destruct (is_dir n).
    + destruct (IH _ _ H q) as [?|(? & ? & ?)]; [by left|right]. auto.
    + destruct rest; [|done]. destruct (follow _ _ _) as [[d ?]|]; [|done].
      destruct (match t !! d with Some m => is_dir m | None => false end); simplify_eq. by left.
  - assert (look t (base ++ [c]) = None) as Hl by (unfold look; by rewrite Hn).
    assert (forall r, look (bump z (base ++ [c]) (<[base ++ [c]:=Node KDir 493 z (new_stamp z)]> t)) r
      = if decide (base ++ [c] = r) then Some KDir else look t r) as Hb.
    { intros r. by rewrite look_bump, look_insert. }
    destruct (IH _ _ H q) as [Hq|(Hq & Hq' & Hs)]; rewrite Hb in Hq.
    + case_decide as Hd; [|by left]. subst q. right. split; [done|]. split; [done|].
      exists [c]. split; [done|]. split; [|done]. apply prefix_cons, prefix_nil.
    + case_decide; [done|]. right. auto.
Qed.

(** The path asked for is there afterwards. *)
Lemma mkdirs_made z t base rest t' :
  mkdirs z t base rest = Ok t' -> rest <> [] -> is_Some (look t' (base ++ rest)).
Proof.
  revert t base; induction rest as [|c rest IH]; intros t base H Hne; [done|]. simpl in H.
  assert (forall t0, is_Some (look t0 (base ++ [c])) -> mkdirs z t0 (base ++ [c]) rest = Ok t' ->
    is_Some (look t' (base ++ c :: rest))) as Hgo.
  { intros t0 Ht0 Hm. destruct rest as [|c' rest]; [by injection Hm as <-|].
    apply IH in Hm; [|done]. by rewrite <- app_assoc in Hm. }
  destruct (t !! (base ++ [c])) as [n|] eqn:Hn.
  - assert (is_Some (look t (base ++ [c]))) as Hs by (apply look_is_Some; by eexists).
    destruct (is_dir n); [by apply (Hgo t)|]. destruct rest; [|done].
    destruct (follow _ _ _) as [[d ?]|]; [|done].
    destruct (match t !! d with Some m => is_dir m | None => false end); by simplify_eq.
  - apply (Hgo _) in H; [done|]. rewrite look_bump, look_insert, decide_True by done. by eexists.
Qed.

Lemma create_dir_all_made p h h' :
  create_dir_all p h = (Ok tt, h') -> p <> [] -> is_Some (look (h_tree h') p).
Proof.
  unfold create_dir_all, get_tree, now, put_tree, io_error, throw, raise, gets, modify, bind. intros H Hp.
  destruct (mkdirs _ _ _ _) as [t'|e] eqn:Hm; simplify_eq/=. by apply mkdirs_made in Hm.
Qed.

Lemma create_dir_all_look p h r h' :
  create_dir_all p h = (r, h') ->
  forall q, look (h_tree h') q = look (h_tree h) q
            \/ (look (h_tree h) q = None /\ look (h_tree h') q = Some KDir /\ q <> [] /\ q `prefix_of` p).
Proof.
  unfold create_dir_all, get_tree, now, put_tree, io_error, throw, raise, gets, modify, bind.
  destruct (mkdirs _ _ _ _) as [t'|e] eqn:Hm; intros H q; simplify_eq/=; [|by left].
  destruct (mkdirs_look _ _ _ _ _ Hm q) as [?|(? & ? & s & ? & ? & ->)]; [by left|right]. done.
Qed.

Lemma remove_file_call_look p h r h' :
  remove_file_call p h = (r, h') ->
  match r with
  | Ok _ => (exists k, look (h_tree h) p = Some k /\ k <> KDir)
            /\ forall q, look (h_tree h') q = if decide (p = q) then None else look (h_tree h) q
  | Err _ => h' = h
  end.
Proof.
  unfold remove_file_call, symlink_metadata, get_tree, now, put_tree, io_error, throw, raise, ret, gets, modify, bind.
  destruct (h_tree h !! p) as [n|] eqn:Hn; intros H; [|by simplify_eq].
  destruct (is_dir n) eqn:Hd; simplify_eq/=; [done|]. split; [by eapply nondir_look|].
  intros q. by rewrite look_bump, look_delete.
Qed.

Lemma remove_dir_look p h r h' :
  remove_dir p h = (r, h') ->
  match r with
  | Ok _ => look (h_tree h) p = Some KDir /\ (forall c, h_tree h !! (p ++ [c]) = None)
            /\ forall q, look (h_tree h') q = if decide (p = q) then None else look (h_tree h) q
  | Err _ => h' = h
  end.
Proof.
  unfold remove_dir, symlink_metadata, get_tree, now, put_tree, io_error, throw, raise, ret, gets, modify, bind.
  destruct (h_tree h !! p) as [n|] eqn:Hn; intros H; [|by simplify_eq].
  destruct (is_dir n) eqn:Hd; simpl in H; [|by simplify_eq].
  case_bool_decide; [by simplify_eq|]. case_bool_decide as Hc; simplify_eq/=; [|done].
  split; [by eapply is_dir_look|]. split; [by apply children_empty|].
  intros q. by rewrite look_bump, look_delete.
Qed.

Lemma remove_dir_all_call_look p h r h' :
  remove_dir_all_call p h = (r, h') -> wf_host h ->
  match r with
  | Ok _ => forall q, look (h_tree h') q = if under p q then None else look (h_tree h) q
  | Err _ => h' = h
  end.
Proof.
  unfold remove_dir_all_call, symlink_metadata, get_tree, now, put_tree, io_error, throw, raise, ret, gets, modify, bind.
  destruct (h_tree h !! p) as [n|] eqn:Hn; intros H Hwf; [|by simplify_eq].
  case_bool_decide; [by simplify_eq|]. destruct (is_dir n) eqn:Hd; simplify_eq/=.
  - intros q. by rewrite look_bump, look_prune.
  - destruct (is_symlink n) eqn:Hl; simplify_eq/=; [|done].
    destruct (nondir_look _ _ _ Hn Hd) as (k & Hk & Hkd). intros q. rewrite look_bump, look_delete.
    destruct (under p q) eqn:Hu.
    + apply under_true in Hu as [s ->]. case_decide as Hs; [done|].
      apply look_None. eapply wf_nondir_leaf; [done..|]. intros ->. by rewrite app_nil_r in Hs.
    + case_decide; [subst; by rewrite under_refl in Hu|done].
Qed.

Lemma rename_look a b h r h' :
  rename a b h = (r, h') -> wf_host h ->
  match r with
  | Ok _ => is_Some (look (h_tree h) a) /\ look (h_tree h) (parent b) = Some KDir
            /\ (a = b \/ (under a b = false /\ forall q,
                 look (h_tree h') q = match strip b q with
                                      | Some s => look (h_tree h) (a ++ s)
                                      | None => if under a q then None else look (h_tree h) q
                                      end))
            /\ (a = b -> h' = h)
  | Err _ => h' = h
  end.
Proof.
  unfold rename, need_parent, symlink_metadata, get_tree, now, put_tree, io_error, throw, raise, ret, gets, modify, bind.
  destruct (h_tree h !! a) as [n|] eqn:Hn; intros H Hwf; [|by simplify_eq].
  destruct (h_tree h !! parent b) as [m|] eqn:Hm; [|by simplify_eq].
  destruct (is_dir m) eqn:Hd; [|by simplify_eq].
  assert (is_Some (look (h_tree h) a)) by (apply look_is_Some; by eexists).
  assert (look (h_tree h) (parent b) = Some KDir) by (by eapply is_dir_look).
  case_bool_decide as Hab; [simplify_eq; by auto|].
  destruct (under a b) eqn:Hu; [by simplify_eq|].
  destruct (match h_tree h !! b with None => None | Some m0 => _ end) as [e|]; simplify_eq/=; [done|].
  split; [done|]. split; [done|]. split; [|done]. right. split; [done|]. intros q.
  by rewrite !look_bump, look_move.
Qed.

Lemma symlink_look target p h r h' :
  symlink target p h = (r, h') ->
  match r with
  | Ok _ => look (h_tree h) p = None
            /\ forall q, look (h_tree h') q = if decide (p = q) then Some (KSymlink target) else look (h_tree h) q
  | Err _ => h' = h
  end.
Proof.
  unfold symlink, insert_entry, need_parent, symlink_metadata, get_tree, now, put_tree, io_error, throw, raise, ret, gets, modify, bind.
  intros H. destruct (h_tree h !! p) as [n|] eqn:Hn; [by simplify_eq|].
  destruct (h_tree h !! parent p) as [m|]; [|by simplify_eq].
  destruct (is_dir m); simplify_eq/=; [|done]. split; [by apply look_None|].
  intros q. by rewrite look_bump, look_insert.
Qed.

Lemma set_permissions_look p m h r h' :
  set_permissions p m h = (r, h') -> forall q, look (h_tree h') q = look (h_tree h) q.
Proof.
  unfold set_permissions, real_path, symlink_metadata, get_tree, io_error, throw, raise, ret, gets, modify, bind.
  intros H q. destruct (follow _ _ _) as [[x ?]|]; [|by simplify_eq].
  destruct (h_tree h !! x); simplify_eq/=; [|done]. by rewrite look_alter_mode.
Qed.

(** [fs::copy] to a path that is not a link. *)
Lemma copy_look a b h r h' :
  not_link (h_tree h) b -> copy a b h = (r, h') ->
  (forall q, q <> b -> look (h_tree h') q = look (h_tree h) q)
  /\ match r with
     | Ok len => exists q d, real_path a h = (Ok q, h) /\ look (h_tree h) q = Some (KFile d)
                 /\ look (h_tree h') b = Some (KFile d) /\ len = Z.of_nat (length d)
     | Err _ => h' = h
     end.
Proof.
  intros Hb Hc. unfold copy, metadata, bind in Hc.
  destruct (real_path a h) as [[q|x] h1] eqn:Hr.
  2:{ pose proof (real_path_keeps eq a h) as He. rewrite Hr in He. simplify_eq/=. by subst. }
  pose proof (real_path_keeps eq a h) as He. rewrite Hr in He. simpl in He. subst h1.
  unfold symlink_metadata, get_tree, io_error, throw, raise, ret, gets, modify, bind in Hc.
  destruct (h_tree h !! q) as [n|] eqn:Hn; [|by simplify_eq].
  destruct (n_kind n) as [d| | |] eqn:Hk; try by simplify_eq.
  destruct (open_write b h) as [[[q' old]|x] h2] eqn:Ho.
  2:{ simplify_eq. pose proof (open_write_unchanged b h) as He. rewrite Ho in He. simpl in He. by subst. }
  apply open_write_plain in Ho as (-> & -> & -> & _); [|done].
  destruct (store_file b (h_tree h !! b) d h) as [[[]|x] h3] eqn:Hs.
  2:{ unfold store_file, get_tree, now, put_tree, gets, modify, bind in Hs. by destruct (h_tree h !! b). }
  pose proof (store_file_look b (h_tree h !! b) d h) as Hl. rewrite Hs in Hl. simpl in Hl.
  simplify_eq/=. split.
  - intros q' Hq. rewrite look_alter_mode, Hl. by rewrite decide_False.
  - exists q, d. split; [done|]. split; [unfold look; by rewrite Hn, <- Hk|].
    split; [|done]. rewrite look_alter_mode, Hl. by rewrite decide_True.
Qed.
End Effects.

(** ** The calls as steps inside a store *)

Section Steps.
Context {E : Env} (d : path).

(** What a call may do to a path [q] of region [P]. *)
Definition allowed (P : path -> Prop) (t' : tree) (q : path) : Prop :=
  P q /\ q <> d /\ (book d q -> not_link t' q).

Lemma step_in_at {A} (c : IO A) P h :
  keeps wf_step c ->
  (store_ok d h -> forall r h', c h = (r, h') ->
     forall q, look (h_tree h') q = look (h_tree h) q \/ allowed P (h_tree h') q) ->
  step_in d P h (c h).2.
Proof.
  intros Hwf Hc Hok. specialize (Hc Hok (c h).1 (c h).2). specialize (Hwf h).
  destruct (c h) as [r h'] eqn:Heq. simpl in *. specialize (Hc eq_refl).
  destruct Hok as [H1 H2 H3]. split; [split|].
  - by apply Hwf.
  - destruct (Hc d) as [->|(_ & Hd & _)]; done.
  - intros q Hq target. destruct (Hc q) as [->|(_ & _ & Hl)]; [by apply H3|by apply Hl].
  - intros q Hq. by destruct (Hc q) as [->|(Hp & _)].
Qed.

Lemma step_in_intro {A} (c : IO A) P :
  keeps wf_step c ->
  (forall h r h', c h = (r, h') -> store_ok d h ->
     forall q, look (h_tree h') q = look (h_tree h) q \/ allowed P (h_tree h') q) ->
  keeps (step_in d P) c.
Proof. intros Hwf Hc h. apply step_in_at; [done|]. intros Hok r h' Heq. by apply (Hc h r). Qed.

Lemma book_ne q : book d q -> q <> d.
Proof. intros (c & s & -> & _) H. apply (f_equal length) in H. rewrite length_app in H. simpl in H. lia. Qed.

Lemma look_file_plain t q data : look t q = Some (KFile data) -> not_link t q.
Proof. intros H target H'. congruence. Qed.
Lemma look_plain_ext t t' q : look t' q = look t q -> not_link t q -> not_link t' q.
Proof. intros H Hn target. rewrite H. apply Hn. Qed.

Variable P : path -> Prop.

Lemma write_in p data : book d p -> P p -> keeps (step_in d P) (write p data).
Proof.
  intros Hb Hp. apply step_in_intro; [apply write_wf|]. intros h r h' Hw Hok q.
  apply write_look in Hw as [H1 H2]; [|by apply (so_plain _ _ Hok)].
  destruct (decide (q = p)) as [->|Hq]; [|left; by apply H1]. destruct r; [right|left; by subst].
  split; [done|]. split; [by apply book_ne|]. intros _. by eapply look_file_plain.
Qed.

Lemma append_in p data : book d p -> P p -> keeps (step_in d P) (append p data).
Proof.
  intros Hb Hp. apply step_in_intro; [apply append_wf|]. intros h r h' Hw Hok q.
  apply append_look in Hw as [H1 H2]; [|by apply (so_plain _ _ Hok)].
  destruct (decide (q = p)) as [->|Hq]; [|left; by apply H1]. destruct r; [right|left; by subst].
  split; [done|]. split; [by apply book_ne|]. intros _. by eapply look_file_plain.
Qed.

Lemma copy_in a p : book d p -> P p -> keeps (step_in d P) (copy a p).
Proof.
  intros Hb Hp. apply step_in_intro; [apply copy_wf|]. intros h r h' Hw Hok q.
  apply copy_look in Hw as [H1 H2]; [|by apply (so_plain _ _ Hok)].
  destruct (decide (q = p)) as [->|Hq]; [|left; by apply H1]. destruct r; [right|left; by subst].
  destruct H2 as (q' & da & _ & _ & H2 & _).
  split; [done|]. split; [by apply book_ne|]. intros _. by eapply look_file_plain.
Qed.

Lemma create_dir_all_in p :
  within d p -> (forall q, q `prefix_of` p -> within d q -> q <> d -> P q) ->
  keeps (step_in d P) (create_dir_all p).
Proof.
  intros Hin HP. apply step_in_intro; [apply create_dir_all_wf|]. intros h r h' Hc Hok q.
  destruct (create_dir_all_look _ _ _ _ Hc q) as [?|(Hn & Hk & _ & Hpre)]; [by left|right].
  destruct Hok as [Hwf Hd _].
  assert (q <> d) as Hqd by (intros ->; congruence).
  split; [apply HP; [done| |done]|]; [|split; [done|]; intros _ target; congruence].
  unfold within in *. destruct (under d q) eqn:Hu; [done|].
  destruct (under_linear d q p) as [H|H]; [done|by apply under_prefix|congruence|].
  apply under_true in H as [s ->]. rewrite (wf_below _ q s) in Hn; [done|done| |].
  - intros ->. by rewrite app_nil_r in Hqd.
  - apply look_is_Some. by rewrite Hd.
Qed.

Lemma remove_file_call_in p : P p -> p <> d -> keeps (step_in d P) (remove_file_call p).
Proof.
  intros Hp Hne. apply step_in_intro; [apply remove_file_call_wf|]. intros h r h' Hc Hok q.
  apply remove_file_call_look in Hc. destruct r; [|left; by subst]. destruct Hc as [_ Hc].
  pose proof (Hc q) as Hq. case_decide; [subst; right|by left].
  split; [done|]. split; [done|]. intros _ target. congruence.
Qed.

Lemma remove_dir_in p : P p -> p <> d -> keeps (step_in d P) (remove_dir p).
Proof.
  intros Hp Hne. apply step_in_intro; [apply remove_dir_wf|]. intros h r h' Hc Hok q.
  apply remove_dir_look in Hc. destruct r; [|left; by subst]. destruct Hc as (_ & _ & Hc).
  pose proof (Hc q) as Hq. case_decide; [subst; right|by left].
  split; [done|]. split; [done|]. intros _ target. congruence.
Qed.

Lemma strictly_within p q : within d p -> p <> d -> under p q = true -> q <> d.
Proof. intros Hp Hne Hu ->. apply Hne. by apply under_antisym. Qed.

Lemma remove_dir_all_call_in p :
  within d p -> p <> d -> (forall q, under p q = true -> P q) -> keeps (step_in d P) (remove_dir_all_call p).
Proof.
  intros Hin Hne HP. apply step_in_intro; [apply remove_dir_all_call_wf|]. intros h r h' Hc Hok q.
  apply remove_dir_all_call_look in Hc; [|apply Hok]. destruct r; [|left; by subst].
  pose proof (Hc q) as Hq. destruct (under p q) eqn:Hu; [right|by left].
  split; [by apply HP|]. split; [by eapply strictly_within|]. intros _ target. congruence.
Qed.

Lemma book_app q s : book d q -> book d (q ++ s).
Proof. intros (c & r & -> & Hc). exists c, (r ++ s). split; [by rewrite <- app_assoc|done]. Qed.

Lemma book_under p q : book d q -> under p q = true -> within d p -> p <> d -> book d p.
Proof.
  intros (c & s & -> & Hc1 & Hc2) (r & Heq)%under_true (x & ->)%under_true Hne.
  destruct x as [|y x]; [by rewrite app_nil_r in Hne|]. rewrite <- app_assoc in Heq.
  apply app_inv_head in Heq. simplify_eq/=. by exists y, x.
Qed.

Lemma rename_in a b :
  within d a -> a <> d -> within d b -> b <> d ->
  (forall q, under a q = true -> P q) -> (forall q, under b q = true -> P q) ->
  (book d b -> book d a) -> keeps (step_in d P) (rename a b).
Proof.
  intros Ha Han Hb Hbn HPa HPb Hbook. apply step_in_intro; [apply rename_wf|]. intros h r h' Hc Hok q.
  apply rename_look in Hc; [|apply Hok]. destruct r; [|left; by subst].
  destruct Hc as (_ & _ & [->|[_ Hc]] & Heq); [left; by rewrite Heq|].
  pose proof (Hc q) as Hq. destruct (strip b q) as [s|] eqn:Hs.
  - right. apply strip_Some in Hs as ->. split; [apply HPb, under_app|].
    split; [apply (strictly_within b); [done|done|apply under_app]|]. intros Hbq target. rewrite Hq.
    apply (so_plain _ _ Hok). apply book_app, Hbook. apply (book_under b (b ++ s)); [done|apply under_app|done|done].
  - destruct (under a q) eqn:Hu; [right|by left]. split; [by apply HPa|].
    split; [by apply (strictly_within a)|]. intros _ target. congruence.
Qed.

Lemma symlink_in target p : P p -> p <> d -> ~ book d p -> keeps (step_in d P) (symlink target p).
Proof.
  intros Hp Hne Hnb. apply step_in_intro; [apply symlink_wf|]. intros h r h' Hc Hok q.
  apply symlink_look in Hc. destruct r; [|left; by subst]. destruct Hc as [_ Hc].
  rewrite Hc. case_decide; [subst; right|by left]. done.
Qed.

Lemma set_permissions_in p m : keeps (step_in d P) (set_permissions p m).
Proof.
  apply step_in_intro; [apply set_permissions_wf|]. intros h r h' Hc Hok q. left.
  by eapply set_permissions_look.
Qed.

Lemma fresh_uuid_in : keeps (step_in d P) fresh_uuid.
Proof. apply step_in_intro; [apply fresh_uuid_wf|]. intros h r h' Hc Hok q. left. unfold fresh_uuid in Hc. by simplify_eq/=. Qed.
End Steps.

#[export] Hint Resolve set_permissions_in fresh_uuid_in : keeps.

(** Store helpers that remove an entry [p] with all below it. *)
Section RemoveIn.
Context {E : Env} (d : path) (P : path -> Prop).

Lemma add_owner_in p : keeps (step_in d P) (add_owner_rwx_if_dir p).
Proof. unfold add_owner_rwx_if_dir. keeps_auto. Qed.
#[local] Hint Resolve add_owner_in : keeps.
Lemma guard_new_in p : keeps (step_in d P) (guard_new p).
Proof. unfold guard_new. keeps_auto. Qed.
Lemma guard_drop_in g : keeps (step_in d P) (guard_drop g).
Proof. unfold guard_drop. keeps_auto. Qed.
Lemma make_removable_in f p : keeps (step_in d P) (make_branch_store_tree_removable f p).
Proof. revert p. induction f; intros p; simpl; keeps_auto. Qed.
#[local] Hint Resolve make_removable_in : keeps.

Context (p : path) (Hin : within d p) (Hne : p <> d) (HP : forall q, under p q = true -> P q).

Lemma remove_branch_store_dir_all_in : keeps (step_in d P) (remove_branch_store_dir_all p).
Proof.
  unfold remove_branch_store_dir_all. keeps_auto.
  - by apply remove_dir_all_call_in.
  - apply remove_file_call_in; [apply HP, under_refl|done].
Qed.
Lemma remove_entry_in : keeps (step_in d P) (remove_entry p).
Proof.
  unfold remove_entry. keeps_auto.
  - by apply remove_branch_store_dir_all_in.
  - apply remove_file_call_in; [apply HP, under_refl|done].
Qed.
End RemoveIn.
#[export] Hint Resolve add_owner_in guard_new_in guard_drop_in : keeps.

(** ** Calls on the delta of a branch, where links may be *)
Section Delta.
Context {E : Env} (d : path) (P : path -> Prop).

Lemma write_data_look p offset data h r h' :
  not_link (h_tree h) p -> write_data_to_file p offset data h = (r, h') ->
  (forall q, q <> p -> look (h_tree h') q = look (h_tree h) q)
  /\ not_link (h_tree h') p
  /\ match r with
     | Ok n => (offset < 2 ^ 63)%Z /\ n = Z.of_nat (length data)
         /\ ((forall k, look (h_tree h) p = Some k -> exists old, k = KFile old) ->
             look (h_tree h') p = Some (KFile (splice (Z.to_nat offset) data (node_data (h_tree h !! p)))))
     | Err _ => True
     end.
Proof.
  intros Hp Hw. unfold write_data_to_file, bind in Hw.
  destruct (open_write p h) as [[[q old]|x] h1] eqn:Ho.
  2:{ pose proof (open_write_unchanged p h) as He. rewrite Ho in He. simplify_eq/=. by subst. }
  apply open_write_plain in Ho as (-> & -> & -> & _); [|done].
  destruct ((match h_tree h !! p with None => store_file p None [] | Some _ => ret tt end) h) as [r1 h1] eqn:H1.
  assert (r1 = Ok tt /\ (forall q, q <> p -> look (h_tree h1) q = look (h_tree h) q)
          /\ look (h_tree h1) p = Some (match h_tree h !! p with Some n => n_kind n | None => KFile [] end))
    as (-> & Hq1 & Hp1).
  { destruct (h_tree h !! p) as [n|] eqn:Hn.
    - unfold ret in H1. simplify_eq. split; [done|]. split; [done|]. unfold look. by rewrite Hn.
    - pose proof (store_file_look p None [] h) as Hs. rewrite H1 in Hs. simpl in Hs.
      split; [unfold store_file, get_tree, now, put_tree, gets, modify, bind in H1; by simplify_eq|]. split.
      + intros q Hq. rewrite Hs. by rewrite decide_False.
      + rewrite Hs. by rewrite decide_True. }
  assert (not_link (h_tree h1) p) as Hpl.
  { intros target. rewrite Hp1. intros [= Heq]. destruct (h_tree h !! p) as [n|] eqn:Hn; [|done].
    apply (Hp target). unfold look. by rewrite Hn, <- Heq. }
  case_bool_decide as Hoff.
  2:{ unfold io_error, throw, raise in Hw. by simplify_eq. }
  unfold symlink_metadata, get_tree, io_error, throw, raise, ret, gets, bind, when in Hw.
  assert (exists n1, h_tree h1 !! p = Some n1) as [n1 Hn1].
  { apply look_is_Some. by rewrite Hp1. }
  rewrite Hn1 in Hw.
  assert (n_kind n1 = match h_tree h !! p with Some n => n_kind n | None => KFile [] end) as Hk.
  { unfold look in Hp1. rewrite Hn1 in Hp1. by injection Hp1. }
  assert ((forall k, look (h_tree h) p = Some k -> exists old, k = KFile old) ->
    node_data (Some n1) = node_data (h_tree h !! p) /\ n_kind n1 = KFile (node_data (h_tree h !! p))) as Hdata.
  { intros Hk'. unfold look in Hk'. destruct (h_tree h !! p) as [[k m z]|] eqn:Hn; simpl in *.
    - destruct (Hk' k) as [old ->]; [done|]. destruct n1. simpl in *. by subst.
    - destruct n1. simpl in *. by subst. }
  case_bool_decide as Hd; simpl in Hw.
  - simplify_eq. split; [done|]. split; [done|]. split; [done|]. split; [done|]. intros Hk'.
    destruct (Hdata Hk') as [_ Hk1]. unfold look. rewrite Hn1. simpl. by rewrite Hk1.
  - unfold store_file, get_tree, now, put_tree, gets, modify, bind in Hw. simplify_eq/=.
    split; [|split; [|split; [done|split; [done|]]]].
    + intros q Hq. rewrite look_insert, decide_False by done. by apply Hq1.
    + intros target. by rewrite look_insert, decide_True by done.
    + intros Hk'. destruct (Hdata Hk') as [Hd1 _]. rewrite look_insert, decide_True by done. simpl in *.
      by rewrite <- Hd1.
Qed.

Lemma write_data_in p offset data : book d p -> P p -> keeps (step_in d P) (write_data_to_file p offset data).
Proof.
  intros Hb Hp. apply step_in_intro; [apply write_data_wf|]. intros h r h' Hw Hok q.
  apply write_data_look in Hw as (H1 & H2 & _); [|by apply (so_plain _ _ Hok)].
  destruct (decide (q = p)) as [->|Hq]; [right|left; by apply H1].
  split; [done|]. split; [by apply book_ne|done].
Qed.
End Delta.

Lemma attempt_stat p h :
  attempt (symlink_metadata p) h
  = (Ok (match h_tree h !! p with Some m => Ok m | None => Err (Io (missing (h_tree h) p)) end), h).
Proof. unfold attempt, symlink_metadata, get_tree, gets, bind. by destruct (h_tree h !! p). Qed.

(** Calls that change modes and times only. *)
Definition same_look (a b : host) : Prop := forall q, look (h_tree b) q = look (h_tree a) q.
#[export] Instance same_look_preorder : PreOrder same_look.
Proof. split; [by intros a q|]. intros a b c H1 H2 q. by rewrite H2, H1. Qed.

Section SameLook.
Context {E : Env}.

Lemma set_permissions_same q m : keeps same_look (set_permissions q m).
Proof. intros h x. destruct (set_permissions q m h) as [r h'] eqn:Hs. by apply (set_permissions_look _ _ _ _ _ Hs). Qed.
#[local] Hint Resolve set_permissions_same : keeps.
Lemma guard_new_same p : keeps same_look (guard_new p).
Proof. unfold guard_new, add_owner_rwx_if_dir. keeps_auto. Qed.
Lemma guard_drop_same g : keeps same_look (guard_drop g).
Proof. unfold guard_drop. keeps_auto. Qed.
Lemma make_removable_same f p : keeps same_look (make_branch_store_tree_removable f p).
Proof. revert p. induction f as [|f IH]; intros p; simpl; unfold add_owner_rwx_if_dir; keeps_auto. Qed.
End SameLook.
#[export] Hint Resolve set_permissions_same guard_new_same guard_drop_same make_removable_same : keeps.

(** A tree without links is in order for every store in it. *)
Definition link_freeb (t : tree) : bool := forallb (fun kv => negb (is_symlink kv.2)) (map_to_list t).
Lemma link_free_plain t q : link_freeb t = true -> not_link t q.
Proof.
  unfold link_freeb. rewrite forallb_forall. intros H target Hl. unfold look in Hl.
  destruct (t !! q) as [n|] eqn:Hn; [|done]. simpl in Hl. injection Hl as Hk.
  specialize (H (q, n)). unfold is_symlink in H. simpl in H. rewrite Hk in H.
  assert (In (q, n) (map_to_list t)) as Hin by (apply list_elem_of_In, elem_of_map_to_list; done).
  by apply H in Hin.
Qed.

Lemma example_store_ok : store_ok ["store"; "branches"; "fix"] example_host.
Proof.
  split.
  - apply wf_treeb_ok. vm_compute. reflexivity.
  - reflexivity.
  - intros q _. apply link_free_plain. vm_compute. reflexivity.
Qed.
