(* ===== verification/BranchLaws.v ===== *)
(** * Laws of the branch operations

    Every bookkeeping operation of a branch stays inside the bookkeeping part of
    its store directory and keeps what identifies the branch ([bstep]). *)

From S2P Require Import Prelude Strs HostFs TextMerge Branch View Frame.

(** What no operation changes in a branch. *)
Record same_branch (b b' : Branch) : Prop := {
  sb_name : name b' = name b;
  sb_parent : br_parent b' = br_parent b;
  sb_dir : branch_dir b' = branch_dir b;
  sb_inh : inheritance b' = inheritance b;
  sb_fork : parent_version_at_fork b' = parent_version_at_fork b;
  sb_hide : hide_paths b' = hide_paths b;
}.
#[export] Instance same_branch_preorder : PreOrder same_branch.
Proof. split; [by split|]. intros a b c [] []. split; congruence. Qed.

(** A step of the branch stored in [d], inside region [P] of the host. *)
Definition bstep (d : path) (P : path -> Prop) (s s' : host * Branch) : Prop :=
  branch_dir s.2 = d -> same_branch s.2 s'.2 /\ step_in d P s.1 s'.1.
#[export] Instance bstep_preorder d P : PreOrder (bstep d P).
Proof.
  split; [by intros s _; split|]. intros a b c Hab Hbc Ha. destruct (Hab Ha) as [H1 H2].
  destruct Hbc as [H3 H4]; [by rewrite (sb_dir _ _ H1)|]. split; [by etransitivity|by etransitivity].
Qed.

Section Frames.
Context {E : Env} {J : Serde} (d : path).

Lemma on_host_bstep P {A} (c : IO A) : keeps (step_in d P) c -> keeps (bstep d P) (on_host c).
Proof.
  intros Hc [h b] _. unfold on_host, zoom. simpl. specialize (Hc h). destruct (c h) as [r h']. by split.
Qed.
Lemma on_mem_bstep P f : (forall b, same_branch b (f b)) -> keeps (bstep d P) (on_mem f).
Proof. intros Hf [h b] _. split; [apply Hf|done]. Qed.
Lemma get_branch_bstep P {A} (k : Branch -> BIO A) :
  (forall b, branch_dir b = d -> keeps (bstep d P) (k b)) -> keeps (bstep d P) (bind (gets snd) k).
Proof. intros Hk [h b] Hd. by apply Hk. Qed.

End Frames.

Ltac bstep_auto :=
  repeat (cbn beta iota;
    lazymatch goal with
    | |- keeps (bstep _ _) (bind (gets snd) _) => apply get_branch_bstep; intros ? Hdir; rewrite ?Hdir
    | |- keeps (bstep _ _) (on_host _) => apply on_host_bstep
    | |- keeps (bstep _ _) (on_mem _) => apply on_mem_bstep; intros ?; by split
    | |- _ => keeps_step
    end).

Section Books.
Context {E : Env} {J : Serde} (d : path).

(** A file of the store directory itself, or one in a bookkeeping directory. *)
Lemma book_file c : c <> "files" -> c <> "inherited" -> book d (d ++ [c]).
Proof. intros. by exists c, []. Qed.
Lemma book_in_dir c x : c <> "files" -> c <> "inherited" -> book d (d ++ [c; x]).
Proof. intros. by exists c, [x]. Qed.

Lemma ensure_store_dir_in c : keeps (step_in d (book d)) (ensure_parent_dirs (d ++ [c])).
Proof.
  unfold ensure_parent_dirs. destruct (d ++ [c]) as [|x p] eqn:Hd; [by destruct d|].
  rewrite <- Hd, parent_snoc. apply create_dir_all_in; [apply under_refl|].
  intros q H1 H2 Hq. destruct Hq. apply under_antisym; [|done]. by apply under_prefix.
Qed.
Lemma ensure_content_dir_in c x :
  c <> "files" -> c <> "inherited" -> keeps (step_in d (book d)) (ensure_parent_dirs (d ++ [c; x])).
Proof.
  intros H1 H2. unfold ensure_parent_dirs. destruct (d ++ [c; x]) as [|y p] eqn:Hd; [by destruct d|].
  rewrite <- Hd. change [c; x] with ([c] ++ [x]). rewrite app_assoc, parent_snoc.
  apply create_dir_all_in; [apply under_app|]. intros q Hq (s & ->)%under_true Hne.
  destruct Hq as [r Hr]. rewrite <- app_assoc in Hr. apply app_inv_head in Hr.
  destruct s as [|z s]; [by rewrite app_nil_r in Hne|]. simplify_eq/=. by exists z, s.
Qed.

Lemma book_under_file c q :
  c <> "files" -> c <> "inherited" -> under (d ++ [c]) q = true -> book d q.
Proof. intros H1 H2 (s & ->)%under_true. apply book_app. by exists c, []. Qed.

Ltac book_file :=
  first [apply book_file; done | apply book_in_dir; done | apply book_ne, book_file; done
        | apply under_app | intros ? ?; eapply book_under_file; [..|eassumption]; done].

(** The metadata and log files are replaced through a temporary sibling. *)
Lemma replace_in c data u :
  c <> "" -> contains_char "." c = true ->
  keeps (step_in d (book d))
    (do* write (with_file_name (d ++ [c]) (c +:+ ".tmp." +:+ u)) data;
     rename (with_file_name (d ++ [c]) (c +:+ ".tmp." +:+ u)) (d ++ [c])).
Proof.
  intros Hne Hdot. unfold with_file_name. rewrite parent_snoc.
  assert (forall x, contains_char "." x = true -> x <> "files" /\ x <> "inherited") as Hx.
  { intros x Hx. split; intros ->; done. }
  destruct (Hx c Hdot) as [Hc1 Hc2].
  destruct (Hx (c +:+ ".tmp." +:+ u)) as [Hu1 Hu2]; [by rewrite contains_char_app, Hdot|].
  apply keeps_bind; [apply _|apply write_in; by apply book_file|]. intros _.
  apply rename_in; try book_file; try (by apply book_ne, book_file).
  intros _. by apply book_file.
Qed.

Lemma tmp_name_in {A} P p (k : path -> IO A) :
  (forall u, keeps (step_in d P) (k (with_file_name p (file_name p +:+ ".tmp." +:+ u)))) ->
  keeps (step_in d P) (bind (tmp_name p) k).
Proof.
  intros Hk h. unfold tmp_name. rewrite bind_assoc. revert h.
  change (keeps (step_in d P) (bind fresh_uuid (fun u => bind (ret (with_file_name p (file_name p +:+ ".tmp." +:+ u))) k))).
  apply keeps_bind; [apply _|auto with keeps|]. intros u h. apply Hk.
Qed.

Lemma write_metadata_bstep : keeps (bstep d (book d)) write_metadata.
Proof.
  unfold write_metadata. apply get_branch_bstep. intros b Hdir. apply on_host_bstep. unfold meta_file. rewrite Hdir.
  apply keeps_bind; [apply _|apply ensure_store_dir_in|]. intros _. apply tmp_name_in. intros u.
  rewrite file_name_snoc. by apply replace_in.
Qed.

Lemma set_state_bstep st : keeps (bstep d (book d)) (set_state st).
Proof. unfold set_state. bstep_auto. apply write_metadata_bstep. Qed.

Lemma append_tombstone_op_bstep o p : keeps (bstep d (book d)) (append_tombstone_op o p).
Proof.
  unfold append_tombstone_op, tombstones_log_file. bstep_auto.
  - apply ensure_store_dir_in.
  - apply append_in; book_file.
Qed.
#[local] Hint Resolve append_tombstone_op_bstep : keeps.

Lemma add_tombstone_bstep p : keeps (bstep d (book d)) (add_tombstone p).
Proof. unfold add_tombstone. bstep_auto. Qed.
Lemma remove_tombstone_bstep p : keeps (bstep d (book d)) (remove_tombstone p).
Proof. unfold remove_tombstone. bstep_auto. Qed.
Lemma remove_tombstones_under_bstep p : keeps (bstep d (book d)) (remove_tombstones_under p).
Proof. unfold remove_tombstones_under. bstep_auto. Qed.

Lemma set_tombstones_bstep T : keeps (bstep d (book d)) (set_tombstones T).
Proof.
  unfold set_tombstones, rewrite_tombstones, tombstones_file, tombstones_log_file. bstep_auto.
  - apply write_in; book_file.
  - apply append_in; book_file.
  - apply remove_file_call_in; book_file.
Qed.

Lemma append_touch_bstep r : keeps (bstep d (book d)) (append_touch r).
Proof.
  unfold append_touch, touches_log_file. bstep_auto.
  - apply ensure_store_dir_in.
  - apply append_in; book_file.
Qed.
Lemma append_touch_removal_bstep p : keeps (bstep d (book d)) (append_touch_removal p).
Proof.
  unfold append_touch_removal, touches_log_file. bstep_auto.
  - apply ensure_store_dir_in.
  - apply append_in; book_file.
Qed.
#[local] Hint Resolve append_touch_bstep append_touch_removal_bstep : keeps.

Lemma identity_keeps R `{!PreOrder R} p : keeps R (identity_from_path p).
Proof. unfold identity_from_path. keeps_auto. Qed.
Lemma read_bounded_keeps R `{!PreOrder R} p : keeps R (read_bounded_text p).
Proof. unfold read_bounded_text. keeps_auto. Qed.
#[local] Hint Resolve identity_keeps read_bounded_keeps : keeps.

Lemma content_path b key : branch_dir b = d -> touch_content_path b key = d ++ ["touch-content"; key].
Proof. intros <-. unfold touch_content_path, touch_content_dir. by rewrite <- app_assoc. Qed.

Lemma remove_touch_records_under_bstep p : keeps (bstep d (book d)) (remove_touch_records_under p).
Proof.
  unfold remove_touch_records_under, remove_content. bstep_auto. rewrite (content_path _ _ Hdir).
  apply remove_file_call_in; [book_file|]. by apply book_ne, book_in_dir.
Qed.

Lemma record_first_touch_bstep rel inh cap : keeps (bstep d (book d)) (record_first_touch rel inh cap).
Proof.
  unfold record_first_touch, capture_content. bstep_auto; rewrite (content_path _ _ Hdir).
  - by apply ensure_content_dir_in.
  - apply write_in; book_file.
Qed.
End Books.

#[export] Hint Resolve write_metadata_bstep set_state_bstep add_tombstone_bstep remove_tombstone_bstep
  remove_tombstones_under_bstep set_tombstones_bstep remove_touch_records_under_bstep record_first_touch_bstep : keeps.
