(* ===== verification/Isolation.v ===== *)
(** * Isolation of branches

    Every operation on a branch changes the host only inside that branch's own
    store directory - its bookkeeping files and its delta, never the base, another
    branch or its own inherited snapshot - and changes no other branch in memory
    ([wstep]). *)

From S2P Require Import Prelude Strs HostFs Quota TextMerge Branch View Manager Frame BranchLaws.

(** What an operation may change below its branch's store directory. *)
Definition edit (d q : path) : Prop := book d q \/ delta_part d q.

Definition wstep (n : string) (d : path) (P : path -> Prop) (s s' : host * World) : Prop :=
  forall b, branches s.2 !! n = Some b -> branch_dir b = d ->
    (exists b', branches s'.2 !! n = Some b' /\ same_branch b b')
    /\ (forall m, m <> n -> branches s'.2 !! m = branches s.2 !! m)
    /\ storage_path s'.2 = storage_path s.2 /\ base_path s'.2 = base_path s.2
    /\ step_in d P s.1 s'.1.

#[export] Instance wstep_preorder n d P : PreOrder (wstep n d P).
Proof.
  split.
  - intros s b Hb Hd. by split_and!; [exists b| | | |].
  - intros s1 s2 s3 H12 H23 b Hb Hd. destruct (H12 b Hb Hd) as ((b2 & Hb2 & Hs2) & Hm2 & ? & ? & ?).
    destruct (H23 b2 Hb2) as ((b3 & Hb3 & Hs3) & Hm3 & ? & ? & ?); [by rewrite (sb_dir _ _ Hs2)|].
    split; [exists b3; split; [done|by etransitivity]|].
    split; [intros m Hm; by rewrite Hm3, Hm2|]. split; [congruence|]. split; [congruence|by etransitivity].
Qed.

(** The step from one given state. *)
Lemma keeps_bind_at {S} (R : relation S) `{!PreOrder R} {A B} (c : M S A) (k : A -> M S B) s :
  R s (c s).2 -> (forall a s1, c s = (Ok a, s1) -> R s1 (k a s1).2) -> R s (bind c k s).2.
Proof.
  intros Hc Hk. unfold bind. destruct (c s) as [[a|x] s1] eqn:Heq; simpl in *; [|done].
  transitivity s1; [done|by apply Hk].
Qed.

(** Lookup reads only. *)
Section Reads.
Context {E : Env} (R : relation host) `{!PreOrder R}.

Lemma existing_keeps p : keeps R (existing p).
Proof. unfold existing. keeps_auto. Qed.
Lemma read_dir_names_keeps p : keeps R (read_dir_names p).
Proof. unfold read_dir_names. keeps_auto. Qed.
Lemma has_delta_keeps b rel : keeps R (has_delta b rel).
Proof. unfold has_delta. keeps_auto. Qed.
#[local] Hint Resolve existing_keeps read_dir_names_keeps has_delta_keeps : keeps.
Lemma below_keeps {A} b (x y : IO A) z :
  keeps R x -> keeps R y -> (forall p, keeps R (z p)) -> keeps R (below b x y z).
Proof. intros Hx Hy Hz. unfold below. destruct (br_parent b), (inheritance b); auto. Qed.
Lemma resolve_keeps base bs f n rel : keeps R (resolve_path_locked base bs f n rel).
Proof.
  revert n. induction f as [|f IH]; intros n; simpl; keeps_auto. apply below_keeps; auto with keeps.
Qed.
Lemma collect_keeps base bs f n rel : keeps R (collect_dir_names_locked base bs f n rel).
Proof.
  revert n. induction f as [|f IH]; intros n; simpl; keeps_auto. apply below_keeps; auto with keeps.
Qed.
#[local] Hint Resolve resolve_keeps : keeps.
Lemma inherited_resolve_keeps base bs f b rel : keeps R (inherited_resolve_path_locked base bs f b rel).
Proof. unfold inherited_resolve_path_locked. apply below_keeps; auto with keeps. Qed.
#[local] Hint Resolve inherited_resolve_keeps : keeps.
Lemma touch_resolve_keeps base bs f b rel : keeps R (resolve_inherited_for_touch_locked base bs f b rel).
Proof. unfold resolve_inherited_for_touch_locked. keeps_auto. Qed.
Lemma dir_size_go_keeps f l p : keeps R (dir_size_go f l p).
Proof. revert l p. induction f as [|f IH]; intros l p; simpl; keeps_auto. Qed.
#[local] Hint Resolve dir_size_go_keeps : keeps.
Lemma dir_size_keeps p : keeps R (dir_size p).
Proof. unfold dir_size. keeps_auto. Qed.
End Reads.
#[export] Hint Resolve existing_keeps read_dir_names_keeps has_delta_keeps resolve_keeps collect_keeps
  inherited_resolve_keeps touch_resolve_keeps dir_size_keeps : keeps.

Section Steps.
Context {E : Env} {J : Serde} (n : string) (d : path).

Lemma on_host_wstep P {A} (c : IO A) : keeps (step_in d P) c -> keeps (wstep n d P) (on_host c).
Proof.
  intros Hc [h w] b Hb Hd. unfold on_host, zoom. simpl in *. specialize (Hc h). destruct (c h) as [r h'].
  split_and!; try done. by exists b.
Qed.

Lemma on_host_eq {X A} (c : IO A) : keeps eq c -> keeps eq (on_host c : M (host * X) A).
Proof.
  intros Hc [h w]. unfold on_host, zoom. cbn [fst snd]. specialize (Hc h). destruct (c h) as [r h']. simpl in Hc. by subst.
Qed.

Definition quiet (f : World -> World) : Prop :=
  forall w, branches (f w) = branches w /\ storage_path (f w) = storage_path w /\ base_path (f w) = base_path w.
Lemma on_mem_wstep P f : quiet f -> keeps (wstep n d P) (on_mem f).
Proof.
  intros Hf [h w] b Hb Hd. destruct (Hf w) as (H1 & H2 & H3). simpl in *. rewrite H1.
  split_and!; try done. by exists b.
Qed.

Lemma lookup_wstep P {A} (k : Branch -> MIO A) :
  (forall b, branch_dir b = d -> keeps (wstep n d P) (k b)) -> keeps (wstep n d P) (bind (lookup_branch n) k).
Proof.
  intros Hk [h w] b Hb Hd. unfold lookup_branch, bind, gets. simpl in *. rewrite Hb. simpl.
  by apply (Hk b Hd).
Qed.

Lemma writable_wstep P {A} (k : Branch -> MIO A) :
  (forall b, branch_dir b = d -> keeps (wstep n d P) (k b)) -> keeps (wstep n d P) (bind (writable_branch n) k).
Proof.
  intros Hk s. unfold writable_branch. rewrite bind_assoc. revert s. apply lookup_wstep.
  intros b Hd s. destruct (is_writable b); [by apply Hk|done].
Qed.

Lemma on_branch_wstep P {A} (c : BIO A) : keeps (bstep d P) c -> keeps (wstep n d P) (on_branch n c).
Proof.
  intros Hc [h w] b Hb Hd. unfold on_branch, lookup_branch, bind, gets, ret. simpl in *. rewrite Hb. simpl.
  specialize (Hc (h, b) Hd). destruct (c (h, b)) as [r [h' b']]. simpl in *. destruct Hc as [Hs Hh].
  split; [exists b'; by rewrite lookup_insert_eq|]. split; [|done].
  intros m Hm. by rewrite lookup_insert_ne.
Qed.

Lemma view_wstep P {A} (c : path -> branch_map -> nat -> IO A) :
  (forall x y z, keeps (step_in d P) (c x y z)) -> keeps (wstep n d P) (view c).
Proof.
  intros Hc. unfold view. apply keeps_bind; [apply _|apply keeps_gets, _|]. intros w. by apply on_host_wstep.
Qed.

Lemma check_quota_wstep P z : keeps (wstep n d P) (check_quota z).
Proof. unfold check_quota. keeps_auto. Qed.
Lemma add_quota_wstep P z : keeps (wstep n d P) (add_quota z).
Proof. by apply on_mem_wstep. Qed.
Lemma sub_quota_wstep P z : keeps (wstep n d P) (sub_quota z).
Proof. by apply on_mem_wstep. Qed.
End Steps.
#[export] Hint Resolve check_quota_wstep add_quota_wstep sub_quota_wstep : keeps.

Ltac wstep_step :=
  cbn beta iota;
  lazymatch goal with
  | |- keeps (wstep _ _ _) (bind (lookup_branch _) _) => apply lookup_wstep; intros ? ?Hdir
  | |- keeps (wstep _ _ _) (bind (writable_branch _) _) => apply writable_wstep; intros ? ?Hdir
  | |- keeps (wstep _ _ _) (on_branch _ _) => apply on_branch_wstep
  | |- keeps (wstep _ _ _) (on_host _) => apply on_host_wstep
  | |- keeps (wstep _ _ _) (view _) => apply view_wstep; intros ? ? ?
  | |- keeps (wstep _ _ _) (on_mem _) => apply on_mem_wstep; first [done | intros ?; by split_and!]
  | |- _ => keeps_step
  end.
Ltac wstep_auto := repeat wstep_step.

Lemma book_edit d q : book d q -> edit d q.
Proof. by left. Qed.

(** Bookkeeping is a step of every wider region. *)
Lemma keeps_bstep_mono d (P Q : path -> Prop) {A} (c : BIO A) :
  (forall q, P q -> Q q) -> keeps (bstep d P) c -> keeps (bstep d Q) c.
Proof.
  intros HPQ Hc s Hd. destruct (Hc s Hd) as [H1 H2]. split; [done|]. by eapply step_in_mono.
Qed.
Lemma keeps_bstep_edit d {A} (c : BIO A) : keeps (bstep d (book d)) c -> keeps (bstep d (edit d)) c.
Proof. apply keeps_bstep_mono, book_edit. Qed.
#[export] Hint Resolve keeps_bstep_edit : keeps.

Section Ops.
Context {E : Env} {J : Serde} (n : string) (d : path).

Lemma delta_of b rel : branch_dir b = d -> exists p, delta_path b rel = d ++ "files" :: p.
Proof. intros <-. unfold delta_path, join, files_dir. eexists. by rewrite <- app_assoc. Qed.

Lemma files_in_delta p : delta_part d (d ++ "files" :: p).
Proof. unfold delta_part. change ("files" :: p) with (["files"] ++ p). rewrite app_assoc. apply under_app. Qed.

Lemma files_ne p : d ++ "files" :: p <> d.
Proof. intros H. apply (f_equal length) in H. rewrite length_app in H. simpl in H. lia. Qed.

Lemma below_files p q : under (d ++ "files" :: p) q = true -> edit d q.
Proof.
  intros H. right. unfold delta_part. eapply under_trans; [|done].
  change ("files" :: p) with (["files"] ++ p). rewrite app_assoc. apply under_app.
Qed.

Lemma files_split b p : branch_dir b = d -> files_dir b ++ p = d ++ "files" :: p.
Proof. intros <-. unfold files_dir. by rewrite <- app_assoc. Qed.
Lemma delta_path_show b p : branch_dir b = d -> path_ok p -> delta_path b (show p) = d ++ "files" :: p.
Proof. intros Hd Hp. unfold delta_path. rewrite join_show_path by done. by apply files_split. Qed.

(** *** What an operation on one path of the branch may change *)

(** Preparing a path of the delta changes that path and directories above it;
    other operations on it what is below as well. *)
Definition climb (p q : path) : Prop := book d q \/ (delta_part d q /\ q `prefix_of` d ++ "files" :: p).
Definition along (p q : path) : Prop :=
  book d q \/ (delta_part d q /\ (q `prefix_of` d ++ "files" :: p \/ under (d ++ "files" :: p) q = true)).

Lemma climb_along p q : climb p q -> along p q.
Proof. intros [H|[H1 H2]]; [by left|right; auto]. Qed.
Lemma along_edit p q : along p q -> edit d q.
Proof. intros [H|[H _]]; [by left|by right]. Qed.
Lemma climb_edit p q : climb p q -> edit d q.
Proof. intros H. by eapply along_edit, climb_along. Qed.
Lemma book_along p q : book d q -> along p q.
Proof. by left. Qed.

Lemma climb_own p : climb p (d ++ "files" :: p).
Proof. right. split; [apply files_in_delta|done]. Qed.
Lemma along_own p : along p (d ++ "files" :: p).
Proof. apply climb_along, climb_own. Qed.
Lemma along_below p q : under (d ++ "files" :: p) q = true -> along p q.
Proof. intros H. destruct (below_files p q H) as [Hb|Hd]; [by left|right; auto]. Qed.
Lemma along_above p q : q `prefix_of` p -> along p (d ++ "files" :: q).
Proof.
  intros H. right. split; [apply files_in_delta|left]. by apply prefix_app, prefix_cons.
Qed.

(** [rel] is the name of [p] in every branch stored in [d]. *)
Definition at_delta (rel : string) (p : path) : Prop := forall b, branch_dir b = d -> delta_path b rel = d ++ "files" :: p.

Lemma at_delta_ex rel : exists p, at_delta rel p.
Proof.
  exists (comps (trim_start_slash rel)). intros b <-. unfold delta_path, join, files_dir. by rewrite <- app_assoc.
Qed.

Lemma wstep_mono (P Q : path -> Prop) s s' : (forall q, P q -> Q q) -> wstep n d P s s' -> wstep n d Q s s'.
Proof.
  intros HPQ H b Hb Hd. destruct (H b Hb Hd) as (? & ? & ? & ? & Hs). split_and!; try done. by eapply step_in_mono.
Qed.
Lemma keeps_bstep_along p {A} (c : BIO A) : keeps (bstep d (book d)) c -> keeps (bstep d (along p)) c.
Proof. apply keeps_bstep_mono, book_along. Qed.
#[local] Hint Resolve keeps_bstep_along : keeps.
Lemma keeps_wstep_mono (P Q : path -> Prop) {A} (c : MIO A) :
  (forall q, P q -> Q q) -> keeps (wstep n d P) c -> keeps (wstep n d Q) c.
Proof. intros HPQ H s. by eapply wstep_mono. Qed.
Lemma prune_loop_in b k rel p :
  branch_dir b = d -> rel `prefix_of` p -> keeps (step_in d (along p)) (prune_loop b k rel).
Proof.
  intros Hd. revert rel. induction k as [|k IH]; intros rel Hrel; simpl; keeps_auto.
  - unfold files_dir. rewrite Hd, <- app_assoc. apply remove_dir_in; [by apply along_above|apply files_ne].
  - apply IH. etransitivity; [apply prefix_parent|done].
Qed.
Lemma prune_in b p :
  branch_dir b = d -> keeps (step_in d (along p)) (prune_empty_delta_parents b (parent (d ++ "files" :: p))).
Proof.
  intros Hd. unfold prune_empty_delta_parents. rewrite parent_app by done.
  destruct (strip _ _) as [rel|] eqn:Hs; [|apply keeps_ret, _]. apply prune_loop_in; [done|].
  apply strip_Some in Hs. unfold files_dir in Hs. rewrite Hd, <- app_assoc in Hs. apply app_inv_head in Hs.
  destruct p as [|c p]; [by destruct rel|].
  change (parent ("files" :: c :: p)) with ("files" :: parent (c :: p)) in Hs. injection Hs as <-. apply prefix_parent.
Qed.

Lemma drop_delta_along rel p : at_delta rel p -> keeps (wstep n d (along p)) (drop_delta n rel).
Proof.
  intros Hrel. unfold drop_delta. wstep_auto; rewrite (Hrel _ Hdir).
  - apply remove_entry_in; [apply under_app|apply files_ne|]. intros q. apply along_below.
  - by apply prune_in.
Qed.
Lemma drop_delta_wstep rel : keeps (wstep n d (edit d)) (drop_delta n rel).
Proof.
  destruct (at_delta_ex rel) as [p Hp]. eapply keeps_wstep_mono; [apply along_edit|by apply drop_delta_along].
Qed.
#[local] Hint Resolve drop_delta_wstep : keeps.

Lemma mark_deleted_wstep rel e : keeps (wstep n d (edit d)) (mark_deleted n rel e).
Proof. unfold mark_deleted. destruct e; wstep_auto. Qed.
#[local] Hint Resolve mark_deleted_wstep : keeps.

Lemma mark_deleted_along p rel e : keeps (wstep n d (along p)) (mark_deleted n rel e).
Proof. unfold mark_deleted. destruct e; wstep_auto. Qed.

Lemma delete_along rel p : at_delta rel p -> keeps (wstep n d (along p)) (delete_path_in_branch n rel).
Proof.
  intros Hrel. unfold delete_path_in_branch, resolve_inherited_for_touch. wstep_auto.
  - by apply drop_delta_along.
  - apply mark_deleted_along.
Qed.
Lemma delete_wstep rel : keeps (wstep n d (edit d)) (delete_path_in_branch n rel).
Proof.
  destruct (at_delta_ex rel) as [p Hp]. eapply keeps_wstep_mono; [apply along_edit|by apply delete_along].
Qed.

Lemma rmdir_wstep rel : keeps (wstep n d (edit d)) (rmdir_path_in_branch n rel).
Proof.
  unfold rmdir_path_in_branch, resolve_inherited_for_touch, resolve_path, collect_dir_names. wstep_auto.
Qed.

Lemma change_state_wstep st : keeps (wstep n d (edit d)) (change_state st n).
Proof. unfold change_state. wstep_auto. Qed.

(** *** Copy on write and writes *)

Lemma ensure_parent_climb p : keeps (step_in d (climb p)) (ensure_parent_dirs (d ++ "files" :: p)).
Proof.
  unfold ensure_parent_dirs. destruct (d ++ "files" :: p) eqn:Hd; [by destruct d|]. rewrite <- Hd.
  rewrite parent_app by done.
  apply create_dir_all_in; [apply under_app|]. intros q Hq (s' & ->)%under_true Hne.
  apply prefix_app_inv in Hq. destruct s' as [|x s']; [by rewrite app_nil_r in Hne|].
  destruct p as [|y p]; [by apply prefix_nil_inv in Hq|].
  change (parent ("files" :: y :: p)) with ("files" :: parent (y :: p)) in Hq.
  apply prefix_cons_inv_1 in Hq as Hx. apply prefix_cons_inv_2 in Hq. subst x. right.
  split; [apply files_in_delta|]. apply prefix_app, prefix_cons. etransitivity; [exact Hq|]. apply prefix_parent.
Qed.
Lemma ensure_parent_along p : keeps (step_in d (along p)) (ensure_parent_dirs (d ++ "files" :: p)).
Proof. eapply keeps_mono; [apply climb_along|apply ensure_parent_climb]. Qed.
Lemma ensure_parent_delta_in p : keeps (step_in d (edit d)) (ensure_parent_dirs (d ++ "files" :: p)).
Proof. eapply keeps_mono; [apply climb_edit|apply ensure_parent_climb]. Qed.

Lemma ensure_parent_plain q h : not_link (h_tree h) q -> not_link (h_tree (ensure_parent_dirs q h).2) q.
Proof.
  unfold ensure_parent_dirs. destruct q as [|x q]; [done|]. intros Hq.
  destruct (create_dir_all (parent (x :: q)) h) as [r h'] eqn:Hc.
  destruct (create_dir_all_look _ _ _ _ Hc (x :: q)) as [He|(_ & He & _)]; simpl; intros target; rewrite He; auto.
Qed.

Lemma copy_at a p h :
  not_link (h_tree h) (d ++ "files" :: p) -> step_in d (climb p) h (copy a (d ++ "files" :: p) h).2.
Proof.
  intros Hp. apply step_in_at; [apply copy_wf|]. intros _ r h' Hc q.
  apply copy_look in Hc as [H1 H2]; [|done].
  destruct (decide (q = d ++ "files" :: p)) as [->|Hq]; [|left; by apply H1].
  destruct r; [right|left; by subst]. split; [apply climb_own|]. split; [apply files_ne|].
  intros Hb. destruct (book_not_delta _ _ Hb). apply files_in_delta.
Qed.

Lemma copy_entry_at src p h :
  not_link (h_tree h) (d ++ "files" :: p) -> step_in d (climb p) h (copy_entry src (d ++ "files" :: p) h).2.
Proof.
  intros Hp. unfold copy_entry. apply (keeps_bind_at (step_in d (climb p))); [apply ensure_parent_climb|].
  intros [] h1 H1. pose proof (ensure_parent_plain _ _ Hp) as Hp1. rewrite H1 in Hp1. simpl in Hp1.
  apply (keeps_bind_at (step_in d (climb p))); [apply symlink_metadata_keeps, _|]. intros meta h2 H2.
  assert (h2 = h1) as ->.
  { pose proof (symlink_metadata_keeps (flip eq) src h1) as He. by rewrite H2 in He. }
  destruct (is_symlink meta).
  - assert (~ book d (d ++ "files" :: p)) as Hnb.
    { intros Hb. destruct (book_not_delta _ _ Hb). apply files_in_delta. }
    revert h1 H1 Hp1 H2. intros h1 _ _ _. revert h1.
    change (keeps (step_in d (climb p)) (let* target := read_link src in
      let* _ := attempt (remove_file_call (d ++ "files" :: p)) in symlink target (d ++ "files" :: p))).
    keeps_auto.
    + apply remove_file_call_in; [apply climb_own|apply files_ne].
    + apply symlink_in; [apply climb_own|apply files_ne|done].
  - apply (keeps_bind_at (step_in d (climb p))); [by apply copy_at|]. done.
Qed.

(** The two halves of a world, for calls on the host. *)
Lemma on_host_at {A} P (c : IO A) (h : host) (w : World) :
  step_in d P h (c h).2 -> wstep n d P (h, w) (on_host c (h, w)).2.
Proof.
  intros Hc b Hb Hd. unfold on_host, zoom. simpl in *. destruct (c h) as [r h'].
  split_and!; try done. by exists b.
Qed.

Lemma on_host_read {A} (c : IO A) (h : host) (w : World) r s1 :
  keeps eq c -> on_host c (h, w) = (r, s1) -> s1 = (h, w) /\ c h = (r, h).
Proof.
  intros Hc H. unfold on_host, zoom in H. simpl in H. specialize (Hc h). destruct (c h) as [r' h'].
  simpl in Hc. by simplify_eq.
Qed.

Lemma cow_copy_at src p h w :
  not_link (h_tree h) (d ++ "files" :: p) ->
  wstep n d (climb p) (h, w) (cow_copy src (d ++ "files" :: p) (h, w)).2.
Proof.
  intros Hp. unfold cow_copy. apply (keeps_bind_at (wstep n d (climb p))).
  { apply keeps_attempt, on_host_wstep, symlink_metadata_keeps; apply _. }
  intros r s1 H1. assert (s1 = (h, w)) as ->.
  { unfold attempt in H1. destruct (on_host (symlink_metadata src) (h, w)) as [r1 s2] eqn:Hr.
    apply on_host_read in Hr as [-> _]; [|apply symlink_metadata_keeps, _]. destruct r1 as [|[]]; by simplify_eq. }
  destruct r as [meta|e]; [|done]. destruct (is_symlink meta || is_file meta); [|done]. simpl when.
  apply (keeps_bind_at (wstep n d (climb p))); [apply check_quota_wstep|]. intros [] s2 H2.
  assert (s2 = (h, w)) as ->.
  { unfold check_quota, gets, bind, ret, throw, raise in H2. simpl in H2.
    destruct (quota_check (quota w) (node_len meta)); by simplify_eq. }
  apply (keeps_bind_at (wstep n d (climb p))); [by apply on_host_at, copy_entry_at|]. intros [] s3 H3.
  apply add_quota_wstep.
Qed.

(** Reading the world. *)
Lemma writable_at {A} (k : Branch -> MIO A) h w b :
  branches w !! n = Some b ->
  bind (writable_branch n) k (h, w)
  = if is_writable b then k b (h, w) else (Err (Throw (frozen_error n)), (h, w)).
Proof.
  intros Hb. unfold writable_branch, lookup_branch, bind, gets, throw, raise, ret. simpl. rewrite Hb.
  by destruct (is_writable b).
Qed.

(** A path a client names, with no link on the way. *)
Lemma prune_through_in b k rel h :
  branch_dir b = d -> k <= length rel -> store_ok d h -> plain_way (h_tree h) (files_dir b ++ rel) ->
  step_in d (edit d) h (prune_loop_through b k rel h).2.
Proof.
  intros Hd. revert rel h. induction k as [|k IH]; intros rel h Hk Hok Hway; simpl; [done|].
  assert (rel <> []) as Hrel by (by destruct rel; [simpl in Hk; lia|]).
  assert (length (parent rel) = length rel - 1) as Hpar by by apply parent_length.
  case_bool_decide; [done|]. unfold bind, attempt. pose proof (so_wf _ _ Hok) as Hwf.
  destruct (through_plain (files_dir b ++ rel) h Hwf Hway) as [Ht|[_ Ht]]; [rewrite Ht|by destruct (Ht _ remove_dir) as [e ->]].
  set (q := files_dir b ++ rel). assert (edit d q) as Hq.
  { unfold q, files_dir. rewrite Hd, <- app_assoc. apply (along_edit rel), along_own. }
  assert (q <> d) as Hne by (unfold q, files_dir; rewrite Hd, <- app_assoc; apply files_ne).
  pose proof (remove_dir_in d (fun x => x = q) q eq_refl Hne h) as Hs.
  destruct (remove_dir q h) as [[[]|[x| |]] h1]; cbn [snd] in *;
    try (eapply step_in_mono; [|exact Hs]; by intros ? ->).
  etransitivity; [eapply step_in_mono; [|exact Hs]; by intros ? ->|]. destruct (Hs Hok) as [Hok1 Hl]. apply IH; [lia|done|]. apply (plain_way_ext (h_tree h)).
  - apply (plain_way_prefix _ (files_dir b ++ rel) [file_name rel]); [done|]. rewrite <- app_assoc. f_equal. by apply path_snoc.
  - intros x y Hxy _. apply Hl. intros ->. unfold q in Hxy. rewrite <- app_assoc in Hxy. apply app_inv_head in Hxy.
    apply (f_equal length) in Hxy. rewrite length_app in Hxy. destruct rel; [done|]. simpl in *. lia.
Qed.

Lemma drop_through_at b rel h w :
  branches w !! n = Some b -> branch_dir b = d -> store_ok d h -> plain_way (h_tree h) (delta_path b rel) ->
  wstep n d (edit d) (h, w) (drop_delta_through n rel (h, w)).2.
Proof.
  intros Hb Hd Hok Hway. destruct (delta_of b rel Hd) as [p Hp]. unfold drop_delta_through.
  rewrite (bind_step _ _ (h, w) b (h, w)) by (unfold lookup_branch, bind, gets; simpl; by rewrite Hb).
  rewrite Hp in *. set (q := d ++ "files" :: p) in *.
  destruct (through_plain q h (so_wf _ _ Hok) Hway) as [Ht|[_ Ht]].
  2:{ unfold bind, attempt, on_host, zoom. cbn [fst snd]. by destruct (Ht _ symlink_metadata) as [e ->]. }
  assert (forall A (c : path -> IO A), on_host (through q c) (h, w) = on_host (c q) (h, w)) as Hon.
  { intros A c. unfold on_host, zoom. cbn [fst]. by rewrite Ht. }
  unfold bind at 1, attempt at 1. rewrite Hon. pose proof (on_host_eq (symlink_metadata q) ltac:(apply symlink_metadata_keeps, _) (h, w)) as Hs.
  destruct (on_host (symlink_metadata q) (h, w)) as [[meta|[x| |]] s1]; cbn [snd] in Hs; subst s1; try done.
  apply (keeps_bind_at (wstep n d (edit d))).
  { apply on_host_at. destruct (is_dir meta); [rewrite Ht; apply dir_size_keeps, _|done]. }
  intros freed s1 H1. assert (s1 = (h, w)) as ->.
  { destruct (is_dir meta); [rewrite Hon in H1|]; [|by injection H1 as _ <-].
    pose proof (on_host_eq (dir_size q) ltac:(apply dir_size_keeps, _) (h, w)) as Hs. by rewrite H1 in Hs. }
  unfold bind at 1. rewrite Hon.
  pose proof (remove_entry_in d (fun x => under q x = true) q (under_app _ _) (files_ne p) (fun x Hx => Hx) h) as Hr.
  assert (wstep n d (edit d) (h, w) (on_host (remove_entry q) (h, w)).2) as Hw1.
  { apply on_host_at. eapply step_in_mono; [|exact Hr]. intros x. apply below_files. }
  unfold on_host, zoom in Hw1 |- *. cbn [fst snd] in *. destruct (remove_entry q h) as [[[]|x] h1]; [|done]. cbn [snd] in *.
  etransitivity; [exact Hw1|]. destruct (Hr Hok) as [Hok1 Hl].
  unfold bind at 1, sub_quota at 1, on_mem at 1, modify. cbn [fst snd].
  etransitivity; [apply (sub_quota_wstep n d (edit d) freed (h1, w))|].
  apply (on_host_at (edit d) _ h1). unfold prune_parents_through. destruct (strip _ _) as [rel'|] eqn:Hst; [|done].
  apply prune_through_in; [done|done|done|]. apply strip_Some in Hst. rewrite <- Hst.
  apply (plain_way_ext (h_tree h)).
  - apply (plain_way_prefix _ q [file_name q]); [done|]. apply path_snoc. unfold q. by destruct d.
  - intros x y Hxy _. apply Hl. intros Hu. apply under_true in Hu as [z ->].
    apply (f_equal length) in Hxy. rewrite !length_app, parent_length in Hxy. unfold q in Hxy.
    rewrite length_app in Hxy. simpl in Hxy. lia.
Qed.

Lemma revert_at b rel h w :
  branches w !! n = Some b -> branch_dir b = d -> store_ok d h ->
  (forall rel', normalize_branch_rel_path rel = Ok rel' -> plain_way (h_tree h) (delta_path b rel')) ->
  wstep n d (edit d) (h, w) (revert_path_in_branch n rel (h, w)).2.
Proof.
  intros Hb Hd Hok Hway. unfold revert_path_in_branch. destruct (normalize_branch_rel_path rel) as [rel'|]; [|done].
  rewrite (bind_step _ _ (h, w) rel' (h, w)), (writable_at _ h w b Hb) by done. destruct (is_writable b); [|done].
  apply (keeps_bind_at (wstep n d (edit d))); [by apply (drop_through_at b), Hway|]. intros [] s1 _. revert s1.
  match goal with |- forall s, _ s (?c s).2 => change (keeps (wstep n d (edit d)) c) end. wstep_auto.
Qed.
Lemma revert_wstep rel s :
  (forall b rel', branches s.2 !! n = Some b -> normalize_branch_rel_path rel = Ok rel' ->
     plain_way (h_tree s.1) (delta_path b rel')) -> store_ok d s.1 ->
  wstep n d (edit d) s (revert_path_in_branch n rel s).2.
Proof.
  destruct s as [h w]. cbn [fst snd]. intros Hway Hok b Hb Hd. apply (revert_at b); try done. intros rel'. by apply Hway.
Qed.

Lemma stat_at {A} (k : res BranchError node -> MIO A) p h w :
  bind (attempt (on_host (symlink_metadata p))) k (h, w)
  = match h_tree h !! p with
    | Some m => k (Ok m) (h, w)
    | None => k (Err (Io (missing (h_tree h) p))) (h, w)
    end.
Proof.
  unfold on_host, zoom, symlink_metadata, get_tree, io_error, throw, raise, ret, gets, attempt, bind. simpl.
  by destruct (h_tree h !! p).
Qed.

Lemma resolve_touch_same b rel s r s1 : resolve_inherited_for_touch b rel s = (r, s1) -> s1 = s.
Proof.
  destruct s as [h w]. unfold resolve_inherited_for_touch, view, bind, gets. simpl. intros Hr.
  apply on_host_read in Hr as [-> _]; [done|apply touch_resolve_keeps, _].
Qed.

(** The bookkeeping of a branch does not touch its delta. *)
Lemma book_keeps_delta h h' p :
  store_ok d h -> step_in d (book d) h h' ->
  store_ok d h' /\ look (h_tree h') (d ++ "files" :: p) = look (h_tree h) (d ++ "files" :: p).
Proof.
  intros Hok Hs. destruct (Hs Hok) as [Hok' Hl]. split; [done|]. apply Hl.
  intros Hb. destruct (book_not_delta _ _ Hb). apply files_in_delta.
Qed.

Lemma on_branch_book {A} (c : BIO A) h w b r h1 w1 :
  keeps (bstep d (book d)) c -> branches w !! n = Some b -> branch_dir b = d ->
  on_branch n c (h, w) = (r, (h1, w1)) ->
  step_in d (book d) h h1 /\ exists b1, branches w1 !! n = Some b1 /\ same_branch b b1.
Proof.
  intros Hc Hb Hd H. pose proof (on_branch_wstep n d (book d) c Hc (h, w) b Hb Hd) as Hs. rewrite H in Hs.
  simpl in Hs. destruct Hs as (Hb1 & _ & _ & _ & Hs). by split.
Qed.

Lemma look_None_plain t q : t !! q = None -> not_link t q.
Proof. intros H target. unfold look. by rewrite H. Qed.

(** The first touch and the copy of what is inherited. *)
Lemma book_climb p {A} (c : BIO A) : keeps (bstep d (book d)) c -> keeps (wstep n d (climb p)) (on_branch n c).
Proof. intros Hc. apply on_branch_wstep. eapply keeps_bstep_mono; [|done]. by left. Qed.

Lemma touch_and_copy_at b rel p h w :
  store_ok d h -> branches w !! n = Some b -> branch_dir b = d -> h_tree h !! (d ++ "files" :: p) = None ->
  wstep n d (climb p) (h, w)
    ((let* inherited := resolve_inherited_for_touch b rel in
      do* on_branch n (record_first_touch rel inherited true);
      match inherited with Some src => cow_copy src (d ++ "files" :: p) | None => ret tt end) (h, w)).2.
Proof.
  intros Hok Hb Hd Hm. apply (keeps_bind_at (wstep n d (climb p))).
  { apply view_wstep. intros. auto with keeps typeclass_instances. }
  intros inh s1 ->%resolve_touch_same. apply (keeps_bind_at (wstep n d (climb p))).
  { apply book_climb. auto with keeps. }
  intros [] [h1 w1] H1. apply (on_branch_book _ _ _ b) in H1 as [H1 _]; [|auto with keeps|done|done].
  destruct (book_keeps_delta _ _ p Hok H1) as [_ Hl]. destruct inh as [src|]; [|done].
  apply cow_copy_at. intros target. rewrite Hl. by apply look_None_plain.
Qed.

Lemma ensure_delta_climb b rel p s :
  branches s.2 !! n = Some b -> branch_dir b = d -> delta_path b rel = d ++ "files" :: p -> store_ok d s.1 ->
  wstep n d (climb p) s (ensure_delta_path_for_write n rel s).2.
Proof.
  destruct s as [h w]. intros Hb Hd Hp Hok. unfold ensure_delta_path_for_write. rewrite (writable_at _ h w b) by done.
  destruct (is_writable b); [|done]. rewrite stat_at, Hp.
  destruct (h_tree h !! (d ++ "files" :: p)) as [m|] eqn:Hm; cbn [is_ok negb when];
    (apply (keeps_bind_at (wstep n d (climb p))); [|intros [] s1 _;
      revert s1; change (keeps (wstep n d (climb p)) (do* on_branch n (remove_tombstone rel);
        do* on_host (ensure_parent_dirs (d ++ "files" :: p)); ret (d ++ "files" :: p)));
      apply keeps_bind; [apply _|apply book_climb; auto with keeps|intros _];
      wstep_auto; apply ensure_parent_climb]).
  - done.
  - by apply touch_and_copy_at.
Qed.

Lemma ensure_delta_wstep rel s :
  store_ok d s.1 -> wstep n d (edit d) s (ensure_delta_path_for_write n rel s).2.
Proof.
  intros Hok b Hb Hd. destruct (delta_of b rel Hd) as [p Hp].
  by apply (wstep_mono (climb p) _ _ _ (climb_edit p) (ensure_delta_climb b rel p s Hb Hd Hp Hok)).
Qed.

(** A write goes to a file of the branch or starts one; the path it is given
    is not a symbolic link (the kernel follows those itself). *)
Definition write_target_plain (rel : string) (s : host * World) : Prop :=
  forall b, branches s.2 !! n = Some b ->
    not_link (h_tree s.1) (delta_path b rel)
    /\ forall src, (resolve_inherited_for_touch b rel s).1 = Ok (Some src) -> not_link (h_tree s.1) src.

Lemma write_data_at offset data p h :
  not_link (h_tree h) (d ++ "files" :: p) ->
  step_in d (along p) h (write_data_to_file (d ++ "files" :: p) offset data h).2.
Proof.
  intros Hp. apply step_in_at; [apply write_data_wf|]. intros _ r h' Hw q.
  apply write_data_look in Hw as (H1 & _ & _); [|done].
  destruct (decide (q = d ++ "files" :: p)) as [->|Hq]; [|left; by apply H1].
  right. split; [apply along_own|]. split; [apply files_ne|].
  intros Hb. destruct (book_not_delta _ _ Hb). apply files_in_delta.
Qed.

Lemma check_quota_same z s r s1 : check_quota z s = (r, s1) -> s1 = s.
Proof.
  unfold check_quota, gets, bind, ret, throw, raise. destruct (quota_check (quota s.2) z); by intros [= _ <-].
Qed.

Lemma host_read_same {A} (c : IO A) (s : host * World) r s1 : keeps eq c -> attempt (on_host c) s = (r, s1) -> s1 = s.
Proof.
  destruct s as [h w]. intros Hc H. unfold attempt in H. destruct (on_host c (h, w)) as [r1 s2] eqn:Hr.
  apply on_host_read in Hr as [-> _]; [|done]. destruct r1 as [|[]]; by simplify_eq.
Qed.

Lemma delta_write_at b rel offset we data p h w :
  store_ok d h -> branches w !! n = Some b -> branch_dir b = d -> not_link (h_tree h) (d ++ "files" :: p) ->
  wstep n d (along p) (h, w) (delta_write n rel (d ++ "files" :: p) offset we data (h, w)).2.
Proof.
  intros Hok Hb Hd Hp. unfold delta_write. apply (keeps_bind_at (wstep n d (along p))).
  { apply on_branch_wstep. auto with keeps. }
  intros [] [h1 w1] H1. apply (on_branch_book _ _ _ b) in H1 as [H1 _]; [|auto with keeps|done|done].
  destruct (book_keeps_delta _ _ p Hok H1) as [_ Hl].
  assert (not_link (h_tree h1) (d ++ "files" :: p)) as Hp1 by (intros t; rewrite Hl; apply Hp).
  apply (keeps_bind_at (wstep n d (along p))).
  { apply keeps_attempt, on_host_wstep, metadata_keeps; apply _. }
  intros m s2 ->%host_read_same; [|apply metadata_keeps, _].
  apply (keeps_bind_at (wstep n d (along p))).
  { destruct (_ <? _)%Z; [apply check_quota_wstep|done]. }
  intros [] s2 H2. assert (s2 = (h1, w1)) as ->.
  { unfold when, ret in H2. destruct (_ <? _)%Z; [by apply check_quota_same in H2|by simplify_eq]. }
  apply (keeps_bind_at (wstep n d (along p))); [by apply on_host_at, write_data_at|].
  intros written s3 _. revert s3. match goal with |- forall s, _ s (?c s).2 => change (keeps (wstep n d (along p)) c) end.
  wstep_auto.
Qed.

Lemma staging_path_wstep {A} P b (k : path -> MIO A) :
  branch_dir b = d ->
  (forall u, keeps (wstep n d P) (k (d ++ ["staging"; "cow-" +:+ u +:+ ".tmp"]))) ->
  keeps (wstep n d P) (bind (on_host (staging_path b)) k).
Proof.
  intros Hd Hk [h w]. unfold staging_path, fresh_uuid, on_host, zoom, bind, ret. simpl.
  unfold staging_dir. rewrite Hd, <- app_assoc. simpl.
  etransitivity; [|apply Hk]. intros b' Hb' Hd'. simpl. split_and!; [by exists b'|done|done|done|].
  intros Hok. split; [|done]. by destruct Hok.
Qed.

Lemma create_staging_in (P : path -> Prop) :
  (forall q, book d q -> P q) -> keeps (step_in d P) (create_dir_all (d ++ ["staging"])).
Proof.
  intros HP. apply create_dir_all_in; [apply under_app|]. intros q Hq (s & ->)%under_true Hne. apply HP.
  destruct Hq as [r Hr]. rewrite <- app_assoc in Hr. apply app_inv_head in Hr.
  destruct s as [|x s]; [by rewrite app_nil_r in Hne|]. simplify_eq/=. by eexists _, _.
Qed.

Lemma staged_write_wstep b src p offset data :
  branch_dir b = d -> keeps (wstep n d (along p)) (staged_write b src (d ++ "files" :: p) offset data).
Proof.
  intros Hd. unfold staged_write. repeat (apply keeps_bind; [apply _| |intros _]).
  - apply on_host_wstep, ensure_parent_along.
  - apply on_host_wstep. unfold staging_dir. rewrite Hd. apply create_staging_in, book_along.
  - apply staging_path_wstep; [done|]. intros u.
    assert (book d (d ++ ["staging"; "cow-" +:+ u +:+ ".tmp"])) as Hb by by apply book_in_dir.
    assert (forall q, under (d ++ ["staging"; "cow-" +:+ u +:+ ".tmp"]) q = true -> book d q) as Hbu.
    { intros q (s & ->)%under_true. by apply book_app. }
    wstep_auto.
    + apply copy_in; [done|by left].
    + apply write_data_in; [done|by left].
    + apply rename_in; [apply under_app|by apply book_ne|apply under_app|apply files_ne| | |done].
      * intros q Hq. left. by apply Hbu.
      * intros q. apply along_below.
    + apply remove_file_call_in; [by left|by apply book_ne].
Qed.

(** The write once the delta's directories are there. *)
Lemma finish_write_at b rel offset we data p h w :
  store_ok d h -> branches w !! n = Some b -> branch_dir b = d -> not_link (h_tree h) (d ++ "files" :: p) ->
  wstep n d (along p) (h, w)
    ((do* on_host (ensure_parent_dirs (d ++ "files" :: p));
      delta_write n rel (d ++ "files" :: p) offset we data) (h, w)).2.
Proof.
  intros Hok Hb Hd Hp. apply (keeps_bind_at (wstep n d (along p))).
  { apply on_host_wstep, ensure_parent_along. }
  intros [] s1 H1. unfold on_host, zoom in H1. simpl in H1.
  pose proof (ensure_parent_plain _ _ Hp) as Hp1. destruct (ensure_parent_along p h Hok) as [Hok1 _].
  destruct (ensure_parent_dirs (d ++ "files" :: p) h) as [r h1].
  injection H1 as _ <-. by apply (delta_write_at b).
Qed.

(** The branch's first write to a path it has no delta for. *)
Lemma first_write_at b b1 rel offset we data p h w (inh : option path) :
  store_ok d h -> branch_dir b = d -> branches w !! n = Some b1 -> branch_dir b1 = d -> not_link (h_tree h) (d ++ "files" :: p) ->
  (forall src, inh = Some src -> not_link (h_tree h) src) ->
  wstep n d (along p) (h, w)
    ((let* meta := (match inh with
                    | Some src => let* r := attempt (on_host (symlink_metadata src)) in ret (ok r)
                    | None => ret None
                    end) in
      match inh, meta with
      | Some src, Some meta =>
          if is_file meta then
            do* check_quota (Z.max (node_len meta) we);
            let* (written, final_len) := staged_write b src (d ++ "files" :: p) offset data in
            do* add_quota final_len;
            do* on_branch n (remove_tombstone rel);
            ret written
          else
            do* when (is_symlink meta) (
              do* check_quota (node_len meta);
              do* on_host (copy_entry src (d ++ "files" :: p));
              add_quota (node_len meta));
            do* on_host (ensure_parent_dirs (d ++ "files" :: p));
            delta_write n rel (d ++ "files" :: p) offset we data
      | _, _ =>
          do* on_host (ensure_parent_dirs (d ++ "files" :: p));
          delta_write n rel (d ++ "files" :: p) offset we data
      end) (h, w)).2.
Proof.
  intros Hok Hd0 Hb Hd Hp Hsrc.
  assert (exists meta, (match inh with
    | Some src => let* r := attempt (on_host (symlink_metadata src)) in ret (ok r)
    | None => ret None end : MIO (option node)) (h, w) = (Ok meta, (h, w))
    /\ forall m, meta = Some m -> is_symlink m = false) as (meta & Hmeta & Hlink).
  { destruct inh as [src|]; [|by exists None]. rewrite stat_at.
    destruct (h_tree h !! src) as [m|] eqn:Hm; [|by exists None]. exists (Some m). split; [done|].
    intros m' [= <-]. specialize (Hsrc src eq_refl). unfold is_symlink. destruct (n_kind m) eqn:Hk; try done.
    destruct (Hsrc target). unfold look. by rewrite Hm, <- Hk. }
  rewrite (bind_step _ _ _ _ _ Hmeta).
  pose proof (finish_write_at b1 rel offset we data p h w Hok Hb Hd Hp) as Hfin.
  destruct inh as [src|]; [|done]. destruct meta as [meta|]; [|done]. rewrite (Hlink meta eq_refl).
  destruct (is_file meta).
  - revert Hfin. intros _. generalize (h, w). match goal with |- forall s, _ s (?c s).2 => change (keeps (wstep n d (along p)) c) end.
    apply keeps_bind; [apply _|apply check_quota_wstep|intros _].
    apply keeps_bind; [apply _|by apply staged_write_wstep|intros [written final_len]]. wstep_auto.
  - rewrite (bind_step _ _ _ tt (h, w)) by done. done.
Qed.

Lemma write_along b rel p offset data h w :
  store_ok d h -> branches w !! n = Some b -> branch_dir b = d -> delta_path b rel = d ++ "files" :: p ->
  not_link (h_tree h) (d ++ "files" :: p) ->
  (h_tree h !! (d ++ "files" :: p) = None ->
   forall src, (resolve_inherited_for_touch b rel (h, w)).1 = Ok (Some src) -> not_link (h_tree h) src) ->
  wstep n d (along p) (h, w) (write_data_to_branch n rel offset data (h, w)).2.
Proof.
  intros Hok Hb Hd Hp Hp1 Hp2. unfold write_data_to_branch.
  destruct (offset <? 0)%Z; [done|]. destruct (u64_max <? _)%Z; [done|]. rewrite (writable_at _ h w b) by done.
  destruct (is_writable b); [|done]. rewrite stat_at, Hp.
  destruct (h_tree h !! (d ++ "files" :: p)) as [m|] eqn:Hm; cbn [is_ok]; [by apply (delta_write_at b)|].
  specialize (Hp2 eq_refl). apply (keeps_bind_at (wstep n d (along p))).
  { apply view_wstep. intros. auto with keeps typeclass_instances. }
  intros inh s1 Hinh. pose proof (resolve_touch_same _ _ _ _ _ Hinh) as ->.
  apply (keeps_bind_at (wstep n d (along p))).
  { apply on_branch_wstep. auto with keeps. }
  intros [] [h1 w1] H1. apply (on_branch_book _ _ _ b) in H1 as [H1 (b1 & Hb1 & Hs1)]; [|auto with keeps|done|done].
  destruct (H1 Hok) as [Hok1 Hl].
  assert (forall q, not_link (h_tree h) q -> not_link (h_tree h1) q) as Hkeep.
  { intros q Hq. destruct (decide (book d q)); [by apply (so_plain _ _ Hok1)|]. intros t. rewrite Hl by done. apply Hq. }
  apply (first_write_at b b1); [done|done|done|by rewrite (sb_dir _ _ Hs1)|by apply Hkeep|].
  intros src ->. apply Hkeep, Hp2. by rewrite Hinh.
Qed.

Lemma write_wstep rel offset data s :
  store_ok d s.1 -> write_target_plain rel s ->
  wstep n d (edit d) s (write_data_to_branch n rel offset data s).2.
Proof.
  destruct s as [h w]. intros Hok Hplain b Hb Hd. destruct (Hplain b Hb) as [Hp1 Hp2].
  destruct (at_delta_ex rel) as [p Hp]. rewrite (Hp b Hd) in Hp1.
  exact (wstep_mono (along p) _ _ _ (along_edit p)
    (write_along b rel p offset data h w Hok Hb Hd (Hp b Hd) Hp1 (fun _ => Hp2)) b Hb Hd).
Qed.
End Ops.
