(* ===== verification/WorldInv.v ===== *)
(** * The manager's invariant

    [world_ok]: the parents form a forest, [main] is there, every branch lives in
    its own directory of the store, and store and base lie apart.  Every public
    operation of the manager keeps it, whether it succeeds or fails. *)

From S2P Require Import Prelude Strs HostFs Staged Quota TextMerge Branch View Manager Commit Frame BranchLaws Isolation.

Record world_ok (w : World) : Prop := {
  wo_forest : forest (branches w);
  wo_main : is_Some (branches w !! "main");
  wo_dirs : forall n b, branches w !! n = Some b -> branch_dir b = branch_dir_of (storage_path w) n;
  wo_apart : under (storage_path w) (base_path w) = false /\ under (base_path w) (storage_path w) = false;
}.

(** ** Changes that keep the set of branches *)

Definition same_opt (o o' : option Branch) : Prop :=
  match o, o' with
  | Some b, Some b' => same_branch b b'
  | None, None => True
  | _, _ => False
  end.
#[export] Instance same_opt_preorder : PreOrder same_opt.
Proof.
  split; [intros [b|]; simpl; [reflexivity|done]|]. intros [a|] [b|] [c|]; simpl; try done. intros. by etransitivity.
Qed.

Record same_world (w w' : World) : Prop := {
  sw_branches : forall n, same_opt (branches w !! n) (branches w' !! n);
  sw_storage : storage_path w' = storage_path w;
  sw_base : base_path w' = base_path w;
}.
#[export] Instance same_world_preorder : PreOrder same_world.
Proof.
  split; [intros w; split; [intros n; reflexivity|done|done]|]. intros a b c [H1 H2 H3] [H4 H5 H6]. split; [|congruence|congruence].
  intros n. transitivity (branches b !! n); [apply H1|apply H4].
Qed.

Lemma same_opt_r o o' b' : same_opt o o' -> o' = Some b' -> exists b, o = Some b /\ same_branch b b'.
Proof. destruct o as [b|]; intros H ->; [by exists b|done]. Qed.
Lemma same_opt_l o o' b : same_opt o o' -> o = Some b -> exists b', o' = Some b' /\ same_branch b b'.
Proof. destruct o' as [b'|]; intros H ->; [by exists b'|done]. Qed.

Lemma same_world_ok w w' : same_world w w' -> world_ok w -> world_ok w'.
Proof.
  intros [Hb Hs Hbase] [[rank Hr] [m Hm] Hd Ha]. split.
  - exists rank. intros n b' p Hn Hp. destruct (same_opt_r _ _ _ (Hb n) Hn) as (b & Hnb & Hsame).
    rewrite (sb_parent _ _ Hsame) in Hp. destruct (Hr n b p Hnb Hp) as [[q Hq] Hlt]. split; [|done].
    destruct (same_opt_l _ _ _ (Hb p) Hq) as (q' & Hq' & _). by eexists.
  - destruct (same_opt_l _ _ _ (Hb "main") Hm) as (m' & Hm' & _). by eexists.
  - intros n b' Hn. destruct (same_opt_r _ _ _ (Hb n) Hn) as (b & Hnb & Hsame).
    rewrite (sb_dir _ _ Hsame), Hs. by apply Hd.
  - by rewrite Hs, Hbase.
Qed.

(** The relation on whole states: host effects do not matter. *)
Definition sstep (s s' : host * World) : Prop := same_world s.2 s'.2.
#[export] Instance sstep_preorder : PreOrder sstep.
Proof. split; [intros s; unfold sstep; reflexivity|]. intros a b c. unfold sstep. apply transitivity. Qed.

Definition istep (s s' : host * World) : Prop := world_ok s.2 -> world_ok s'.2.
#[export] Instance istep_preorder : PreOrder istep.
Proof. split; [by intros s Hs|]. intros a b c Hab Hbc Ha. by apply Hbc, Hab. Qed.

Lemma sstep_istep s s' : sstep s s' -> istep s s'.
Proof. intros H Hs. by apply (same_world_ok s.2). Qed.
Lemma keeps_sstep_istep {A} (c : MIO A) : keeps sstep c -> keeps istep c.
Proof. intros H s. by apply sstep_istep. Qed.

Section Steps.
Context {E : Env} {J : Serde}.

Lemma on_host_sstep {A} (c : IO A) : keeps sstep (on_host c).
Proof. intros [h w]. unfold on_host, zoom. simpl. by destruct (c h). Qed.

Lemma on_mem_sstep f : (forall w, same_world w (f w)) -> keeps sstep (on_mem f).
Proof. intros Hf [h w]. apply Hf. Qed.

Lemma same_world_fields w w' :
  branches w' = branches w -> storage_path w' = storage_path w -> base_path w' = base_path w -> same_world w w'.
Proof. intros H1 H2 H3. split; [|done|done]. intros n. by rewrite H1. Qed.

Lemma lookup_sstep n : keeps sstep (lookup_branch n).
Proof. unfold lookup_branch. keeps_auto. Qed.

Lemma lookup_same n h w r s1 :
  lookup_branch n (h, w) = (r, s1) ->
  s1 = (h, w) /\ match r with Ok b => branches w !! n = Some b | Err _ => branches w !! n = None end.
Proof.
  unfold lookup_branch, gets, bind, ret, throw, raise. simpl. destruct (branches w !! n); intros; by simplify_eq.
Qed.

Lemma on_branch_sstep {A} n (c : BIO A) :
  (forall d, keeps (bstep d (book d)) c) -> keeps sstep (on_branch n c).
Proof.
  intros Hc [h w]. unfold on_branch, bind. destruct (lookup_branch n (h, w)) as [r s1] eqn:Hl.
  apply lookup_same in Hl as [-> Hb]. destruct r as [b|x]; [|done]. simpl.
  specialize (Hc (branch_dir b) (h, b) eq_refl). destruct (c (h, b)) as [r [h' b']]. simpl in Hc.
  destruct Hc as [Hs _]. split; [|done|done]. intros m. simpl. destruct (decide (m = n)) as [->|Hm].
  - by rewrite lookup_insert_eq, Hb.
  - by rewrite lookup_insert_ne.
Qed.

Lemma view_sstep {A} (c : path -> branch_map -> nat -> IO A) : keeps sstep (view c).
Proof. unfold view. apply keeps_bind; [apply _|apply keeps_gets, _|]. intros w. apply on_host_sstep. Qed.

Lemma check_quota_sstep z : keeps sstep (check_quota z).
Proof. unfold check_quota. keeps_auto. Qed.
Lemma add_quota_sstep z : keeps sstep (add_quota z).
Proof. apply on_mem_sstep. intros w. by apply same_world_fields. Qed.
Lemma sub_quota_sstep z : keeps sstep (sub_quota z).
Proof. apply on_mem_sstep. intros w. by apply same_world_fields. Qed.
Lemma of_exn_sstep {A} (r : res exn A) : keeps sstep (of_exn r).
Proof. unfold of_exn. keeps_auto. Qed.
End Steps.

#[export] Hint Resolve lookup_sstep check_quota_sstep add_quota_sstep sub_quota_sstep of_exn_sstep : keeps.

Ltac sstep_step :=
  cbn beta iota;
  lazymatch goal with
  | |- keeps sstep (on_branch _ _) => apply on_branch_sstep; intros ?; solve [auto with keeps]
  | |- keeps sstep (on_host _) => apply on_host_sstep
  | |- keeps sstep (view _) => apply view_sstep
  | |- keeps sstep (on_mem _) => apply on_mem_sstep; intros ?; by apply same_world_fields
  | |- _ => keeps_step
  end.
Ltac sstep_auto := repeat sstep_step.

Section Ops.
Context {E : Env} {J : Serde}.

Lemma count_commit_bstep d : keeps (bstep d (book d)) count_commit.
Proof.
  unfold count_commit. apply keeps_bind; [apply _|apply on_mem_bstep; intros ?; by split|].
  intros _. apply write_metadata_bstep.
Qed.
#[local] Hint Resolve count_commit_bstep : keeps.

Lemma writable_sstep n : keeps sstep (writable_branch n).
Proof. unfold writable_branch. sstep_auto. Qed.
#[local] Hint Resolve writable_sstep : keeps.
Lemma resolve_touch_sstep b rel : keeps sstep (resolve_inherited_for_touch b rel).
Proof. unfold resolve_inherited_for_touch. sstep_auto. Qed.
#[local] Hint Resolve resolve_touch_sstep : keeps.
Lemma cow_copy_sstep src delta : keeps sstep (cow_copy src delta).
Proof. unfold cow_copy. sstep_auto. Qed.
#[local] Hint Resolve cow_copy_sstep : keeps.
Lemma ensure_delta_sstep n rel : keeps sstep (ensure_delta_path_for_write n rel).
Proof. unfold ensure_delta_path_for_write. sstep_auto. Qed.
Lemma staged_write_sstep b src delta o data : keeps sstep (staged_write b src delta o data).
Proof. unfold staged_write. sstep_auto. Qed.
#[local] Hint Resolve staged_write_sstep : keeps.
Lemma delta_write_sstep n rel delta o e data : keeps sstep (delta_write n rel delta o e data).
Proof. unfold delta_write. sstep_auto. Qed.
#[local] Hint Resolve delta_write_sstep : keeps.
Lemma write_sstep n rel o data : keeps sstep (write_data_to_branch n rel o data).
Proof. unfold write_data_to_branch. sstep_auto. Qed.
Lemma drop_delta_sstep n rel : keeps sstep (drop_delta n rel).
Proof. unfold drop_delta. sstep_auto. Qed.
Lemma mark_deleted_sstep n rel e : keeps sstep (mark_deleted n rel e).
Proof. unfold mark_deleted. sstep_auto. Qed.
#[local] Hint Resolve drop_delta_sstep mark_deleted_sstep : keeps.
Lemma drop_through_sstep n rel : keeps sstep (drop_delta_through n rel).
Proof. unfold drop_delta_through. sstep_auto. Qed.
#[local] Hint Resolve drop_through_sstep : keeps.
Lemma delete_sstep n rel : keeps sstep (delete_path_in_branch n rel).
Proof. unfold delete_path_in_branch. sstep_auto. Qed.
Lemma rmdir_sstep n rel : keeps sstep (rmdir_path_in_branch n rel).
Proof. unfold rmdir_path_in_branch, resolve_path, collect_dir_names. sstep_auto. Qed.
Lemma revert_sstep n rel : keeps sstep (revert_path_in_branch n rel).
Proof. unfold revert_path_in_branch. sstep_auto. Qed.
Lemma change_state_sstep st n : keeps sstep (change_state st n).
Proof. unfold change_state. sstep_auto. Qed.

(** *** Commit, up to the point where the branch goes *)

Lemma check_deletion_sstep b m rel : keeps sstep (check_deletion b m rel).
Proof. unfold check_deletion. sstep_auto. Qed.
Lemma try_merge_sstep b r c i src : keeps sstep (try_merge b r c i src).
Proof. unfold try_merge. sstep_auto. Qed.
#[local] Hint Resolve check_deletion_sstep try_merge_sstep : keeps.
Lemma check_delta_sstep b dir m f : keeps sstep (check_delta b dir m f).
Proof. unfold check_delta. destruct f as [rel src]. sstep_auto. Qed.
#[local] Hint Resolve check_delta_sstep : keeps.
Lemma merge_phase_sstep b dir ts fs : keeps sstep (merge_phase b dir ts fs).
Proof. unfold merge_phase. sstep_auto. Qed.
#[local] Hint Resolve merge_phase_sstep : keeps.

Lemma bind_ret_state {S A B} (c : M S A) (f : A -> B) s : (bind c (fun a => ret (f a)) s).2 = (c s).2.
Proof. unfold bind. by destruct (c s) as [[a|x] s1]. Qed.

(** Dropping a leaf other than [main]. *)
Lemma delete_leaf_ok n w :
  world_ok w -> n <> "main" -> is_leaf n (branches w) = true ->
  world_ok (with_branches (delete n (branches w)) w).
Proof.
  intros [[rank Hr] Hm Hd Ha] Hn Hleaf. split; simpl; [|by rewrite lookup_delete_ne| |done].
  - exists rank. intros m b p [Hne Hb]%lookup_delete_Some Hp. destruct (Hr m b p Hb Hp) as [Hs Hlt].
    split; [|done]. rewrite lookup_delete_ne; [done|]. intros ->.
    unfold is_leaf in Hleaf. apply negb_true_iff, not_true_iff_false in Hleaf. apply Hleaf.
    apply existsb_exists. exists (m, b). split; [by apply list_elem_of_In, elem_of_map_to_list|].
    simpl. by apply bool_decide_eq_true.
  - intros m b [_ Hb]%lookup_delete_Some. by apply Hd.
Qed.

Lemma leaf_same n w w' : same_world w w' -> is_leaf n (branches w) = true -> is_leaf n (branches w') = true.
Proof.
  intros Hs. unfold is_leaf. rewrite !negb_true_iff, <- !not_true_iff_false, !existsb_exists. intros Hl (kv & Hin & Hp).
  apply Hl. destruct kv as [m b']. apply list_elem_of_In, elem_of_map_to_list in Hin.
  destruct (same_opt_r _ _ _ (sw_branches _ _ Hs m) Hin) as (b & Hb & Hsame). exists (m, b).
  split; [by apply list_elem_of_In, elem_of_map_to_list|]. simpl in *. by rewrite <- (sb_parent _ _ Hsame).
Qed.

Lemma forget_at n h w :
  world_ok w -> n <> "main" -> is_leaf n (branches w) = true -> world_ok (forget_branch n (h, w)).2.2.
Proof.
  intros Hw Hn Hl. unfold forget_branch, bind at 1. simpl.
  pose proof (delete_leaf_ok n w Hw Hn Hl) as Hok. revert Hok.
  generalize (with_branches (delete n (branches w)) w). intros w1 Hok.
  apply (sstep_istep (h, w1)); [|done].
  match goal with |- sstep ?s (?c ?s).2 => apply (fun H : keeps sstep c => H s) end. sstep_auto.
Qed.

(** A computation that leaves the branches as they are, followed by one that
    is safe as long as [n] is a leaf. *)
Lemma leaf_bind {A B} n (c : MIO A) (k : A -> MIO B) h w :
  world_ok w -> is_leaf n (branches w) = true -> keeps sstep c ->
  (forall a h1 w1, world_ok w1 -> is_leaf n (branches w1) = true -> world_ok (k a (h1, w1)).2.2) ->
  world_ok (bind c k (h, w)).2.2.
Proof.
  intros Hw Hl Hc Hk. specialize (Hc (h, w)). unfold bind. destruct (c (h, w)) as [[a|x] [h1 w1]]; simpl in *.
  - apply Hk; [by eapply same_world_ok|by eapply leaf_same].
  - by eapply same_world_ok.
Qed.

Lemma forget_then n {B} (k : unit -> MIO B) h w :
  world_ok w -> n <> "main" -> is_leaf n (branches w) = true -> (forall u, keeps sstep (k u)) ->
  world_ok (bind (forget_branch n) k (h, w)).2.2.
Proof.
  intros Hw Hn Hl Hk. pose proof (forget_at n h w Hw Hn Hl) as H. unfold bind.
  destruct (forget_branch n (h, w)) as [[u|x] s1]; simpl in *; [|done].
  apply (sstep_istep s1); [apply Hk|done].
Qed.

Lemma commit_to_main_ok n m ts fs h w :
  world_ok w -> n <> "main" -> is_leaf n (branches w) = true -> world_ok (commit_to_main n m ts fs (h, w)).2.2.
Proof.
  intros Hw Hn Hl. unfold commit_to_main.
  apply (leaf_bind n); [done|done|sstep_auto|]. intros w0 h1 w1 Hw1 Hl1.
  apply (leaf_bind n); [done|done|sstep_auto|]. intros done_paths h2 w2 Hw2 Hl2.
  apply (leaf_bind n); [done|done|sstep_auto|]. intros [] h3 w3 Hw3 Hl3.
  apply forget_then; [done..|]. intros []. sstep_auto.
Qed.

Lemma commit_nested_ok n pn m ts fs h w :
  world_ok w -> n <> "main" -> is_leaf n (branches w) = true -> world_ok (commit_nested n pn m ts fs (h, w)).2.2.
Proof.
  intros Hw Hn Hl. unfold commit_nested.
  apply (leaf_bind n); [done|done|sstep_auto|]. intros p h1 w1 Hw1 Hl1.
  apply (leaf_bind n); [done|done|sstep_auto|]. intros w0 h2 w2 Hw2 Hl2.
  apply (leaf_bind n); [done|done|sstep_auto|]. intros (copied & tombs & dirs) h3 w3 Hw3 Hl3.
  apply (leaf_bind n); [done|done|sstep_auto|]. intros [] h4 w4 Hw4 Hl4.
  apply (leaf_bind n); [done|done|sstep_auto|]. intros [] h5 w5 Hw5 Hl5.
  apply (leaf_bind n); [done|done|sstep_auto|]. intros [] h6 w6 Hw6 Hl6.
  apply forget_then; [done..|]. intros []. sstep_auto.
Qed.

Lemma leaf_with_parent_spec n h w :
  (exists b p, leaf_with_parent n (h, w) = (Ok (b, p), (h, w)) /\ n <> "main"
     /\ branches w !! n = Some b /\ br_parent b = Some p /\ is_leaf n (branches w) = true)
  \/ (exists x, leaf_with_parent n (h, w) = (Err x, (h, w))).
Proof.
  unfold leaf_with_parent, lookup_branch, gets, throw, raise, ret, bind. case_bool_decide; [right; eauto|]. simpl.
  destruct (branches w !! n) as [b|] eqn:Hb; simpl; [|right; eauto].
  destruct (is_leaf n (branches w)) eqn:Hl; simpl; [|right; eauto].
  destruct (br_parent b) as [p|] eqn:Hp; [left|right; eauto]. by exists b, p.
Qed.

Lemma commit_with_report_istep n : keeps istep (commit_with_report n).
Proof.
  intros [h w] Hw. unfold commit_with_report.
  destruct (leaf_with_parent_spec n h w) as [(b & p & Heq & Hn & Hb & Hp & Hl)|[x Heq]].
  2:{ by rewrite (bind_fail _ _ _ _ _ Heq). }
  rewrite (bind_step _ _ _ _ _ Heq). simpl in Hw.
  apply (leaf_bind n); [done|done|sstep_auto|]. intros pb h1 w1 Hw1 Hl1.
  apply (leaf_bind n); [done|done|sstep_auto|]. intros w0 h2 w2 Hw2 Hl2.
  apply (leaf_bind n); [done|done|sstep_auto|]. intros t h3 w3 Hw3 Hl3.
  apply (leaf_bind n); [done|done|sstep_auto|]. intros fs h4 w4 Hw4 Hl4.
  apply (leaf_bind n); [done|done|sstep_auto|]. intros m h5 w5 Hw5 Hl5.
  assert (world_ok ((if bool_decide (p = "main") then commit_to_main n m (set_order (get_tombstones b)) fs
     else commit_nested n p m (set_order (get_tombstones b)) fs) (h5, w5)).2.2) as Hc.
  { case_bool_decide; [by apply commit_to_main_ok|by apply commit_nested_ok]. }
  by rewrite (bind_ret_state _ (fun _ => _)).
Qed.

Lemma commit_istep n : keeps istep (commit n).
Proof.
  intros s Hw. unfold commit. rewrite (bind_ret_state _ parent_name). by apply commit_with_report_istep.
Qed.

Lemma abort_istep n : keeps istep (abort n).
Proof.
  intros [h w] Hw. unfold abort.
  destruct (leaf_with_parent_spec n h w) as [(b & p & Heq & Hn & Hb & Hp & Hl)|[x Heq]].
  2:{ by rewrite (bind_fail _ _ _ _ _ Heq). }
  rewrite (bind_step _ _ _ _ _ Heq). apply forget_then; [done..|]. intros []. sstep_auto.
Qed.

(** *** Creating a branch *)

Lemma new_spec n parent sp pv inh hides h r h' :
  new n parent sp pv inh hides h = (r, h') ->
  match r with
  | Ok b => name b = n /\ br_parent b = parent /\ branch_dir b = branch_dir_of sp n /\ inheritance b = inh
            /\ state b = Open /\ commit_count b = 0%Z /\ parent_version_at_fork b = pv
            /\ hide_paths b = omap normalize_hide_path hides
  | Err _ => True
  end.
Proof.
  intros H. destruct r as [b|]; [|done]. unfold new in H.
  apply bind_ok in H as ([] & h1 & _ & H). apply bind_ok in H as (T & h2 & _ & H).
  apply bind_ok in H as (m & h3 & _ & H). simpl in H.
  destruct (write_metadata _) as [[[]|x] [h4 b4]]; by simplify_eq.
Qed.

Lemma insert_child_ok n p b w :
  world_ok w -> branches w !! n = None -> is_Some (branches w !! p) ->
  br_parent b = Some p -> branch_dir b = branch_dir_of (storage_path w) n ->
  world_ok (with_branches (<[n := b]> (branches w)) w).
Proof.
  intros [[rank Hr] [m Hm] Hd Ha] Hn Hp Hbp Hbd. split; simpl; [| | |done].
  - exists (fun x => if decide (x = n) then S (rank p) else rank x).
    intros x bx q [[<- <-]|[Hne Hx]]%lookup_insert_Some Hq.
    + assert (q = p) as -> by congruence.
      assert (p <> n) by (intros ->; rewrite Hn in Hp; by destruct Hp).
      rewrite decide_False, decide_True by done. rewrite lookup_insert_ne by done. split; [done|lia].
    + destruct (Hr x bx q Hx Hq) as [Hs Hlt].
      assert (q <> n) by (intros ->; rewrite Hn in Hs; by destruct Hs).
      rewrite !decide_False by done. rewrite lookup_insert_ne by done. done.
  - destruct (decide (n = "main")) as [->|]; [congruence|]. rewrite lookup_insert_ne by done. by eexists.
  - intros x bx [[<- <-]|[Hne Hx]]%lookup_insert_Some; [done|by apply Hd].
Qed.

Lemma create_istep n p inh hides : keeps istep (create_branch_with_options n p inh hides).
Proof.
  intros [h w] Hw. unfold create_branch_with_options.
  destruct (validate_branch_name n) as [[]|e]; [|done]. rewrite (bind_step _ _ _ tt (h, w)) by done.
  rewrite (bind_step _ _ _ w (h, w)) by done. simpl in Hw. case_bool_decide as Hn; [done|].
  apply eq_None_not_Some in Hn. destruct (branches w !! p) as [pb|] eqn:Hp; [|done].
  destruct (on_host (new n (Some p) (storage_path w) (commit_count pb) inh hides) (h, w)) as [[b|x] [h1 w1]] eqn:Hnew.
  2:{ rewrite (bind_fail _ _ _ _ _ Hnew). pose proof (on_host_sstep (new n (Some p) (storage_path w) (commit_count pb) inh hides) (h, w)) as Hs.
      rewrite Hnew in Hs. by apply (same_world_ok w). }
  rewrite (bind_step _ _ _ _ _ Hnew). unfold on_host, zoom in Hnew. simpl in Hnew.
  destruct (new _ _ _ _ _ _ h) as [r h2] eqn:Hr. simplify_eq. apply new_spec in Hr as (_ & Hbp & Hbd & _).
  match goal with |- world_ok (bind ?c _ _).2.2 => assert (keeps (fun s s' => s'.2 = s.2) c) as Hc end.
  { destruct inh; [intros s; done|]. intros [h2 w2]. unfold bind, attempt, on_host, zoom. simpl.
    destruct (snapshot_visible_tree _ _ _ _ h2) as [[[]|[e| |]] h3]; simpl; try done.
    - destruct (write_metadata (h3, b)) as [? [? ?]]. done.
    - destruct (remove_branch_store_dir_all _ h3) as [[[]|[]] h4]; done. }
  specialize (Hc (h1, w1)). unfold bind at 1.
  match goal with |- world_ok (match ?c with _ => _ end).2.2 => destruct c as [[[]|x] [h4 w4]] end; simpl in *; subst; [|done].
  pose proof (insert_child_ok n p b w1) as Hins. apply (same_world_ok (with_branches (<[n:=b]> (branches w1)) w1)).
  - by apply same_world_fields.
  - apply Hins; try done.
Qed.
End Ops.

Lemma example_world_ok : world_ok example_world.
Proof.
  split; simpl.
  - apply example_forest.
  - by eexists.
  - intros n b Hb. unfold example_branches in Hb.
    apply lookup_insert_Some in Hb as [[<- <-]|[_ Hb]]; [done|].
    by apply lookup_singleton_Some in Hb as [<- <-].
  - done.
Qed.
