(* ===== verification/ManagerSpec.v ===== *)
(** * What the branch manager promises

    The requests a manager serves, and the theorems about any sequence of them:
    the invariant, isolation of branches, frozen branches, deletion and
    copy-on-write writes. *)

From S2P Require Import Prelude Strs HostFs Staged Quota TextMerge Branch Codec View Manager Commit Frame BranchLaws.
From S2P Require Import Isolation WorldInv.

(** The operations of [BranchManager] that change anything. *)
Inductive request :=
  | CreateBranch (n parent : string) (inh : InheritanceMode) (hides : list string)
  | PrepareWrite (n rel : string)
  | WriteData (n rel : string) (offset : Z) (data : bytes)
  | DeletePath (n rel : string)
  | RmdirPath (n rel : string)
  | RevertPath (n rel : string)
  | FreezeBranch (n : string)
  | ThawBranch (n : string)
  | CommitBranch (n : string)
  | AbortBranch (n : string).

Section Spec.
Context {E : Env} {J : Serde}.

Definition serve (r : request) : MIO unit :=
  match r with
  | CreateBranch n p inh hides => create_branch_with_options n p inh hides
  | PrepareWrite n rel => let* _ := ensure_delta_path_for_write n rel in ret tt
  | WriteData n rel o data => let* _ := write_data_to_branch n rel o data in ret tt
  | DeletePath n rel => delete_path_in_branch n rel
  | RmdirPath n rel => rmdir_path_in_branch n rel
  | RevertPath n rel => revert_path_in_branch n rel
  | FreezeBranch n => freeze_branch n
  | ThawBranch n => thaw_branch n
  | CommitBranch n => let* _ := commit n in ret tt
  | AbortBranch n => let* _ := abort n in ret tt
  end.

(** A sequence of requests; a failed one leaves what it did so far. *)
Definition serve_all (rs : list request) (s : host * World) : host * World :=
  foldl (fun s r => (serve r s).2) s rs.

Lemma serve_istep r : keeps istep (serve r).
Proof.
  destruct r; simpl; try (intros s Hs; rewrite (bind_ret_state _ (fun _ => tt)); revert s Hs).
  - apply create_istep.
  - apply (keeps_sstep_istep _ (ensure_delta_sstep n rel)).
  - apply (keeps_sstep_istep _ (write_sstep n rel offset data)).
  - apply keeps_sstep_istep, delete_sstep.
  - apply keeps_sstep_istep, rmdir_sstep.
  - apply keeps_sstep_istep, revert_sstep.
  - apply keeps_sstep_istep, change_state_sstep.
  - apply keeps_sstep_istep, change_state_sstep.
  - apply commit_istep.
  - apply abort_istep.
Qed.

Lemma serve_all_ok rs s : world_ok s.2 -> world_ok (serve_all rs s).2.
Proof.
  revert s. induction rs as [|r rs IH]; intros s Hs; [done|]. simpl. apply IH. by apply serve_istep.
Qed.

(** Lookup in a manager whose invariant holds. *)
Lemma resolve_path_ok n p h w :
  world_ok w -> path_ok p -> is_Some (branches w !! n) ->
  exists l r, lineage (base_path w) (branches w) n l r
    /\ resolve_path n (show p) (h, w) = (Ok (first_layer (h_tree h) l r p), (h, w)).
Proof.
  intros Hw Hp Hn. destruct (forest_lineage (base_path w) (branches w) n) as (l & r & Hl); [apply Hw|done|].
  exists l, r. split; [done|]. unfold resolve_path, view, gets, bind, on_host, zoom. cbn [fst snd].
  by rewrite (resolve_first_layer _ _ _ l r) by (try done; by eapply lineage_length; [apply Hw|]).
Qed.

(** A lookup ends, whatever the branch. *)
Lemma lookup_ends n p s :
  world_ok s.2 -> path_ok p -> exists x, resolve_path n (show p) s = (x, s) /\ x <> Err OutOfFuel.
Proof.
  intros Hok Hp. destruct s as [h1 w1]. destruct (branches w1 !! n) as [b|] eqn:Hn.
  - destruct (resolve_path_ok n p h1 w1) as (l & r & _ & Heq); [done|done|by eexists|].
    rewrite Heq. by eexists.
  - exists (Err (Throw (NotFound n))). split; [|done].
    unfold resolve_path, view, gets, bind, on_host, zoom, chain_fuel. simpl. by rewrite Hn.
Qed.

(** Whatever requests a manager serves, in whatever order and whether they
    succeed or fail, its invariant survives - the branches form a forest rooted
    at [main], each in its own store directory - and every lookup in any branch
    still ends. *)
Theorem manager_invariant rs h w :
  world_ok w ->
  let s := serve_all rs (h, w) in
  world_ok s.2
  /\ forall n p, path_ok p -> exists x, resolve_path n (show p) s = (x, s) /\ x <> Err OutOfFuel.
Proof.
  intros Hw s. pose proof (serve_all_ok rs (h, w) Hw) as Hok. split; [done|].
  intros n p Hp. by apply lookup_ends.
Qed.

(** *** A manager started on an empty store *)

Lemma load_branches_none sp h :
  h_tree h !! (sp ++ ["branches"]) = None -> load_branches sp h = (Ok ∅, h).
Proof.
  intros Hn. unfold load_branches. rewrite (bind_step _ _ h (Err (Io (missing (h_tree h) (sp ++ ["branches"])))) h); [done|].
  unfold read_dir, attempt, bind. rewrite real_path_plain by (by apply look_None_plain).
  unfold symlink_metadata, get_tree, gets, bind. by rewrite Hn.
Qed.

Lemma fresh_start_ok sp bp wp max h w h' :
  h_tree h !! (sp ++ ["branches"]) = None -> under sp bp = false -> under bp sp = false ->
  start sp bp wp max h = (Ok w, h') -> world_ok w.
Proof.
  intros Hn H1 H2 H. unfold start in H. apply bind_ok in H as ([] & h1 & Hc & H).
  apply bind_ok in H as (q & h2 & Hq & H).
  assert (h2 = h1) as ->.
  { assert (keeps eq (scan_usage sp max)) as Hk by (unfold scan_usage; keeps_auto).
    specialize (Hk h1). by rewrite Hq in Hk. }
  assert (h_tree h1 !! (sp ++ ["branches"]) = None) as Hn1.
  { apply look_None. destruct (create_dir_all_look _ _ _ _ Hc (sp ++ ["branches"])) as [->|(_ & _ & _ & Hpre)].
    - by apply look_None.
    - apply prefix_length in Hpre. rewrite length_app in Hpre. simpl in Hpre. lia. }
  rewrite (bind_step _ _ _ _ _ (load_branches_none sp h1 Hn1)) in H. rewrite lookup_empty in H.
  rewrite bind_assoc in H. apply bind_ok in H as (m & h3 & Hm & H). apply new_spec in Hm as (_ & Hp & Hd & _).
  unfold bind, ret in H. simplify_eq. split; simpl; [| | |done].
  - exists (fun _ => 0). intros n b p [<- <-]%lookup_singleton_Some Hbp. congruence.
  - by rewrite lookup_insert_eq.
  - intros n b [<- <-]%lookup_singleton_Some. done.
Qed.

(** *** Frozen branches *)

Lemma writable_frozen {A} n (k : Branch -> MIO A) h w b :
  branches w !! n = Some b -> state b = Frozen ->
  bind (writable_branch n) k (h, w) = (Err (Throw (frozen_error n)), (h, w)).
Proof. intros Hb Hs. rewrite (writable_at n _ h w b) by done. unfold is_writable. by rewrite Hs. Qed.

Definition edits (n : string) (r : request) : Prop :=
  match r with
  | PrepareWrite m _ | WriteData m _ _ _ | DeletePath m _ | RmdirPath m _ | RevertPath m _ => m = n
  | _ => False
  end.

(** C32: a frozen branch refuses every edit - write, copy-up, delete, rmdir and
    revert - with an error, and the attempt changes nothing at all: not the
    host, not the branch, not the quota or the epoch. *)
Theorem frozen_branch_refuses_edits n b r h w :
  branches w !! n = Some b -> state b = Frozen -> edits n r ->
  exists e, serve r (h, w) = (Err (Throw e), (h, w)).
Proof.
  intros Hb Hs Hr. destruct r; simpl in Hr; try done; subst; simpl.
  - unfold ensure_delta_path_for_write. rewrite bind_assoc, (writable_frozen n _ h w b) by done. eauto.
  - unfold write_data_to_branch. unfold bind at 1. destruct (offset <? 0)%Z; [by eexists|].
    destruct (u64_max <? _)%Z; [by eexists|]. rewrite (writable_frozen n _ h w b) by done. eauto.
  - unfold delete_path_in_branch. rewrite (writable_frozen n _ h w b) by done. eauto.
  - unfold rmdir_path_in_branch. rewrite (writable_frozen n _ h w b) by done. eauto.
  - unfold revert_path_in_branch. destruct (normalize_branch_rel_path rel) as [rel'|e]; [|by eexists].
    rewrite (bind_step _ _ _ rel' (h, w)) by done. rewrite (writable_frozen n _ h w b) by done. eauto.
Qed.

(** *** Isolation *)

(** The requests that concern one branch only. *)
Definition local (n : string) (r : request) : Prop :=
  edits n r \/ r = FreezeBranch n \/ r = ThawBranch n.

(** The path an edit works on, and that no link of the branch lies on the way
    to it. *)
Definition edit_path (r : request) : option string :=
  match r with
  | PrepareWrite _ rel | WriteData _ rel _ _ | DeletePath _ rel | RmdirPath _ rel => Some rel
  | RevertPath _ rel => ok (normalize_branch_rel_path rel)
  | _ => None
  end.
Definition walked_plainly (n : string) (r : request) (s : host * World) : Prop :=
  forall b rel, branches s.2 !! n = Some b -> edit_path r = Some rel -> plain_way (h_tree s.1) (delta_path b rel).

Lemma local_wstep n d r s :
  local n r -> store_ok d s.1 -> walked_plainly n r s ->
  (forall rel o data, r = WriteData n rel o data -> write_target_plain n rel s) ->
  wstep n d (edit d) s (serve r s).2.
Proof.
  intros Hr Hok Hway Hplain. destruct Hr as [Hr|[->| ->]]; [|by apply change_state_wstep..].
  destruct r; simpl in Hr; try done; subst; simpl; rewrite ?(bind_ret_state _ (fun _ => tt)).
  - by apply ensure_delta_wstep.
  - apply write_wstep; [done|]. by eapply Hplain.
  - apply delete_wstep.
  - apply rmdir_wstep.
  - apply revert_wstep; [|done]. intros b rel' Hb Hrel. apply Hway; [done|]. simpl. by rewrite Hrel.
Qed.


(** Where the layers of a branch lie. *)
Lemma lineage_layers base bs rank n l r :
  (forall n b p, bs !! n = Some b -> br_parent b = Some p -> is_Some (bs !! p) /\ rank p < rank n) ->
  lineage base bs n l r ->
  (forall a, a ∈ l -> exists k, bs !! k = Some a /\ rank k <= rank n)
  /\ (r = base \/ exists k a, bs !! k = Some a /\ a ∈ l /\ r = inherited_dir a /\ rank k <= rank n).
Proof.
  intros Hr. induction 1 as [n b Hb _|n b p Hb _ _|n b p l r Hb Hp _ _ [IH1 IH2]].
  - split; [|by left]. intros a [->|Ha]%elem_of_cons; [by exists n|by apply not_elem_of_nil in Ha].
  - split; [intros a [->|Ha]%elem_of_cons; [by exists n|by apply not_elem_of_nil in Ha]|].
    right. exists n, b. split; [done|]. split; [by left|done].
  - destruct (Hr n b p Hb Hp) as [_ Hlt]. split.
    + intros a [->|Ha]%elem_of_cons; [by exists n|]. destruct (IH1 a Ha) as (k & Hk & Hle).
      exists k. split; [done|lia].
    + destruct IH2 as [->|(k & a & Hk & Ha & -> & Hle)]; [by left|right].
      exists k, a. split; [done|]. split; [by right|]. split; [done|lia].
Qed.

(** A path of another branch, or of the base, is outside this branch's store. *)
Lemma outside_other sp k n s : k <> n -> ~ within (branch_dir_of sp n) (branch_dir_of sp k ++ s).
Proof.
  intros Hk H. unfold within, branch_dir_of in H. rewrite <- !app_assoc in H. rewrite under_app_cancel in H.
  apply under_true in H as [s' H]. by simplify_eq/=.
Qed.
Lemma outside_base sp bp n p :
  under sp bp = false -> under bp sp = false -> ~ within (branch_dir_of sp n) (bp ++ p).
Proof.
  intros H1 H2 H. unfold within, branch_dir_of in H.
  assert (under sp (bp ++ p) = true) as H3.
  { eapply under_trans; [|exact H]. apply under_app. }
  destruct (under_linear sp bp (bp ++ p)) as [?|?]; [done|apply under_app|congruence|congruence].
Qed.
Lemma edit_within d q : edit d q -> within d q.
Proof. intros [?|?]; [by apply book_within|by apply delta_within]. Qed.
Lemma inherited_not_edit d p : ~ edit d ((d ++ ["inherited"]) ++ p).
Proof.
  rewrite <- app_assoc. intros [(c & s & H & _ & Hc)|H].
  - apply app_inv_head in H. by simplify_eq/=.
  - unfold delta_part in H. rewrite under_app_cancel in H. apply under_true in H as [s H]. done.
Qed.

(** The layers below a branch are not touched by edits of it. *)
Lemma layers_outside n b l r w p :
  world_ok w -> branches w !! n = Some b ->
  lineage (base_path w) (branches w) n (b :: l) r ->
  (forall a, a ∈ l -> ~ edit (branch_dir b) (files_dir a ++ p)) /\ ~ edit (branch_dir b) (r ++ p).
Proof.
  intros [[rank Hr] _ Hd [Ha1 Ha2]] Hb Hl.
  assert (forall k a s, branches w !! k = Some a -> k <> n -> ~ edit (branch_dir b) (branch_dir a ++ s)) as Hother.
  { intros k a s Hk Hkn He. apply edit_within in He. rewrite (Hd n b Hb), (Hd k a Hk) in He.
    by apply outside_other in He. }
  assert ((forall a, a ∈ l -> exists k, branches w !! k = Some a /\ k <> n)
          /\ (r = base_path w \/ r = inherited_dir b
              \/ exists k a, branches w !! k = Some a /\ k <> n /\ r = inherited_dir a)) as [Hla Hlr].
  { inversion Hl as [m b0 Hm Hp|m b0 p0 Hm Hp Hi|m b0 p0 l0 r0 Hm Hp Hi Hl0]; subst.
    - split; [by intros a Ha%not_elem_of_nil|by left].
    - split; [by intros a Ha%not_elem_of_nil|by right; left].
    - destruct (Hr n b p0 Hb Hp) as [_ Hlt].
      destruct (lineage_layers _ _ rank _ _ _ Hr Hl0) as [H1 H2]. split.
      + intros a Ha. destruct (H1 a Ha) as (k & Hk & Hle). exists k. split; [done|]. intros ->. lia.
      + destruct H2 as [->|(k & a & Hk & _ & -> & Hle)]; [by left|right; right].
        exists k, a. split; [done|]. split; [|done]. intros ->. lia. }
  split.
  - intros a Ha. destruct (Hla a Ha) as (k & Hk & Hkn). unfold files_dir. rewrite <- app_assoc. by apply (Hother k).
  - destruct Hlr as [->|[->|(k & a & Hk & Hkn & ->)]].
    + intros He%edit_within. rewrite (Hd n b Hb) in He. by apply outside_base in He.
    + unfold inherited_dir. apply inherited_not_edit.
    + unfold inherited_dir. rewrite <- app_assoc. by apply (Hother k).
Qed.

Lemma first_layer_ext t t' l r p :
  (forall a, a ∈ l -> look t' (files_dir a ++ p) = look t (files_dir a ++ p)) ->
  look t' (r ++ p) = look t (r ++ p) ->
  first_layer t' l r p = first_layer t l r p.
Proof.
  intros Hl Hr. assert (forall q, look t' q = look t q -> (is_Some (t' !! q) <-> is_Some (t !! q))) as Hs.
  { intros q Hq. rewrite <- !look_is_Some. by rewrite Hq. }
  induction l as [|a l IH]; simpl.
  - apply Hs in Hr. destruct (decide (is_Some (t !! (r ++ p)))), (decide (is_Some (t' !! (r ++ p)))); tauto.
  - rewrite IH by (intros; apply Hl; by right). specialize (Hs _ (Hl a ltac:(by left))).
    destruct (decide (is_Some (t !! (files_dir a ++ p)))), (decide (is_Some (t' !! (files_dir a ++ p)))); tauto.
Qed.

(** A lineage that avoids a branch does not see it change. *)
Lemma lineage_other base bs bs' n m b l r :
  lineage base bs m l r -> bs !! n = Some b -> b ∉ l -> (forall k, k <> n -> bs' !! k = bs !! k) ->
  lineage base bs' m l r.
Proof.
  intros Hl Hb Hn Hk. assert (forall k a, bs !! k = Some a -> a ∈ l -> bs' !! k = Some a) as Hsame.
  { intros k a Ha Hin. rewrite Hk; [done|]. intros ->. by assert (a = b) as -> by congruence. }
  clear Hb Hn Hk. induction Hl as [m a Ha Hp|m a p Ha Hp Hi|m a p l r Ha Hp Hi Hl IH].
  - constructor; [apply Hsame; [done|by left]|done].
  - eapply lineage_snapshot; [apply Hsame; [done|by left]|done..].
  - eapply lineage_lazy; [apply Hsame; [done|by left]|done|done|].
    apply IH. intros k x Hx Hin. apply Hsame; [done|by right].
Qed.

Lemma resolve_path_lineage m p h w l r :
  world_ok w -> path_ok p -> lineage (base_path w) (branches w) m l r ->
  (resolve_path m (show p) (h, w)).1 = Ok (first_layer (h_tree h) l r p)
  /\ (resolve_path m (show p) (h, w)).2 = (h, w).
Proof.
  intros Hw Hp Hl. unfold resolve_path, view, gets, bind, on_host, zoom. cbn [fst snd].
  by rewrite (resolve_first_layer _ _ _ l r) by (try done; by eapply lineage_length; [apply Hw|]).
Qed.

Lemma layers_off_store n m b l r w p :
  world_ok w -> branches w !! n = Some b -> lineage (base_path w) (branches w) m l r -> b ∉ l ->
  (forall a, a ∈ l -> ~ within (branch_dir b) (files_dir a ++ p)) /\ ~ within (branch_dir b) (r ++ p).
Proof.
  intros Hw Hb Hl Hbl. destruct Hw as [[rank Hr] _ Hd [Ha1 Ha2]].
  destruct (lineage_layers _ _ rank _ _ _ Hr Hl) as [H1 H2].
  assert (forall k a s, branches w !! k = Some a -> a ∈ l -> ~ within (branch_dir b) (branch_dir a ++ s)) as Hother.
  { intros k a s Hk Hin He. rewrite (Hd n b Hb), (Hd k a Hk) in He. apply outside_other in He; [done|].
    intros ->. by assert (a = b) as -> by congruence. }
  split.
  - intros a Ha. destruct (H1 a Ha) as (k & Hk & _). unfold files_dir. rewrite <- app_assoc. by apply (Hother k).
  - destruct H2 as [->|(k & a & Hk & Ha & -> & _)].
    + intros He. rewrite (Hd n b Hb) in He. by apply outside_base in He.
    + unfold inherited_dir. rewrite <- app_assoc. by apply (Hother k).
Qed.

Lemma layers_outside_other n m b l r w p :
  world_ok w -> branches w !! n = Some b -> lineage (base_path w) (branches w) m l r -> b ∉ l ->
  (forall a, a ∈ l -> ~ edit (branch_dir b) (files_dir a ++ p)) /\ ~ edit (branch_dir b) (r ++ p).
Proof.
  intros Hw Hb Hl Hbl. destruct (layers_off_store n m b l r w p) as [H1 H2]; [done..|].
  split; [intros a Ha|]; intros ?%edit_within; [by apply (H1 a)|done].
Qed.

(** A step on one branch, seen from a branch that does not descend from it. *)
Lemma elsewhere_step n b m l root p (s s' : host * World) :
  world_ok s.2 -> world_ok s'.2 -> branches s.2 !! n = Some b -> store_ok (branch_dir b) s.1 ->
  wstep n (branch_dir b) (edit (branch_dir b)) s s' ->
  lineage (base_path s.2) (branches s.2) m l root -> b ∉ l -> path_ok p ->
  (resolve_path m (show p) s').1 = (resolve_path m (show p) s).1
  /\ forall q, (resolve_path m (show p) s).1 = Ok (Some q) -> look (h_tree s'.1) q = look (h_tree s.1) q.
Proof.
  intros Hw Hw' Hb Hok Hstep Hl Hbl Hp. destruct (Hstep b Hb eq_refl) as (_ & Hothers & _ & Hbase & Hhost).
  destruct (Hhost Hok) as [_ Hlook]. destruct s as [h w], s' as [h' w']. cbn [fst snd] in *.
  assert (lineage (base_path w') (branches w') m l root) as Hl'.
  { rewrite Hbase. by eapply lineage_other. }
  destruct (resolve_path_lineage m p h w l root Hw Hp Hl) as [-> _].
  destruct (resolve_path_lineage m p h' w' l root Hw' Hp Hl') as [-> _].
  destruct (layers_outside_other n m b l root w p Hw Hb Hl Hbl) as [Hfs Hroot]. split.
  - f_equal. apply first_layer_ext; [|by apply Hlook]. intros a Ha. by apply Hlook, Hfs.
  - intros q [= Hq]. apply Hlook. apply first_layer_served in Hq as [_ [(l1 & a & l2 & -> & -> & _)|[-> _]]]; [|done].
    apply Hfs. apply elem_of_app. right. by left.
Qed.

End Spec.

(** ** Examples *)

Definition example_requests : list request :=
  [DeletePath "fix" "/b"; CreateBranch "sub" "fix" Lazy []; WriteData "sub" "/n" 0 (bytes_of "hi"); CommitBranch "sub"].

Lemma manager_invariant_witness :
  let s := @serve_all example_env example_serde example_requests (example_host, example_world) in
  world_ok s.2
  /\ forall n p, path_ok p -> exists x, resolve_path n (show p) s = (x, s) /\ x <> Err OutOfFuel.
Proof.
  apply (@manager_invariant example_env example_serde example_requests example_host example_world).
  apply example_world_ok.
Defined.

Definition frozen_world : World :=
  with_branches (<["fix" := with_state Frozen example_fix]> example_branches) example_world.
Lemma frozen_branch_refuses_edits_witness :
  exists e, @serve example_env example_serde (DeletePath "fix" "/b") (example_host, frozen_world)
            = (Err (Throw e), (example_host, frozen_world)).
Proof.
  apply (@frozen_branch_refuses_edits example_env example_serde "fix" (with_state Frozen example_fix)
           (DeletePath "fix" "/b") example_host frozen_world); reflexivity.
Defined.

Lemma example_walk : @walked_plainly "fix" (DeletePath "fix" "/b") (example_host, example_world).
Proof.
  intros b rel Hb [= <-]. injection Hb as <-. split; [by apply (bool_decide_eq_false_1 (".." ∈ _))|].
  intros x y _ _. by apply link_free_plain.
Qed.


