(* ===== verification/EditSpec.v ===== *)
(** * What edits of a branch do

    Functional specifications of the operations on one path of a branch: a
    deleted path is gone from the branch's view, a write is read back, and what
    is copied up is what the branch showed before. *)

From S2P Require Import Prelude Strs HostFs Staged Quota TextMerge Branch Codec View Manager Commit Frame BranchLaws.
From S2P Require Import Isolation WorldInv ManagerSpec.

Section Edits.
Context {E : Env} {J : Serde}.

Lemma on_host_inv {A} (c : IO A) h (w : World) r s' :
  on_host c (h, w) = (r, s') -> c h = (r, s'.1) /\ s'.2 = w.
Proof. unfold on_host, zoom. simpl. destruct (c h) as [r' h']. intros [= <- <-]. done. Qed.

Lemma lineage_lower base bs bs' rank n m l r :
  (forall n b p, bs !! n = Some b -> br_parent b = Some p -> is_Some (bs !! p) /\ rank p < rank n) ->
  lineage base bs m l r -> rank m < rank n -> (forall k, k <> n -> bs' !! k = bs !! k) ->
  lineage base bs' m l r.
Proof.
  intros Hr Hl Hlt Hk. induction Hl as [m a Ha Hp|m a p Ha Hp Hi|m a p l r Ha Hp Hi Hl IH];
    (assert (bs' !! m = Some a) as Ha' by (rewrite Hk; [done|intros ->; lia])).
  - by constructor.
  - by eapply lineage_snapshot.
  - eapply lineage_lazy; [done..|]. apply IH. destruct (Hr m a p Ha Hp). lia.
Qed.

(** The same branch one edit later, on the same layers. *)
Lemma lineage_self base bs bs' rank n b b' l r :
  (forall n b p, bs !! n = Some b -> br_parent b = Some p -> is_Some (bs !! p) /\ rank p < rank n) ->
  lineage base bs n (b :: l) r -> bs !! n = Some b -> bs' !! n = Some b' -> same_branch b b' ->
  (forall m, m <> n -> bs' !! m = bs !! m) -> lineage base bs' n (b' :: l) r.
Proof.
  intros Hr Hl Hb Hb' Hs Hm. inversion Hl as [m b0 Hn Hp|m b0 p0 Hn Hp Hi|m b0 p0 l0 r0 Hn Hp Hi Hl0]; subst.
  - constructor; [done|by rewrite (sb_parent _ _ Hs)].
  - assert (inherited_dir b = inherited_dir b') as ->.
    { unfold inherited_dir. by rewrite (sb_dir _ _ Hs). }
    eapply lineage_snapshot; [done|by rewrite (sb_parent _ _ Hs)|by rewrite (sb_inh _ _ Hs)].
  - eapply lineage_lazy; [done|by rewrite (sb_parent _ _ Hs)|by rewrite (sb_inh _ _ Hs)|].
    destruct (Hr n b p0 Hb Hp) as [_ Hlt]. by eapply (lineage_lower base bs bs' rank n p0).
Qed.

(** What a branch would show at [p] without its own delta and tombstones. *)
Definition underlay (b : Branch) (t : tree) (l : list Branch) (r p : path) : option path :=
  if is_hidden b (show p) then None else first_layer t l r p.

Lemma resolve_touch_eq n b h w l r p :
  world_ok w -> path_ok p -> lineage (base_path w) (branches w) n (b :: l) r ->
  resolve_inherited_for_touch b (show p) (h, w) = (Ok (underlay b (h_tree h) l r p), (h, w)).
Proof.
  intros Hw Hp Hl. pose proof (lineage_length _ _ _ _ _ (wo_forest _ Hw) Hl) as Hlen.
  unfold resolve_inherited_for_touch, view, gets, bind, on_host, zoom, underlay. cbn [fst snd].
  unfold resolve_inherited_for_touch_locked. destruct (is_hidden b (show p)); [done|].
  unfold inherited_resolve_path_locked, below.
  inversion Hl as [m b0 Hn Hbp|m b0 p0 Hn Hbp Hi|m b0 p0 l0 r0 Hn Hbp Hi Hl0]; subst; rewrite Hbp, ?Hi.
  - rewrite join_show_path, existing_eq by done. done.
  - unfold inherited_path. rewrite join_show_path, existing_eq by done. done.
  - rewrite (resolve_first_layer _ _ p0 l r) by (try done; simpl in Hlen; lia). done.
Qed.

(** [underlay] does not change with edits of the branch itself. *)
Lemma underlay_step n b b' h h' w l r p :
  world_ok w -> branches w !! n = Some b -> lineage (base_path w) (branches w) n (b :: l) r ->
  same_branch b b' -> (forall q, ~ edit (branch_dir b) q -> look (h_tree h') q = look (h_tree h) q) ->
  underlay b' (h_tree h') l r p = underlay b (h_tree h) l r p
  /\ forall q, underlay b (h_tree h) l r p = Some q -> ~ edit (branch_dir b) q.
Proof.
  intros Hw Hb Hl Hs Hlook. destruct (layers_outside n b l r w p Hw Hb Hl) as [H1 H2].
  unfold underlay. unfold is_hidden. rewrite (sb_hide _ _ Hs). split.
  - destruct (hidden_by _ _); [done|]. apply first_layer_ext; [intros a Ha; apply Hlook; auto|by apply Hlook].
  - destruct (hidden_by _ _); [done|]. intros q Hq.
    apply first_layer_served in Hq as [_ [(l1 & a & l2 & -> & -> & _)|[-> _]]]; [|done].
    apply H1. apply elem_of_app. right. by left.
Qed.

Lemma show_ne p : p <> [] -> show p = show_rel p.
Proof. by destruct p. Qed.

(** Where the layers show nothing they show nothing below either. *)
Lemma first_layer_below t l r p z :
  wf_tree t -> path_ok (p ++ z) -> p <> [] -> tidy p -> tidy (p ++ z) ->
  first_layer t l r p = None -> first_layer t l r (p ++ z) = None.
Proof.
  intros Hwf Hpz Hne Hp Hz. assert (forall d, look t (d ++ p) = None -> ~ is_Some (t !! (d ++ p ++ z))) as Hbelow.
  { intros d Hd Hs. destruct z as [|c z].
    - rewrite app_nil_r in Hs. apply look_None in Hd. rewrite Hd in Hs. by destruct Hs.
    - rewrite app_assoc in Hs. apply (wf_below t (d ++ p) (c :: z) Hwf) in Hs; [congruence|done]. }
  induction l as [|a l IH]; simpl.
  - case_decide as Hs; [done|]. intros _. rewrite decide_False; [done|]. apply Hbelow. apply look_None.
    by apply eq_None_not_Some.
  - case_decide as Hs; [done|]. intros H. rewrite decide_False.
    2:{ apply Hbelow, look_None. by apply eq_None_not_Some. }
    rewrite !show_ne in * by (by destruct p). unfold is_deleted, is_hidden in *.
    destruct (deleted_by (tombstones a) (show_rel p)) eqn:Hdel; [by rewrite (deleted_by_app _ p z)|].
    destruct (hidden_by (hide_paths a) (show_rel p)) eqn:Hhid.
    + rewrite (hidden_by_app _ p z) by done. by rewrite orb_true_r.
    + lazymatch goal with |- (if ?c then _ else _) = _ => destruct c end; [done|]. by apply IH.
Qed.
Lemma underlay_below b t l r p z :
  wf_tree t -> path_ok (p ++ z) -> p <> [] -> tidy p -> tidy (p ++ z) ->
  underlay b t l r p = None -> underlay b t l r (p ++ z) = None.
Proof.
  intros Hwf Hpz Hne Hp Hz. unfold underlay, is_hidden. rewrite !show_ne by (by destruct p).
  destruct (hidden_by (hide_paths b) (show_rel p)) eqn:Hh; [by rewrite (hidden_by_app _ p z)|].
  intros H. lazymatch goal with |- (if ?c then _ else _) = _ => destruct c end; [done|]. by apply first_layer_below.
Qed.

(** *** Deleting *)

Definition shrinks (h h' : host) : Prop :=
  forall q, look (h_tree h') q = look (h_tree h) q \/ look (h_tree h') q = None.
#[export] Instance shrinks_preorder : PreOrder shrinks.
Proof.
  split; [by intros h q; left|]. intros a b c Hab Hbc q. destruct (Hbc q) as [->|H]; [apply Hab|by right].
Qed.

Lemma prune_shrinks b start : keeps shrinks (prune_empty_delta_parents b start).
Proof.
  unfold prune_empty_delta_parents. destruct (strip (files_dir b) start) as [rel|]; [|apply keeps_ret, _].
  generalize (length rel). intros k. revert rel. induction k as [|k IH]; intros rel; simpl; keeps_auto.
  intros h q. destruct (remove_dir (files_dir b ++ rel) h) as [r h'] eqn:Hr. apply remove_dir_look in Hr.
  destruct r; [|left; by subst]. destruct Hr as (_ & _ & Hl). simpl. rewrite Hl. case_decide; [by right|by left].
Qed.

(** A removed entry is gone. *)
Lemma stat_inv p h r h1 :
  attempt (symlink_metadata p) h = (r, h1) ->
  h1 = h /\ r = Ok (match h_tree h !! p with Some m => Ok m | None => Err (Io (missing (h_tree h) p)) end).
Proof.
  rewrite attempt_stat. by intros [= <- <-].
Qed.

Lemma remove_store_gone p h h' :
  remove_branch_store_dir_all p h = (Ok tt, h') -> wf_host h -> look (h_tree h') p = None.
Proof.
  intros H Hwf. unfold remove_branch_store_dir_all in H. apply bind_ok in H as (r & h1 & Hs & H).
  apply stat_inv in Hs as [-> [= ->]]. destruct (h_tree h !! p) as [m|] eqn:Hm.
  - destruct (is_dir m).
    + unfold get_tree in H. rewrite (bind_step _ _ _ (h_tree h) h) in H by done.
      apply bind_ok in H as ([] & h1 & Hr & H).
      pose proof (make_removable_wf (tree_fuel (h_tree h)) p h) as Hw1. rewrite Hr in Hw1.
      apply remove_dir_all_call_look in H; [|by apply Hw1]. rewrite H. by rewrite under_refl.
    + apply remove_file_call_look in H as [_ H]. rewrite H. by rewrite decide_True.
  - unfold missing in H. destruct (existsb _ _); [done|]. unfold ret in H. simplify_eq. by apply look_None.
Qed.

Lemma remove_entry_gone p h h' :
  remove_entry p h = (Ok tt, h') -> wf_host h -> look (h_tree h') p = None.
Proof.
  intros H Hwf. unfold remove_entry in H. apply bind_ok in H as (r & h1 & Hs & H).
  apply stat_inv in Hs as [-> [= ->]]. destruct (h_tree h !! p) as [m|] eqn:Hm.
  - destruct (is_dir m); [by eapply remove_store_gone|].
    apply remove_file_call_look in H as [_ H]. rewrite H. by rewrite decide_True.
  - unfold missing in H. destruct (existsb _ _); [done|]. unfold ret in H. simplify_eq. by apply look_None.
Qed.

Lemma lookup_inv n h w b s1 : lookup_branch n (h, w) = (Ok b, s1) -> s1 = (h, w) /\ branches w !! n = Some b.
Proof. intros H. by apply lookup_same in H. Qed.

(** Dropping a delta that was there or not. *)
Lemma drop_delta_gone n b p h w s' :
  branches w !! n = Some b -> path_ok p -> wf_host h ->
  drop_delta n (show p) (h, w) = (Ok tt, s') ->
  look (h_tree s'.1) (files_dir b ++ p) = None /\ branches s'.2 = branches w.
Proof.
  intros Hb Hp Hwf H. unfold drop_delta in H. apply bind_ok in H as (b0 & s0 & Hl & H).
  apply lookup_inv in Hl as [-> Hb0]. assert (b0 = b) as -> by congruence.
  rewrite stat_at in H. unfold delta_path in H. rewrite join_show_path in H by done.
  destruct (h_tree h !! (files_dir b ++ p)) as [m|] eqn:Hm.
  2:{ unfold ret in H. simplify_eq/=. split; [by apply look_None|done]. }
  apply bind_ok in H as (freed & [h1 w1] & Hf & H).
  assert (h1 = h /\ w1 = w) as [-> ->].
  { apply on_host_inv in Hf as [Hf Hw1]. simpl in *.
    assert (keeps eq (if is_dir m then dir_size (files_dir b ++ p) else ret (node_len m))) as Hk by keeps_auto.
    specialize (Hk h). rewrite Hf in Hk. by subst. }
  apply bind_ok in H as ([] & [h2 w2] & Hr & H). apply on_host_inv in Hr as [Hr Hw2]. simpl in *. subst w2.
  apply bind_ok in H as ([] & [h3 w3] & Hq & H). unfold sub_quota, on_mem, modify in Hq. simplify_eq/=.
  apply on_host_inv in H as [H Hw]. rewrite Hw. split; [|done].
  apply remove_entry_gone in Hr; [|done]. pose proof (prune_shrinks b (parent (files_dir b ++ p)) h3) as Hsh.
  rewrite H in Hsh. destruct (Hsh (files_dir b ++ p)) as [He|He]; simpl in He; congruence.
Qed.

(** What the tombstone set becomes. *)
Lemma append_op_mem o p h b r h' b' : append_tombstone_op o p (h, b) = (r, (h', b')) -> b' = b.
Proof.
  unfold append_tombstone_op, bind, gets, on_host, zoom. simpl.
  destruct (ensure_parent_dirs _ h) as [[[]|] ?]; simpl; [|by intros [= _ _ <-]].
  destruct (append _ _ _). by intros [= _ _ <-].
Qed.
Lemma add_tombstone_mem p h b r h' b' :
  add_tombstone p (h, b) = (r, (h', b')) -> tombstones b' = {[p]} ∪ tombstones b.
Proof.
  unfold add_tombstone. rewrite (bind_step _ _ _ b (h, b)) by done. case_bool_decide as Hin.
  - intros [= _ _ <-]. set_solver.
  - unfold on_mem, modify, bind at 1. simpl. intros H. apply append_op_mem in H as ->. done.
Qed.
Lemma remove_tombstone_mem p h b r h' b' :
  remove_tombstone p (h, b) = (r, (h', b')) -> tombstones b' = tombstones b ∖ {[p]}.
Proof.
  unfold remove_tombstone. rewrite (bind_step _ _ _ b (h, b)) by done. case_bool_decide as Hin.
  - unfold on_mem, modify, bind at 1. simpl. intros H. apply append_op_mem in H as ->. done.
  - intros [= _ _ <-]. set_solver.
Qed.

Lemma on_branch_inv {A} n (c : BIO A) h w b r s' :
  branches w !! n = Some b -> on_branch n c (h, w) = (r, s') ->
  exists b', c (h, b) = (r, (s'.1, b')) /\ branches s'.2 = <[n := b']> (branches w).
Proof.
  intros Hb. unfold on_branch. rewrite (bind_step _ _ _ b (h, w)).
  2:{ unfold lookup_branch, bind, gets, ret. simpl. by rewrite Hb. }
  simpl. destruct (c (h, b)) as [r' [h' b']]. intros [= <- <-]. by exists b'.
Qed.

Lemma writable_inv {A} n (k : Branch -> MIO A) h w b a s' :
  branches w !! n = Some b -> bind (writable_branch n) k (h, w) = (Ok a, s') ->
  state b = Open /\ k b (h, w) = (Ok a, s').
Proof.
  intros Hb H. rewrite (writable_at n _ h w b) in H by done. unfold is_writable in H.
  case_bool_decide; [done|]. by simplify_eq.
Qed.

(** The part delete and rmdir share: record the touch, drop the delta, mark. *)
Lemma unlink_spec n b l r p h w s' :
  world_ok w -> branches w !! n = Some b -> store_ok (branch_dir b) h -> path_ok p ->
  lineage (base_path w) (branches w) n (b :: l) r ->
  (let* inherited := resolve_inherited_for_touch b (show p) in
   do* on_branch n (record_first_touch (show p) inherited false);
   do* drop_delta n (show p);
   mark_deleted n (show p) (bool_decide (is_Some inherited))) (h, w) = (Ok tt, s') ->
  (exists b', branches s'.2 !! n = Some b' /\ same_branch b b'
    /\ (show p ∈ tombstones b' <-> is_Some (underlay b (h_tree h) l r p)))
  /\ look (h_tree s'.1) (files_dir b ++ p) = None.
Proof.
  intros Hw Hb Hok Hp Hl H.
  rewrite (bind_step _ _ _ _ _ (resolve_touch_eq n b h w l r p Hw Hp Hl)) in H.
  set (u := underlay b (h_tree h) l r p) in *.
  apply bind_ok in H as ([] & [h1 w1] & H1 & H).
  pose proof H1 as H1'. apply (on_branch_inv _ _ _ _ b) in H1' as (b1 & Hc1 & Hm1); [|done]. simpl in Hc1, Hm1.
  apply (on_branch_book n (branch_dir b) _ _ _ b) in H1 as [Hs1 _]; [|auto with keeps|done|done].
  pose proof (record_first_touch_bstep (branch_dir b) (show p) u false (h, b) eq_refl) as [Hsb1 _].
  rewrite Hc1 in Hsb1. simpl in Hsb1. destruct (Hs1 Hok) as [Hok1 _].
  assert (branches w1 !! n = Some b1) as Hb1 by (rewrite Hm1; apply lookup_insert_eq).
  apply bind_ok in H as ([] & [h2 w2] & H2 & H).
  pose proof (drop_delta_wstep n (branch_dir b) (show p) (h1, w1) b1 Hb1 (sb_dir _ _ Hsb1)) as (_ & _ & _ & _ & Hs2).
  rewrite H2 in Hs2. destruct (Hs2 Hok1) as [Hok2 _]. simpl in Hok2.
  apply (drop_delta_gone n b1) in H2 as [Hgone Hm2]; [|done|done|apply Hok1]. simpl in Hgone, Hm2.
  assert (branches w2 !! n = Some b1) as Hb2 by (by rewrite Hm2).
  assert (files_dir b1 = files_dir b) as Hfd by (unfold files_dir; by rewrite (sb_dir _ _ Hsb1)).
  assert (forall c : BIO unit, keeps (bstep (branch_dir b) (book (branch_dir b))) c ->
    on_branch n c (h2, w2) = (Ok tt, s') ->
    exists b', c (h2, b1) = (Ok tt, (s'.1, b')) /\ branches s'.2 !! n = Some b' /\ same_branch b1 b'
      /\ look (h_tree s'.1) (files_dir b ++ p) = None) as Hmark.
  { intros c Hc Hon. pose proof Hon as Hon'. destruct s' as [h' w'].
    apply (on_branch_inv _ _ _ _ b1) in Hon as (b' & Hcb & Hm'); [|done]. simpl in *.
    apply (on_branch_book n (branch_dir b) _ _ _ b1) in Hon' as [Hs3 _];
      [|done|done|by apply (sb_dir _ _ Hsb1)].
    destruct (Hc (h2, b1) (sb_dir _ _ Hsb1)) as [Hsame _]. rewrite Hcb in Hsame. exists b'.
    split; [done|]. split; [rewrite Hm'; apply lookup_insert_eq|]. split; [done|].
    destruct (Hs3 Hok2) as [_ Hl3]. rewrite <- Hgone, Hfd. apply Hl3.
    intros Hbk. destruct (book_not_delta _ _ Hbk). unfold delta_part, files_dir. apply under_app. }
  unfold mark_deleted in H. case_bool_decide as Hu.
  - apply Hmark in H as (b' & Hcb & Hb' & Hsame & Hl'); [|auto with keeps]. split; [|done].
    exists b'. split; [done|]. split; [by etransitivity|]. apply add_tombstone_mem in Hcb. rewrite Hcb. set_solver.
  - apply Hmark in H as (b' & Hcb & Hb' & Hsame & Hl'); [|auto with keeps]. split; [|done].
    exists b'. split; [done|]. split; [by etransitivity|]. apply remove_tombstone_mem in Hcb. rewrite Hcb. set_solver.
Qed.

(** A path without a delta and masked, or with nothing below, is not there. *)
Lemma absent_after n b b' l r p h w (s' : host * World) :
  world_ok w -> world_ok s'.2 -> path_ok p ->
  branches w !! n = Some b -> lineage (base_path w) (branches w) n (b :: l) r ->
  branches s'.2 !! n = Some b' -> same_branch b b' ->
  (forall m, m <> n -> branches s'.2 !! m = branches w !! m) -> base_path s'.2 = base_path w ->
  (forall q, ~ edit (branch_dir b) q -> look (h_tree s'.1) q = look (h_tree h) q) ->
  look (h_tree s'.1) (files_dir b ++ p) = None ->
  (is_deleted b' (show p) = true \/ underlay b (h_tree h) l r p = None) ->
  (resolve_path n (show p) s').1 = Ok None.
Proof.
  intros Hw Hw' Hp Hb Hl Hb' Hs Hothers Hbase Hlook Hnone Hmask. destruct s' as [h' w']. simpl in *.
  pose proof (wo_forest _ Hw) as [rank Hr].
  assert (lineage (base_path w') (branches w') n (b' :: l) r) as Hl'.
  { rewrite Hbase. by eapply lineage_self. }
  destruct (resolve_path_lineage n p h' w' _ _ Hw' Hp Hl') as [-> _]. f_equal. simpl.
  assert (files_dir b' = files_dir b) as -> by (unfold files_dir; by rewrite (sb_dir _ _ Hs)).
  rewrite decide_False by (apply look_None in Hnone; rewrite Hnone; by intros []).
  destruct Hmask as [->|Hu]; [done|]. destruct (is_deleted b' (show p)); [done|]. simpl.
  destruct (underlay_step n b b' h h' w l r p Hw Hb Hl Hs Hlook) as [Hu' _]. rewrite Hu in Hu'.
  unfold underlay in Hu'. by destruct (is_hidden b' (show p)).
Qed.

(** What the caller of a successful removal can rely on. *)
Definition gone (n : string) (b : Branch) (p : path) (h : host) (w : World) (s' : host * World) : Prop :=
  (resolve_path n (show p) s').1 = Ok None
  /\ (p <> [] -> tidy p -> forall z, path_ok (p ++ z) -> tidy (p ++ z) -> (resolve_path n (show (p ++ z)) s').1 = Ok None)
  /\ exists b', branches s'.2 !! n = Some b' /\ same_branch b b'
     /\ (show p ∈ tombstones b' <-> exists q, (resolve_inherited_for_touch b (show p) (h, w)).1 = Ok (Some q)).

Lemma unlink_gone n b p h w s' :
  world_ok w -> branches w !! n = Some b -> store_ok (branch_dir b) h -> path_ok p ->
  wstep n (branch_dir b) (edit (branch_dir b)) (h, w) s' -> world_ok s'.2 ->
  (let* inherited := resolve_inherited_for_touch b (show p) in
   do* on_branch n (record_first_touch (show p) inherited false);
   do* drop_delta n (show p);
   mark_deleted n (show p) (bool_decide (is_Some inherited))) (h, w) = (Ok tt, s') ->
  gone n b p h w s'.
Proof.
  intros Hw Hb Hok Hp Hstep Hw' H.
  destruct (forest_lineage (base_path w) (branches w) n) as (l0 & r & Hl); [apply Hw|by eexists|].
  assert (exists l, l0 = b :: l) as [l ->] by (inversion Hl; simplify_eq; eauto).
  destruct (unlink_spec n b l r p h w s' Hw Hb Hok Hp Hl H) as [(b' & Hb' & Hs & Ht) Hnone].
  destruct (Hstep b Hb eq_refl) as (_ & Hothers & _ & Hbase & Hhost). destruct (Hhost Hok) as [_ Hlook].
  assert ((exists q, (resolve_inherited_for_touch b (show p) (h, w)).1 = Ok (Some q))
          <-> is_Some (underlay b (h_tree h) l r p)) as Hex.
  { rewrite (resolve_touch_eq n b h w l r p) by done. simpl. split; [intros [q [= ->]]; by eexists|].
    intros [q ->]. by exists q. }
  assert (is_deleted b' (show p) = true \/ underlay b (h_tree h) l r p = None) as Hmask.
  { destruct (underlay b (h_tree h) l r p) as [q|] eqn:Hu; [left|by right].
    unfold is_deleted, deleted_by. rewrite bool_decide_true; [done|]. apply Ht. by eexists. }
  split; [by apply (absent_after n b b' l r p h w)|].
  split; [|exists b'; split; [done|]; split; [done|by rewrite Hex]].
  intros Hne Htidy z Hz Htz. apply (absent_after n b b' l r (p ++ z) h w); try done.
  - destruct z as [|c z]; [by rewrite app_nil_r|]. rewrite app_assoc. apply look_None. apply nothing_below; [|done|].
    + destruct (Hstep b Hb eq_refl) as (_ & _ & _ & _ & Hh). destruct (Hh Hok) as [Hok' _]. apply Hok'.
    + by rewrite Hnone.
  - destruct Hmask as [Hm|Hm]; [left|right; by apply underlay_below; [apply Hok|..]].
    unfold is_deleted in *. rewrite !show_ne in * by (by destruct p). by apply deleted_by_app.
Qed.

(** C17: after a successful delete the path is not there any more in the branch,
    nor is anything below it - names that end in white space left aside, as hide
    rules look at trimmed paths ([trimmed_name_unhides_below]) - and a tombstone for it is kept exactly when the branch would otherwise show
    an inherited entry - so deleting a file of the branch's own leaves no trace. *)
Theorem deleted_path_is_gone n b p h w s' :
  world_ok w -> branches w !! n = Some b -> store_ok (branch_dir b) h -> path_ok p ->
  delete_path_in_branch n (show p) (h, w) = (Ok tt, s') -> gone n b p h w s'.
Proof.
  intros Hw Hb Hok Hp H. pose proof (delete_wstep n (branch_dir b) (show p) (h, w)) as Hstep.
  pose proof (serve_istep (DeletePath n (show p)) (h, w) Hw) as Hw'. simpl in Hw'. rewrite H in Hstep, Hw'.
  unfold delete_path_in_branch in H. apply (writable_inv n _ h w b) in H as [_ H]; [|done].
  by apply unlink_gone.
Qed.

(** C34: rmdir succeeds only on a directory that shows no entry - anything else
    is refused with the error of the system call and changes nothing - and then
    the directory is gone like a deleted path. *)
Theorem rmdir_requires_empty n b p h w res s' :
  world_ok w -> branches w !! n = Some b -> state b = Open -> store_ok (branch_dir b) h -> path_ok p ->
  rmdir_path_in_branch n (show p) (h, w) = (res, s') ->
  match (resolve_path n (show p) (h, w)).1 with
  | Ok (Some q) =>
      if bool_decide (look (h_tree h) q = Some KDir) then
        match (collect_dir_names n (show p) (h, w)).1 with
        | Ok names => if bool_decide (names = ∅) then res = Ok tt -> gone n b p h w s'
                      else res = Err (Throw (Io ENOTEMPTY)) /\ s' = (h, w)
        | Err x => res = Err x
        end
      else res = Err (Throw (Io ENOTDIR)) /\ s' = (h, w)
  | Ok None => res = Err (Throw (Io ENOENT)) /\ s' = (h, w)
  | Err x => res = Err x
  end.
Proof.
  intros Hw Hb Hst Hok Hp H. pose proof (rmdir_wstep n (branch_dir b) (show p) (h, w)) as Hstep.
  pose proof (serve_istep (RmdirPath n (show p)) (h, w) Hw) as Hw'. simpl in Hw'. rewrite H in Hstep, Hw'.
  unfold rmdir_path_in_branch in H. rewrite (writable_at n _ h w b) in H by done.
  unfold is_writable in H. rewrite bool_decide_true in H by done.
  destruct (forest_lineage (base_path w) (branches w) n) as (l & r & Hl); [apply Hw|by eexists|].
  pose proof (resolve_path_lineage n p h w l r Hw Hp Hl) as [Hr1 Hr2].
  destruct (resolve_path n (show p) (h, w)) as [x s1] eqn:Hres. simpl in Hr1, Hr2. subst x s1.
  rewrite (bind_step _ _ _ _ _ Hres) in H. simpl.
  destruct (first_layer (h_tree h) l r p) as [q|] eqn:Hq.
  2:{ unfold throw, raise in H. by simplify_eq. }
  assert (is_Some (h_tree h !! q)) as [m Hm].
  { apply first_layer_served in Hq as [Hs _]. done. }
  assert (on_host (symlink_metadata q) (h, w) = (Ok m, (h, w))) as Hsm.
  { unfold on_host, zoom, symlink_metadata, get_tree, gets, bind, ret. simpl. by rewrite Hm. }
  rewrite (bind_step _ _ _ _ _ Hsm) in H. unfold look. rewrite Hm. simpl.
  assert (bool_decide (Some (n_kind m) = Some KDir) = is_dir m) as ->.
  { unfold is_dir. by destruct (n_kind m). }
  destruct (is_dir m); simpl in H; [|unfold throw, raise in H; by simplify_eq].
  destruct (collect_dir_names n (show p) (h, w)) as [[names|x] s2] eqn:Hc; simpl.
  2:{ rewrite (bind_fail _ _ _ _ _ Hc) in H. by simplify_eq. }
  assert (s2 = (h, w)) as ->.
  { unfold collect_dir_names, view in Hc. rewrite (bind_step _ _ _ w (h, w)) in Hc by done.
    apply on_host_read in Hc as [-> _]; [done|apply collect_keeps, _]. }
  rewrite (bind_step _ _ _ _ _ Hc) in H. case_bool_decide; simpl in H.
  - intros ->. by apply unlink_gone.
  - unfold throw, raise in H. by simplify_eq.
Qed.
End Edits.

(** ** Examples *)

Definition example_rmdir : res exn unit * (host * World) :=
  @rmdir_path_in_branch example_env example_serde "fix" "/b" (example_host, example_world).

(** The branch makes "d/x", then "d" is deleted. *)
Definition example_request : request := WriteData "fix" "/d/x" 0 (bytes_of "hi").
Definition with_dir : host * World := (@serve example_env example_serde example_request (example_host, example_world)).2.
Definition fix_with_dir : Branch := default example_fix (branches with_dir.2 !! "fix").
Definition dir_deleted : res exn unit * (host * World) :=
  @delete_path_in_branch example_env example_serde "fix" "/d" with_dir.
Lemma with_dir_shows : (resolve_path "fix" "/d/x" with_dir).1 = Ok (Some (files_dir fix_with_dir ++ ["d"; "x"])).
Proof. by vm_compute. Qed.
Lemma with_dir_step :
  wstep "fix" (branch_dir example_fix) (edit (branch_dir example_fix)) (example_host, example_world) with_dir.
Proof.
  apply (@local_wstep example_env example_serde "fix" (branch_dir example_fix) example_request (example_host, example_world)).
  - by left.
  - exact example_store_ok.
  - intros b rel Hb [= <-]. injection Hb as <-. split; [by apply (bool_decide_eq_false_1 (".." ∈ _))|].
    intros x y _ _. by apply link_free_plain.
  - intros rel o data [= <- <- <-] b _. split; [|intros src _]; by apply link_free_plain.
Qed.

Lemma dir_deleted_ok : dir_deleted = (Ok tt, dir_deleted.2).
Proof. apply run_ok. by vm_compute. Qed.

Lemma deleted_path_is_gone_witness :
  gone "fix" fix_with_dir ["d"] with_dir.1 with_dir.2 dir_deleted.2
  /\ (resolve_path "fix" "/d/x" dir_deleted.2).1 = Ok None.
Proof.
  assert (gone "fix" fix_with_dir ["d"] with_dir.1 with_dir.2 dir_deleted.2) as Hg.
  { apply (@deleted_path_is_gone example_env example_serde "fix" fix_with_dir ["d"]).
    - apply (@serve_istep example_env example_serde example_request (example_host, example_world)), example_world_ok.
    - by vm_compute.
    - assert (branch_dir fix_with_dir = branch_dir example_fix) as -> by by vm_compute.
      destruct (with_dir_step example_fix eq_refl eq_refl) as (_ & _ & _ & _ & H). by apply H, example_store_ok.
    - by repeat constructor.
    - rewrite <- surjective_pairing. exact dir_deleted_ok. }
  split; [exact Hg|]. destruct Hg as (_ & Hbelow & _). apply (Hbelow) with (z := ["x"]); by repeat constructor.
Defined.

Lemma example_rmdir_stat :
  match (resolve_path "fix" (show ["b"]) (example_host, example_world)).1 with
  | Ok (Some q) => bool_decide (look (h_tree example_host) q = Some KDir) = false
  | _ => False
  end.
Proof. vm_compute. reflexivity. Qed.

Lemma rmdir_requires_empty_witness :
  example_rmdir = (Err (Throw (Io ENOTDIR)), (example_host, example_world)).
Proof.
  pose proof (@rmdir_requires_empty example_env example_serde "fix" example_fix ["b"] example_host example_world
    example_rmdir.1 example_rmdir.2 example_world_ok eq_refl eq_refl example_store_ok
    ltac:(by repeat constructor) (surjective_pairing _)) as H.
  pose proof example_rmdir_stat as Hs.
  destruct (resolve_path "fix" (show ["b"]) (example_host, example_world)).1 as [[q|]|x];
    [|contradiction|contradiction].
  rewrite Hs in H. destruct H as [H1 H2].
  exact (eq_trans (surjective_pairing example_rmdir) (f_equal2 pair H1 H2)).
Defined.
