(* ===== verification/WriteSpec.v ===== *)
(** * Copy on write

    The functional specification of [write_data_to_branch]: the bytes given are
    spliced into what the branch showed at the path, in the branch's own copy. *)

From S2P Require Import Prelude Strs HostFs Staged Quota TextMerge Branch Codec View Manager Commit Frame BranchLaws.
From S2P Require Import Isolation WorldInv ManagerSpec EditSpec.

Section Writes.
Context {E : Env} {J : Serde} (d : path).

Lemma attempt_host_ok {A B} (c : IO A) (k : res BranchError A -> MIO B) h w b s' :
  bind (attempt (on_host c)) k (h, w) = (Ok b, s') ->
  exists h1, (exists a, c h = (Ok a, h1) /\ k (Ok a) (h1, w) = (Ok b, s'))
             \/ (exists e, c h = (Err (Throw e), h1) /\ k (Err e) (h1, w) = (Ok b, s')).
Proof.
  unfold bind, attempt, on_host, zoom. simpl. destruct (c h) as [[a|[e| |]] h1]; simpl; try done; eauto 6.
Qed.

Lemma host_ok {A B} (c : IO A) (k : A -> MIO B) h w b s' :
  bind (on_host c) k (h, w) = (Ok b, s') -> exists a h1, c h = (Ok a, h1) /\ k a (h1, w) = (Ok b, s').
Proof. unfold bind, on_host, zoom. simpl. destruct (c h) as [[a|x] h1]; simpl; try done; eauto. Qed.

Lemma read_same {A} (c : IO A) h r h1 : keeps eq c -> c h = (r, h1) -> h1 = h.
Proof. intros Hk H. specialize (Hk h). by rewrite H in Hk. Qed.

Lemma staged_body_ok src u p offset data c h k len h' :
  store_ok d h -> look (h_tree h) src = Some (KFile c) ->
  (let* _ := copy src (d ++ ["staging"; u]) in
   let* written := write_data_to_file (d ++ ["staging"; u]) offset data in
   let* m := metadata (d ++ ["staging"; u]) in
   do* rename (d ++ ["staging"; u]) (d ++ "files" :: p);
   ret (written, node_len m)) h = (Ok (k, len), h') ->
  k = Z.of_nat (length data) /\ store_ok d h'
  /\ look (h_tree h') (d ++ "files" :: p) = Some (KFile (splice (Z.to_nat offset) data c)).
Proof.
  intros Hok Hsrc H. set (st := d ++ ["staging"; u]) in *.
  assert (book d st) as Hst by (by apply book_in_dir).
  apply bind_ok in H as (z & h1 & H1 & H).
  pose proof (copy_in d (edit d) src st Hst (or_introl Hst) h Hok) as [Hok1 _]. rewrite H1 in Hok1. simpl in Hok1.
  apply copy_look in H1 as [_ (q & c' & Hq & Hqc & Hc & _)]; [|by apply (so_plain _ _ Hok)].
  rewrite real_path_plain in Hq by (by eapply look_file_plain). simplify_eq.
  apply bind_ok in H as (k' & h2 & H2 & H).
  pose proof (write_data_in d (edit d) st offset data Hst (or_introl Hst) h1 Hok1) as [Hok2 _].
  rewrite H2 in Hok2. simpl in Hok2.
  apply write_data_look in H2 as (_ & _ & _ & -> & Hw); [|by apply (so_plain _ _ Hok1)].
  rewrite node_data_look, Hc in Hw. specialize (Hw ltac:(intros kd [= <-]; by eexists)).
  apply bind_ok in H as (m & h3 & H3 & H). apply read_same in H3 as ->; [|apply metadata_keeps, _].
  apply bind_ok in H as ([] & h4 & H4 & H). unfold ret in H. simplify_eq.
  assert (keeps (step_in d (edit d)) (rename st (d ++ "files" :: p))) as Hrn.
  { apply rename_in; [apply under_app|by apply book_ne|apply under_app|apply files_ne| | |done].
    - intros x (s & ->)%under_true. left. by apply book_app.
    - intros x. apply below_files. }
  destruct (Hrn h2 Hok2) as [Hok4 _]. rewrite H4 in Hok4. split; [done|]. split; [done|].
  apply rename_look in H4 as (_ & _ & [Heq|[_ Hl]] & _); [| |apply Hok2].
  - exfalso. apply (book_not_delta _ _ Hst). rewrite Heq. apply files_in_delta.
  - rewrite Hl. rewrite <- (app_nil_r (d ++ "files" :: p)) at 2. by rewrite strip_app, app_nil_r.
Qed.

(** The staged copy of an inherited file ends up as the delta. *)
Lemma staged_write_ok b src p offset data c h w k len s' :
  branch_dir b = d -> store_ok d h -> look (h_tree h) src = Some (KFile c) -> ~ edit d src ->
  staged_write b src (d ++ "files" :: p) offset data (h, w) = (Ok (k, len), s') ->
  k = Z.of_nat (length data) /\ s'.2 = w /\ store_ok d s'.1
  /\ look (h_tree s'.1) (d ++ "files" :: p) = Some (KFile (splice (Z.to_nat offset) data c)).
Proof.
  intros Hd Hok Hsrc Hout H. unfold staged_write in H.
  apply host_ok in H as ([] & h1 & H1 & H).
  pose proof (ensure_parent_delta_in d p h Hok) as Hs1. rewrite H1 in Hs1. destruct Hs1 as [Hok1 Hl1].
  apply host_ok in H as ([] & h2 & H2 & H). simpl in Hok1, Hl1.
  pose proof (create_staging_in d (edit d) (book_edit d) h1 Hok1) as Hs2. unfold staging_dir in H2. rewrite Hd in H2. rewrite H2 in Hs2.
  destruct Hs2 as [Hok2 Hl2]. simpl in Hok2, Hl2.
  apply host_ok in H as (st & h3 & H3 & H).
  assert (exists u, st = d ++ ["staging"; u]) as [u ->].
  { unfold staging_path, fresh_uuid, bind, ret in H3. simplify_eq. unfold staging_dir. rewrite <- app_assoc. by eexists. }
  assert (h_tree h3 = h_tree h2) as Ht3.
  { unfold staging_path, fresh_uuid, bind, ret in H3. by simplify_eq. }
  assert (store_ok d h3) as Hok3 by (destruct Hok2; split; unfold wf_host in *; by rewrite Ht3).
  assert (look (h_tree h3) src = Some (KFile c)) as Hsrc3 by (by rewrite Ht3, Hl2, Hl1).
  apply attempt_host_ok in H as (h4 & [([k' len'] & H4 & H)|(e & _ & H)]); unfold ret in H.
  2:{ unfold bind in H. destruct (attempt _ _) as [[]]; done. }
  injection H as -> -> <-.
  apply staged_body_ok with (c := c) in H4 as (-> & Hok4 & Hl4); [done|done|done].
Qed.

(** A write into a delta that is, or will be, a file. *)
Lemma delta_write_ok n b rel p offset we data h w k s' :
  branches w !! n = Some b -> branch_dir b = d -> store_ok d h ->
  (forall kd, look (h_tree h) (d ++ "files" :: p) = Some kd -> exists c, kd = KFile c) ->
  delta_write n rel (d ++ "files" :: p) offset we data (h, w) = (Ok k, s') ->
  k = Z.of_nat (length data)
  /\ look (h_tree s'.1) (d ++ "files" :: p)
     = Some (KFile (splice (Z.to_nat offset) data (file_data (look (h_tree h) (d ++ "files" :: p)))))
  /\ exists b', branches s'.2 !! n = Some b' /\ rel ∉ tombstones b'.
Proof.
  intros Hb Hd Hok Hfile H. unfold delta_write in H.
  apply bind_ok in H as ([] & [h1 w1] & H1 & H). pose proof H1 as H1'.
  apply (on_branch_inv _ _ _ _ b) in H1' as (b1 & Hc1 & Hm1); [|done]. apply remove_tombstone_mem in Hc1.
  apply (on_branch_book n d _ _ _ b) in H1 as [Hs1 _]; [|auto with keeps|done|done].
  destruct (book_keeps_delta d _ _ p Hok Hs1) as [Hok1 Hl1]. rewrite <- Hl1 in *. simpl in Hm1.
  assert (not_link (h_tree h1) (d ++ "files" :: p)) as Hpl.
  { intros t Ht. destruct (Hfile _ Ht). done. }
  apply bind_ok in H as (m & s2 & H2 & H). apply host_read_same in H2 as ->; [|apply metadata_keeps, _].
  apply bind_ok in H as ([] & s3 & H3 & H).
  assert (s3 = (h1, w1)) as ->.
  { unfold when, ret in H3. destruct (_ <? _)%Z; [by apply check_quota_same in H3|by simplify_eq]. }
  apply host_ok in H as (k' & h4 & H4 & H).
  apply write_data_look in H4 as (_ & _ & _ & -> & Hw); [|done]. specialize (Hw Hfile). rewrite node_data_look in Hw.
  apply bind_ok in H as (m' & s5 & H5 & H). apply host_read_same in H5 as ->; [|apply metadata_keeps, _].
  apply bind_ok in H as ([] & [h6 w6] & H6 & H). unfold ret in H. injection H as <- <-.
  assert (h6 = h4 /\ branches w6 = branches w1) as [-> Hw6].
  { unfold when, ret, add_quota, on_mem, modify in H6. destruct (_ <? _)%Z; by simplify_eq. }
  split; [done|]. split; [done|]. exists b1. simpl. rewrite Hw6, Hm1, lookup_insert_eq, Hc1. set_solver.
Qed.
End Writes.

Section WriteSpec.
Context {E : Env} {J : Serde}.

(** What a write to [p] starts from: the branch's own entry, else what lies
    below it - a tombstone of the branch does not count here. *)
Definition write_base (b : Branch) (t : tree) (l : list Branch) (r p : path) : option kind :=
  match look t (files_dir b ++ p) with
  | Some kd => Some kd
  | None => match underlay b t l r p with Some q => look t q | None => None end
  end.

(** What the branch [n] shows at [p]. *)
Definition shown (n : string) (p : path) (s : host * World) : option kind :=
  match (resolve_path n (show p) s).1 with Ok (Some q) => look (h_tree s.1) q | _ => None end.

(** The outcome of a write. *)
Definition written (n : string) (b : Branch) (p : path) (offset : Z) (data : bytes) (old : option kind)
    (k : Z) (s' : host * World) : Prop :=
  k = Z.of_nat (length data)
  /\ look (h_tree s'.1) (files_dir b ++ p) = Some (KFile (splice (Z.to_nat offset) data (file_data old)))
  /\ exists b', branches s'.2 !! n = Some b' /\ show p ∉ tombstones b'.

(** The part after the first touch has been recorded. *)
Lemma first_write_spec n b b1 l r p offset we data h h1 w1 k s' :
  branches w1 !! n = Some b1 -> same_branch b b1 -> store_ok (branch_dir b) h1 -> path_ok p ->
  h_tree h1 !! (files_dir b ++ p) = None ->
  (forall q, underlay b (h_tree h) l r p = Some q ->
     ~ edit (branch_dir b) q /\ exists c, look (h_tree h1) q = Some (KFile c)) ->
  (let* meta := (match underlay b (h_tree h) l r p with
                 | Some src => let* r := attempt (on_host (symlink_metadata src)) in ret (ok r)
                 | None => ret None
                 end) in
   match underlay b (h_tree h) l r p, meta with
   | Some src, Some meta =>
       if is_file meta then
         do* check_quota (Z.max (node_len meta) we);
         let* (written, final_len) := staged_write b src (files_dir b ++ p) offset data in
         do* add_quota final_len;
         do* on_branch n (remove_tombstone (show p));
         ret written
       else
         do* when (is_symlink meta) (
           do* check_quota (node_len meta);
           do* on_host (copy_entry src (files_dir b ++ p));
           add_quota (node_len meta));
         do* on_host (ensure_parent_dirs (files_dir b ++ p));
         delta_write n (show p) (files_dir b ++ p) offset we data
   | _, _ =>
       do* on_host (ensure_parent_dirs (files_dir b ++ p));
       delta_write n (show p) (files_dir b ++ p) offset we data
   end) (h1, w1) = (Ok k, s') ->
  written n b p offset data
    (match underlay b (h_tree h) l r p with Some q => look (h_tree h1) q | None => None end) k s'.
Proof.
  intros Hb1 Hsb Hok1 Hp Hnone Hu H. set (d := branch_dir b) in *.
  assert (files_dir b ++ p = d ++ "files" :: p) as Hfd by (unfold files_dir; by rewrite <- app_assoc).
  unfold written. rewrite Hfd in *.
  destruct (underlay b (h_tree h) l r p) as [src|] eqn:Hsrc.
  - destruct (Hu src eq_refl) as [Hout [c Hc]].
    assert (exists m, h_tree h1 !! src = Some m /\ is_file m = true) as (m & Hm & Hf).
    { unfold look in Hc. destruct (h_tree h1 !! src) as [m|]; [|done]. exists m. split; [done|].
      unfold is_file. simpl in Hc. by injection Hc as ->. }
    rewrite bind_assoc, stat_at, Hm in H. rewrite (bind_step _ _ _ (Some m) (h1, w1)) in H by done. rewrite Hf in H.
    apply bind_ok in H as ([] & s2 & H2 & H). apply check_quota_same in H2 as ->.
    apply bind_ok in H as ([k' len] & [h3 w3] & H3 & H).
    apply staged_write_ok with (d := d) (c := c) in H3 as (-> & Hw3 & Hok3 & Hl3); [|done..].
    simpl in Hw3, Hok3, Hl3. subst w3.
    apply bind_ok in H as ([] & [h4 w4] & H4 & H). unfold add_quota, on_mem, modify in H4. injection H4 as <- <-.
    apply bind_ok in H as ([] & [h5 w5] & H5 & H). unfold ret in H. injection H as <- <-.
    pose proof H5 as H5'. apply (on_branch_inv _ _ _ _ b1) in H5' as (b5 & Hc5 & Hm5); [|done].
    apply remove_tombstone_mem in Hc5.
    apply (on_branch_book n d _ _ _ b1) in H5 as [Hs5 _]; [|auto with keeps|done|by rewrite (sb_dir _ _ Hsb)].
    destruct (book_keeps_delta d _ _ p Hok3 Hs5) as [_ Hl5]. split; [done|]. simpl. split.
    + by rewrite Hl5, Hl3, Hc.
    + exists b5. simpl in Hm5. rewrite Hm5, lookup_insert_eq, Hc5. set_solver.
  - rewrite (bind_step _ _ _ None (h1, w1)) in H by done.
    apply host_ok in H as ([] & h2 & H2 & H).
    pose proof (ensure_parent_delta_in d p h1 Hok1) as Hs2. rewrite H2 in Hs2. destruct Hs2 as [Hok2 _].
    assert (look (h_tree h2) (d ++ "files" :: p) = None) as Hl2.
    { unfold ensure_parent_dirs in H2. destruct (d ++ "files" :: p) as [|x q] eqn:Hq; [by destruct d|].
      destruct (create_dir_all_look _ _ _ _ H2 (x :: q)) as [->|(_ & _ & _ & Hpre)]; [by apply look_None|].
      exfalso. apply under_prefix in Hpre. by rewrite not_under_parent in Hpre. }
    apply (delta_write_ok d n b1) in H as (-> & Hl & Ht); [|done|by rewrite (sb_dir _ _ Hsb)|done|].
    + rewrite Hl2 in Hl. done.
    + by rewrite Hl2.
Qed.

Lemma write_spec n b l r p offset data h w k s' :
  world_ok w -> branches w !! n = Some b -> store_ok (branch_dir b) h -> path_ok p ->
  lineage (base_path w) (branches w) n (b :: l) r ->
  (forall kd, write_base b (h_tree h) l r p = Some kd -> exists c, kd = KFile c) ->
  write_data_to_branch n (show p) offset data (h, w) = (Ok k, s') ->
  written n b p offset data (write_base b (h_tree h) l r p) k s'.
Proof.
  intros Hw Hb Hok Hp Hl Hfile H. unfold write_data_to_branch in H.
  destruct (offset <? 0)%Z; [done|]. destruct (u64_max <? _)%Z; [done|].
  apply (writable_inv n _ h w b) in H as [_ H]; [|done]. rewrite stat_at in H.
  unfold delta_path in H. rewrite join_show_path in H by done.
  assert (files_dir b ++ p = branch_dir b ++ "files" :: p) as Hfd by (unfold files_dir; by rewrite <- app_assoc).
  unfold write_base in *. destruct (h_tree h !! (files_dir b ++ p)) as [m|] eqn:Hm; cbn [is_ok] in H.
  - assert (look (h_tree h) (files_dir b ++ p) = Some (n_kind m)) as Hlk by (unfold look; by rewrite Hm).
    rewrite Hlk in *. unfold written. rewrite Hfd in *. rewrite <- Hlk.
    apply (delta_write_ok (branch_dir b) n b) in H; [done|done|done|done|]. by rewrite Hlk.
  - pose proof (proj2 (look_None _ _) Hm) as Hlk. rewrite Hlk in *.
    rewrite (bind_step _ _ _ _ _ (resolve_touch_eq n b h w l r p Hw Hp Hl)) in H.
    apply bind_ok in H as ([] & [h1 w1] & H1 & H). pose proof H1 as H1'.
    apply (on_branch_inv _ _ _ _ b) in H1' as (b1 & Hc1 & Hm1); [|done]. simpl in Hc1, Hm1.
    pose proof (record_first_touch_bstep (branch_dir b) (show p) (underlay b (h_tree h) l r p) true (h, b) eq_refl)
      as [Hsb1 Hst]. rewrite Hc1 in Hsb1, Hst. simpl in Hsb1, Hst. destruct (Hst Hok) as [Hok1 Hl1].
    destruct (underlay_step n b b h h w l r p Hw Hb Hl) as [_ Hout]; [reflexivity|done|].
    assert (forall q, ~ edit (branch_dir b) q -> look (h_tree h1) q = look (h_tree h) q) as Hl1'.
    { intros q Hq. apply Hl1. intros Hbk. apply Hq. by left. }
    assert (match underlay b (h_tree h) l r p with Some q => look (h_tree h) q | None => None end
            = match underlay b (h_tree h) l r p with Some q => look (h_tree h1) q | None => None end) as ->.
    { destruct (underlay b (h_tree h) l r p) as [q|] eqn:Hu; [|done]. by rewrite Hl1' by (by apply Hout). }
    eapply (first_write_spec n b b1 l r p offset _ data h h1 w1); [|done|done|done| | |exact H].
    + rewrite Hm1. apply lookup_insert_eq.
    + apply look_None. rewrite <- Hlk. apply Hl1. rewrite Hfd. intros Hbk.
      destruct (book_not_delta _ _ Hbk). apply files_in_delta.
    + intros q Hq. split; [by apply Hout|]. rewrite Hq in Hfile. rewrite Hl1' by (by apply Hout).
      unfold underlay in Hq. destruct (is_hidden b (show p)); [done|].
      apply first_layer_served in Hq as [Hq _]. apply look_is_Some in Hq as [kd Hkd]. rewrite Hkd in *.
      destruct (Hfile kd eq_refl) as [c ->]. by exists c.
Qed.

(** A branch shows its own entry first, also after edits of its own. *)
Lemma own_resolves n b l r p h w s' :
  world_ok w -> world_ok s'.2 -> branches w !! n = Some b -> path_ok p ->
  lineage (base_path w) (branches w) n (b :: l) r ->
  wstep n (branch_dir b) (edit (branch_dir b)) (h, w) s' -> is_Some (look (h_tree s'.1) (files_dir b ++ p)) ->
  (resolve_path n (show p) s').1 = Ok (Some (files_dir b ++ p)).
Proof.
  intros Hw Hw' Hb Hp Hl Hstep Hlk.
  destruct (Hstep b Hb eq_refl) as ((b' & Hb' & Hs) & Hothers & _ & Hbase & _).
  destruct (wo_forest _ Hw) as [rank Hr]. destruct s' as [h' w']. simpl in *.
  assert (lineage (base_path w') (branches w') n (b' :: l) r) as Hl' by (rewrite Hbase; by eapply lineage_self).
  destruct (resolve_path_lineage n p h' w' _ _ Hw' Hp Hl') as [-> _]. f_equal. simpl.
  assert (files_dir b' = files_dir b) as -> by (unfold files_dir; by rewrite (sb_dir _ _ Hs)).
  rewrite decide_True; [done|]. by apply look_is_Some.
Qed.

(** What is shown is what a write starts from. *)
Lemma shown_write_base n b l r p h w k :
  world_ok w -> path_ok p -> lineage (base_path w) (branches w) n (b :: l) r ->
  shown n p (h, w) = Some k -> write_base b (h_tree h) l r p = Some k.
Proof.
  intros Hw Hp Hl. unfold shown. destruct (resolve_path_lineage n p h w _ _ Hw Hp Hl) as [-> _]. simpl.
  unfold write_base, underlay. case_decide as Hd.
  - apply look_is_Some in Hd as [kd Hkd]. by rewrite Hkd.
  - assert (look (h_tree h) (files_dir b ++ p) = None) as ->.
    { apply look_None. by apply eq_None_not_Some. }
    destruct (is_deleted b (show p)); [done|]. simpl. by destruct (is_hidden b (show p)).
Qed.

(** C10: a successful write of [data] at [offset] into a file the branch shows
    (its own or inherited from any layer), or into a path where it shows nothing
    and never deleted anything, is read back: the path resolves to the branch's
    own copy, which holds the bytes shown before with [data] spliced in - the
    gap filled with zeros - and all of [data] was written. *)
Theorem written_data_reads_back n b p offset data h w k s' :
  world_ok w -> branches w !! n = Some b -> store_ok (branch_dir b) h -> path_ok p ->
  is_deleted b (show p) = false -> write_target_plain n (show p) (h, w) ->
  let old := shown n p (h, w) in
  (forall kd, old = Some kd -> exists c, kd = KFile c) ->
  write_data_to_branch n (show p) offset data (h, w) = (Ok k, s') ->
  k = Z.of_nat (length data)
  /\ (resolve_path n (show p) s').1 = Ok (Some (files_dir b ++ p))
  /\ shown n p s' = Some (KFile (splice (Z.to_nat offset) data (file_data old))).
Proof.
  intros Hw Hb Hok Hp Hdel Hplain old Hfile H.
  destruct (forest_lineage (base_path w) (branches w) n) as (l0 & r & Hl); [apply Hw|by eexists|].
  assert (exists l, l0 = b :: l) as [l ->] by (inversion Hl; simplify_eq; eauto).
  assert (old = write_base b (h_tree h) l r p) as Hold.
  { unfold old, shown. destruct (resolve_path_lineage n p h w _ _ Hw Hp Hl) as [-> _]. simpl. unfold write_base, underlay.
    case_decide as Hd.
    - apply look_is_Some in Hd as [kd Hkd]. by rewrite Hkd.
    - assert (look (h_tree h) (files_dir b ++ p) = None) as ->.
      { apply look_None. by apply eq_None_not_Some. }
      rewrite Hdel. simpl. by destruct (is_hidden b (show p)). }
  pose proof (write_wstep n (branch_dir b) (show p) offset data (h, w) Hok Hplain) as Hstep.
  pose proof (serve_istep (WriteData n (show p) offset data) (h, w) Hw) as Hw'. simpl in Hw'.
  rewrite (bind_ret_state _ (fun _ => tt)) in Hw'. rewrite H in Hstep, Hw'.
  rewrite Hold in *. pose proof (write_spec n b l r p offset data h w k s' Hw Hb Hok Hp Hl Hfile H) as Hwr.
  destruct Hwr as (Hk & Hlk & _).
  pose proof (own_resolves n b l r p h w s' Hw Hw' Hb Hp Hl Hstep ltac:(rewrite Hlk; by eexists)) as Hres.
  unfold shown. by rewrite Hres.
Qed.

(** A write to a path the branch has deleted - through a file handle still
    open, say - does not start from an empty file: the inherited file comes back,
    its tombstone is dropped, and the data is spliced into the old contents. *)
Theorem write_resurrects_deleted_file n b p offset data h w k s' q c :
  world_ok w -> branches w !! n = Some b -> store_ok (branch_dir b) h -> path_ok p ->
  is_deleted b (show p) = true -> h_tree h !! (files_dir b ++ p) = None ->
  (resolve_inherited_for_touch b (show p) (h, w)).1 = Ok (Some q) -> look (h_tree h) q = Some (KFile c) ->
  write_data_to_branch n (show p) offset data (h, w) = (Ok k, s') ->
  (resolve_path n (show p) (h, w)).1 = Ok None /\ written n b p offset data (Some (KFile c)) k s'.
Proof.
  intros Hw Hb Hok Hp Hdel Hnone Hq Hc H.
  destruct (forest_lineage (base_path w) (branches w) n) as (l0 & r & Hl); [apply Hw|by eexists|].
  assert (exists l, l0 = b :: l) as [l ->] by (inversion Hl; simplify_eq; eauto).
  rewrite (resolve_touch_eq n b h w l r p Hw Hp Hl) in Hq. simpl in Hq. injection Hq as Hq.
  assert (write_base b (h_tree h) l r p = Some (KFile c)) as Hbase.
  { unfold write_base. apply look_None in Hnone as ->. by rewrite Hq. }
  split.
  - destruct (resolve_path_lineage n p h w _ _ Hw Hp Hl) as [-> _]. simpl.
    rewrite decide_False by (rewrite Hnone; by intros []). by rewrite Hdel.
  - apply (write_spec n b l r p) in H; [|done..|by rewrite Hbase; intros kd [= <-]; eexists].
    by rewrite Hbase in H.
Qed.
End WriteSpec.

(** ** Examples *)

Definition example_write (rel : string) (data : string) : res exn Z * (host * World) :=
  @write_data_to_branch example_env example_serde "fix" rel 1 (bytes_of data) (example_host, example_world).

Lemma example_write_b : example_write "/b" "xy" = (Ok 2%Z, (example_write "/b" "xy").2).
Proof. unfold example_write. apply run_ok. vm_compute. reflexivity. Qed.
Lemma example_write_a : example_write "/a" "!" = (Ok 1%Z, (example_write "/a" "!").2).
Proof. unfold example_write. apply run_ok. vm_compute. reflexivity. Qed.
Lemma example_old_b :
  shown "fix" ["b"] (example_host, example_world) = Some (KFile (bytes_of "B")).
Proof. vm_compute. reflexivity. Qed.

Lemma written_data_reads_back_witness :
  let s' := (example_write "/b" "xy").2 in
  (resolve_path "fix" "/b" s').1 = Ok (Some ["store"; "branches"; "fix"; "files"; "b"])
  /\ shown "fix" ["b"] s' = Some (KFile (bytes_of "Bxy")).
Proof.
  intros s'.
  pose proof (@written_data_reads_back example_env example_serde "fix" example_fix ["b"] 1 (bytes_of "xy")
    example_host example_world 2 s' example_world_ok eq_refl example_store_ok) as H.
  cbv zeta in H. rewrite example_old_b in H. apply H.
  - by repeat constructor.
  - reflexivity.
  - intros b Hb. injection Hb as <-. split; [|intros src _]; apply link_free_plain; vm_compute; reflexivity.
  - intros kd [= <-]. by eexists.
  - apply example_write_b.
Defined.

Lemma write_resurrects_deleted_file_witness :
  let s' := (example_write "/a" "!").2 in
  (resolve_path "fix" "/a" (example_host, example_world)).1 = Ok None
  /\ written "fix" example_fix ["a"] 1 (bytes_of "!") (Some (KFile (bytes_of "A"))) 1 s'.
Proof.
  intros s'.
  apply (@write_resurrects_deleted_file example_env example_serde "fix" example_fix ["a"] 1 (bytes_of "!")
    example_host example_world 1 s' ["base"; "a"] (bytes_of "A") example_world_ok eq_refl example_store_ok).
  - by repeat constructor.
  - reflexivity.
  - reflexivity.
  - vm_compute. reflexivity.
  - reflexivity.
  - apply example_write_a.
Defined.
