(* ===== verification/TombLog.v ===== *)
(** * The tombstone files

    A branch keeps its tombstones in a snapshot file and a log of changes.  The
    two always replay to the set in memory ([synced]), so that a restarted daemon
    finds the deletions it had - for paths whose text fits on a line. *)

From S2P Require Import Prelude Strs HostFs TextMerge Branch Codec View Frame BranchLaws.

(** ** Lines *)

(** A string that comes back from a file of lines as it went in. *)
Record clean (s : string) : Prop := {
  cl_line : contains_char newline s = false;
  cl_utf8 : utf8_valid (bytes_of s ++ [newline]) = true;
  cl_cr : forall t, s <> t +:+ String cr "";
}.

Definition log_bytes (ls : list string) : bytes := concat (map text_line ls).

Lemma bytes_lack c s : contains_char c s = false -> c ∉ bytes_of s.
Proof.
  induction s as [|a s IH]; [by intros _ ?%not_elem_of_nil|]. cbn [contains_char]. intros [Ha Hs]%orb_false_iff.
  bool_hyps. rewrite bytes_of_cons. intros [->|H]%elem_of_cons; [done|by apply IH].
Qed.

Lemma split_line_cons (b rest : bytes) :
  newline ∉ b -> split_lines_keepends ((b ++ [newline]) ++ rest) = (b ++ [newline]) :: split_lines_keepends rest.
Proof.
  intros Hb. induction b as [|a b IH]; [done|]. simpl.
  rewrite bool_decide_false by (intros ->; apply Hb; by left). rewrite IH; [done|]. intros H. apply Hb. by right.
Qed.

Lemma split_text_lines ls : Forall clean ls -> split_lines_keepends (log_bytes ls) = map text_line ls.
Proof.
  induction 1 as [|s ls [Hs _ _] _ IH]; [done|]. unfold log_bytes. cbn [map concat]. unfold text_line at 1.
  rewrite split_line_cons by (by apply bytes_lack). f_equal. apply IH.
Qed.

Lemma chomp_text_line s : (forall t, s <> t +:+ String cr "") -> chomp (text_line s) = bytes_of s.
Proof.
  intros Hcr. unfold chomp, text_line. rewrite rev_app_distr. simpl.
  destruct (rev (bytes_of s)) as [|a r] eqn:Hr.
  - apply (f_equal (@rev _)) in Hr. rewrite rev_involutive in Hr. by rewrite Hr.
  - assert (bytes_of s = rev r ++ [a]) as Hs by (rewrite <- (rev_involutive (bytes_of s)), Hr; done).
    case_bool_decide as Ha; [|by rewrite Hs; simpl].
    exfalso. apply (Hcr (string_of (rev r))). rewrite <- (string_of_bytes_of s), Hs, string_of_app. by subst.
Qed.

Lemma line_of_text s : clean s -> line_of (text_line s) = Ok s.
Proof.
  intros [_ Hu Hc]. unfold line_of. unfold text_line at 1. rewrite Hu, chomp_text_line by done.
  by rewrite string_of_bytes_of.
Qed.

Lemma log_bytes_snoc ls s : log_bytes (ls ++ [s]) = log_bytes ls ++ text_line s.
Proof. unfold log_bytes. rewrite map_app, concat_app. simpl. by rewrite app_nil_r. Qed.

Section Files.
Context {E : Env} {L : EnvLaws E} {J : Serde}.

Lemma exists_file p h data : look (h_tree h) p = Some (KFile data) -> exists_ p h = (Ok true, h).
Proof.
  intros H. unfold exists_, metadata, attempt, bind. rewrite real_path_plain by (by eapply look_file_plain).
  unfold symlink_metadata, get_tree, gets, bind. unfold look in H. by destruct (h_tree h !! p).
Qed.
Lemma exists_none p h : look (h_tree h) p = None -> exists_ p h = (Ok false, h).
Proof.
  intros H. apply look_None in H as H'. unfold exists_, metadata, attempt, bind.
  rewrite real_path_plain by (intros t Ht; congruence).
  unfold symlink_metadata, get_tree, gets, bind. by rewrite H'.
Qed.
Lemma read_file_eq p h data : look (h_tree h) p = Some (KFile data) -> read p h = (Ok data, h).
Proof.
  intros H. unfold read, metadata, bind. rewrite real_path_plain by (by eapply look_file_plain).
  unfold symlink_metadata, get_tree, gets, bind. unfold look in H. destruct (h_tree h !! p) as [n|]; [|done].
  simpl in *. by injection H as ->.
Qed.

Lemma fold_lines {A} (f : A -> string -> A) a ls h :
  Forall clean ls ->
  fold_m (fun a l => let* line := of_res (line_of l) in ret (f a line)) a (map text_line ls) h
  = (Ok (foldl f a ls), h) :> res exn A * host.
Proof.
  intros Hls. revert a. induction Hls as [|s ls Hs _ IH]; intros a; [done|]. simpl.
  rewrite (bind_step _ _ _ (f a s) h); [apply IH|]. by rewrite line_of_text.
Qed.

(** Reading back a file of lines that is there, or none. *)
Lemma load_lines_eq {A} p h ls (f : A -> string -> A) a :
  Forall clean ls ->
  look (h_tree h) p = Some (KFile (log_bytes ls)) \/ (look (h_tree h) p = None /\ ls = []) ->
  load_lines p a (fun a line => ret (f a line)) h = (Ok (foldl f a ls), h).
Proof.
  intros Hls [Hp|[Hp ->]]; unfold load_lines.
  - rewrite (bind_step _ _ _ _ _ (exists_file _ _ _ Hp)), (bind_step _ _ _ _ _ (read_file_eq _ _ _ Hp)).
    rewrite split_text_lines by done. by apply fold_lines.
  - by rewrite (bind_step _ _ _ _ _ (exists_none _ _ Hp)).
Qed.

(** ** The files of a branch *)

Definition add_line (T : gset string) (line : string) : gset string := if blank line then T else {[line]} ∪ T.

Record synced (s : host * Branch) : Prop := {
  sy_files : exists snap ls,
    Forall clean snap /\ Forall clean ls
    /\ look (h_tree s.1) (tombstones_file (branch_dir s.2)) = Some (KFile (log_bytes snap))
    /\ (look (h_tree s.1) (tombstones_log_file (branch_dir s.2)) = Some (KFile (log_bytes ls))
        \/ (look (h_tree s.1) (tombstones_log_file (branch_dir s.2)) = None /\ ls = []))
    /\ foldl replay_tombstone (foldl add_line ∅ snap) ls = tombstones s.2;
}.

(** What a restart reads. *)
Definition reload (s : host * Branch) : res exn (gset string) :=
  (load_tombstones (tombstones_file (branch_dir s.2)) (tombstones_log_file (branch_dir s.2)) s.1).1.

Lemma load_synced_files d h snap ls :
  Forall clean snap -> Forall clean ls ->
  look (h_tree h) (tombstones_file d) = Some (KFile (log_bytes snap)) ->
  look (h_tree h) (tombstones_log_file d) = Some (KFile (log_bytes ls))
  \/ (look (h_tree h) (tombstones_log_file d) = None /\ ls = []) ->
  load_tombstones (tombstones_file d) (tombstones_log_file d) h
  = (Ok (foldl replay_tombstone (foldl add_line ∅ snap) ls), h).
Proof.
  intros H1 H2 H3 H4. unfold load_tombstones.
  rewrite (bind_step _ _ _ _ _ (load_lines_eq _ _ _ add_line ∅ H1 (or_introl H3))).
  by apply (load_lines_eq _ _ _ replay_tombstone).
Qed.

Lemma reload_synced s : synced s -> reload s = Ok (tombstones s.2).
Proof.
  intros [(snap & ls & H1 & H2 & H3 & H4 & H5)]. unfold reload. by rewrite (load_synced_files _ _ snap ls), H5.
Qed.

(** Making sure that the directory of a file is there touches no file of it. *)
Lemma ensure_parent_look d c h r h' :
  ensure_parent_dirs (d ++ [c]) h = (r, h') ->
  forall x, look (h_tree h') (d ++ [x]) = look (h_tree h) (d ++ [x]).
Proof.
  intros H x. unfold ensure_parent_dirs in H. destruct (d ++ [c]) as [|y q] eqn:Hq; [by destruct d|].
  rewrite <- Hq, parent_snoc in H.
  destruct (create_dir_all_look _ _ _ _ H (d ++ [x])) as [?|(_ & _ & _ & Hpre)]; [done|].
  apply prefix_length in Hpre. rewrite length_app in Hpre. simpl in Hpre. lia.
Qed.

(** One more line in the log. *)
Lemma append_op_files o p h b r s' :
  append_tombstone_op o p (h, b) = (r, s') -> r = Ok tt ->
  (look (h_tree h) (tombstones_log_file (branch_dir b)) = None
   \/ exists data, look (h_tree h) (tombstones_log_file (branch_dir b)) = Some (KFile data)) ->
  s'.2 = b
  /\ look (h_tree s'.1) (tombstones_file (branch_dir b)) = look (h_tree h) (tombstones_file (branch_dir b))
  /\ look (h_tree s'.1) (tombstones_log_file (branch_dir b))
     = Some (KFile (node_data (h_tree h !! tombstones_log_file (branch_dir b)) ++ op_line o p)).
Proof.
  intros H -> Hlog. unfold append_tombstone_op in H. rewrite (bind_step _ _ _ b (h, b)) in H by done.
  unfold on_host, zoom in H. cbn [fst snd] in H.
  set (log := tombstones_log_file (branch_dir b)) in *.
  destruct (bind (ensure_parent_dirs log) (fun _ => append log (op_line o p)) h) as [r h'] eqn:Hr.
  injection H as -> <-. simpl. split; [done|]. apply bind_ok in Hr as ([] & h1 & H1 & H2).
  pose proof (ensure_parent_look _ _ _ _ _ H1) as Hsame.
  assert (look (h_tree h1) log = look (h_tree h) log) as Hl1 by apply Hsame.
  apply append_look in H2 as [Ho Hn].
  - split.
    + transitivity (look (h_tree h1) (tombstones_file (branch_dir b))); [|apply Hsame].
      apply Ho. intros Heq. apply app_inv_head in Heq. done.
    + rewrite Hn. f_equal. f_equal. f_equal.
      by rewrite !node_data_look, Hl1.
  - intros target. rewrite Hl1. destruct Hlog as [->|[data ->]]; done.
Qed.

Definition log_line (o p : string) : string := o +:+ " " +:+ p.

(** The log follows [T] while the memory already holds [F]. *)
Lemma append_logged o p T F b h s' :
  synced (h, set_tombs T b) -> clean (log_line o p) ->
  append_tombstone_op o p (h, set_tombs F b) = (Ok tt, s') ->
  synced (s'.1, set_tombs (replay_tombstone T (log_line o p)) b) /\ s'.2 = set_tombs F b.
Proof.
  intros [(snap & ls & H1 & H2 & H3 & H4 & H5)] Hc H. simpl in *.
  apply append_op_files in H as (Hb & Hs & Hl); [|done|].
  2:{ simpl. destruct H4 as [->|[-> _]]; eauto. }
  simpl in *. split; [|done]. split. exists snap, (ls ++ [log_line o p]). simpl.
  split; [done|]. split; [by apply Forall_app_2; [|constructor]|]. rewrite Hs. split; [done|]. split.
  - left. rewrite Hl, log_bytes_snoc. f_equal. f_equal.
    change (op_line o p) with (text_line (log_line o p)). f_equal.
    rewrite node_data_look. by destruct H4 as [->|[-> ->]].
  - by rewrite foldl_app, H5.
Qed.

Lemma append_synced o p T b h s' :
  synced (h, b) -> clean (log_line o p) ->
  append_tombstone_op o p (h, set_tombs T b) = (Ok tt, s') ->
  replay_tombstone (tombstones b) (log_line o p) = T -> synced s' /\ s'.2 = set_tombs T b.
Proof.
  intros Hs Hc H <-. assert (b = set_tombs (tombstones b) b) as Hb by by destruct b.
  rewrite Hb in Hs. destruct (append_logged _ _ _ _ _ _ _ Hs Hc H) as [H1 H2]. split; [|done].
  destruct s' as [h' b']. simpl in *. by subst.
Qed.

(** ** The operations *)

Inductive tomb_op :=
  | TAdd (p : string)
  | TRemove (p : string)
  | TRemoveUnder (p : string)
  | TSet (T : gset string).

Definition run_op (o : tomb_op) : BIO unit :=
  match o with
  | TAdd p => add_tombstone p
  | TRemove p => remove_tombstone p
  | TRemoveUnder p => remove_tombstones_under p
  | TSet T => set_tombstones T
  end.

(** Names that fit on a line of the log. *)
Definition log_safe (p : string) : Prop := clean p /\ blank p = false.
Definition safe_op (o : tomb_op) : Prop :=
  match o with TAdd p => log_safe p | TSet T => set_Forall log_safe T | _ => True end.

(** What holds between operations. *)
Definition settled (s : host * Branch) : Prop := synced s /\ set_Forall log_safe (tombstones s.2).

Lemma log_safe_intro p :
  contains_char newline p = false -> utf8_valid (bytes_of p ++ [newline]) = true ->
  last (bytes_of p) <> Some cr -> blank p = false -> log_safe p.
Proof.
  intros H1 H2 H3 H4. split; [split; [done..|]|done]. intros t ->. apply H3.
  rewrite bytes_of_app. apply last_snoc.
Qed.

Lemma clean_log_line o p : o = "+" \/ o = "-" -> clean p -> clean (log_line o p).
Proof.
  intros Ho [H1 H2 H3]. split.
  - by destruct Ho as [-> | ->].
  - by destruct Ho as [-> | ->].
  - intros t Ht. assert (bytes_of p <> []) as Hne.
    { destruct p; [|done]. apply (f_equal bytes_of) in Ht. unfold log_line in Ht. rewrite !bytes_of_app in Ht.
      change (bytes_of (String cr "")) with [cr] in Ht. apply (f_equal last) in Ht.
      rewrite last_snoc in Ht. by destruct Ho as [-> | ->]. }
    apply (f_equal bytes_of) in Ht. unfold log_line in Ht. rewrite !bytes_of_app in Ht.
    destruct (bytes_of p) as [|a q _] eqn:Hp using rev_ind; [done|].
    rewrite !app_assoc in Ht. change (bytes_of (String cr "")) with [cr] in Ht. apply app_inj_tail in Ht as [_ ->].
    apply (H3 (string_of q)). rewrite <- (string_of_bytes_of p), Hp. apply string_of_app.
Qed.

Lemma blank_log_line o p : o = "+" \/ o = "-" -> blank (log_line o p) = false.
Proof.
  intros Ho. unfold blank, trim. apply bool_decide_eq_false.
  destruct Ho as [-> | ->]; unfold log_line; cbn [String.append];
    by rewrite trim_start_solid, trim_end_solid by by apply solid_intro.
Qed.

Lemma replay_add p T : replay_tombstone T (log_line "+" p) = {[p]} ∪ T.
Proof. unfold replay_tombstone. rewrite blank_log_line by auto. done. Qed.
Lemma replay_remove p T : replay_tombstone T (log_line "-" p) = T ∖ {[p]}.
Proof. unfold replay_tombstone. rewrite blank_log_line by auto. done. Qed.

Lemma mem_step (f : Branch -> Branch) (h : host) (b : Branch) : on_mem f (h, b) = (Ok tt, (h, f b)).
Proof. done. Qed.

Lemma add_settled p s s' : settled s -> log_safe p -> add_tombstone p s = (Ok tt, s') -> settled s'.
Proof.
  intros [Hs Ht] [Hp Hb] H. destruct s as [h b]. unfold add_tombstone in H.
  rewrite (bind_step _ _ _ b (h, b)) in H by done. case_bool_decide; [injection H as <-; by split|].
  rewrite (bind_step _ _ _ _ _ (mem_step _ h b)) in H.
  apply append_synced in H as [H1 H2]; [|done|by apply clean_log_line; auto|apply replay_add].
  split; [done|]. rewrite H2. cbn [tombstones set_tombs]. intros t [->%elem_of_singleton|Hi]%elem_of_union; [done|].
  by apply Ht.
Qed.

(** A removal drops one known name. *)
Lemma removal_settled p h b s' :
  settled (h, b) -> p ∈ tombstones b ->
  append_tombstone_op "-" p (h, set_tombs (tombstones b ∖ {[p]}) b) = (Ok tt, s') ->
  settled s' /\ s'.2 = set_tombs (tombstones b ∖ {[p]}) b.
Proof.
  intros [Hs Ht] Hp H. destruct (Ht p Hp) as [Hc _].
  apply append_synced in H as [H1 H2]; [|done|by apply clean_log_line; auto|apply replay_remove].
  split; [|done]. split; [done|]. rewrite H2. cbn [tombstones set_tombs]. intros t [Hi _]%elem_of_difference.
  by apply Ht.
Qed.

Lemma remove_settled p s s' : settled s -> remove_tombstone p s = (Ok tt, s') -> settled s'.
Proof.
  intros Hs H. destruct s as [h b]. unfold remove_tombstone in H.
  rewrite (bind_step _ _ _ b (h, b)) in H by done. case_bool_decide; [|injection H as <-; done].
  rewrite (bind_step _ _ _ _ _ (mem_step _ h b)) in H. by apply removal_settled in H as [? _].
Qed.

Lemma removals_logged l T F b h s' :
  synced (h, set_tombs T b) -> Forall clean l ->
  for_each l (fun t => append_tombstone_op "-" t) (h, set_tombs F b) = (Ok tt, s') ->
  synced (s'.1, set_tombs (T ∖ list_to_set l) b) /\ s'.2 = set_tombs F b.
Proof.
  intros Hs Hl. revert T h Hs. induction Hl as [|p l Hp _ IH]; intros T h Hs H; simpl in H.
  - injection H as <-. simpl. split; [|done]. by rewrite difference_empty_L.
  - apply bind_ok in H as ([] & [h1 b1] & H1 & H2).
    apply append_logged with (T := T) in H1 as [Hs1 Hb1]; [|done|by apply clean_log_line; auto].
    simpl in *. subst b1. apply (IH _ _ Hs1) in H2 as [H2 H3]. split; [|done].
    rewrite replay_remove in H2. by rewrite difference_difference_l_L in H2.
Qed.

Lemma remove_under_settled p s s' : settled s -> remove_tombstones_under p s = (Ok tt, s') -> settled s'.
Proof.
  intros [Hs Ht] H. destruct s as [h b]. unfold remove_tombstones_under in H.
  rewrite (bind_step _ _ _ b (h, b)) in H by done.
  set (l := List.filter _ _) in H. rewrite (bind_step _ _ _ _ _ (mem_step _ h b)) in H.
  assert (b = set_tombs (tombstones b) b) as Hb by by destruct b. rewrite Hb in Hs.
  apply removals_logged with (T := tombstones b) in H as [H1 H2]; [|done|].
  - destruct s' as [h' b']. simpl in *. subst b'. split; [done|].
    cbn [tombstones set_tombs snd]. intros t [Hi _]%elem_of_difference. by apply Ht.
  - apply Forall_forall. intros t Hi. apply list_elem_of_In, filter_In in Hi as [Hi _].
    apply list_elem_of_In in Hi. rewrite set_order_perm in Hi. apply elem_of_elements in Hi. by apply Ht.
Qed.

(** Writing the lines of a snapshot one at a time. *)
Lemma append_lines_look p l ls h r h' :
  look (h_tree h) p = Some (KFile (log_bytes ls)) ->
  for_each l (fun t => append p (text_line t)) h = (Ok r, h') ->
  look (h_tree h') p = Some (KFile (log_bytes (ls ++ l)))
  /\ forall q, q <> p -> look (h_tree h') q = look (h_tree h) q.
Proof.
  revert ls h. induction l as [|t l IH]; intros ls h Hp H; simpl in H.
  - injection H as _ <-. by rewrite app_nil_r.
  - apply bind_ok in H as ([] & h1 & H1 & H2).
    apply append_look in H1 as [Ho Hn]; [|by eapply look_file_plain].
    rewrite node_data_look, Hp in Hn. cbn in Hn. rewrite <- log_bytes_snoc in Hn.
    apply (IH _ _ Hn) in H2 as [H2 H3]. rewrite <- app_assoc in H2. split; [done|].
    intros q Hq. rewrite H3 by done. by apply Ho.
Qed.

Lemma foldl_add_lines T ls :
  Forall (fun p => blank p = false) ls -> foldl add_line T ls = T ∪ list_to_set ls.
Proof.
  intros Hl. revert T. induction Hl as [|p ls Hp _ IH]; intros T; simpl; [by rewrite union_empty_r_L|].
  rewrite IH. unfold add_line. rewrite Hp. set_solver.
Qed.

(** The log is gone after a rewrite, whether it was there or not. *)
Lemma remove_content_look p h h' :
  remove_content p h = (Ok tt, h') ->
  look (h_tree h') p = None /\ forall q, q <> p -> look (h_tree h') q = look (h_tree h) q.
Proof.
  intros H. unfold remove_content in H. apply bind_ok in H as (x & h1 & Hx & H).
  apply attempt_ok in Hx as [([] & -> & Hx)|(e & -> & Hx)].
  - injection H as <-. apply remove_file_call_look in Hx as [_ Hx]. split; [rewrite Hx; by rewrite decide_True|].
    intros q Hq. rewrite Hx. by rewrite decide_False.
  - pose proof (remove_file_call_look _ _ _ _ Hx) as Heq. simpl in Heq. subst h1.
    destruct e as [| | | | | | | |[]| |]; try done. injection H as <-. split; [|done].
    unfold remove_file_call, symlink_metadata, get_tree, now, put_tree, io_error, throw, raise, ret, gets, modify, bind in Hx.
    destruct (h_tree h !! p) as [n|] eqn:Hn; [by destruct (is_dir n)|by apply look_None].
Qed.

Lemma set_settled T s s' :
  settled s -> set_Forall log_safe T -> set_tombstones T s = (Ok tt, s') -> settled s'.
Proof.
  intros [[(snap & ls & _ & _ & Hsnap & _)] _] HT H. destruct s as [h b]. unfold set_tombstones in H.
  rewrite (bind_step _ _ _ _ _ (mem_step _ h b)) in H. unfold rewrite_tombstones in H.
  rewrite (bind_step _ _ _ (set_tombs T b) (h, set_tombs T b)) in H by done.
  unfold on_host, zoom in H. cbn [fst snd branch_dir set_tombs] in *.
  match type of H with (let '(_, _) := ?c in _) = _ => destruct c as [r h3] eqn:Hr end.
  injection H as -> <-. apply bind_ok in Hr as ([] & h1 & Hw & Hr). apply bind_ok in Hr as ([] & h2 & Ha & Hr).
  apply write_look in Hw as [_ Hwn]; [|by eapply look_file_plain].
  apply (append_lines_look _ _ []) in Ha as [Ha _]; [|done]. simpl in Ha.
  apply remove_content_look in Hr as [Hl Ho].
  assert (Forall log_safe (set_order T)) as Hsafe.
  { apply Forall_forall. intros t Hi. rewrite set_order_perm in Hi. apply elem_of_elements in Hi. by apply HT. }
  split; [split|done]. exists (set_order T), []. cbn [fst snd branch_dir set_tombs tombstones].
  split; [eapply Forall_impl; [done|by intros ? []]|]. split; [done|]. split.
  - rewrite Ho; [done|]. intros Heq%app_inj_tail. by destruct Heq.
  - split; [by right|]. simpl. rewrite foldl_add_lines by (eapply Forall_impl; [done|by intros ? []]).
    rewrite union_empty_l_L. apply set_eq. intros x. rewrite elem_of_list_to_set, set_order_perm. apply elem_of_elements.
Qed.

Lemma run_op_settled o s s' : settled s -> safe_op o -> run_op o s = (Ok tt, s') -> settled s'.
Proof.
  intros Hs Ho. destruct o as [p|p|p|T]; simpl in *.
  - by apply add_settled.
  - by apply remove_settled.
  - by apply remove_under_settled.
  - by apply set_settled.
Qed.

Lemma run_ops_settled ops s s' :
  settled s -> Forall safe_op ops -> for_each ops run_op s = (Ok tt, s') -> settled s'.
Proof.
  intros Hs Ho. revert s Hs. induction Ho as [|o ops Ho _ IH]; intros s Hs H; simpl in H; [by injection H as <-|].
  apply bind_ok in H as ([] & s1 & H1 & H2). by apply (IH s1); [eapply run_op_settled|].
Qed.

(** ** Names with a line break *)

Lemma op_line_break x y :
  op_line "+" (x +:+ String newline y) = log_bytes [log_line "+" x; y].
Proof.
  unfold op_line, log_bytes, text_line, log_line. cbn [map concat].
  change (String newline y) with (String newline "" +:+ y).
  rewrite !bytes_of_app. cbn [bytes_of String.list_ascii_of_string]. by rewrite app_nil_r, <- !app_assoc.
Qed.

(** A deleted name that contains a line break is not the name a restart
    finds.  Adding the tombstone of "x\ny" to a settled branch puts exactly
    that name into the set in memory, but what is read back from the files
    is the set with the two names "x" and "y" instead. *)
Theorem line_break_splits_tombstone x y s s' :
  settled s -> log_safe x -> log_safe y ->
  strip_prefix "+ " y = None -> strip_prefix "- " y = None ->
  (x +:+ String newline y) ∉ tombstones s.2 ->
  add_tombstone (x +:+ String newline y) s = (Ok tt, s') ->
  tombstones s'.2 = {[x +:+ String newline y]} ∪ tombstones s.2
  /\ reload s' = Ok ({[y]} ∪ ({[x]} ∪ tombstones s.2)).
Proof.
  intros [[(snap & ls & H1 & H2 & H3 & H4 & H5)] _] [Hx _] [Hy Hby] Hp Hm Hn H. destruct s as [h b].
  unfold add_tombstone in H. rewrite (bind_step _ _ _ b (h, b)) in H by done. cbn [fst snd] in *.
  rewrite bool_decide_false in H by done. rewrite (bind_step _ _ _ _ _ (mem_step _ h b)) in H.
  apply append_op_files in H as (Hb & Hs & Hl); [|done|].
  2:{ cbn [branch_dir set_tombs]. destruct H4 as [->|[-> _]]; eauto. }
  cbn [branch_dir set_tombs] in *. rewrite op_line_break in Hl. split; [by rewrite Hb|].
  unfold reload. rewrite Hb. cbn [branch_dir set_tombs].
  rewrite (load_synced_files _ _ snap (ls ++ [log_line "+" x; y])); [|done| | |].
  - cbn [fst]. f_equal. rewrite foldl_app, H5. cbn [foldl]. rewrite replay_add. unfold replay_tombstone.
    by rewrite Hby, Hp, Hm.
  - apply Forall_app_2; [done|]. repeat constructor; try apply Hy; apply clean_log_line; auto.
  - by rewrite Hs.
  - left. rewrite Hl. f_equal. f_equal. unfold log_bytes. rewrite map_app, concat_app. f_equal.
    rewrite node_data_look. by destruct H4 as [->|[-> ->]].
Qed.
End Files.

(** ** A new branch, settled *)

Definition rs_new := @new example_env example_serde "w" (Some "main") ["store"] 0 Lazy [] example_host.
Definition rs_host : host := rs_new.2.
Definition rs_branch : Branch :=
  match rs_new.1 with Ok b => b | Err _ => example_branch "w" None ∅ [] end.
Lemma rs_dir : branch_dir rs_branch = branch_dir_of ["store"] (name rs_branch) /\ name rs_branch = "w".
Proof. by vm_compute. Qed.
Lemma rs_store_ok : store_ok (branch_dir rs_branch) rs_host.
Proof.
  split; [apply wf_treeb_ok; by vm_compute|by vm_compute|]. intros q _. apply link_free_plain. by vm_compute.
Qed.
Lemma rs_settled : settled (rs_host, rs_branch).
Proof.
  assert (tombstones rs_branch = ∅) as HT by by vm_compute.
  assert (look (h_tree rs_host) (tombstones_file (branch_dir rs_branch)) = Some (KFile [])) as H1 by by vm_compute.
  assert (look (h_tree rs_host) (tombstones_log_file (branch_dir rs_branch)) = None) as H2 by by vm_compute.
  revert HT H1 H2. generalize rs_host rs_branch. intros h b HT H1 H2. split.
  - split. exists [], []. cbn [fst snd]. rewrite HT. eauto 10.
  - cbn [fst snd]. rewrite HT. apply set_Forall_empty.
Qed.

#[local] Existing Instance example_env.
Lemma rs_names : log_safe "/p" /\ log_safe "/q".
Proof. split; by apply log_safe_intro; vm_compute. Qed.
Lemma rs_fresh : ("/p" +:+ String newline "/q") ∉ tombstones rs_branch.
Proof. assert (tombstones rs_branch = ∅) as -> by by vm_compute. apply not_elem_of_empty. Qed.
Lemma rs_add_runs :
  add_tombstone ("/p" +:+ String newline "/q") (rs_host, rs_branch)
  = (Ok tt, (add_tombstone ("/p" +:+ String newline "/q") (rs_host, rs_branch)).2).
Proof. apply run_ok. by vm_compute. Qed.

Lemma line_break_splits_tombstone_witness :
  exists s', add_tombstone ("/p" +:+ String newline "/q") (rs_host, rs_branch) = (Ok tt, s')
    /\ tombstones s'.2 = {["/p" +:+ String newline "/q"]} ∪ tombstones rs_branch
    /\ reload s' = Ok ({["/q"]} ∪ ({["/p"]} ∪ tombstones rs_branch)).
Proof.
  exists (add_tombstone ("/p" +:+ String newline "/q") (rs_host, rs_branch)).2.
  split; [exact rs_add_runs|].
  apply (line_break_splits_tombstone "/p" "/q" (rs_host, rs_branch) _ rs_settled
           (proj1 rs_names) (proj2 rs_names) eq_refl eq_refl rs_fresh rs_add_runs).
Defined.
