(* ===== verification/Restart.v ===== *)
(** * Restarting the daemon

    [Branch::load] reads a branch back from its store directory.  What it finds
    there is what the branch held when it was last written: its metadata, and
    the tombstones its snapshot and log replay to - also when the load moves the
    snapshot of an older version into the log first. *)

From stdpp Require Import sorting.
From S2P Require Import Prelude Strs HostFs TextMerge Branch Codec View Frame BranchLaws TombLog.

Section Restart.
Context {E : Env} {L : EnvLaws E} {J : Serde} {JL : SerdeLaws J}.

(** Only the two tombstone files matter. *)
Lemma synced_ext h h' b b' :
  synced (h, b) -> branch_dir b' = branch_dir b -> tombstones b' = tombstones b ->
  look (h_tree h') (tombstones_file (branch_dir b)) = look (h_tree h) (tombstones_file (branch_dir b)) ->
  look (h_tree h') (tombstones_log_file (branch_dir b)) = look (h_tree h) (tombstones_log_file (branch_dir b)) ->
  synced (h', b').
Proof.
  intros [(snap & ls & H1 & H2 & H3 & H4 & H5)] Hd Ht Hs Hl. simpl in *. split. exists snap, ls. simpl.
  rewrite Hd, Ht, Hs, Hl. done.
Qed.

(** Writing a file through a temporary sibling. *)
Lemma replace_look d c u data h h' :
  wf_host h -> c <> "" ->
  not_link (h_tree h) (d ++ [c +:+ ".tmp." +:+ u]) ->
  (do* write (d ++ [c +:+ ".tmp." +:+ u]) data; rename (d ++ [c +:+ ".tmp." +:+ u]) (d ++ [c])) h = (Ok tt, h') ->
  look (h_tree h') (d ++ [c]) = Some (KFile data)
  /\ forall x, x <> c -> x <> c +:+ ".tmp." +:+ u -> look (h_tree h') (d ++ [x]) = look (h_tree h) (d ++ [x]).
Proof.
  intros Hwf Hc Hl H. set (t := c +:+ ".tmp." +:+ u) in *.
  assert (t <> c) as Htc.
  { intros Ht. apply (f_equal (fun s => length (bytes_of s))) in Ht. unfold t in Ht.
    rewrite !bytes_of_app, !length_app in Ht. simpl in Ht. lia. }
  apply bind_ok in H as ([] & h1 & Hw & Hr). pose proof (write_wf (d ++ [t]) data h) as Hwf1.
  rewrite Hw in Hwf1. specialize (Hwf1 Hwf). simpl in Hwf1.
  apply write_look in Hw as [Hwo Hwn]; [|done].
  apply rename_look in Hr as (_ & _ & [Heq|[_ Hr]] & _); [by apply app_inj_tail in Heq as [_ ?]| |done].
  split.
  - rewrite Hr. assert (strip (d ++ [c]) (d ++ [c]) = Some []) as ->; [|by rewrite app_nil_r].
    apply strip_Some. by rewrite app_nil_r.
  - intros x Hxc Hxt. rewrite Hr. destruct (strip (d ++ [c]) (d ++ [x])) as [s|] eqn:Hs.
    + apply strip_Some in Hs. rewrite <- app_assoc in Hs. apply app_inv_head in Hs. by simplify_eq/=.
    + destruct (under (d ++ [t]) (d ++ [x])) eqn:Hu.
      * apply under_true in Hu as [s Hu]. rewrite <- app_assoc in Hu. apply app_inv_head in Hu. by simplify_eq/=.
      * apply Hwo. intros Heq%app_inj_tail. by destruct Heq.
Qed.

Lemma replace_run d c data h h' :
  store_ok d h -> c <> "" -> contains_char "." c = true ->
  (do* ensure_parent_dirs (d ++ [c]);
   let* tmp := tmp_name (d ++ [c]) in
   do* write tmp data;
   rename tmp (d ++ [c])) h = (Ok tt, h') ->
  store_ok d h' /\ look (h_tree h') (d ++ [c]) = Some (KFile data)
  /\ forall x, x <> c -> (forall u, x <> c +:+ ".tmp." +:+ u) ->
       look (h_tree h') (d ++ [x]) = look (h_tree h) (d ++ [x]).
Proof.
  intros Hok Hc Hdot H. apply bind_ok in H as ([] & h1 & H1 & H).
  pose proof (ensure_parent_look _ _ _ _ _ H1) as Hsame.
  pose proof (ensure_store_dir_in d c h Hok) as Hok1. rewrite H1 in Hok1. destruct Hok1 as [Hok1 _]. simpl in Hok1.
  unfold tmp_name in H. rewrite bind_assoc in H. apply bind_ok in H as (u & h2 & Hu & H).
  pose proof (fresh_uuid_in d (book d) h1 Hok1) as Hok2. rewrite Hu in Hok2. destruct Hok2 as [Hok2 _].
  assert (h_tree h2 = h_tree h1) as Ht by (unfold fresh_uuid in Hu; by simplify_eq/=). simpl in Hok2.
  unfold ret at 1, bind at 1 in H. rewrite file_name_snoc in H.
  pose proof (replace_in d c data u Hc Hdot h2 Hok2) as Hin. rewrite H in Hin. destruct Hin as [Hok3 _].
  unfold with_file_name in H. rewrite parent_snoc in H.
  apply replace_look in H as [H3 H4]; [|by apply Hok2|done|].
  - split; [done|]. split; [done|]. intros x Hx Hu'. by rewrite H4, Ht, Hsame.
  - apply (so_plain _ _ Hok2), book_file; intros Heq; apply (f_equal (contains_char ".")) in Heq;
      by rewrite contains_char_app, Hdot in Heq.
Qed.

(** ** Steps that leave the tombstone files alone *)

Section Beside.
Variable d : path.

Definition beside (q : path) : Prop :=
  exists c s, q = d ++ c :: s /\ c <> "tombstones" /\ c <> "tombstones.log".

Lemma beside_file c s : c <> "tombstones" -> c <> "tombstones.log" -> beside (d ++ c :: s).
Proof. intros. by exists c, s. Qed.
Lemma beside_under c s q : c <> "tombstones" -> c <> "tombstones.log" -> under (d ++ c :: s) q = true -> beside q.
Proof. intros ? ? (r & ->)%under_true. rewrite <- app_assoc. by apply beside_file. Qed.

Lemma beside_look h h' :
  step_in d beside h h' -> store_ok d h ->
  store_ok d h' /\ look (h_tree h') (tombstones_file d) = look (h_tree h) (tombstones_file d)
  /\ look (h_tree h') (tombstones_log_file d) = look (h_tree h) (tombstones_log_file d).
Proof.
  intros Hs Hok. destruct (Hs Hok) as [H1 H2]. split; [done|].
  split; apply H2; intros (c & s & Heq & ? & ?); apply app_inv_head in Heq; by simplify_eq/=.
Qed.

Lemma make_dir_beside c : c <> "tombstones" -> c <> "tombstones.log" ->
  keeps (step_in d beside) (create_dir_all (d ++ [c])).
Proof.
  intros H1 H2. apply create_dir_all_in; [apply under_app|]. intros q Hq (s & ->)%under_true Hne.
  destruct Hq as [r Hr]. rewrite <- app_assoc in Hr. apply app_inv_head in Hr.
  destruct s as [|z s]; [by rewrite app_nil_r in Hne|]. simplify_eq/=. by apply beside_file.
Qed.

Lemma install_touches_beside data :
  keeps (step_in d beside) (install_migrated (touches_log_file d) data).
Proof.
  unfold install_migrated. apply keeps_bind; [apply _|by keeps_auto|]. intros e.
  apply keeps_bind; [apply _|by keeps_auto|]. intros old.
  apply keeps_bind; [apply _| |].
  { unfold ensure_parent_dirs, touches_log_file. destruct (d ++ ["touches.log"]) as [|x q] eqn:Hq; [by destruct d|].
    rewrite <- Hq, parent_snoc. apply create_dir_all_in; [apply under_refl|].
    intros q' H1 H2 Hq'. destruct Hq'. apply under_antisym; [|done]. by apply under_prefix. }
  intros _. apply tmp_name_in. intros u. unfold touches_log_file. rewrite file_name_snoc.
  unfold with_file_name. rewrite parent_snoc.
  apply keeps_bind; [apply _| |intros _].
  - apply write_in; [by apply book_file|by apply beside_file].
  - apply rename_in; try apply under_app; try (by apply book_ne, book_file).
    + intros q. by apply beside_under.
    + intros q. by apply beside_under.
    + intros _. by apply book_file.
Qed.

Lemma migrate_touches_beside :
  keeps (step_in d beside) (migrate_legacy_touches (touches_file d) (touches_log_file d)).
Proof.
  unfold migrate_legacy_touches.
  assert (forall p, keeps (step_in d beside) (json (dec_touches p))) by (intros p; unfold json; keeps_auto).
  pose proof install_touches_beside. keeps_auto.
  apply write_in; [by apply book_file|by apply beside_file].
Qed.
End Beside.

(** ** Moving an old snapshot into the log *)

Lemma elem_of_dedup l x : x ∈ dedup l <-> x ∈ l.
Proof.
  induction l as [|a l IH]; [done|]. destruct l as [|b l]; [done|]. cbn [dedup].
  case_bool_decide as Hab; [subst; rewrite IH; set_solver|]. rewrite !elem_of_cons, IH. set_solver.
Qed.

Lemma elem_of_sorted l x : x ∈ dedup (sort_strings l) <-> x ∈ l.
Proof. rewrite elem_of_dedup. unfold sort_strings. by rewrite merge_sort_Permutation. Qed.

Definition keep_line (ps : list string) (line : string) : list string := if blank line then ps else ps ++ [line].

Lemma foldl_keep_line ps ls : foldl keep_line ps ls = ps ++ List.filter (fun l => negb (blank l)) ls.
Proof.
  revert ps. induction ls as [|l ls IH]; intros ps; simpl; [by rewrite app_nil_r|]. rewrite IH. unfold keep_line.
  destruct (blank l); simpl; [done|]. by rewrite <- app_assoc.
Qed.
Lemma foldl_add_filter T ls :
  foldl add_line T ls = T ∪ list_to_set (List.filter (fun l => negb (blank l)) ls).
Proof.
  revert T. induction ls as [|l ls IH]; intros T; simpl; [set_solver|]. rewrite IH. unfold add_line.
  destruct (blank l); simpl; set_solver.
Qed.
Lemma foldl_replay_adds T ls :
  foldl replay_tombstone T (map (log_line "+") ls) = T ∪ list_to_set ls.
Proof.
  revert T. induction ls as [|l ls IH]; intros T; simpl; [set_solver|]. rewrite IH, replay_add. set_solver.
Qed.

Lemma install_look d data ls h h' :
  store_ok d h ->
  look (h_tree h) (tombstones_log_file d) = Some (KFile (log_bytes ls))
  \/ (look (h_tree h) (tombstones_log_file d) = None /\ ls = []) ->
  install_migrated (tombstones_log_file d) data h = (Ok tt, h') ->
  store_ok d h' /\ look (h_tree h') (tombstones_file d) = look (h_tree h) (tombstones_file d)
  /\ look (h_tree h') (tombstones_log_file d) = Some (KFile (data ++ log_bytes ls)).
Proof.
  intros Hok Hlog H. unfold install_migrated in H.
  assert (exists e, exists_ (tombstones_log_file d) h = (Ok e, h)
    /\ (if e then read (tombstones_log_file d) else ret []) h = (Ok (log_bytes ls), h)) as (e & He & Hr).
  { destruct Hlog as [Hl|[Hl ->]].
    - exists true. split; [by eapply exists_file|by apply read_file_eq].
    - exists false. split; [by apply exists_none|done]. }
  rewrite (bind_step _ _ _ _ _ He), (bind_step _ _ _ _ _ Hr) in H.
  apply (replace_run d "tombstones.log") in H as (H1 & H2 & H3); [|done..].
  split; [done|]. split; [by apply H3|done].
Qed.

Lemma migrate_tombstones_synced h b h' :
  store_ok (branch_dir b) h -> synced (h, b) ->
  migrate_legacy_tombstones (tombstones_file (branch_dir b)) (tombstones_log_file (branch_dir b)) h = (Ok tt, h') ->
  store_ok (branch_dir b) h' /\ synced (h', b).
Proof.
  intros Hok Hs H. pose proof Hs as [(snap & ls & H1 & H2 & H3 & H4 & H5)]. simpl in *.
  unfold migrate_legacy_tombstones in H. rewrite (bind_step _ _ _ _ _ (exists_file _ _ _ H3)) in H. cbn [negb] in H.
  rewrite (bind_step _ _ _ _ _ (load_lines_eq _ _ _ keep_line [] H1 (or_introl H3))) in H.
  rewrite foldl_keep_line in H. cbn [app] in H. set (ps := List.filter _ snap) in *.
  destruct ps as [|p0 ps'] eqn:Hps; [by injection H as <-|]. rewrite <- Hps in *. clear p0 ps' Hps.
  apply bind_ok in H as ([] & h1 & Hi & Hw).
  apply (install_look _ _ ls) in Hi as (Hok1 & Hsnap & Hlog); [|done|done].
  pose proof (write_in _ (book (branch_dir b)) (tombstones_file (branch_dir b)) [] ltac:(by apply book_file)
                ltac:(by apply book_file) h1 Hok1) as Hok2.
  rewrite Hw in Hok2. destruct Hok2 as [Hok2 _]. simpl in Hok2.
  apply write_look in Hw as [Hwo Hwn]; [|apply (so_plain _ _ Hok1); by apply book_file].
  split; [done|]. split. exists [], (map (log_line "+") (dedup (sort_strings ps)) ++ ls). cbn [fst snd].
  assert (forall t, t ∈ ps -> clean t) as Hclean.
  { intros t Ht. apply list_elem_of_In, filter_In in Ht as [Ht _]. apply list_elem_of_In in Ht.
    rewrite Forall_forall in H1. by apply H1. }
  split; [done|]. split; [|split; [done|split]].
  - apply Forall_app_2; [|done]. apply Forall_forall. intros t (p & -> & Hp)%list_elem_of_fmap.
    rewrite elem_of_sorted in Hp. apply clean_log_line; [by auto|by apply Hclean].
  - left. rewrite Hwo by (intros Heq%app_inj_tail; by destruct Heq). rewrite Hlog. f_equal. f_equal.
    unfold log_bytes. by rewrite map_app, concat_app, map_map.
  - rewrite foldl_app, foldl_replay_adds. simpl. rewrite <- H5. f_equal.
    rewrite foldl_add_filter. fold ps. f_equal. apply set_eq. intros x.
    by rewrite !elem_of_list_to_set, elem_of_sorted.
Qed.

(** ** Metadata *)

Lemma write_metadata_look h b s' :
  store_ok (branch_dir b) h -> write_metadata (h, b) = (Ok tt, s') ->
  s'.2 = b /\ store_ok (branch_dir b) s'.1
  /\ look (h_tree s'.1) (meta_file (branch_dir b)) = Some (KFile (enc_meta (metadata_of b)))
  /\ look (h_tree s'.1) (tombstones_file (branch_dir b)) = look (h_tree h) (tombstones_file (branch_dir b))
  /\ look (h_tree s'.1) (tombstones_log_file (branch_dir b)) = look (h_tree h) (tombstones_log_file (branch_dir b)).
Proof.
  intros Hok H. unfold write_metadata in H. rewrite (bind_step _ _ _ b (h, b)) in H by done. unfold on_host, zoom in H. cbn [fst snd] in H.
  match type of H with (let '(_, _) := ?c in _) = _ => destruct c as [r h3] eqn:Hr end. injection H as -> <-.
  simpl in *. split; [done|]. apply (replace_run _ "meta.json") in Hr as (H1 & H2 & H3); [|done..].
  split; [done|]. split; [done|]. split; by apply H3.
Qed.

(** ** Loading *)

Lemma make_dirs_beside d h data h' :
  store_ok d h -> look (h_tree h) (tombstones_file d) = Some (KFile data) ->
  make_store_dirs d h = (Ok tt, h') -> step_in d (beside d) h h'.
Proof.
  intros Hok Hdata H. unfold make_store_dirs in H.
  assert (forall c h0 h1, c <> "tombstones" -> c <> "tombstones.log" ->
            create_dir_all (d ++ [c]) h0 = (Ok tt, h1) -> step_in d (beside d) h0 h1) as Hdir.
  { intros c h0 h1 Hc1 Hc2 Hr. pose proof (make_dir_beside d c Hc1 Hc2 h0) as Hs. by rewrite Hr in Hs. }
  apply bind_ok in H as ([] & h1 & H1%Hdir & H); [|done..].
  apply bind_ok in H as ([] & h2 & H2%Hdir & H); [|done..].
  apply bind_ok in H as ([] & h3 & H3%Hdir & H); [|done..].
  apply bind_ok in H as ([] & h4 & H4%Hdir & H); [|done..].
  assert (step_in d (beside d) h h4) as Hs by (do 3 (etransitivity; [eassumption|]); done).
  destruct (beside_look _ _ _ Hs Hok) as (_ & Hl & _).
  rewrite (bind_step _ _ _ true h4) in H by (by eapply exists_file; rewrite Hl). by injection H as <-.
Qed.

Lemma load_restores storage_path n h b b' h' :
  branch_dir b = branch_dir_of storage_path n -> store_ok (branch_dir b) h -> synced (h, b) ->
  look (h_tree h) (meta_file (branch_dir b)) = Some (KFile (enc_meta (metadata_of b))) ->
  load storage_path n h = (Ok b', h') ->
  metadata_of b' = metadata_of b /\ branch_dir b' = branch_dir b /\ tombstones b' = tombstones b.
Proof.
  intros Hd Hok Hs Hm H. unfold load in H. rewrite <- Hd in H.
  rewrite (bind_step _ _ _ (string_of (enc_meta (metadata_of b))) h) in H.
  2:{ unfold read_to_string. rewrite (bind_step _ _ _ _ _ (read_file_eq _ _ _ Hm)). by rewrite enc_meta_utf8. }
  rewrite dec_enc_meta in H. rewrite (bind_step _ _ _ (metadata_of b) h) in H by done.
  apply bind_ok in H as ([] & h1 & H1 & H).
  assert (exists data, look (h_tree h) (tombstones_file (branch_dir b)) = Some (KFile data)) as [data Hdata].
  { destruct Hs as [(snap & ls & _ & _ & Hx & _)]. by eexists. }
  apply (make_dirs_beside _ _ data) in H1; [|done..].
  apply beside_look in H1 as (Hok1 & Hx1 & Hy1); [|done].
  assert (synced (h1, b)) as Hs1 by by apply (synced_ext h h1 b b).
  apply bind_ok in H as ([] & h2 & H2 & H). unfold migrate_legacy_touch_and_tombstone_snapshots in H2.
  apply bind_ok in H2 as ([] & h3 & H3 & H2).
  pose proof (migrate_touches_beside (branch_dir b) h1) as Hb. rewrite H3 in Hb.
  apply beside_look in Hb as (Hok3 & Hx3 & Hy3); [|done].
  assert (synced (h3, b)) as Hs3 by by apply (synced_ext h1 h3 b b).
  apply migrate_tombstones_synced in H2 as [Hok2 Hs2]; [|done..].
  pose proof Hs2 as [(snap & ls & T1 & T2 & T3 & T4 & T5)]. simpl in T3, T4, T5.
  rewrite (bind_step _ _ _ _ _ (load_synced_files _ _ _ _ T1 T2 T3 T4)), T5 in H.
  apply bind_ok in H as (m & h4 & _ & H). injection H as <- _. done.
Qed.

Lemma run_op_bstep d o : keeps (bstep d (book d)) (run_op o).
Proof.
  destruct o; simpl; [apply add_tombstone_bstep|apply remove_tombstone_bstep
                     |apply remove_tombstones_under_bstep|apply set_tombstones_bstep].
Qed.

(** What a branch does between two restarts: tombstone operations, and the
    metadata written at the end. *)
Definition session (ops : list tomb_op) : BIO unit := do* for_each ops run_op; write_metadata.

(** C28: a branch survives a restart.  Starting from a settled branch, any
    sequence of tombstone operations on names that fit on a line, ended by the
    metadata being written, is followed by a [Branch::load] that - unless the
    host reports an error - returns a branch with the same name, parent, mode,
    state, counters and hide rules, and with exactly the tombstones it had. *)
Theorem restart_restores_branch storage_path ops h b s2 b' h' :
  branch_dir b = branch_dir_of storage_path (name b) ->
  store_ok (branch_dir b) h -> settled (h, b) -> Forall safe_op ops ->
  session ops (h, b) = (Ok tt, s2) ->
  load storage_path (name b) s2.1 = (Ok b', h') ->
  metadata_of b' = metadata_of s2.2 /\ tombstones b' = tombstones s2.2.
Proof.
  intros Hd Hok Hs Hops H H3. apply bind_ok in H as ([] & s1 & H1 & H2).
  assert (bstep (branch_dir b) (book (branch_dir b)) (h, b) s1) as Hb.
  { assert (keeps (bstep (branch_dir b) (book (branch_dir b))) (for_each ops run_op)) as Hk.
    { apply keeps_for_each; [apply _|]. intros o _. apply run_op_bstep. }
    specialize (Hk (h, b)). by rewrite H1 in Hk. }
  destruct (Hb eq_refl) as [[_ _ Hdir _ _ _] Hin]. destruct (Hin Hok) as [Hok1 _]. simpl in *.
  apply run_ops_settled in H1 as [Hs1 _]; [|done..]. destruct s1 as [h1 b1]. simpl in *. rewrite <- Hdir in Hok1, Hd.
  apply write_metadata_look in H2 as (Hb2 & Hok2 & Hm & Ht & Hl); [|done].
  destruct s2 as [h2 b2]. simpl in *. subst b2.
  apply (load_restores _ _ _ b1) in H3 as (H3 & _ & H4); [done|done|done| |done].
  by apply (synced_ext h1 h2 b1 b1).
Qed.
End Restart.

(** ** A run *)

Definition rs_ops : list tomb_op :=
  [TAdd "/a"; TAdd "/d/b"; TSet {["/c"]}; TAdd "/d/x"; TRemoveUnder "/c"; TAdd "/f"; TRemove "/f"].
Definition rs_2 := @session example_env example_serde rs_ops (rs_host, rs_branch).
Definition rs_3 := @load example_env example_serde ["store"] "w" rs_2.2.1.

Lemma rs_runs : rs_2.1 = Ok tt /\ is_ok rs_3.1 = true /\ tombstones rs_2.2.2 = {["/d/x"]}.
Proof. by vm_compute. Qed.
Lemma rs_loaded : exists b' h', @load example_env example_serde ["store"] (name rs_branch) rs_2.2.1 = (Ok b', h').
Proof.
  destruct rs_dir as [_ ->]. destruct rs_runs as (_ & R3 & _). revert R3. unfold rs_3.
  destruct (load _ _ _) as [[b'|x] h']; [by exists b', h'|intros H; discriminate H].
Qed.
Lemma rs_safe : Forall safe_op rs_ops.
Proof.
  assert (forall p, p ∈ ["/a"; "/d/b"; "/c"; "/d/x"; "/f"] -> log_safe p) as H.
  { intros p Hp. repeat (apply elem_of_cons in Hp as [->|Hp]; [by apply log_safe_intro; vm_compute|]).
    by apply not_elem_of_nil in Hp. }
  repeat constructor; try (apply H; set_solver).
Qed.

Lemma restart_restores_branch_witness :
  exists s2 b' h',
    @session example_env example_serde rs_ops (rs_host, rs_branch) = (Ok tt, s2)
    /\ @load example_env example_serde ["store"] (name rs_branch) s2.1 = (Ok b', h')
    /\ (metadata_of b' = metadata_of s2.2 /\ tombstones b' = tombstones s2.2) /\ tombstones s2.2 = {["/d/x"]}.
Proof.
  destruct rs_runs as (R2 & _ & RT). destruct rs_dir as [Rd _]. apply run_ok in R2.
  destruct rs_loaded as (b' & h' & R4).
  exists rs_2.2, b', h'. split; [exact R2|]. split; [exact R4|]. split; [|exact RT].
  exact (restart_restores_branch (E:=example_env) (J:=example_serde) ["store"] rs_ops rs_host rs_branch
           rs_2.2 b' h' Rd rs_store_ok rs_settled rs_safe R2 R4).
Defined.
