(* ===== verification/WalkSpec.v ===== *)
(** * Walking a delta

    [walk_files] ends with the budget the commit gives it, changes nothing but
    permission bits it restores, and lists every file, link or other entry that is no
    directory exactly once, under the path it has in the branch. *)

From S2P Require Import Prelude Strs HostFs Staged Quota TextMerge Branch View Manager Commit Frame.

(** What lies below [dir] and is no directory; [s] is its path from there. *)
Definition leaf_at (t : tree) (dir s : path) : Prop :=
  s <> [] /\ exists k, look t (dir ++ s) = Some k /\ k <> KDir.

Record walked (t : tree) (dir : path) (prefix : string) (out : list (string * path)) : Prop := {
  wk_in : forall f, f ∈ out <-> exists s, f = (prefix +:+ show_rel s, dir ++ s) /\ leaf_at t dir s;
  wk_nodup : NoDup out.*2;
}.

Lemma walked_same t t' dir prefix out :
  (forall q, look t' q = look t q) -> walked t dir prefix out -> walked t' dir prefix out.
Proof.
  intros Hl [Hi Hn]. split; [|done]. intros f. rewrite Hi.
  by split; intros (s & -> & Hs & k & Hk & Hd); exists s; (split; [done|]); (split; [done|]); exists k;
    rewrite ?Hl in *.
Qed.

(** The entries of a tree are no deeper than [n]. *)
Definition shallow (t : tree) (n : nat) : Prop := forall p, is_Some (t !! p) -> length p < n.

Lemma shallow_same t t' n : (forall q, look t' q = look t q) -> shallow t n -> shallow t' n.
Proof. intros Hl Hs p Hp. apply Hs. apply look_is_Some. rewrite <- Hl. by apply look_is_Some. Qed.

(** A path of length [k] needs [k + 1] entries. *)
Lemma wf_shallow t : wf_tree t -> shallow t (size t).
Proof.
  intros Hwf p Hp. set (ps := map (fun k => take k p) (seq 0 (S (length p)))).
  assert (NoDup ps) as Hnd.
  { apply NoDup_fmap_2_strong; [|apply NoDup_seq]. intros x y Hx Hy Heq.
    apply elem_of_seq in Hx, Hy. apply (f_equal length) in Heq. rewrite !length_take in Heq. lia. }
  assert (ps ⊆ elements (dom t)) as Hsub.
  { intros q (k & -> & Hk)%list_elem_of_fmap. apply elem_of_elements, elem_of_dom.
    rewrite <- (take_drop k p) in Hp. destruct (drop k p) as [|c s] eqn:Hd.
    - by rewrite app_nil_r in Hp.
    - apply look_is_Some. rewrite (wf_below t (take k p) (c :: s)); [by eexists|done..]. }
  pose proof (NoDup_submseteq _ _ Hnd Hsub) as Hle%submseteq_length.
  unfold ps in Hle. rewrite length_map, length_seq in Hle.
  change (length (elements (dom t))) with (size (dom t)) in Hle. rewrite size_dom in Hle. lia.
Qed.

Section Walk.
Context {E : Env} {EL : EnvLaws E}.

Lemma add_owner_ok p h :
  look (h_tree h) p = Some KDir -> exists m h1, add_owner_rwx_if_dir p h = (Ok m, h1) /\ same_look h h1.
Proof.
  intros Hd. unfold add_owner_rwx_if_dir, set_permissions, symlink_metadata, real_path, get_tree.
  assert (follow max_links (h_tree h) p = Ok (p, max_links)) as Hf.
  { apply follow_plain. intros target. congruence. }
  unfold look in Hd. destruct (h_tree h !! p) as [n|] eqn:Hn; [|done]. injection Hd as Hd.
  unfold bind, gets, ret, is_dir. rewrite Hn, Hd. cbn. case_bool_decide; [by eexists _, _|].
  rewrite Hf, Hn. unfold modify. eexists _, _. split; [done|]. intros q. cbn. apply look_alter_mode.
Qed.

(** A guard on a directory that is there: the body runs on the same contents. *)
Lemma with_guard_ok {A} p h (body : IO A) (Q : A -> Prop) :
  look (h_tree h) p = Some KDir ->
  (forall h1, same_look h h1 -> exists a h2, body h1 = (Ok a, h2) /\ same_look h1 h2 /\ Q a) ->
  exists a h', with_guard p body h = (Ok a, h') /\ same_look h h' /\ Q a.
Proof.
  intros Hd Hb. unfold with_guard.
  assert (exists g h1, guard_new p h = (Ok g, h1)) as (g & h1 & Hg).
  { destruct (add_owner_ok p h Hd) as (m & h1 & Hm & _). unfold guard_new. rewrite (bind_step _ _ _ _ _ Hm). by eexists _, _. }
  rewrite (bind_step _ _ _ _ _ Hg). pose proof (guard_new_same p h) as H1. rewrite Hg in H1. simpl in H1.
  destruct (Hb h1 H1) as (a & h2 & Hr & H2 & HQ).
  rewrite (bind_step _ _ _ (Ok a) h2) by (unfold attempt; by rewrite Hr).
  pose proof (guard_drop_same g h2) as H3.
  assert (exists h3, guard_drop g h2 = (Ok tt, h3)) as [h3 Hd3].
  { unfold guard_drop. destruct (original_mode g); [|by eexists]. unfold bind, attempt, ret.
    unfold set_permissions, symlink_metadata, real_path, get_tree, io_error, throw, raise, modify, gets, bind, ret.
    repeat (case_match; simplify_eq/=; eauto). }
  rewrite Hd3 in H3. rewrite (bind_step _ _ _ _ _ Hd3). exists a, h3. split; [done|]. split; [|done].
  etransitivity; [exact H1|]. by etransitivity.
Qed.

Lemma read_dir_eq p h :
  look (h_tree h) p = Some KDir -> read_dir p h = (Ok (set_order (children (h_tree h) p)), h).
Proof.
  intros Hd. unfold read_dir. rewrite (bind_step _ _ _ p h).
  2:{ apply real_path_plain. intros target. congruence. }
  unfold symlink_metadata, get_tree, gets, bind, ret. unfold look in Hd.
  destruct (h_tree h !! p) as [n|]; [|done]. injection Hd as Hd. unfold is_dir. by rewrite Hd.
Qed.

(** One name of a directory. *)
Definition walk_step (f : nat) (dir : path) (prefix : string) (out : list (string * path)) (n : string) :
    IO (list (string * path)) :=
  let p := dir ++ [n] in
  let rel := walk_child prefix n in
  let* m := attempt (symlink_metadata p) in
  if match m with Ok m => is_dir m | Err _ => false end then
    let* sub := walk_files f p rel in
    ret (out ++ sub)
  else ret (out ++ [(rel, p)]).

Lemma walk_child_eq prefix c : walk_child prefix c = prefix +:+ show_rel [c].
Proof. unfold walk_child. case_bool_decide as Hp; [subst|]; simpl; by rewrite app_nil_r_str. Qed.
Lemma walk_child_show prefix c s : walk_child prefix c +:+ show_rel s = prefix +:+ show_rel (c :: s).
Proof. rewrite walk_child_eq, app_assoc_str. f_equal. simpl. by rewrite app_nil_r_str. Qed.

(** The entries of the walk that lie below the child [c]. *)
Record chunk (t : tree) (dir : path) (prefix c : string) (out : list (string * path)) : Prop := {
  ck_in : forall f, f ∈ out <-> exists s, f = (prefix +:+ show_rel (c :: s), dir ++ c :: s) /\ leaf_at t dir (c :: s);
  ck_nodup : NoDup out.*2;
}.

Lemma walk_step_ok f dir prefix out c h h1 :
  wf_host h -> same_look h h1 -> is_Some (look (h_tree h) (dir ++ [c])) ->
  (look (h_tree h) (dir ++ [c]) = Some KDir -> exists sub h2,
     walk_files f (dir ++ [c]) (walk_child prefix c) h1 = (Ok sub, h2) /\ same_look h1 h2
     /\ walked (h_tree h) (dir ++ [c]) (walk_child prefix c) sub) ->
  exists ck h2, walk_step f dir prefix out c h1 = (Ok (out ++ ck), h2) /\ same_look h1 h2 /\ chunk (h_tree h) dir prefix c ck.
Proof.
  intros Hwf Hs [k Hk] Hsub. unfold walk_step.
  assert (exists n, h_tree h1 !! (dir ++ [c]) = Some n /\ n_kind n = k) as (n & Hn & Hnk).
  { rewrite <- (Hs (dir ++ [c])) in Hk. unfold look in Hk. destruct (h_tree h1 !! _) as [n|]; [|done].
    injection Hk as <-. by eexists. }
  rewrite (bind_step _ _ _ (Ok n) h1).
  2:{ unfold attempt, symlink_metadata, get_tree, gets, bind. by rewrite Hn. }
  destruct (is_dir n) eqn:Hd.
  - assert (k = KDir) as -> by (unfold is_dir in Hd; subst; by destruct (n_kind n)).
    destruct (Hsub Hk) as (sub & h2 & Hw & H2 & [Hin Hnd]). exists sub, h2.
    rewrite (bind_step _ _ _ _ _ Hw). split; [done|]. split; [done|]. split; [|done]. intros x. rewrite Hin. split.
    + intros (s & -> & Hne & kk & Hkk & Hkd). exists s. rewrite walk_child_show, <- app_assoc. split; [done|].
      split; [done|]. exists kk. rewrite <- app_assoc in Hkk. done.
    + intros (s & -> & _ & kk & Hkk & Hkd). exists s. rewrite walk_child_show, <- app_assoc. split; [done|].
      split; [|exists kk; by rewrite <- app_assoc]. intros ->. congruence.
  - assert (k <> KDir) as Hkd by (unfold is_dir in Hd; intros ->; by rewrite Hnk in Hd).
    exists [(walk_child prefix c, dir ++ [c])], h1. split; [done|]. split; [done|].
    split; [|apply NoDup_singleton]. intros x. rewrite list_elem_of_singleton. split.
    + intros ->. exists []. rewrite walk_child_eq. split; [done|]. split; [done|]. by exists k.
    + intros (s & -> & _ & kk & Hkk & Hkd'). destruct s as [|d s]; [by rewrite walk_child_eq|].
      exfalso. assert (dir ++ c :: d :: s = (dir ++ [c]) ++ d :: s) as Heq by by rewrite <- app_assoc.
      pose proof (wf_nondir_leaf _ _ _ (d :: s) Hwf Hk Hkd ltac:(done)) as H0. apply look_None in H0. congruence.
Qed.

Lemma walk_names_ok f dir prefix h names out h1 :
  wf_host h -> same_look h h1 -> NoDup names ->
  (forall c, c ∈ names -> is_Some (look (h_tree h) (dir ++ [c]))) ->
  (forall c h2, c ∈ names -> same_look h h2 -> look (h_tree h) (dir ++ [c]) = Some KDir -> exists sub h3,
     walk_files f (dir ++ [c]) (walk_child prefix c) h2 = (Ok sub, h3) /\ same_look h2 h3
     /\ walked (h_tree h) (dir ++ [c]) (walk_child prefix c) sub) ->
  exists more h2, fold_m (walk_step f dir prefix) out names h1 = (Ok (out ++ more), h2) /\ same_look h1 h2
    /\ (forall x, x ∈ more <-> exists c s, c ∈ names /\ x = (prefix +:+ show_rel (c :: s), dir ++ c :: s)
                                    /\ leaf_at (h_tree h) dir (c :: s))
    /\ NoDup more.*2.
Proof.
  intros Hwf Hs Hnd Hin Hsub. revert out h1 Hs. induction Hnd as [|c names Hc Hnd IH]; intros out h1 Hs.
  - exists [], h1. simpl. rewrite app_nil_r. split; [done|]. split; [done|]. split; [|constructor].
    intros x. split; [by intros ?%not_elem_of_nil|]. by intros (c & s & ?%not_elem_of_nil & _).
  - destruct (walk_step_ok f dir prefix out c h h1 Hwf Hs) as (ck & h2 & Hw & H2 & [Hck Hckn]).
    { apply Hin. by left. }
    { intros Hd. apply Hsub; [by left|done|done]. }
    assert (same_look h h2) as Hs2 by by etransitivity.
    destruct (IH ltac:(intros; apply Hin; by right) ltac:(intros; apply Hsub; [by right|done..]) (out ++ ck) h2 Hs2)
      as (more & h3 & Hf & H3 & Hm & Hmn).
    exists (ck ++ more), h3. simpl. rewrite (bind_step _ _ _ _ _ Hw), Hf, app_assoc. split; [done|].
    split; [by etransitivity|]. split.
    + intros x. rewrite elem_of_app, Hck, Hm. split.
      * intros [(s & -> & Hl)|(d & s & Hd & -> & Hl)]; [exists c, s|exists d, s]; (split; [by constructor|done]).
      * intros (d & s & [->|Hd]%elem_of_cons & -> & Hl); [left; by exists s|right; by exists d, s].
    + rewrite fmap_app. apply NoDup_app. split; [done|]. split; [|done].
      intros p ([? ?] & -> & Hx1)%list_elem_of_fmap ([? ?] & Heq & Hx2)%list_elem_of_fmap.
      apply Hck in Hx1 as (s1 & ? & _). apply Hm in Hx2 as (d & s2 & Hd & ? & _). by simplify_eq/=.
Qed.

Lemma walk_files_ok n f dir prefix h :
  wf_host h -> shallow (h_tree h) n -> n <= length dir + f -> look (h_tree h) dir = Some KDir ->
  exists out h', walk_files f dir prefix h = (Ok out, h') /\ same_look h h' /\ walked (h_tree h) dir prefix out.
Proof.
  revert dir prefix h. induction f as [|f IH]; intros dir prefix h Hwf Hsh Hn Hd.
  { assert (length dir < n) by (apply Hsh, look_is_Some; by rewrite Hd). lia. }
  simpl. rewrite (bind_step _ _ _ (Ok (default (Node KDir 0 0 (Stamp 0 0 0 0)) (h_tree h !! dir))) h).
  2:{ unfold attempt, symlink_metadata, get_tree, gets, bind. unfold look in Hd. by destruct (h_tree h !! dir). }
  assert (is_dir (default (Node KDir 0 0 (Stamp 0 0 0 0)) (h_tree h !! dir)) = true) as ->.
  { unfold look in Hd. destruct (h_tree h !! dir) as [[]|]; [|done]. simpl in *. by injection Hd as ->. }
  cbn [negb]. apply with_guard_ok; [done|]. intros h1 H1.
  assert (look (h_tree h1) dir = Some KDir) as Hd1 by by rewrite H1.
  rewrite (bind_step _ _ _ _ _ (read_dir_eq _ _ Hd1)).
  set (names := set_order (children (h_tree h1) dir)).
  assert (forall c, c ∈ names <-> is_Some (look (h_tree h) (dir ++ [c]))) as Hnames.
  { intros c. unfold names. rewrite set_order_perm, elem_of_elements, elem_of_children.
    rewrite <- look_is_Some. by rewrite H1. }
  assert (NoDup names) as Hnd by (unfold names; rewrite set_order_perm; apply NoDup_elements).
  destruct (walk_names_ok f dir prefix h names [] h1 Hwf H1 Hnd) as (out & h2 & Hf & H2 & Hout & Hon).
  { intros c Hc. by apply Hnames. }
  { intros c h2 Hc H2 Hcd. destruct (IH (dir ++ [c]) (walk_child prefix c) h2) as (sub & h3 & Hw & H3 & Hi).
    - by apply (wf_look_ext (h_tree h)).
    - by apply (shallow_same (h_tree h)).
    - rewrite length_app. simpl. lia.
    - by rewrite H2.
    - exists sub, h3. split; [done|]. split; [done|]. by apply (walked_same (h_tree h2)). }
  exists out, h2. split; [exact Hf|]. split; [done|]. split; [|done]. intros x. rewrite Hout. split.
  - intros (c & s & Hc & -> & Hl). by exists (c :: s).
  - intros (s & -> & Hl). destruct s as [|c s]; [by destruct Hl|]. exists c, s. split; [|done].
    apply Hnames. destruct Hl as (_ & k & Hk & _). destruct s as [|d s]; [by eexists|].
    rewrite (wf_below (h_tree h) (dir ++ [c]) (d :: s)); [by eexists|done|done|].
    apply look_is_Some. rewrite <- app_assoc. by eexists.
Qed.

(** Making a tree removable ends, too, and changes no entry. *)
Lemma make_removable_ok n f p h :
  wf_host h -> shallow (h_tree h) n -> n <= length p + f -> look (h_tree h) p = Some KDir ->
  exists h', make_branch_store_tree_removable f p h = (Ok tt, h') /\ same_look h h'.
Proof.
  revert p h. induction f as [|f IH]; intros p h Hwf Hsh Hn Hd.
  { assert (length p < n) by (apply Hsh, look_is_Some; by rewrite Hd). lia. }
  cbn [make_branch_store_tree_removable]. rewrite (bind_step _ _ _ _ _ (attempt_stat p h)).
  unfold look in Hd. destruct (h_tree h !! p) as [m|] eqn:Hm; [|done]. injection Hd as Hd.
  assert (is_dir m = true) as -> by (unfold is_dir; by rewrite Hd).
  assert (look (h_tree h) p = Some KDir) as Hd' by (unfold look; rewrite Hm; simpl; by rewrite Hd).
  destruct (add_owner_ok p h Hd') as (o & h1 & Ho & H1). rewrite (bind_step _ _ _ _ _ Ho).
  assert (look (h_tree h1) p = Some KDir) as Hd1 by by rewrite H1.
  rewrite (bind_step _ _ _ _ _ (read_dir_eq _ _ Hd1)). generalize (set_order (children (h_tree h1) p)). intros names.
  clear Ho Hd1. revert h1 H1. induction names as [|c names IHn]; intros h1 H1; [by exists h1|].
  cbn [for_each]. assert (exists h2,
    (let* r := attempt (symlink_metadata (p ++ [c])) in
     when (match r with Ok m => is_dir m | Err _ => false end) (make_branch_store_tree_removable f (p ++ [c]))) h1
    = (Ok tt, h2) /\ same_look h1 h2) as (h2 & Hc & H2).
  { rewrite (bind_step _ _ _ _ _ (attempt_stat (p ++ [c]) h1)).
    destruct (h_tree h1 !! (p ++ [c])) as [mc|] eqn:Hmc; [|by exists h1]. destruct (is_dir mc) eqn:Hdc; [|by exists h1].
    cbn [when]. apply IH.
    - by apply (wf_look_ext (h_tree h)).
    - by apply (shallow_same (h_tree h)).
    - rewrite length_app. simpl. lia.
    - by eapply is_dir_look. }
  rewrite (bind_step _ _ _ _ _ Hc). destruct (IHn h2) as (h3 & H3 & Hs3); [by etransitivity|]. exists h3.
  split; [done|]. by etransitivity.
Qed.

(** A directory of the store is always removed. *)
Lemma remove_store_ok p h :
  wf_host h -> p <> [] -> look (h_tree h) p = Some KDir ->
  exists h', remove_branch_store_dir_all p h = (Ok tt, h').
Proof.
  intros Hwf Hp Hd. unfold remove_branch_store_dir_all. rewrite (bind_step _ _ _ _ _ (attempt_stat p h)).
  assert (exists m, h_tree h !! p = Some m /\ is_dir m = true) as (m & -> & ->).
  { unfold look in Hd. destruct (h_tree h !! p) as [m|]; [|done]. injection Hd as Hd. exists m. split; [done|].
    unfold is_dir. by rewrite Hd. }
  rewrite (bind_step _ _ _ (h_tree h) h) by done.
  destruct (make_removable_ok (size (h_tree h)) (tree_fuel (h_tree h)) p h) as (h1 & H1 & Hs);
    [done|by apply wf_shallow|unfold tree_fuel; lia|done|].
  rewrite (bind_step _ _ _ _ _ H1). rewrite <- (Hs p) in Hd.
  unfold remove_dir_all_call, symlink_metadata, get_tree, now, put_tree, gets, modify, bind, ret.
  unfold look in Hd. destruct (h_tree h1 !! p) as [m1|]; [|done]. injection Hd as Hd.
  rewrite bool_decide_false by done. unfold is_dir. rewrite Hd. by eexists.
Qed.

(** C37: the walk a commit makes over a delta always ends with the budget it is
    given, whatever the host holds there; it leaves every entry as it was, and
    lists each entry that is no directory once, under its path in the branch. *)
Theorem walk_lists_delta d h :
  wf_host h -> look (h_tree h) d = Some KDir ->
  exists out h', walk_files (tree_fuel (h_tree h)) d "" h = (Ok out, h')
    /\ same_look h h' /\ walked (h_tree h) d "" out.
Proof.
  intros Hwf Hd. apply (walk_files_ok (size (h_tree h))); [done|by apply wf_shallow| |done].
  unfold tree_fuel. lia.
Qed.
End Walk.

Lemma walk_lists_delta_witness :
  exists out h', @walk_files example_env (tree_fuel example_tree) ["store"; "branches"; "fix"; "files"] "" example_host
                 = (Ok out, h')
    /\ same_look example_host h' /\ walked example_tree ["store"; "branches"; "fix"; "files"] "" out.
Proof.
  apply (walk_lists_delta (E:=example_env) ["store"; "branches"; "fix"; "files"] example_host).
  - apply wf_treeb_ok. vm_compute. reflexivity.
  - vm_compute. reflexivity.
Defined.
