(* ===== verification/StagedSpec.v ===== *)
(** * What a staged merge does

    Staging moves deletions aside and prepares copies next to their places;
    publishing puts the copies in place and drops what was moved.  Seen from the
    paths that are no side files, a merge that ends well replaces the copied
    paths, removes the deleted ones, and leaves everything else alone. *)

From S2P Require Import Prelude Strs HostFs Staged View Frame WalkSpec.

(** ** Side files *)

Definition trash_name (c : string) : bool := starts_with ".branchfs-trash." c.
Definition side_file (c : string) : bool := starts_with ".branchfs-" c.

(** A path below [B] without a trash component, and one without side files. *)
Definition no_trash (s : path) : Prop := Forall (fun c => trash_name c = false) s.
Definition visible (s : path) : Prop := Forall (fun c => side_file c = false) s.

Lemma visible_no_trash s : visible s -> no_trash s.
Proof.
  intros H. eapply Forall_impl; [exact H|]. intros c Hc. unfold trash_name. apply starts_with_false. intros r ->.
  unfold side_file in Hc. rewrite starts_with_false in Hc.
  apply (Hc ("trash." +:+ r)). done.
Qed.

Definition trash_of (d : path) : path := commit_side_path d "trash".
Definition tmp_of (d : path) : path := commit_side_path d "tmp".

Lemma trash_snoc p c : trash_of (p ++ [c]) = p ++ [".branchfs-trash." +:+ c].
Proof. unfold trash_of, commit_side_path, with_file_name. by rewrite parent_snoc, file_name_snoc. Qed.
Lemma tmp_snoc p c : tmp_of (p ++ [c]) = p ++ [".branchfs-tmp." +:+ c].
Proof. unfold tmp_of, commit_side_path, with_file_name. by rewrite parent_snoc, file_name_snoc. Qed.

Lemma tmp_name_no_trash c : trash_name (".branchfs-tmp." +:+ c) = false.
Proof. apply starts_with_false. intros r. cbn. congruence. Qed.
Lemma tmp_name_side c : side_file (".branchfs-tmp." +:+ c) = true.
Proof. apply starts_with_spec. by exists ("tmp." +:+ c). Qed.
Lemma trash_name_trash c : trash_name (".branchfs-trash." +:+ c) = true.
Proof. apply starts_with_spec. by exists c. Qed.

Lemma trash_ne t : t <> [] -> trash_of t <> t.
Proof.
  intros Ht H. destruct t as [|c p _] using rev_ind; [done|]. rewrite trash_snoc in H.
  apply app_inv_head in H as [= H1]. apply (f_equal String.length) in H1. cbn in H1. lia.
Qed.

Lemma trash_length t : t <> [] -> length (trash_of t) = length t.
Proof. intros Ht. destruct t as [|c p _] using rev_ind; [done|]. by rewrite trash_snoc, !length_app. Qed.
(** A target and its trash are siblings: nothing is below both. *)
Lemma trash_disjoint t q : t <> [] -> under t q = true -> under (trash_of t) q = false.
Proof.
  intros Ht Hq. apply not_true_iff_false. intros Hu. apply under_true in Hq as [a ->]. apply under_true in Hu as [b Hb].
  apply app_inj_1 in Hb as [Hb _]; [by apply (trash_ne t)|by rewrite trash_length].
Qed.

(** Nothing without trash components lies in the trash. *)
Lemma not_in_trash B s q : s <> [] -> no_trash q -> under (trash_of (B ++ s)) (B ++ q) = false.
Proof.
  intros Hs Hq. destruct s as [|c s _] using rev_ind; [done|]. rewrite app_assoc, trash_snoc.
  apply under_false. intros r Hr. rewrite <- !app_assoc in Hr. apply app_inv_head in Hr. subst q.
  apply Forall_app in Hq as [_ Hq]. apply Forall_cons in Hq as [Hq _]. by rewrite trash_name_trash in Hq.
Qed.

(** *** Where the side files of a target lie *)

Lemma side_below (tag : string) B s : s <> [] -> commit_side_path (B ++ s) tag = B ++ commit_side_path s tag.
Proof.
  intros Hs. destruct s as [|c s _] using rev_ind; [done|]. unfold commit_side_path, with_file_name.
  by rewrite app_assoc, !parent_snoc, !file_name_snoc, <- app_assoc.
Qed.
Lemma tmp_below B s : s <> [] -> tmp_of (B ++ s) = B ++ tmp_of s.
Proof. apply side_below. Qed.

Lemma tmp_ne s : s <> [] -> tmp_of s <> [].
Proof. intros Hs. destruct s as [|c s _] using rev_ind; [done|]. rewrite tmp_snoc. by destruct s. Qed.
Lemma parent_tmp s : s <> [] -> parent (tmp_of s) = parent s.
Proof. intros Hs. destruct s as [|c s _] using rev_ind; [done|]. by rewrite tmp_snoc, !parent_snoc. Qed.
Lemma app_self_nil (B s : path) : B ++ s = B -> s = [].
Proof. intros H. apply (f_equal length) in H. rewrite length_app in H. destruct s; [done|simpl in H; lia]. Qed.
Lemma app_ne (B s : path) : s <> [] -> B ++ s <> [].
Proof. intros Hs [_ ?]%app_nil. done. Qed.

Lemma tmp_no_trash s : s <> [] -> visible s -> no_trash (tmp_of s).
Proof.
  intros Hs Hv. destruct s as [|c s _] using rev_ind; [done|]. rewrite tmp_snoc.
  apply Forall_app in Hv as [Hv _]. apply Forall_app. split; [by apply visible_no_trash|].
  apply Forall_singleton, tmp_name_no_trash.
Qed.
Lemma tmp_not_visible s : s <> [] -> ~ visible (tmp_of s).
Proof.
  intros Hs Hv. destruct s as [|c s _] using rev_ind; [done|]. rewrite tmp_snoc in Hv.
  apply Forall_app in Hv as [_ Hv]. apply Forall_cons in Hv as [Hv _]. pose proof (tmp_name_side c). congruence.
Qed.
Lemma tmp_inj s s' : s <> [] -> s' <> [] -> tmp_of s = tmp_of s' -> s = s'.
Proof.
  intros Hs Hs'. destruct s as [|c s _] using rev_ind; [done|]. destruct s' as [|c' s' _] using rev_ind; [done|].
  rewrite !tmp_snoc. intros [-> H]%app_inj_tail. injection H as H. by subst.
Qed.

(** A visible path above a temporary copy is above the target. *)
Lemma above_tmp a s : visible a -> s <> [] -> a `prefix_of` tmp_of s -> a `prefix_of` parent s.
Proof.
  intros Ha Hs Hp. destruct s as [|c s _] using rev_ind; [done|]. rewrite tmp_snoc in Hp. rewrite parent_snoc.
  apply under_prefix in Hp. apply under_snoc in Hp as [Hp| ->]; [by apply under_prefix|].
  apply Forall_app in Ha as [_ Ha]. apply Forall_cons in Ha as [Ha _]. pose proof (tmp_name_side c). congruence.
Qed.
Lemma below_tmp s a : s <> [] -> visible a -> ~ tmp_of s `prefix_of` a.
Proof. intros Hs Ha [r ->]. apply Forall_app in Ha as [Ha _]. by apply (tmp_not_visible s). Qed.
Lemma visible_parent s : visible s -> visible (parent s).
Proof.
  destruct s as [|c s _] using rev_ind; [done|]. rewrite parent_snoc. by intros [? _]%Forall_app.
Qed.
Lemma parent_prefix (s : path) : parent s `prefix_of` s.
Proof. apply under_prefix, under_parent. Qed.
Lemma parent_smaller (s : path) : s <> [] -> ~ s `prefix_of` parent s.
Proof. intros Hs Hp. apply under_prefix in Hp. by rewrite not_under_parent in Hp. Qed.

(** Targets none of which lies below another. *)
Record antichain (l : list path) : Prop := {
  an_nodup : NoDup l;
  an_flat : forall a b, a ∈ l -> b ∈ l -> a `prefix_of` b -> a = b;
}.
Lemma antichain_cons a l :
  antichain (a :: l) -> antichain l /\ a ∉ l /\ forall b, b ∈ l -> ~ a `prefix_of` b /\ ~ b `prefix_of` a.
Proof.
  intros [[Ha Hn]%NoDup_cons Hf]. split; [split; [done|]|split; [done|]].
  - intros x y Hx Hy. apply Hf; by right.
  - intros b Hb. split; intros Hp; apply Hf in Hp; subst; try done; try (by left); by right.
Qed.

(** Two targets of an antichain, and the temporary copy of one. *)
Lemma tmp_apart x y :
  x <> [] -> y <> [] -> visible x -> visible y -> ~ x `prefix_of` y ->
  ~ x `prefix_of` tmp_of y /\ ~ tmp_of x `prefix_of` tmp_of y.
Proof.
  intros Hx Hy Hvx Hvy Hn. split.
  - intros Hp%above_tmp; [|done..]. apply Hn. etransitivity; [exact Hp|apply parent_prefix].
  - intros Hp. destruct x as [|c x _] using rev_ind; [done|]. destruct y as [|d y _] using rev_ind; [done|].
    rewrite !tmp_snoc in Hp. apply under_prefix, under_snoc in Hp as [Hp|Hp].
    + apply under_prefix in Hp. apply Forall_app in Hvy as [Hvy _]. apply (below_tmp (x ++ [c]) y); [done..|].
      by rewrite tmp_snoc.
    + apply app_inj_tail in Hp as [-> Hp]. injection Hp as ->. by apply Hn.
Qed.

(** ** One call at a time *)

(** What changes lies at or below [p]. *)
Definition only_under (p : path) (h h' : host) : Prop :=
  forall q, under p q = false -> look (h_tree h') q = look (h_tree h) q.
#[export] Instance only_under_preorder p : PreOrder (only_under p).
Proof. split; [by intros h q|]. intros a b c H1 H2 q Hq. by rewrite H2, H1. Qed.

Lemma same_only_under p h h' : same_look h h' -> only_under p h h'.
Proof. intros H q _. apply H. Qed.

Section Staged.
Context {E : Env}.

Lemma remove_file_only p : keeps (only_under p) (remove_file_call p).
Proof.
  intros h q Hq. destruct (remove_file_call p h) as [r h'] eqn:H. apply remove_file_call_look in H.
  destruct r; [|by subst]. destruct H as [_ H]. simpl. rewrite H. rewrite decide_False; [done|].
  intros ->. by rewrite under_refl in Hq.
Qed.

Lemma remove_store_only p h :
  wf_host h -> only_under p h (remove_branch_store_dir_all p h).2.
Proof.
  intros Hwf. unfold remove_branch_store_dir_all. rewrite (bind_step _ _ _ _ _ (attempt_stat p h)).
  destruct (h_tree h !! p) as [n|]; [|by destruct (missing _ _)].
  destruct (is_dir n); [|apply remove_file_only]. rewrite (bind_step _ _ _ (h_tree h) h) by done. unfold bind.
  pose proof (make_removable_same (tree_fuel (h_tree h)) p h) as Hs.
  pose proof (make_removable_wf (tree_fuel (h_tree h)) p h Hwf) as Hw.
  destruct (make_branch_store_tree_removable _ p h) as [[[]|x] h1]; [|by apply same_only_under].
  destruct (remove_dir_all_call p h1) as [r h2] eqn:Hr. apply remove_dir_all_call_look in Hr; [|done].
  destruct r; [|subst; by apply same_only_under]. intros q Hq. simpl. by rewrite Hr, Hq, Hs.
Qed.

Lemma remove_entry_only p h : wf_host h -> only_under p h (remove_entry p h).2.
Proof.
  intros Hwf. unfold remove_entry. rewrite (bind_step _ _ _ _ _ (attempt_stat p h)).
  destruct (h_tree h !! p) as [n|]; [|by destruct (missing _ _)].
  destruct (is_dir n); [by apply remove_store_only|apply remove_file_only].
Qed.

(** Staging a deletion. *)
Lemma stage_delete_look t h m r s' :
  wf_host h -> t <> [] -> stage_delete t (h, m) = (Ok r, s') ->
  wf_host s'.1 /\ copies s'.2 = copies m /\ merged s'.2 = merged m /\ committed s'.2 = committed m
  /\ (forall q, under (trash_of t) q = false ->
        look (h_tree s'.1) q = if under t q then None else look (h_tree h) q)
  /\ deletes s'.2 = (if decide (look (h_tree h) t = None) then deletes m else deletes m ++ [(trash_of t, t)])
  /\ (look (h_tree h) t <> None -> forall q, look (h_tree s'.1) (trash_of t ++ q) = look (h_tree h) (t ++ q)).
Proof.
  intros Hwf Ht H. unfold stage_delete in H. apply bind_ok in H as (x & s1 & Hx & H).
  unfold on_host, zoom in Hx. cbn [fst snd] in Hx. rewrite attempt_stat in Hx. injection Hx as <- <-.
  destruct (h_tree h !! t) as [n|] eqn:Hn.
  2:{ assert (look (h_tree h) t = None) as Hl by by apply look_None.
      injection H as <- <-. simpl. rewrite decide_True by done. split_and!; try done.
      intros q Hq. destruct (under t q) eqn:Hu; [|done]. apply under_true in Hu as [s ->].
      destruct s as [|c s]; [by rewrite app_nil_r|]. apply look_None, eq_None_not_Some. intros Hs.
      apply (wf_below _ t (c :: s)) in Hs; [|done..]. by rewrite Hl in Hs. }
  assert (look (h_tree h) t <> None) as Hl by (intros Hl%look_None; congruence).
  apply bind_ok in H as (y & s2 & Hy & H).
  unfold on_host, zoom in Hy. simpl in Hy. destruct (attempt (remove_entry (commit_side_path t "trash")) h) as [r2 h2] eqn:Hr2.
  injection Hy as -> <-. apply bind_ok in H as ([] & s3 & Hz & H).
  unfold on_host, zoom in Hz. simpl in Hz. destruct (rename t (commit_side_path t "trash") h2) as [r3 h3] eqn:Hr3.
  injection Hz as -> <-. unfold on_mem, modify in H. injection H as <- <-. simpl. rewrite decide_False by done.
  fold (trash_of t) in *.
  pose proof (remove_entry_only (trash_of t) h Hwf) as Ho. pose proof (remove_entry_wf (trash_of t) h Hwf) as Hw2.
  assert ((remove_entry (trash_of t) h).2 = h2) as Heq.
  { unfold attempt in Hr2. destruct (remove_entry (trash_of t) h) as [[|[]] ?]; by injection Hr2. }
  rewrite Heq in Ho, Hw2. pose proof (rename_wf t (trash_of t) h2 Hw2) as Hw3. rewrite Hr3 in Hw3.
  apply rename_look in Hr3 as (_ & _ & [Heq2|[_ Hr3]] & _); [by destruct (trash_ne t Ht)| |done].
  split_and!; try done.
  2:{ intros _ q. rewrite Hr3, strip_app. apply Ho. apply trash_disjoint; [done|apply under_app]. }
  intros q Hq. rewrite Hr3. unfold under in Hq. destruct (strip (trash_of t) q) eqn:Hst; [done|].
  destruct (under t q); [done|]. apply Ho. unfold under. by rewrite Hst.
Qed.

(** *** Copies *)

Lemma guards_same p : keeps same_look (guard_existing_parent_dirs p).
Proof.
  unfold guard_existing_parent_dirs. generalize (@nil StoreDirModeGuard). induction (_ :: _) as [|d ds IH]; intros gs; simpl.
  - apply keeps_ret, _.
  - keeps_auto.
Qed.

(** Directories made for [p]: what was there stays. *)
Definition grown (p : path) (h h' : host) : Prop :=
  forall q, look (h_tree h') q = look (h_tree h) q
            \/ (look (h_tree h) q = None /\ look (h_tree h') q = Some KDir /\ q <> [] /\ q `prefix_of` parent p).

Lemma ensure_parent_grown p h r h' : ensure_parent_dirs p h = (r, h') -> grown p h h'.
Proof.
  intros H q. unfold ensure_parent_dirs in H. destruct p as [|c p]; [injection H as _ <-; by left|].
  by apply (create_dir_all_look _ _ _ _ H).
Qed.

Lemma grown_self p h h' : p <> [] -> grown p h h' -> look (h_tree h') p = look (h_tree h) p.
Proof.
  intros Hp Hg. destruct (Hg p) as [?|(_ & _ & _ & Hpre)]; [done|]. apply under_prefix in Hpre.
  by rewrite not_under_parent in Hpre.
Qed.
Lemma grown_there p q k h h' : grown p h h' -> look (h_tree h) q = Some k -> look (h_tree h') q = Some k.
Proof. intros Hg Hq. destruct (Hg q) as [->|[? _]]; congruence. Qed.

Lemma copy_entry_look src dst k h h' :
  look (h_tree h) src = Some k -> k <> KDir -> dst <> [] -> not_link (h_tree h) dst ->
  copy_entry src dst h = (Ok tt, h') ->
  look (h_tree h') dst = Some k
  /\ forall q, q <> dst -> look (h_tree h') q = look (h_tree h) q
       \/ (look (h_tree h) q = None /\ look (h_tree h') q = Some KDir /\ q <> [] /\ q `prefix_of` parent dst).
Proof.
  intros Hk Hkd Hd Hlink H. unfold copy_entry in H. apply bind_ok in H as ([] & h1 & H1 & H).
  apply ensure_parent_grown in H1 as Hg. pose proof (grown_there _ _ _ _ _ Hg Hk) as Hk1.
  apply (grown_self _ _ _ Hd) in Hg as Hself.
  apply bind_ok in H as (n & h1' & Hn & H). unfold symlink_metadata, get_tree, gets, bind in Hn.
  destruct (h_tree h1 !! src) as [n'|] eqn:Hsrc; [|done]. injection Hn as -> <-.
  assert (n_kind n = k) as Hnk by (unfold look in Hk1; rewrite Hsrc in Hk1; by injection Hk1).
  destruct (is_symlink n) eqn:Hl.
  - unfold is_symlink in Hl. rewrite Hnk in Hl. destruct k as [| |target|]; try done.
    rewrite (bind_step _ _ _ target h1) in H.
    2:{ unfold read_link, symlink_metadata, get_tree, gets, bind. rewrite Hsrc. cbn. by rewrite Hnk. }
    apply bind_ok in H as (x & h2 & Hx & H).
    assert (forall q, q <> dst -> look (h_tree h2) q = look (h_tree h1) q) as Ho.
    { apply attempt_ok in Hx as [([] & _ & Hx)|(e & _ & Hx)]; apply remove_file_call_look in Hx; [|by subst].
      destruct Hx as [_ Hx]. intros q Hq. rewrite Hx, decide_False by congruence. done. }
    apply symlink_look in H as [_ H]. rewrite H, decide_True by done. split; [done|].
    intros q Hq. rewrite H, decide_False by congruence. rewrite Ho by done. apply Hg.
  - apply bind_ok in H as (len & h2 & Hc & H). injection H as <-.
    apply copy_look in Hc as [Ho Hc]; [|intros target; rewrite Hself; apply Hlink].
    destruct Hc as (q & data & Hr & Hq & Hdst & _).
    assert (not_link (h_tree h1) src) as Hpl.
    { intros target. rewrite Hk1. unfold is_symlink in Hl. rewrite Hnk in Hl. by destruct k. }
    rewrite real_path_plain in Hr by done. injection Hr as <-. rewrite Hk1 in Hq. injection Hq as ->.
    split; [done|]. intros q Hq. rewrite Ho by done. apply Hg.
Qed.

Lemma guarded_copy_look src dst k h h' :
  wf_host h -> look (h_tree h) src = Some k -> k <> KDir -> dst <> [] -> not_link (h_tree h) dst ->
  guarded_copy_entry src dst h = (Ok tt, h') ->
  wf_host h' /\ look (h_tree h') dst = Some k
  /\ forall q, q <> dst -> look (h_tree h') q = look (h_tree h) q
       \/ (look (h_tree h) q = None /\ look (h_tree h') q = Some KDir /\ q <> [] /\ q `prefix_of` parent dst).
Proof.
  intros Hwf Hk Hkd Hd Hl H. assert (wf_host h') as Hwf'.
  { assert (keeps wf_step (guarded_copy_entry src dst)) as Hw by (unfold guarded_copy_entry; keeps_auto).
    specialize (Hw h). rewrite H in Hw. by apply Hw. }
  split; [done|]. unfold guarded_copy_entry in H. apply bind_ok in H as (gs & h1 & Hg & H).
  pose proof (guards_same src h) as H1. rewrite Hg in H1. simpl in H1.
  apply bind_ok in H as (x & h2 & Hx & H). apply bind_ok in H as ([] & h3 & H3 & H).
  assert (same_look h2 h3) as Hs3.
  { assert (keeps same_look (for_each gs guard_drop)) as Hk3 by (apply keeps_for_each; [apply _|]; auto with keeps).
    specialize (Hk3 h2). by rewrite H3 in Hk3. }
  apply attempt_ok in Hx as [([] & -> & Hx)|(e & -> & _)]; [|done]. injection H as <-.
  apply (copy_entry_look _ _ k) in Hx as [Ha Hb]; [| |done|done|].
  - rewrite Hs3. split; [done|]. intros q Hq. rewrite Hs3. rewrite <- (H1 q). by apply Hb.
  - by rewrite H1.
  - intros target. rewrite H1. apply Hl.
Qed.

(** ** Merges into a directory *)

Variable B : path.

(** A path a merge into [B] treats as its own or leaves alone: none of the trash. *)
Definition off_trash (q : path) : Prop := forall s, q = B ++ s -> no_trash s.

Lemma off_trash_under q s : s <> [] -> off_trash q -> under (trash_of (B ++ s)) q = false.
Proof.
  intros Hs Hq. apply not_true_iff_false. intros Hu.
  assert (under B q = true) as [r ->]%under_true.
  { eapply under_trans; [|exact Hu]. unfold trash_of. rewrite side_below by done. apply under_app. }
  rewrite not_in_trash in Hu; [done|done|]. by apply Hq.
Qed.

(** One copy to stage: the target below [B] and the entry it comes from. *)
Definition target (x : path * path) : path := B ++ x.1.
Definition tmp_target (x : path * path) : path := B ++ tmp_of x.1.

Record stageable (x : path * path) : Prop := {
  sg_ok : path_ok x.1;
  sg_ne : x.1 <> [];
  sg_visible : visible x.1;
  sg_source : under B x.2 = false;
}.

Lemma source_off_trash x : stageable x -> off_trash x.2.
Proof. intros [_ _ _ Hs] s Heq. by rewrite Heq, under_app in Hs. Qed.
Lemma tmp_off_trash x : stageable x -> off_trash (tmp_target x).
Proof. intros [_ Hn Hv _] s Heq. apply app_inv_head in Heq as <-. by apply tmp_no_trash. Qed.

Lemma target_off_trash x : stageable x -> off_trash (target x).
Proof. intros [_ _ Hv _] s Heq. apply app_inv_head in Heq as <-. by apply visible_no_trash. Qed.

(** All trash of a merge is next to a target below [B]. *)
Definition trash_ok (d : path * path) : Prop := exists s, s <> [] /\ d.1 = trash_of (B ++ s).

(** What a step of the merge leaves alone. *)
Definition spared (L : list (path * path)) (t : tree) (q : path) : Prop :=
  off_trash q /\ (forall x, x ∈ L -> q <> tmp_target x /\ under (target x) q = false)
  /\ (is_Some (look t q) \/ forall x, x ∈ L -> ~ q `prefix_of` parent (target x)).

(** A directory in the way is moved aside first. *)
Lemma displace_look x (b : bool) h m r h1 m1 :
  wf_host h -> x.1 <> [] -> when b (stage_delete (target x)) (h, m) = (Ok r, (h1, m1)) ->
  wf_host h1 /\ copies m1 = copies m /\ merged m1 = merged m /\ committed m1 = committed m
  /\ (Forall trash_ok (deletes m) -> Forall trash_ok (deletes m1))
  /\ forall q, off_trash q -> under (target x) q = false -> look (h_tree h1) q = look (h_tree h) q.
Proof.
  intros Hwf Hne H. destruct b; simpl in H; [|injection H as _ <- <-; by split_and!].
  apply stage_delete_look in H as (? & ? & ? & ? & Hl & Hd & _); [|done|by apply app_ne]. split_and!; try done.
  - intros Ht. simpl in Hd. rewrite Hd. case_decide; [done|]. apply Forall_app. split; [done|].
    apply Forall_singleton. by exists x.1.
  - intros q Hq Hu. simpl in Hl. rewrite Hl by (by apply off_trash_under). by rewrite Hu.
Qed.

Lemma stage_copy_look x k h m r s' :
  wf_host h -> stageable x -> look (h_tree h) x.2 = Some k -> k <> KDir ->
  look (h_tree h) (tmp_target x) = None ->
  stage_copy (show_rel x.1) x.2 B (h, m) = (Ok r, s') ->
  wf_host s'.1 /\ copies s'.2 = copies m ++ [(tmp_target x, target x)]
  /\ merged s'.2 = merged m ++ [show_rel x.1] /\ committed s'.2 = committed m
  /\ (Forall trash_ok (deletes m) -> Forall trash_ok (deletes s'.2))
  /\ look (h_tree s'.1) (tmp_target x) = Some k
  /\ forall q, spared [x] (h_tree h) q -> look (h_tree s'.1) q = look (h_tree h) q.
Proof.
  intros Hwf Hx Hk Hkd Htmp H. pose proof (tmp_off_trash x Hx) as Hto. pose proof (source_off_trash x Hx) as Hso.
  destruct Hx as [Hok Hne Hv Hsrc]. unfold stage_copy in H. rewrite join_show in H by done.
  assert (forall tag, commit_side_path (B ++ x.1) tag = B ++ commit_side_path x.1 tag) as Hside by (intros; by apply side_below).
  assert (target x <> []) as Htn by by apply app_ne.
  apply bind_ok in H as (r0 & [h0 m0] & H0 & H). unfold on_host, zoom in H0. cbn [fst snd] in H0.
  rewrite attempt_stat in H0. injection H0 as <- <- <-. fold (target x) in H.
  apply bind_ok in H as ([] & [h1 m1] & H1 & H).
  destruct (displace_look x _ _ _ _ _ _ Hwf Hne H1) as (Hwf1 & Hc1 & Hm1 & Hk1 & Ht1 & Hl1). simpl in *.
  apply bind_ok in H as ([] & [h2 m2] & H2 & H). unfold on_host, zoom in H2. cbn [fst snd] in H2.
  unfold target in H2. rewrite Hside in H2. fold (tmp_of x.1) (tmp_target x) in H2.
  destruct (guarded_copy_entry x.2 (tmp_target x) h1) as [r2 h2'] eqn:Hg. injection H2 as -> <- <-.
  assert (under (target x) (tmp_target x) = false) as Hut.
  { apply not_true_iff_false. rewrite under_prefix. unfold target, tmp_target. intros Hp%prefix_app_inv.
    apply above_tmp in Hp; [|done..]. by apply parent_smaller in Hp. }
  assert (under (target x) x.2 = false) as Hus.
  { apply not_true_iff_false. intros Hu. rewrite (under_trans B (target x)) in Hsrc; [done|apply under_app|done]. }
  apply (guarded_copy_look _ _ k) in Hg as (Hwf2 & Htk & Hl2); [|done|by rewrite Hl1|done| |].
  2:{ by apply app_ne, tmp_ne. }
  2:{ intros tg. rewrite Hl1 by done. by rewrite Htmp. }
  apply bind_ok in H as (mt & [h3 m3] & H3 & H). unfold on_host, zoom in H3. cbn [fst snd] in H3.
  rewrite attempt_stat in H3. injection H3 as <- <- <-. injection H as <- <-. simpl.
  split_and!; try done; [by rewrite Hc1; unfold target; rewrite Hside|by rewrite Hm1|].
  intros q (Hq & Hqx & Hqs). destruct (Hqx x ltac:(by left)) as [Hqt Hqu].
  destruct (Hl2 q Hqt) as [He|(Hn & _ & _ & Hp)]; [by rewrite He, Hl1|]. rewrite Hl1 in Hn by done.
  destruct Hqs as [[kk Hqs]|Hqs]; [congruence|]. exfalso. apply (Hqs x); [by left|].
  unfold tmp_target in Hp. rewrite parent_app, parent_tmp in Hp by (try done; by apply tmp_ne).
  unfold target. by rewrite parent_app.
Qed.

(** *** All copies *)

Definition merge_list (L : list (path * path)) : Prop := Forall stageable L /\ antichain L.*1.

Lemma merge_list_cons x L :
  merge_list (x :: L) -> stageable x /\ merge_list L
  /\ forall y, y ∈ L -> stageable y /\ ~ x.1 `prefix_of` y.1 /\ ~ y.1 `prefix_of` x.1.
Proof.
  intros [[Hx HL]%Forall_cons Ha]. apply antichain_cons in Ha as (Ha & _ & Hp). split; [done|]. split; [by split|].
  intros y Hy. rewrite Forall_forall in HL. split; [by apply HL|]. apply Hp, list_elem_of_fmap. by exists y.
Qed.

(** The temporary copies of the others are spared. *)
Lemma tmp_spared x y t : stageable x -> stageable y -> ~ x.1 `prefix_of` y.1 -> ~ y.1 `prefix_of` x.1 -> spared [x] t (tmp_target y).
Proof.
  intros Hx Hy Hxy Hyx. split; [by apply tmp_off_trash|]. destruct Hx as [_ Hxn Hxv _], Hy as [_ Hyn Hyv _].
  destruct (tmp_apart x.1 y.1) as [H1 H2]; [done..|]. split.
  - intros z ->%list_elem_of_singleton. unfold tmp_target, target. split.
    + intros Heq%app_inv_head. apply tmp_inj in Heq; [|done..]. rewrite Heq in Hxy. done.
    + apply not_true_iff_false. rewrite under_prefix. by intros ?%prefix_app_inv.
  - right. intros z ->%list_elem_of_singleton Hp. unfold tmp_target, target in Hp. rewrite parent_app in Hp by done.
    apply prefix_app_inv in Hp. by apply (below_tmp y.1 (parent x.1)) in Hp; [|done|apply visible_parent].
Qed.

Lemma source_spared x y t k : stageable x -> stageable y -> look t y.2 = Some k -> spared [x] t y.2.
Proof.
  intros Hx Hy Hk. split; [by apply source_off_trash|]. split; [|left; by eexists].
  intros z ->%list_elem_of_singleton. destruct Hy as [_ _ _ Hs]. split.
  - intros Heq. rewrite Heq in Hs. unfold tmp_target in Hs. by rewrite under_app in Hs.
  - apply not_true_iff_false. intros Hu. rewrite (under_trans B (target x)) in Hs; [done|apply under_app|done].
Qed.

Lemma stage_all_look L h m r s' :
  wf_host h -> merge_list L -> (forall x, x ∈ L -> exists k, look (h_tree h) x.2 = Some k /\ k <> KDir) ->
  (forall x, x ∈ L -> look (h_tree h) (tmp_target x) = None) -> Forall trash_ok (deletes m) ->
  for_each L (fun x => stage_copy (show_rel x.1) x.2 B) (h, m) = (Ok r, s') ->
  wf_host s'.1 /\ copies s'.2 = copies m ++ map (fun x => (tmp_target x, target x)) L
  /\ merged s'.2 = merged m ++ map (fun x => show_rel x.1) L /\ Forall trash_ok (deletes s'.2)
  /\ (forall x, x ∈ L -> look (h_tree s'.1) (tmp_target x) = look (h_tree h) x.2)
  /\ forall q, spared L (h_tree h) q -> look (h_tree s'.1) q = look (h_tree h) q.
Proof.
  revert h m. induction L as [|x L IH]; intros h m Hwf HL Hk Ht Htr H.
  { injection H as <- <-. simpl. rewrite !app_nil_r. split_and!; try done. by intros x Hx%not_elem_of_nil. }
  apply merge_list_cons in HL as (Hx & HL & Hapart). destruct (Hk x ltac:(by left)) as (k & Hxk & Hxd).
  simpl in H. apply bind_ok in H as ([] & [h1 m1] & H1 & H).
  apply (stage_copy_look x k) in H1 as (Hwf1 & Hc & Hm & _ & Htr1 & Htk & Hl); [|done..|by apply Ht; left]. simpl in *.
  assert (forall y, y ∈ L -> look (h_tree h1) y.2 = look (h_tree h) y.2) as Hsrc.
  { intros y Hy. destruct (Hapart y Hy) as [Hsy _]. destruct (Hk y ltac:(by right)) as (ky & Hky & _).
    apply Hl. by eapply source_spared. }
  apply IH in H as (Hwf2 & Hc2 & Hm2 & Htr2 & Hd2 & Hl2); [|done|done| | |by apply Htr1].
  - split_and!; [done|by rewrite Hc2, Hc, <- app_assoc|by rewrite Hm2, Hm, <- app_assoc|done| |].
    + intros y [->|Hy]%elem_of_cons; [|by rewrite Hd2, Hsrc]. rewrite Hl2; [by rewrite Htk, Hxk|].
      split; [by apply tmp_off_trash|]. split; [|left; by rewrite Htk].
      intros y Hy. destruct (Hapart y Hy) as (Hsy & Hxy & Hyx).
      apply (tmp_spared y x (h_tree h1)) in Hx as (_ & Hx & _); [|done..]. apply Hx. by left.
    + intros q (Hq & Hqx & Hqs). assert (look (h_tree h1) q = look (h_tree h) q) as Heq.
      { apply Hl. split; [done|]. split; [intros z ->%list_elem_of_singleton; apply Hqx; by left|].
        destruct Hqs as [?|Hqs]; [by left|right]. intros z ->%list_elem_of_singleton. apply Hqs. by left. }
      rewrite Hl2; [done|]. split; [done|]. split; [intros z Hz; apply Hqx; by right|]. rewrite Heq.
      destruct Hqs as [?|Hqs]; [by left|right]. intros z Hz. apply Hqs. by right.
  - intros y Hy. rewrite Hsrc by done. apply Hk. by right.
  - intros y Hy. destruct (Hapart y Hy) as (Hsy & Hxy & Hyx). rewrite Hl by by apply tmp_spared. apply Ht. by right.
Qed.

(** *** Publishing *)

Lemma rename_into x k h r h' :
  wf_host h -> stageable x -> look (h_tree h) (tmp_target x) = Some k -> k <> KDir ->
  rename (tmp_target x) (target x) h = (Ok r, h') ->
  wf_host h' /\ look (h_tree h') (target x) = Some k
  /\ forall q, under (target x) q = false -> under (tmp_target x) q = false -> look (h_tree h') q = look (h_tree h) q.
Proof.
  intros Hwf Hx Hk Hkd H. pose proof (rename_wf (tmp_target x) (target x) h Hwf) as Hwf'. rewrite H in Hwf'.
  split; [done|]. apply rename_look in H as (_ & _ & [Heq|[_ H]] & _); [| |done].
  - destruct Hx as [_ Hn Hv _]. apply app_inv_head in Heq. destruct (tmp_not_visible x.1 Hn). by rewrite Heq.
  - split.
    + rewrite H. assert (strip (target x) (target x) = Some []) as ->; [|by rewrite app_nil_r].
      apply strip_Some. by rewrite app_nil_r.
    + intros q Hq Hq'. rewrite H. unfold under in Hq. destruct (strip (target x) q); [done|]. by rewrite Hq'.
Qed.

Lemma renames_look L h r h' :
  wf_host h -> merge_list L -> (forall x, x ∈ L -> exists k, look (h_tree h) (tmp_target x) = Some k /\ k <> KDir) ->
  for_each (map (fun x => (tmp_target x, target x)) L) (fun c => rename c.1 c.2) h = (Ok r, h') ->
  wf_host h' /\ (forall x, x ∈ L -> look (h_tree h') (target x) = look (h_tree h) (tmp_target x))
  /\ forall q, (forall x, x ∈ L -> under (target x) q = false /\ under (tmp_target x) q = false) ->
       look (h_tree h') q = look (h_tree h) q.
Proof.
  revert h. induction L as [|x L IH]; intros h Hwf HL Hk H.
  { injection H as _ <-. split_and!; try done. by intros x Hx%not_elem_of_nil. }
  apply merge_list_cons in HL as (Hx & HL & Hapart). destruct (Hk x ltac:(by left)) as (k & Hxk & Hxd).
  simpl in H. apply bind_ok in H as ([] & h1 & H1 & H). simpl in H1.
  apply (rename_into x k) in H1 as (Hwf1 & Hd & Hl); [|done..].
  assert (forall y, y ∈ L -> look (h_tree h1) (tmp_target y) = look (h_tree h) (tmp_target y)) as Htmp.
  { intros y Hy. destruct (Hapart y Hy) as (Hsy & Hxy & Hyx). destruct Hx as [_ Hxn Hxv _], Hsy as [_ Hyn Hyv _].
    destruct (tmp_apart x.1 y.1) as [? ?]; [done..|].
    apply Hl; apply not_true_iff_false; rewrite under_prefix; by intros ?%prefix_app_inv. }
  apply IH in H as (Hwf2 & Hd2 & Hl2); [|done|done|intros y Hy; rewrite Htmp by done; apply Hk; by right].
  split; [done|]. split.
  - intros y [->|Hy]%elem_of_cons; [|by rewrite Hd2, Htmp]. rewrite Hl2; [by rewrite Hd|].
    intros y Hy. destruct (Hapart y Hy) as (Hsy & Hxy & Hyx). destruct Hx as [_ Hxn Hxv _], Hsy as [_ Hyn Hyv _].
    unfold target, tmp_target. rewrite !under_app_cancel. split; apply not_true_iff_false; rewrite under_prefix; [done|].
    by apply below_tmp.
  - intros q Hq. rewrite Hl2 by (intros y Hy; apply Hq; by right). by apply Hl; apply Hq; left.
Qed.

Lemma empty_trash_look ds h r h' :
  wf_host h -> Forall trash_ok ds -> for_each ds (fun d => remove_entry d.1) h = (Ok r, h') ->
  wf_host h' /\ forall q, off_trash q -> look (h_tree h') q = look (h_tree h) q.
Proof.
  intros Hwf Hd. revert h Hwf. induction Hd as [|d ds (s & Hs & Ht) _ IH]; intros h Hwf H; [by injection H as _ <-|].
  simpl in H. apply bind_ok in H as ([] & h1 & H1 & H).
  pose proof (remove_entry_only d.1 h Hwf) as Ho. pose proof (remove_entry_wf d.1 h Hwf) as Hwf1. rewrite H1 in Ho, Hwf1.
  apply IH in H as [Hwf2 Hl]; [|done]. split; [done|]. intros q Hq. rewrite Hl by done. apply Ho.
  rewrite Ht. by apply off_trash_under.
Qed.

(** Copies staged, then published: each target is what its source was, and
    what is not next to a target stays. *)
Lemma merge_look L h m rels s' :
  wf_host h -> merge_list L -> (forall x, x ∈ L -> exists k, look (h_tree h) x.2 = Some k /\ k <> KDir) ->
  (forall x, x ∈ L -> look (h_tree h) (tmp_target x) = None) ->
  copies m = [] -> merged m = [] -> Forall trash_ok (deletes m) ->
  (do* for_each L (fun x => stage_copy (show_rel x.1) x.2 B); publish) (h, m) = (Ok rels, s') ->
  wf_host s'.1 /\ committed s'.2 = true /\ rels = map (fun x => show_rel x.1) L
  /\ (forall x, x ∈ L -> look (h_tree s'.1) (target x) = look (h_tree h) x.2)
  /\ forall q, spared L (h_tree h) q -> (forall x, x ∈ L -> under (tmp_target x) q = false) ->
       look (h_tree s'.1) q = look (h_tree h) q.
Proof.
  intros Hwf HL Hk Ht Hc Hm Htr H. apply bind_ok in H as ([] & [h1 m1] & H1 & H).
  apply stage_all_look in H1 as (Hwf1 & Hc1 & Hm1 & Htr1 & Hd1 & Hl1); [|done..].
  unfold publish in H. rewrite (bind_step _ _ _ m1 (h1, m1)) in H by done.
  apply bind_ok in H as ([] & [h2 m2] & H2 & H). unfold on_host, zoom in H2. cbn [fst snd] in *.
  rewrite Hc1, Hc in H2. cbn [app] in H2. destruct (for_each _ _ h1) as [r2 h2'] eqn:Hr. injection H2 as -> <- <-.
  apply renames_look in Hr as (Hwf2 & Hd2 & Hl2); [|done|done|intros x Hx; rewrite Hd1 by done; by apply Hk].
  apply bind_ok in H as ([] & [h3 m3] & H3 & H). unfold on_host, zoom in H3. cbn [fst snd] in *.
  destruct (for_each _ _ h2') as [r3 h3'] eqn:Hr. injection H3 as -> <- <-.
  apply empty_trash_look in Hr as (Hwf3 & Hl3); [|done..].
  unfold on_mem, modify, bind, ret in H. injection H as <- <-. cbn [fst snd committed]. split_and!; try done.
  - by rewrite Hm1, Hm.
  - intros x Hx. destruct HL as [HL _]. rewrite Forall_forall in HL.
    rewrite Hl3 by (by apply target_off_trash, HL). by rewrite Hd2, Hd1.
  - intros q Hq Htq. rewrite Hl3 by apply Hq. rewrite Hl2; [by apply Hl1|]. intros x Hx. split; [by apply Hq|by apply Htq].
Qed.

(** *** Deletions *)

Definition removed (D : list path) (q : path) : bool := existsb (fun s => under (B ++ s) q) D.

Lemma stage_deletes_look D h m r s' :
  wf_host h -> Forall (fun s => s <> []) D -> Forall trash_ok (deletes m) ->
  for_each D (fun s => stage_delete (B ++ s)) (h, m) = (Ok r, s') ->
  wf_host s'.1 /\ copies s'.2 = copies m /\ merged s'.2 = merged m /\ Forall trash_ok (deletes s'.2)
  /\ forall q, off_trash q -> look (h_tree s'.1) q = if removed D q then None else look (h_tree h) q.
Proof.
  intros Hwf HD. revert h m Hwf. induction HD as [|s D Hs _ IH]; intros h m Hwf Htr H.
  { injection H as _ <-. by split_and!. }
  simpl in H. apply bind_ok in H as ([] & [h1 m1] & H1 & H).
  apply stage_delete_look in H1 as (Hwf1 & Hc & Hm & _ & Hl & Hd & _); [|done|by apply app_ne]. simpl in *.
  apply IH in H as (Hwf2 & Hc2 & Hm2 & Htr2 & Hl2); [|done|].
  - split_and!; [done|by rewrite Hc2|by rewrite Hm2|done|]. intros q Hq. rewrite Hl2 by done.
    rewrite Hl by (by apply off_trash_under). destruct (under (B ++ s) q); [by destruct (removed D q)|done].
  - rewrite Hd. case_decide; [done|]. apply Forall_app. split; [done|]. apply Forall_singleton. by exists s.
Qed.

(** The whole merge, and what its destination holds afterwards. *)
Definition staged_merge (D : list path) (L : list (path * path)) : IO (list string) :=
  with_staged (
    do* for_each D (fun s => stage_delete (B ++ s));
    do* for_each L (fun x => stage_copy (show_rel x.1) x.2 B);
    publish).

Record merge_input (h : host) (D : list path) (L : list (path * path)) : Prop := {
  mi_wf : wf_host h;
  mi_dir : look (h_tree h) B = Some KDir;
  mi_deletes : Forall (fun s => s <> []) D;
  mi_copies : merge_list L;
  mi_sources : forall x, x ∈ L -> exists k, look (h_tree h) x.2 = Some k /\ k <> KDir;
  mi_fresh : forall s, is_Some (look (h_tree h) (B ++ s)) -> visible s;
}.

Record merge_output (h : host) (D : list path) (L : list (path * path)) (h' : host) : Prop := {
  mo_wf : wf_host h';
  mo_copied : forall x, x ∈ L -> look (h_tree h') (B ++ x.1) = look (h_tree h) x.2;
  mo_rest : forall s, visible s -> (forall x, x ∈ L -> ~ x.1 `prefix_of` s /\ ~ s `prefix_of` x.1) ->
    look (h_tree h') (B ++ s) = if removed D (B ++ s) then None else look (h_tree h) (B ++ s);
  mo_outside : only_under B h h';
}.

Lemma removed_outside D q : under B q = false -> removed D q = false.
Proof.
  intros Hq. apply not_true_iff_false. intros (s & _ & Hs)%existsb_exists.
  rewrite (under_trans B (B ++ s)) in Hq; [done|apply under_app|done].
Qed.
Lemma outside_off_trash q : under B q = false -> off_trash q.
Proof. intros Hq s ->. by rewrite under_app in Hq. Qed.

Lemma spared_rest L t s :
  merge_list L -> visible s -> (forall x, x ∈ L -> ~ x.1 `prefix_of` s /\ ~ s `prefix_of` x.1) ->
  spared L t (B ++ s) /\ forall x, x ∈ L -> under (tmp_target x) (B ++ s) = false.
Proof.
  intros [HL _] Hv Hs. rewrite Forall_forall in HL. split; [split; [|split]|].
  - intros s' Heq. apply app_inv_head in Heq as <-. by apply visible_no_trash.
  - intros x Hx. destruct (HL x Hx) as [_ Hn Hxv _], (Hs x Hx) as [H1 _]. unfold target, tmp_target. split.
    + intros Heq%app_inv_head. subst. by destruct (tmp_not_visible x.1).
    + rewrite under_app_cancel. apply not_true_iff_false. by rewrite under_prefix.
  - right. intros x Hx Hp. destruct (HL x Hx) as [_ Hn _ _], (Hs x Hx) as [_ H2]. unfold target in Hp.
    rewrite parent_app in Hp by done. apply prefix_app_inv in Hp. apply H2. etransitivity; [done|apply parent_prefix].
  - intros x Hx. destruct (HL x Hx) as [_ Hn _ _]. unfold tmp_target. rewrite under_app_cancel.
    apply not_true_iff_false. rewrite under_prefix. by apply below_tmp.
Qed.

Lemma spared_outside L t q :
  wf_tree t -> look t B = Some KDir -> merge_list L -> under B q = false ->
  spared L t q /\ forall x, x ∈ L -> under (tmp_target x) q = false.
Proof.
  intros Hwf Hd [HL _] Hq.
  assert (forall r, under (B ++ r) q = false) as Hu.
  { intros r. apply not_true_iff_false. intros H. rewrite (under_trans B (B ++ r)) in Hq; [done|apply under_app|done]. }
  split; [split; [by apply outside_off_trash|split]|]; [| |intros x _; apply Hu].
  - intros x _. split; [|apply Hu]. intros ->. unfold tmp_target in Hq. by rewrite under_app in Hq.
  - destruct (look t q) as [k|] eqn:Hk; [left; by eexists|right]. intros x Hx Hp. apply under_prefix in Hp.
    rewrite Forall_forall in HL. destruct (HL x Hx) as [_ Hn _ _]. unfold target in Hp. rewrite parent_app in Hp by done.
    destruct (under_linear q B (B ++ parent x.1)) as [H|H]; [done|apply under_app| |congruence].
    apply under_true in H as [s ->]. destruct s as [|c s]; [rewrite app_nil_r in *; by rewrite Hk in Hd|].
    rewrite (wf_below t q (c :: s)) in Hk; [done|done|done|]. apply look_is_Some. by rewrite Hd.
Qed.

Lemma staged_merge_spec D L h rels h' :
  merge_input h D L -> staged_merge D L h = (Ok rels, h') ->
  rels = map (fun x => show_rel x.1) L /\ merge_output h D L h'.
Proof.
  intros [Hwf Hd HD HL Hsrc Hfresh] H. unfold staged_merge, with_staged in H.
  match type of H with (let '(_, _) := ?c in _) = _ => destruct c as [r0 [h2 m2]] eqn:Hr end. injection H as -> <-.
  apply bind_ok in Hr as ([] & [h1 m1] & H1 & H).
  apply stage_deletes_look in H1 as (Hwf1 & Hc1 & Hm1 & Ht1 & Hl1); [|done|done|by constructor]. simpl in *.
  assert (forall q, under B q = false -> look (h_tree h1) q = look (h_tree h) q) as Hout1.
  { intros q Hq. rewrite Hl1 by by apply outside_off_trash. by rewrite removed_outside. }
  pose proof HL as [HLs _]. rewrite Forall_forall in HLs.
  assert (forall x, x ∈ L -> look (h_tree h1) x.2 = look (h_tree h) x.2) as Hs1.
  { intros x Hx. by apply Hout1, HLs. }
  assert (look (h_tree h1) B = Some KDir) as Hd1.
  { rewrite Hl1. 2:{ intros s Heq. symmetry in Heq. apply app_self_nil in Heq as ->. constructor. }
    assert (removed D B = false) as ->; [|done]. apply not_true_iff_false. intros (s & Hs & Hu)%existsb_exists.
    apply list_elem_of_In in Hs. rewrite Forall_forall in HD. apply under_prefix in Hu. destruct Hu as [r Hu].
    rewrite <- app_assoc in Hu. symmetry in Hu. apply app_self_nil in Hu as [-> _]%app_nil. by apply (HD [] Hs). }
  apply merge_look in H as (Hwf2 & Hcm & -> & Hcp & Hl2); [|done|done| | |by rewrite Hc1|by rewrite Hm1|done].
  2:{ intros x Hx. rewrite Hs1 by done. by apply Hsrc. }
  2:{ intros x Hx. rewrite Hl1 by by apply tmp_off_trash, HLs. destruct (HLs x Hx) as [_ Hn _ _].
      destruct (removed D (tmp_target x)); [done|]. apply eq_None_not_Some. intros Hi. apply Hfresh in Hi.
      by apply (tmp_not_visible x.1). }
  split; [done|]. simpl in *. unfold rollback. rewrite Hcm. simpl. split; [done| | |].
  - intros x Hx. fold (target x). by rewrite Hcp, Hs1.
  - intros s Hv Hs. destruct (spared_rest L (h_tree h1) s HL Hv Hs) as [Hsp Ht].
    rewrite Hl2 by done. apply Hl1. by apply Hsp.
  - intros q Hq. destruct (spared_outside L (h_tree h1) q Hwf1 Hd1 HL Hq) as [Hsp Ht].
    rewrite Hl2 by done. by apply Hout1.
Qed.

(** *** Rolling back *)

Lemma rename_missing a b h : look (h_tree h) a = None -> exists e, rename a b h = (Err (Throw e), h).
Proof.
  intros Ha. apply look_None in Ha. unfold rename, symlink_metadata, get_tree, gets, bind, io_error, throw, raise.
  rewrite Ha. by eexists.
Qed.

(** A merge that is given up does not restore a deletion staged inside
    another one: the entry moved aside first travels with the directory moved aside
    second, and the rollback, which goes through the deletions in the order they
    were staged, no longer finds it. *)
Theorem rollback_loses_nested_delete d s h s1 :
  wf_host h -> d <> [] -> s <> [] -> is_Some (look (h_tree h) (B ++ d ++ s)) ->
  (do* stage_delete (B ++ d ++ s); stage_delete (B ++ d)) (h, staged_new) = (Ok tt, s1) ->
  look (h_tree (rollback s1.2 s1.1).2) (B ++ d ++ s) = None.
Proof.
  intros Hwf Hd Hs Hk H. assert (B ++ d <> []) as Ht2 by by apply app_ne.
  assert (B ++ d ++ s <> []) as Ht1 by (apply app_ne; by intros [? _]%app_nil).
  apply bind_ok in H as ([] & [h1 m1] & H1 & H2).
  apply stage_delete_look in H1 as (Hwf1 & Hc1 & _ & Hm1 & Hl1 & Hd1 & _); [|done..]. cbn [fst snd] in *.
  apply stage_delete_look in H2 as (Hwf2 & Hc2 & _ & Hm2 & Hl2 & Hd2 & Htr2); [|done..].
  assert (forall q, under (B ++ d ++ s) q = true -> look (h_tree h1) q = None) as Hgone1.
  { intros q Hq. rewrite Hl1 by by apply trash_disjoint. by rewrite Hq. }
  assert (forall q, under (B ++ d) q = true -> look (h_tree s1.1) q = None) as Hgone2.
  { intros q Hq. rewrite Hl2 by by apply trash_disjoint. by rewrite Hq. }
  assert (look (h_tree h1) (B ++ d) <> None) as Hdir.
  { assert (length (B ++ d) < length (B ++ d ++ s)) as Hlen.
    { rewrite !length_app. destruct s; [done|]. simpl. lia. }
    assert (forall a, length (B ++ d) < length a -> under a (B ++ d) = false) as Hno.
    { intros a Ha. apply not_true_iff_false. intros Hu%under_prefix%prefix_length. lia. }
    rewrite Hl1 by (apply Hno; by rewrite trash_length). rewrite Hno by done.
    rewrite (wf_below (h_tree h) (B ++ d) s); [done|done|done|]. rewrite <- app_assoc. by apply look_is_Some. }
  rewrite decide_False in Hd1 by (destruct Hk as [k ->]; done). rewrite decide_False in Hd2 by done.
  unfold rollback. rewrite Hm2, Hm1, Hc2, Hc1, Hd2, Hd1. cbn [committed copies deletes staged_new app for_each fst snd].
  rewrite (bind_step _ _ _ tt s1.1) by done.
  destruct (rename_missing (trash_of (B ++ d ++ s)) (B ++ d ++ s) s1.1) as [e He].
  { apply Hgone2. unfold trash_of. rewrite app_assoc, side_below by done. apply under_app. }
  rewrite (bind_step _ _ _ tt s1.1) by (unfold bind, attempt; by rewrite He).
  unfold bind, attempt. destruct (rename (trash_of (B ++ d)) (B ++ d) s1.1) as [r h3] eqn:Hr.
  apply rename_look in Hr; [|done]. assert (look (h_tree s1.1) (B ++ d ++ s) = None) as Hn.
  { apply Hgone2. rewrite app_assoc. apply under_app. }
  destruct r as [[]|[]]; cbn [snd ret]; [|by subst..].
  destruct Hr as (_ & _ & [Heq|[_ Hr]] & _); [by destruct (trash_ne (B ++ d))|].
  rewrite Hr, app_assoc, strip_app, Htr2 by done. apply Hgone1. rewrite <- app_assoc. apply under_refl.
Qed.
End Staged.

(** ** A run *)

Definition nested_tree : tree :=
  list_to_map (map (fun p => (p, Node KDir 493 0 (Stamp (-1) 0 0 0))) [[]; ["base"]; ["base"; "d"]])
  ∪ {[ ["base"; "d"; "f"] := example_file "F" ]}.
Definition nested_host : host := Host nested_tree 1 0 ∅.
Definition nested_run :=
  (do* @stage_delete example_env ["base"; "d"; "f"]; @stage_delete example_env ["base"; "d"]) (nested_host, staged_new).

Lemma nested_run_ok : nested_run = (Ok tt, nested_run.2).
Proof. apply run_ok. vm_compute. reflexivity. Qed.

Lemma rollback_loses_nested_delete_witness :
  look nested_tree ["base"; "d"; "f"] = Some (KFile (bytes_of "F"))
  /\ look (h_tree (@rollback example_env nested_run.2.2 nested_run.2.1).2) ["base"; "d"; "f"] = None.
Proof.
  split; [reflexivity|].
  apply (rollback_loses_nested_delete (E:=example_env) ["base"] ["d"] ["f"] nested_host nested_run.2).
  - apply wf_treeb_ok. vm_compute. reflexivity.
  - done.
  - done.
  - by eexists.
  - apply nested_run_ok.
Defined.
