(* ===== verification/CommitSpec.v ===== *)
(** * What commit and abort do

    A commit to [main] puts every file of the branch's delta, with its contents,
    at its place in the base directory, removes what the branch deleted, leaves the
    rest of the base alone, and drops the branch.  An abort only drops it. *)

From S2P Require Import Prelude Strs HostFs Staged Quota TextMerge Branch Codec View Manager Commit Frame BranchLaws.
From S2P Require Import Isolation WorldInv ManagerSpec EditSpec WriteSpec WalkSpec StagedSpec.

(** ** Lists of files *)

Lemma walked_paths t dir out :
  walked t dir "" out -> wf_tree t ->
  exists ss, out = map (fun s => (show_rel s, dir ++ s)) ss /\ antichain ss /\ forall s, s ∈ ss <-> leaf_at t dir s.
Proof.
  intros [Hin Hnd] Hwf.
  assert (exists ss, out = map (fun s => (show_rel s, dir ++ s)) ss) as [ss ->].
  { assert (forall f, f ∈ out -> exists s, f = (show_rel s, dir ++ s)) as H.
    { intros f Hf. apply Hin in Hf as (s & -> & _). by exists s. }
    clear Hin Hnd. induction out as [|f out IH]; [by exists []|].
    destruct IH as [ss ->]; [intros g Hg; apply H; by right|].
    destruct (H f ltac:(by left)) as [s ->]. by exists (s :: ss). }
  assert (forall s, s ∈ ss <-> leaf_at t dir s) as Hss.
  { intros s. split.
    - intros Hs. assert ((show_rel s, dir ++ s) ∈ map (fun s => (show_rel s, dir ++ s)) ss) as Hf.
      { apply list_elem_of_fmap. by exists s. }
      apply Hin in Hf as (s' & Heq & Hl). by simplify_eq/=.
    - intros Hl. assert ((show_rel s, dir ++ s) ∈ map (fun s => (show_rel s, dir ++ s)) ss) as Hf.
      { apply Hin. by exists s. }
      apply list_elem_of_fmap in Hf as (s' & Heq & Hs). by simplify_eq/=. }
  exists ss. split; [done|]. split; [|done]. split.
  - apply (NoDup_fmap_1 (fun s => dir ++ s)). by rewrite <- list_fmap_compose in Hnd.
  - intros a b Ha Hb [s ->]. destruct s as [|c s]; [by rewrite app_nil_r|].
    apply Hss in Ha as (_ & k & Hk & Hkd). apply Hss in Hb as (_ & k' & Hk' & _).
    rewrite app_assoc in Hk'. pose proof (wf_nondir_leaf t (dir ++ a) k (c :: s) Hwf Hk Hkd ltac:(done)) as Hn.
    apply look_None in Hn. congruence.
Qed.

Lemma for_each_map {S A B} (f : A -> B) (g : B -> M S unit) l s :
  for_each (map f l) g s = for_each l (fun a => g (f a)) s.
Proof. revert s. induction l as [|a l IH]; intros s; [done|]. simpl. unfold bind. destruct (g (f a) s) as [[[]|] ?]; auto. Qed.

Lemma for_each_ext {S A} (f g : A -> M S unit) l s :
  (forall a s, a ∈ l -> f a s = g a s) -> for_each l f s = for_each l g s.
Proof.
  revert s. induction l as [|a l IH]; intros s H; [done|]. simpl. unfold bind. rewrite H by by left.
  destruct (g a s) as [[[]|] ?]; [|done]. apply IH. intros; apply H; by right.
Qed.

(** The store lies off the base. *)
Lemma store_off_base sp bp n s : under sp bp = false -> under bp sp = false -> under bp (branch_dir_of sp n ++ s) = false.
Proof.
  intros H1 H2. apply not_true_iff_false. intros H. unfold branch_dir_of in H. rewrite <- app_assoc in H.
  destruct (under_linear bp sp (sp ++ ["branches"; n] ++ s)) as [?|?]; [done|apply under_app|congruence|congruence].
Qed.

Lemma off_base_store_ok w n h h' :
  world_ok w -> only_under (base_path w) h h' -> wf_host h' ->
  store_ok (branch_dir_of (storage_path w) n) h -> store_ok (branch_dir_of (storage_path w) n) h'.
Proof.
  intros [_ _ _ [H1 H2]] Ho Hwf [_ Hd Hp]. split; [done| |].
  - rewrite Ho; [done|]. rewrite <- (app_nil_r (branch_dir_of _ _)). by apply store_off_base.
  - intros q Hq target. assert (under (base_path w) q = false) as Hu.
    { destruct Hq as (c & s & -> & _). by apply store_off_base. }
    rewrite Ho by done. by apply Hp.
Qed.

Lemma same_store_ok d h h' : same_look h h' -> wf_host h' -> store_ok d h -> store_ok d h'.
Proof.
  intros Hs Hwf [_ Hd Hp]. split; [done|by rewrite Hs|]. intros q Hq target. rewrite Hs. by apply Hp.
Qed.

(** ** Deleted paths *)

(** Every tombstone is the text of a path. *)
Definition tombs_ok (T : gset string) : Prop := forall t, t ∈ T -> exists s, t = show_rel s /\ s <> [] /\ path_ok s.

Lemma tombs_paths {E : Env} {EL : EnvLaws E} T :
  tombs_ok T -> exists D, set_order T = map show_rel D /\ Forall (fun s => s <> []) D /\ Forall path_ok D
                          /\ forall s, s ∈ D -> show_rel s ∈ T.
Proof.
  intros HT. assert (forall t, t ∈ set_order T -> t ∈ T) as Hs.
  { intros t Ht. rewrite set_order_perm in Ht. by apply elem_of_elements in Ht. }
  revert Hs. generalize (set_order T). intros l. induction l as [|t l IH]; intros Hs.
  { exists []. split_and!; try constructor. by intros s Hx%not_elem_of_nil. }
  destruct IH as (D & -> & H1 & H2 & H3); [intros x Hx; apply Hs; by right|].
  destruct (HT t) as (s & -> & Hn & Hp); [apply Hs; by left|]. exists (s :: D). split; [done|].
  split; [by constructor|]. split; [by constructor|]. intros x [->|Hx]%elem_of_cons; [|by apply H3].
  apply Hs. by left.
Qed.

Lemma removed_deleted {E : Env} {EL : EnvLaws E} T D B s :
  set_order T = map show_rel D -> Forall (fun s => s <> []) D -> Forall path_ok D -> path_ok s -> s <> [] ->
  removed B D (B ++ s) = deleted_by T (show_rel s).
Proof.
  intros HD Hn Hp Hs Hne. apply eq_true_iff_eq. rewrite deleted_by_spec by done. unfold removed. rewrite existsb_exists.
  rewrite Forall_forall in Hn, Hp.
  assert (forall t, t ∈ T <-> exists d, t = show_rel d /\ d ∈ D) as HT.
  { intros t. rewrite <- elem_of_elements, <- set_order_perm, HD, list_elem_of_fmap. done. }
  split.
  - intros (d & Hd & Hu). apply list_elem_of_In in Hd. rewrite under_app_cancel in Hu. apply under_prefix in Hu.
    exists d. split; [by apply Hn|]. split; [done|]. apply HT. by exists d.
  - intros (q & Hq & Hpre & Hin). apply HT in Hin as (d & Heq & Hd).
    assert (q = d) as ->.
    { apply show_rel_inj; [|by apply Hp|done]. destruct Hpre as [r ->]. by apply path_ok_app in Hs as [? _]. }
    exists d. split; [by apply list_elem_of_In|]. rewrite under_app_cancel. by apply under_prefix.
Qed.

Section Commit.
Context {E : Env} {EL : EnvLaws E} {J : Serde}.

Lemma bind_ext {S A B} (c c' : M S A) (k k' : A -> M S B) s :
  (forall s, c s = c' s) -> (forall a s, k a s = k' a s) -> bind c k s = bind c' k' s.
Proof. intros Hc Hk. unfold bind. rewrite Hc. destruct (c' s) as [[a|x] s1]; [apply Hk|done]. Qed.

(** A publication to the base without merged texts is a staged merge. *)
Definition from_delta (dir : path) (ss : list path) : list (path * path) := map (fun s => (s, dir ++ s)) ss.

Lemma publish_to_base_eq base dir D ss h :
  Forall path_ok D -> Forall path_ok ss ->
  publish_to_base base merge_empty (map show_rel D) (map (fun s => (show_rel s, dir ++ s)) ss) h
  = staged_merge base D (from_delta dir ss) h.
Proof.
  intros HD Hss. unfold publish_to_base, staged_merge, with_staged.
  match goal with |- (let '(_, _) := ?c ?x in _) = (let '(_, _) := ?d _ in _) => assert (c x = d x) as -> end; [|done].
  apply bind_ext.
  - intros s. rewrite for_each_map. apply for_each_ext. intros a s' Ha. rewrite join_show; [done|].
    rewrite Forall_forall in HD. by apply HD.
  - intros _ s. apply bind_ext; [|done]. intros s0. unfold stage_copies, from_delta. rewrite !for_each_map.
    apply for_each_ext. intros a s' Ha. simpl. by rewrite lookup_empty.
Qed.

Lemma clear_main_in d m rels :
  branch_dir m = d -> keeps (step_in d (within d)) (clear_main_delta m rels).
Proof.
  intros Hd. unfold clear_main_delta. apply keeps_for_each; [apply _|]. intros rel _.
  apply (keeps_bind _); [|intros _; apply keeps_ret, _]. apply (keeps_attempt _).
  assert (forall s, within d (files_dir m ++ s)) as Hin.
  { intros s. unfold within, files_dir. rewrite Hd, <- app_assoc. apply under_app. }
  apply remove_entry_in.
  - apply Hin.
  - unfold join, files_dir. rewrite Hd, <- app_assoc. intros Heq. by apply app_self_nil in Heq.
  - intros q Hq. unfold join in Hq. eapply under_trans; [apply Hin|exact Hq].
Qed.

Lemma exists_dir p h : look (h_tree h) p = Some KDir -> exists_ p h = (Ok true, h).
Proof.
  intros H. unfold exists_, metadata, attempt, bind. rewrite real_path_plain by (intros target; congruence).
  unfold symlink_metadata, get_tree, gets, bind. unfold look in H. by destruct (h_tree h !! p).
Qed.

Lemma remove_store_wf p h h' r : remove_branch_store_dir_all p h = (r, h') -> wf_host h -> wf_host h'.
Proof. intros H Hwf. pose proof (remove_branch_store_dir_all_wf p h Hwf) as Hw. by rewrite H in Hw. Qed.

(** The branch is dropped from memory and from the store. *)
Lemma forget_spec n h w s' :
  wf_host h -> look (h_tree h) (branch_dir_of (storage_path w) n) = Some KDir ->
  forget_branch n (h, w) = (Ok tt, s') ->
  s'.2 = with_branches (delete n (branches w)) w /\ wf_host s'.1
  /\ only_under (branch_dir_of (storage_path w) n) h s'.1
  /\ look (h_tree s'.1) (branch_dir_of (storage_path w) n) = None.
Proof.
  intros Hwf Hd H. unfold forget_branch in H.
  rewrite (bind_step _ _ _ tt (h, with_branches (delete n (branches w)) w)) in H by done.
  rewrite (bind_step _ _ _ (with_branches (delete n (branches w)) w) (h, with_branches (delete n (branches w)) w)) in H by done.
  cbn [storage_path with_branches] in H. rewrite (bind_step _ _ _ true (h, with_branches (delete n (branches w)) w)) in H.
  2:{ unfold on_host, zoom. cbn [fst snd]. by rewrite exists_dir. }
  cbn [when] in H. apply on_host_inv in H as [H ->]. split; [done|]. split; [by eapply remove_store_wf|]. split.
  - pose proof (remove_store_only (branch_dir_of (storage_path w) n) h Hwf) as Ho. by rewrite H in Ho.
  - by eapply remove_store_gone.
Qed.

Lemma write_metadata_mem s : (write_metadata s).2.2 = s.2.
Proof.
  unfold write_metadata. unfold bind at 1, gets, on_host, zoom. destruct (bind _ _ _) as [r h']. done.
Qed.

Lemma count_commit_spec m h w b s' :
  branches w !! m = Some b -> on_branch m count_commit (h, w) = (Ok tt, s') ->
  branches s'.2 = <[m := with_commit_count (wrap_u64 (commit_count b + 1)) b]> (branches w)
  /\ storage_path s'.2 = storage_path w /\ base_path s'.2 = base_path w
  /\ step_in (branch_dir b) (book (branch_dir b)) h s'.1.
Proof.
  intros Hb H. pose proof (on_branch_sstep m count_commit count_commit_bstep (h, w)) as [_ H1 H2]. rewrite H in H1, H2.
  apply (on_branch_inv m count_commit h w b) in H as (b' & Hc & Hbs); [|done].
  split; [|split; [done|split; [done|]]].
  - rewrite Hbs. f_equal. unfold count_commit in Hc.
    rewrite (bind_step _ _ _ tt (h, with_commit_count (wrap_u64 (commit_count b + 1)) b)) in Hc by done.
    pose proof (write_metadata_mem (h, with_commit_count (wrap_u64 (commit_count b + 1)) b)) as Hm. by rewrite Hc in Hm.
  - pose proof (count_commit_bstep (branch_dir b) (h, b) eq_refl) as [_ Hs]. by rewrite Hc in Hs.
Qed.

Definition counted (b : Branch) : Branch := with_commit_count (wrap_u64 (commit_count b + 1)) b.

Lemma remove_entry_shrinks p h : wf_host h -> shrinks h (remove_entry p h).2.
Proof.
  intros Hwf q. destruct (under p q) eqn:Hu; [|left; by apply remove_entry_only].
  destruct (remove_entry p h) as [r h'] eqn:Hr. cbn [snd].
  unfold remove_entry in Hr. rewrite (bind_step _ _ _ _ _ (attempt_stat p h)) in Hr.
  assert (forall r, remove_file_call p h = (r, h') -> look (h_tree h') q = look (h_tree h) q \/ look (h_tree h') q = None) as Hfile.
  { intros r0 Hf. apply remove_file_call_look in Hf. destruct r0; [|subst; by left]. destruct Hf as [_ Hf]. rewrite Hf.
    case_decide; [by right|by left]. }
  destruct (h_tree h !! p) as [m|] eqn:Hm; [|destruct (missing _ _); unfold ret, throw, raise in Hr; by simplify_eq; left].
  destruct (is_dir m) eqn:Hd; [|by eapply Hfile]. unfold remove_branch_store_dir_all in Hr.
  rewrite (bind_step _ _ _ _ _ (attempt_stat p h)), Hm, Hd in Hr. rewrite (bind_step _ _ _ (h_tree h) h) in Hr by done.
  unfold bind in Hr. pose proof (make_removable_same (tree_fuel (h_tree h)) p h) as Hs.
  pose proof (make_removable_wf (tree_fuel (h_tree h)) p h Hwf) as Hw.
  destruct (make_branch_store_tree_removable _ p h) as [[[]|x] h1]; cbn [snd] in *; [|injection Hr as _ <-; left; apply Hs].
  apply remove_dir_all_call_look in Hr; [|done]. destruct r; [right; by rewrite Hr, Hu|subst; left; apply Hs].
Qed.

Lemma clear_main_shrinks m rels h : wf_host h -> shrinks h (clear_main_delta m rels h).2.
Proof.
  revert h. induction rels as [|rel rels IH]; intros h Hwf; [by intros q; left|].
  cbn [clear_main_delta for_each]. unfold clear_main_delta in *. cbn [for_each]. unfold bind, attempt, ret.
  pose proof (remove_entry_shrinks (join (files_dir m) rel) h Hwf) as H1.
  pose proof (remove_entry_wf (join (files_dir m) rel) h Hwf) as H2.
  destruct (remove_entry _ h) as [[[]|[]] h1]; cbn [snd] in *; try done; (etransitivity; [exact H1|]); by apply IH.
Qed.

(** The delta of [main] only loses entries. *)
Definition main_kept (main : Branch) (h h' : host) : Prop :=
  forall q, look (h_tree h') (files_dir main ++ q) = look (h_tree h) (files_dir main ++ q)
            \/ look (h_tree h') (files_dir main ++ q) = None.

(** The step on [main]: its delta gives way, its commits are counted. *)
Lemma update_main_spec main rels h w s' :
  world_ok w -> branches w !! "main" = Some main -> store_ok (branch_dir main) h ->
  (do* on_host (clear_main_delta main rels); on_branch "main" count_commit) (h, w) = (Ok tt, s') ->
  branches s'.2 = <["main" := counted main]> (branches w)
  /\ storage_path s'.2 = storage_path w /\ base_path s'.2 = base_path w
  /\ store_ok (branch_dir main) s'.1
  /\ (forall q, ~ within (branch_dir main) q -> look (h_tree s'.1) q = look (h_tree h) q)
  /\ main_kept main h s'.1.
Proof.
  intros Hw Hm Hok H. apply bind_ok in H as ([] & [h1 w1] & H1 & H). apply on_host_inv in H1 as [H1 Hw1].
  cbn [fst snd] in *. subst w1.
  pose proof (clear_main_in (branch_dir main) main rels eq_refl h Hok) as [Hok1 Hl1]. rewrite H1 in Hok1, Hl1.
  apply (count_commit_spec _ _ _ main) in H as (Hb & Hs & Hba & Hin); [|done]. destruct (Hin Hok1) as [Hok2 Hl2].
  split_and!; try done.
  - intros q Hq. rewrite Hl2 by (by intros ?%book_within). by apply Hl1.
  - intros q. rewrite Hl2.
    + pose proof (clear_main_shrinks main rels h ltac:(apply Hok) (files_dir main ++ q)) as Hsh. by rewrite H1 in Hsh.
    + intros Hbk%book_not_delta. apply Hbk. unfold delta_part. apply under_app.
Qed.

Lemma commit_to_main_spec n b main ss D h w s' :
  world_ok w -> branches w !! n = Some b -> n <> "main" -> branches w !! "main" = Some main ->
  store_ok (branch_dir main) h -> store_ok (branch_dir b) h ->
  merge_input (base_path w) h D (from_delta (files_dir b) ss) -> Forall path_ok D -> Forall path_ok ss ->
  commit_to_main n merge_empty (map show_rel D) (map (fun s => (show_rel s, files_dir b ++ s)) ss) (h, w) = (Ok tt, s') ->
  branches s'.2 = delete n (<["main" := counted main]> (branches w))
  /\ look (h_tree s'.1) (branch_dir b) = None /\ wf_host s'.1 /\ base_path s'.2 = base_path w
  /\ main_kept main h s'.1
  /\ exists hm, merge_output (base_path w) h D (from_delta (files_dir b) ss) hm
       /\ forall s, look (h_tree s'.1) (base_path w ++ s) = look (h_tree hm) (base_path w ++ s).
Proof.
  intros Hw Hb Hn Hm Hokm Hokb Hmi HD Hss H. unfold commit_to_main in H.
  rewrite (bind_step _ _ _ w (h, w)) in H by done. apply bind_ok in H as (rels & [h1 w1] & H1 & H).
  apply on_host_inv in H1 as [H1 Hw1]. cbn [fst snd] in *. subst w1. rewrite publish_to_base_eq in H1 by done.
  apply staged_merge_spec in H1 as [-> Hmo]; [|done]. rewrite Hm in H.
  pose proof (wo_dirs _ Hw _ _ Hb) as Hdb. pose proof (wo_dirs _ Hw _ _ Hm) as Hdm.
  destruct (wo_apart _ Hw) as [Ha1 Ha2].
  assert (store_ok (branch_dir main) h1) as Hokm1.
  { rewrite Hdm in *. eapply off_base_store_ok; [done|apply Hmo|apply Hmo|done]. }
  assert (look (h_tree h1) (branch_dir b) = Some KDir) as Hdir1.
  { rewrite (mo_outside _ _ _ _ _ Hmo); [apply Hokb|]. rewrite Hdb, <- (app_nil_r (branch_dir_of _ _)).
    by apply store_off_base. }
  apply bind_ok in H as ([] & [h2 w2] & H2 & H).
  apply update_main_spec in H2 as (Hb2 & Hs2 & Hba2 & Hok2 & Hl2 & Hk2); [|done..]. cbn [fst snd] in *.
  apply bind_ok in H as ([] & [h3 w3] & H3 & H). rewrite Hdb, <- Hs2 in Hdir1.
  apply forget_spec in H3 as (Hw3 & Hwf3 & Ho3 & Hg3); [|apply Hok2|].
  2:{ rewrite Hl2; [done|]. rewrite Hs2, Hdm, <- (app_nil_r (branch_dir_of _ n)). by apply outside_other. }
  unfold on_mem, modify, bind in H. injection H as <-. cbn [fst snd] in *. rewrite Hw3.
  split; [cbn; by rewrite Hb2|]. split; [by rewrite Hdb, <- Hs2|]. split; [done|]. split; [done|]. split.
  { intros q. rewrite Ho3.
    - destruct (Hk2 q) as [Hq| ->]; [|by right]. rewrite Hq. left. apply (mo_outside _ _ _ _ _ Hmo).
      unfold files_dir. rewrite Hdm, <- app_assoc. by apply store_off_base.
    - apply not_true_iff_false. rewrite Hs2. unfold files_dir. rewrite Hdm, <- app_assoc. by apply outside_other. }
  exists h1. split; [done|]. intros s.
  rewrite Ho3, Hl2; [done| |].
  - rewrite Hdm. by apply outside_base.
  - apply not_true_iff_false. rewrite Hs2. by apply outside_base.
Qed.

(** A child of [main] whose delta and tombstones can be published: the stores
    are in order, names are file names other than those of side files, and the
    base holds no side files an interrupted commit left. *)
Record publishable (n : string) (b main : Branch) (h : host) (w : World) : Prop := {
  pu_branch : branches w !! n = Some b;
  pu_main : branches w !! "main" = Some main;
  pu_parent : br_parent b = Some "main";
  pu_unchanged : commit_count main = parent_version_at_fork b;
  pu_store : store_ok (branch_dir b) h;
  pu_main_store : store_ok (branch_dir main) h;
  pu_files : look (h_tree h) (files_dir b) = Some KDir;
  pu_base : look (h_tree h) (base_path w) = Some KDir;
  pu_names : forall s, leaf_at (h_tree h) (files_dir b) s -> path_ok s /\ visible s;
  pu_tombs : tombs_ok (tombstones b);
  pu_fresh : forall s, is_Some (look (h_tree h) (base_path w ++ s)) -> visible s;
}.

(** The walk has run: what the merge is given. *)
Lemma publishable_input n b main h w h1 D ss :
  world_ok w -> publishable n b main h w -> same_look h h1 -> wf_host h1 ->
  Forall (fun s => s <> []) D -> antichain ss -> (forall s, s ∈ ss <-> leaf_at (h_tree h) (files_dir b) s) ->
  merge_input (base_path w) h1 D (from_delta (files_dir b) ss) /\ Forall path_ok ss.
Proof.
  intros Hw [Hb Hm Hp _ Hok _ _ Hbase Hnames _ Hfresh] Hs Hwf HD Hanti Hss.
  assert (Forall path_ok ss) as Hpok.
  { apply Forall_forall. intros s Hin. apply Hss in Hin. by apply Hnames. }
  split; [|done]. split; [done|by rewrite Hs|done| | |intros s; rewrite Hs; apply Hfresh].
  - split.
    + apply Forall_forall. intros x (s & -> & Hin)%list_elem_of_fmap. apply Hss in Hin. pose proof (Hnames s Hin) as [? ?].
      destruct Hin as [Hne _]. split; [done|done|done|]. simpl. unfold files_dir.
      rewrite (wo_dirs _ Hw _ _ Hb), <- app_assoc. by apply store_off_base; apply (wo_apart _ Hw).
    + unfold from_delta. rewrite <- list_fmap_compose. by rewrite list_fmap_id.
  - intros x (s & -> & Hin)%list_elem_of_fmap. apply Hss in Hin as (_ & k & Hk & Hkd). exists k. simpl. by rewrite Hs.
Qed.

Lemma commit_run n b main h w o s' :
  world_ok w -> publishable n b main h w -> commit_with_report n (h, w) = (Ok o, s') ->
  exists h1 D ss,
    same_look h h1 /\ wf_host h1 /\ set_order (tombstones b) = map show_rel D
    /\ Forall (fun s => s <> []) D /\ Forall path_ok D /\ antichain ss
    /\ (forall s, s ∈ ss <-> leaf_at (h_tree h) (files_dir b) s)
    /\ commit_to_main n merge_empty (map show_rel D) (map (fun s => (show_rel s, files_dir b ++ s)) ss) (h1, w) = (Ok tt, s')
    /\ o = {| parent_name := "main"; auto_merges := []; conflicts := [] |} /\ n <> "main".
Proof.
  intros Hw Hpu H. pose proof Hpu as [Hb Hm Hp Hun Hok _ Hfiles _ _ HT _].
  destruct (tombs_paths _ HT) as (D & HD & HDn & HDp & _).
  unfold commit_with_report in H. destruct (leaf_with_parent_spec n h w) as [(b0 & p0 & Heq & Hn & Hb0 & Hp0 & _)|[x Heq]].
  2:{ by rewrite (bind_fail _ _ _ _ _ Heq) in H. }
  rewrite (bind_step _ _ _ _ _ Heq) in H. assert (b0 = b) as -> by congruence. assert (p0 = "main") as -> by congruence.
  rewrite (bind_step _ _ _ main (h, w)) in H.
  2:{ unfold lookup_branch, gets, bind, ret. cbn [fst snd]. by rewrite Hm. }
  rewrite (bind_step _ _ _ w (h, w)) in H by done. rewrite (bind_step _ _ _ (h_tree h) (h, w)) in H by done.
  destruct (walk_lists_delta (files_dir b) h) as (out & h1 & Hwalk & Hs & Hout); [apply Hok|done|].
  destruct (walked_paths _ _ _ Hout) as (ss & -> & Hanti & Hss); [apply Hok|].
  rewrite (bind_step _ _ _ (map (fun s => (show_rel s, files_dir b ++ s)) ss) (h1, w)) in H.
  2:{ unfold on_host, zoom. cbn [fst snd]. by rewrite Hwalk. }
  rewrite (bool_decide_true (commit_count main = parent_version_at_fork b)) in H by done. cbn [negb] in H.
  rewrite (bind_step _ _ _ merge_empty (h1, w)) in H by done. rewrite bool_decide_true in H by done.
  unfold get_tombstones in H. rewrite HD in H. apply bind_ok in H as ([] & s2 & Hc & H). injection H as <- <-.
  assert (wf_host h1) as Hwf1 by (eapply wf_look_ext; [apply Hs|apply Hok]).
  by exists h1, D, ss.
Qed.

(** C7: a commit into an unchanged [main] publishes the branch.  Every file and
    link of its delta is at its place in the base directory; what has no file of
    the delta at, above or below it is gone if the branch deleted it and as it was
    otherwise; the branch is dropped, from memory and from the store, and [main]
    has one commit more. *)
Theorem commit_publishes_delta n b main h w o s' :
  world_ok w -> publishable n b main h w -> commit_with_report n (h, w) = (Ok o, s') ->
  (parent_name o = "main" /\ auto_merges o = [] /\ conflicts o = [])
  /\ (forall s k, s <> [] -> look (h_tree h) (files_dir b ++ s) = Some k -> k <> KDir ->
        look (h_tree s'.1) (base_path w ++ s) = Some k)
  /\ (forall s, s <> [] -> path_ok s -> visible s ->
        (forall l, leaf_at (h_tree h) (files_dir b) l -> ~ l `prefix_of` s /\ ~ s `prefix_of` l) ->
        look (h_tree s'.1) (base_path w ++ s)
        = if deleted_by (tombstones b) (show_rel s) then None else look (h_tree h) (base_path w ++ s))
  /\ branches s'.2 = delete n (<["main" := counted main]> (branches w))
  /\ look (h_tree s'.1) (branch_dir b) = None.
Proof.
  intros Hw Hpu H. pose proof (commit_run n b main h w o s' Hw Hpu H)
    as (h1 & D & ss & Hs & Hwf1 & HD & HDn & HDp & Hanti & Hss & Hc & -> & Hn).
  destruct (publishable_input n b main h w h1 D ss Hw Hpu Hs Hwf1 HDn Hanti Hss) as [Hmi Hssp].
  apply (commit_to_main_spec n b main) in Hc as (Hbs & Hgone & _ & _ & _ & hm & Hmo & Hbase); try done; try apply Hpu.
  2, 3: (eapply same_store_ok; [done|done|apply Hpu]).
  split; [done|]. split; [|split; [|done]].
  - intros s k Hne Hk Hkd. rewrite Hbase.
    assert ((s, files_dir b ++ s) ∈ from_delta (files_dir b) ss) as Hin.
    { apply list_elem_of_fmap. exists s. split; [done|]. apply Hss. split; [done|]. by exists k. }
    pose proof (mo_copied _ _ _ _ _ Hmo _ Hin) as Hcp. simpl in Hcp. by rewrite Hcp, Hs.
  - intros s Hne Hp Hv Hl. rewrite Hbase, (mo_rest _ _ _ _ _ Hmo); [|done|].
    + by rewrite (removed_deleted (tombstones b)), Hs.
    + intros x (l & -> & Hin)%list_elem_of_fmap. apply Hl. by apply Hss.
Qed.

(** What a child of [main] shows at a path that [main] itself leaves to the base. *)
Lemma shown_lazy_child n b main h w s :
  world_ok w -> branches w !! n = Some b -> branches w !! "main" = Some main ->
  br_parent b = Some "main" -> inheritance b = Lazy -> br_parent main = None -> path_ok s ->
  transparent (h_tree h) s main -> is_hidden b (show s) = false ->
  shown n s (h, w) = match look (h_tree h) (files_dir b ++ s) with
                     | Some k => Some k
                     | None => if is_deleted b (show s) then None else look (h_tree h) (base_path w ++ s)
                     end.
Proof.
  intros Hw Hb Hm Hp Hi Hpm Hs (Hn & Hd & Hh) Hhb.
  assert (lineage (base_path w) (branches w) n [b; main] (base_path w)) as Hl.
  { eapply lineage_lazy; [done..|]. by constructor. }
  unfold shown. destruct (resolve_path_lineage n s h w _ _ Hw Hs Hl) as [-> _]. cbn [first_layer fst].
  rewrite Hn, Hd, Hh, Hhb, orb_false_r. rewrite (decide_False (P:=is_Some None)) by by intros [].
  destruct (look (h_tree h) (files_dir b ++ s)) as [k|] eqn:Hk.
  - rewrite decide_True; [done|]. apply look_is_Some. by eexists.
  - rewrite decide_False by (rewrite <- look_is_Some, Hk; by intros []).
    destruct (is_deleted b (show s)); [done|]. cbn [orb]. case_decide as Hx; [done|].
    symmetry. apply look_None. by apply eq_None_not_Some.
Qed.

Lemma shown_main main h w s :
  world_ok w -> branches w !! "main" = Some main -> br_parent main = None -> path_ok s ->
  transparent (h_tree h) s main -> shown "main" s (h, w) = look (h_tree h) (base_path w ++ s).
Proof.
  intros Hw Hm Hpm Hs (Hn & Hd & Hh).
  assert (lineage (base_path w) (branches w) "main" [main] (base_path w)) as Hl by by constructor.
  unfold shown. destruct (resolve_path_lineage "main" s h w _ _ Hw Hs Hl) as [-> _]. cbn [first_layer fst].
  rewrite Hn, Hd, Hh. rewrite (decide_False (P:=is_Some None)) by by intros []. cbn [orb].
  case_decide as Hx; [done|]. symmetry. apply look_None. by apply eq_None_not_Some.
Qed.

(** C8: what a commit into an unchanged [main] does to what is seen: [main] shows
    afterwards, at every path it has no changes of its own at and the branch does
    not hide, what the branch showed before - unless the path is a directory of the
    delta that holds no file, which a commit forgets, or lies below a file of it. *)
Theorem commit_makes_main_show_branch n b main h w o s' s :
  world_ok w -> publishable n b main h w -> inheritance b = Lazy -> br_parent main = None ->
  commit_with_report n (h, w) = (Ok o, s') ->
  s <> [] -> path_ok s -> visible s -> transparent (h_tree h) s main -> is_hidden b (show s) = false ->
  (forall l, leaf_at (h_tree h) (files_dir b) l -> l `prefix_of` s -> l = s) ->
  (look (h_tree h) (files_dir b ++ s) = Some KDir -> exists l, leaf_at (h_tree h) (files_dir b) l /\ s `prefix_of` l) ->
  shown "main" s s' = shown n s (h, w).
Proof.
  intros Hw Hpu Hi Hpm H Hne Hp Hv Htr Hhb Habove Hdir.
  pose proof (commit_with_report_istep n (h, w) Hw) as Hw'. rewrite H in Hw'. cbn [fst snd] in Hw'.
  pose proof (commit_run n b main h w o s' Hw Hpu H) as (h1 & D & ss & Hs & Hwf1 & HD & HDn & HDp & Hanti & Hss & Hc & _ & Hn).
  destruct (publishable_input n b main h w h1 D ss Hw Hpu Hs Hwf1 HDn Hanti Hss) as [Hmi Hssp].
  apply (commit_to_main_spec n b main) in Hc as (Hbs & _ & Hwf' & Hbp & Hkept & hm & Hmo & Hbase); try done; try apply Hpu.
  2, 3: (eapply same_store_ok; [done|done|apply Hpu]).
  rewrite (shown_lazy_child n b main) by (done || apply Hpu). destruct s' as [h' w'].
  assert (branches w' !! "main" = Some (counted main)) as Hm'.
  { cbn in Hbs. rewrite Hbs, lookup_delete_ne by done. apply lookup_insert_eq. }
  rewrite (shown_main (counted main)); [|done..|].
  2:{ destruct Htr as (Ht1 & Ht2 & Ht3). split; [|done]. apply look_None. destruct (Hkept s) as [He|He]; [|done].
      cbn [fst] in He. change (files_dir (counted main)) with (files_dir main). rewrite He, Hs. by apply look_None. }
  cbn [fst snd] in *. rewrite Hbp. rewrite Hbase.
  assert (forall l, leaf_at (h_tree h) (files_dir b) l -> look (h_tree hm) (base_path w ++ l) = look (h_tree h) (files_dir b ++ l)) as Hleaf.
  { intros l Hl. assert ((l, files_dir b ++ l) ∈ from_delta (files_dir b) ss) as Hin.
    { apply list_elem_of_fmap. exists l. split; [done|]. by apply Hss. }
    pose proof (mo_copied _ _ _ _ _ Hmo _ Hin) as Hcp. simpl in Hcp. by rewrite Hcp, Hs. }
  destruct (look (h_tree h) (files_dir b ++ s)) as [k|] eqn:Hk.
  - destruct (decide (k = KDir)) as [->|Hkd].
    + destruct (Hdir eq_refl) as (l & Hl & r & ->). destruct r as [|c r].
      { rewrite app_nil_r in Hl. destruct Hl as (_ & k' & Hk' & ?). congruence. }
      eapply (wf_below _ _ (c :: r)); [apply Hmo|done|]. rewrite <- app_assoc. apply look_is_Some. rewrite Hleaf by done.
      destruct Hl as (_ & k' & Hk' & _). by rewrite Hk'.
    + rewrite Hleaf, Hk; [done|]. split; [done|]. by exists k.
  - rewrite (mo_rest _ _ _ _ _ Hmo); [|done|].
    + rewrite (removed_deleted (tombstones b)), Hs by done. unfold is_deleted. by destruct s.
    + intros x (l & -> & Hin%Hss)%list_elem_of_fmap. simpl. split.
      * intros Hpre. pose proof (Habove l Hin Hpre) as ->. destruct Hin as (_ & k & Hk' & _). congruence.
      * intros [r ->]. destruct r as [|c r]; [rewrite app_nil_r in Hin; destruct Hin as (_ & k & Hk' & _); congruence|].
        destruct Hin as (_ & k & Hk' & _). rewrite app_assoc in Hk'.
        rewrite (wf_below (h_tree h) (files_dir b ++ s) (c :: r)) in Hk; [done|apply Hpu|done|].
        apply look_is_Some. by eexists.
Qed.

(** *** Abort *)

Lemma forget_ok n h w :
  wf_host h -> look (h_tree h) (branch_dir_of (storage_path w) n) = Some KDir ->
  exists s', forget_branch n (h, w) = (Ok tt, s').
Proof.
  intros Hwf Hd. unfold forget_branch.
  rewrite (bind_step _ _ _ tt (h, with_branches (delete n (branches w)) w)) by done.
  rewrite (bind_step _ _ _ (with_branches (delete n (branches w)) w) (h, with_branches (delete n (branches w)) w)) by done.
  cbn [storage_path with_branches]. rewrite (bind_step _ _ _ true (h, with_branches (delete n (branches w)) w)).
  2:{ unfold on_host, zoom. cbn [fst snd]. by rewrite exists_dir. }
  destruct (remove_store_ok (branch_dir_of (storage_path w) n) h) as [h' Hr]; [done|by unfold branch_dir_of; destruct (storage_path w)|done|].
  cbn [when]. unfold on_host, zoom. cbn [fst snd]. rewrite Hr. by eexists.
Qed.

(** The layers below the first are parents. *)
Lemma lineage_parents base bs m l r a :
  lineage base bs m l r -> a ∈ l -> bs !! m = Some a \/ exists k c q, bs !! k = Some c /\ br_parent c = Some q /\ bs !! q = Some a.
Proof.
  induction 1 as [m b Hb _|m b p Hb _ _|m b p l r Hb Hp _ _ IH]; intros Ha.
  - apply list_elem_of_singleton in Ha as ->. by left.
  - apply list_elem_of_singleton in Ha as ->. by left.
  - apply elem_of_cons in Ha as [->|Ha]; [by left|right]. destruct (IH Ha) as [Hq|?]; [|done]. by exists m, b, p.
Qed.

Lemma leaf_not_below n m b l r w :
  world_ok w -> branches w !! n = Some b -> is_leaf n (branches w) = true ->
  lineage (base_path w) (branches w) m l r -> m <> n -> b ∉ l.
Proof.
  intros Hw Hb Hleaf Hl Hmn Hin.
  assert (forall q, branches w !! q = Some b -> q = n) as Hname.
  { intros q Hq. pose proof (wo_dirs _ Hw _ _ Hq) as H1. rewrite (wo_dirs _ Hw _ _ Hb) in H1.
    apply app_inv_head in H1. by injection H1. }
  destruct (lineage_parents _ _ _ _ _ _ Hl Hin) as [Hm|(k & c & q & Hk & Hp & Hq)]; [by apply Hmn, Hname|].
  apply Hname in Hq as ->. unfold is_leaf in Hleaf. apply negb_true_iff, not_true_iff_false in Hleaf. apply Hleaf.
  apply existsb_exists. exists (k, c). split; [by apply list_elem_of_In, elem_of_map_to_list|].
  by apply bool_decide_eq_true.
Qed.

(** C18: an abort always succeeds on a leaf other than [main] whose store is
    there, and does no more than drop it: the branch and its store are gone, no
    other entry of the host changes, and every other branch resolves every path as
    before, to the same contents. *)
Theorem abort_discards_branch n b p h w :
  world_ok w -> branches w !! n = Some b -> n <> "main" -> br_parent b = Some p ->
  is_leaf n (branches w) = true -> store_ok (branch_dir b) h ->
  exists s', abort n (h, w) = (Ok p, s')
    /\ branches s'.2 = delete n (branches w) /\ look (h_tree s'.1) (branch_dir b) = None
    /\ only_under (branch_dir b) h s'.1
    /\ forall m l r q, m <> n -> lineage (base_path w) (branches w) m l r -> path_ok q ->
         (resolve_path m (show q) s').1 = (resolve_path m (show q) (h, w)).1
         /\ forall x, (resolve_path m (show q) (h, w)).1 = Ok (Some x) -> look (h_tree s'.1) x = look (h_tree h) x.
Proof.
  intros Hw Hb Hn Hp Hleaf [Hwf Hd _]. pose proof (wo_dirs _ Hw _ _ Hb) as Hdir. rewrite Hdir in *.
  destruct (forget_ok n h w Hwf Hd) as [[h1 w1] Hf].
  apply (forget_spec n h w) in Hf as Hs; [|done..]. destruct Hs as (Hw1 & Hwf1 & Ho & Hg). cbn [fst snd] in *.
  pose proof (delete_leaf_ok n w Hw Hn Hleaf) as Hok'.
  exists (h1, invalidate_branches [n] w1). split.
  { unfold abort. destruct (leaf_with_parent_spec n h w) as [(b0 & p0 & Heq & _ & Hb0 & Hp0 & _)|[x Heq]].
    - assert (b0 = b) as -> by congruence. assert (p0 = p) as -> by congruence.
      rewrite (bind_step _ _ _ _ _ Heq), (bind_step _ _ _ _ _ Hf). done.
    - unfold leaf_with_parent in Heq. rewrite bool_decide_false in Heq by done.
      rewrite (bind_step _ _ _ b (h, w)), (bind_step _ _ _ w (h, w)) in Heq; [|done|].
      + by rewrite Hleaf, Hp in Heq.
      + unfold lookup_branch, gets, bind, ret. cbn [fst snd]. by rewrite Hb. }
  cbn [fst snd]. subst w1. split; [done|]. split; [done|]. split; [done|]. intros m l r q Hmn Hl Hq.
  pose proof (leaf_not_below n m b l r w Hw Hb Hleaf Hl Hmn) as Hbl.
  destruct (layers_off_store n m b l r w q Hw Hb Hl Hbl) as [H1 H2]. rewrite Hdir in H1, H2.
  assert (lineage (base_path w) (delete n (branches w)) m l r) as Hl'.
  { eapply lineage_other; [done..|]. intros k Hk. by rewrite lookup_delete_ne. }
  assert (forall x, ~ within (branch_dir_of (storage_path w) n) x -> look (h_tree h1) x = look (h_tree h) x) as Hx.
  { intros x Hx. by apply Ho, not_true_iff_false. }
  destruct (resolve_path_lineage m q h w l r Hw Hq Hl) as [-> _].
  destruct (resolve_path_lineage m q h1 (invalidate_branches [n] (with_branches (delete n (branches w)) w)) l r) as [-> _];
    [|done|done|].
  { apply (same_world_ok (with_branches (delete n (branches w)) w)); [by apply same_world_fields|done]. }
  split.
  - f_equal. apply first_layer_ext; [intros a Ha; apply Hx; auto|by apply Hx].
  - intros x [= Hres]. apply first_layer_served in Hres as [_ [(l1 & a & l2 & -> & -> & _)|[-> _]]]; apply Hx; [|done].
    apply H1. apply elem_of_app. right. by left.
Qed.
End Commit.

(** ** A run: [fix] deletes "/a", hides "/s" and has its own "/c" *)

Definition commit_run_example := @commit_with_report example_env example_serde "fix" (example_host, example_world).

Lemma commit_example_ok :
  commit_run_example = (Ok {| parent_name := "main"; auto_merges := []; conflicts := [] |}, commit_run_example.2).
Proof. apply run_ok. vm_compute. reflexivity. Qed.
Lemma example_main_store : store_ok ["store"; "branches"; "main"] example_host.
Proof.
  split; [apply wf_treeb_ok; vm_compute; reflexivity|reflexivity|].
  intros q _. apply link_free_plain. vm_compute. reflexivity.
Qed.

(** The entries of the example below a directory. *)
Definition names_below (t : tree) (d : path) : list path := omap (strip d) (map fst (map_to_list t)).
Lemma elem_of_names_below t d s : s ∈ names_below t d <-> is_Some (t !! (d ++ s)).
Proof.
  unfold names_below. rewrite list_elem_of_omap. split.
  - intros (q & ([q' n] & -> & Hin)%list_elem_of_fmap & Hs). apply strip_Some in Hs. simpl in Hs. subst.
    apply elem_of_map_to_list in Hin. by eexists.
  - intros [n Hn]. exists (d ++ s). rewrite strip_app. split; [|done]. apply list_elem_of_fmap.
    exists (d ++ s, n). split; [done|]. by apply elem_of_map_to_list.
Qed.

Definition good_name (c : string) : bool := name_ok c && negb (side_file c).
Lemma names_good (t : tree) d :
  forallb (forallb good_name) (names_below t d) = true -> forall s, is_Some (t !! (d ++ s)) -> path_ok s /\ visible s.
Proof.
  rewrite forallb_forall. intros H s Hs. apply elem_of_names_below, list_elem_of_In, H in Hs.
  rewrite forallb_forall in Hs. split; apply Forall_forall; intros c Hc; apply list_elem_of_In, Hs in Hc;
    apply andb_true_iff in Hc as [H1 H2]; [done|by apply negb_true_iff].
Qed.

Lemma example_publishable : publishable "fix" example_fix (example_branch "main" None ∅ []) example_host example_world.
Proof.
  split; try reflexivity.
  - apply example_store_ok.
  - apply example_main_store.
  - intros s (_ & k & Hk & _). apply (names_good example_tree ["store"; "branches"; "fix"; "files"]).
    + vm_compute. reflexivity.
    + apply look_is_Some. by exists k.
  - intros t Ht. change (tombstones example_fix) with ({["/a"]} : gset string) in Ht.
    apply elem_of_singleton in Ht as ->. exists ["a"]. by repeat constructor.
  - intros s Hs. apply (names_good example_tree ["base"]); [vm_compute; reflexivity|]. by apply look_is_Some.
Qed.

Lemma example_leaf l : leaf_at example_tree ["store"; "branches"; "fix"; "files"] l -> l = ["c"].
Proof.
  intros (Hne & k & Hk & _). assert (l ∈ names_below example_tree ["store"; "branches"; "fix"; "files"]) as Hin.
  { apply elem_of_names_below, look_is_Some. by exists k. }
  assert (names_below example_tree ["store"; "branches"; "fix"; "files"] ≡ₚ [[]; ["c"]]) as Hp.
  { vm_compute. reflexivity. }
  rewrite Hp in Hin. clear Hk Hp. apply elem_of_cons in Hin as [->|Hin]; [by destruct Hne|].
  by apply list_elem_of_singleton in Hin.
Qed.

Lemma commit_publishes_delta_witness :
  let s' := commit_run_example.2 in
  look (h_tree s'.1) ["base"; "c"] = Some (KFile (bytes_of "C"))
  /\ look (h_tree s'.1) ["base"; "a"] = None
  /\ look (h_tree s'.1) ["base"; "b"] = Some (KFile (bytes_of "B"))
  /\ branches s'.2 !! "fix" = None.
Proof.
  intros s'. destruct (commit_publishes_delta (E:=example_env) (J:=example_serde) "fix" example_fix
    (example_branch "main" None ∅ []) example_host example_world _ s' example_world_ok example_publishable commit_example_ok)
    as (_ & Hf & Hr & Hb & _).
  assert (forall l, leaf_at example_tree ["store"; "branches"; "fix"; "files"] l -> l = ["c"]) as Hl by exact example_leaf.
  split; [apply (Hf ["c"]); [done|reflexivity|done]|]. split; [|split].
  - apply (Hr ["a"]); [done|by repeat constructor|by repeat constructor|].
    intros l ->%Hl. split; intros H%prefix_cons_inv_1; done.
  - apply (Hr ["b"]); [done|by repeat constructor|by repeat constructor|].
    intros l ->%Hl. split; intros H%prefix_cons_inv_1; done.
  - rewrite Hb. apply lookup_delete_eq.
Defined.

Lemma example_c : look (h_tree example_host) (files_dir example_fix ++ ["c"]) = Some (KFile (bytes_of "C")).
Proof. vm_compute. reflexivity. Qed.

Lemma commit_makes_main_show_branch_witness :
  shown "main" ["c"] commit_run_example.2 = shown "fix" ["c"] (example_host, example_world).
Proof.
  apply (commit_makes_main_show_branch (E:=example_env) (J:=example_serde) "fix" example_fix
    (example_branch "main" None ∅ []) example_host example_world _ commit_run_example.2 ["c"]
    example_world_ok example_publishable eq_refl eq_refl commit_example_ok).
  - done.
  - by repeat constructor.
  - by repeat constructor.
  - split; [reflexivity|split; reflexivity].
  - reflexivity.
  - intros l Hl _. by apply example_leaf.
  - rewrite example_c. intros H. discriminate H.
Defined.

Definition abort_example := @abort example_env "fix" (example_host, example_world).

Lemma abort_discards_branch_witness :
  exists s', abort_example = (Ok "main", s')
    /\ branches s'.2 = delete "fix" example_branches
    /\ look (h_tree s'.1) ["store"; "branches"; "fix"] = None.
Proof.
  destruct (abort_discards_branch (E:=example_env) "fix" example_fix "main" example_host example_world
    example_world_ok eq_refl) as (s' & H1 & H2 & H3 & _).
  - done.
  - reflexivity.
  - vm_compute. reflexivity.
  - apply example_store_ok.
  - exists s'. split; [exact H1|]. split; [exact H2|exact H3].
Defined.
