(* ===== verification/ConflictSpec.v ===== *)
(** * What a commit reports

    When the parent has had a commit since the fork, a commit compares, path by
    path, what the branch saw at its first touch with what the parent shows now.
    The report is a function of the store as it was before the commit; the texts
    the merge leaves beside the branch on the way do not enter it. *)

From S2P Require Import Prelude Strs HostFs Staged Quota TextMerge Branch Codec View Manager Commit Frame BranchLaws.
From S2P Require Import Isolation WorldInv ManagerSpec EditSpec WriteSpec WalkSpec StagedSpec CommitSpec.

Open Scope bool_scope.

(** ** What identities and texts depend on *)

(** Kind, content and time of an entry. *)
Definition stat (t : tree) (q : path) : option (kind * Z) := (fun n => (n_kind n, n_mtime n)) <$> t !! q.

Definition identity_at (s : option (kind * Z)) : PathIdentity :=
  match s with
  | None => identity_missing
  | Some (k, z) =>
      {| pi_exists := true; pi_kind := kind_name k;
         pi_bytes := match k with KFile d => Z.of_nat (length d) | _ => 0 end;
         pi_mtime_ns := if (0 <=? z)%Z then Some z else None |}
  end.
Definition data_at (s : option (kind * Z)) : option bytes :=
  match s with Some (KFile d, _) => Some d | _ => None end.
(** A text the merge takes: no more than a megabyte, UTF-8, no zero byte. *)
Definition text_at (s : option (kind * Z)) : option bytes :=
  match data_at s with
  | Some d =>
      if (MAX_TEXT_MERGE_BYTES <? Z.of_nat (length d))%Z || existsb (fun c => bool_decide (c = Ascii.zero)) d
         || negb (utf8_valid d)
      then None else Some d
  | None => None
  end.

Definition same_stat (h h' : host) : Prop := forall q, stat (h_tree h') q = stat (h_tree h) q.
#[export] Instance same_stat_preorder : PreOrder same_stat.
Proof. split; [by intros h q|]. intros a b c Hab Hbc q. by rewrite Hbc, Hab. Qed.

Lemma look_stat t q : look t q = fst <$> stat t q.
Proof. unfold look, stat. by destruct (t !! q). Qed.
Lemma stat_is_Some t q : is_Some (stat t q) <-> is_Some (t !! q).
Proof. unfold stat. apply fmap_is_Some. Qed.

Section Reads.
Context {E : Env}.

Lemma set_permissions_stat q m : keeps same_stat (set_permissions q m).
Proof.
  intros h. unfold set_permissions, real_path, symlink_metadata, get_tree, io_error, throw, raise, ret, gets, modify, bind.
  destruct (follow _ _ _) as [[p k]|e]; [|done]. destruct (h_tree h !! p) as [n|] eqn:Hn; [|done].
  intros r. simpl. unfold stat. destruct (decide (r = p)) as [->|Hne]; [|by rewrite lookup_alter_ne].
  by rewrite lookup_alter_eq, Hn.
Qed.
#[local] Hint Resolve set_permissions_stat : keeps.

Lemma walk_files_stat f d pre : keeps same_stat (walk_files f d pre).
Proof.
  revert d pre. induction f as [|f IH]; intros d pre; simpl;
    unfold with_guard, guard_new, guard_drop, add_owner_rwx_if_dir; keeps_auto.
Qed.

Lemma identity_from_path_eq q h :
  identity_from_path q h = (Ok (identity_at (x ← q; stat (h_tree h) x)), h).
Proof.
  destruct q as [q|]; [|done]. unfold identity_from_path, symlink_metadata, get_tree, io_error, throw, raise, attempt, ret, gets, bind.
  simpl. unfold stat. destruct (h_tree h !! q) as [[k m z t]|]; [|done]. simpl. unfold identity_of. do 2 f_equal. by destruct k.
Qed.

Lemma read_plain q h k m z t :
  h_tree h !! q = Some (Node k m z t) -> (forall target, k <> KSymlink target) ->
  read q h = match k with KFile d => (Ok d, h) | KDir => (Err (Throw (Io EISDIR)), h) | _ => (Err (Throw (Io EINVAL)), h) end.
Proof.
  intros Hq Hk. unfold read, metadata. rewrite !bind_assoc. rewrite (bind_step _ _ h q h).
  2:{ apply real_path_plain. unfold not_link, look. rewrite Hq. intros target [= ->]. by apply (Hk target). }
  unfold symlink_metadata, get_tree, io_error, throw, raise, ret, gets, bind. rewrite Hq. by destruct k.
Qed.

Lemma read_bounded_eq q h x h' :
  read_bounded_text q h = (Ok x, h') -> h' = h /\ x = text_at (stat (h_tree h) q).
Proof.
  unfold read_bounded_text. unfold bind at 1. unfold attempt, symlink_metadata, get_tree, gets, bind at 1.
  unfold stat, text_at, io_error, throw, raise, ret. simpl.
  destruct (h_tree h !! q) as [[k m z t]|] eqn:Hq; simpl.
  - destruct k as [d| |target|]; simpl; try (intros; simplify_eq; done).
    change (node_len (Node (KFile d) m z t)) with (Z.of_nat (length d)).
    destruct (MAX_TEXT_MERGE_BYTES <? Z.of_nat (length d))%Z; simpl; [by (intros; simplify_eq)|].
    unfold bind. rewrite (read_plain _ _ _ _ _ _ Hq) by done.
    destruct (_ || _); intros; by simplify_eq.
  - destruct (missing (h_tree h) q); simpl; by (intros; simplify_eq).
Qed.

Lemma read_base_eq b r h x h' :
  (forall key, not_link (h_tree h) (touch_content_path b key)) ->
  read_touch_base_content b r h = (Ok x, h') ->
  h' = h /\ x = (key ← base_content_key r; data_at (stat (h_tree h) (touch_content_path b key))).
Proof.
  intros Hplain. unfold read_touch_base_content. destruct (base_content_key r) as [key|]; simpl; [|unfold ret; intros; by simplify_eq].
  unfold bind at 1, attempt. unfold stat. destruct (h_tree h !! touch_content_path b key) as [[k m z t]|] eqn:Hq.
  - rewrite (read_plain _ _ _ _ _ _ Hq).
    2:{ intros target ->. apply (Hplain key target). unfold look. by rewrite Hq. }
    destruct k; unfold throw, raise, ret; intros; by simplify_eq.
  - unfold read, metadata. rewrite !bind_assoc.
    rewrite (bind_step _ _ h (touch_content_path b key) h) by by apply real_path_plain.
    unfold symlink_metadata, get_tree, io_error, throw, raise, ret, gets, bind. rewrite Hq. simpl.
    destruct (missing _ _); intros; by simplify_eq.
Qed.
End Reads.

(** ** What the merge writes on the way *)

(** Everything but the directory [d] itself and its [merge-content]. *)
Definition off_merge (d q : path) : Prop := q <> d /\ under (d ++ ["merge-content"]) q = false.
Record aside (d : path) (h h' : host) : Prop := {
  as_store : store_ok d h';
  as_stat : forall q, off_merge d q -> stat (h_tree h') q = stat (h_tree h) q;
}.

Lemma stat_insert t q n r : stat (<[q := n]> t) r = if decide (q = r) then Some (n_kind n, n_mtime n) else stat t r.
Proof. unfold stat. case_decide as Hd; [by rewrite Hd, lookup_insert_eq|by rewrite lookup_insert_ne]. Qed.
Lemma stat_bump z q t r : r <> parent q -> stat (bump z q t) r = stat t r.
Proof. intros Hr. unfold stat, bump. by rewrite lookup_alter_ne. Qed.

Section Aside.
Context {E : Env}.
Variable (d : path).

(** Directories that are there are passed over. *)
Lemma mkdirs_through z t base rest c :
  (forall s, s <> [] -> s `prefix_of` rest -> look t (base ++ s) = Some KDir) ->
  mkdirs z t base (rest ++ [c]) = mkdirs z t (base ++ rest) [c].
Proof.
  revert base. induction rest as [|a rest IH]; intros base H; [by rewrite app_nil_r|].
  assert (look t (base ++ [a]) = Some KDir) as Ha by (apply H; [done|by apply prefix_cons, prefix_nil]).
  unfold look in Ha. destruct (t !! (base ++ [a])) as [n|] eqn:Hn; [|done]. injection Ha as Ha.
  cbn [mkdirs app]. rewrite Hn. unfold is_dir at 1. rewrite Ha. rewrite IH.
  - by rewrite <- app_assoc.
  - intros s Hs Hp. rewrite <- app_assoc. apply H; [done|]. by apply prefix_cons.
Qed.

Lemma create_aside h h' :
  store_ok d h -> create_dir_all (d ++ ["merge-content"]) h = (Ok tt, h') -> aside d h h'.
Proof.
  intros Hok Hc. assert (book d (d ++ ["merge-content"])) as Hb by by exists "merge-content", [].
  split.
  - assert (keeps (step_in d (within d)) (create_dir_all (d ++ ["merge-content"]))) as Hk.
    { apply create_dir_all_in; [by apply book_within|done]. }
    pose proof (Hk h Hok) as [H _]. by rewrite Hc in H.
  - intros q [Hq Hu]. unfold create_dir_all in Hc. unfold get_tree, now, put_tree, gets, modify, bind in Hc.
    rewrite mkdirs_through in Hc.
    2:{ intros s Hs [s' Hd]. destruct s' as [|a s'].
        { rewrite app_nil_r in Hd. rewrite <- Hd. apply Hok. }
        apply (wf_below _ _ (a :: s')); [apply Hok|done|]. apply look_is_Some. simpl. rewrite <- Hd, (so_dir _ _ Hok).
        by eexists. }
    cbn [mkdirs app] in Hc.
    destruct (h_tree h !! (d ++ ["merge-content"])) as [n|] eqn:Hn.
    + destruct (is_dir n); [by simplify_eq/=|]. destruct (follow _ _ _) as [[x k]|]; [|done].
      destruct (match h_tree h !! x with Some m => is_dir m | None => false end); by simplify_eq/=.
    + simplify_eq/=. rewrite stat_bump by by rewrite parent_snoc. rewrite stat_insert.
      case_decide as He; [|done]. subst q. by rewrite under_refl in Hu.
Qed.

Lemma write_aside key data h h' :
  store_ok d h -> write (d ++ ["merge-content"; key]) data h = (Ok tt, h') -> aside d h h'.
Proof.
  intros Hok Hw. assert (book d (d ++ ["merge-content"; key])) as Hb by by exists "merge-content", [key].
  assert (d ++ ["merge-content"; key] = (d ++ ["merge-content"]) ++ [key]) as Hp by by rewrite <- app_assoc.
  split.
  - pose proof (write_in d (within d) _ data Hb (book_within _ _ Hb) h Hok) as [H _]. by rewrite Hw in H.
  - intros q [Hq Hu]. assert (q <> d ++ ["merge-content"; key] /\ q <> d ++ ["merge-content"]) as [H1 H2].
    { split; intros ->; [rewrite Hp, under_app in Hu|rewrite under_refl in Hu]; done. }
    unfold write in Hw. apply bind_ok in Hw as ([x old] & h1 & Ho & Hw).
    apply open_write_plain in Ho as (-> & -> & _); [|by apply (so_plain _ _ Hok)].
    unfold store_file, get_tree, now, put_tree, gets, modify, bind in Hw.
    destruct old; simplify_eq/=.
    + rewrite stat_insert. by case_decide.
    + rewrite stat_bump by by rewrite Hp, parent_snoc. rewrite stat_insert. by case_decide.
Qed.

Lemma aside_refl h : store_ok d h -> aside d h h.
Proof. by split. Qed.
Lemma aside_trans h1 h2 h3 : aside d h1 h2 -> aside d h2 h3 -> aside d h1 h3.
Proof. intros [] [H2 H3]. split; [done|]. intros q Hq. rewrite H3; auto. Qed.

(** Leaving one merged text. *)
Lemma leave_aside key data h h' :
  store_ok d h ->
  (do* ensure_parent_dirs (d ++ ["merge-content"; key]); write (d ++ ["merge-content"; key]) data) h = (Ok tt, h') ->
  aside d h h'.
Proof.
  intros Hok H. apply bind_ok in H as ([] & h1 & He & Hw).
  assert (aside d h h1) as Ha.
  { apply create_aside; [done|]. unfold ensure_parent_dirs in He.
    replace (d ++ ["merge-content"; key]) with ((d ++ ["merge-content"]) ++ [key]) in He by by rewrite <- app_assoc.
    rewrite parent_snoc in He. by destruct ((d ++ ["merge-content"]) ++ [key]) eqn:Hd; [destruct d|]. }
  eapply aside_trans; [done|]. eapply write_aside; [apply Ha|done].
Qed.
End Aside.

(** ** The report as a function of the store *)

Section Report.
Context (t : tree) (b : Branch) (l : list Branch) (r : path).

(** What the layers below the branch show at [p]. *)
Definition current (p : path) : option (kind * Z) :=
  if is_hidden b (show p) then None else q ← first_layer t l r p; stat t q.
Definition record (p : path) : TouchRecord := touch_record_or_missing b (show p).
Definition changed (p : path) : bool :=
  negb (bool_decide (base_at_first_touch (record p) = identity_at (current p))).

(** The text a path is merged to: three texts, and a merge of them. *)
Definition merged_text (p : path) : option bytes :=
  if bool_decide (pi_kind (base_at_first_touch (record p)) = "file")
     && bool_decide (pi_kind (identity_at (current p)) = "file")
  then
    base ← (key ← base_content_key (record p); data_at (stat t (touch_content_path b key)));
    session ← text_at (stat t (files_dir b ++ p));
    now ← text_at (current p);
    match try_three_way_text_merge base now session with Ok o => o | Err _ => None end
  else None.

Definition reported_deletion (p : path) : option CommitConflict :=
  if changed p then Some (session_won (show p) "delete" (record p) (identity_at (current p))) else None.
Definition reported_file (p : path) : option CommitConflict :=
  if changed p then
    match merged_text p with
    | Some _ => None
    | None => Some (session_won (show p) (if pi_exists (base_at_first_touch (record p)) then "modify" else "create")
                      (record p) (identity_at (current p)))
    end
  else None.
Definition reported_merge (p : path) : option CommitAutoMerge :=
  if changed p then
    match merged_text p with Some _ => Some {| am_path := show p; am_resolution := "clean_text_merge" |} | None => None end
  else None.
End Report.

(** They look at nothing but the layers, the texts kept and the delta. *)
Lemma report_ext t t' b l r p :
  (forall a, a ∈ l -> stat t' (files_dir a ++ p) = stat t (files_dir a ++ p)) ->
  stat t' (r ++ p) = stat t (r ++ p) ->
  stat t' (files_dir b ++ p) = stat t (files_dir b ++ p) ->
  (forall key, stat t' (touch_content_path b key) = stat t (touch_content_path b key)) ->
  current t' b l r p = current t b l r p /\ merged_text t' b l r p = merged_text t b l r p.
Proof.
  intros Hl Hr Hb Hk.
  assert (current t' b l r p = current t b l r p) as Hc.
  { unfold current. rewrite (first_layer_ext t t').
    2:{ intros a Ha. by rewrite !look_stat, Hl. }
    2:{ by rewrite !look_stat, Hr. }
    destruct (is_hidden b (show p)); [done|]. destruct (first_layer t l r p) as [q|] eqn:Hf; [|done].
    apply first_layer_served in Hf as [_ [(l1 & a & l2 & -> & -> & _)|[-> _]]]; simpl; [apply Hl|apply Hr].
    apply elem_of_app. right. by left. }
  split; [done|]. unfold merged_text. rewrite Hc, Hb. destruct (base_content_key (record b p)) as [key|]; simpl; [|done].
  by rewrite Hk.
Qed.

(** Below the last branch lies the base, or the snapshot of a branch. *)
Lemma lineage_floor base bs n ls r :
  lineage base bs n ls r -> r = base \/ exists m a, bs !! m = Some a /\ r = inherited_dir a.
Proof. induction 1 as [| n b p Hb _ _|]; [by left|right; by exists n, b|done]. Qed.

Section Phase.
Context {E : Env}.
Context (n : string) (b : Branch) (l : list Branch) (r : path) (w : World).
Hypothesis (Hw : world_ok w) (Hb : branches w !! n = Some b) (Hl : lineage (base_path w) (branches w) n (b :: l) r).

Lemma resolve_touch_here p h :
  path_ok p ->
  resolve_inherited_for_touch b (show p) (h, w)
  = (Ok (if is_hidden b (show p) then None else first_layer (h_tree h) l r p), (h, w)).
Proof.
  intros Hp. pose proof (lineage_length _ _ _ _ _ (wo_forest _ Hw) Hl) as Hlen. simpl in Hlen.
  unfold resolve_inherited_for_touch, view. rewrite (bind_step _ _ (h, w) w (h, w)) by done.
  unfold on_host, zoom, resolve_inherited_for_touch_locked. simpl. destruct (is_hidden b (show p)); [done|].
  unfold inherited_resolve_path_locked, below.
  inversion Hl as [? ? Hb' Hpar|? ? pn Hb' Hpar Hi|? ? pn ? ? Hb' Hpar Hi Hl']; subst;
    rewrite Hpar, ?Hi.
  - rewrite join_show_path, existing_eq by done. done.
  - unfold inherited_path. rewrite join_show_path, existing_eq by done. done.
  - rewrite (resolve_first_layer _ _ _ l r) by (done || lia). done.
Qed.

Definition where_now (h : host) (p : path) : option path :=
  if is_hidden b (show p) then None else first_layer (h_tree h) l r p.

(** Looking a path up, and at what is there. *)
Lemma look_now {A} (k : option path -> PathIdentity -> MIO A) p h :
  path_ok p ->
  (let* cur := resolve_inherited_for_touch b (show p) in
   let* now := on_host (identity_from_path cur) in k cur now) (h, w)
  = k (where_now h p) (identity_at (current (h_tree h) b l r p)) (h, w).
Proof.
  intros Hp. rewrite (bind_step _ _ _ _ _ (resolve_touch_here p h Hp)). unfold bind at 1, on_host, zoom. simpl.
  rewrite identity_from_path_eq. unfold current, where_now. by destruct (is_hidden b (show p)).
Qed.

Definition with_conflicts (cs : list CommitConflict) (m : MergeState) : MergeState :=
  foldl (fun m c => add_conflict c m) m cs.

Lemma check_deletions_eq D m h :
  Forall path_ok D ->
  fold_m (check_deletion b) m (map show D) (h, w)
  = (Ok (with_conflicts (omap (reported_deletion (h_tree h) b l r) D) m), (h, w)).
Proof.
  intros HD. revert m. induction HD as [|p D Hp HD IH]; intros m; [done|]. cbn [map fold_m].
  rewrite (bind_step _ _ (h, w) (with_conflicts (option_list (reported_deletion (h_tree h) b l r p)) m) (h, w)).
  - rewrite IH. cbn [omap list_omap]. by destruct (reported_deletion (h_tree h) b l r p).
  - unfold check_deletion. rewrite (look_now (fun _ now => _)) by done.
    unfold reported_deletion, changed, record. by case_bool_decide.
Qed.

(** The merge of a path, where it is tried: it reads three texts. *)
Lemma try_merge_eq p h x s' :
  store_ok (branch_dir b) h ->
  try_merge b (record b p) (where_now h p) (identity_at (current (h_tree h) b l r p)) (files_dir b ++ p) (h, w) = (Ok x, s') ->
  s' = (h, w) /\ x = merged_text (h_tree h) b l r p.
Proof.
  intros Hok H. unfold try_merge in H. unfold merged_text.
  destruct (_ && _); [|by injection H as <- <-].
  assert (forall key, not_link (h_tree h) (touch_content_path b key)) as Hplain.
  { intros key. apply (so_plain _ _ Hok). exists "touch-content", [key]. unfold touch_content_path, touch_content_dir.
    by rewrite <- app_assoc. }
  apply bind_ok in H as (base & [h1 w1] & Hbase & H). unfold on_host, zoom in Hbase. cbn [fst snd] in Hbase.
  destruct (read_touch_base_content b (record b p) h) as [[x1|] h1'] eqn:Hr; [|done]. injection Hbase as <- <- <-.
  apply read_base_eq in Hr as [-> ->]; [|done].
  apply bind_ok in H as (session & [h2 w2] & Hs & H). unfold on_host, zoom in Hs. cbn [fst snd] in Hs.
  destruct (read_bounded_text (files_dir b ++ p) h) as [[x2|] h2'] eqn:Hr; [|done]. injection Hs as <- <- <-.
  apply read_bounded_eq in Hr as [-> ->].
  destruct (key ← base_content_key (record b p); _) as [base|]; [|by injection H as <- <-]. simpl.
  unfold where_now in H. unfold current. destruct (is_hidden b (show p)).
  { destruct (text_at (stat (h_tree h) (files_dir b ++ p))); injection H as <- <-; by destruct base. }
  destruct (first_layer (h_tree h) l r p) as [q|].
  2:{ destruct (text_at (stat (h_tree h) (files_dir b ++ p))); by injection H as <- <-. }
  destruct (text_at (stat (h_tree h) (files_dir b ++ p))) as [session|]; [|by injection H as <- <-]. simpl.
  apply bind_ok in H as (now & [h3 w3] & Hn & H). unfold on_host, zoom in Hn. cbn [fst snd] in Hn.
  destruct (read_bounded_text q h) as [[x3|] h3'] eqn:Hr; [|done]. injection Hn as <- <- <-.
  apply read_bounded_eq in Hr as [-> ->]. destruct (text_at (stat (h_tree h) q)) as [now|]; [|by injection H as <- <-].
  simpl. destruct (try_three_way_text_merge base now session); [|done]. by injection H as <- <-.
Qed.

(** The places a path is looked at lie off the merged texts. *)
Lemma off_merge_store m c p : c <> "merge-content" -> off_merge (branch_dir b) (branch_dir_of (storage_path w) m ++ c :: p).
Proof.
  intros Hc. rewrite (wo_dirs _ Hw _ _ Hb). unfold branch_dir_of. split.
  - rewrite <- app_assoc. intros H%app_inv_head. by simplify_eq/=.
  - rewrite <- !app_assoc, under_app_cancel. apply not_true_iff_false. intros [s Hs]%under_true. by simplify_eq/=.
Qed.

Lemma off_merge_layer a m c p : branches w !! m = Some a -> c <> "merge-content" -> off_merge (branch_dir b) ((branch_dir a ++ [c]) ++ p).
Proof. intros Ha Hc. rewrite (wo_dirs _ Hw _ _ Ha), <- app_assoc. by apply off_merge_store. Qed.

Lemma off_merge_base p : off_merge (branch_dir b) (base_path w ++ p).
Proof.
  rewrite (wo_dirs _ Hw _ _ Hb). destruct (wo_apart _ Hw) as [H1 H2]. split.
  - intros H. pose proof (store_off_base _ _ n [] H1 H2) as Hu. by rewrite app_nil_r, <- H, under_app in Hu.
  - apply not_true_iff_false. intros [s Hs]%under_true.
    pose proof (store_off_base _ _ n (["merge-content"] ++ s) H1 H2) as Hu. by rewrite app_assoc, <- Hs, under_app in Hu.
Qed.

Lemma report_aside p h h' :
  aside (branch_dir b) h h' ->
  current (h_tree h') b l r p = current (h_tree h) b l r p
  /\ merged_text (h_tree h') b l r p = merged_text (h_tree h) b l r p.
Proof.
  intros [_ Hs]. pose proof (lineage_in_map _ _ _ _ _ Hl) as Hin. apply Forall_cons in Hin as [_ Hin]. apply report_ext.
  - intros a Ha. rewrite Forall_forall in Hin. destruct (Hin a Ha) as [m Hm]. apply Hs. by eapply off_merge_layer.
  - apply Hs. assert (r = base_path w \/ exists m a, branches w !! m = Some a /\ r = inherited_dir a) as [->|(m & a & Ha & ->)].
    { by eapply lineage_floor. }
    + apply off_merge_base.
    + by eapply off_merge_layer.
  - apply Hs. by eapply off_merge_layer.
  - intros key. apply Hs. unfold touch_content_path. by eapply off_merge_layer.
Qed.

Lemma check_delta_step p m h0 h m' s' :
  path_ok p -> aside (branch_dir b) h0 h ->
  check_delta b (branch_dir b ++ ["merge-content"]) m (show p, files_dir b ++ p) (h, w) = (Ok m', s') ->
  exists h', s' = (h', w) /\ aside (branch_dir b) h0 h'
    /\ ms_conflicts m' = ms_conflicts m ++ option_list (reported_file (h_tree h0) b l r p)
    /\ ms_auto m' = ms_auto m ++ option_list (reported_merge (h_tree h0) b l r p).
Proof.
  intros Hp Ha H. destruct (report_aside p h0 h Ha) as [Hc Hm]. unfold check_delta in H.
  rewrite (look_now (fun cur now => _)) in H by done. fold (record b p) in H. unfold reported_file, reported_merge, changed.
  rewrite Hc in H. case_bool_decide.
  { injection H as <- <-. exists h. simpl. by rewrite !app_nil_r. }
  cbn [negb]. apply bind_ok in H as (x & s1 & Ht & H). rewrite <- Hc in Ht.
  apply try_merge_eq in Ht as [-> ->]; [|apply Ha]. rewrite Hm in H.
  destruct (merged_text (h_tree h0) b l r p) as [data|].
  - rewrite <- bind_assoc in H. apply bind_ok in H as ([] & [h2 w2] & Hwr & H). injection H as <- <-.
    assert ((do* ensure_parent_dirs (branch_dir b ++ ["merge-content"; touch_content_key (show p)]);
             write (branch_dir b ++ ["merge-content"; touch_content_key (show p)]) data) h = (Ok tt, h2) /\ w2 = w) as [Hh ->].
    { rewrite <- app_assoc in Hwr. unfold bind, on_host, zoom in *. cbn [fst snd app] in Hwr |- *.
      destruct (ensure_parent_dirs _ h) as [[[]|x] h1]; [|done]. cbn [fst snd] in Hwr.
      destruct (write _ data h1) as [[[]|x] h3]; [|done]. by simplify_eq. }
    exists h2. split; [done|]. split; [|by rewrite app_nil_r].
    eapply aside_trans; [done|]. eapply leave_aside; [apply Ha|done].
  - injection H as <- <-. exists h. by rewrite app_nil_r.
Qed.

Lemma check_deltas_run ss : forall m h0 h m' s',
  Forall path_ok ss -> aside (branch_dir b) h0 h ->
  fold_m (check_delta b (branch_dir b ++ ["merge-content"])) m (map (fun s => (show s, files_dir b ++ s)) ss) (h, w) = (Ok m', s') ->
  ms_conflicts m' = ms_conflicts m ++ omap (reported_file (h_tree h0) b l r) ss
  /\ ms_auto m' = ms_auto m ++ omap (reported_merge (h_tree h0) b l r) ss.
Proof.
  induction ss as [|p ss IH]; intros m h0 h m' s' Hss Ha H.
  { injection H as <- <-. by rewrite !app_nil_r. }
  apply Forall_cons in Hss as [Hp Hss]. cbn [map fold_m] in H. apply bind_ok in H as (m1 & s1 & H1 & H).
  apply (check_delta_step p m h0 h) in H1 as (h1 & -> & Ha1 & Hc & Hm); [|done..].
  apply (IH m1 h0 h1) in H as [-> ->]; [|done..]. rewrite Hc, Hm, <- !app_assoc. cbn [omap list_omap].
  by destruct (reported_file _ _ _ _ p), (reported_merge _ _ _ _ p).
Qed.
End Phase.

Lemma with_conflicts_fields cs m :
  ms_conflicts (with_conflicts cs m) = ms_conflicts m ++ cs /\ ms_auto (with_conflicts cs m) = ms_auto m.
Proof.
  revert m. induction cs as [|c cs IH]; intros m; simpl; [by rewrite app_nil_r|].
  destruct (IH (add_conflict c m)) as [-> ->]. cbn [add_conflict ms_conflicts ms_auto]. by rewrite <- app_assoc.
Qed.

Lemma lineage_head base bs n ls r b :
  lineage base bs n ls r -> bs !! n = Some b -> exists l, ls = b :: l.
Proof. intros Hl Hb. inversion Hl; subst; eexists; by simplify_eq. Qed.

Section Reported.
Context {E : Env} {J : Serde} {EL : EnvLaws E}.

Lemma merge_phase_run n b l r w D ss h0 h m s' :
  world_ok w -> branches w !! n = Some b -> lineage (base_path w) (branches w) n (b :: l) r ->
  Forall path_ok D -> Forall path_ok ss -> aside (branch_dir b) h0 h ->
  merge_phase b (branch_dir b ++ ["merge-content"]) (map show D) (map (fun s => (show s, files_dir b ++ s)) ss) (h, w) = (Ok m, s') ->
  ms_conflicts m = omap (reported_deletion (h_tree h0) b l r) D ++ omap (reported_file (h_tree h0) b l r) ss
  /\ ms_auto m = omap (reported_merge (h_tree h0) b l r) ss.
Proof.
  intros Hw Hb Hl HD Hss Ha H. unfold merge_phase in H.
  rewrite (bind_step _ _ _ _ _ (check_deletions_eq n b l r w Hw Hl D merge_empty h HD)) in H.
  apply (check_deltas_run n b l r w Hw Hb Hl ss _ h0) in H as [-> ->]; [|done..].
  destruct (with_conflicts_fields (omap (reported_deletion (h_tree h) b l r) D) merge_empty) as [-> ->].
  cbn [merge_empty ms_conflicts ms_auto app]. split; [|done]. f_equal.
  assert (forall p, reported_deletion (h_tree h) b l r p = reported_deletion (h_tree h0) b l r p) as Heq.
  { intros p. unfold reported_deletion, changed. by destruct (report_aside n b l r w Hw Hb Hl p h0 h Ha) as [-> _]. }
  clear -Heq. induction D as [|p D IH]; [done|]. cbn [omap list_omap]. rewrite Heq. by destruct (reported_deletion _ _ _ _ p); [f_equal|].
Qed.

(** C9: what a commit reports.  When the parent has had no commit since the fork,
    nothing.  Otherwise, path by path - first the deleted ones, then the entries of
    the delta - exactly those whose identity below the branch (kind, length, time;
    missing when it is hidden) is no longer what it was at the branch's first touch,
    or was something for a path never touched: as merged, when there are three
    texts and they merge; as a conflict the branch wins, with both identities,
    otherwise.  All of it is a function of the store before the commit. *)
Theorem commit_reports_what_changed n b h w o s' :
  world_ok w -> branches w !! n = Some b -> store_ok (branch_dir b) h -> look (h_tree h) (files_dir b) = Some KDir ->
  tombs_ok (tombstones b) -> (forall s, leaf_at (h_tree h) (files_dir b) s -> path_ok s) ->
  commit_with_report n (h, w) = (Ok o, s') ->
  exists p pb l r D ss,
    br_parent b = Some p /\ branches w !! p = Some pb /\ lineage (base_path w) (branches w) n (b :: l) r
    /\ set_order (tombstones b) = map show D /\ NoDup ss /\ (forall s, s ∈ ss <-> leaf_at (h_tree h) (files_dir b) s)
    /\ parent_name o = p
    /\ (commit_count pb = parent_version_at_fork b -> conflicts o = [] /\ auto_merges o = [])
    /\ (commit_count pb <> parent_version_at_fork b ->
          conflicts o = omap (reported_deletion (h_tree h) b l r) D ++ omap (reported_file (h_tree h) b l r) ss
          /\ auto_merges o = omap (reported_merge (h_tree h) b l r) ss).
Proof.
  intros Hw Hb Hok Hfiles HT Hnames H. destruct (tombs_paths _ HT) as (D & HD & HDn & HDp & _).
  destruct (forest_lineage (base_path w) (branches w) n) as (ls & r & Hl); [apply Hw|by eexists|].
  destruct (lineage_head _ _ _ _ _ _ Hl Hb) as [l ->].
  unfold commit_with_report in H. destruct (leaf_with_parent_spec n h w) as [(b0 & p & Heq & Hn & Hb0 & Hp & _)|[x Heq]].
  2:{ by rewrite (bind_fail _ _ _ _ _ Heq) in H. }
  rewrite (bind_step _ _ _ _ _ Heq) in H. assert (b0 = b) as -> by congruence.
  unfold lookup_branch at 1, gets in H. rewrite bind_assoc in H. rewrite (bind_step _ _ (h, w) w (h, w)) in H by done.
  destruct (branches w !! p) as [pb|] eqn:Hpb; [|done]. rewrite (bind_step _ _ (h, w) pb (h, w)) in H by done.
  rewrite (bind_step _ _ _ w (h, w)) in H by done. rewrite (bind_step _ _ _ (h_tree h) (h, w)) in H by done.
  destruct (walk_lists_delta (files_dir b) h) as (out & h1 & Hwalk & Hs & Hout); [apply Hok|done|].
  destruct (walked_paths _ _ _ Hout) as (ss & -> & Hanti & Hss); [apply Hok|].
  assert (same_stat h h1) as Hstat.
  { pose proof (walk_files_stat (tree_fuel (h_tree h)) (files_dir b) "" h) as Hst. by rewrite Hwalk in Hst. }
  assert (aside (branch_dir b) h h1) as Ha.
  { split; [|by intros q _]. apply (same_store_ok _ h); [done| |done]. eapply wf_look_ext; [apply Hs|apply Hok]. }
  rewrite (bind_step _ _ _ (map (fun s => (show_rel s, files_dir b ++ s)) ss) (h1, w)) in H.
  2:{ unfold on_host, zoom. cbn [fst snd]. by rewrite Hwalk. }
  assert (map (fun s => (show_rel s, files_dir b ++ s)) ss = map (fun s => (show s, files_dir b ++ s)) ss) as Hshow.
  { apply map_ext_in. intros s Hin%list_elem_of_In. apply Hss in Hin as [Hne _]. by destruct s. }
  assert (map show_rel D = map show D) as HshowD.
  { apply map_ext_in. intros s Hin%list_elem_of_In. rewrite Forall_forall in HDn. specialize (HDn s Hin). by destruct s. }
  unfold get_tombstones in H. rewrite Hshow, HD, HshowD in H. rewrite HshowD in HD.
  assert (Forall path_ok ss) as Hpok by (apply Forall_forall; intros s Hin%Hss; by apply Hnames).
  apply bind_ok in H as (m & s1 & Hm & H). apply bind_ok in H as ([] & s2 & _ & H). injection H as <- <-.
  exists p, pb, l, r, D, ss. split; [done|]. split; [done|]. split; [done|]. split; [done|].
  split; [apply Hanti|]. split; [done|]. split; [done|]. cbn [conflicts auto_merges]. split.
  - intros Hc. rewrite (bool_decide_true _ Hc) in Hm. by injection Hm as <- <-.
  - intros Hc. rewrite (bool_decide_false _ Hc) in Hm. cbn [negb] in Hm.
    rewrite <- (wo_dirs _ Hw _ _ Hb) in Hm. by eapply (merge_phase_run n b l r w D ss h h1).
Qed.
End Reported.

(** ** A run: [main] has had a commit since "fix" was made *)

#[local] Existing Instances example_env example_serde.

Definition stale_main : Branch := with_commit_count 1 (example_branch "main" None ∅ []).
Definition stale_world : World := with_branches (<["main" := stale_main]> (branches example_world)) example_world.
Definition stale_outcome : CommitOutcome :=
  {| parent_name := "main"; auto_merges := [];
     conflicts := [{| cf_path := "/a"; session_action := "delete"; cf_resolution := "session_won";
                      reason := "parent_changed_after_first_touch"; cf_base_at_first_touch := identity_missing;
                      base_at_commit := identity_of (example_file "A") |}] |}.

Lemma stale_world_ok : world_ok stale_world.
Proof.
  assert (same_world example_world stale_world) as Hs; [|by apply (same_world_ok _ _ Hs), example_world_ok].
  split; [|done|done]. intros n. change (branches stale_world) with (<["main" := stale_main]> (branches example_world)).
  destruct (decide (n = "main")) as [->|Hn]; [|by rewrite lookup_insert_ne].
  rewrite lookup_insert_eq. change (branches example_world !! "main") with (Some (example_branch "main" None ∅ [])). by split.
Qed.
Lemma stale_commit : (commit_with_report "fix" (example_host, stale_world)).1 = Ok stale_outcome.
Proof. by vm_compute. Qed.

Lemma commit_reports_what_changed_witness :
  exists l r D ss, lineage ["base"] (branches stale_world) "fix" (example_fix :: l) r
    /\ conflicts stale_outcome
       = omap (reported_deletion example_tree example_fix l r) D ++ omap (reported_file example_tree example_fix l r) ss
    /\ length (conflicts stale_outcome) = 1.
Proof.
  pose proof example_publishable as [_ _ _ _ Hok _ Hf _ Hn HT _].
  destruct (commit_reports_what_changed "fix" example_fix example_host stale_world stale_outcome _
    stale_world_ok eq_refl Hok Hf HT (fun s Hs => proj1 (Hn s Hs)) (run_ok _ _ _ stale_commit))
    as (p & pb & l & r & D & ss & [= <-] & Hpb & Hl & _ & _ & _ & _ & _ & H).
  change (branches stale_world !! "main") with (Some stale_main) in Hpb. injection Hpb as <-.
  destruct (H ltac:(done)) as [Hc _]. by exists l, r, D, ss.
Defined.
