(* ===== verification/Handles.v ===== *)
(** * Open files

    What fs.rs does with [std::fs::File]: opening a file, reading and writing
    through the handle, and the two one-entry caches of open handles,
    [OpenFileCache] and [WriteFileCache].  A handle follows the file it was
    opened on, not its name: after the file was renamed the handle is found
    under the new name, after it was removed in [h_gone]. *)

From S2P Require Import Prelude Strs HostFs.

Open Scope bool_scope.

(** A handle: the path it was opened at and the host's number of the file. *)
Record File := { f_path : path; f_id : Z }.

#[export] Instance File_eq_dec : EqDecision File.
Proof. solve_decision. Defined.

Definition same_file (f : File) (n : node) : bool := bool_decide (s_id (n_stamp n) = f_id f).

(** Where the file of a handle is now. *)
Definition file_at (t : tree) (f : File) : option path :=
  match t !! f_path f with
  | Some n =>
      if same_file f n then Some (f_path f)
      else head (map fst (List.filter (fun kv => same_file f kv.2) (map_to_list t)))
  | None => head (map fst (List.filter (fun kv => same_file f kv.2) (map_to_list t)))
  end.

Definition file_node (f : File) (h : host) : option node :=
  match file_at (h_tree h) f with
  | Some q => h_tree h !! q
  | None => h_gone h !! f_id f
  end.

Section Handles.
Context {E : Env}.

Definition handle_of (q : path) : IO File :=
  let* n := symlink_metadata q in
  ret {| f_path := q; f_id := s_id (n_stamp n) |}.

(** [File::open]; a directory can be opened, and fails when read. *)
Definition file_open (p : path) : IO File :=
  let* q := real_path p in
  let* n := symlink_metadata q in
  match n_kind n with
  | KFile _ | KDir => handle_of q
  | _ => io_error EINVAL
  end.

(** [OpenOptions::new().write(true).create(true).truncate(false).open] *)
Definition file_open_create (p : path) : IO File :=
  let* (q, old) := open_write p in
  do* match old with None => store_file q None [] | Some _ => ret tt end;
  handle_of q.

(** [OpenOptions::new().write(true).open], which creates nothing; with
    [read(true)] as well it does the same. *)
Definition file_open_existing (p : path) : IO File :=
  let* q := real_path p in
  let* n := symlink_metadata q in
  if is_dir n then io_error EISDIR else handle_of q.

(** [File::metadata] *)
Definition file_metadata (f : File) : IO node :=
  fun h => match file_node f h with
           | Some n => (Ok n, h)
           | None => (Err (Throw (Io ESTALE)), h)
           end.

(** [Metadata::len] of an open file, 0 when it cannot be read. *)
Definition file_len_or_0 (f : File) : IO Z :=
  let* r := attempt (file_metadata f) in
  ret (match r with Ok n => node_len n | Err _ => 0%Z end).

(** The bytes of the file become [d]. *)
Definition file_store (f : File) (n : node) (d : bytes) : IO unit :=
  let* t := get_tree in
  match file_at t f with
  | Some q => store_file q (Some n) d
  | None => modify (fun h =>
      Host (h_tree h) (h_clock h + 1) (h_uuid h)
           (<[f_id f := Node (KFile d) (n_mode n) (h_clock h) (n_stamp n)]> (h_gone h)))
  end.

(** [seek] to an offset given as a [u64]; beyond [i64::MAX] it is refused. *)
Definition seekable (offset : Z) : bool := bool_decide (offset < 2 ^ 63)%Z.

(** [seek], then one [read] of at most [size] bytes. *)
Definition file_read (f : File) (offset size : Z) : IO bytes :=
  if negb (seekable offset) then io_error EINVAL
  else
    let* n := file_metadata f in
    match n_kind n with
    | KFile d => ret (take (Z.to_nat size) (drop (Z.to_nat offset) d))
    | KDir => io_error EISDIR
    | _ => io_error EINVAL
    end.

(** [seek], then one [write]. *)
Definition file_write (f : File) (offset : Z) (data : bytes) : IO Z :=
  if negb (seekable offset) then io_error EINVAL
  else
    let* n := file_metadata f in
    do* when (negb (bool_decide (data = [])))
          (file_store f n (splice (Z.to_nat offset) data (node_data (Some n))));
    ret (Z.of_nat (length data)).

(** [File::set_len] *)
Definition file_set_len (f : File) (len : Z) : IO unit :=
  let* n := file_metadata f in
  match n_kind n with
  | KFile d => file_store f n (resize_bytes (Z.to_nat len) d)
  | _ => io_error EINVAL
  end.
End Handles.

(** ** The caches

    One record serves for [OpenFileCache] and [WriteFileCache]; the two types
    of the source differ in name only. *)
Record FileCache := { c_ino : Z; c_epoch : Z; c_file : option File }.

Definition cache_new : FileCache := {| c_ino := 0; c_epoch := 0; c_file := None |}.
Definition cache_get (ino epoch : Z) (c : FileCache) : option File :=
  if bool_decide (c_ino c = ino) && bool_decide (c_epoch c = epoch) then c_file c else None.
Definition cache_insert (ino epoch : Z) (f : File) (c : FileCache) : FileCache :=
  {| c_ino := ino; c_epoch := epoch; c_file := Some f |}.
Definition invalidate_ino (ino : Z) (c : FileCache) : FileCache :=
  if bool_decide (c_ino c = ino) then {| c_ino := 0; c_epoch := c_epoch c; c_file := None |} else c.

Lemma cache_get_insert ino epoch f c : cache_get ino epoch (cache_insert ino epoch f c) = Some f.
Proof. unfold cache_get. simpl. by rewrite !bool_decide_true. Qed.

Lemma cache_get_invalidated ino epoch c : ino <> 0%Z -> cache_get ino epoch (invalidate_ino ino c) = None.
Proof.
  intros Hi. unfold cache_get, invalidate_ino.
  destruct (bool_decide (c_ino c = ino)) eqn:Hc; simpl.
  - by rewrite bool_decide_false by congruence.
  - by rewrite Hc.
Qed.

Lemma cache_get_other_epoch ino epoch c : c_epoch c <> epoch -> cache_get ino epoch c = None.
Proof. intros He. unfold cache_get. rewrite (bool_decide_false (c_epoch c = epoch)) by done. by rewrite andb_false_r. Qed.

(** A handle on a file that still has its name. *)
Lemma file_at_intact t q n f :
  t !! q = Some n -> f = {| f_path := q; f_id := s_id (n_stamp n) |} -> file_at t f = Some q.
Proof. intros Hq ->. unfold file_at, same_file. simpl. rewrite Hq. by rewrite bool_decide_true. Qed.

Lemma file_node_intact h q n f :
  h_tree h !! q = Some n -> f = {| f_path := q; f_id := s_id (n_stamp n) |} -> file_node f h = Some n.
Proof. intros Hq Hf. unfold file_node. by rewrite (file_at_intact _ _ _ _ Hq Hf). Qed.
