(* ===== verification/Platform.v ===== *)
(** * The two platforms (platform/mod.rs, linux.rs, macos.rs)

    Each platform file has the same functions; which one is compiled in depends
    on the target.  Here both are kept, the functions of one as [linux_...], of
    the other as [macos_...], and [target_os], a parameter of the model, picks
    one, as the [cfg] attributes of mod.rs do.  All that is proved of a mount and
    of the daemon holds on both. *)

From S2P Require Import Prelude.

Open Scope bool_scope.

Inductive Target := Linux | MacOs.
#[export] Instance target_eq_dec : EqDecision Target.
Proof. solve_decision. Defined.

(** The number of the root control file (fs.rs). *)
Definition CTL_INO : Z := (u64_max - 1)%Z.

Inductive MountOption := FSName (n : string) | DefaultPermissions | AllowOther | CUSTOM (s : string).

Definition flag_set (flags f : Z) : bool := negb (bool_decide (Z.land flags f = 0%Z)).

(** [PassthroughState]; a backing id is a number the kernel hands out.  On macOS
    the type is empty and the fields stay as they are. *)
Record PassthroughState := { next_fh : Z; backing_ids : gmap Z Z }.
Definition passthrough_new : PassthroughState := {| next_fh := 1; backing_ids := ∅ |}.

(** ** linux.rs *)

Definition linux_ioc_create : Z := 0x80806200.
Definition linux_ioc_commit : Z := 0x6201.
Definition linux_ioc_abort : Z := 0x6202.
Definition linux_mount_options : list MountOption := [DefaultPermissions].

(** [setup_capabilities]: what becomes of [passthrough_enabled]; [supported] says
    that the kernel takes the capability and the stack depth. *)
Definition linux_setup_capabilities (supported enabled : bool) : bool := enabled && supported.

(** [handle_access]: the error replied, or ok. *)
Definition linux_handle_access : option errno := Some ENOSYS.
Definition linux_check_rename_flags (flags : Z) : res errno unit := if flag_set flags 2 then Err EINVAL else Ok tt.
Definition linux_check_rename_noreplace (flags : Z) : bool := flag_set flags 1.
Definition linux_ctl_file_size (ino : Z) : Z := if bool_decide (ino = CTL_INO) then 256 else 0.

(** [try_open_passthrough]: the handle and the backing id of the reply when the
    kernel gave one, and the state after it. *)
Definition linux_open_passthrough (backing : option Z) (st : PassthroughState)
  : option (Z * Z) * PassthroughState :=
  match backing with
  | None => (None, st)
  | Some id =>
      let fh := next_fh st in
      (Some (fh, id), {| next_fh := wrap_u64 (fh + 1); backing_ids := <[fh := id]> (backing_ids st) |})
  end.
Definition linux_release_passthrough (fh : Z) (st : PassthroughState) : PassthroughState :=
  {| next_fh := next_fh st; backing_ids := delete fh (backing_ids st) |}.

(** ** macos.rs *)

Definition macos_ioc_create : Z := 0x40806200.
Definition macos_ioc_commit : Z := 0x20006201.
Definition macos_ioc_abort : Z := 0x20006202.
Definition macos_mount_options : list MountOption :=
  [CUSTOM "noappledouble"; CUSTOM "volname=branchfs"; CUSTOM "defer_permissions"; CUSTOM "local"].
Definition macos_setup_capabilities (enabled : bool) : bool := false.
Definition macos_handle_access : option errno := None.
Definition macos_check_rename_flags (flags : Z) : res errno unit := Ok tt.
Definition macos_check_rename_noreplace (flags : Z) : bool := false.
Definition macos_ctl_file_size (ino : Z) : Z := 0.
Definition macos_open_passthrough (st : PassthroughState) : option (Z * Z) * PassthroughState := (None, st).
Definition macos_release_passthrough (fh : Z) (st : PassthroughState) : PassthroughState := st.

(** ** mod.rs *)

Class Platform := { target_os : Target }.

Section Platform.
Context {P : Platform}.

Definition on_target {A} (linux macos : A) : A := match target_os with Linux => linux | MacOs => macos end.

(** The flags of [open] that libc has for the target. *)
Definition O_ACCMODE : Z := 3.
Definition O_TRUNC : Z := on_target 512%Z 1024%Z.
Definition O_APPEND : Z := on_target 1024%Z 8%Z.

Definition FS_IOC_BRANCH_CREATE : Z := on_target linux_ioc_create macos_ioc_create.
Definition FS_IOC_BRANCH_COMMIT : Z := on_target linux_ioc_commit macos_ioc_commit.
Definition FS_IOC_BRANCH_ABORT : Z := on_target linux_ioc_abort macos_ioc_abort.
Definition get_mount_options : list MountOption := on_target linux_mount_options macos_mount_options.
Definition setup_capabilities (supported enabled : bool) : bool :=
  on_target (linux_setup_capabilities supported enabled) (macos_setup_capabilities enabled).
Definition handle_access : option errno := on_target linux_handle_access macos_handle_access.
Definition check_rename_flags (flags : Z) : res errno unit :=
  on_target (linux_check_rename_flags flags) (macos_check_rename_flags flags).
Definition check_rename_noreplace (flags : Z) : bool :=
  on_target (linux_check_rename_noreplace flags) (macos_check_rename_noreplace flags).
Definition ctl_file_size (ino : Z) : Z := on_target (linux_ctl_file_size ino) (macos_ctl_file_size ino).
Definition open_passthrough (backing : option Z) (st : PassthroughState) : option (Z * Z) * PassthroughState :=
  on_target (linux_open_passthrough backing st) (macos_open_passthrough st).
Definition release_passthrough (fh : Z) (st : PassthroughState) : PassthroughState :=
  on_target (linux_release_passthrough fh st) (macos_release_passthrough fh st).

(** The three requests have three numbers. *)
Lemma ioc_distinct :
  FS_IOC_BRANCH_COMMIT <> FS_IOC_BRANCH_CREATE /\ FS_IOC_BRANCH_ABORT <> FS_IOC_BRANCH_CREATE
  /\ FS_IOC_BRANCH_ABORT <> FS_IOC_BRANCH_COMMIT.
Proof.
  unfold FS_IOC_BRANCH_COMMIT, FS_IOC_BRANCH_CREATE, FS_IOC_BRANCH_ABORT, on_target. by destruct target_os.
Qed.
End Platform.
