(* ===== verification/Mount.v ===== *)
(** * A mount: its state, its helpers and its control files

    The part of fs.rs below the FUSE callbacks ([BranchFs] and its methods),
    fs_helpers.rs and fs_ctl.rs.  The callbacks themselves are in Fuse.v.

    A [BranchFs] belongs to one mount; the manager ([World]) is shared by all.
    [FIO] is a call made by the mount: it sees the host, the manager and the
    mount's own state. *)

From S2P Require Import Prelude Strs Inode HostFs Handles Quota TextMerge Branch View Manager Commit Platform.

Open Scope bool_scope.

Definition BLOCK_SIZE : Z := 512.
Definition FIRST_CTL_INO : Z := (u64_max - 1000000)%Z.

Record BranchFs := {
  inodes : InodeManager;
  mountpoint : path;
  current_epoch : Z;
  branch_ctl_inodes : gmap string Z;
  next_ctl_ino : Z;
  fs_uid : Z;
  fs_gid : Z;
  open_cache : FileCache;
  write_cache : FileCache;
  passthrough_enabled : bool;
  passthrough_state : PassthroughState;
  expose_control : bool;
}.

Abbreviation Mounted := (host * World * BranchFs)%type.
Abbreviation FIO := (M Mounted).

Definition with_inodes (m : InodeManager) (f : BranchFs) : BranchFs :=
  {| inodes := m; mountpoint := mountpoint f; current_epoch := current_epoch f;
     branch_ctl_inodes := branch_ctl_inodes f; next_ctl_ino := next_ctl_ino f; fs_uid := fs_uid f;
     fs_gid := fs_gid f; open_cache := open_cache f; write_cache := write_cache f;
     passthrough_enabled := passthrough_enabled f; passthrough_state := passthrough_state f;
     expose_control := expose_control f |}.
Definition with_epoch (z : Z) (f : BranchFs) : BranchFs :=
  {| inodes := inodes f; mountpoint := mountpoint f; current_epoch := z;
     branch_ctl_inodes := branch_ctl_inodes f; next_ctl_ino := next_ctl_ino f; fs_uid := fs_uid f;
     fs_gid := fs_gid f; open_cache := open_cache f; write_cache := write_cache f;
     passthrough_enabled := passthrough_enabled f; passthrough_state := passthrough_state f;
     expose_control := expose_control f |}.
Definition with_ctl_inodes (m : gmap string Z) (next : Z) (f : BranchFs) : BranchFs :=
  {| inodes := inodes f; mountpoint := mountpoint f; current_epoch := current_epoch f;
     branch_ctl_inodes := m; next_ctl_ino := next; fs_uid := fs_uid f;
     fs_gid := fs_gid f; open_cache := open_cache f; write_cache := write_cache f;
     passthrough_enabled := passthrough_enabled f; passthrough_state := passthrough_state f;
     expose_control := expose_control f |}.
Definition with_caches (o w : FileCache) (f : BranchFs) : BranchFs :=
  {| inodes := inodes f; mountpoint := mountpoint f; current_epoch := current_epoch f;
     branch_ctl_inodes := branch_ctl_inodes f; next_ctl_ino := next_ctl_ino f; fs_uid := fs_uid f;
     fs_gid := fs_gid f; open_cache := o; write_cache := w;
     passthrough_enabled := passthrough_enabled f; passthrough_state := passthrough_state f;
     expose_control := expose_control f |}.
Definition with_passthrough (en : bool) (p : PassthroughState) (f : BranchFs) : BranchFs :=
  {| inodes := inodes f; mountpoint := mountpoint f; current_epoch := current_epoch f;
     branch_ctl_inodes := branch_ctl_inodes f; next_ctl_ino := next_ctl_ino f; fs_uid := fs_uid f;
     fs_gid := fs_gid f; open_cache := open_cache f; write_cache := write_cache f;
     passthrough_enabled := en; passthrough_state := p; expose_control := expose_control f |}.
Definition with_owner (u g : Z) (f : BranchFs) : BranchFs :=
  {| inodes := inodes f; mountpoint := mountpoint f; current_epoch := current_epoch f;
     branch_ctl_inodes := branch_ctl_inodes f; next_ctl_ino := next_ctl_ino f; fs_uid := u;
     fs_gid := g; open_cache := open_cache f; write_cache := write_cache f;
     passthrough_enabled := passthrough_enabled f; passthrough_state := passthrough_state f;
     expose_control := expose_control f |}.

(** Calls of the manager and of the host, made by code with a state [X] of its
    own: a mount, the daemon. *)
Definition mgr {X A} (c : MIO A) : M (host * World * X) A := zoom fst (fun hw s => (hw, s.2)) c.
Definition hostio {X A} (c : IO A) : M (host * World * X) A := mgr (on_host c).
Definition get_world {X} : M (host * World * X) World := gets (fun s => s.1.2).
Definition upd_world {X} (f : World -> World) : M (host * World * X) unit := mgr (on_mem f).
Definition get_fs : FIO BranchFs := gets snd.
Definition upd_fs (f : BranchFs -> BranchFs) : FIO unit := modify (fun s => (s.1, f s.2)).

(** Early returns: [k] only when the test holds, only when the value is there. *)
Notation "'require*' c 'else' e ';' k" := (bind c (fun b : bool => if b then k else e))
  (at level 10, c at level 100, e at level 100, k at level 200,
   format "'require*'  c  'else'  e ';' '//' k") : prog_scope.
Notation "'some*' x ':=' c 'else' e 'in' k" :=
  (bind c (fun o => match o with Some x => k | None => e end))
  (at level 10, x pattern, c at level 100, e at level 100, k at level 200,
   format "'some*'  x  ':='  c  'else'  e  'in' '//' k") : prog_scope.

(** ** What a callback answers

    One constructor per method of the [Reply...] types of fuser that is used;
    the TTL, the generation and the flags are constants of the source. *)

Inductive FileType := Directory | Symlink | RegularFile.
#[export] Instance FileType_eq_dec : EqDecision FileType.
Proof. solve_decision. Defined.

(** [FileAttr]; the times are nanoseconds, the fields left out (ctime, crtime,
    rdev, blksize, flags) are constants and the link count is not modelled. *)
Record FileAttr := {
  a_ino : Z; a_size : Z; a_blocks : Z; a_atime : Z; a_mtime : Z;
  a_kind : FileType; a_perm : Z; a_uid : Z; a_gid : Z }.

Record DirEntry := { de_ino : Z; de_off : Z; de_kind : FileType; de_name : string }.
Record Statfs := {
  sf_blocks : Z; sf_bfree : Z; sf_bavail : Z; sf_files : Z; sf_ffree : Z;
  sf_bsize : Z; sf_namelen : Z; sf_frsize : Z }.

Inductive Reply :=
  | RError (e : errno)
  | REntry (a : FileAttr)
  | RAttr (a : FileAttr)
  | RData (d : bytes)
  | RWritten (n : Z)
  | RCreated (a : FileAttr)
  | RDirectory (l : list DirEntry)
  | ROpened
  | ROpenedPassthrough (fh : Z) (backing : Z)
  | RIoctl (d : bytes)
  | RStatfs (s : Statfs)
  | ROk.

(** ** Outside the source

    fuser's reply buffer for a directory, which says when it is full; fuser's
    [open_backing]; nix's [statvfs]; whether the kernel takes the passthrough
    capability and stack depth; and the platform compiled for. *)
Class Kernel := {
  dir_full : list DirEntry -> DirEntry -> bool;
  open_backing : File -> option Z;
  statvfs : host -> path -> option Statfs;
  passthrough_supported : bool;
  kernel_platform :: Platform;
}.
Definition example_kernel : Kernel :=
  {| dir_full := fun l _ => bool_decide (100 <= length l); open_backing := fun _ => None;
     statvfs := fun _ _ => None; passthrough_supported := false;
     kernel_platform := {| target_os := Linux |} |}.

Section Mount.
Context {E : Env} {J : Serde} {K : Kernel}.

(** [BranchFs::new] *)
Definition fs_new (w : World) (mountpoint : path) (passthrough expose_control : bool) : BranchFs :=
  {| inodes := inode_new; mountpoint := mountpoint; current_epoch := epoch w; branch_ctl_inodes := ∅;
     next_ctl_ino := FIRST_CTL_INO; fs_uid := proc_uid; fs_gid := proc_gid;
     open_cache := cache_new; write_cache := cache_new; passthrough_enabled := passthrough;
     passthrough_state := passthrough_new; expose_control := expose_control |}.

Definition branch_of_mount (w : World) (f : BranchFs) : string :=
  default "main" (get_mount_branch (mountpoint f) w).
Definition get_branch_name : FIO string := gets (fun s => branch_of_mount s.1.2 s.2).
Definition branch_writable (b : string) : FIO bool := gets (fun s => is_branch_writable b s.1.2).
Definition branch_valid (b : string) : FIO bool := gets (fun s => is_branch_valid b s.1.2).

Definition write_denied_error (b : string) : FIO (option errno) :=
  let* ok := branch_writable b in
  ret (if ok then None else Some EROFS).

(** The staleness test refreshes the epoch of the mount. *)
Definition is_stale : FIO bool :=
  let* b := get_branch_name in
  let* w := get_world in
  let* f := get_fs in
  do* when (negb (bool_decide (epoch w = current_epoch f))) (upd_fs (with_epoch (epoch w)));
  let* v := branch_valid b in
  ret (negb v).

Definition refresh_epoch : FIO unit :=
  let* w := get_world in upd_fs (with_epoch (epoch w)).

Definition switch_to_branch (new_branch : string) : FIO unit :=
  let* f := get_fs in
  do* upd_world (switch_mount_branch (mountpoint f) new_branch);
  do* refresh_epoch;
  upd_fs (fun f => with_inodes (clear (inodes f)) f).

(** ** fs_helpers.rs *)

Definition resolve_for_branch (b p : string) : FIO (option path) :=
  let* r := attempt (mgr (resolve_path b p)) in
  ret (match r with Ok o => o | Err _ => None end).
Definition resolve (p : string) : FIO (option path) :=
  let* b := get_branch_name in
  resolve_for_branch b p.

(** An [io::Error], known by its [raw_os_error]; [io::Error::other] has none. *)
Definition ensure_cow_for_branch (b rel : string) : FIO (res (option errno) path) :=
  let* r := attempt (mgr (ensure_delta_path_for_write b rel)) in
  ret (match r with Ok p => Ok p | Err _ => Err None end).
Definition ensure_cow (rel : string) : FIO (res (option errno) path) :=
  let* b := get_branch_name in
  ensure_cow_for_branch b rel.

(** [st_mode]: the type and the permission bits. *)
Definition type_bits (n : node) : Z :=
  match n_kind n with KDir => 0x4000 | KSymlink _ => 0xA000 | _ => 0x8000 end.
Definition st_mode (n : node) : Z := Z.lor (type_bits n) (n_mode n).

Definition kind_of_node (n : node) : FileType :=
  if is_dir n then Directory else if is_symlink n then Symlink else RegularFile.

Definition attr_of_node (ino : Z) (n : node) : FileAttr :=
  {| a_ino := ino; a_size := node_len n; a_blocks := ((node_len n + (BLOCK_SIZE - 1)) / BLOCK_SIZE)%Z;
     a_atime := s_atime (n_stamp n); a_mtime := n_mtime n; a_kind := kind_of_node n;
     a_perm := Z.land (st_mode n) 0xFFFF; a_uid := s_uid (n_stamp n); a_gid := s_gid (n_stamp n) |}.
Definition make_attr (ino : Z) (p : path) : FIO (option FileAttr) :=
  let* r := attempt (hostio (symlink_metadata p)) in
  ret (match r with Ok n => Some (attr_of_node ino n) | Err _ => None end).

Definition synthetic_dir_attr (ino : Z) (f : BranchFs) : FileAttr :=
  {| a_ino := ino; a_size := 0; a_blocks := 0; a_atime := 0; a_mtime := 0; a_kind := Directory;
     a_perm := 493; a_uid := fs_uid f; a_gid := fs_gid f |}.

Definition ctl_file_attr (ino : Z) (f : BranchFs) : FileAttr :=
  {| a_ino := ino; a_size := ctl_file_size ino; a_blocks := 0; a_atime := 0; a_mtime := 0;
     a_kind := RegularFile; a_perm := 384; a_uid := fs_uid f; a_gid := fs_gid f |}.

Definition new_inode (p : string) (dir : bool) : FIO Z :=
  fun s => let '(i, m) := get_or_create p dir (inodes s.2) in (Ok i, (s.1, with_inodes m s.2)).
Definition inode_path (i : Z) : FIO (option string) := gets (fun s => get_path i (inodes s.2)).
Definition remove_inode (p : string) : FIO unit := upd_fs (fun f => with_inodes (remove p (inodes f)) f).

(** One candidate of [collect_readdir_entries]. *)
Definition readdir_candidate (branch rel inode_prefix : string) (n : string) : FIO (list DirEntry) :=
  let child := child_rel rel n in
  let* resolved := resolve_for_branch branch child in
  match resolved with
  | None => ret []
  | Some p =>
      let* ft := attempt (hostio (symlink_metadata p)) in
      let kind := match ft with Ok m => kind_of_node m | Err _ => RegularFile end in
      let* i := new_inode (inode_prefix +:+ child) (bool_decide (kind = Directory)) in
      ret [{| de_ino := i; de_off := 0; de_kind := kind; de_name := n |}]
  end.

Definition dot_entries (ino : Z) : list DirEntry :=
  [{| de_ino := ino; de_off := 0; de_kind := Directory; de_name := "." |};
   {| de_ino := ino; de_off := 0; de_kind := Directory; de_name := ".." |}].

Definition collect_readdir_entries (branch rel : string) (ino : Z) (inode_prefix : string)
  : FIO (list DirEntry) :=
  let* r := attempt (mgr (collect_dir_names branch rel)) in
  match r with
  | Err _ => ret (dot_entries ino)
  | Ok names =>
      fold_m (fun out n => let* e := readdir_candidate branch rel inode_prefix n in ret (out ++ e))
             (dot_entries ino) (sort_strings (set_order names))
  end.
End Mount.
