(* ===== verification/Ctl.v ===== *)
(** * Control files (fs_ctl.rs)

    What a write to [.branchfs_ctl] does: the commands of the root control file
    (switch, create, commit, abort) and those of a branch's own.  The numbers
    of the branch control files come from a counter of their own. *)

From S2P Require Import Prelude Strs Inode HostFs Handles Quota TextMerge Branch View Manager Commit.
From S2P Require Import Platform Mount.

Open Scope bool_scope.

(** ** Command text *)

(** [String::from_utf8_lossy]: every maximal invalid part becomes U+FFFD. *)
Definition replacement : bytes := ["239"%char; "191"%char; "189"%char].

Definition second_ok (a x : ascii) : bool :=
  if byte_in 224 224 a then byte_in 160 191 x
  else if byte_in 237 237 a then byte_in 128 159 x
  else if byte_in 240 240 a then byte_in 144 191 x
  else if byte_in 244 244 a then byte_in 128 143 x
  else byte_in 128 191 x.

Fixpoint lossy (b : bytes) : bytes :=
  match b with
  | [] => []
  | a :: t =>
      if byte_in 0 127 a then a :: lossy t
      else if byte_in 194 223 a then
        match t with
        | x :: t1 => if byte_in 128 191 x then a :: x :: lossy t1 else replacement ++ lossy t
        | [] => replacement
        end
      else if byte_in 224 239 a then
        match t with
        | x :: t1 =>
            if second_ok a x then
              match t1 with
              | y :: t2 => if byte_in 128 191 y then a :: x :: y :: lossy t2 else replacement ++ lossy t1
              | [] => replacement
              end
            else replacement ++ lossy t
        | [] => replacement
        end
      else if byte_in 240 244 a then
        match t with
        | x :: t1 =>
            if second_ok a x then
              match t1 with
              | y :: t2 =>
                  if byte_in 128 191 y then
                    match t2 with
                    | z :: t3 => if byte_in 128 191 z then a :: x :: y :: z :: lossy t3
                                 else replacement ++ lossy t2
                    | [] => replacement
                    end
                  else replacement ++ lossy t1
              | [] => replacement
              end
            else replacement ++ lossy t
        | [] => replacement
        end
      else replacement ++ lossy t
  end.
Definition from_utf8_lossy (b : bytes) : string := string_of (lossy b).

Definition is_ws_or_nul (a : ascii) : bool := is_ws a || bool_decide (a = Ascii.zero).
Definition trim_matches (s : string) : string := trim_end_chars is_ws_or_nul (trim_start_chars is_ws_or_nul s).

(** [str::to_lowercase] on ASCII.  The commands it is compared with are ASCII
    and no other character becomes one of their letters. *)
Definition to_lower (a : ascii) : ascii :=
  let n := Ascii.nat_of_ascii a in
  if (65 <=? n) && (n <=? 90) then Ascii.ascii_of_nat (n + 32) else a.
Definition to_lowercase (s : string) : string := string_of (map to_lower (bytes_of s)).

(** [&cmd[7..]] *)
Definition argument (cmd : string) : string := trim (string_of (drop 7 (bytes_of cmd))).

Definition ctl_command (data : bytes) : string := trim_matches (from_utf8_lossy data).

(** [data.len() as u32] *)
Definition written_len (data : bytes) : Z := (Z.of_nat (length data) mod 2 ^ 32)%Z.

Section Ctl.
Context {E : Env} {J : Serde} {K : Kernel}.

(** ** Numbers of the branch control files *)

Definition get_or_create_branch_ctl_ino (branch : string) : FIO Z :=
  let* f := get_fs in
  match branch_ctl_inodes f !! branch with
  | Some i => ret i
  | None =>
      let i := next_ctl_ino f in
      do* upd_fs (with_ctl_inodes (<[branch := i]> (branch_ctl_inodes f)) (wrap_u64 (i + 1)));
      ret i
  end.

Definition ctl_branch (ino : Z) (m : gmap string Z) : option string :=
  head (map fst (List.filter (fun kv => bool_decide (kv.2 = ino)) (map_to_list m))).
Definition branch_for_ctl_ino (ino : Z) : FIO (option string) :=
  let* f := get_fs in ret (ctl_branch ino (branch_ctl_inodes f)).

(** ** Commands *)

Definition finalize_branch_op (branch : string) (result : res BranchError string) (len : Z) : FIO Reply :=
  match result with
  | Ok parent =>
      do* upd_fs (fun f => with_inodes (clear_prefix ("/@" +:+ branch) (inodes f)) f);
      do* refresh_epoch;
      let* current := get_branch_name in
      let* f := get_fs in
      do* when (bool_decide (current = branch)) (upd_world (switch_mount_branch (mountpoint f) parent));
      ret (RWritten len)
  | Err (Conflict _) => ret (RError ESTALE)
  | Err _ => ret (RError EIO)
  end.

Definition commit_command (branch : string) (data : bytes) : FIO Reply :=
  let* r := attempt (mgr (commit branch)) in finalize_branch_op branch r (written_len data).
Definition abort_command (branch : string) (data : bytes) : FIO Reply :=
  let* r := attempt (mgr (abort branch)) in finalize_branch_op branch r (written_len data).

Definition is_create (cmd_lower : string) : bool :=
  bool_decide (cmd_lower = "create") || starts_with "create:" cmd_lower.
Definition fresh_branch_name : FIO string :=
  let* u := hostio fresh_uuid in ret ("branch-" +:+ u).
Definition create_command (cmd parent : string) (data : bytes) : FIO Reply :=
  let* name := (if starts_with "create:" (to_lowercase cmd) then ret (argument cmd) else fresh_branch_name) in
  if bool_decide (name = "") then ret (RError EINVAL)
  else
    let* r := attempt (mgr (create_branch name parent)) in
    match r with
    | Ok _ => do* refresh_epoch; ret (RWritten (written_len data))
    | Err _ => ret (RError EIO)
    end.

Definition switch_command (cmd : string) (data : bytes) : FIO Reply :=
  let new_branch := argument cmd in
  if bool_decide (new_branch = "") then ret (RError EINVAL)
  else
    let* v := branch_valid new_branch in
    if negb v then ret (RError ENOENT)
    else
      do* switch_to_branch new_branch;
      ret (RWritten (written_len data)).

Definition handle_root_ctl_write (data : bytes) : FIO Reply :=
  let cmd := ctl_command data in
  let cmd_lower := to_lowercase cmd in
  if starts_with "switch:" cmd_lower then switch_command cmd data
  else if is_create cmd_lower then
    let* parent := get_branch_name in create_command cmd parent data
  else if bool_decide (cmd_lower = "commit") then
    let* branch := get_branch_name in commit_command branch data
  else if bool_decide (cmd_lower = "abort") then
    let* branch := get_branch_name in abort_command branch data
  else ret (RError EINVAL).

Definition handle_branch_ctl_write (branch : string) (data : bytes) : FIO Reply :=
  let cmd := ctl_command data in
  let cmd_lower := to_lowercase cmd in
  if bool_decide (cmd_lower = "commit") then commit_command branch data
  else if bool_decide (cmd_lower = "abort") then abort_command branch data
  else if is_create cmd_lower then create_command cmd branch data
  else ret (RError EINVAL).

(** [classify_ino] *)
Definition classify_ino (ino : Z) : FIO (option PathContext) :=
  if bool_decide (ino = ROOT_INO) then ret (Some (RootPath "/"))
  else if bool_decide (ino = CTL_INO) then ret (Some RootCtl)
  else
    let* b := branch_for_ctl_ino ino in
    match b with
    | Some branch => ret (Some (BranchCtl branch))
    | None =>
        let* p := inode_path ino in
        ret (match p with Some p => Some (classify_path p) | None => None end)
    end.
End Ctl.

(** Valid text is read as it is. *)
Lemma byte_in_disjoint lo hi lo' hi' a :
  byte_in lo hi a = true -> hi < lo' \/ hi' < lo -> byte_in lo' hi' a = false.
Proof.
  unfold byte_in. rewrite andb_true_iff, !Nat.leb_le. intros [H1 H2] Hd.
  apply andb_false_iff. rewrite !Nat.leb_gt. lia.
Qed.

Lemma second_ok_3 a x : byte_in 224 239 a = true ->
  second_ok a x = if byte_in 224 224 a then byte_in 160 191 x
                  else if byte_in 237 237 a then byte_in 128 159 x else byte_in 128 191 x.
Proof.
  intros Ha. unfold second_ok.
  by rewrite (byte_in_disjoint _ _ 240 240 a Ha), (byte_in_disjoint _ _ 244 244 a Ha) by lia.
Qed.

Lemma second_ok_4 a x : byte_in 240 244 a = true ->
  second_ok a x = if byte_in 240 240 a then byte_in 144 191 x
                  else if byte_in 244 244 a then byte_in 128 143 x else byte_in 128 191 x.
Proof.
  intros Ha. unfold second_ok.
  by rewrite (byte_in_disjoint _ _ 224 224 a Ha), (byte_in_disjoint _ _ 237 237 a Ha) by lia.
Qed.

Lemma lossy_valid_le n b : length b <= n -> utf8_valid b = true -> lossy b = b.
Proof.
  revert b; induction n as [|n IH]; intros [|a t] Hn Hv; simpl in Hn; try done; try lia.
  cbn [utf8_valid lossy] in *.
  destruct (byte_in 0 127 a); [f_equal; apply IH; [lia|done]|].
  destruct (byte_in 194 223 a).
  { destruct t as [|x t]; [done|]. apply andb_true_iff in Hv as [-> Hv]. simpl in Hn.
    do 2 f_equal. apply IH; [lia|done]. }
  destruct (byte_in 224 239 a) eqn:H3.
  { destruct t as [|x [|y t]]; try done. rewrite second_ok_3 by done. simpl in Hn.
    rewrite !andb_true_iff in Hv. destruct Hv as [[-> ->] Hv]. do 3 f_equal. apply IH; [lia|done]. }
  destruct (byte_in 240 244 a) eqn:H4; [|done].
  destruct t as [|x [|y [|z t]]]; try done. rewrite second_ok_4 by done. simpl in Hn.
  rewrite !andb_true_iff in Hv. destruct Hv as [[[-> ->] ->] Hv]. do 4 f_equal. apply IH; [lia|done].
Qed.

Lemma from_utf8_lossy_valid b : utf8_valid b = true -> from_utf8_lossy b = string_of b.
Proof. intros Hv. unfold from_utf8_lossy. by rewrite (lossy_valid_le (length b) b). Qed.
