(* ===== verification/Fuse.v ===== *)
(** * The FUSE callbacks (fs.rs, [impl Filesystem for BranchFs])

    One definition per callback.  A callback either answers at once ([Now]) or
    hands a job to the blocking worker ([Later]), which answers when it has run
    ([run_job]); [handle] dispatches a request.  Names are valid UTF-8. *)

From S2P Require Import Prelude Strs Inode HostFs Handles Quota TextMerge Branch View Manager Commit.
From S2P Require Import Platform Mount Ctl.

Open Scope bool_scope.

(** ** Jobs of the blocking worker *)

Inductive Job :=
  | JDelete (branch rel inode_path : string) (stale : option errno)
  | JRmdir (branch rel inode_path : string) (stale : option errno)
  | JWrite (branch rel : string) (offset : Z) (data : bytes).

Inductive Outcome := Now (r : Reply) | Later (j : Job).

Definition branch_error_errno (e : BranchError) : errno :=
  match e with Io e => e | NotFound _ => ENOENT | Invalid _ => EROFS | _ => EIO end.

(** ** Flags of [open], [write] and [rename] *)

Section Flags.
Context {P : Platform}.

Definition flags_want_write (flags : Z) : bool :=
  flag_set flags O_ACCMODE || flag_set flags O_TRUNC || flag_set flags O_APPEND.

Definition effective_write_offset (flags requested_offset : Z) (visible_len : option Z) : res errno Z :=
  if (requested_offset <? 0)%Z then Err EINVAL
  else if negb (flag_set flags O_APPEND) then Ok requested_offset
  else let n := default 0%Z visible_len in
       if (n <? 2 ^ 63)%Z then Ok n else Err EFBIG.
End Flags.

Inductive TimeOrNow := SpecificTime (ns : Z) | NowTime.

(** The branch and the path below it that a directory inside an "@branch" has. *)
Definition branch_ctx (parent_path : string) : option (string * string) :=
  match classify_path parent_path with
  | BranchDir b => Some (b, "/")
  | BranchPath b rel => Some (b, rel)
  | _ => None
  end.

Definition branch_inode (b rel : string) : string := "/@" +:+ b +:+ rel.

(** How many of [entries] the reply takes, from number [i] on. *)
Fixpoint page_from (full : list DirEntry -> DirEntry -> bool) (i : Z) (entries out : list DirEntry)
  : list DirEntry :=
  match entries with
  | [] => out
  | e :: l =>
      let e' := {| de_ino := de_ino e; de_off := (i + 1)%Z; de_kind := de_kind e; de_name := de_name e |} in
      if full out e' then out else page_from full (i + 1) l (out ++ [e'])
  end.

(** The part of the listing sent for [offset]; as an unsigned number a negative
    offset is past every end. *)
Definition page_list (full : list DirEntry -> DirEntry -> bool) (entries : list DirEntry) (offset : Z)
  : list DirEntry :=
  if (offset <? 0)%Z then [] else page_from full offset (drop (Z.to_nat offset) entries) [].

Section Fuse.
Context {E : Env} {J : Serde} {K : Kernel}.

Definition fail (e : errno) : FIO Outcome := ret (Now (RError e)).
Definition reply (r : Reply) : FIO Outcome := ret (Now r).

(** The two ends of most callbacks that make or find an entry. *)
Definition reply_entry (i : Z) (p : path) (otherwise : errno) : FIO Outcome :=
  some* a := make_attr i p else fail otherwise in reply (REntry a).
Definition reply_attr (i : Z) (p : path) : FIO Outcome :=
  some* a := make_attr i p else fail ENOENT in reply (RAttr a).

Definition is_dir_entry (p : path) : FIO bool :=
  let* r := attempt (hostio (symlink_metadata p)) in
  ret (match r with Ok n => is_dir n | Err _ => false end).

Definition page (entries : list DirEntry) (offset : Z) : FIO Outcome :=
  reply (RDirectory (page_list dir_full entries offset)).

(** *** init *)
Definition fuse_init (uid gid : Z) : FIO unit :=
  do* when (negb (bool_decide (uid = 0%Z))) (upd_fs (with_owner uid gid));
  let* f := get_fs in
  when (passthrough_enabled f)
       (upd_fs (with_passthrough (setup_capabilities passthrough_supported (passthrough_enabled f))
                                 (passthrough_state f))).

(** *** lookup *)

Definition lookup_resolved (inode_path : string) (resolved : path) : FIO Outcome :=
  let* d := is_dir_entry resolved in
  let* i := new_inode inode_path d in
  reply_entry i resolved ENOENT.

Definition lookup_current (p : string) : FIO Outcome :=
  let* stale := is_stale in
  if stale then fail ESTALE
  else some* q := resolve p else fail ENOENT in lookup_resolved p q.

Definition lookup_in_root (n : string) : FIO Outcome :=
  let* f := get_fs in
  if expose_control f && bool_decide (n = CTL_FILE) then reply (REntry (ctl_file_attr CTL_INO f))
  else
    match (if expose_control f then strip_prefix "@" n else None) with
    | Some branch =>
        require* branch_valid branch else fail ENOENT;
        let* i := new_inode ("/@" +:+ branch) true in
        reply (REntry (synthetic_dir_attr i f))
    | None => lookup_current ("/" +:+ n)
    end.

Definition lookup_in_branch (branch parent_rel n : string) : FIO Outcome :=
  let* f := get_fs in
  if expose_control f && bool_decide (parent_rel = "/") && bool_decide (n = CTL_FILE) then
    let* i := get_or_create_branch_ctl_ino branch in
    reply (REntry (ctl_file_attr i f))
  else if starts_with "@" n then fail ENOENT
  else
    require* branch_valid branch else fail ENOENT;
    let child := child_rel parent_rel n in
    some* q := resolve_for_branch branch child else fail ENOENT in
    lookup_resolved (branch_inode branch child) q.

Definition fuse_lookup (parent : Z) (n : string) : FIO Outcome :=
  some* parent_path := inode_path parent else fail ENOENT in
  if bool_decide (parent_path = "/") then lookup_in_root n
  else
    match branch_ctx parent_path with
    | Some (branch, parent_rel) => lookup_in_branch branch parent_rel n
    | None => lookup_current (parent_path +:+ "/" +:+ n)
    end.

(** *** getattr *)

Definition root_ctl_attr : FIO Outcome :=
  let* f := get_fs in
  if expose_control f then reply (RAttr (ctl_file_attr CTL_INO f)) else fail ENOENT.
Definition branch_ctl_attr (branch : string) (ino : Z) : FIO Outcome :=
  let* f := get_fs in
  let* v := branch_valid branch in
  if expose_control f && v then reply (RAttr (ctl_file_attr ino f)) else fail ENOENT.
Definition root_dir_attr : FIO Outcome :=
  let* f := get_fs in reply (RAttr (synthetic_dir_attr ROOT_INO f)).

Definition getattr_path (ino : Z) (c : PathContext) : FIO Outcome :=
  match c with
  | BranchDir branch =>
      require* branch_valid branch else fail ENOENT;
      let* f := get_fs in reply (RAttr (synthetic_dir_attr ino f))
  | BranchCtl branch => branch_ctl_attr branch ino
  | BranchPath branch rel =>
      require* branch_valid branch else fail ENOENT;
      some* q := resolve_for_branch branch rel else fail ENOENT in reply_attr ino q
  | RootCtl => root_ctl_attr
  | RootPath rp =>
      let* stale := (if bool_decide (ino = ROOT_INO) then ret false else is_stale) in
      if stale then fail ESTALE
      else
        some* q := resolve rp
          else (if bool_decide (ino = ROOT_INO) then root_dir_attr else fail ENOENT) in
        reply_attr ino q
  end.

Definition fuse_getattr (ino : Z) : FIO Outcome :=
  if bool_decide (ino = CTL_INO) then root_ctl_attr
  else
    let* b := branch_for_ctl_ino ino in
    match b with
    | Some branch => branch_ctl_attr branch ino
    | None =>
        some* p := inode_path ino
          else (if bool_decide (ino = ROOT_INO) then root_dir_attr else fail ENOENT) in
        getattr_path ino (classify_path p)
    end.

(** *** read *)

(** [&bytes[off..end]] of the branch name. *)
Definition read_ctl (offset size : Z) : FIO Outcome :=
  let* f := get_fs in
  if negb (expose_control f) then fail ENOENT
  else
    let* branch := get_branch_name in
    let b := bytes_of branch in
    let off := wrap_u64 offset in
    if (Z.of_nat (length b) <=? off)%Z then reply (RData [])
    else
      let last := Z.min (off + size) (Z.of_nat (length b)) in
      reply (RData (take (Z.to_nat (last - off)) (drop (Z.to_nat off) b))).

Definition read_handle (file : File) (offset size : Z) (recheck : bool) : FIO Outcome :=
  let* r := attempt (hostio (file_read file (wrap_u64 offset) size)) in
  match r with
  | Ok d =>
      let* stale := (if recheck then is_stale else ret false) in
      if stale then fail ESTALE else reply (RData d)
  | Err _ => fail EIO
  end.

(** Open a resolved file and keep the handle. *)
Definition read_opening (ino epoch : Z) (q : path) (offset size : Z) (is_root : bool) : FIO Outcome :=
  let* r := attempt (hostio (file_open q)) in
  match r with
  | Err _ => fail EIO
  | Ok file =>
      do* upd_fs (fun f => with_caches (cache_insert ino epoch file (open_cache f)) (write_cache f) f);
      let* f := get_fs in
      match cache_get ino epoch (open_cache f) with
      | Some file => read_handle file offset size is_root
      | None => fail EIO
      end
  end.

Definition read_slow (ino epoch offset size : Z) : FIO Outcome :=
  let* c := classify_ino ino in
  match c with
  | Some (BranchPath branch rel) =>
      require* branch_valid branch else fail ENOENT;
      some* q := resolve_for_branch branch rel else fail ENOENT in
      read_opening ino epoch q offset size false
  | Some (BranchDir _) | Some (BranchCtl _) => fail EISDIR
  | _ =>
      let* stale := is_stale in
      if stale then fail ESTALE
      else
        some* p := inode_path ino else fail ENOENT in
        some* q := resolve p else fail ENOENT in
        read_opening ino epoch q offset size true
  end.

Definition fuse_read (ino offset size : Z) : FIO Outcome :=
  if bool_decide (ino = CTL_INO) then read_ctl offset size
  else
    let* stale := is_stale in
    if stale then fail ESTALE
    else
      let* f := get_fs in
      match cache_get ino (current_epoch f) (open_cache f) with
      | Some file => read_handle file offset size false
      | None => read_slow ino (current_epoch f) offset size
      end.

(** *** write *)

(** The write through an open delta file, against the quota. *)
Definition write_handle (file : File) (write_offset old_size : Z) (data : bytes) (recheck : bool)
  : FIO Outcome :=
  let write_end := (write_offset + Z.of_nat (length data))%Z in
  let* room := attempt (mgr (if (old_size <? write_end)%Z then check_quota (write_end - old_size) else ret tt)) in
  if negb (is_ok room) then fail ENOSPC
  else
    let* r := attempt (hostio (file_write file write_offset data)) in
    match r with
    | Err _ => fail EIO
    | Ok n =>
        let* stale := (if recheck then is_stale else ret false) in
        if stale then fail ESTALE
        else
          let new_end := (write_offset + n)%Z in
          do* mgr (when (old_size <? new_end)%Z (add_quota (new_end - old_size)));
          reply (RWritten n)
    end.

Definition write_cached (file : File) (flags offset : Z) (data : bytes) : FIO Outcome :=
  let* old_size := hostio (file_len_or_0 file) in
  match effective_write_offset flags offset (Some old_size) with
  | Err e => fail e
  | Ok write_offset => write_handle file write_offset old_size data false
  end.

Definition file_len (p : option path) : FIO (option Z) :=
  match p with
  | None => ret None
  | Some p => let* r := attempt (hostio (metadata p)) in
              ret (match r with Ok n => Some (node_len n) | Err _ => None end)
  end.

Definition append_len (branch rel : string) (flags : Z) : FIO (option Z) :=
  if flag_set flags O_APPEND then
    let* visible := resolve_for_branch branch rel in file_len visible
  else ret None.

(** The write of a path not written through a cached handle. *)
Definition write_path (ino epoch : Z) (branch rel : string) (is_root : bool) (flags offset : Z) (data : bytes)
  : FIO Outcome :=
  let* visible_len := append_len branch rel flags in
  match effective_write_offset flags offset visible_len with
  | Err e => fail e
  | Ok write_offset =>
      let* d := mgr (branch_has_delta branch rel) in
      if negb d then ret (Later (JWrite branch rel write_offset data))
      else
        let* cow := ensure_cow_for_branch branch rel in
        match cow with
        | Err e => fail (default EIO e)
        | Ok delta =>
            let* r := attempt (hostio (file_open_create delta)) in
            match r with
            | Err _ => fail EIO
            | Ok file =>
                do* upd_fs (fun f => with_caches (open_cache f) (cache_insert ino epoch file (write_cache f)) f);
                let* f := get_fs in
                match cache_get ino epoch (write_cache f) with
                | None => fail EIO
                | Some file =>
                    let* old_size := hostio (file_len_or_0 file) in
                    write_handle file write_offset old_size data is_root
                end
            end
        end
  end.

Definition write_slow (ino epoch flags offset : Z) (data : bytes) : FIO Outcome :=
  some* p := inode_path ino else fail ENOENT in
  match classify_path p with
  | BranchDir _ | BranchCtl _ => fail EPERM
  | BranchPath branch rel =>
      let* denied := write_denied_error branch in
      match denied with
      | Some e => fail e
      | None =>
          require* branch_valid branch else fail ENOENT;
          write_path ino epoch branch rel false flags offset data
      end
  | _ =>
      let* current := get_branch_name in
      write_path ino epoch current p true flags offset data
  end.

Definition fuse_write (ino offset : Z) (data : bytes) (flags : Z) : FIO Outcome :=
  do* upd_fs (fun f => with_caches (invalidate_ino ino (open_cache f)) (write_cache f) f);
  let* f := get_fs in
  if bool_decide (ino = CTL_INO) then
    if expose_control f then let* r := handle_root_ctl_write data in reply r else fail EPERM
  else
    let* b := branch_for_ctl_ino ino in
    match b with
    | Some branch =>
        if expose_control f then let* r := handle_branch_ctl_write branch data in reply r else fail EPERM
    | None =>
        let* stale := is_stale in
        if stale then fail ESTALE
        else if (offset <? 0)%Z then fail EINVAL
        else
          let* f := get_fs in
          match cache_get ino (current_epoch f) (write_cache f) with
          | Some file => write_cached file flags offset data
          | None => write_slow ino (current_epoch f) flags offset data
          end
    end.

(** *** readdir *)

Definition branch_dirs_at_root (entries : list DirEntry) : FIO (list DirEntry) :=
  let* w := get_world in
  fold_m (fun out kv =>
    if bool_decide (kv.1 = "main") then ret out
    else
      let* i := new_inode ("/@" +:+ kv.1) true in
      ret (out ++ [{| de_ino := i; de_off := 0; de_kind := Directory; de_name := "@" +:+ kv.1 |}]))
    entries (list_branches w).

Definition ctl_entry (i : Z) : DirEntry :=
  {| de_ino := i; de_off := 0; de_kind := RegularFile; de_name := CTL_FILE |}.

Definition readdir_branch_root (branch : string) (ino offset : Z) : FIO Outcome :=
  require* branch_valid branch else fail ENOENT;
  let* entries := collect_readdir_entries branch "/" ino ("/@" +:+ branch) in
  let* f := get_fs in
  let* entries := (if expose_control f then
                     let* i := get_or_create_branch_ctl_ino branch in ret (entries ++ [ctl_entry i])
                   else ret entries) in
  page entries offset.

Definition readdir_root (ino offset : Z) : FIO Outcome :=
  let* stale := is_stale in
  if stale then fail ESTALE
  else
    let* branch := get_branch_name in
    let* entries := collect_readdir_entries branch "/" ino "" in
    let* f := get_fs in
    let* entries := (if expose_control f then branch_dirs_at_root (entries ++ [ctl_entry CTL_INO])
                     else ret entries) in
    let* stale := is_stale in
    if stale then fail ESTALE else page entries offset.

Definition readdir_subdir (rp : string) (ino offset : Z) : FIO Outcome :=
  let* stale := is_stale in
  if stale then fail ESTALE
  else
    let* branch := get_branch_name in
    let* entries := collect_readdir_entries branch rp ino "" in
    let* stale := is_stale in
    if stale then fail ESTALE else page entries offset.

Definition fuse_readdir (ino offset : Z) : FIO Outcome :=
  some* p := (let* p := inode_path ino in
              ret (match p with
                   | Some p => Some p
                   | None => if bool_decide (ino = ROOT_INO) then Some "/" else None
                   end)) else fail ENOENT in
  match classify_path p with
  | BranchDir branch => readdir_branch_root branch ino offset
  | BranchPath branch rel =>
      require* branch_valid branch else fail ENOENT;
      let* entries := collect_readdir_entries branch rel ino ("/@" +:+ branch) in
      page entries offset
  | RootPath rp => if bool_decide (rp = "/") then readdir_root ino offset else readdir_subdir rp ino offset
  | _ => fail ENOTDIR
  end.

(** *** Making entries: create, mkdir, symlink

    The three callbacks differ in the host call [make] that puts the entry into
    the delta, in what undoes it on a mount found stale, and in the reply. *)

(** [Permissions::from_mode(mode & !umask)], set and any failure dropped. *)
Definition set_mode_umask (p : path) (mode umask : Z) : FIO unit :=
  let* _ := attempt (hostio (set_permissions p (Z.land (Z.land mode (Z.lnot umask)) 4095))) in ret tt.

Definition create_make (mode umask : Z) (delta : path) : FIO (res errno unit) :=
  let* r := attempt (hostio (ensure_parent_dirs delta)) in
  if negb (is_ok r) then ret (Err EIO)
  else
    let* r := attempt (hostio (write delta [])) in
    if negb (is_ok r) then ret (Err EIO)
    else do* set_mode_umask delta mode umask; ret (Ok tt).
Definition mkdir_make (mode umask : Z) (delta : path) : FIO (res errno unit) :=
  let* r := attempt (hostio (create_dir_all delta)) in
  if negb (is_ok r) then ret (Err EIO)
  else do* set_mode_umask delta mode umask; ret (Ok tt).
Definition symlink_make (target : string) (delta : path) : FIO (res errno unit) :=
  let* r := attempt (hostio (ensure_parent_dirs delta)) in
  if negb (is_ok r) then ret (Err EIO)
  else
    let* r := attempt (hostio (symlink target delta)) in
    if negb (is_ok r) then ret (Err EIO) else ret (Ok tt).

Definition created_reply (ino_path : string) (dir : bool) (delta : path) (answer : FileAttr -> Reply)
  : FIO Outcome :=
  let* i := new_inode ino_path dir in
  some* a := make_attr i delta else fail EIO in reply (answer a).

Definition make_in_branch (branch parent_rel n : string) (dir : bool)
    (make : path -> FIO (res errno unit)) (answer : FileAttr -> Reply) : FIO Outcome :=
  require* branch_valid branch else fail ENOENT;
  let* denied := write_denied_error branch in
  match denied with
  | Some e => fail e
  | None =>
      let rel := child_rel parent_rel n in
      let* cow := ensure_cow_for_branch branch rel in
      match cow with
      | Err _ => fail EIO
      | Ok delta =>
          let* r := make delta in
          match r with
          | Err e => fail e
          | Ok _ => created_reply (branch_inode branch rel) dir delta answer
          end
      end
  end.

Definition make_at_root (rp n : string) (dir : bool) (make : path -> FIO (res errno unit))
    (undo : path -> IO unit) (answer : FileAttr -> Reply) : FIO Outcome :=
  let p := child_rel rp n in
  let* current := get_branch_name in
  let* denied := write_denied_error current in
  match denied with
  | Some e => fail e
  | None =>
      let* cow := ensure_cow p in
      match cow with
      | Err _ => fail EIO
      | Ok delta =>
          let* r := make delta in
          match r with
          | Err e => fail e
          | Ok _ =>
              let* stale := is_stale in
              if stale then
                let* _ := attempt (hostio (undo delta)) in fail ESTALE
              else created_reply p dir delta answer
          end
      end
  end.

Definition make_entry (parent : Z) (n : string) (dir : bool) (make : path -> FIO (res errno unit))
    (undo : path -> IO unit) (answer : FileAttr -> Reply) : FIO Outcome :=
  some* parent_path := inode_path parent else fail ENOENT in
  match branch_ctx parent_path with
  | Some (branch, parent_rel) => make_in_branch branch parent_rel n dir make answer
  | None =>
      match classify_path parent_path with
      | BranchCtl _ | RootCtl => fail EPERM
      | RootPath rp => make_at_root rp n dir make undo answer
      | _ => fail ENOENT
      end
  end.

Definition fuse_create (parent : Z) (n : string) (mode umask : Z) : FIO Outcome :=
  make_entry parent n false (create_make mode umask) remove_file_call RCreated.
Definition fuse_mkdir (parent : Z) (n : string) (mode umask : Z) : FIO Outcome :=
  make_entry parent n true (mkdir_make mode umask) remove_dir_all_call REntry.
Definition fuse_symlink (parent : Z) (n target : string) : FIO Outcome :=
  make_entry parent n false (symlink_make target) remove_file_call REntry.

(** *** unlink, rmdir *)

Definition remove_entry_async (parent : Z) (n : string)
    (job : string -> string -> string -> option errno -> Job) : FIO Outcome :=
  some* parent_path := inode_path parent else fail ENOENT in
  match branch_ctx parent_path with
  | Some (branch, parent_rel) =>
      if starts_with "@" n || bool_decide (n = CTL_FILE) then fail EPERM
      else
        require* branch_valid branch else fail ENOENT;
        let* denied := write_denied_error branch in
        match denied with
        | Some e => fail e
        | None =>
            let rel := child_rel parent_rel n in
            ret (Later (job branch rel (branch_inode branch rel) None))
        end
  | None =>
      match classify_path parent_path with
      | BranchCtl _ | RootCtl => fail EPERM
      | RootPath rp =>
          let p := child_rel rp n in
          let* current := get_branch_name in
          let* denied := write_denied_error current in
          match denied with
          | Some e => fail e
          | None => ret (Later (job current p p (Some ESTALE)))
          end
      | _ => fail ENOENT
      end
  end.

Definition fuse_unlink (parent : Z) (n : string) : FIO Outcome := remove_entry_async parent n JDelete.
Definition fuse_rmdir (parent : Z) (n : string) : FIO Outcome := remove_entry_async parent n JRmdir.

(** *** The worker *)

Definition reply_from_delete_result (branch inode_path : string) (stale : option errno)
    (result : res BranchError unit) : FIO Reply :=
  let* v := branch_valid branch in
  match result, stale with
  | _, Some e =>
      if negb v then ret (RError e)
      else match result with
           | Ok _ => do* remove_inode inode_path; ret ROk
           | Err x => ret (RError (branch_error_errno x))
           end
  | Ok _, None => do* remove_inode inode_path; ret ROk
  | Err x, None => ret (RError (branch_error_errno x))
  end.

Definition run_job (j : Job) : FIO Reply :=
  match j with
  | JDelete branch rel inode_path stale =>
      let* r := attempt (mgr (delete_path_in_branch branch rel)) in
      reply_from_delete_result branch inode_path stale r
  | JRmdir branch rel inode_path stale =>
      let* r := attempt (mgr (rmdir_path_in_branch branch rel)) in
      reply_from_delete_result branch inode_path stale r
  | JWrite branch rel offset data =>
      let* r := attempt (mgr (write_data_to_branch branch rel offset data)) in
      ret (match r with Ok n => RWritten n | Err e => RError (branch_error_errno e) end)
  end.

(** *** rename *)

(** What [resolve_parent] makes of a directory: branch, path below it, inode
    prefix, and whether it is reached from the root of the mount. *)
Definition rename_parent (p : string) : option (string * string * string * bool) :=
  match classify_path p with
  | BranchDir b => Some (b, "/", "/@" +:+ b, false)
  | BranchPath b rel => Some (b, rel, "/@" +:+ b, false)
  | RootPath rp => Some ("", rp, "", true)
  | _ => None
  end.

(** The destination's delta goes, so that the rename can overwrite. *)
Definition clear_destination (branch dst_rel : string) : FIO unit :=
  let* _ := attempt (mgr (on_branch branch (
    let* b := gets snd in
    let d := delta_path b dst_rel in
    let* e := on_host (exists_ d) in
    when e (
      let* dir := on_host (is_dir_path d) in
      let* _ := attempt (on_host (if dir then remove_dir_all_call d else remove_file_call d)) in
      ret tt)))) in
  ret tt.

Definition rename_tombstones (branch src_rel dst_rel : string) (src_inherited dst_existed : bool)
  : FIO (res BranchError unit) :=
  attempt (mgr (on_branch branch (
    do* (if src_inherited then add_tombstone src_rel else remove_tombstone src_rel);
    do* when dst_existed (add_tombstone dst_rel);
    remove_tombstone dst_rel))).

(** Update of the inode table after the move. *)
Definition rename_inodes (src_ino_path dst_ino_path : string) (dir : bool) : FIO unit :=
  do* remove_inode src_ino_path;
  do* remove_inode dst_ino_path;
  let* i := new_inode dst_ino_path dir in
  upd_fs (fun f => with_caches (invalidate_ino i (open_cache f)) (invalidate_ino i (write_cache f)) f).

(** The move itself, both paths copied into the delta. *)
Definition rename_in_delta (branch src_rel dst_rel : string) (src_inherited : bool) : FIO (res errno path) :=
  let* cow := ensure_cow_for_branch branch src_rel in
  match cow with
  | Err _ => ret (Err EIO)
  | Ok src_delta =>
      let* cow := ensure_cow_for_branch branch dst_rel in
      match cow with
      | Err _ => ret (Err EIO)
      | Ok dst_delta =>
          let* r := attempt (hostio (ensure_parent_dirs dst_delta)) in
          if negb (is_ok r) then ret (Err EIO)
          else
            let* existed := resolve_for_branch branch dst_rel in
            let dst_existed := bool_decide (is_Some existed) in
            do* when dst_existed (clear_destination branch dst_rel);
            let* r := attempt (hostio (rename src_delta dst_delta)) in
            if negb (is_ok r) then ret (Err EIO)
            else
              let* r := rename_tombstones branch src_rel dst_rel src_inherited dst_existed in
              ret (if is_ok r then Ok dst_delta else Err EIO)
      end
  end.

Definition rename_in_branch (branch src_rel dst_rel src_prefix dst_prefix : string) (is_root : bool)
    (flags : Z) : FIO Outcome :=
  let* denied := write_denied_error branch in
  match denied with
  | Some e => fail e
  | None =>
      some* _ := resolve_for_branch branch src_rel else fail ENOENT in
      let* inh := attempt (mgr (inherited_path_exists branch src_rel)) in
      let src_inherited := match inh with Ok b => b | Err _ => false end in
      let* target := (if check_rename_noreplace flags then resolve_for_branch branch dst_rel else ret None) in
      if bool_decide (is_Some target) then fail EEXIST
      else
        let* moved := rename_in_delta branch src_rel dst_rel src_inherited in
        match moved with
        | Err e => fail e
        | Ok dst_delta =>
            let* stale := (if is_root then is_stale else ret false) in
            if stale then fail ESTALE
            else
              let* dir := hostio (is_dir_path dst_delta) in
              do* rename_inodes (src_prefix +:+ src_rel) (dst_prefix +:+ dst_rel) dir;
              reply ROk
        end
  end.

Definition fuse_rename (parent : Z) (n : string) (newparent : Z) (newname : string) (flags : Z)
  : FIO Outcome :=
  match check_rename_flags flags with
  | Err e => fail e
  | Ok _ =>
      some* parent_path := inode_path parent else fail ENOENT in
      some* newparent_path := inode_path newparent else fail ENOENT in
      match rename_parent parent_path, rename_parent newparent_path with
      | Some (src_branch, src_parent, src_prefix, src_is_root),
        Some (dst_branch, dst_parent, dst_prefix, dst_is_root) =>
          if negb (eqb src_is_root dst_is_root)
             || (negb src_is_root && negb (bool_decide (src_branch = dst_branch))) then fail EXDEV
          else
            let* branch := (if src_is_root then get_branch_name else ret src_branch) in
            require* (if src_is_root then ret true else branch_valid src_branch) else fail ENOENT;
            rename_in_branch branch (child_rel src_parent n) (child_rel dst_parent newname)
                             src_prefix dst_prefix src_is_root flags
      | _, _ => fail EPERM
      end
  end.

(** *** open, release *)

Definition fs_open_passthrough (file : File) : FIO Outcome :=
  let* f := get_fs in
  let '(opened, st) := open_passthrough (open_backing file) (passthrough_state f) in
  do* upd_fs (with_passthrough (passthrough_enabled f) st);
  reply (match opened with Some (fh, backing) => ROpenedPassthrough fh backing | None => ROpened end).

Definition try_open_passthrough (flags : Z) (branch rel : string) (resolved : path) : FIO Outcome :=
  let is_writable := flag_set flags O_ACCMODE in
  let* denied := (if is_writable then write_denied_error branch else ret None) in
  match denied with
  | Some e => fail e
  | None =>
      let* backing := (if is_writable then ensure_cow_for_branch branch rel else ret (Ok resolved)) in
      match backing with
      | Err e => fail (default EIO e)
      | Ok p =>
          let* r := attempt (hostio (if is_writable then file_open_existing p else file_open p)) in
          match r with
          | Ok file => fs_open_passthrough file
          | Err _ => reply ROpened
          end
      end
  end.

Definition opened_path (ino flags : Z) (branch rel : string) (resolved : path) : FIO Outcome :=
  do* upd_world (register_opened_inode branch ino);
  let* f := get_fs in
  if passthrough_enabled f then try_open_passthrough flags branch rel resolved else reply ROpened.

Definition open_branch_path (ino flags : Z) (branch rel : string) : FIO Outcome :=
  let* denied := (if flags_want_write flags then write_denied_error branch else ret None) in
  match denied with
  | Some e => fail e
  | None =>
      require* branch_valid branch else fail ENOENT;
      some* q := resolve_for_branch branch rel else fail ENOENT in
      opened_path ino flags branch rel q
  end.

Definition open_root_path (ino flags : Z) (p : string) : FIO Outcome :=
  let* stale := is_stale in
  if stale then fail ESTALE
  else
    some* q := resolve p else fail ENOENT in
    let* branch := get_branch_name in
    let* denied := (if flags_want_write flags then write_denied_error branch else ret None) in
    match denied with
    | Some e => fail e
    | None => opened_path ino flags branch p q
    end.

Definition fuse_open (ino flags : Z) : FIO Outcome :=
  let* ctl := branch_for_ctl_ino ino in
  if bool_decide (ino = CTL_INO) || bool_decide (is_Some ctl) then reply ROpened
  else
    some* p := inode_path ino else fail ENOENT in
    match classify_path p with
    | BranchDir _ | BranchCtl _ => reply ROpened
    | BranchPath branch rel => open_branch_path ino flags branch rel
    | _ => open_root_path ino flags p
    end.

Definition fuse_release (fh : Z) : FIO Outcome :=
  do* when (negb (bool_decide (fh = 0%Z)))
        (upd_fs (fun f => with_passthrough (passthrough_enabled f)
                            (release_passthrough fh (passthrough_state f)) f));
  reply ROk.

(** *** setattr *)

Record SetAttr := {
  sa_mode : option Z; sa_uid : option Z; sa_gid : option Z; sa_size : option Z;
  sa_atime : option TimeOrNow; sa_mtime : option TimeOrNow }.

Definition time_value (now old : Z) (t : option TimeOrNow) : Z :=
  match t with Some (SpecificTime z) => Z.max z 0 | Some NowTime => now | None => old end.
Definition set_owner (u g : option Z) (n : node) : node :=
  let s := n_stamp n in
  Node (n_kind n) (n_mode n) (n_mtime n) (Stamp (s_id s) (default (s_uid s) u) (default (s_gid s) g) (s_atime s)).
Definition set_times (now : Z) (a m : option TimeOrNow) (n : node) : node :=
  let s := n_stamp n in
  Node (n_kind n) (n_mode n) (time_value now (n_mtime n) m)
       (Stamp (s_id s) (s_uid s) (s_gid s) (time_value now (s_atime s) a)).

(** [chown] and [utimensat], both following links. *)
Definition alter_node (p : path) (f : Z -> node -> node) : IO unit :=
  let* q := real_path p in
  let* _ := symlink_metadata q in
  modify (fun h => Host (alter (f (h_clock h)) q (h_tree h)) (h_clock h) (h_uuid h) (h_gone h)).

Definition apply_setattr (delta : path) (a : SetAttr) : FIO unit :=
  do* (match sa_mode a with
       | Some m => let* _ := attempt (hostio (set_permissions delta (Z.land m 4095))) in ret tt
       | None => ret tt
       end);
  do* (if bool_decide (is_Some (sa_uid a)) || bool_decide (is_Some (sa_gid a)) then
         let* _ := attempt (hostio (alter_node delta (fun _ => set_owner (sa_uid a) (sa_gid a)))) in ret tt
       else ret tt);
  if bool_decide (is_Some (sa_atime a)) || bool_decide (is_Some (sa_mtime a)) then
    let* _ := attempt (hostio (alter_node delta (fun now => set_times now (sa_atime a) (sa_mtime a)))) in ret tt
  else ret tt.

(** mode, owner or times are asked for *)
Definition wants_attributes (a : SetAttr) : bool :=
  bool_decide (is_Some (sa_mode a)) || bool_decide (is_Some (sa_uid a)) || bool_decide (is_Some (sa_gid a))
  || bool_decide (is_Some (sa_atime a)) || bool_decide (is_Some (sa_mtime a)).

(** [set_len] on the delta, and the quota; [Some] is the error replied. *)
Definition truncate_delta (delta : path) (new_size : Z) : FIO (option errno) :=
  let* r := attempt (hostio (file_open_existing delta)) in
  match r with
  | Err _ => ret None
  | Ok file =>
      let* old_size := hostio (file_len_or_0 file) in
      let* room := attempt (mgr (if (old_size <? new_size)%Z then check_quota (new_size - old_size) else ret tt)) in
      if negb (is_ok room) then ret (Some ENOSPC)
      else
        let* _ := attempt (hostio (file_set_len file new_size)) in
        do* mgr (if (old_size <? new_size)%Z then add_quota (new_size - old_size)
                 else when (new_size <? old_size)%Z (sub_quota (old_size - new_size)));
        ret None
  end.

Definition setattr_size (branch rel : string) (size : option Z) : FIO (option errno) :=
  match size with
  | None => ret None
  | Some new_size =>
      let* cow := ensure_cow_for_branch branch rel in
      match cow with
      | Ok delta => truncate_delta delta new_size
      | Err e => ret (if bool_decide (e = Some ENOSPC) then Some ENOSPC else None)
      end
  end.

Definition setattr_attributes (branch rel : string) (a : SetAttr) : FIO unit :=
  if wants_attributes a then
    let* cow := ensure_cow_for_branch branch rel in
    match cow with Ok delta => apply_setattr delta a | Err _ => ret tt end
  else ret tt.

Definition setattr_reply (ino : Z) (branch rel : string) : FIO Outcome :=
  some* q := resolve_for_branch branch rel else fail ENOENT in reply_attr ino q.

Definition setattr_denied (branch : string) (a : SetAttr) : FIO (option errno) :=
  if bool_decide (is_Some (sa_size a)) || wants_attributes a then write_denied_error branch else ret None.

Definition setattr_branch_path (ino : Z) (branch rel : string) (a : SetAttr) : FIO Outcome :=
  let* denied := setattr_denied branch a in
  match denied with
  | Some e => fail e
  | None =>
      require* branch_valid branch else fail ENOENT;
      let* full := setattr_size branch rel (sa_size a) in
      match full with
      | Some e => fail e
      | None => do* setattr_attributes branch rel a; setattr_reply ino branch rel
      end
  end.

Definition setattr_root_path (ino : Z) (p : string) (a : SetAttr) : FIO Outcome :=
  let* current := get_branch_name in
  let* denied := setattr_denied current a in
  match denied with
  | Some e => fail e
  | None =>
      let* full := setattr_size current p (sa_size a) in
      match full with
      | Some e => fail e
      | None =>
          do* setattr_attributes current p a;
          let* stale := is_stale in
          if stale then fail ESTALE else setattr_reply ino current p
      end
  end.

Definition fuse_setattr (ino : Z) (a : SetAttr) : FIO Outcome :=
  do* when (bool_decide (is_Some (sa_size a)))
        (upd_fs (fun f => with_caches (invalidate_ino ino (open_cache f)) (invalidate_ino ino (write_cache f)) f));
  if bool_decide (ino = CTL_INO) then root_ctl_attr
  else
    let* b := branch_for_ctl_ino ino in
    match b with
    | Some branch => branch_ctl_attr branch ino
    | None =>
        some* p := inode_path ino else fail ENOENT in
        match classify_path p with
        | BranchDir _ | BranchCtl _ => fail EPERM
        | BranchPath branch rel => setattr_branch_path ino branch rel a
        | _ => setattr_root_path ino p a
        end
    end.

(** *** ioctl *)

(** The name in a zero-filled buffer of 128 bytes. *)
Definition name_buffer (n : string) : bytes :=
  let b := take 127 (bytes_of n) in b ++ replicate (128 - length b) Ascii.zero.

Definition ioctl_create (branch : string) : FIO Outcome :=
  let* n := fresh_branch_name in
  let* r := attempt (mgr (create_branch n branch)) in
  match r with
  | Ok _ => do* refresh_epoch; reply (RIoctl (name_buffer n))
  | Err _ => fail EIO
  end.
Definition ioctl_finished (branch : string) : FIO Outcome :=
  do* upd_fs (fun f => with_inodes (clear_prefix ("/@" +:+ branch) (inodes f)) f);
  do* refresh_epoch;
  reply (RIoctl []).
Definition ioctl_commit (branch : string) : FIO Outcome :=
  let* r := attempt (mgr (commit branch)) in
  match r with
  | Ok _ => ioctl_finished branch
  | Err (Conflict _) => fail ESTALE
  | Err _ => fail EIO
  end.
Definition ioctl_abort (branch : string) : FIO Outcome :=
  let* r := attempt (mgr (abort branch)) in
  match r with Ok _ => ioctl_finished branch | Err _ => fail EIO end.
Definition fuse_ioctl (ino cmd : Z) : FIO Outcome :=
  let* current := get_branch_name in
  some* branch := (if bool_decide (ino = CTL_INO) then ret (Some current) else branch_for_ctl_ino ino)
    else fail ENOTTY in
  if bool_decide (cmd = FS_IOC_BRANCH_CREATE) then ioctl_create branch
  else if bool_decide (cmd = FS_IOC_BRANCH_COMMIT) then ioctl_commit branch
  else if bool_decide (cmd = FS_IOC_BRANCH_ABORT) then ioctl_abort branch
  else fail ENOTTY.

(** *** readlink, access, statfs *)

Definition read_link_reply (q : path) : FIO Outcome :=
  let* r := attempt (hostio (read_link q)) in
  match r with Ok target => reply (RData (bytes_of target)) | Err _ => fail EINVAL end.

Definition fuse_readlink (ino : Z) : FIO Outcome :=
  let* c := classify_ino ino in
  match c with
  | Some (BranchPath branch rel) =>
      require* branch_valid branch else fail ENOENT;
      some* q := resolve_for_branch branch rel else fail ENOENT in read_link_reply q
  | Some (RootPath rp) =>
      let* stale := is_stale in
      if stale then fail ESTALE
      else some* q := resolve rp else fail ENOENT in read_link_reply q
  | _ => fail EINVAL
  end.

Definition fuse_access (ino mask : Z) : FIO Outcome :=
  match handle_access with Some e => fail e | None => reply ROk end.

Definition fuse_statfs : FIO Outcome :=
  let* w := get_world in
  match statfs_blocks (quota w) with
  | Some (total, free, avail) =>
      reply (RStatfs {| sf_blocks := total; sf_bfree := free; sf_bavail := avail; sf_files := 0;
                        sf_ffree := 0; sf_bsize := 4096; sf_namelen := 255; sf_frsize := 4096 |})
  | None =>
      let* h := gets (fun s : Mounted => s.1.1) in
      match statvfs h (storage_path w) with
      | Some st => reply (RStatfs st)
      | None => fail EIO
      end
  end.

(** ** Dispatch *)

Inductive FuseOp :=
  | OpLookup (parent : Z) (n : string)
  | OpGetattr (ino : Z)
  | OpRead (ino offset size : Z)
  | OpWrite (ino offset : Z) (data : bytes) (flags : Z)
  | OpReaddir (ino offset : Z)
  | OpCreate (parent : Z) (n : string) (mode umask : Z)
  | OpMkdir (parent : Z) (n : string) (mode umask : Z)
  | OpSymlink (parent : Z) (n target : string)
  | OpUnlink (parent : Z) (n : string)
  | OpRmdir (parent : Z) (n : string)
  | OpRename (parent : Z) (n : string) (newparent : Z) (newname : string) (flags : Z)
  | OpOpen (ino flags : Z)
  | OpRelease (fh : Z)
  | OpSetattr (ino : Z) (a : SetAttr)
  | OpIoctl (ino cmd : Z)
  | OpReadlink (ino : Z)
  | OpAccess (ino mask : Z)
  | OpStatfs.

Definition handle (o : FuseOp) : FIO Outcome :=
  match o with
  | OpLookup parent n => fuse_lookup parent n
  | OpGetattr ino => fuse_getattr ino
  | OpRead ino offset size => fuse_read ino offset size
  | OpWrite ino offset data flags => fuse_write ino offset data flags
  | OpReaddir ino offset => fuse_readdir ino offset
  | OpCreate parent n mode umask => fuse_create parent n mode umask
  | OpMkdir parent n mode umask => fuse_mkdir parent n mode umask
  | OpSymlink parent n target => fuse_symlink parent n target
  | OpUnlink parent n => fuse_unlink parent n
  | OpRmdir parent n => fuse_rmdir parent n
  | OpRename parent n newparent newname flags => fuse_rename parent n newparent newname flags
  | OpOpen ino flags => fuse_open ino flags
  | OpRelease fh => fuse_release fh
  | OpSetattr ino a => fuse_setattr ino a
  | OpIoctl ino cmd => fuse_ioctl ino cmd
  | OpReadlink ino => fuse_readlink ino
  | OpAccess ino mask => fuse_access ino mask
  | OpStatfs => fuse_statfs
  end.
End Fuse.
