(* ===== verification/Daemon.v ===== *)
(** * The daemon (daemon.rs) and its command line (main.rs)

    The daemon owns the manager and the mounts, answers the requests of its
    clients one after the other, and ends when the last mount goes.  The FUSE
    sessions run beside it; [on_mount] is one callback of one of them. *)

From S2P Require Import Prelude Strs Inode HostFs Handles Quota TextMerge Branch View Manager Commit.
From S2P Require Import Platform Mount Ctl Fuse.

Open Scope bool_scope.

Inductive Request :=
  | ReqMount (branch mountpoint : string) (passthrough control allow_other : bool)
  | ReqUnmount (mountpoint : string)
  | ReqCreate (n parent : string) (lazy : bool) (hide : list string)
  | ReqFreeze (branch : string)
  | ReqThaw (branch : string)
  | ReqStatus (branch : string)
  | ReqCommitBranch (branch : string)
  | ReqAbortBranch (branch : string)
  | ReqRevertPath (branch p : string)
  | ReqGetMountBranch (mountpoint : string)
  | ReqList
  | ReqShutdown.

(** [Response]: the JSON data and the error text are kept as the values they
    are made from. *)
Inductive Value :=
  | VStatus (s : BranchStatus)
  | VOutcome (o : CommitOutcome)
  | VParent (parent : string)
  | VBranch (branch : string)
  | VBranches (l : list BranchStatus).
Inductive Message :=
  | MsgOf (e : BranchError)
  | MsgMountpoint (e : BranchError)
  | MsgMountNotFound (mountpoint : path)
  | MsgInvalidRequest.
Record Response := { resp_ok : bool; resp_error : option Message; resp_data : option Value }.
Definition success : Response := {| resp_ok := true; resp_error := None; resp_data := None |}.
Definition success_with_data (v : Value) : Response :=
  {| resp_ok := true; resp_error := None; resp_data := Some v |}.
Definition error (m : Message) : Response := {| resp_ok := false; resp_error := Some m; resp_data := None |}.

(** A session holds the filesystem it serves. *)
Record MountInfo := { session : notifier; served_fs : BranchFs }.
Record Daemon := {
  mounts : gmap path MountInfo;
  socket_path : path;
  shutdown : bool;
  sessions : nat;       (* sessions spawned so far, their numbers *)
}.
Abbreviation DIO := (M (host * World * Daemon)).

Definition with_daemon_mounts (m : gmap path MountInfo) (d : Daemon) : Daemon :=
  {| mounts := m; socket_path := socket_path d; shutdown := shutdown d; sessions := sessions d |}.
Definition with_shutdown (d : Daemon) : Daemon :=
  {| mounts := mounts d; socket_path := socket_path d; shutdown := true; sessions := sessions d |}.
Definition with_session (d : Daemon) : Daemon :=
  {| mounts := mounts d; socket_path := socket_path d; shutdown := shutdown d; sessions := S (sessions d) |}.
Definition get_daemon : DIO Daemon := gets snd.
Definition upd_daemon (f : Daemon -> Daemon) : DIO unit := modify (fun s => (s.1, f s.2)).

(** Outside the source: [fuser::spawn_mount2], which fails or starts a session;
    the number tells one call from the next. *)
Class Sessions := { spawn_mount2 : nat -> path -> list MountOption -> option errno }.
Definition example_sessions : Sessions := {| spawn_mount2 := fun _ _ _ => None |}.

Section Daemon.
Context {E : Env} {J : Serde} {K : Kernel} {F : Sessions}.

(** [Daemon::new] *)
Definition daemon_new (base_path storage_path : path) (base_text : string) (max_storage : option Z)
  : IO (World * Daemon) :=
  let mounts_dir := storage_path ++ ["mounts"] in
  let* e := exists_ mounts_dir in
  let* _ := attempt (if e then remove_dir_all_call mounts_dir else ret tt) in
  do* create_dir_all storage_path;
  do* write (storage_path ++ ["base_path"]) (bytes_of base_text);
  let* w := start storage_path base_path base_path max_storage in
  ret (w, {| mounts := ∅; socket_path := storage_path ++ ["daemon.sock"]; shutdown := false; sessions := 0 |}).

Definition mount_options (allow_other : bool) : list MountOption :=
  [FSName "branchfs"] ++ get_mount_options ++ (if allow_other then [AllowOther] else []).

Definition spawn_mount (branch : string) (mp : path) (passthrough control allow_other : bool) : DIO unit :=
  let* w := get_world in
  if negb (is_branch_valid branch w) then throw (NotFound branch)
  else
    do* upd_world (set_mount_branch mp branch);
    let* w := get_world in
    let fs := fs_new w mp passthrough control in
    let* d := get_daemon in
    let n := sessions d in
    do* upd_daemon with_session;
    match spawn_mount2 n mp (mount_options allow_other) with
    | Some e => do* upd_world (unregister_mount mp); throw (Io e)
    | None =>
        do* upd_world (register_notifier branch mp n);
        upd_daemon (fun d => with_daemon_mounts (<[mp := {| session := n; served_fs := fs |}]> (mounts d)) d)
    end.

Definition unmount (mp : path) : DIO unit :=
  let* d := get_daemon in
  match mounts d !! mp with
  | None => throw (MountNotFound (show mp))
  | Some _ =>
      let rest := delete mp (mounts d) in
      do* upd_daemon (with_daemon_mounts rest);
      do* upd_world (unregister_mount mp);
      when (bool_decide (rest = ∅)) (upd_daemon with_shutdown)
  end.

Definition cleanup_all_mounts : DIO unit :=
  let* d := get_daemon in
  for_each (map fst (map_to_list (mounts d))) (fun mp =>
    let* d := get_daemon in
    match mounts d !! mp with
    | None => ret tt
    | Some _ =>
        do* upd_daemon (with_daemon_mounts (delete mp (mounts d)));
        upd_world (unregister_mount mp)
    end).

Definition mount_count (d : Daemon) : nat := size (mounts d).

Definition daemon_create_branch (n parent : string) (lazy : bool) (hide : list string) : DIO unit :=
  mgr (create_branch_with_options n parent (if lazy then Lazy else Snapshot) hide).

(** The answer to a call that returns nothing, or something. *)
Definition answer {A} (c : DIO A) (f : A -> Response) : DIO Response :=
  let* r := attempt c in
  ret (match r with Ok a => f a | Err e => error (MsgOf e) end).
Definition done_answer (_ : unit) : Response := success.

Definition mount_request (branch mountpoint : string) (passthrough control allow_other : bool)
  : DIO Response :=
  let mp := comps mountpoint in
  let* r := attempt (hostio (create_dir_all mp)) in
  match r with
  | Err e => ret (error (MsgMountpoint e))
  | Ok _ => answer (spawn_mount branch mp passthrough control allow_other) done_answer
  end.

(** The statuses of the branches that have one. *)
Definition list_request : DIO Response :=
  let* w := get_world in
  let* l := fold_m (fun out kv =>
              let* r := attempt (mgr (branch_status kv.1)) in
              ret (match r with Ok s => out ++ [s] | Err _ => out end)) [] (list_branches w) in
  ret (success_with_data (VBranches l)).

Definition handle_request (r : Request) : DIO Response :=
  match r with
  | ReqMount branch mp passthrough control allow_other =>
      mount_request branch mp passthrough control allow_other
  | ReqUnmount mp => answer (unmount (comps mp)) done_answer
  | ReqCreate n parent lazy hide => answer (daemon_create_branch n parent lazy hide) done_answer
  | ReqFreeze branch => answer (mgr (freeze_branch branch)) done_answer
  | ReqThaw branch => answer (mgr (thaw_branch branch)) done_answer
  | ReqStatus branch => answer (mgr (branch_status branch)) (fun s => success_with_data (VStatus s))
  | ReqCommitBranch branch =>
      answer (mgr (commit_with_report branch)) (fun o => success_with_data (VOutcome o))
  | ReqAbortBranch branch => answer (mgr (abort branch)) (fun p => success_with_data (VParent p))
  | ReqRevertPath branch p => answer (mgr (revert_path_in_branch branch p)) done_answer
  | ReqGetMountBranch mp =>
      let* w := get_world in
      ret (match get_mount_branch (comps mp) w with
           | Some b => success_with_data (VBranch b)
           | None => error (MsgMountNotFound (comps mp))
           end)
  | ReqList => list_request
  | ReqShutdown => do* cleanup_all_mounts; do* upd_daemon with_shutdown; ret success
  end.

(** [handle_client]: the lines of one client, each a request or not one, until
    the client ends or the daemon is to stop.  Requests left unread are lost. *)
Fixpoint handle_client (lines : list (option Request)) : DIO (list Response) :=
  match lines with
  | [] => ret []
  | None :: rest => let* out := handle_client rest in ret (error MsgInvalidRequest :: out)
  | Some r :: rest =>
      let* resp := handle_request r in
      let* d := get_daemon in
      if shutdown d then ret [resp]
      else let* out := handle_client rest in ret (resp :: out)
  end.

(** [run]: the socket, then one client after the other.  [None] is a daemon
    still waiting for a client after the last of [clients]. *)
Definition remove_socket : DIO bool :=
  let* d := get_daemon in
  let* e := hostio (exists_ (socket_path d)) in
  if e then let* r := attempt (hostio (remove_file_call (socket_path d))) in ret (is_ok r) else ret true.

Definition bind_socket : DIO unit :=
  let* d := get_daemon in
  hostio (
    let* t := get_tree in
    let* z := now in
    match t !! socket_path d with
    | Some _ => io_error EADDRINUSE
    | None => do* need_parent (socket_path d);
              insert_entry (socket_path d) (Node KOther 493 z (new_stamp z))
    end).

Fixpoint serve_clients (clients : list (list (option Request))) : DIO (option (list (list Response))) :=
  let* d := get_daemon in
  if shutdown d then ret (Some [])
  else
    match clients with
    | [] => ret None
    | c :: rest =>
        let* out := handle_client c in
        let* more := serve_clients rest in
        ret (match more with Some l => Some (out :: l) | None => None end)
    end.

Definition listen : DIO unit :=
  let* d := get_daemon in
  let* e := hostio (exists_ (socket_path d)) in
  do* when e (hostio (remove_file_call (socket_path d)));
  bind_socket.

Definition run (clients : list (list (option Request))) : DIO (option (list (list Response))) :=
  do* listen;
  let* out := serve_clients clients in
  match out with
  | None => ret None
  | Some l => let* _ := remove_socket in ret (Some l)
  end.

(** ** The sessions beside the daemon *)

(** A callback, or a job of the worker, of the filesystem mounted at [mp]. *)
Definition on_mount {A} (mp : path) (c : FIO A) : DIO (option A) :=
  fun s =>
    match mounts s.2 !! mp with
    | None => (Ok None, s)
    | Some m =>
        let '(r, (hw, f)) := c (s.1, served_fs m) in
        (match r with Ok a => Ok (Some a) | Err x => Err x end,
         (hw, with_daemon_mounts (<[mp := {| session := session m; served_fs := f |}]> (mounts s.2)) s.2))
    end.
End Daemon.

(** ** main.rs *)

(** [str::parse::<u64>], digit by digit with checked arithmetic. *)
Definition digit_value (a : ascii) : option Z :=
  let n := Z.of_nat (Ascii.nat_of_ascii a) in
  if (48 <=? n)%Z && (n <=? 57)%Z then Some (n - 48)%Z else None.
Fixpoint parse_digits (acc : Z) (s : string) : option Z :=
  match s with
  | EmptyString => Some acc
  | String a s' =>
      match digit_value a with
      | None => None
      | Some v => if (acc * 10 + v <=? u64_max)%Z then parse_digits (acc * 10 + v) s' else None
      end
  end.
Definition parse_u64 (s : string) : option Z :=
  match s with
  | EmptyString => None
  | String a s' =>
      if bool_decide (a = "+"%char) then
        match s' with EmptyString => None | _ => parse_digits 0 s' end
      else parse_digits 0 s
  end.

(** [u64::to_string] *)
Definition digit_char (d : nat) : ascii := Ascii.ascii_of_nat (48 + d).
Definition digits (l : list nat) : string := string_of (map digit_char l).
Fixpoint digits_of (fuel : nat) (z : Z) : list nat :=
  match fuel with
  | O => []
  | S f => if (z <? 10)%Z then [Z.to_nat z] else digits_of f (z / 10) ++ [Z.to_nat (z mod 10)]
  end.
Definition decimal (z : Z) : string := digits (digits_of 20 z).

Inductive SizeError := EmptySize | InvalidSize (s : string) | SizeOverflow (s : string).

Definition suffix_multiplier (a : ascii) : option Z :=
  if bool_decide (a = "K"%char) || bool_decide (a = "k"%char) then Some 1024%Z
  else if bool_decide (a = "M"%char) || bool_decide (a = "m"%char) then Some (1024 * 1024)%Z
  else if bool_decide (a = "G"%char) || bool_decide (a = "g"%char) then Some (1024 * 1024 * 1024)%Z
  else if bool_decide (a = "T"%char) || bool_decide (a = "t"%char) then Some (1024 * 1024 * 1024 * 1024)%Z
  else None.

(** The number and the multiplier a size is split into. *)
Definition split_size (s : string) : string * Z :=
  match rev (bytes_of s) with
  | a :: r => match suffix_multiplier a with
              | Some m => (string_of (rev r), m)
              | None => (s, 1%Z)
              end
  | [] => (s, 1%Z)
  end.

Definition parse_size (text : string) : res SizeError Z :=
  let s := trim text in
  if bool_decide (s = "") then Err EmptySize
  else
    let '(num_str, multiplier) := split_size s in
    match parse_u64 num_str with
    | None => Err (InvalidSize s)
    | Some num => if (num * multiplier <=? u64_max)%Z then Ok (num * multiplier)%Z else Err (SizeOverflow s)
    end.
