(* ===== verification/Json.v ===== *)
(** * JSON between daemon and client

    serde_json is not part of the sources.  What the client does with the values
    it gets back goes through the functions of [Json]; [JsonLaws] says of them
    what serde_json documents: an index that is not there gives null, an accessor
    answers only on a value of its kind.  The derived serialisations of the
    structs of branch.rs are written out with them. *)

From S2P Require Import Prelude Strs HostFs TextMerge Branch Manager Commit Daemon.

Open Scope bool_scope.

Class Json := {
  value : Type;
  v_null : value;
  v_bool : bool -> value;
  v_num : Z -> value;
  v_str : string -> value;
  v_arr : list value -> value;
  v_obj : list (string * value) -> value;
  v_get : value -> string -> option value;
  v_as_str : value -> option string;
  v_as_u64 : value -> option Z;
  v_as_array : value -> option (list value);
}.
Class JsonLaws (V : Json) := {
  get_obj : forall l k, NoDup (l.*1) -> v_get (v_obj l) k = (list_to_map l : gmap string value) !! k;
  as_str_str : forall s, v_as_str (v_str s) = Some s;
  as_str_null : v_as_str v_null = None;
  as_u64_num : forall z, (0 <= z <= u64_max)%Z -> v_as_u64 (v_num z) = Some z;
  as_array_arr : forall l, v_as_array (v_arr l) = Some l;
}.

Section Json.
Context {V : Json}.

(** [value["key"]] *)
Definition index (v : value) (k : string) : value := default v_null (v_get v k).

Definition opt {A} (f : A -> value) (o : option A) : value := match o with Some a => f a | None => v_null end.

(** ** The derived serialisations *)

Definition json_of_mode (m : InheritanceMode) : value :=
  v_str (match m with Lazy => "lazy" | Snapshot => "snapshot" end).
Definition json_of_state (st : BranchState) : value :=
  v_str (match st with Open => "open" | Frozen => "frozen" end).
Definition json_of_diff (d : DiffEntry) : value :=
  v_obj [("op", v_str (op d)); ("path", v_str (d_path d)); ("kind", v_str (d_kind d)); ("bytes", v_num (d_bytes d))].
Definition json_of_status (s : BranchStatus) : value :=
  v_obj [("name", v_str (st_name s)); ("parent", opt v_str (st_parent s));
         ("inheritance", json_of_mode (st_inheritance s)); ("state", json_of_state (st_state s));
         ("parent_version_at_fork", v_num (st_parent_version_at_fork s));
         ("commit_count", v_num (st_commit_count s)); ("delta_entries", v_num (Z.of_nat (delta_entries s)));
         ("tombstones", v_num (Z.of_nat (st_tombstones s))); ("diff", v_arr (map json_of_diff (diff s)))].
Definition json_of_identity (i : PathIdentity) : value :=
  v_obj [("exists", v_bool (pi_exists i)); ("kind", v_str (pi_kind i)); ("bytes", v_num (pi_bytes i));
         ("mtime_ns", opt v_num (pi_mtime_ns i))].
Definition json_of_merge (m : CommitAutoMerge) : value :=
  v_obj [("path", v_str (am_path m)); ("resolution", v_str (am_resolution m))].
Definition json_of_conflict (c : CommitConflict) : value :=
  v_obj [("path", v_str (cf_path c)); ("session_action", v_str (session_action c));
         ("resolution", v_str (cf_resolution c)); ("reason", v_str (reason c));
         ("base_at_first_touch", json_of_identity (cf_base_at_first_touch c));
         ("base_at_commit", json_of_identity (base_at_commit c))].
Definition json_of_outcome (o : CommitOutcome) : value :=
  v_obj [("parent", v_str (parent_name o)); ("auto_merges", v_arr (map json_of_merge (auto_merges o)));
         ("conflicts", v_arr (map json_of_conflict (conflicts o)))].

(** The values the daemon's answers are made from. *)
Definition json_of (v : Value) : value :=
  match v with
  | VStatus s => json_of_status s
  | VOutcome o => json_of_outcome o
  | VParent p => v_obj [("parent", v_str p)]
  | VBranch b => v_str b
  | VBranches l => v_arr (map json_of_status l)
  end.

(** [Response] as the client reads it. *)
Record Answer := { ans_ok : bool; ans_error : option Message; ans_data : option value }.
Definition answer_of (r : Response) : Answer :=
  {| ans_ok := resp_ok r; ans_error := resp_error r; ans_data := json_of <$> resp_data r |}.

(** One line of JSON each way. *)
Class Wire := {
  line : Type;
  enc_request : Request -> line;
  dec_request : line -> option Request;
  enc_answer : Answer -> line;
  dec_answer : line -> option Answer;
}.
Class WireLaws (W : Wire) := {
  dec_enc_request : forall r, dec_request (enc_request r) = Some r;
  dec_enc_answer : forall a, dec_answer (enc_answer a) = Some a;
}.
End Json.
Arguments Wire : clear implicits.

(** ** An instance *)

Inductive json_value :=
  | JNull | JBool (b : bool) | JNum (z : Z) | JStr (s : string)
  | JArr (l : list json_value) | JObj (l : list (string * json_value)).

Definition example_json : Json := {|
  value := json_value; v_null := JNull; v_bool := JBool; v_num := JNum; v_str := JStr; v_arr := JArr; v_obj := JObj;
  v_get v k := match v with JObj l => (list_to_map l : gmap string json_value) !! k | _ => None end;
  v_as_str v := match v with JStr s => Some s | _ => None end;
  v_as_u64 v := match v with JNum z => if bool_decide (0 <= z <= u64_max)%Z then Some z else None | _ => None end;
  v_as_array v := match v with JArr l => Some l | _ => None end;
|}.
#[export] Instance example_json_laws : JsonLaws example_json.
Proof. split; try done. intros z Hz. simpl. by rewrite bool_decide_true. Qed.

Definition example_wire : Wire example_json := {|
  line := Request + @Answer example_json;
  enc_request := inl;
  dec_request l := match l with inl r => Some r | inr _ => None end;
  enc_answer := inr;
  dec_answer l := match l with inr a => Some a | inl _ => None end;
|}.
#[export] Instance example_wire_laws : WireLaws example_wire.
Proof. by split. Qed.
