(* ===== verification/Cli.v ===== *)
(** * The client: main.rs, and the client's half of daemon.rs

    A machine is a host with the daemons running on it.  A client finds a daemon
    by its socket, sends it one request and reads one answer; it starts a daemon
    where none is running; and it writes to the control files of a mount as any
    program does, through the kernel, which turns the path into callbacks of the
    session that serves it.

    A daemon whose thread panics dies and leaves its socket behind.  Clients come
    one after the other. *)

From S2P Require Import Prelude Strs Inode HostFs Handles Quota TextMerge Branch View Manager Commit.
From S2P Require Import Platform Mount Ctl Fuse Daemon Json.

Open Scope bool_scope.

(** ** The machine *)

Abbreviation Process := (World * Daemon)%type.

(** The newest process comes first; [children] counts the processes started. *)
Record Machine := { m_host : host; procs : list Process; children : nat }.

(** Outside the source: who runs the client, and what the system makes of the
    start of a process: it fails, or the process is up after that many polls. *)
Class Os := { euid : Z; spawn_child : nat -> res errno nat }.
Definition example_os : Os := {| euid := 0; spawn_child := fun _ => Ok 1 |}.

(** What can go wrong on the way to a daemon and back. *)
Inductive Trouble :=
  | TIo (e : errno)
  | TNoAnswer
  | TBadAnswer
  | TTimedOut
  | TNoBase.

(** The errors main.rs ends with: the text is kept as what it is made from. *)
Inductive Complaint :=
  | CNotRoot
  | CIo (e : BranchError)
  | CEnsure (t : Trouble)
  | CTalk (t : Trouble)
  | CRefused (m : option Message)
  | CUnknown (m : option Message)
  | CNoBranchInfo
  | CMain (operation : string)
  | COpenControl (mp : path) (e : errno)
  | COpenBranchControl (e : errno)
  | CSwitch (e : errno)
  | CWrite (operation : string) (e : errno)
  | CNoOutcome
  | CNoStatus
  | CBadArgument
  | CDaemonCreate (e : BranchError)
  | CDaemonRun (e : BranchError).

Abbreviation MM := (M Machine).
Abbreviation Fallible T := (fun A => MM (res T A)).

(** The [?] of a call with an error of its own. *)
Notation "'let!' x ':=' c 'in' k" :=
  (bind c (fun r => match r with Ok x => k | Err e => ret (Err e) end))
  (at level 10, x pattern, c at level 100, k at level 200,
   format "'let!'  x  ':='  c  'in' '//' k") : prog_scope.

Definition ok_ {T A} (a : A) : Fallible T A := ret (Ok a).
Definition err {T A} (e : T) : Fallible T A := ret (Err e).
Definition map_error {T T' A} (f : T -> T') (c : Fallible T A) : Fallible T' A :=
  let* r := c in ret (match r with Ok a => Ok a | Err e => Err (f e) end).

Definition with_host (h : host) (m : Machine) : Machine :=
  {| m_host := h; procs := procs m; children := children m |}.
Definition with_procs (l : list Process) (m : Machine) : Machine :=
  {| m_host := m_host m; procs := l; children := children m |}.
Definition with_child (m : Machine) : Machine :=
  {| m_host := m_host m; procs := procs m; children := S (children m) |}.

(** Calls on the host. *)
Definition on_machine {A} (c : IO A) : MM A := zoom m_host with_host c.
Definition io {A} (c : IO A) : Fallible Complaint A := map_error CIo (attempt (on_machine c)).

(** What a process does: [None] when there is none, or when its main thread
    panics, which ends it. *)
Definition on_process {A} (i : nat) (c : M (host * World * Daemon) A) : MM (option A) :=
  fun m =>
    match procs m !! i with
    | None => (Ok None, m)
    | Some (w, d) =>
        match c (m_host m, w, d) with
        | (Ok a, (h, w', d')) => (Ok (Some a), with_procs (<[i := (w', d')]> (procs m)) (with_host h m))
        | (Err Panic, (h, _, _)) => (Ok None, with_procs (delete i (procs m)) (with_host h m))
        | (Err x, (h, w', d')) => (Err x, with_procs (<[i := (w', d')]> (procs m)) (with_host h m))
        end
    end.

(** What one of its sessions does, on a thread of its own. *)
Definition on_session {A} (i : nat) (c : M (host * World * Daemon) A) : MM (option A) :=
  fun m =>
    match procs m !! i with
    | None => (Ok None, m)
    | Some (w, d) =>
        let '(r, (h, w', d')) := c (m_host m, w, d) in
        (match r with Ok a => Ok (Some a) | Err x => Err x end,
         with_procs (<[i := (w', d')]> (procs m)) (with_host h m))
    end.

Section Client.
Context {E : Env} {J : Serde} {K : Kernel} {F : Sessions} {V : Json} {W : Wire V} {Y : Os}.

(** ** daemon.rs: the client's half *)

(** [UnixStream::connect]: the process listening at a socket is the last one
    that has bound it. *)
Definition connect (sock : path) : Fallible errno nat :=
  let* m := gets id in
  ret (match h_tree (m_host m) !! sock with
       | None => Err (missing (h_tree (m_host m)) sock)
       | Some (Node KOther _ _ _) =>
           match list_find (fun p => socket_path p.2 = sock) (procs m) with
           | Some (i, _) => Ok i
           | None => Err ECONNREFUSED
           end
       | Some _ => Err ECONNREFUSED
       end).

(** The end of [Daemon::run] and of the process. *)
Definition leave (i : nat) : MM unit :=
  let* _ := on_process i remove_socket in
  modify (fun m => with_procs (delete i (procs m)) m).

(** One client at the daemon: its answers, and whether the daemon goes on. *)
Definition serve_client (l : list (option Request)) : M (host * World * Daemon) (list Response * bool) :=
  let* out := handle_client l in
  let* d := get_daemon in
  ret (out, shutdown d).

Definition send_request (sock : path) (r : Request) : Fallible Trouble Answer :=
  let! i := map_error TIo (connect sock) in
  let* served := on_process i (serve_client [dec_request (enc_request r)]) in
  match served with
  | Some (resp :: _, down) =>
      do* when down (leave i);
      ret (match dec_answer (enc_answer (answer_of resp)) with Some a => Ok a | None => Err TBadAnswer end)
  | _ => err TNoAnswer
  end.

Definition is_daemon_running (sock : path) : MM bool :=
  let* e := on_machine (exists_ sock) in
  if negb e then ret false
  else let* c := connect sock in ret (is_ok c).

(** The arguments of the child started by [start_daemon_background]. *)
Record ChildArgs := { arg_base : string; arg_storage : path; arg_max_storage : option string }.

(** A path given as text; the texts the program makes are absolute or empty, and
    an empty path names nothing. *)
Definition canonicalize_text (s : string) : IO path :=
  if starts_with "/" s then canonicalize (comps s) else io_error ENOENT.

(** [--max-storage] of [run-daemon] is a plain number. *)
Definition child_max (a : option string) : res Complaint (option Z) :=
  match a with
  | None => Ok None
  | Some s => match parse_u64 s with Some z => Ok (Some z) | None => Err CBadArgument end
  end.

(** [Commands::RunDaemon], until the daemon listens. *)
Definition run_daemon (base : string) (storage : path) (max_storage : option Z) : Fallible Complaint unit :=
  let! _ := io (create_dir_all storage) in
  let! storage := io (canonicalize storage) in
  let! base := io (canonicalize_text base) in
  let* n := attempt (on_machine (daemon_new base storage (show base) max_storage)) in
  match n with
  | Err e => err (CDaemonCreate e)
  | Ok p =>
      do* modify (fun m => with_procs (p :: procs m) m);
      let* r := on_process 0 (attempt listen) in
      match r with
      | Some (Err e) => do* modify (fun m => with_procs (tail (procs m)) m); err (CDaemonRun e)
      | _ => ok_ tt
      end
  end.

(** The child: nobody reads what it ends with, and its panic is its own. *)
Definition child (a : ChildArgs) : MM unit :=
  fun m =>
    match (let* mx := ret (child_max (arg_max_storage a)) in
           match mx with
           | Err e => err e
           | Ok mx => run_daemon (arg_base a) (arg_storage a) mx
           end) m with
    | (Ok _, m') | (Err Panic, m') => (Ok tt, m')
    | (Err x, m') => (Err x, m')
    end.

(** The polls of [start_daemon_background]; [pending] counts those before the
    child is up.  A child that comes later than the last poll still comes. *)
Fixpoint wait_daemon (polls : nat) (sock : path) (a : ChildArgs) (pending : option nat) : Fallible Trouble unit :=
  match polls with
  | O => do* (match pending with Some _ => child a | None => ret tt end); err TTimedOut
  | S polls' =>
      let* pending := (match pending with
                       | Some O => do* child a; ret None
                       | Some (S k) => ret (Some k)
                       | None => ret None
                       end) in
      let* up := is_daemon_running sock in
      if up then ok_ tt else wait_daemon polls' sock a pending
  end.

Definition start_daemon_background (base : string) (storage : path) (max_storage : option Z) : Fallible Trouble unit :=
  let sock := storage ++ ["daemon.sock"] in
  let args := {| arg_base := base; arg_storage := storage; arg_max_storage := decimal <$> max_storage |} in
  let* m := gets id in
  do* modify with_child;
  match spawn_child (children m) with
  | Err e => err (TIo e)
  | Ok k => wait_daemon 50 sock args (Some k)
  end.

(** The base directory: as given, or as the store remembers it. *)
Definition remembered_base (storage : path) : Fallible Trouble string :=
  let base_file := storage ++ ["base_path"] in
  let* e := on_machine (exists_ base_file) in
  if e then
    let* r := attempt (on_machine (read_to_string base_file)) in
    match r with
    | Ok content => ok_ (trim content)
    | Err (Io e) => err (TIo e)
    | Err _ => err (TIo EIO)
    end
  else err TNoBase.

Definition ensure_daemon (base : option path) (storage : path) (max_storage : option Z) : Fallible Trouble unit :=
  let sock := storage ++ ["daemon.sock"] in
  let* up := is_daemon_running sock in
  if up then ok_ tt
  else
    let! b := (match base with Some p => ok_ (show p) | None => remembered_base storage end) in
    start_daemon_background b storage max_storage.

(** ** Files of a mount, through the kernel *)

Inductive Opened :=
  | HostFile (f : File)
  | MountFile (proc : nat) (mp : path) (ino : Z).

(** A callback and, when it leaves a job, that job; an error is the errno the
    caller gets. *)
Definition answered (o : FuseOp) : FIO Reply :=
  let* out := handle o in
  match out with Now r => ret r | Later j => run_job j end.
Definition callback (i : nat) (mp : path) (o : FuseOp) : Fallible errno Reply :=
  let* r := on_session i (on_mount mp (answered o)) in
  ret (match r with
       | Some (Some (RError e)) => Err e
       | Some (Some r) => Ok r
       | _ => Err EIO
       end).

(** The names below the mountpoint, looked up one after the other. *)
Fixpoint walk_names (i : nat) (mp : path) (ino : Z) (names : path) : Fallible errno Z :=
  match names with
  | [] => ok_ ino
  | n :: rest =>
      let! r := callback i mp (OpLookup ino n) in
      match r with
      | REntry a => walk_names i mp (a_ino a) rest
      | _ => err EIO
      end
  end.

Definition O_WRONLY : Z := 1.

(** [OpenOptions::new().write(true).open(mountpoint.join(names))] *)
Definition open_below (mp : path) (names : path) : Fallible errno Opened :=
  let* m := gets id in
  match list_find (fun p => is_Some (mounts p.2 !! mp)) (procs m) with
  | Some (i, _) =>
      let! ino := walk_names i mp ROOT_INO names in
      let! _ := callback i mp (OpOpen ino O_WRONLY) in
      ok_ (MountFile i mp ino)
  | None =>
      let* r := attempt (on_machine (file_open_existing (mp ++ names))) in
      ret (match r with Ok f => Ok (HostFile f) | Err (Io e) => Err e | Err _ => Err EIO end)
  end.

Definition write_once (f : Opened) (offset : Z) (data : bytes) : Fallible errno Z :=
  match f with
  | HostFile file =>
      let* r := attempt (on_machine (file_write file offset data)) in
      ret (match r with Ok n => Ok n | Err (Io e) => Err e | Err _ => Err EIO end)
  | MountFile i mp ino =>
      let! r := callback i mp (OpWrite ino offset data O_WRONLY) in
      match r with RWritten n => ok_ n | _ => err EIO end
  end.

(** [Write::write_all]: every turn but the last writes something. *)
Fixpoint write_from (fuel : nat) (f : Opened) (offset : Z) (data : bytes) : Fallible errno unit :=
  match data with
  | [] => ok_ tt
  | _ =>
      match fuel with
      | O => raise OutOfFuel
      | S k =>
          let! n := write_once f offset data in
          if (n <=? 0)%Z then err EIO
          else write_from k f (offset + n) (drop (Z.to_nat n) data)
      end
  end.
Definition write_all (f : Opened) (data : bytes) : Fallible errno unit := write_from (length data) f 0 data.

(** ** main.rs *)

(** [Commands], after clap has read the arguments.  Paths are absolute. *)
Inductive Commands :=
  | CmdMount (base : option path) (storage : path) (branch : string)
      (no_control agent passthrough allow_other : bool) (max_storage : option Z) (mountpoint : path)
  | CmdStartDaemon (base : option path) (storage : path) (max_storage : option Z)
  | CmdCreate (n : string) (mountpoint : option path) (parent : string) (snapshot : bool) (hide : list string)
      (storage : path)
  | CmdCommit (mountpoint storage : path)
  | CmdAbort (mountpoint storage : path)
  | CmdCommitBranch (branch : string) (storage : path) (json : bool)
  | CmdAbortBranch (branch : string) (storage : path)
  | CmdRevertPath (branch p : string) (storage : path)
  | CmdFreeze (branch : string) (storage : path)
  | CmdThaw (branch : string) (storage : path)
  | CmdStatus (branch : string) (storage : path) (json : bool)
  | CmdList (storage : path)
  | CmdUnmount (mountpoint storage : path)
  | CmdRunDaemon (base storage : path) (max_storage : option Z).

(** The rows of the tables printed. *)
Record Row := { row_name : string; row_parent : string; row_state : string; row_mode : string;
                row_deltas : Z; row_deletes : Z }.
Record DiffRow := { diff_op : string; diff_kind : string; diff_bytes : Z; diff_path : string }.

(** What is printed, a constructor per [println!]. *)
Inductive Printed :=
  | SaidMounted (branch : string) (mp : path) (control : bool)
  | SaidReady (sock : path)
  | SaidCreated (n parent : string) (snapshot switched : bool)
  | SaidCommitted (mp : path)
  | SaidAborted (mp : path)
  | SaidJson (v : value)
  | SaidCommittedBranch (branch : string) (merges_conflicts : option (nat * nat))
  | SaidAbortedBranch (branch : string)
  | SaidReverted (p branch : string)
  | SaidFrozen (branch : string)
  | SaidThawed (branch : string)
  | SaidBranches (rows : list Row)
  | SaidStatus (r : Row) (rows : list DiffRow)
  | SaidUnmounted (mp : path).

Definition get_socket_path (storage : path) : path := storage ++ ["daemon.sock"].

(** [send_request] of main.rs *)
Definition talk (storage : path) (r : Request) : Fallible Complaint Answer :=
  map_error CTalk (send_request (get_socket_path storage) r).

(** A request whose refusal ends the command. *)
Definition order (storage : path) (r : Request) : Fallible Complaint (option value) :=
  let! a := talk storage r in
  if ans_ok a then ok_ (ans_data a) else err (CRefused (ans_error a)).

Definition mount_branch_of (storage mp : path) : Fallible Complaint string :=
  let! a := talk storage (ReqGetMountBranch (show mp)) in
  if negb (ans_ok a) then err (CUnknown (ans_error a))
  else match ans_data a ≫= v_as_str with Some b => ok_ b | None => err CNoBranchInfo end.

Definition str_field (v : value) (k : string) : string := default "-" (v_as_str (index v k)).
Definition num_field (v : value) (k : string) : Z := default 0%Z (v_as_u64 (index v k)).

Definition row_of (v : value) : Row :=
  {| row_name := str_field v "name"; row_parent := str_field v "parent"; row_state := str_field v "state";
     row_mode := str_field v "inheritance"; row_deltas := num_field v "delta_entries";
     row_deletes := num_field v "tombstones" |}.
Definition diff_row_of (v : value) : DiffRow :=
  {| diff_op := str_field v "op"; diff_kind := str_field v "kind"; diff_bytes := num_field v "bytes";
     diff_path := str_field v "path" |}.

(** How many items the list under a key of the answer has. *)
Definition count_field (data : option value) (k : string) : nat :=
  match (data ≫= (fun d => v_get d k)) ≫= v_as_array with Some l => length l | None => 0 end.

Definition ensure (base : option path) (storage : path) (max_storage : option Z) : Fallible Complaint unit :=
  map_error CEnsure (ensure_daemon base storage max_storage).

Definition canonical_option (p : option path) : Fallible Complaint (option path) :=
  match p with None => ok_ None | Some p => let! q := io (canonicalize p) in ok_ (Some q) end.

Definition cmd_mount (base : option path) (storage : path) (branch : string)
    (no_control agent passthrough allow_other : bool) (max_storage : option Z) (mp : path)
  : Fallible Complaint Printed :=
  if passthrough && negb (bool_decide (euid = 0%Z)) then err CNotRoot
  else
    let! _ := io (create_dir_all storage) in
    let! storage := io (canonicalize storage) in
    let! base := canonical_option base in
    let! _ := ensure base storage max_storage in
    let! _ := io (create_dir_all mp) in
    let! mp := io (canonicalize mp) in
    let control := negb (no_control || agent) in
    let! _ := order storage (ReqMount branch (show mp) passthrough control allow_other) in
    ok_ (SaidMounted branch mp control).

Definition cmd_start_daemon (base : option path) (storage : path) (max_storage : option Z)
  : Fallible Complaint Printed :=
  let! _ := io (create_dir_all storage) in
  let! storage := io (canonicalize storage) in
  let! base := canonical_option base in
  let! _ := ensure base storage max_storage in
  ok_ (SaidReady (get_socket_path storage)).

Definition cmd_create (n : string) (mp : option path) (parent : string) (snapshot : bool) (hide : list string)
    (storage : path) : Fallible Complaint Printed :=
  let! storage := io (canonicalize storage) in
  let! mp := canonical_option mp in
  let! _ := order storage (ReqCreate n parent (negb snapshot) hide) in
  match mp with
  | None => ok_ (SaidCreated n parent snapshot false)
  | Some mp =>
      let! file := map_error (COpenControl mp) (open_below mp [CTL_FILE]) in
      let! _ := map_error CSwitch (write_all file (bytes_of ("switch:" +:+ n))) in
      ok_ (SaidCreated n parent snapshot true)
  end.

(** [Commands::Commit] and [Commands::Abort] differ in the word they write. *)
Definition cmd_finish (operation : string) (said : path -> Printed) (mp storage : path)
  : Fallible Complaint Printed :=
  let! mp := io (canonicalize mp) in
  let! storage := io (canonicalize storage) in
  let! branch := mount_branch_of storage mp in
  if bool_decide (branch = "main") then err (CMain operation)
  else
    let! file := map_error COpenBranchControl (open_below mp ["@" +:+ branch; CTL_FILE]) in
    let! _ := map_error (CWrite operation) (write_all file (bytes_of operation)) in
    ok_ (said mp).

(** One request to the daemon, then what it says. *)
Definition cmd_request (storage : path) (r : Request) (said : option value -> res Complaint Printed)
  : Fallible Complaint Printed :=
  let! storage := io (canonicalize storage) in
  let! data := order storage r in
  ret (said data).

Definition said_commit (branch : string) (json : bool) (data : option value) : res Complaint Printed :=
  if json then match data with Some v => Ok (SaidJson v) | None => Err CNoOutcome end
  else
    let c := count_field data "conflicts" in
    let a := count_field data "auto_merges" in
    Ok (SaidCommittedBranch branch (if (0 <? c) || (0 <? a) then Some (a, c) else None)).

Definition said_status (json : bool) (data : option value) : res Complaint Printed :=
  match data with
  | None => Err CNoStatus
  | Some v =>
      Ok (if json then SaidJson v
          else SaidStatus (row_of v)
                 (match v_as_array (index v "diff") with Some l => map diff_row_of l | None => [] end))
  end.

Definition said_list (data : option value) : res Complaint Printed :=
  Ok (SaidBranches (match data ≫= v_as_array with Some l => map row_of l | None => [] end)).

Definition cmd_unmount (mp storage : path) : Fallible Complaint Printed :=
  let! storage := io (canonicalize storage) in
  let! mp := io (canonicalize mp) in
  let! _ := order storage (ReqUnmount (show mp)) in
  ok_ (SaidUnmounted mp).

(** The exit code, what is printed, what is complained of. *)
Record Exit := { code : Z; printed : option Printed; complaint : option Complaint }.
Definition exit_of (r : res Complaint (option Printed)) : Exit :=
  match r with
  | Ok p => {| code := 0; printed := p; complaint := None |}
  | Err c => {| code := 1; printed := None; complaint := Some c |}
  end.

Definition say (c : Fallible Complaint Printed) : Fallible Complaint (option Printed) :=
  let! p := c in ok_ (Some p).

Definition command (c : Commands) : Fallible Complaint (option Printed) :=
  match c with
  | CmdMount base storage branch no_control agent passthrough allow_other mx mp =>
      say (cmd_mount base storage branch no_control agent passthrough allow_other mx mp)
  | CmdStartDaemon base storage mx => say (cmd_start_daemon base storage mx)
  | CmdCreate n mp parent snapshot hide storage => say (cmd_create n mp parent snapshot hide storage)
  | CmdCommit mp storage => say (cmd_finish "commit" SaidCommitted mp storage)
  | CmdAbort mp storage => say (cmd_finish "abort" SaidAborted mp storage)
  | CmdCommitBranch b storage json => say (cmd_request storage (ReqCommitBranch b) (said_commit b json))
  | CmdAbortBranch b storage => say (cmd_request storage (ReqAbortBranch b) (fun _ => Ok (SaidAbortedBranch b)))
  | CmdRevertPath b p storage => say (cmd_request storage (ReqRevertPath b p) (fun _ => Ok (SaidReverted p b)))
  | CmdFreeze b storage => say (cmd_request storage (ReqFreeze b) (fun _ => Ok (SaidFrozen b)))
  | CmdThaw b storage => say (cmd_request storage (ReqThaw b) (fun _ => Ok (SaidThawed b)))
  | CmdStatus b storage json => say (cmd_request storage (ReqStatus b) (said_status json))
  | CmdList storage => say (cmd_request storage ReqList said_list)
  | CmdUnmount mp storage => say (cmd_unmount mp storage)
  | CmdRunDaemon base storage mx => let! _ := run_daemon (show base) storage mx in ok_ None
  end.

Definition main (c : Commands) : MM Exit := let* r := command c in ret (exit_of r).
End Client.
