(* ===== verification/Quiet.v ===== *)
(** * Edits are quiet

    The calls a mount makes on behalf of file operations - copy-up, write,
    delete, rename bookkeeping, lookups - change files and the bookkeeping of
    one branch.  They do not touch what the control commands work on: the set of
    branches, their state and commit count, the epoch, which branch a mount
    shows, what was sent to the kernel ([quiet]). *)

From S2P Require Import Prelude Strs HostFs Quota TextMerge Branch View Manager Frame BranchLaws Isolation WorldInv.

Record same_life (b b' : Branch) : Prop := {
  sl_branch : same_branch b b';
  sl_state : state b' = state b;
  sl_count : commit_count b' = commit_count b;
}.
#[export] Instance same_life_preorder : PreOrder same_life.
Proof.
  split; [intros b; split; [reflexivity|done|done]|].
  intros a b c [H1 H2 H3] [H4 H5 H6]. split; [by etransitivity|congruence|congruence].
Qed.

(** Both absent, or both there and alike. *)
Definition alike (o o' : option Branch) : Prop :=
  match o, o' with Some b, Some b' => same_life b b' | None, None => True | _, _ => False end.
#[export] Instance alike_preorder : PreOrder alike.
Proof.
  split; [intros [b|]; simpl; [reflexivity|done]|]. intros [a|] [b|] [c|]; simpl; try done. intros. by etransitivity.
Qed.

Record quiet_world (w w' : World) : Prop := {
  qw_branches : forall n, alike (branches w !! n) (branches w' !! n);
  qw_storage : storage_path w' = storage_path w;
  qw_base : base_path w' = base_path w;
  qw_epoch : epoch w' = epoch w;
  qw_mounts : mount_branches w' = mount_branches w;
  qw_notifiers : notifiers w' = notifiers w;
  qw_invals : invals w' = invals w;
}.
#[export] Instance quiet_world_preorder : PreOrder quiet_world.
Proof.
  split; [intros w; split; try done; intros n; reflexivity|].
  intros a b c [] []. split; try congruence. intros n. by transitivity (branches b !! n).
Qed.

Lemma quiet_same w w' : quiet_world w w' -> same_world w w'.
Proof.
  intros []. split; [|done|done]. intros n. specialize (qw_branches0 n).
  destruct (branches w !! n), (branches w' !! n); simpl in *; try done. by apply sl_branch.
Qed.

Lemma quiet_valid w w' n : quiet_world w w' -> is_branch_valid n w' = is_branch_valid n w.
Proof.
  intros [Hb]. specialize (Hb n). unfold is_branch_valid.
  destruct (branches w !! n), (branches w' !! n); simpl in *; try done.
Qed.
Lemma quiet_writable w w' n : quiet_world w w' -> is_branch_writable n w' = is_branch_writable n w.
Proof.
  intros [Hb]. specialize (Hb n). unfold is_branch_writable, is_writable.
  destruct (branches w !! n), (branches w' !! n); simpl in *; try done. by rewrite (sl_state _ _ Hb).
Qed.

(** On branches, on the manager's state, on whole states. *)
Definition bquiet (s s' : host * Branch) : Prop := same_life s.2 s'.2.
#[export] Instance bquiet_preorder : PreOrder bquiet.
Proof. split; [intros s; unfold bquiet; reflexivity|]. intros a b c. unfold bquiet. apply transitivity. Qed.
Definition qstep (s s' : host * World) : Prop := quiet_world s.2 s'.2.
#[export] Instance qstep_preorder : PreOrder qstep.
Proof. split; [intros s; unfold qstep; reflexivity|]. intros a b c. unfold qstep. apply transitivity. Qed.

Lemma on_host_state {X A} (R : relation X) `{!Reflexive R} (c : IO A) :
  keeps (fun s s' : host * X => R s.2 s'.2) (on_host c).
Proof. intros [h x]. unfold on_host, zoom. simpl. by destruct (c h). Qed.
Lemma on_mem_state {X} (R : relation X) f :
  (forall x, R x (f x)) -> keeps (fun s s' : host * X => R s.2 s'.2) (on_mem f).
Proof. intros Hf [h x]. apply Hf. Qed.

Ltac bquiet_step :=
  cbn beta iota;
  lazymatch goal with
  | |- keeps bquiet (on_host _) => apply (on_host_state same_life)
  | |- keeps bquiet (on_mem _) => apply (on_mem_state same_life); intros ?; by repeat split
  | |- _ => keeps_step
  end.
Ltac bquiet_auto := repeat bquiet_step.

Section Quiet.
Context {E : Env} {J : Serde}.

Lemma add_tombstone_quiet p : keeps bquiet (add_tombstone p).
Proof. unfold add_tombstone, append_tombstone_op. bquiet_auto. Qed.
Lemma remove_tombstone_quiet p : keeps bquiet (remove_tombstone p).
Proof. unfold remove_tombstone, append_tombstone_op. bquiet_auto. Qed.
Lemma record_touch_quiet p i c : keeps bquiet (record_first_touch p i c).
Proof. unfold record_first_touch, append_touch. bquiet_auto. Qed.
Hint Resolve add_tombstone_quiet remove_tombstone_quiet record_touch_quiet : keeps.

Lemma on_host_qstep {A} (c : IO A) : keeps qstep (on_host c).
Proof. apply (on_host_state quiet_world). Qed.
Lemma on_mem_qstep f : (forall w, quiet_world w (f w)) -> keeps qstep (on_mem f).
Proof. apply (on_mem_state quiet_world). Qed.
Lemma quiet_branches w w' :
  branches w' = branches w -> storage_path w' = storage_path w -> base_path w' = base_path w ->
  epoch w' = epoch w -> mount_branches w' = mount_branches w -> notifiers w' = notifiers w ->
  invals w' = invals w -> quiet_world w w'.
Proof. intros Hb. intros. split; try done. intros n. by rewrite Hb. Qed.

Lemma on_branch_qstep {A} n (c : BIO A) : keeps bquiet c -> keeps qstep (on_branch n c).
Proof.
  intros Hc [h w]. unfold on_branch, bind. destruct (lookup_branch n (h, w)) as [r s1] eqn:Hl.
  apply lookup_same in Hl as [-> Hb]. destruct r as [b|x]; [|unfold qstep; reflexivity]. simpl.
  specialize (Hc (h, b)). destruct (c (h, b)) as [r [h' b']]. unfold bquiet in Hc. simpl in Hc.
  split; try done. intros m. simpl. destruct (decide (m = n)) as [->|Hm].
  - by rewrite lookup_insert_eq, Hb.
  - by rewrite lookup_insert_ne.
Qed.
Lemma view_qstep {A} (c : path -> branch_map -> nat -> IO A) : keeps qstep (view c).
Proof. unfold view. apply keeps_bind; [apply _|apply keeps_gets, _|]. intros w. apply on_host_qstep. Qed.
Lemma lookup_qstep n : keeps qstep (lookup_branch n).
Proof. unfold lookup_branch. keeps_auto. Qed.
Lemma check_quota_qstep z : keeps qstep (check_quota z).
Proof. unfold check_quota. keeps_auto. Qed.
Lemma add_quota_qstep z : keeps qstep (add_quota z).
Proof. apply on_mem_qstep. intros w. by apply quiet_branches. Qed.
Lemma sub_quota_qstep z : keeps qstep (sub_quota z).
Proof. apply on_mem_qstep. intros w. by apply quiet_branches. Qed.
Lemma opened_qstep b i : keeps qstep (on_mem (register_opened_inode b i)).
Proof. apply on_mem_qstep. intros w. by apply quiet_branches. Qed.
End Quiet.

#[export] Hint Resolve add_tombstone_quiet remove_tombstone_quiet record_touch_quiet lookup_qstep
  check_quota_qstep add_quota_qstep sub_quota_qstep opened_qstep : keeps.

Ltac qstep_step :=
  cbn beta iota;
  lazymatch goal with
  | |- keeps qstep (on_branch _ _) => apply on_branch_qstep; bquiet_auto
  | |- keeps qstep (on_host _) => apply on_host_qstep
  | |- keeps qstep (view _) => apply view_qstep
  | |- _ => keeps_step
  end.
Ltac qstep_auto := repeat qstep_step.

Section Ops.
Context {E : Env} {J : Serde}.

Lemma writable_qstep n : keeps qstep (writable_branch n).
Proof. unfold writable_branch. qstep_auto. Qed.
Lemma resolve_touch_qstep b rel : keeps qstep (resolve_inherited_for_touch b rel).
Proof. unfold resolve_inherited_for_touch. qstep_auto. Qed.
#[local] Hint Resolve writable_qstep resolve_touch_qstep : keeps.
Lemma cow_copy_qstep src delta : keeps qstep (cow_copy src delta).
Proof. unfold cow_copy. qstep_auto. Qed.
#[local] Hint Resolve cow_copy_qstep : keeps.
Lemma ensure_delta_qstep n rel : keeps qstep (ensure_delta_path_for_write n rel).
Proof. unfold ensure_delta_path_for_write. qstep_auto. Qed.
Lemma staged_write_qstep b src delta o data : keeps qstep (staged_write b src delta o data).
Proof. unfold staged_write. qstep_auto. Qed.
Lemma delta_write_qstep n rel delta o e data : keeps qstep (delta_write n rel delta o e data).
Proof. unfold delta_write. qstep_auto. Qed.
#[local] Hint Resolve staged_write_qstep delta_write_qstep : keeps.
Lemma write_qstep n rel o data : keeps qstep (write_data_to_branch n rel o data).
Proof. unfold write_data_to_branch. qstep_auto. Qed.
Lemma drop_delta_qstep n rel : keeps qstep (drop_delta n rel).
Proof. unfold drop_delta. qstep_auto. Qed.
Lemma mark_deleted_qstep n rel e : keeps qstep (mark_deleted n rel e).
Proof. unfold mark_deleted. qstep_auto. Qed.
#[local] Hint Resolve drop_delta_qstep mark_deleted_qstep : keeps.
Lemma resolve_path_qstep n p : keeps qstep (resolve_path n p).
Proof. unfold resolve_path. qstep_auto. Qed.
Lemma collect_qstep n p : keeps qstep (collect_dir_names n p).
Proof. unfold collect_dir_names. qstep_auto. Qed.
#[local] Hint Resolve resolve_path_qstep collect_qstep : keeps.
Lemma delete_qstep n rel : keeps qstep (delete_path_in_branch n rel).
Proof. unfold delete_path_in_branch. qstep_auto. Qed.
Lemma rmdir_qstep n rel : keeps qstep (rmdir_path_in_branch n rel).
Proof. unfold rmdir_path_in_branch. qstep_auto. Qed.
Lemma inherited_exists_qstep n p : keeps qstep (inherited_path_exists n p).
Proof. unfold inherited_path_exists. qstep_auto. Qed.
Lemma has_delta_qstep n p : keeps qstep (branch_has_delta n p).
Proof. unfold branch_has_delta. qstep_auto. Qed.
End Ops.
#[export] Hint Resolve ensure_delta_qstep write_qstep delete_qstep rmdir_qstep resolve_path_qstep collect_qstep
  inherited_exists_qstep has_delta_qstep : keeps.
