(* ===== verification/FileFrame.v ===== *)
(** * What an operation on a file leaves alone

    The view of a branch as its user walks it ([file_of]), and the frame every
    operation on single paths has: it changes the delta along those paths, the
    tombstones of those paths, and nothing else ([touches_only]); then no other
    file of the branch is any different ([file_frame]). *)

From S2P Require Import Prelude Strs HostFs Staged Quota TextMerge Branch Codec View Manager Commit Frame BranchLaws.
From S2P Require Import Isolation WorldInv ManagerSpec EditSpec WriteSpec Quiet.

Open Scope bool_scope.

(** ** Tombstones and touch records *)

(** Tombstones change for names in [P] only, and no touch record goes. *)
Record bmem (P : string -> Prop) (b b' : Branch) : Prop := {
  bm_tombs : forall t, ~ P t -> t ∈ tombstones b' <-> t ∈ tombstones b;
  bm_touch : forall t, is_Some (touches b !! t) -> is_Some (touches b' !! t);
}.
#[export] Instance bmem_preorder P : PreOrder (bmem P).
Proof. split; [by split|]. intros a b c [H1 H2] [H3 H4]. split; [intros t Ht; by rewrite H3, H1|auto]. Qed.

Definition bmem_step (P : string -> Prop) (s s' : host * Branch) : Prop := bmem P s.2 s'.2.
#[export] Instance bmem_step_preorder P : PreOrder (bmem_step P).
Proof. split; [by intros s|]. intros a b c. unfold bmem_step. apply transitivity. Qed.

Definition wmem (n : string) (P : string -> Prop) (s s' : host * World) : Prop :=
  forall b, branches s.2 !! n = Some b -> exists b', branches s'.2 !! n = Some b' /\ bmem P b b'.
#[export] Instance wmem_preorder n P : PreOrder (wmem n P).
Proof.
  split; [intros s b Hb; by exists b|]. intros s1 s2 s3 H1 H2 b Hb.
  destruct (H1 b Hb) as (b2 & Hb2 & Hm2). destruct (H2 b2 Hb2) as (b3 & Hb3 & Hm3).
  exists b3. split; [done|by etransitivity].
Qed.

Ltac bmem_step_tac :=
  cbn beta iota;
  lazymatch goal with
  | |- keeps (bmem_step ?P) (on_host _) => apply (on_host_state (bmem P))
  | |- keeps (bmem_step ?P) (on_mem _) => apply (on_mem_state (bmem P)); intros ?
  | |- _ => keeps_step
  end.

Section Memory.
Context {E : Env} {J : Serde} (n : string) (P : string -> Prop).

Lemma add_tombstone_bmem p : P p -> keeps (bmem_step P) (add_tombstone p).
Proof.
  intros Hp. unfold add_tombstone, append_tombstone_op. repeat bmem_step_tac.
  split; [|done]. intros t Ht. simpl. assert (t <> p) by congruence. set_solver.
Qed.
Lemma remove_tombstone_bmem p : P p -> keeps (bmem_step P) (remove_tombstone p).
Proof.
  intros Hp. unfold remove_tombstone, append_tombstone_op. repeat bmem_step_tac.
  split; [|done]. intros t Ht. simpl. assert (t <> p) by congruence. set_solver.
Qed.
Lemma record_touch_bmem p i c : keeps (bmem_step P) (record_first_touch p i c).
Proof.
  unfold record_first_touch, append_touch. repeat bmem_step_tac.
  split; [done|]. intros t Ht. simpl. rewrite lookup_insert. case_decide; [by eexists|done].
Qed.

Lemma on_host_wmem {A} (c : IO A) : keeps (wmem n P) (on_host c).
Proof. intros [h w] b Hb. unfold on_host, zoom. simpl. destruct (c h). by exists b. Qed.
Lemma on_mem_wmem f : (forall w, branches (f w) = branches w) -> keeps (wmem n P) (on_mem f).
Proof. intros Hf [h w] b Hb. exists b. simpl in *. by rewrite Hf. Qed.
Lemma on_branch_wmem {A} (c : BIO A) : keeps (bmem_step P) c -> keeps (wmem n P) (on_branch n c).
Proof.
  intros Hc [h w] b Hb. destruct (on_branch n c (h, w)) as [r s'] eqn:H.
  apply (on_branch_inv _ _ _ _ b) in H as (b' & H & Hm); [|done]. specialize (Hc (h, b)). rewrite H in Hc.
  exists b'. split; [|done]. simpl. rewrite Hm. apply lookup_insert_eq.
Qed.
Lemma view_wmem {A} (c : path -> branch_map -> nat -> IO A) : keeps (wmem n P) (view c).
Proof. unfold view. apply keeps_bind; [apply _|apply keeps_gets, _|]. intros w. apply on_host_wmem. Qed.
Lemma lookup_wmem m : keeps (wmem n P) (lookup_branch m).
Proof. unfold lookup_branch. keeps_auto. Qed.
Lemma check_quota_wmem z : keeps (wmem n P) (check_quota z).
Proof. unfold check_quota. keeps_auto. Qed.
Lemma add_quota_wmem z : keeps (wmem n P) (add_quota z).
Proof. by apply on_mem_wmem. Qed.
Lemma sub_quota_wmem z : keeps (wmem n P) (sub_quota z).
Proof. by apply on_mem_wmem. Qed.
End Memory.
#[export] Hint Resolve record_touch_bmem lookup_wmem check_quota_wmem add_quota_wmem sub_quota_wmem : keeps.
#[export] Hint Extern 2 (keeps (bmem_step _) (add_tombstone _)) => (apply add_tombstone_bmem; tauto) : keeps.
#[export] Hint Extern 2 (keeps (bmem_step _) (remove_tombstone _)) => (apply remove_tombstone_bmem; tauto) : keeps.

Ltac wmem_step :=
  cbn beta iota;
  lazymatch goal with
  | |- keeps (wmem _ _) (on_branch _ _) => apply on_branch_wmem; repeat bmem_step_tac
  | |- keeps (wmem _ _) (on_host _) => apply on_host_wmem
  | |- keeps (wmem _ _) (view _) => apply view_wmem
  | |- _ => keeps_step
  end.
Ltac wmem_auto := repeat wmem_step.

Section MemoryOps.
Context {E : Env} {J : Serde} (n : string) (P : string -> Prop) (rel : string) (Hrel : P rel).

Lemma ensure_delta_wmem : keeps (wmem n P) (ensure_delta_path_for_write n rel).
Proof. unfold ensure_delta_path_for_write, writable_branch, resolve_inherited_for_touch, cow_copy. wmem_auto. Qed.
Lemma write_wmem o data : keeps (wmem n P) (write_data_to_branch n rel o data).
Proof.
  unfold write_data_to_branch, writable_branch, resolve_inherited_for_touch, staged_write, delta_write. wmem_auto.
Qed.
Lemma delete_wmem : keeps (wmem n P) (delete_path_in_branch n rel).
Proof.
  unfold delete_path_in_branch, writable_branch, resolve_inherited_for_touch, drop_delta, mark_deleted. wmem_auto.
Qed.
End MemoryOps.

(** ** The view of a branch, one name at a time *)

Section View.
Context {E : Env} {J : Serde}.

(** The kernel reaches a path name by name: every directory above it is shown
    as a directory. *)
Fixpoint walk (n : string) (x p : path) (s : host * World) : bool :=
  match p with
  | [] => true
  | c :: p' => bool_decide (shown n x s = Some KDir) && walk n (x ++ [c]) p' s
  end.

(** The contents of the file a process finds at [p], if it finds a file. *)
Definition file_of (n : string) (s : host * World) (p : path) : option bytes :=
  if walk n [] p s then match shown n p s with Some (KFile c) => Some c | _ => None end else None.

Lemma walk_spec n x p s :
  walk n x p s = true <-> forall y z, p = y ++ z -> z <> [] -> shown n (x ++ y) s = Some KDir.
Proof.
  revert x. induction p as [|c p IH]; intros x; simpl.
  - split; [|done]. intros _ y z Hp Hz. by destruct y, z.
  - rewrite andb_true_iff, bool_decide_eq_true, IH. split.
    + intros [H1 H2] [|c' y] z Hp Hz; [by rewrite app_nil_r|]. simplify_eq/=.
      specialize (H2 y z eq_refl Hz). by rewrite <- app_assoc in H2.
    + intros H. split.
      * specialize (H [] (c :: p) eq_refl). rewrite app_nil_r in H. by apply H.
      * intros y z -> Hz. rewrite <- app_assoc. by apply (H (c :: y) z).
Qed.

Lemma walk_ext n p s s' :
  (forall y z, p = y ++ z -> z <> [] -> shown n y s' = Some KDir <-> shown n y s = Some KDir) ->
  walk n [] p s' = walk n [] p s.
Proof.
  intros H. apply eq_true_iff_eq. rewrite !walk_spec.
  split; intros Hw y z Hp Hz; apply (H y z Hp Hz); by apply (Hw y z).
Qed.

(** *** Where a branch stands: its layers in a store in order *)

Record standing (n : string) (b : Branch) (l : list Branch) (r : path) (s : host * World) : Prop := {
  sd_world : world_ok s.2;
  sd_branch : branches s.2 !! n = Some b;
  sd_store : store_ok (branch_dir b) s.1;
  sd_layers : lineage (base_path s.2) (branches s.2) n (b :: l) r;
}.

Lemma standing_intro n b s :
  world_ok s.2 -> branches s.2 !! n = Some b -> store_ok (branch_dir b) s.1 -> exists l r, standing n b l r s.
Proof.
  intros Hw Hb Hok. destruct (forest_lineage (base_path s.2) (branches s.2) n) as (l0 & r & Hl); [apply Hw|by eexists|].
  assert (exists l, l0 = b :: l) as [l ->] by (inversion Hl; simplify_eq; eauto). by exists l, r.
Qed.

Lemma standing_step n b l r s s' :
  standing n b l r s -> world_ok s'.2 -> wstep n (branch_dir b) (edit (branch_dir b)) s s' ->
  exists b', standing n b' l r s' /\ same_branch b b'.
Proof.
  intros [Hw Hb Hok Hl] Hw' Hstep. destruct (Hstep b Hb eq_refl) as ((b' & Hb' & Hs) & Ho & _ & Hbase & Hst).
  destruct (wo_forest _ Hw) as [rank Hr]. exists b'. split; [|done]. split; [done|done| |].
  - rewrite (sb_dir _ _ Hs). by apply Hst.
  - rewrite Hbase. by eapply lineage_self.
Qed.

(** What the layers below the branch's own would show. *)
Definition base_kind (b : Branch) (t : tree) (l : list Branch) (r p : path) : option kind :=
  match underlay b t l r p with Some q => look t q | None => None end.
Definition shows (b : Branch) (t : tree) (l : list Branch) (r p : path) : option kind :=
  match look t (files_dir b ++ p) with
  | Some k => Some k
  | None => if is_deleted b (show p) then None else base_kind b t l r p
  end.

Lemma shown_shows n b l r p s :
  standing n b l r s -> path_ok p -> shown n p s = shows b (h_tree s.1) l r p.
Proof.
  intros [Hw _ _ Hl] Hp. destruct s as [h w]. unfold shown.
  destruct (resolve_path_lineage n p h w _ _ Hw Hp Hl) as [-> _]. simpl. unfold shows, base_kind, underlay.
  case_decide as Hd.
  - apply look_is_Some in Hd as [k Hk]. by rewrite Hk.
  - assert (look (h_tree h) (files_dir b ++ p) = None) as -> by by apply look_None, eq_None_not_Some.
    destruct (is_deleted b (show p)); [done|]. simpl. by destruct (is_hidden b (show p)).
Qed.

(** The layers below stay as they are. *)
Lemma base_kind_step n b b' l r s s' p :
  standing n b l r s -> wstep n (branch_dir b) (edit (branch_dir b)) s s' -> same_branch b b' ->
  base_kind b' (h_tree s'.1) l r p = base_kind b (h_tree s.1) l r p.
Proof.
  intros [Hw Hb Hok Hl] Hstep Hs. destruct (Hstep b Hb eq_refl) as (_ & _ & _ & _ & Hst).
  destruct (Hst Hok) as [_ Hlook]. destruct s as [h w], s' as [h' w']. cbn [fst snd] in *.
  destruct (underlay_step n b b' h h' w l r p Hw Hb Hl Hs Hlook) as [Hu Hout]. unfold base_kind. rewrite Hu.
  destruct (underlay b (h_tree h) l r p) as [q|]; [|done]. by rewrite Hlook by by apply Hout.
Qed.

(** *** The frame *)

(** No file is found below [a]. *)
Definition bare (n : string) (a : path) (s : host * World) : Prop := 
  forall z, path_ok (a ++ z) -> z <> [] -> file_of n s (a ++ z) = None.

Lemma nondir_bare n a s : shown n a s <> Some KDir -> bare n a s.
Proof.
  intros Ha z _ Hz. unfold file_of. assert (walk n [] (a ++ z) s = false) as ->; [|done].
  apply not_true_iff_false. rewrite walk_spec. intros H. by apply Ha, (H a z).
Qed.

Definition apart (x : path) (A : list path) : Prop := forall a, a ∈ A -> ~ x `prefix_of` a /\ ~ a `prefix_of` x.

(** A step that works along the paths of [A] only. *)
Record touches_only (n : string) (b : Branch) (A : list path) (s s' : host * World) : Prop := {
  to_step : wstep n (branch_dir b) (edit (branch_dir b)) s s';
  to_delta : forall x, apart x A -> look (h_tree s'.1) (files_dir b ++ x) = look (h_tree s.1) (files_dir b ++ x);
  to_mem : wmem n (fun t => exists a, a ∈ A /\ t = show a) s s';
}.

Lemma show_inj p q : path_ok p -> path_ok q -> show p = show q -> p = q.
Proof. intros Hp Hq H. by rewrite <- (comps_show p Hp), H, comps_show. Qed.

Lemma deleted_ext (T T' : gset string) x :
  path_ok x -> (forall y, y `prefix_of` x -> show y ∈ T' <-> show y ∈ T) ->
  deleted_by T' (show x) = deleted_by T (show x).
Proof.
  intros Hx H. apply eq_true_iff_eq. destruct (decide (x = [])) as [->|Hne].
  - unfold deleted_by. change (ancestors_of (show [])) with (@nil string). simpl.
    rewrite !orb_false_r, !bool_decide_eq_true. by apply (H []).
  - assert (show x = show_rel x) as -> by by destruct x. rewrite !deleted_by_spec by done.
    split; intros (q & Hq & Hpre & Hin); exists q; (split; [done|split; [done|]]);
      specialize (H q Hpre); destruct q; [done| |done|]; by apply H.
Qed.

Context (n : string) (b : Branch) (l : list Branch) (r : path) (s s' : host * World) (A : list path).
Context (Hst : standing n b l r s) (Hw' : world_ok s'.2) (Hto : touches_only n b A s s').

(** The paths worked on are reached through directories, with no file below them;
    the directories above them stay, or are inherited. *)
Definition kept (x : path) : Prop :=
  look (h_tree s'.1) (files_dir b ++ x) = Some KDir
  \/ look (h_tree s'.1) (files_dir b ++ x) = look (h_tree s.1) (files_dir b ++ x)
  \/ (x <> [] /\ look (h_tree s'.1) (files_dir b ++ x) = None /\ base_kind b (h_tree s.1) l r x = Some KDir).
Context (HA : forall a, a ∈ A -> path_ok a /\ walk n [] a s = true /\ bare n a s /\ bare n a s').
Context (Hpair : forall a a', a ∈ A -> a' ∈ A -> a' `prefix_of` a -> a' = a).
Context (Habove : forall a x y, a ∈ A -> a = x ++ y -> y <> [] -> kept x).

Lemma deleted_frame b' x :
  bmem (fun t => exists a, a ∈ A /\ t = show a) b b' -> path_ok x -> (forall a, a ∈ A -> ~ a `prefix_of` x) ->
  is_deleted b' (show x) = is_deleted b (show x).
Proof.
  intros [Hm _] Hx Hno. apply deleted_ext; [done|]. intros y Hy. apply Hm. intros (a & Ha & Heq).
  apply show_inj in Heq; [subst; by apply (Hno a)| |by apply HA]. destruct Hy as [z ->]. by apply path_ok_app in Hx as [].
Qed.

(** No path of [A] is above another, nor above what is above one. *)
Lemma above_free a x y : a ∈ A -> a = x ++ y -> y <> [] -> forall a', a' ∈ A -> ~ a' `prefix_of` x.
Proof.
  intros Ha -> Hy a' Ha' [z ->]. assert (a' = (a' ++ z) ++ y) as Heq.
  { apply Hpair; [done..|]. rewrite <- app_assoc. by apply prefix_app_r. }
  rewrite <- app_assoc in Heq. rewrite <- (app_nil_r a') in Heq at 1. apply app_inv_head in Heq. by destruct z, y.
Qed.

Lemma frame_state : exists b', standing n b' l r s' /\ same_branch b b' /\ files_dir b' = files_dir b
  /\ bmem (fun t => exists a, a ∈ A /\ t = show a) b b'
  /\ forall x, base_kind b' (h_tree s'.1) l r x = base_kind b (h_tree s.1) l r x.
Proof.
  destruct (standing_step n b l r s s' Hst Hw' (to_step _ _ _ _ _ Hto)) as (b' & Hst' & Hs). exists b'.
  split; [done|]. split; [done|]. split; [unfold files_dir; by rewrite (sb_dir _ _ Hs)|]. split.
  - destruct (to_mem _ _ _ _ _ Hto b (sd_branch _ _ _ _ _ Hst)) as (b2 & Hb2 & Hm).
    by rewrite (sd_branch _ _ _ _ _ Hst') in Hb2; injection Hb2 as <-.
  - intros x. apply (base_kind_step n b b' l r s s' x Hst (to_step _ _ _ _ _ Hto) Hs).
Qed.

Lemma apart_same x : path_ok x -> apart x A -> shown n x s' = shown n x s.
Proof.
  intros Hx Hap. destruct frame_state as (b' & Hst' & Hs & Hfd & Hm & Hbase).
  rewrite (shown_shows n b' l r x s' Hst' Hx), (shown_shows n b l r x s Hst Hx). unfold shows.
  rewrite Hfd, (to_delta _ _ _ _ _ Hto x Hap), Hbase, (deleted_frame b' x Hm Hx); [done|].
  intros a Ha. by apply Hap.
Qed.

(** Above a path worked on there is a directory, or nothing of the branch's own
    and a directory inherited. *)
Lemma above_shown x y a :
  a ∈ A -> a = x ++ y -> y <> [] ->
  shown n x s = Some KDir
  /\ (shown n x s' = Some KDir
      \/ (x <> [] /\ look (h_tree s'.1) (files_dir b ++ x) = None /\ base_kind b (h_tree s.1) l r x = Some KDir
          /\ (is_deleted b (show x) = true -> shown n x s' = None)
          /\ (is_deleted b (show x) = false -> shown n x s' = Some KDir))).
Proof.
  intros Ha Hax Hy. destruct (HA a Ha) as (Hok & Hwalk & _). assert (path_ok x) as Hx.
  { rewrite Hax in Hok. by apply path_ok_app in Hok as []. }
  rewrite walk_spec in Hwalk. assert (shown n x s = Some KDir) as Hs by by apply (Hwalk x y). split; [done|].
  destruct frame_state as (b' & Hst' & Hsb & Hfd & Hm & Hbase).
  pose proof (deleted_frame b' x Hm Hx (above_free a x y Ha Hax Hy)) as Hdel.
  rewrite (shown_shows n b' l r x s' Hst' Hx). rewrite (shown_shows n b l r x s Hst Hx) in Hs. unfold shows in *.
  rewrite Hfd, Hdel, Hbase. destruct (Habove a x y Ha Hax Hy) as [->|[->|(Hne & -> & Hk)]]; [by left|by left|right].
  split; [done|]. split; [done|]. split; [done|]. split; [by intros ->|by intros ->].
Qed.

(** Every file that is not one of the paths is what it was. *)
Lemma file_frame q : path_ok q -> q ∉ A -> file_of n s' q = file_of n s q.
Proof.
  intros Hq HqA. unfold file_of.
  destruct (decide (Exists (fun a => a `prefix_of` q) A)) as [Hu|Hu].
  { apply Exists_exists in Hu as (a & Ha & [z Hz]). destruct (HA a Ha) as (_ & _ & H1 & H2).
    assert (z <> []) as Hne by (intros ->; rewrite app_nil_r in Hz; by subst).
    subst q. fold (file_of n s' (a ++ z)) (file_of n s (a ++ z)). by rewrite H1, H2. }
  assert (forall a, a ∈ A -> ~ a `prefix_of` q) as Hno.
  { intros a Ha Hpre. apply Hu, Exists_exists. by exists a. }
  destruct (decide (Exists (fun a => q `prefix_of` a) A)) as [Hab|Hab].
  { apply Exists_exists in Hab as (a & Ha & [z Hz]).
    assert (z <> []) as Hne by (intros ->; rewrite app_nil_r in Hz; by subst).
    destruct (above_shown q z a Ha Hz Hne) as [-> [->|(_ & _ & _ & H1 & H2)]]; [by repeat case_match|].
    destruct (is_deleted b (show q)); [rewrite H1 by done|rewrite H2 by done]; by repeat case_match. }
  assert (apart q A) as Hap.
  { intros a Ha. split; [|by apply Hno]. intros Hpre. apply Hab, Exists_exists. by exists a. }
  pose proof (apart_same q Hq Hap) as Hsame. rewrite Hsame.
  destruct (shown n q s) as [[c| | |]|] eqn:Hk; try by repeat case_match.
  assert (walk n [] q s' = walk n [] q s) as ->; [|done]. apply walk_ext. intros y z Hyz Hz.
  assert (path_ok y) as Hy by (rewrite Hyz in Hq; by apply path_ok_app in Hq as []).
  destruct (decide (Exists (fun a => y `prefix_of` a) A)) as [Hya|Hya].
  2:{ rewrite (apart_same y Hy); [done|]. intros a Ha. split.
      - intros Hpre. apply Hya, Exists_exists. by exists a.
      - intros Hpre. apply (Hno a Ha). etransitivity; [exact Hpre|]. rewrite Hyz. by apply prefix_app_r. }
  apply Exists_exists in Hya as (a & Ha & [y' Hy']).
  assert (y' <> []) as Hne.
  { intros ->. rewrite app_nil_r in Hy'. subst a. apply (Hno y Ha). rewrite Hyz. by apply prefix_app_r. }
  destruct (above_shown y y' a Ha Hy' Hne) as [-> [->|(Hy0 & Hnone & Hbk & _ & Hd)]]; [done|]. rewrite Hd; [done|].
  destruct (is_deleted b (show y)) eqn:Hdel; [|done]. exfalso.
  destruct frame_state as (b' & Hst' & Hsb & Hfd & Hm & Hbase).
  rewrite (shown_shows n b' l r q s' Hst' Hq) in Hsame. unfold shows in Hsame. rewrite Hfd in Hsame.
  assert (look (h_tree s'.1) (files_dir b ++ q) = None) as Hn.
  { apply look_None. rewrite Hyz, app_assoc. destruct (h_tree s'.1 !! _) as [m|] eqn:Hm'; [|done].
    assert (wf_tree (h_tree s'.1)) as Hwf by apply (sd_store _ _ _ _ _ Hst').
    rewrite (wf_below _ (files_dir b ++ y) z Hwf Hz) in Hnone; [done|by rewrite Hm']. }
  rewrite Hn, (deleted_frame b' q Hm Hq Hno) in Hsame.
  assert (is_deleted b (show q) = true) as Hdq; [|by rewrite Hdq in Hsame].
  unfold is_deleted in *. destruct y as [|c0 y]; [done|]. subst q. cbn [app show] in *.
  apply (deleted_by_app _ (c0 :: y) z); done.
Qed.
End View.

(** ** Putting a file, removing one *)

Section Effects.
Context {E : Env} {J : Serde}.

Lemma along_comparable d a x :
  along d a (d ++ "files" :: x) -> x `prefix_of` a \/ a `prefix_of` x.
Proof.
  intros [Hb|[_ [H|H]]].
  - destruct (book_not_delta _ _ Hb). apply files_in_delta.
  - left. by apply prefix_app_inv, prefix_cons_inv_2 in H.
  - right. change (d ++ "files" :: a) with (d ++ ["files"] ++ a) in H.
    change (d ++ "files" :: x) with (d ++ ["files"] ++ x) in H.
    rewrite !app_assoc, under_app_cancel in H. by apply under_prefix.
Qed.

(** The region of a step along several paths. *)
Definition along_all (d : path) (A : list path) (x : path) : Prop := exists a, a ∈ A /\ along d a x.

Lemma along_all_edit d A x : along_all d A x -> edit d x.
Proof. intros (a & _ & H). by eapply along_edit. Qed.

Lemma region_touches n b A s s' :
  branches s.2 !! n = Some b -> store_ok (branch_dir b) s.1 ->
  wstep n (branch_dir b) (along_all (branch_dir b) A) s s' ->
  wmem n (fun t => exists a, a ∈ A /\ t = show a) s s' -> touches_only n b A s s'.
Proof.
  intros Hb Hok Hstep Hm. split; [|intros x Hx|done].
  - eapply wstep_mono; [|exact Hstep]. apply along_all_edit.
  - destruct (Hstep b Hb eq_refl) as (_ & _ & _ & _ & Hst). destruct (Hst Hok) as [_ Hl]. apply Hl.
    intros (a & Ha & H). unfold files_dir in H. rewrite <- app_assoc in H. apply along_comparable in H.
    destruct (Hx a Ha) as [H1 H2]. by destruct H.
Qed.

Lemma one_touches n b p s s' :
  branches s.2 !! n = Some b -> store_ok (branch_dir b) s.1 ->
  wstep n (branch_dir b) (along (branch_dir b) p) s s' ->
  wmem n (fun t => exists a, a ∈ [p] /\ t = show a) s s' -> touches_only n b [p] s s'.
Proof.
  intros Hb Hok Hstep. apply region_touches; [done|done|]. eapply wstep_mono; [|exact Hstep].
  intros x Hx. exists p. split; [by left|done].
Qed.

(** What the branch has in its delta is reached. *)
Lemma own_walk n b l r p s :
  standing n b l r s -> path_ok p -> is_Some (look (h_tree s.1) (files_dir b ++ p)) ->
  walk n [] p s = true /\ shown n p s = look (h_tree s.1) (files_dir b ++ p)
  /\ forall x y, p = x ++ y -> y <> [] -> look (h_tree s.1) (files_dir b ++ x) = Some KDir.
Proof.
  intros Hst Hp Hown. assert (forall x y, p = x ++ y -> y <> [] -> look (h_tree s.1) (files_dir b ++ x) = Some KDir) as Hab.
  { intros x y -> Hy. apply (wf_below _ _ y); [apply (sd_store _ _ _ _ _ Hst)|done|].
    rewrite <- app_assoc. by apply look_is_Some. }
  split; [|split; [|done]].
  - apply walk_spec. intros x y Hxy Hy. assert (path_ok x) as Hx by (rewrite Hxy in Hp; by apply path_ok_app in Hp as []).
    cbn [app]. rewrite (shown_shows n b l r x s Hst Hx). unfold shows. by rewrite (Hab x y Hxy Hy).
  - rewrite (shown_shows n b l r p s Hst Hp). unfold shows. by destruct Hown as [k ->].
Qed.

(** The contents of an entry that is a file. *)
Definition data_of (k : kind) : option bytes := match k with KFile c => Some c | _ => None end.

Lemma entry_of_own n b l r p k s :
  standing n b l r s -> path_ok p -> look (h_tree s.1) (files_dir b ++ p) = Some k ->
  file_of n s p = data_of k.
Proof.
  intros Hst Hp Hc. destruct (own_walk n b l r p s Hst Hp) as (Hw & Hs & _); [by eexists|].
  unfold file_of. rewrite Hw, Hs, Hc. by destruct k.
Qed.
Lemma file_of_own n b l r p c s :
  standing n b l r s -> path_ok p -> look (h_tree s.1) (files_dir b ++ p) = Some (KFile c) ->
  file_of n s p = Some c.
Proof. apply entry_of_own. Qed.

(** A step along [p] that leaves an entry there, and no file below it, changes
    the file at [p] only. *)
Lemma put_entry n b l r p k s s' :
  standing n b l r s -> world_ok s'.2 -> touches_only n b [p] s s' -> path_ok p ->
  walk n [] p s = true -> bare n p s -> bare n p s' -> look (h_tree s'.1) (files_dir b ++ p) = Some k ->
  forall q, path_ok q -> file_of n s' q = if decide (q = p) then data_of k else file_of n s q.
Proof.
  intros Hst Hw' Hto Hp Hwalk Hd Hd' Hc q Hq.
  destruct (standing_step n b l r s s' Hst Hw' (to_step _ _ _ _ _ Hto)) as (b' & Hst' & Hs).
  assert (files_dir b' = files_dir b) as Hfd by (unfold files_dir; by rewrite (sb_dir _ _ Hs)).
  rewrite <- Hfd in Hc. destruct (own_walk n b' l r p s' Hst' Hp) as (_ & _ & Hab); [by eexists|].
  case_decide as Hqp; [subst; by eapply entry_of_own|].
  apply (file_frame n b l r s s' [p] Hst Hw' Hto); [| | |done|by intros ->%list_elem_of_singleton].
  - by intros a ->%list_elem_of_singleton.
  - by intros a a' ->%list_elem_of_singleton ->%list_elem_of_singleton.
  - intros a x y ->%list_elem_of_singleton Hxy Hy. left. rewrite <- Hfd. by apply (Hab x y).
Qed.

(** A file or a link has nothing below it. *)
Lemma put_leaf n b l r p k s s' :
  standing n b l r s -> world_ok s'.2 -> touches_only n b [p] s s' -> path_ok p ->
  walk n [] p s = true -> shown n p s <> Some KDir -> look (h_tree s'.1) (files_dir b ++ p) = Some k -> k <> KDir ->
  forall q, path_ok q -> file_of n s' q = if decide (q = p) then data_of k else file_of n s q.
Proof.
  intros Hst Hw' Hto Hp Hwalk Hd Hc Hk. apply (put_entry n b l r p k s s'); try done; [by apply nondir_bare|].
  destruct (standing_step n b l r s s' Hst Hw' (to_step _ _ _ _ _ Hto)) as (b' & Hst' & Hs).
  assert (files_dir b' = files_dir b) as Hfd by (unfold files_dir; by rewrite (sb_dir _ _ Hs)).
  rewrite <- Hfd in Hc. destruct (own_walk n b' l r p s' Hst' Hp) as (_ & Hsh & _); [by eexists|].
  apply nondir_bare. rewrite Hsh. congruence.
Qed.

(** *** Writing *)

Lemma standing_write_base n b l r p k s :
  standing n b l r s -> path_ok p -> shown n p s = Some k -> write_base b (h_tree s.1) l r p = Some k.
Proof. intros Hst Hp Hs. destruct s as [h w]. by apply (shown_write_base n b l r p h w); [apply Hst|done|apply Hst|]. Qed.

Lemma write_effect n b l r p off data c s s' k :
  standing n b l r s -> path_ok p -> walk n [] p s = true -> shown n p s = Some (KFile c) ->
  write_data_to_branch n (show p) off data s = (Ok k, s') ->
  wstep n (branch_dir b) (edit (branch_dir b)) s s' /\ world_ok s'.2 /\ k = Z.of_nat (length data)
  /\ forall q, path_ok q -> file_of n s' q = if decide (q = p) then Some (splice (Z.to_nat off) data c) else file_of n s q.
Proof.
  intros Hst Hp Hwalk Hsh H. pose proof (standing_write_base n b l r p _ s Hst Hp Hsh) as Hwb.
  destruct s as [h w]. pose proof Hst as [Hw Hb Hok Hl]. cbn [fst snd] in *.
  pose proof (files_split (branch_dir b) b p eq_refl) as Hfd.
  assert (wstep n (branch_dir b) (along (branch_dir b) p) (h, w) s') as Hal.
  { replace s' with (write_data_to_branch n (show p) off data (h, w)).2 by by rewrite H. unfold write_base in Hwb. rewrite Hfd in Hwb.
    apply (write_along n (branch_dir b) b); [done|done|done|by apply delta_path_show| |].
    - intros t Ht. by rewrite Ht in Hwb.
    - intros Hnone src Hsrc. apply look_None in Hnone. rewrite Hnone in Hwb.
      rewrite (resolve_touch_eq n b h w l r p Hw Hp Hl) in Hsrc. injection Hsrc as Hsrc. rewrite Hsrc in Hwb.
      by eapply look_file_plain. }
  assert (world_ok s'.2) as Hw'.
  { pose proof (write_sstep n (show p) off data (h, w)) as Hs. rewrite H in Hs. by apply (sstep_istep _ _ Hs). }
  split; [eapply wstep_mono; [apply along_edit|exact Hal]|]. split; [done|].
  destruct (write_spec n b l r p off data h w k s' Hw Hb Hok Hp Hl) as (Hk & Hlk & _); [|done|].
  { rewrite Hwb. intros kd [= <-]. by eexists. }
  split; [done|]. rewrite Hwb in Hlk. apply (put_leaf n b l r p (KFile _) (h, w) s'); try done; [|by rewrite Hsh].
  apply one_touches; [done|done|done|].
  pose proof (write_wmem n (fun t => exists a, a ∈ [p] /\ t = show a) (show p) ltac:(exists p; set_solver) off data (h, w)) as Hm.
  by rewrite H in Hm.
Qed.

(** *** Deleting *)

Lemma prune_above b k rel h :
  length rel = k -> forall y, look (h_tree (prune_loop b k rel h).2) y = look (h_tree h) y
    \/ (look (h_tree (prune_loop b k rel h).2) y = None
        /\ exists x, x <> [] /\ y = files_dir b ++ x /\ touches b !! show_rel x = None).
Proof.
  revert rel h. induction k as [|k IH]; intros rel h Hk y; simpl; [by left|].
  unfold get_touch_record. case_bool_decide as Ht; [by left|].
  unfold bind, attempt. destruct (remove_dir (files_dir b ++ rel) h) as [[[]|x] h1] eqn:Hr; apply remove_dir_look in Hr.
  - destruct Hr as (_ & _ & Hl). destruct (IH (parent rel) h1) with (y := y) as [He|[He Hx]].
    + unfold parent. destruct rel as [|c rel _] using rev_ind; [done|]. rewrite removelast_last.
      rewrite length_app in Hk. simpl in Hk. lia.
    + rewrite He, Hl. case_decide as Hy; [|by left]. right. split; [done|]. exists rel.
      split; [by intros ->|]. split; [done|]. by apply eq_None_not_Some.
    + by right.
  - subst h1. left. by destruct x.
Qed.

Lemma drop_delta_above n b p h w s' x y :
  branches w !! n = Some b -> store_ok (branch_dir b) h -> path_ok p -> p = x ++ y -> y <> [] ->
  drop_delta n (show p) (h, w) = (Ok tt, s') ->
  look (h_tree s'.1) (files_dir b ++ x) = look (h_tree h) (files_dir b ++ x)
  \/ (x <> [] /\ look (h_tree s'.1) (files_dir b ++ x) = None /\ touches b !! show_rel x = None).
Proof.
  intros Hb Hok Hp Hxy Hy H. unfold drop_delta in H. apply bind_ok in H as (b0 & s0 & Hl & H).
  apply lookup_inv in Hl as [-> Hb0]. assert (b0 = b) as -> by congruence.
  rewrite stat_at in H. rewrite (delta_path_show (branch_dir b) b p eq_refl Hp) in H.
  destruct (h_tree h !! _) as [m|]; [|unfold ret in H; simplify_eq/=; by left].
  apply bind_ok in H as (freed & [h1 w1] & Hf & H). apply on_host_inv in Hf as [Hf _]. cbn [fst snd] in *.
  assert (h1 = h) as ->.
  { assert (keeps eq (if is_dir m then dir_size (branch_dir b ++ "files" :: p) else ret (node_len m))) as Hk by keeps_auto.
    specialize (Hk h). by rewrite Hf in Hk. }
  apply bind_ok in H as ([] & [h2 w2] & Hr & H). apply on_host_inv in Hr as [Hr _]. cbn [fst snd] in *.
  pose proof (remove_entry_in (branch_dir b) (fun z => under (branch_dir b ++ "files" :: p) z = true)
    (branch_dir b ++ "files" :: p) (under_app _ _) (files_ne _ _) (fun _ Hz => Hz) h Hok) as [_ Hl2].
  rewrite Hr in Hl2. cbn [fst snd] in Hl2.
  apply bind_ok in H as ([] & [h3 w3] & Hq & H). unfold sub_quota, on_mem, modify in Hq. simplify_eq/=.
  apply on_host_inv in H as [H _]. cbn [fst snd] in *.
  assert (look (h_tree h3) (files_dir b ++ x) = look (h_tree h) (files_dir b ++ x)) as Hx.
  { apply Hl2. rewrite (files_split (branch_dir b) b x eq_refl), under_prefix. intros Hpre.
    apply prefix_app_inv, prefix_cons_inv_2, prefix_length in Hpre. rewrite length_app in Hpre.
    destruct y; [done|]. simpl in Hpre. lia. }
  rewrite <- Hx. unfold prune_empty_delta_parents in H.
  destruct (strip (files_dir b) _) as [rel|]; [|unfold ret in H; simplify_eq; by left].
  destruct (prune_above b (length rel) rel h3 eq_refl (files_dir b ++ x)) as [He|[He (z & Hz & Heq & Ht)]];
    rewrite H in He; [by left|right]. apply app_inv_head in Heq. subst z. done.
Qed.
(** Bookkeeping on a branch, as later steps see it. *)
Lemma book_branch n b (c : BIO unit) h w s' P :
  keeps (bstep (branch_dir b) (book (branch_dir b))) c -> keeps (bmem_step P) c ->
  branches w !! n = Some b -> store_ok (branch_dir b) h -> on_branch n c (h, w) = (Ok tt, s') ->
  exists b', branches s'.2 !! n = Some b' /\ files_dir b' = files_dir b /\ branch_dir b' = branch_dir b /\ bmem P b b'
    /\ store_ok (branch_dir b) s'.1
    /\ forall x, look (h_tree s'.1) (files_dir b ++ x) = look (h_tree h) (files_dir b ++ x).
Proof.
  intros Hc Hm Hb Hok H. destruct s' as [h' w'].
  pose proof (on_branch_wmem n P c Hm (h, w) b Hb) as (b' & Hb' & Hbm). rewrite H in Hb'. exists b'.
  apply (on_branch_book n (branch_dir b) c h w b) in H as [Hs (b2 & Hb2 & Hsb)]; [|done..].
  cbn [fst snd] in *. rewrite Hb2 in Hb'. injection Hb' as ->.
  split; [done|]. split; [unfold files_dir; by rewrite (sb_dir _ _ Hsb)|]. split; [apply (sb_dir _ _ Hsb)|].
  split; [done|]. split; [by apply Hs|]. intros x. rewrite (files_split (branch_dir b)) by done.
  by apply (book_keeps_delta (branch_dir b) _ _ x Hok Hs).
Qed.

(** What unlink and rmdir share once they have made their checks. *)
Definition take_away (n : string) (b : Branch) (rel : string) : MIO unit :=
  let* inherited := resolve_inherited_for_touch b rel in
  do* on_branch n (record_first_touch rel inherited false);
  do* drop_delta n rel;
  mark_deleted n rel (bool_decide (is_Some inherited)).

Lemma take_away_along n b d rel p : at_delta d rel p -> keeps (wstep n d (along d p)) (take_away n b rel).
Proof.
  intros Hrel. unfold take_away, resolve_inherited_for_touch. wstep_auto.
  - apply keeps_bstep_along. auto with keeps.
  - by apply drop_delta_along.
  - apply mark_deleted_along.
Qed.
Lemma take_away_wmem n b (P : string -> Prop) rel : P rel -> keeps (wmem n P) (take_away n b rel).
Proof. intros Hrel. unfold take_away, resolve_inherited_for_touch, drop_delta, mark_deleted. wmem_auto. Qed.

Lemma take_away_above n b p h w s' x y :
  world_ok w -> branches w !! n = Some b -> store_ok (branch_dir b) h -> path_ok p -> p = x ++ y -> y <> [] ->
  take_away n b (show p) (h, w) = (Ok tt, s') ->
  look (h_tree s'.1) (files_dir b ++ x) = look (h_tree h) (files_dir b ++ x)
  \/ (x <> [] /\ look (h_tree s'.1) (files_dir b ++ x) = None /\ touches b !! show_rel x = None).
Proof.
  intros Hw Hb Hok Hp Hxy Hy H. unfold take_away in H. apply bind_ok in H as (inh & s1 & H1 & H). apply resolve_touch_same in H1 as ->.
  apply bind_ok in H as ([] & [h1 w1] & H1 & H).
  apply (book_branch n b _ h w _ (fun _ => False)) in H1 as (b1 & Hb1 & Hfd1 & Hd1 & Hm1 & Hok1 & Hl1);
    [|auto with keeps..|done|done].
  apply bind_ok in H as ([] & [h2 w2] & H2 & H). cbn [fst snd] in *.
  pose proof (drop_delta_wstep n (branch_dir b1) (show p) (h1, w1) b1 Hb1 eq_refl) as ((b2 & Hb2 & Hsb2) & _ & _ & _ & Hs2).
  rewrite H2 in Hb2, Hs2. cbn [fst snd] in *. destruct Hs2 as [Hok2 _]; [by rewrite Hd1|].
  rewrite <- (sb_dir _ _ Hsb2) in Hok2.
  apply (drop_delta_above n b1 p h1 w1 _ x y) in H2; [|done|by rewrite Hd1|done..]. rewrite Hfd1, Hl1 in H2. cbn [fst snd] in *.
  assert (exists c : BIO unit, on_branch n c (h2, w2) = (Ok tt, s')
    /\ keeps (bstep (branch_dir b2) (book (branch_dir b2))) c /\ keeps (bmem_step (eq (show p))) c) as (c & Hc & Hk1 & Hk2).
  { unfold mark_deleted in H. destruct (bool_decide _); eexists; (split; [exact H|]); split; auto with keeps. }
  apply (book_branch n b2 _ h2 w2 _ (eq (show p))) in Hc as (b3 & _ & _ & _ & _ & _ & Hl3); [|done..].
  assert (files_dir b2 = files_dir b) as Hfd2 by (rewrite <- Hfd1; unfold files_dir; by rewrite (sb_dir _ _ Hsb2)).
  rewrite Hfd2 in Hl3. rewrite Hl3. destruct H2 as [H2|(Hx & H2 & Ht)]; [by left|right].
  split; [done|]. split; [done|]. apply eq_None_not_Some. intros Hs.
  destruct Hm1 as [_ Hm1]. specialize (Hm1 _ Hs). rewrite Ht in Hm1. by destruct Hm1.
Qed.

(** Directories of the delta above a path are the branch's own - it has touched
    them - or stand for inherited ones. *)
Definition rooted (b : Branch) (t : tree) (l : list Branch) (r p : path) : Prop :=
  forall x y, p = x ++ y -> x <> [] -> y <> [] ->
    is_Some (touches b !! show_rel x) \/ base_kind b t l r x = Some KDir.

Lemma take_away_effect n b l r p s s' :
  standing n b l r s -> world_ok s'.2 -> path_ok p -> walk n [] p s = true -> bare n p s ->
  rooted b (h_tree s.1) l r p -> take_away n b (show p) s = (Ok tt, s') ->
  wstep n (branch_dir b) (edit (branch_dir b)) s s'
  /\ forall q, path_ok q -> file_of n s' q = if decide (q = p) then None else file_of n s q.
Proof.
  intros Hst Hw' Hp Hwalk Hbare Hroot H. destruct s as [h w]. pose proof Hst as [Hw Hb Hok Hl]. cbn [fst snd] in *.
  pose proof (take_away_along n b (branch_dir b) (show p) p (fun b' Hb' => delta_path_show _ b' p Hb' Hp) (h, w)) as Hal.
  pose proof (take_away_wmem n b (fun t => exists a, a ∈ [p] /\ t = show a) (show p) ltac:(exists p; set_solver) (h, w)) as Hm.
  rewrite H in Hal, Hm. cbn [snd] in Hal, Hm. pose proof (one_touches n b p (h, w) s' Hb Hok Hal Hm) as Hto.
  split; [apply Hto|].
  destruct (unlink_gone n b p h w s' Hw Hb Hok Hp (to_step _ _ _ _ _ Hto) Hw' H) as [Hres _].
  assert (shown n p s' = None) as Hnone by (unfold shown; by rewrite Hres).
  intros q Hq. case_decide as Hqp.
  { subst q. unfold file_of. rewrite Hnone. by destruct (walk n [] p s'). }
  apply (file_frame n b l r (h, w) s' [p] Hst Hw' Hto); [| | |done|by intros ->%list_elem_of_singleton].
  - intros a ->%list_elem_of_singleton. split; [done|]. split; [done|]. split; [done|].
    apply nondir_bare. congruence.
  - by intros a a' ->%list_elem_of_singleton ->%list_elem_of_singleton.
  - intros a x y ->%list_elem_of_singleton Hxy Hy.
    destruct (take_away_above n b p h w s' x y Hw Hb Hok Hp Hxy Hy H) as [He|(Hx & He & Ht)]; [by right; left|].
    right. right. split; [done|]. split; [done|]. destruct (Hroot x y Hxy Hx Hy) as [[z Hz]|]; [congruence|done].
Qed.

Lemma delete_effect n b l r p k s s' :
  standing n b l r s -> path_ok p -> walk n [] p s = true -> shown n p s = Some k -> k <> KDir ->
  rooted b (h_tree s.1) l r p ->
  delete_path_in_branch n (show p) s = (Ok tt, s') ->
  wstep n (branch_dir b) (edit (branch_dir b)) s s' /\ world_ok s'.2
  /\ forall q, path_ok q -> file_of n s' q = if decide (q = p) then None else file_of n s q.
Proof.
  intros Hst Hp Hwalk Hsh Hk Hroot H. pose proof Hst as [Hw Hb Hok Hl].
  assert (world_ok s'.2) as Hw'.
  { pose proof (delete_sstep n (show p) s) as Hs. rewrite H in Hs. by apply (sstep_istep _ _ Hs). }
  destruct s as [h w]. unfold delete_path_in_branch in H. apply (writable_inv n _ h w b) in H as [_ H]; [|done].
  destruct (take_away_effect n b l r p (h, w) s' Hst Hw' Hp Hwalk) as [H1 H2]; [|done|done|done].
  apply nondir_bare. congruence.
Qed.

(** *** Removing an empty directory *)

Lemma rmdir_inv n b l r p s s' :
  standing n b l r s -> path_ok p -> rmdir_path_in_branch n (show p) s = (Ok tt, s') ->
  take_away n b (show p) s = (Ok tt, s') /\ (collect_dir_names n (show p) s).1 = Ok ∅.
Proof.
  intros [Hw Hb Hok Hl] Hp H. destruct s as [h w]. unfold rmdir_path_in_branch in H.
  apply (writable_inv n _ h w b) in H as [_ H]; [|done]. apply bind_ok in H as (o & s1 & H1 & H).
  assert (s1 = (h, w)) as ->.
  { unfold resolve_path, view in H1. rewrite (bind_step _ _ _ w (h, w)) in H1 by done.
    apply on_host_read in H1 as [-> _]; [done|apply resolve_keeps, _]. }
  destruct o as [q|]; [|done]. apply bind_ok in H as (m & s1 & H2 & H).
  apply on_host_read in H2 as [-> _]; [|apply symlink_metadata_keeps, _]. destruct (negb (is_dir m)); [done|].
  apply bind_ok in H as (names & s1 & H3 & H).
  assert (s1 = (h, w)) as ->.
  { pose proof H3 as Hc. unfold collect_dir_names, view in Hc. rewrite (bind_step _ _ _ w (h, w)) in Hc by done.
    apply on_host_read in Hc as [-> _]; [done|apply collect_keeps, _]. }
  rewrite H3. case_bool_decide as Hn; cbn [negb] in H; [subst names|done]. done.
Qed.

Lemma unlisted_bare `{!EnvLaws E} n b l r p s :
  standing n b l r s -> path_ok p -> plain_layers (h_tree s.1) (b :: l) r p ->
  (collect_dir_names n (show p) s).1 = Ok ∅ -> bare n p s.
Proof.
  intros [Hw Hb Hok Hl] Hp Hplain Hc. destruct s as [h w]. cbn [fst snd] in *.
  destruct (collect_first_layer (base_path w) (branches w) n (b :: l) r p (chain_fuel (branches w)) h)
    as (names & Heq & Hnames); [done|done|by eapply lineage_length; [apply Hw|]|apply Hok|done|].
  assert (names = ∅) as ->.
  { unfold collect_dir_names, view, gets, bind, on_host, zoom in Hc. cbn [fst snd] in Hc. rewrite Heq in Hc. by injection Hc. }
  assert (forall c, path_ok (p ++ [c]) -> shown n (p ++ [c]) (h, w) = None) as Hnone.
  { intros c Hpc. pose proof Hpc as [_ Hc1]%path_ok_app. apply Forall_cons in Hc1 as [Hc1 _]. specialize (Hnames c Hc1).
    unfold shown. destruct (resolve_path_lineage n (p ++ [c]) h w (b :: l) r Hw Hpc Hl) as [-> _].
    destruct (first_layer _ _ _ _); [|done]. assert (c ∈ (∅ : gset string)) by (apply Hnames; by eexists). set_solver. }
  intros [|c z] Hz Hne; [done|]. assert (path_ok (p ++ [c])) as Hpc.
  { change (c :: z) with ([c] ++ z) in Hz. rewrite app_assoc in Hz. by apply path_ok_app in Hz as []. }
  specialize (Hnone c Hpc). destruct z as [|c' z].
  - unfold file_of. rewrite Hnone. by destruct (walk n [] (p ++ [c]) (h, w)).
  - replace (p ++ c :: c' :: z) with ((p ++ [c]) ++ c' :: z) in * by by rewrite <- app_assoc.
    apply nondir_bare; [congruence|done|done].
Qed.
End Effects.
