(* ===== verification/Lifecycle.v ===== *)
(** * The life of branches, as an abstract machine

    What a user of the branch store relies on, without files, directories and
    metadata: the set of branches, each with its parent, its state and its commit
    counter.  [lstep] lists the steps this machine can make and the conditions
    under which it makes them; every operation of the manager refines it
    ([serve_refines] and, for successful ones, the exact steps). *)

From S2P Require Import Prelude Strs HostFs Staged Quota TextMerge Branch Codec View Manager Commit.
From S2P Require Import Frame BranchLaws Isolation WorldInv ManagerSpec Quiet.

(** ** The machine *)

Record entry := {
  e_parent : option string;
  e_mode : InheritanceMode;
  e_hides : list string;
  e_state : BranchState;
  e_fork : Z;            (* the parent's counter when the branch was made *)
  e_commits : Z;
}.
Abbreviation life_state := (gmap string entry).

Definition turned (st : BranchState) (e : entry) : entry :=
  {| e_parent := e_parent e; e_mode := e_mode e; e_hides := e_hides e; e_state := st;
     e_fork := e_fork e; e_commits := e_commits e |}.
Definition counted (e : entry) : entry :=
  {| e_parent := e_parent e; e_mode := e_mode e; e_hides := e_hides e; e_state := e_state e;
     e_fork := e_fork e; e_commits := wrap_u64 (e_commits e + 1) |}.

(** A branch that can be committed or aborted: below [p], nothing below it. *)
Definition finishing (n p : string) (m : life_state) : Prop :=
  n <> "main" /\ (exists e, m !! n = Some e /\ e_parent e = Some p)
  /\ forall c e, m !! c = Some e -> e_parent e <> Some n.

Inductive lstep : relation life_state :=
  | l_create n p e pe m :
      m !! n = None -> validate_branch_name n = Ok tt -> m !! p = Some pe ->
      e_parent e = Some p -> e_state e = Open -> e_commits e = 0%Z -> e_fork e = e_commits pe ->
      lstep m (<[n := e]> m)
  | l_turn n e st m : n <> "main" -> m !! n = Some e -> lstep m (<[n := turned st e]> m)
  | l_count n p e m : finishing n p m -> m !! p = Some e -> lstep m (<[p := counted e]> m)
  | l_remove n p m : finishing n p m -> lstep m (delete n m).

(** [main] stays, in the state it is in. *)
Lemma lstep_main m m' e :
  lstep m m' -> m !! "main" = Some e -> exists e', m' !! "main" = Some e' /\ e_state e' = e_state e.
Proof.
  intros Hs He. destruct Hs as [n p en pe m Hn|n en st m Hn|n p en m _ Hp|n p m (Hn & _)].
  - exists e. rewrite lookup_insert_ne; [done|congruence].
  - exists e. by rewrite lookup_insert_ne.
  - destruct (decide (p = "main")) as [->|Hne].
    + exists (counted en). rewrite lookup_insert_eq. split; [done|]. by simplify_eq.
    + exists e. by rewrite lookup_insert_ne.
  - exists e. by rewrite lookup_delete_ne.
Qed.

Lemma life_keeps_main m m' e :
  rtc lstep m m' -> m !! "main" = Some e -> exists e', m' !! "main" = Some e' /\ e_state e' = e_state e.
Proof.
  intros Hs. revert e. induction Hs as [m|m1 m2 m3 H1 _ IH]; intros e He; [by exists e|].
  destruct (lstep_main _ _ _ H1 He) as (e1 & He1 & Hst). destruct (IH e1 He1) as (e2 & He2 & Hst2).
  exists e2. split; [done|congruence].
Qed.

(** ** What the manager's state stands for *)

Definition entry_of (b : Branch) : entry :=
  {| e_parent := br_parent b; e_mode := inheritance b; e_hides := hide_paths b; e_state := state b;
     e_fork := parent_version_at_fork b; e_commits := commit_count b |}.
Definition life (w : World) : life_state := entry_of <$> branches w.

Lemma life_lookup w n : life w !! n = entry_of <$> (branches w !! n).
Proof. apply lookup_fmap. Qed.

Lemma life_insert n b w : life (with_branches (<[n := b]> (branches w)) w) = <[n := entry_of b]> (life w).
Proof. apply fmap_insert. Qed.
Lemma life_delete n w : life (with_branches (delete n (branches w)) w) = delete n (life w).
Proof. apply fmap_delete. Qed.

(** No operation of the manager moves a mount by itself. *)
Definition refines (s s' : host * World) : Prop :=
  rtc lstep (life s.2) (life s'.2) /\ mount_branches s'.2 = mount_branches s.2.
#[export] Instance refines_preorder : PreOrder refines.
Proof.
  split; [intros s; by split|]. intros a b c [H1 H2] [H3 H4]. split; [by etransitivity|congruence].
Qed.

(** The steps the machine does not see. *)
Definition msame (s s' : host * World) : Prop :=
  life s'.2 = life s.2 /\ mount_branches s'.2 = mount_branches s.2.
#[export] Instance msame_preorder : PreOrder msame.
Proof. split; [done|]. intros a b c [] []. split; congruence. Qed.

Lemma msame_refines s s' : msame s s' -> refines s s'.
Proof. unfold refines. intros [-> ->]. by split. Qed.
Lemma keeps_msame {A} (c : MIO A) : keeps msame c -> keeps refines c.
Proof. intros H s. by apply msame_refines. Qed.

Lemma same_life_entry b b' : same_life b b' -> entry_of b' = entry_of b.
Proof. intros [[] Hs Hc]. unfold entry_of. congruence. Qed.

Lemma quiet_msame s s' : qstep s s' -> msame s s'.
Proof.
  intros [Hb _ _ _ Hm _ _]. split; [|done]. apply map_eq. intros n. rewrite !life_lookup. specialize (Hb n).
  destruct (branches s.2 !! n), (branches s'.2 !! n); simpl in *; try done. f_equal. by apply same_life_entry.
Qed.
Lemma keeps_quiet {A} (c : MIO A) : keeps qstep c -> keeps msame c.
Proof. intros H s. apply quiet_msame, H. Qed.

Lemma finishing_child n p m : finishing n p m -> exists e, m !! n = Some e.
Proof. intros (_ & (e & He & _) & _). by exists e. Qed.

Lemma finishing_counted n p q e m : m !! q = Some e -> finishing n p m -> finishing n p (<[q := counted e]> m).
Proof.
  intros Hq (Hn & (en & Hen & Hp) & Hl). split; [done|]. split.
  - destruct (decide (q = n)) as [->|Hne].
    + exists (counted e). rewrite lookup_insert_eq. split; [done|]. by simplify_eq.
    + exists en. by rewrite lookup_insert_ne.
  - intros c ec [[<- <-]|[_ Hc]]%lookup_insert_Some; [by apply (Hl q e)|by apply (Hl c ec)].
Qed.

Lemma finishing_leaf n p w b :
  n <> "main" -> branches w !! n = Some b -> br_parent b = Some p -> is_leaf n (branches w) = true ->
  finishing n p (life w).
Proof.
  intros Hn Hb Hp Hl. split; [done|]. split.
  - exists (entry_of b). by rewrite life_lookup, Hb.
  - intros c e He Hc. rewrite life_lookup in He. apply fmap_Some in He as (bc & Hbc & ->).
    unfold is_leaf in Hl. apply negb_true_iff, not_true_iff_false in Hl. apply Hl, existsb_exists.
    exists (c, bc). split; [by apply list_elem_of_In, elem_of_map_to_list|]. by apply bool_decide_eq_true.
Qed.

(** ** The operations *)

Section Life.
Context {E : Env} {J : Serde}.

Lemma on_host_msame {A} (c : IO A) : keeps msame (on_host c).
Proof. apply keeps_quiet, on_host_qstep. Qed.
Lemma on_mem_msame f :
  (forall w, life (f w) = life w /\ mount_branches (f w) = mount_branches w) -> keeps msame (on_mem f).
Proof. intros Hf [h w]. apply Hf. Qed.
Lemma on_branch_msame {A} n (c : BIO A) : keeps bquiet c -> keeps msame (on_branch n c).
Proof. intros Hc. by apply keeps_quiet, on_branch_qstep. Qed.
Lemma lookup_msame n : keeps msame (lookup_branch n).
Proof. apply keeps_quiet, lookup_qstep. Qed.
Lemma touch_msame b rel : keeps msame (resolve_inherited_for_touch b rel).
Proof. apply keeps_quiet. unfold resolve_inherited_for_touch. qstep_auto. Qed.
Lemma of_exn_msame {A} (r : res exn A) : keeps msame (of_exn r).
Proof. unfold of_exn. keeps_auto. Qed.
End Life.
#[export] Hint Resolve lookup_msame touch_msame of_exn_msame : keeps.

Ltac msame_step :=
  cbn beta iota;
  lazymatch goal with
  | |- keeps msame (on_host _) => apply on_host_msame
  | |- keeps msame (on_branch _ _) => apply on_branch_msame; bquiet_auto
  | |- keeps msame (on_mem _) => apply on_mem_msame; intros ?; split; reflexivity
  | |- _ => keeps_step
  end.
Ltac msame_auto := repeat msame_step.

Section Ops.
Context {E : Env} {J : Serde}.

(** A visible step first. *)
Lemma refines_bind {A B} (c : MIO A) (k : A -> MIO B) s :
  refines s (c s).2 -> (forall a, (c s).1 = Ok a -> refines (c s).2 (k a (c s).2).2) -> refines s (bind c k s).2.
Proof.
  intros Hc Hk. unfold bind. destruct (c s) as [[a|x] s1]; simpl in *; [|done].
  transitivity s1; [done|by apply Hk].
Qed.

Lemma set_state_entry st b h : entry_of (set_state st (h, b)).2.2 = turned st (entry_of b).
Proof.
  assert (keeps bquiet write_metadata) as Hw by (unfold write_metadata; bquiet_auto).
  unfold set_state, bind. simpl. specialize (Hw (h, with_state st b)).
  destruct (write_metadata (h, with_state st b)) as [r s1]. apply (same_life_entry _ _ Hw).
Qed.

(** [on_branch] on a branch that is there. *)
Lemma on_branch_at {A} n (c : BIO A) h w b :
  branches w !! n = Some b ->
  (on_branch n c (h, w)).2 = ((c (h, b)).2.1, with_branches (<[n := (c (h, b)).2.2]> (branches w)) w).
Proof.
  intros Hb. unfold on_branch, bind. destruct (lookup_branch n (h, w)) as [r s1] eqn:Hl.
  apply lookup_same in Hl as [-> Hr]. destruct r as [b2|x]; [|congruence]. assert (b2 = b) as -> by congruence. simpl. by destruct (c (h, b)) as [r [h' b']].
Qed.
Lemma on_branch_absent {A} n (c : BIO A) h w : branches w !! n = None -> (on_branch n c (h, w)).2 = (h, w).
Proof.
  intros Hb. unfold on_branch, bind. destruct (lookup_branch n (h, w)) as [r s1] eqn:Hl.
  apply lookup_same in Hl as [-> Hr]. by destruct r as [b'|x]; simplify_eq.
Qed.

Lemma turn_refines st n s : n <> "main" -> refines s (on_branch n (set_state st) s).2.
Proof.
  intros Hn. destruct s as [h w]. destruct (branches w !! n) as [b|] eqn:Hb.
  - rewrite (on_branch_at _ _ _ _ b) by done. unfold refines. simpl. split; [|done]. rewrite life_insert, set_state_entry.
    apply rtc_once. apply l_turn; [done|]. by rewrite life_lookup, Hb.
  - rewrite on_branch_absent by done. reflexivity.
Qed.

Lemma change_state_refines st n : keeps refines (change_state st n).
Proof.
  intros s. unfold change_state. case_bool_decide as Hn; [reflexivity|].
  apply refines_bind; [by apply turn_refines|]. intros a _. apply keeps_msame. msame_auto.
Qed.

(** *** Finishing a branch *)

Lemma count_entry b h : entry_of (count_commit (h, b)).2.2 = counted (entry_of b).
Proof.
  assert (keeps bquiet write_metadata) as Hw by (unfold write_metadata; bquiet_auto).
  unfold count_commit, bind. simpl. specialize (Hw (h, with_commit_count (wrap_u64 (commit_count b + 1)) b)).
  destruct (write_metadata (h, with_commit_count (wrap_u64 (commit_count b + 1)) b)) as [r s1].
  apply (same_life_entry _ _ Hw).
Qed.

(** What happens while a branch is being finished: it stays the leaf it is. *)
Definition busy (n p : string) (s s' : host * World) : Prop :=
  finishing n p (life s.2) ->
  refines s s' /\ finishing n p (life s'.2) /\ dom (life s'.2) = (dom (life s.2) : gset string).
#[local] Instance busy_preorder n p : PreOrder (busy n p).
Proof.
  split; [by intros s Hs|]. intros a b c Hab Hbc Ha. destruct (Hab Ha) as (H1 & Hb & H2).
  destruct (Hbc Hb) as (H3 & Hc & H4). split; [by transitivity b|]. split; [done|congruence].
Qed.

Lemma msame_busy n p {A} (c : MIO A) : keeps msame c -> keeps (busy n p) c.
Proof. intros Hc s Hf. specialize (Hc s). split; [by apply msame_refines|]. destruct Hc as [-> _]. by split. Qed.

Lemma count_busy n p : keeps (busy n p) (on_branch p count_commit).
Proof.
  intros [h w] Hf. destruct (branches w !! p) as [b|] eqn:Hb.
  - rewrite (on_branch_at _ _ _ _ b) by done. unfold refines. simpl. rewrite life_insert, count_entry.
    assert (life w !! p = Some (entry_of b)) as He by by rewrite life_lookup, Hb.
    split; [split; [apply rtc_once; by eapply l_count|done]|]. split; [by apply finishing_counted|].
    by apply dom_insert_lookup_L.
  - rewrite on_branch_absent by done. split; [reflexivity|by split].
Qed.

(** A branch that is finished is gone afterwards, and nothing else. *)
Definition drops {A} (n : string) (s : host * World) (o : res exn A * (host * World)) : Prop :=
  refines s o.2
  /\ match o.1 with Ok _ => dom (life o.2.2) = (dom (life s.2) ∖ {[n]} : gset string) | Err _ => True end.

Lemma busy_drops n p {A B} (c : MIO A) (k : A -> MIO B) s :
  finishing n p (life s.2) -> keeps (busy n p) c ->
  (forall a s1, finishing n p (life s1.2) -> drops n s1 (k a s1)) -> drops n s (bind c k s).
Proof.
  intros Hf Hc Hk. destruct (Hc s Hf) as (H1 & H2 & H3). unfold bind.
  destruct (c s) as [[a|x] s1]; [|by split]. destruct (Hk a s1 H2) as [H4 H5].
  split; [by transitivity s1|]. simpl in *. by rewrite <- H3.
Qed.

Lemma drops_msame n {A B} (c : MIO A) (k : A -> MIO B) s :
  drops n s (c s) -> (forall a, keeps msame (k a)) -> drops n s (bind c k s).
Proof.
  intros [Hr Hd] Hk. unfold bind. destruct (c s) as [[a|x] s1]; [|by split].
  specialize (Hk a s1). split; simpl in *.
  - transitivity s1; [done|by apply msame_refines].
  - destruct Hk as [Hl _]. destruct (k a s1) as [[b|y] s2]; [|done]. simpl in *. by rewrite Hl.
Qed.

Lemma forget_drops n p s : finishing n p (life s.2) -> drops n s (forget_branch n s).
Proof.
  intros Hf. unfold forget_branch. apply drops_msame; [|intros _; msame_auto].
  destruct s as [h w]. split; simpl; rewrite ?life_delete; [|apply dom_delete_L].
  split; [|done]. simpl. rewrite life_delete. apply rtc_once. by eapply l_remove.
Qed.

Lemma check_deletion_msame b m rel : keeps msame (check_deletion b m rel).
Proof. unfold check_deletion. msame_auto. Qed.
Lemma try_merge_msame b r c i src : keeps msame (try_merge b r c i src).
Proof. unfold try_merge. msame_auto. Qed.
Hint Resolve check_deletion_msame try_merge_msame : keeps.
Lemma check_delta_msame b dir m f : keeps msame (check_delta b dir m f).
Proof. unfold check_delta. destruct f as [rel src]. msame_auto. Qed.
Hint Resolve check_delta_msame : keeps.
Lemma merge_phase_msame b dir ts fs : keeps msame (merge_phase b dir ts fs).
Proof. unfold merge_phase. msame_auto. Qed.

Lemma set_tombstones_quiet T : keeps bquiet (set_tombstones T).
Proof. unfold set_tombstones, rewrite_tombstones. bquiet_auto. Qed.
Lemma tombs_under_quiet p : keeps bquiet (remove_tombstones_under p).
Proof. unfold remove_tombstones_under, append_tombstone_op. bquiet_auto. Qed.
Lemma touches_under_quiet p : keeps bquiet (remove_touch_records_under p).
Proof. unfold remove_touch_records_under, append_touch_removal. bquiet_auto. Qed.
Hint Resolve merge_phase_msame set_tombstones_quiet tombs_under_quiet touches_under_quiet : keeps.

Lemma revert_msame n rel : keeps msame (revert_path_in_branch n rel).
Proof.
  unfold revert_path_in_branch, writable_branch, drop_delta_through, sub_quota. msame_auto.
Qed.

Ltac busy_auto :=
  lazymatch goal with
  | |- keeps (busy _ _) (on_branch _ count_commit) => apply count_busy
  | |- keeps (busy ?n ?p) _ => apply (msame_busy n p); msame_auto
  end.

Lemma commit_to_main_drops n m ts fs s :
  finishing n "main" (life s.2) -> drops n s (commit_to_main n m ts fs s).
Proof.
  intros Hf. unfold commit_to_main.
  apply (busy_drops n "main"); [done|busy_auto|]. intros w s1 Hf1.
  apply (busy_drops n "main"); [done|busy_auto|]. intros committed s2 Hf2.
  apply (busy_drops n "main"); [done| |].
  { destruct (branches w !! "main"); [|busy_auto].
    apply (keeps_bind (busy n "main")); [busy_auto|]. intros _. busy_auto. }
  intros _ s3 Hf3. apply drops_msame; [by eapply forget_drops|]. intros _. msame_auto.
Qed.

Lemma commit_nested_drops n p m ts fs s :
  finishing n p (life s.2) -> drops n s (commit_nested n p m ts fs s).
Proof.
  intros Hf. unfold commit_nested.
  apply (busy_drops n p); [done|busy_auto|]. intros pb s1 Hf1.
  apply (busy_drops n p); [done|busy_auto|]. intros w s2 Hf2.
  apply (busy_drops n p); [done|busy_auto|]. intros (copied & tombs & dirs) s3 Hf3.
  apply (busy_drops n p); [done|busy_auto|]. intros _ s4 Hf4.
  apply (busy_drops n p); [done|busy_auto|]. intros _ s5 Hf5.
  apply (busy_drops n p); [done|busy_auto|]. intros _ s6 Hf6.
  apply drops_msame; [by eapply forget_drops|]. intros _. msame_auto.
Qed.

(** The first step of commit and abort. *)
Lemma leaf_bind_drops {A} n (k : Branch * string -> MIO A) s :
  (forall b p, finishing n p (life s.2) -> drops n s (k (b, p) s)) -> drops n s (bind (leaf_with_parent n) k s).
Proof.
  destruct s as [h w]. intros Hk.
  destruct (leaf_with_parent_spec n h w) as [(b & p & Heq & Hn & Hb & Hp & Hl)|[x Heq]].
  - rewrite (bind_step _ _ _ _ _ Heq). apply Hk. by eapply finishing_leaf.
  - rewrite (bind_fail _ _ _ _ _ Heq). split; [simpl; reflexivity|done].
Qed.

Lemma commit_with_report_drops n s : drops n s (commit_with_report n s).
Proof.
  unfold commit_with_report. apply leaf_bind_drops. intros b p Hf.
  apply (busy_drops n p); [done|busy_auto|]. intros pb s1 Hf1.
  apply (busy_drops n p); [done|busy_auto|]. intros w2 s2 Hf2.
  apply (busy_drops n p); [done|busy_auto|]. intros t s3 Hf3.
  apply (busy_drops n p); [done|busy_auto|]. intros fs s4 Hf4.
  apply (busy_drops n p); [done|busy_auto|]. intros m s5 Hf5.
  apply drops_msame; [|intros _; msame_auto].
  case_bool_decide as Hmain; [subst; by apply commit_to_main_drops|by apply commit_nested_drops].
Qed.

Lemma commit_drops n s : drops n s (commit n s).
Proof. unfold commit. apply drops_msame; [apply commit_with_report_drops|]. intros o. msame_auto. Qed.

Lemma abort_drops n s : drops n s (abort n s).
Proof.
  unfold abort. apply leaf_bind_drops. intros b p Hf.
  apply drops_msame; [by eapply forget_drops|]. intros _. msame_auto.
Qed.

Lemma commit_with_report_refines n : keeps refines (commit_with_report n).
Proof. intros s. apply commit_with_report_drops. Qed.
Lemma commit_refines n : keeps refines (commit n).
Proof. intros s. apply commit_drops. Qed.
Lemma abort_refines n : keeps refines (abort n).
Proof. intros s. apply abort_drops. Qed.

(** The answer of both is the parent. *)
Lemma leaf_with_parent_ok n s b p s' : leaf_with_parent n s = (Ok (b, p), s') -> finishing n p (life s.2).
Proof.
  destruct s as [h w]. intros H.
  destruct (leaf_with_parent_spec n h w) as [(b' & p' & Heq & Hn & Hb & Hp & Hl)|[x Heq]];
    rewrite Heq in H; simplify_eq. by eapply finishing_leaf.
Qed.

Lemma commit_parent n s p s' : commit n s = (Ok p, s') -> finishing n p (life s.2).
Proof.
  unfold commit, commit_with_report. intros (o & s1 & H & Hp)%bind_ok. unfold ret in Hp.
  apply bind_ok in H as ([b q] & s2 & Hl%leaf_with_parent_ok & H).
  repeat (apply bind_ok in H as (? & ? & _ & H)). unfold ret in H. by simplify_eq.
Qed.

Lemma abort_parent n s p s' : abort n s = (Ok p, s') -> finishing n p (life s.2).
Proof.
  unfold abort. intros ([b q] & s2 & Hl%leaf_with_parent_ok & H)%bind_ok.
  repeat (apply bind_ok in H as (? & ? & _ & H)). unfold ret in H. by simplify_eq.
Qed.

(** *** Making a branch *)

Lemma fresh_branch_msame (inh : InheritanceMode) b parent w dir :
  keeps (fun s s' : host * World => s'.2 = s.2)
    (match inh with
     | Lazy => ret tt
     | Snapshot =>
         let* r := attempt (on_host (snapshot_visible_tree (base_path w) (branches w) parent (inherited_dir b))) in
         match r with
         | Err e => let* _ := attempt (on_host (remove_branch_store_dir_all dir)) in throw e
         | Ok _ => on_host (fun h => let '(r, (h1, _)) := write_metadata (h, b) in (r, h1))
         end
     end).
Proof.
  assert (PreOrder (fun s s' : host * World => s'.2 = s.2)) as Hpre by (split; [done|intros ? ? ?; congruence]).
  assert (forall A (c : IO A), keeps (fun s s' : host * World => s'.2 = s.2) (on_host c)) as Hh.
  { intros A c [h w']. unfold on_host, zoom. simpl. by destruct (c h). }
  destruct inh; keeps_auto; auto.
Qed.

Lemma create_refines n p inh hides : keeps refines (create_branch_with_options n p inh hides).
Proof.
  intros [h w]. unfold create_branch_with_options.
  destruct (validate_branch_name n) as [[]|e] eqn:Hv; [|unfold bind; simpl; reflexivity].
  rewrite (bind_step _ _ _ tt (h, w)) by done. rewrite (bind_step _ _ _ w (h, w)) by done.
  case_bool_decide as Hn; [simpl; reflexivity|]. apply eq_None_not_Some in Hn.
  destruct (branches w !! p) as [pb|] eqn:Hp; [|simpl; reflexivity].
  apply refines_bind; [apply keeps_msame, on_host_msame|]. intros b Hnew.
  assert ((on_host (new n (Some p) (storage_path w) (commit_count pb) inh hides) (h, w)).2.2 = w) as Hw1.
  { unfold on_host, zoom. simpl. by destruct (new _ _ _ _ _ _ h). }
  unfold on_host at 1, zoom at 1 in Hnew. simpl in Hnew. destruct (new _ _ _ _ _ _ h) as [r h2] eqn:Hr.
  simpl in Hnew. subst r. apply new_spec in Hr as (_ & Hbp & Hbd & Hbi & Hbs & Hbc & Hbf & Hbh).
  match goal with |- refines ?s0 _ => generalize dependent s0 end. intros s0 Hs0.
  pose proof (fresh_branch_msame inh b p w (branch_dir_of (storage_path w) n) s0) as Hc.
  unfold bind at 1.
  match goal with |- refines _ (match ?c with _ => _ end).2 => destruct c as [[[]|x] [h4 w4]] end;
    cbn [fst snd] in Hc; unfold refines; rewrite ?Hc, ?Hs0; [|by split].
  simpl. split; [|done]. change (rtc lstep (life w) (life (with_branches (<[n:=b]> (branches w)) w))).
  rewrite life_insert. apply rtc_once. eapply l_create; [|done|by rewrite life_lookup, Hp|done..].
  by rewrite life_lookup, Hn.
Qed.

(** Every operation of the manager, whether it succeeds or fails. *)
Lemma serve_refines r : keeps refines (serve r).
Proof.
  destruct r; simpl; try (intros s; rewrite (bind_ret_state _ (fun _ => tt)); revert s).
  - apply create_refines.
  - apply keeps_msame, keeps_quiet, ensure_delta_qstep.
  - apply keeps_msame, keeps_quiet, write_qstep.
  - apply keeps_msame, keeps_quiet, delete_qstep.
  - apply keeps_msame, keeps_quiet, rmdir_qstep.
  - apply keeps_msame. apply revert_msame.
  - apply change_state_refines.
  - apply change_state_refines.
  - apply commit_refines.
  - apply abort_refines.
Qed.
End Ops.
