(* ===== verification/FuseWalk.v ===== *)
(** * One walk through the callbacks

    Every callback is made of a few kinds of steps: host calls, edits through
    the manager, updates of the mount's own tables, and - behind the test of
    [expose_control] - control commands.  A relation closed under these steps
    ([Closed]) is kept by every callback and every job ([handle_keeps],
    [run_job_keeps]); the proposition [ctl] says whether control commands are
    among the steps. *)

From S2P Require Import Prelude Strs Inode HostFs Handles Quota TextMerge Branch Codec View Manager Commit.
From S2P Require Import Frame BranchLaws Isolation WorldInv Quiet Platform Mount Ctl Fuse.

Open Scope bool_scope.

(** What no step of a mount changes in its own state. *)
Record fs_quiet (f f' : BranchFs) : Prop := {
  fq_mountpoint : mountpoint f' = mountpoint f;
  fq_expose : expose_control f' = expose_control f;
  fq_owner : fs_uid f' = fs_uid f /\ fs_gid f' = fs_gid f;
}.
#[export] Instance fs_quiet_preorder : PreOrder fs_quiet.
Proof. split; [by split|]. intros a b c [? ? []] [? ? []]. split; [congruence..|]. split; congruence. Qed.

Class Closed {E : Env} {J : Serde} (R : relation Mounted) (ctl : Prop) := {
  cl_pre :: PreOrder R;
  cl_edit A (c : MIO A) : keeps qstep c -> keeps R (mgr c);
  cl_fs s f : fs_quiet s.2 f -> branch_ctl_inodes f = branch_ctl_inodes s.2 -> R s (s.1, f);
  cl_commit n : ctl -> keeps R (mgr (commit n));
  cl_abort n : ctl -> keeps R (mgr (abort n));
  cl_create n p : ctl -> keeps R (mgr (create_branch n p));
  cl_switch mp b : ctl -> keeps R (upd_world (switch_mount_branch mp b));
  cl_ctl_fs m n : ctl -> keeps R (upd_fs (with_ctl_inodes m n));
  cl_get_fs A (k : BranchFs -> FIO A) :
    (forall f, (expose_control f = true -> ctl) -> keeps R (k f)) -> keeps R (bind get_fs k);
  cl_for_ctl i A (k : option string -> FIO A) :
    (forall b, ctl -> keeps R (k (Some b))) -> keeps R (k None) -> keeps R (bind (branch_for_ctl_ino i) k);
}.

Create HintDb walk discriminated.

Ltac walk_step :=
  cbn beta iota;
  lazymatch goal with
  | H : expose_control ?f = true -> _ |- context [expose_control ?f] =>
      destruct (expose_control f); cbn [andb]; [specialize (H eq_refl)|clear H]
  | |- keeps _ (bind get_fs _) => apply cl_get_fs; intros ? ?
  | |- keeps _ (bind (branch_for_ctl_ino _) _) => apply cl_for_ctl; [intros ? ?|]
  | |- keeps _ (mgr (if ?b then _ else _)) => destruct b
  | |- keeps _ (mgr (match ?b with _ => _ end)) => destruct b
  | |- keeps _ (mgr (when ?b _)) => destruct b; cbn [when]
  | |- keeps _ (mgr (commit _)) => by apply cl_commit
  | |- keeps _ (mgr (abort _)) => by apply cl_abort
  | |- keeps _ (mgr (create_branch _ _)) => by apply cl_create
  | |- keeps _ (upd_world (switch_mount_branch _ _)) => by apply cl_switch
  | |- keeps _ (mgr _) => apply cl_edit; first [solve [eauto 2 with keeps] | solve [qstep_auto]]
  | |- keeps _ (hostio _) => apply cl_edit, on_host_qstep
  | |- keeps ?R (bind ?c _) => apply (keeps_bind R); [|intros ?]
  | |- keeps ?R (attempt _) => apply (keeps_attempt R)
  | |- keeps ?R (when _ _) => apply (keeps_when R)
  | |- keeps ?R (fold_m _ _ _) => apply (keeps_fold_m R); intros ? ?
  | |- keeps ?R (ret _) => apply (keeps_ret R)
  | |- keeps ?R (gets _) => apply (keeps_gets R)
  | |- keeps _ (match ?x with _ => _ end) => destruct x
  | |- keeps _ _ => solve [eauto 3 with walk typeclass_instances]
  end.
Ltac walk_auto := repeat walk_step.

Section Walk.
Context {E : Env} {J : Serde} {K : Kernel} (R : relation Mounted) (ctl : Prop) {C : Closed R ctl}.

Lemma upd_fs_walk g :
  (forall f, fs_quiet f (g f) /\ branch_ctl_inodes (g f) = branch_ctl_inodes f) -> keeps R (upd_fs g).
Proof. intros Hg s. apply cl_fs; apply Hg. Qed.
Hint Extern 2 (keeps R (upd_fs _)) => (apply upd_fs_walk; by repeat split) : walk.
Lemma opened_walk b i : keeps R (upd_world (register_opened_inode b i)).
Proof. unfold upd_world. walk_auto. Qed.
Lemma get_world_walk : keeps R get_world.
Proof. unfold get_world. walk_auto. Qed.
Hint Resolve opened_walk get_world_walk : walk.

(** *** Helpers *)
Lemma is_stale_walk : keeps R is_stale.
Proof. unfold is_stale, get_branch_name, get_fs, branch_valid. walk_auto. Qed.
Lemma refresh_walk : keeps R refresh_epoch.
Proof. unfold refresh_epoch. walk_auto. Qed.
Lemma resolve_for_walk b p : keeps R (resolve_for_branch b p).
Proof. unfold resolve_for_branch. walk_auto. Qed.
Hint Resolve is_stale_walk refresh_walk resolve_for_walk : walk.
Lemma resolve_walk p : keeps R (resolve p).
Proof. unfold resolve, get_branch_name. walk_auto. Qed.
Lemma ensure_cow_for_walk b p : keeps R (ensure_cow_for_branch b p).
Proof. unfold ensure_cow_for_branch. walk_auto. Qed.
Hint Resolve resolve_walk ensure_cow_for_walk : walk.
Lemma ensure_cow_walk p : keeps R (ensure_cow p).
Proof. unfold ensure_cow, get_branch_name. walk_auto. Qed.
Lemma make_attr_walk i p : keeps R (make_attr i p).
Proof. unfold make_attr. walk_auto. Qed.
Lemma new_inode_walk p d : keeps R (new_inode p d).
Proof.
  intros s. unfold new_inode. destruct (get_or_create p d (inodes s.2)) as [i m]. by apply cl_fs.
Qed.
Hint Resolve ensure_cow_walk make_attr_walk new_inode_walk : walk.
Lemma candidate_walk b r pre n : keeps R (readdir_candidate b r pre n).
Proof. unfold readdir_candidate. walk_auto. Qed.
Hint Resolve candidate_walk : walk.
Lemma readdir_entries_walk b r i pre : keeps R (collect_readdir_entries b r i pre).
Proof. unfold collect_readdir_entries. walk_auto. Qed.
Lemma ctl_ino_walk b : ctl -> keeps R (get_or_create_branch_ctl_ino b).
Proof. intros Hc. unfold get_or_create_branch_ctl_ino. walk_auto. by apply cl_ctl_fs. Qed.
Hint Resolve readdir_entries_walk ctl_ino_walk : walk.
Lemma classify_ino_walk i : keeps R (classify_ino i).
Proof. unfold classify_ino, inode_path. walk_auto. Qed.
Lemma denied_walk b : keeps R (write_denied_error b).
Proof. unfold write_denied_error, branch_writable. walk_auto. Qed.
Lemma dir_entry_walk p : keeps R (is_dir_entry p).
Proof. unfold is_dir_entry. walk_auto. Qed.
Lemma get_name_walk : keeps R get_branch_name.
Proof. unfold get_branch_name. walk_auto. Qed.
Lemma get_fs_walk : keeps R get_fs.
Proof. unfold get_fs. walk_auto. Qed.
Lemma valid_walk b : keeps R (branch_valid b).
Proof. unfold branch_valid. walk_auto. Qed.
Lemma inode_path_walk i : keeps R (inode_path i).
Proof. unfold inode_path. walk_auto. Qed.
Lemma fail_walk e : keeps R (fail e).
Proof. unfold fail. walk_auto. Qed.
Lemma reply_walk r : keeps R (reply r).
Proof. unfold reply. walk_auto. Qed.
Hint Resolve classify_ino_walk denied_walk dir_entry_walk get_name_walk get_fs_walk valid_walk
  inode_path_walk fail_walk reply_walk : walk.

(** *** Control files *)
Lemma switch_to_walk b : ctl -> keeps R (switch_to_branch b).
Proof. intros Hc. unfold switch_to_branch. walk_auto. Qed.
Lemma finalize_walk b r n : ctl -> keeps R (finalize_branch_op b r n).
Proof. intros Hc. unfold finalize_branch_op. walk_auto. Qed.
Lemma fresh_name_walk : keeps R fresh_branch_name.
Proof. unfold fresh_branch_name. walk_auto. Qed.
Hint Resolve switch_to_walk finalize_walk fresh_name_walk : walk.
Lemma commit_command_walk b d : ctl -> keeps R (commit_command b d).
Proof. intros Hc. unfold commit_command. walk_auto. Qed.
Lemma abort_command_walk b d : ctl -> keeps R (abort_command b d).
Proof. intros Hc. unfold abort_command. walk_auto. Qed.
Lemma create_command_walk c p d : ctl -> keeps R (create_command c p d).
Proof. intros Hc. unfold create_command. walk_auto. Qed.
Lemma switch_command_walk c d : ctl -> keeps R (switch_command c d).
Proof. intros Hc. unfold switch_command. walk_auto. Qed.
Hint Resolve commit_command_walk abort_command_walk create_command_walk switch_command_walk : walk.
Lemma root_ctl_walk d : ctl -> keeps R (handle_root_ctl_write d).
Proof. intros Hc. unfold handle_root_ctl_write. walk_auto. Qed.
Lemma branch_ctl_walk b d : ctl -> keeps R (handle_branch_ctl_write b d).
Proof. intros Hc. unfold handle_branch_ctl_write. walk_auto. Qed.
Hint Resolve root_ctl_walk branch_ctl_walk : walk.

(** *** Callbacks *)
Lemma reply_entry_walk i p e : keeps R (reply_entry i p e).
Proof. unfold reply_entry. walk_auto. Qed.
Lemma reply_attr_walk i p : keeps R (reply_attr i p).
Proof. unfold reply_attr. walk_auto. Qed.
Lemma page_walk l o : keeps R (page l o).
Proof. unfold page. walk_auto. Qed.
Lemma root_ctl_attr_walk : keeps R root_ctl_attr.
Proof. unfold root_ctl_attr. walk_auto. Qed.
Lemma branch_ctl_attr_walk b i : keeps R (branch_ctl_attr b i).
Proof. unfold branch_ctl_attr. walk_auto. Qed.
Hint Resolve reply_entry_walk reply_attr_walk page_walk root_ctl_attr_walk branch_ctl_attr_walk : walk.

Lemma lookup_walk i n : keeps R (fuse_lookup i n).
Proof. unfold fuse_lookup, lookup_in_root, lookup_in_branch, lookup_current, lookup_resolved. walk_auto. Qed.
Lemma getattr_walk i : keeps R (fuse_getattr i).
Proof. unfold fuse_getattr, getattr_path, root_dir_attr. walk_auto. Qed.
Lemma read_handle_walk f o z b : keeps R (read_handle f o z b).
Proof. unfold read_handle. walk_auto. Qed.
Lemma read_opening_walk i e q o z b : keeps R (read_opening i e q o z b).
Proof. unfold read_opening, read_handle. walk_auto. Qed.
Hint Resolve read_handle_walk read_opening_walk : walk.
Lemma read_walk i o z : keeps R (fuse_read i o z).
Proof. unfold fuse_read, read_ctl, read_slow. walk_auto. Qed.

Lemma write_handle_walk f o z d b : keeps R (write_handle f o z d b).
Proof. unfold write_handle. walk_auto. Qed.
Hint Resolve write_handle_walk : walk.
Lemma write_path_walk i e b r ro fl o d : keeps R (write_path i e b r ro fl o d).
Proof. unfold write_path, append_len, file_len. walk_auto. Qed.
Hint Resolve write_path_walk : walk.
Lemma write_fuse_walk i o d fl : keeps R (fuse_write i o d fl).
Proof. unfold fuse_write, write_cached, write_slow. walk_auto. Qed.

Lemma readdir_walk i o : keeps R (fuse_readdir i o).
Proof.
  unfold fuse_readdir, readdir_branch_root, readdir_root, readdir_subdir, branch_dirs_at_root. walk_auto.
Qed.

Lemma set_mode_walk p m u : keeps R (set_mode_umask p m u).
Proof. unfold set_mode_umask. walk_auto. Qed.
Hint Resolve set_mode_walk : walk.
Lemma create_make_walk m u p : keeps R (create_make m u p).
Proof. unfold create_make. walk_auto. Qed.
Lemma mkdir_make_walk m u p : keeps R (mkdir_make m u p).
Proof. unfold mkdir_make. walk_auto. Qed.
Lemma symlink_make_walk t p : keeps R (symlink_make t p).
Proof. unfold symlink_make. walk_auto. Qed.
Hint Resolve create_make_walk mkdir_make_walk symlink_make_walk : walk.
Lemma make_entry_walk i n d make undo ans :
  (forall p, keeps R (make p)) -> keeps R (make_entry i n d make undo ans).
Proof. intros Hm. unfold make_entry, make_in_branch, make_at_root, created_reply. walk_auto. Qed.

Lemma remove_async_walk i n j : keeps R (remove_entry_async i n j).
Proof. unfold remove_entry_async. walk_auto. Qed.
Lemma remove_inode_walk p : keeps R (remove_inode p).
Proof. unfold remove_inode. walk_auto. Qed.
Hint Resolve remove_inode_walk : walk.
Lemma run_job_walk j : keeps R (run_job j).
Proof. unfold run_job, reply_from_delete_result. destruct j; walk_auto. Qed.

Lemma clear_destination_walk b r : keeps R (clear_destination b r).
Proof.
  unfold clear_destination. walk_auto.
Qed.
Lemma rename_tombstones_walk b x y i e : keeps R (rename_tombstones b x y i e).
Proof. unfold rename_tombstones. walk_auto. Qed.
Hint Resolve clear_destination_walk rename_tombstones_walk : walk.
Lemma rename_in_delta_walk b x y i : keeps R (rename_in_delta b x y i).
Proof. unfold rename_in_delta. walk_auto. Qed.
Hint Resolve rename_in_delta_walk : walk.
Lemma rename_in_branch_walk b x y p q r f : keeps R (rename_in_branch b x y p q r f).
Proof. unfold rename_in_branch, rename_inodes. walk_auto. Qed.
Hint Resolve rename_in_branch_walk : walk.
Lemma rename_walk i n j m f : keeps R (fuse_rename i n j m f).
Proof. unfold fuse_rename. walk_auto. Qed.

Lemma passthrough_walk f b r q : keeps R (try_open_passthrough f b r q).
Proof. unfold try_open_passthrough, fs_open_passthrough. walk_auto. Qed.
Hint Resolve passthrough_walk : walk.
Lemma open_walk i f : keeps R (fuse_open i f).
Proof. unfold fuse_open, open_branch_path, open_root_path, opened_path. walk_auto. Qed.
Lemma release_walk i : keeps R (fuse_release i).
Proof. unfold fuse_release. walk_auto. Qed.

Lemma apply_setattr_walk p a : keeps R (apply_setattr p a).
Proof. unfold apply_setattr. walk_auto. Qed.
Lemma truncate_walk p z : keeps R (truncate_delta p z).
Proof. unfold truncate_delta. walk_auto. Qed.
Hint Resolve apply_setattr_walk truncate_walk : walk.
Lemma setattr_walk i a : keeps R (fuse_setattr i a).
Proof.
  unfold fuse_setattr, setattr_branch_path, setattr_root_path, setattr_denied, setattr_size,
    setattr_attributes, setattr_reply. walk_auto.
Qed.

Lemma ioctl_walk i c : (i = CTL_INO -> ctl) -> keeps R (fuse_ioctl i c).
Proof.
  intros Hi. unfold fuse_ioctl, ioctl_create, ioctl_commit, ioctl_abort, ioctl_finished.
  apply (keeps_bind R); [walk_auto|]. intros current.
  case_bool_decide as Hc; [specialize (Hi Hc)|]; walk_auto.
Qed.
Lemma readlink_walk i : keeps R (fuse_readlink i).
Proof. unfold fuse_readlink, read_link_reply. walk_auto. Qed.
Lemma access_walk i m : keeps R (fuse_access i m).
Proof. unfold fuse_access. walk_auto. Qed.
Lemma statfs_walk : keeps R fuse_statfs.
Proof. unfold fuse_statfs. walk_auto. Qed.
Hint Resolve lookup_walk getattr_walk read_walk write_fuse_walk readdir_walk remove_async_walk
  rename_walk open_walk release_walk setattr_walk readlink_walk access_walk statfs_walk : walk.

(** The control ioctl on the root control file is not behind the test. *)
Definition allowed (o : FuseOp) : Prop := match o with OpIoctl i _ => i = CTL_INO -> ctl | _ => True end.

Lemma handle_keeps o : allowed o -> keeps R (handle o).
Proof.
  intros Ho. destruct o; simpl; unfold fuse_create, fuse_mkdir, fuse_symlink, fuse_unlink, fuse_rmdir;
    try (apply make_entry_walk; intros ?); try (by apply ioctl_walk); eauto with walk.
Qed.

Lemma run_job_keeps j : keeps R (run_job j).
Proof. apply run_job_walk. Qed.
End Walk.
