(* ===== verification/FuseInv.v ===== *)
(** * Invariants of the whole system

    Callbacks of any mount, jobs of the worker and requests to the daemon all go
    through the manager; [xstep] says that the manager's invariant survives,
    whatever state [X] the caller has besides.  [run_events] puts them together
    in any interleaving. *)

From S2P Require Import Prelude Strs Inode HostFs Handles Quota TextMerge Branch Codec View Manager Commit.
From S2P Require Import Frame BranchLaws Isolation WorldInv ManagerSpec Quiet Platform Mount Ctl Fuse FuseWalk Daemon.

Open Scope bool_scope.

Definition xstep {X} (s s' : host * World * X) : Prop := istep s.1 s'.1.
#[export] Instance xstep_preorder {X} : PreOrder (@xstep X).
Proof. split; [intros s; unfold xstep; reflexivity|]. intros a b c. unfold xstep. apply transitivity. Qed.

Section Steps.
Context {X : Type}.

Lemma mgr_keeps (R : relation (host * World)) {A} (c : MIO A) :
  keeps R c -> keeps (fun s s' : host * World * X => R s.1 s'.1) (mgr c).
Proof. intros Hc [hw x]. unfold mgr, zoom. simpl. specialize (Hc hw). by destruct (c hw). Qed.

Lemma mgr_xstep {A} (c : MIO A) : keeps istep c -> keeps (@xstep X) (mgr c).
Proof. apply mgr_keeps. Qed.
Lemma mgr_sstep_xstep {A} (c : MIO A) : keeps sstep c -> keeps (@xstep X) (mgr c).
Proof. intros Hc. by apply mgr_xstep, keeps_sstep_istep. Qed.
Lemma hostio_xstep {A} (c : IO A) : keeps (@xstep X) (hostio c).
Proof. apply mgr_sstep_xstep, on_host_sstep. Qed.
Lemma upd_world_xstep f : (forall w, same_world w (f w)) -> keeps (@xstep X) (upd_world f).
Proof. intros Hf. by apply mgr_sstep_xstep, on_mem_sstep. Qed.
Lemma modify_xstep (f : X -> X) : keeps (@xstep X) (modify (fun s => (s.1, f s.2))).
Proof. intros s Hs. done. Qed.
Lemma get_world_xstep : keeps (@xstep X) get_world.
Proof. apply keeps_gets, _. Qed.
End Steps.

Lemma with_mounts_same mb ns w : same_world w (with_mounts mb ns w).
Proof. by apply same_world_fields. Qed.
Lemma switch_same mp b w : same_world w (switch_mount_branch mp b w).
Proof.
  unfold switch_mount_branch. destruct (mount_branches w !! mp) as [old|]; [|apply with_mounts_same].
  destruct (notifiers w !! (old, mp)); apply with_mounts_same.
Qed.
Lemma unregister_same mp w : same_world w (unregister_mount mp w).
Proof. unfold unregister_mount. destruct (mount_branches w !! mp); apply with_mounts_same. Qed.
Lemma opened_same b i w : same_world w (register_opened_inode b i w).
Proof. by apply same_world_fields. Qed.
#[export] Hint Resolve with_mounts_same switch_same unregister_same opened_same : keeps.

Ltac xstep_step :=
  cbn beta iota;
  lazymatch goal with
  | |- keeps xstep (bind (mgr _) _) => apply (keeps_bind xstep); [|intros ?]
  | |- keeps xstep (mgr (if ?b then _ else _)) => destruct b
  | |- keeps xstep (mgr (match ?b with _ => _ end)) => destruct b
  | |- keeps xstep (mgr _) =>
      first [ solve [apply mgr_sstep_xstep; first [solve [eauto 2 with keeps] | sstep_auto]]
            | solve [apply mgr_xstep; eauto 2 with keeps] ]
  | |- keeps xstep (hostio _) => apply hostio_xstep
  | |- keeps xstep (upd_world _) => apply upd_world_xstep; intros ?; eauto 2 with keeps
  | |- keeps xstep (upd_fs _) => apply modify_xstep
  | |- keeps xstep (upd_daemon _) => apply modify_xstep
  | |- keeps xstep (modify _) => apply modify_xstep
  | |- _ => keeps_step
  end.
Ltac xstep_auto := repeat xstep_step.

#[export] Hint Resolve revert_sstep change_state_sstep
  commit_istep abort_istep commit_with_report_istep create_istep get_world_xstep : keeps.
#[export] Hint Extern 1 (keeps istep (create_branch _ _)) => apply create_istep : keeps.
#[export] Hint Extern 1 (keeps sstep (freeze_branch _)) => apply change_state_sstep : keeps.
#[export] Hint Extern 1 (keeps sstep (thaw_branch _)) => apply change_state_sstep : keeps.

(** ** Three relations every callback keeps *)

Section Instances.
Context {E : Env} {J : Serde} {K : Kernel}.

Lemma for_ctl_pure i A (k : option string -> FIO A) s :
  bind (branch_for_ctl_ino i) k s = k (ctl_branch i (branch_ctl_inodes s.2)) s.
Proof. done. Qed.
Lemma keeps_for_ctl (R : relation Mounted) i A (k : option string -> FIO A) :
  (forall b, keeps R (k (Some b))) -> keeps R (k None) -> keeps R (bind (branch_for_ctl_ino i) k).
Proof. intros H1 H2 s. rewrite for_ctl_pure. destruct (ctl_branch i _); [apply H1|apply H2]. Qed.
Lemma keeps_get_fs (R : relation Mounted) A (k : BranchFs -> FIO A) :
  (forall f, keeps R (k f)) -> keeps R (bind get_fs k).
Proof. intros Hk s. apply Hk. Qed.

#[export] Instance xstep_closed : Closed (@xstep BranchFs) True.
Proof.
  split.
  - apply _.
  - intros A c Hc. apply mgr_sstep_xstep. intros s. apply quiet_same, Hc.
  - intros s f _ _ Hs. done.
  - intros n _. apply mgr_xstep, commit_istep.
  - intros n _. apply mgr_xstep, abort_istep.
  - intros n p _. apply mgr_xstep, create_istep.
  - intros mp b _. apply upd_world_xstep. intros w. apply switch_same.
  - intros m n _. apply modify_xstep.
  - intros A k Hk. apply keeps_get_fs. intros f. by apply Hk.
  - intros i A k Hs Hn. apply keeps_for_ctl; [|done]. intros b. by apply Hs.
Qed.

(** The mount's identity. *)
Definition same_mount (s s' : Mounted) : Prop := fs_quiet s.2 s'.2.
#[export] Instance same_mount_closed : Closed same_mount True.
Proof.
  assert (PreOrder same_mount) as Hpre.
  { split; [intros s; unfold same_mount; reflexivity|]. intros a b c. unfold same_mount. apply transitivity. }
  assert (forall A (c : MIO A), keeps same_mount (mgr c)) as Hmgr.
  { intros A c [hw f]. unfold mgr, zoom. simpl. destruct (c hw). unfold same_mount. simpl. reflexivity. }
  split.
  - done.
  - auto.
  - intros s f H _. exact H.
  - auto.
  - auto.
  - auto.
  - unfold upd_world. auto.
  - intros m n _ s. by repeat split.
  - intros A k Hk. apply keeps_get_fs. intros f. by apply Hk.
  - intros i A k Hs Hn. apply keeps_for_ctl; [|done]. intros b. by apply Hs.
Qed.

(** A mount without control files makes quiet changes only, and stays one. *)
Definition agent (s : Mounted) : Prop := expose_control s.2 = false /\ branch_ctl_inodes s.2 = ∅.
Definition agent_step (s s' : Mounted) : Prop :=
  agent s -> quiet_world s.1.2 s'.1.2 /\ fs_quiet s.2 s'.2 /\ agent s'.
#[export] Instance agent_step_closed : Closed agent_step False.
Proof.
  split.
  - split; [intros s Hs; split; [reflexivity|by split; [reflexivity|]]|]. intros a b c Hab Hbc Ha.
    destruct (Hab Ha) as (H1 & H2 & Hb). destruct (Hbc Hb) as (H3 & H4 & Hc).
    split; [by etransitivity|]. split; [by etransitivity|done].
  - intros A c Hc [hw f] Hs. unfold mgr, zoom. simpl. specialize (Hc hw). destruct (c hw) as [r hw'].
    split; [exact Hc|]. split; [reflexivity|exact Hs].
  - intros s f Hq Hm [He Hc]. split; [reflexivity|]. split; [done|]. split; [|simpl; congruence].
    simpl. rewrite (fq_expose _ _ Hq). done.
  - by intros.
  - by intros.
  - by intros.
  - by intros.
  - by intros.
  - intros A k Hk s Hs. apply (Hk s.2); [|done]. destruct Hs as [He _]. by rewrite He.
  - intros i A k _ Hn s Hs. rewrite for_ctl_pure. destruct Hs as [He Hc]. rewrite Hc. by apply Hn.
Qed.
End Instances.

(** ** The system: the daemon, its clients, its mounts and the worker *)

Inductive event :=
  | EvRequest (r : Request)
  | EvCallback (mp : path) (o : FuseOp)
  | EvJob (mp : path) (j : Job).

Section System.
Context {E : Env} {J : Serde} {K : Kernel} {F : Sessions}.

Definition sys_event (e : event) : DIO unit :=
  match e with
  | EvRequest r => let* _ := handle_request r in ret tt
  | EvCallback mp o => let* _ := on_mount mp (handle o) in ret tt
  | EvJob mp j => let* _ := on_mount mp (run_job j) in ret tt
  end.

(** Any interleaving: whatever an event did before it failed stays done. *)
Definition run_events (es : list event) (s : host * World * Daemon) : host * World * Daemon :=
  foldl (fun s e => (sys_event e s).2) s es.

Lemma on_mount_xstep {A} mp (c : FIO A) : keeps xstep c -> keeps xstep (on_mount mp c).
Proof.
  intros Hc [hw d]. unfold on_mount. simpl. destruct (mounts d !! mp) as [m|]; [|by intros H].
  specialize (Hc (hw, served_fs m)). destruct (c (hw, served_fs m)) as [r [hw' f]]. apply Hc.
Qed.

Lemma answer_xstep {A} (c : DIO A) f : keeps xstep c -> keeps xstep (answer c f).
Proof. intros Hc. unfold answer. xstep_auto. Qed.
Lemma set_mount_same mp b w : same_world w (set_mount_branch mp b w).
Proof. apply with_mounts_same. Qed.
Lemma register_same b mp n w : same_world w (register_notifier b mp n w).
Proof. apply with_mounts_same. Qed.
Hint Resolve set_mount_same register_same : keeps.
Lemma get_daemon_xstep : keeps xstep get_daemon.
Proof. apply keeps_gets, _. Qed.
Hint Resolve get_daemon_xstep : keeps.
Lemma spawn_xstep b mp p c a : keeps xstep (spawn_mount b mp p c a).
Proof. unfold spawn_mount. xstep_auto. Qed.
Lemma unmount_xstep mp : keeps xstep (unmount mp).
Proof. unfold unmount. xstep_auto. Qed.
Lemma cleanup_xstep : keeps xstep cleanup_all_mounts.
Proof. unfold cleanup_all_mounts. xstep_auto. Qed.
Hint Resolve spawn_xstep unmount_xstep cleanup_xstep : keeps.
Lemma branch_status_sstep n : keeps sstep (branch_status n).
Proof. unfold branch_status. sstep_auto. Qed.
Hint Resolve branch_status_sstep : keeps.

Lemma request_xstep r : keeps xstep (handle_request r).
Proof.
  destruct r; simpl; unfold mount_request, list_request, daemon_create_branch; xstep_auto;
    apply answer_xstep; xstep_auto.
Qed.

Lemma sys_event_xstep e : keeps xstep (sys_event e).
Proof.
  destruct e; simpl; xstep_auto; first [apply request_xstep|apply on_mount_xstep].
  - apply (handle_keeps _ True). by destruct o.
  - apply (run_job_keeps _ True).
Qed.

Lemma run_events_ok es s : world_ok s.1.2 -> world_ok (run_events es s).1.2.
Proof.
  revert s; induction es as [|e es IH]; intros s Hs; [done|]. simpl. apply IH. by apply sys_event_xstep.
Qed.
End System.

(** *** The daemon's table of mounts *)

(** Every session serves the path it is filed under, under a number of its own. *)
Record mounts_ok (d : Daemon) : Prop := {
  mo_path : forall mp m, mounts d !! mp = Some m -> mountpoint (served_fs m) = mp;
  mo_session : forall mp m, mounts d !! mp = Some m -> session m < sessions d;
  mo_unique : forall mp mp' m m', mounts d !! mp = Some m -> mounts d !! mp' = Some m' ->
    session m = session m' -> mp = mp';
}.
Definition mstep (s s' : host * World * Daemon) : Prop :=
  mounts_ok s.2 -> mounts_ok s'.2 /\ sessions s.2 <= sessions s'.2.
#[export] Instance mstep_preorder : PreOrder mstep.
Proof.
  split; [by intros s Hs|]. intros a b c Hab Hbc Ha. destruct (Hab Ha) as [Hb ?]. destruct (Hbc Hb). split; [done|lia].
Qed.

Lemma mounts_ok_sub d d' :
  mounts d' ⊆ mounts d -> sessions d <= sessions d' -> mounts_ok d -> mounts_ok d'.
Proof.
  intros Hsub Hs [H1 H2 H3]. split; eauto using lookup_weaken.
  intros mp m H. pose proof (H2 mp m (lookup_weaken _ _ _ _ H Hsub)). lia.
Qed.

Section Table.
Context {E : Env} {J : Serde} {K : Kernel} {F : Sessions}.

Lemma mgr_mstep {A} (c : MIO A) : keeps mstep (mgr c).
Proof. intros [hw d] Hs. unfold mgr, zoom. simpl. by destruct (c hw). Qed.
Lemma upd_daemon_mstep g :
  (forall d, mounts (g d) ⊆ mounts d /\ sessions (g d) = sessions d) -> keeps mstep (upd_daemon g).
Proof.
  intros Hg s Hs. destruct (Hg s.2) as [H1 H2]. simpl. split; [|lia]. eapply mounts_ok_sub; [done|lia|done].
Qed.

Lemma insert_session_ok mp d fs :
  mounts_ok d -> mountpoint fs = mp ->
  mounts_ok (with_daemon_mounts (<[mp := {| session := sessions d; served_fs := fs |}]> (mounts d)) (with_session d)).
Proof.
  intros [H1 H2 H3] Hm. split; simpl; intros *; rewrite !lookup_insert_Some.
  - intros [[<- <-]|[_ H]]; [done|eauto].
  - intros [[<- <-]|[_ H]]; simpl; [lia|]. specialize (H2 _ _ H). lia.
  - intros [[<- <-]|[Hne H]] [[<- <-]|[Hne' H']] Heq; simpl in *; eauto.
    + specialize (H2 _ _ H'). lia.
    + specialize (H2 _ _ H). lia.
Qed.

Lemma spawn_mstep b mp p c a : keeps mstep (spawn_mount b mp p c a).
Proof.
  intros [[h w] d] Hd. unfold spawn_mount, upd_world, upd_daemon, get_world, get_daemon, mgr, on_mem, zoom.
  unfold_m. simpl. destruct (negb _); [done|]. simpl.
  destruct (spawn_mount2 (sessions d) mp (mount_options a)); simpl; (split; [|lia]).
  - eapply mounts_ok_sub; [| |done]; [done|simpl; lia].
  - by apply insert_session_ok.
Qed.

Lemma on_mount_mstep {A} mp (c : FIO A) : keeps same_mount c -> keeps mstep (on_mount mp c).
Proof.
  intros Hc [hw d] [H1 H2 H3]. unfold on_mount. simpl. destruct (mounts d !! mp) as [m|] eqn:Hm; [|done].
  specialize (Hc (hw, served_fs m)). destruct (c (hw, served_fs m)) as [r [hw' f]].
  destruct Hc as [Hmp _ _]. simpl in *. split; [|lia].
  split; simpl; intros *; rewrite !lookup_insert_Some.
  - intros [[<- <-]|[_ H]]; simpl; [rewrite Hmp|]; eauto.
  - intros [[<- <-]|[_ H]]; simpl; eauto.
  - intros [[<- <-]|[_ Ha]] [[<- <-]|[_ Hb]] Heq; simpl in *; eauto.
Qed.

Ltac mstep_auto :=
  repeat (cbn beta iota;
    lazymatch goal with
    | |- keeps mstep (mgr _) => apply mgr_mstep
    | |- keeps mstep (hostio _) => apply mgr_mstep
    | |- keeps mstep (upd_world _) => apply mgr_mstep
    | |- keeps mstep (upd_daemon _) =>
        apply upd_daemon_mstep; intros ?; split; [simpl; first [reflexivity|apply delete_subseteq]|reflexivity]
    | |- keeps mstep get_world => apply keeps_gets; apply _
    | |- keeps mstep get_daemon => apply keeps_gets; apply _
    | |- keeps mstep (answer _ _) => unfold answer
    | |- keeps mstep (spawn_mount _ _ _ _ _) => apply spawn_mstep
    | |- _ => keeps_step
    end).

Lemma unmount_mstep mp : keeps mstep (unmount mp).
Proof.
  intros [[h w] d] Hd. unfold unmount, upd_world, upd_daemon, get_daemon, mgr, on_mem, zoom, when.
  unfold_m. simpl. destruct (mounts d !! mp); [|done]. simpl.
  assert (mounts_ok (with_daemon_mounts (delete mp (mounts d)) d)) as Hok.
  { eapply mounts_ok_sub; [| |done]; [apply delete_subseteq|done]. }
  destruct (bool_decide _); simpl; (split; [|lia]); [|done]. by eapply mounts_ok_sub; [..|exact Hok].
Qed.

Lemma forget_mount_mstep mp :
  keeps mstep (let* d := get_daemon in
    match mounts d !! mp with
    | None => ret tt
    | Some _ =>
        do* upd_daemon (with_daemon_mounts (delete mp (mounts d)));
        upd_world (unregister_mount mp)
    end).
Proof.
  intros [[h w] d] Hd. unfold get_daemon, upd_daemon, upd_world, mgr, on_mem, zoom. unfold_m. simpl.
  destruct (mounts d !! mp); [|done]. simpl. split; [|lia].
  eapply mounts_ok_sub; [| |done]; [apply delete_subseteq|done].
Qed.

Lemma cleanup_mstep : keeps mstep cleanup_all_mounts.
Proof.
  unfold cleanup_all_mounts. apply (keeps_bind mstep); [mstep_auto|]. intros d.
  apply (keeps_for_each mstep). intros mp _. apply forget_mount_mstep.
Qed.

Lemma request_mstep r : keeps mstep (handle_request r).
Proof.
  destruct r; simpl; unfold mount_request, list_request, daemon_create_branch; mstep_auto;
    first [apply unmount_mstep|apply cleanup_mstep].
Qed.

Lemma sys_event_mstep e : keeps mstep (sys_event e).
Proof.
  destruct e; simpl; mstep_auto; [apply request_mstep| |]; apply on_mount_mstep.
  - apply (handle_keeps _ True). by destruct o.
  - apply (run_job_keeps _ True).
Qed.

Lemma run_events_mounts es s : mounts_ok s.2 -> mounts_ok (run_events es s).2.
Proof.
  revert s; induction es as [|e es IH]; intros s Hs; [done|]. simpl. apply IH. by apply sys_event_mstep.
Qed.
End Table.

Section Theorems.
Context {E : Env} {J : Serde} {K : Kernel} {F : Sessions}.

(** C1: whatever the system does - requests of clients, callbacks of any mount,
    jobs of the worker, in any interleaving, whether they succeed or fail - the
    manager's invariant survives, every lookup in any branch still ends, and the
    daemon's table stays in order: each session serves the path it is filed
    under and no two sessions share a number. *)
Theorem system_invariant es h w d :
  world_ok w -> mounts_ok d ->
  let s := run_events es (h, w, d) in
  world_ok s.1.2 /\ mounts_ok s.2
  /\ forall n p, path_ok p -> exists x, resolve_path n (show p) s.1 = (x, s.1) /\ x <> Err OutOfFuel.
Proof.
  intros Hw Hd s. assert (world_ok s.1.2) as Hok by by apply run_events_ok.
  split; [done|]. split; [by apply run_events_mounts|]. intros n p Hp. by apply lookup_ends.
Qed.

(** What a mount does on its own: callbacks and jobs, in any order. *)
Definition mount_event (e : FuseOp + Job) : FIO unit :=
  match e with
  | inl o => let* _ := handle o in ret tt
  | inr j => let* _ := run_job j in ret tt
  end.
Definition run_mount (es : list (FuseOp + Job)) (s : Mounted) : Mounted :=
  foldl (fun s e => (mount_event e s).2) s es.

Definition no_control_ioctl (e : FuseOp + Job) : Prop :=
  match e with inl (OpIoctl i _) => i <> CTL_INO | _ => True end.

Lemma mount_event_agent e : no_control_ioctl e -> keeps agent_step (mount_event e).
Proof.
  intros He. assert (PreOrder agent_step) as Hp by apply cl_pre.
  destruct e as [o|j]; simpl in *; (apply (keeps_bind agent_step); [|intros _; by apply keeps_ret]).
  - apply (handle_keeps _ False). by destruct o.
  - apply (run_job_keeps _ False).
Qed.

(** C20: a mount without control files - an agent's mount - runs no control
    command: through any sequence of callbacks and jobs no branch is created,
    committed, aborted, frozen or thawed, the mount keeps showing the branch it
    showed, no other mount is moved, the epoch stands still and it never gets a
    control file.  (The one call the code does not guard is the control ioctl on
    the number of the root control file, which such a mount never hands out.) *)
Theorem agent_mount_runs_no_control es s :
  agent s -> Forall no_control_ioctl es ->
  let s' := run_mount es s in
  quiet_world s.1.2 s'.1.2 /\ agent s' /\ branch_of_mount s'.1.2 s'.2 = branch_of_mount s.1.2 s.2
  /\ forall n, is_branch_valid n s'.1.2 = is_branch_valid n s.1.2
               /\ is_branch_writable n s'.1.2 = is_branch_writable n s.1.2.
Proof.
  intros Hs Hes s'. assert (agent_step s s') as Hstep.
  { subst s'. assert (PreOrder agent_step) as Hp by apply cl_pre. clear Hs.
    revert s. induction Hes as [|e es He _ IH]; intros s; simpl; [reflexivity|].
    etransitivity; [apply (mount_event_agent e He)|apply IH]. }
  destruct (Hstep Hs) as (Hq & Hf & Ha). split; [done|]. split; [done|]. split.
  - unfold branch_of_mount, get_mount_branch. by rewrite (fq_mountpoint _ _ Hf), (qw_mounts _ _ Hq).
  - intros n. split; [by apply quiet_valid|by apply quiet_writable].
Qed.
End Theorems.

(** ** A daemon over the example store *)

#[local] Existing Instances example_env example_serde example_kernel example_sessions.

Definition example_daemon : Daemon :=
  {| mounts := ∅; socket_path := ["store"; "daemon.sock"]; shutdown := false; sessions := 0 |}.
Definition example_events : list event :=
  [EvRequest (ReqMount "fix" "/base/m" false true false); EvCallback ["base"; "m"] (OpLookup ROOT_INO "b");
   EvJob ["base"; "m"] (JDelete "fix" "/b" "/b" None); EvRequest (ReqCommitBranch "fix")].

Lemma system_invariant_witness :
  let s := run_events example_events (example_host, example_world, example_daemon) in
  world_ok s.1.2 /\ mounts_ok s.2
  /\ forall n p, path_ok p -> exists x, resolve_path n (show p) s.1 = (x, s.1) /\ x <> Err OutOfFuel.
Proof.
  apply (system_invariant example_events example_host example_world example_daemon).
  - apply example_world_ok.
  - split; simpl; intros *; by rewrite lookup_empty.
Defined.

(** The example store with one mount, of the branch "fix". *)
Definition example_mount (control : bool) : Mounted :=
  let w := set_mount_branch ["mnt"] "fix" example_world in
  (example_host, w, fs_new w ["mnt"] false control).

Lemma agent_mount_runs_no_control_witness :
  let s := example_mount false in
  let s' := run_mount [inl (OpWrite CTL_INO 0 (bytes_of "commit") 1); inl (OpMkdir ROOT_INO "d" 493 0);
                       inr (JDelete "fix" "/b" "/b" None)] s in
  quiet_world s.1.2 s'.1.2 /\ agent s' /\ branch_of_mount s'.1.2 s'.2 = "fix".
Proof.
  intros s s'.
  destruct (agent_mount_runs_no_control
    [inl (OpWrite CTL_INO 0 (bytes_of "commit") 1); inl (OpMkdir ROOT_INO "d" 493 0);
     inr (JDelete "fix" "/b" "/b" None)] s) as (H1 & H2 & H3 & _).
  - by split.
  - by repeat constructor.
  - split; [exact H1|]. split; [exact H2|]. etransitivity; [exact H3|reflexivity].
Defined.
