(* ===== verification/FuseFacts.v ===== *)
(** * Places in a mount, and how the small steps of a callback run

    A [place] is what an inode path stands for: a path below the root of the
    mount, shown by the branch the mount is on, or a path below "@branch".  The
    rest of the file computes the helpers of Mount.v and Ctl.v on a given state. *)

From S2P Require Import Prelude Strs Inode HostFs Handles Quota TextMerge Branch View Manager Commit.
From S2P Require Import Frame Isolation WorldInv ManagerSpec Platform Mount Ctl Fuse.

Open Scope bool_scope.

(** ** Places *)

Inductive place := AtRoot (q : path) | InBranch (b : string) (q : path).

Definition place_path (pl : place) : string :=
  match pl with AtRoot q => show q | InBranch b q => "/@" +:+ b +:+ show_rel q end.
Definition place_rel (pl : place) : path := match pl with AtRoot q | InBranch _ q => q end.
Definition place_branch (w : World) (f : BranchFs) (pl : place) : string :=
  match pl with AtRoot _ => branch_of_mount w f | InBranch b _ => b end.
Definition child_place (pl : place) (n : string) : place :=
  match pl with AtRoot q => AtRoot (q ++ [n]) | InBranch b q => InBranch b (q ++ [n]) end.

(** No name at the root starts with "@", and the control file of a branch is
    not a place. *)
Definition place_ok (pl : place) : Prop :=
  match pl with
  | AtRoot q => path_ok q /\ match q with c :: _ => starts_with "@" c = false | [] => True end
  | InBranch b q => contains_char slash b = false /\ path_ok q /\ q <> [CTL_FILE]
  end.

Lemma strip_at_root c s : starts_with "@" c = false -> strip_prefix "/@" ("/" +:+ c +:+ s) = None \/ c = "".
Proof.
  intros Hc. destruct c as [|a c]; [by right|]. left. simpl.
  case_bool_decide as Ha; [|done]. exfalso. subst a.
  assert (starts_with "@" (String "@" c) = true) as Hs; [|congruence].
  apply starts_with_spec. by exists c.
Qed.

Lemma classify_root q : place_ok (AtRoot q) -> classify_path (show q) = RootPath (show q).
Proof.
  intros [Hq Hat]. unfold classify_path. destruct q as [|c q]; [done|].
  case_bool_decide as Hs; [by rewrite Hs|]. cbn [show show_rel].
  apply path_ok_cons in Hq as [Hc _].
  destruct (strip_at_root c (show_rel q) Hat) as [->|Hn]; [done|]. by apply name_ok_nonempty in Hc.
Qed.

Lemma strip_branch b s : strip_prefix "/@" ("/@" +:+ b +:+ s) = Some (b +:+ s).
Proof. by apply strip_prefix_Some. Qed.

Lemma classify_branch_dir b : contains_char slash b = false -> classify_path ("/@" +:+ b) = BranchDir b.
Proof.
  intros Hb. unfold classify_path. case_bool_decide as Hs; [done|].
  assert (strip_prefix "/@" ("/@" +:+ b) = Some b) as -> by by apply strip_prefix_Some.
  by rewrite cut_at_lacks.
Qed.

Lemma show_rel_ctl q : path_ok q -> show_rel q = "/" +:+ CTL_FILE -> q = [CTL_FILE].
Proof. intros Hq H. apply show_rel_inj; [done|by repeat constructor|]. rewrite H. by vm_compute. Qed.

Lemma classify_branch_path b c q :
  place_ok (InBranch b (c :: q)) ->
  classify_path ("/@" +:+ b +:+ show_rel (c :: q)) = BranchPath b (show_rel (c :: q)).
Proof.
  intros (Hb & Hq & Hne). unfold classify_path. case_bool_decide as Hs; [done|].
  rewrite strip_branch. cbn [show_rel]. change ("/" +:+ c +:+ show_rel q) with (String slash (c +:+ show_rel q)).
  rewrite cut_at_app by done. case_bool_decide as Hc; [|done].
  exfalso. apply Hne, show_rel_ctl; [done|]. exact Hc.
Qed.

Lemma branch_ctx_place pl :
  place_ok pl ->
  branch_ctx (place_path pl) = match pl with AtRoot _ => None | InBranch b q => Some (b, show q) end.
Proof.
  intros Hpl. unfold branch_ctx. destruct pl as [q|b [|c q]]; cbn [place_path show_rel].
  - by rewrite classify_root.
  - rewrite app_nil_r_str, classify_branch_dir by apply Hpl. done.
  - pose proof (classify_branch_path b c q Hpl) as Hc. cbn [show_rel] in Hc. by rewrite Hc.
Qed.

(** What a place is classified as when it is below its top. *)
Lemma classify_child pl n :
  place_ok (child_place pl n) ->
  classify_path (place_path (child_place pl n)) =
    match pl with AtRoot q => RootPath (show (q ++ [n])) | InBranch b q => BranchPath b (show (q ++ [n])) end.
Proof.
  intros Hpl. destruct pl as [q|b q]; cbn [child_place place_path] in *; [by apply classify_root|].
  destruct (q ++ [n]) as [|c r] eqn:Hq; [by destruct q|]. by apply classify_branch_path.
Qed.

Lemma child_rel_path q n : path_ok q -> name_ok n = true -> child_rel (show q) n = show (q ++ [n]).
Proof. intros Hq Hn. rewrite child_rel_show by done. by destruct q. Qed.

Lemma child_inode pl n :
  path_ok (place_rel pl) -> name_ok n = true ->
  place_path (child_place pl n) =
    match pl with
    | AtRoot q => child_rel (show q) n
    | InBranch b q => branch_inode b (child_rel (show q) n)
    end.
Proof.
  intros Hp Hn. destruct pl as [q|b q]; simpl in *; rewrite child_rel_path by done; [done|].
  unfold branch_inode. by destruct q.
Qed.

(** ** Running the helpers *)

(** The state of a mount after the staleness test. *)
Definition synced (s : Mounted) : Mounted := (s.1, with_epoch (epoch s.1.2) s.2).

Lemma with_epoch_same f : with_epoch (current_epoch f) f = f.
Proof. by destruct f. Qed.

Lemma synced_synced s : synced (synced s) = synced s.
Proof. done. Qed.

Section Run.
Context {E : Env} {J : Serde} {K : Kernel}.

Lemma mgr_eq {A} (c : MIO A) hw (f : BranchFs) : mgr c (hw, f) = ((c hw).1, ((c hw).2, f)).
Proof. unfold mgr, zoom. simpl. by destruct (c hw). Qed.

Lemma is_stale_eq (s : Mounted) :
  is_stale s = (Ok (negb (is_branch_valid (branch_of_mount s.1.2 s.2) s.1.2)), synced s).
Proof.
  destruct s as [[h w] f]. unfold is_stale, get_branch_name, get_world, get_fs, branch_valid, upd_fs, synced, when.
  unfold_m. simpl. case_bool_decide as He; simpl; [|done]. by rewrite He, with_epoch_same.
Qed.

(** [resolve_path] reads only. *)
Lemma resolve_path_state n p s : (resolve_path n p s).2 = s.
Proof.
  assert (keeps eq (resolve_path n p)) as Hk.
  { unfold resolve_path, view. apply keeps_bind; [apply _|apply keeps_gets, _|]. intros w [h w'].
    unfold on_host, zoom. cbn [fst snd].
    pose proof (resolve_keeps (eq : relation host) (base_path w) (branches w) (chain_fuel (branches w)) n p h) as Hr.
    destruct (resolve_path_locked _ _ _ _ _ _) as [r h']. simpl in Hr. by subst. }
  by rewrite <- (Hk s).
Qed.

Lemma resolve_for_branch_eq n p (s : Mounted) o :
  resolve_path n p s.1 = (Ok o, s.1) -> resolve_for_branch n p s = (Ok o, s).
Proof.
  destruct s as [hw f]. simpl. intros H. unfold resolve_for_branch, attempt, bind. by rewrite mgr_eq, H.
Qed.

Lemma resolve_for_branch_state n p (s s' : Mounted) o :
  resolve_for_branch n p s = (Ok o, s') ->
  s' = s /\ (o = None \/ resolve_path n p s.1 = (Ok o, s.1)).
Proof.
  destruct s as [hw f]. unfold resolve_for_branch, attempt, bind, ret. rewrite mgr_eq. simpl.
  pose proof (resolve_path_state n p hw) as Hs. destruct (resolve_path n p hw) as [r hw']. simpl in *. subst.
  destruct r as [o'|[e| |]]; intros; simplify_eq; auto.
Qed.

Lemma resolve_eq p (s : Mounted) : resolve p s = resolve_for_branch (branch_of_mount s.1.2 s.2) p s.
Proof. done. Qed.

Lemma make_attr_eq i p (s : Mounted) :
  make_attr i p s = (Ok (attr_of_node i <$> h_tree s.1.1 !! p), s).
Proof.
  destruct s as [[h w] f]. unfold make_attr, hostio, attempt, bind, ret. rewrite mgr_eq.
  unfold on_host, zoom, symlink_metadata, get_tree, gets, bind, io_error, throw, raise, ret. simpl.
  by destruct (h_tree h !! p).
Qed.

Lemma is_dir_entry_eq p (s : Mounted) :
  is_dir_entry p s = (Ok (match h_tree s.1.1 !! p with Some n => is_dir n | None => false end), s).
Proof.
  destruct s as [[h w] f]. unfold is_dir_entry, hostio, attempt, bind, ret. rewrite mgr_eq.
  unfold on_host, zoom, symlink_metadata, get_tree, gets, bind, io_error, throw, raise, ret. simpl.
  by destruct (h_tree h !! p).
Qed.

Lemma write_denied_eq b (s : Mounted) :
  write_denied_error b s = (Ok (if is_branch_writable b s.1.2 then None else Some EROFS), s).
Proof. done. Qed.

Lemma branch_for_ctl_eq i (s : Mounted) : branch_for_ctl_ino i s = (Ok (ctl_branch i (branch_ctl_inodes s.2)), s).
Proof. done. Qed.
End Run.

(** ** The numbers of a mount *)

(** The inode table is in order and below the numbers of the control files. *)
Record numbers_ok (f : BranchFs) : Prop := {
  no_table : inode_ok (inodes f);
  no_below : (next_ino (inodes f) < FIRST_CTL_INO)%Z;
  no_ctl : forall b i, branch_ctl_inodes f !! b = Some i -> (FIRST_CTL_INO <= i < CTL_INO)%Z;
  no_inj : forall b b' i, branch_ctl_inodes f !! b = Some i -> branch_ctl_inodes f !! b' = Some i -> b = b';
}.

Lemma ctl_branch_Some i m b : ctl_branch i m = Some b -> m !! b = Some i.
Proof.
  unfold ctl_branch. destruct (List.filter _ _) as [|[b' j] l] eqn:Hl; [done|]. simpl. intros [= ->].
  assert (In (b, j) ((b, j) :: l)) as Hin by by left. rewrite <- Hl in Hin.
  apply filter_In in Hin as [Hin Hj]. apply bool_decide_eq_true in Hj. simpl in Hj. subst.
  by apply elem_of_map_to_list, list_elem_of_In.
Qed.

Lemma ctl_branch_of i m b :
  m !! b = Some i -> (forall b', m !! b' = Some i -> b' = b) -> ctl_branch i m = Some b.
Proof.
  intros Hb Hu. destruct (ctl_branch i m) as [b'|] eqn:Hc.
  - apply ctl_branch_Some in Hc. f_equal. auto.
  - exfalso. unfold ctl_branch in Hc.
    destruct (List.filter _ _) as [|x l] eqn:Hl; [|done].
    assert (In (b, i) []) as []. rewrite <- Hl. apply filter_In. split.
    + by apply list_elem_of_In, elem_of_map_to_list.
    + by apply bool_decide_eq_true.
Qed.

Section Numbers.
Context (f : BranchFs) (Hf : numbers_ok f).

(** A number of the table is neither a control file's nor a branch control file's. *)
Lemma table_number i p : get_path i (inodes f) = Some p -> (1 <= i < FIRST_CTL_INO)%Z.
Proof.
  intros H. unfold get_path in H. apply fmap_Some in H as (x & Hx & _).
  pose proof (ok_fresh _ (no_table _ Hf) _ _ Hx). pose proof (no_below _ Hf). lia.
Qed.
Lemma table_not_ctl i p : get_path i (inodes f) = Some p -> i <> CTL_INO.
Proof. intros H%table_number. unfold FIRST_CTL_INO, CTL_INO in *. lia. Qed.
Lemma table_not_branch_ctl i p : get_path i (inodes f) = Some p -> ctl_branch i (branch_ctl_inodes f) = None.
Proof.
  intros H%table_number. destruct (ctl_branch i _) as [b|] eqn:Hc; [|done].
  apply ctl_branch_Some, (no_ctl _ Hf) in Hc. lia.
Qed.
End Numbers.

(** What [new_inode] does to a mount in order. *)
Lemma new_inode_eq p d (s : Mounted) :
  new_inode p d s = (Ok (get_or_create p d (inodes s.2)).1, (s.1, with_inodes (get_or_create p d (inodes s.2)).2 s.2)).
Proof. unfold new_inode. by destruct (get_or_create p d (inodes s.2)). Qed.

Lemma get_or_create_path p d m :
  inode_ok m -> (next_ino m < u64_max)%Z -> get_path (get_or_create p d m).1 (get_or_create p d m).2 = Some p.
Proof.
  intros Hok Hn. pose proof (get_or_create_ok p d m Hok Hn) as Hok'.
  assert (path_to_ino (get_or_create p d m).2 !! p = Some (get_or_create p d m).1) as Hp.
  { unfold get_or_create. destruct (path_to_ino m !! p) eqn:He; simpl; [done|]. by rewrite lookup_insert_eq. }
  apply (ok_bij _ Hok') in Hp as [d' Hd]. unfold get_path. by rewrite Hd.
Qed.
