(* ===== verification/FuseSpec.v ===== *)
(** * What the callbacks promise

    Theorems about single callbacks: lookups and attributes agree, a directory
    is listed exactly once over its pages, a frozen branch is not changed, a
    directory named "@b" opens the branch b. *)

From S2P Require Import Prelude Strs Inode HostFs Handles Quota TextMerge Branch Codec View Manager Commit.
From S2P Require Import Frame Isolation WorldInv ManagerSpec Quiet Platform Mount Ctl Fuse FuseWalk FuseFacts FuseInv.

Open Scope bool_scope.

Section Attributes.
Context {E : Env} {J : Serde} {K : Kernel}.

Lemma run_bind {S A B} (c : M S A) (k : A -> M S B) s a s1 : c s = (Ok a, s1) -> bind c k s = k a s1.
Proof. apply bind_step. Qed.

(** A lookup that found the host entry [q]. *)
Lemma lookup_resolved_spec ip q (s s' : Mounted) a :
  lookup_resolved ip q s = (Ok (Now (REntry a)), s') ->
  exists n, h_tree s.1.1 !! q = Some n
    /\ a = attr_of_node (get_or_create ip (is_dir n) (inodes s.2)).1 n
    /\ s' = (s.1, with_inodes (get_or_create ip (is_dir n) (inodes s.2)).2 s.2).
Proof.
  unfold lookup_resolved. rewrite (run_bind _ _ _ _ _ (is_dir_entry_eq q s)).
  rewrite (run_bind _ _ _ _ _ (new_inode_eq ip _ s)). unfold reply_entry.
  rewrite (run_bind _ _ _ _ _ (make_attr_eq _ q _)). cbn [fst].
  destruct (h_tree s.1.1 !! q) as [n|]; cbn [fmap option_fmap option_map]; intros H; [|done].
  exists n. unfold reply, ret in H. by simplify_eq.
Qed.

(** The numbers stay in order when an inode is made. *)
Lemma new_number_ok ip d f :
  numbers_ok f -> (next_ino (inodes f) + 1 < FIRST_CTL_INO)%Z ->
  numbers_ok (with_inodes (get_or_create ip d (inodes f)).2 f)
  /\ get_path (get_or_create ip d (inodes f)).1 (get_or_create ip d (inodes f)).2 = Some ip.
Proof.
  intros [H1 H2 H3 H4] Hn. assert (next_ino (inodes f) < u64_max)%Z as Hmax by (unfold FIRST_CTL_INO, u64_max in *; lia).
  split; [|by apply get_or_create_path]. split; simpl; [by apply get_or_create_ok| |done|done].
  unfold get_or_create. destruct (path_to_ino (inodes f) !! ip); simpl; [done|].
  pose proof (ok_next _ H1). rewrite wrap_u64_small; unfold FIRST_CTL_INO, u64_max in *; lia.
Qed.

(** [getattr] of a number of the table comes down to its path. *)
Lemma getattr_table i p (s : Mounted) :
  numbers_ok s.2 -> get_path i (inodes s.2) = Some p ->
  fuse_getattr i s = getattr_path i (classify_path p) s.
Proof.
  intros Hf Hp. unfold fuse_getattr. rewrite bool_decide_false by by eapply table_not_ctl.
  rewrite (run_bind _ _ _ _ _ (branch_for_ctl_eq i s)), (table_not_branch_ctl _ Hf _ _ Hp).
  unfold inode_path. rewrite (run_bind _ _ s (Some p) s); [done|]. unfold gets. by rewrite Hp.
Qed.

Lemma reply_attr_node i q n (s : Mounted) :
  h_tree s.1.1 !! q = Some n -> reply_attr i q s = (Ok (Now (RAttr (attr_of_node i n))), s).
Proof.
  intros Hq. unfold reply_attr. rewrite (run_bind _ _ _ _ _ (make_attr_eq i q s)). by rewrite Hq.
Qed.

(** A lookup in the branch the mount shows. *)
Lemma lookup_current_spec p (s s' : Mounted) a :
  lookup_current p s = (Ok (Now (REntry a)), s') ->
  exists q, is_branch_valid (branch_of_mount s.1.2 s.2) s.1.2 = true
    /\ resolve_path (branch_of_mount s.1.2 s.2) p s.1 = (Ok (Some q), s.1)
    /\ lookup_resolved p q (synced s) = (Ok (Now (REntry a)), s').
Proof.
  unfold lookup_current. rewrite (run_bind _ _ _ _ _ (is_stale_eq s)).
  destruct (is_branch_valid _ _); cbn [negb]; [|done]. intros H. apply bind_ok in H as (o & s1 & Ho & H).
  rewrite resolve_eq in Ho. apply resolve_for_branch_state in Ho as [-> Ho].
  destruct o as [q|]; [|done]. destruct Ho as [|Ho]; [done|]. by exists q.
Qed.

Lemma getattr_root_path i q p n (s : Mounted) :
  is_branch_valid (branch_of_mount s.1.2 s.2) s.1.2 = true ->
  resolve_path (branch_of_mount s.1.2 s.2) p s.1 = (Ok (Some q), s.1) ->
  h_tree s.1.1 !! q = Some n -> current_epoch s.2 = epoch s.1.2 ->
  getattr_path i (RootPath p) s = (Ok (Now (RAttr (attr_of_node i n))), s).
Proof.
  intros Hv Hr Hq He. unfold getattr_path.
  rewrite (run_bind _ _ s false s).
  - rewrite (run_bind _ _ s (Some q) s); [by apply reply_attr_node|].
    rewrite resolve_eq. by apply resolve_for_branch_eq.
  - case_bool_decide; [done|]. rewrite is_stale_eq, Hv. unfold synced. rewrite <- He, with_epoch_same. by destruct s.
Qed.

Lemma numbers_synced z f : numbers_ok f -> numbers_ok (with_epoch z f).
Proof. intros []. by split. Qed.

Lemma root_entry_getattr q n (s s' : Mounted) a :
  place_ok (AtRoot (q ++ [n])) -> numbers_ok s.2 -> (next_ino (inodes s.2) + 1 < FIRST_CTL_INO)%Z ->
  lookup_current (show (q ++ [n])) s = (Ok (Now (REntry a)), s') ->
  fuse_getattr (a_ino a) s' = (Ok (Now (RAttr a)), s').
Proof.
  intros Hpl Hf Hnext (p & Hv & Hr & H)%lookup_current_spec.
  apply lookup_resolved_spec in H as (x & Hx & -> & ->).
  destruct (new_number_ok (show (q ++ [n])) (is_dir x) (synced s).2) as [Hok Hpath];
    [by apply numbers_synced|done|].
  erewrite getattr_table; [|exact Hok|exact Hpath]. rewrite classify_root by done.
  by apply (getattr_root_path _ p _ _ (_, _)).
Qed.

Lemma getattr_branch_path i b p q n (s : Mounted) :
  is_branch_valid b s.1.2 = true -> resolve_path b p s.1 = (Ok (Some q), s.1) -> h_tree s.1.1 !! q = Some n ->
  getattr_path i (BranchPath b p) s = (Ok (Now (RAttr (attr_of_node i n))), s).
Proof.
  intros Hv Hr Hq. unfold getattr_path. rewrite (run_bind _ _ s true s) by (unfold branch_valid, gets; by rewrite Hv).
  rewrite (run_bind _ _ s (Some q) s); [by apply reply_attr_node|]. by apply resolve_for_branch_eq.
Qed.

(** A lookup below "@b". *)
Lemma lookup_in_branch_spec b rel n (s s' : Mounted) a :
  ~ (rel = "/" /\ n = CTL_FILE) ->
  lookup_in_branch b rel n s = (Ok (Now (REntry a)), s') ->
  exists q, is_branch_valid b s.1.2 = true
    /\ resolve_path b (child_rel rel n) s.1 = (Ok (Some q), s.1)
    /\ lookup_resolved (branch_inode b (child_rel rel n)) q s = (Ok (Now (REntry a)), s').
Proof.
  intros Hn H. unfold lookup_in_branch, get_fs in H. rewrite (run_bind _ _ s s.2 s) in H by done.
  rewrite <- andb_assoc, (proj2 (andb_false_iff (expose_control s.2) _)) in H.
  2:{ right. apply andb_false_iff. destruct (decide (rel = "/")) as [->|?]; [right|left]; apply bool_decide_eq_false; [|done].
      intros ->. by apply Hn. }
  destruct (starts_with "@" n); [done|]. unfold branch_valid in H.
  rewrite (run_bind _ _ s (is_branch_valid b s.1.2) s) in H by done.
  destruct (is_branch_valid b s.1.2); [|done]. apply bind_ok in H as (o & s1 & Ho & H).
  apply resolve_for_branch_state in Ho as [-> Ho]. destruct o as [q|]; [|done]. destruct Ho as [|Ho]; [done|].
  by exists q.
Qed.

Lemma branch_entry_getattr b q n (s s' : Mounted) a :
  place_ok (InBranch b (q ++ [n])) -> path_ok q -> name_ok n = true ->
  numbers_ok s.2 -> (next_ino (inodes s.2) + 1 < FIRST_CTL_INO)%Z ->
  lookup_in_branch b (show q) n s = (Ok (Now (REntry a)), s') ->
  fuse_getattr (a_ino a) s' = (Ok (Now (RAttr a)), s').
Proof.
  intros Hpl Hq Hn Hf Hnext H. apply lookup_in_branch_spec in H as (p & Hv & Hr & H).
  2:{ intros [Hs ->]. destruct q as [|c q]; [by destruct Hpl as (_ & _ & Hne)|].
      apply path_ok_cons in Hq as [Hc _]. apply name_ok_nonempty in Hc. destruct c as [|x c]; [done|].
      by destruct c. }
  apply lookup_resolved_spec in H as (x & Hx & -> & ->).
  destruct (new_number_ok (branch_inode b (child_rel (show q) n)) (is_dir x) s.2 Hf Hnext) as [Hok Hpath].
  erewrite getattr_table; [|exact Hok|exact Hpath].
  rewrite child_rel_path in * by done.
  assert (classify_path (branch_inode b (show (q ++ [n]))) = BranchPath b (show (q ++ [n]))) as ->.
  { pose proof (classify_child (InBranch b q) n Hpl) as Hc. cbn [child_place place_path] in Hc.
    unfold branch_inode. by destruct q. }
  by apply (getattr_branch_path _ b _ p _ (_, _)).
Qed.

Lemma root_ctl_getattr (s : Mounted) :
  expose_control s.2 = true ->
  fuse_getattr CTL_INO s = (Ok (Now (RAttr (ctl_file_attr CTL_INO s.2))), s).
Proof.
  intros He. unfold fuse_getattr. rewrite bool_decide_true by done. unfold root_ctl_attr, get_fs.
  rewrite (run_bind _ _ s s.2 s) by done. by rewrite He.
Qed.

(** C19: what a lookup answers and what [getattr] says of the number it handed
    out are the same attributes: the same entry of the branch, of the same kind,
    size, mode and owner.  For every name but "@branch" directories and the
    control file of a branch, in any directory of the mount. *)
Theorem getattr_agrees_with_lookup parent pl n s a s' :
  get_path parent (inodes s.2) = Some (place_path pl) -> place_ok pl -> place_ok (child_place pl n) ->
  name_ok n = true -> numbers_ok s.2 -> (next_ino (inodes s.2) + 1 < FIRST_CTL_INO)%Z ->
  fuse_lookup parent n s = (Ok (Now (REntry a)), s') ->
  fuse_getattr (a_ino a) s' = (Ok (Now (RAttr a)), s').
Proof.
  intros Hp Hpl Hch Hn Hf Hnext H. unfold fuse_lookup, inode_path in H.
  rewrite (run_bind _ _ s (Some (place_path pl)) s) in H by (unfold gets; by rewrite Hp).
  destruct pl as [[|c q]|b q].
  - cbn [place_path show] in H. rewrite bool_decide_true in H by done.
    unfold lookup_in_root, get_fs in H. rewrite (run_bind _ _ s s.2 s) in H by done.
    destruct (expose_control s.2 && bool_decide (n = CTL_FILE)) eqn:Hc.
    { apply andb_true_iff in Hc as [Hc _]. unfold reply, ret in H. simplify_eq. by apply root_ctl_getattr. }
    assert ((if expose_control s.2 then strip_prefix "@" n else None) = None) as Hs.
    { destruct (expose_control s.2); [|done]. destruct Hch as [_ Hat]. cbn in Hat.
      unfold starts_with in Hat. apply bool_decide_eq_false in Hat. by apply eq_None_not_Some. }
    rewrite Hs in H. apply (root_entry_getattr [] n s s' a); [done..|].
    cbn [app show show_rel]. by rewrite app_nil_r_str.
  - rewrite bool_decide_false in H.
    2:{ intros Hs. destruct Hpl as [[Hc _]%path_ok_cons _]. apply name_ok_nonempty in Hc.
        destruct c as [|x c]; [done|]. by destruct c. }
    rewrite branch_ctx_place in H by done. apply (root_entry_getattr (c :: q) n s s' a); [done..|].
    rewrite <- child_rel_path by (try done; apply Hpl). rewrite child_rel_show by (try done; apply Hpl).
    rewrite show_rel_app. cbn [place_path show show_rel] in *. by rewrite app_nil_r_str.
  - rewrite bool_decide_false in H by done. rewrite branch_ctx_place in H by done.
    by apply (branch_entry_getattr b q n s s' a); try apply Hpl.
Qed.
End Attributes.

(** The error of a copy-up never carries an error number. *)
Lemma ensure_cow_loses_errno {E : Env} {J : Serde} b rel (s s' : Mounted) e :
  ensure_cow_for_branch b rel s = (Ok (Err e), s') -> e = None.
Proof.
  unfold ensure_cow_for_branch. intros (r & s1 & _ & H)%bind_ok. unfold ret in H. destruct r; by simplify_eq.
Qed.

(** ** Listings come in pages *)

Section Pages.
Variable full : list DirEntry -> DirEntry -> bool.
(** An empty reply has room for an entry. *)
Hypothesis full_empty : forall e, full [] e = false.

(** The entries with the offsets after them. *)
Fixpoint numbered (i : Z) (l : list DirEntry) : list DirEntry :=
  match l with
  | [] => []
  | e :: l' => {| de_ino := de_ino e; de_off := (i + 1)%Z; de_kind := de_kind e; de_name := de_name e |}
               :: numbered (i + 1) l'
  end.

(** A reader that asks again from the last offset it got, until a page is empty. *)
Fixpoint read_pages (turns : nat) (entries : list DirEntry) (offset : Z) : list DirEntry :=
  match turns with
  | O => []
  | S k =>
      let p := page_list full entries offset in
      match last p with
      | None => []
      | Some e => p ++ read_pages k entries (de_off e)
      end
  end.

Lemma page_from_app i l out :
  exists k, page_from full i l out = out ++ numbered i (take k l) /\ (k <= length l)%nat.
Proof.
  revert i out. induction l as [|e l IH]; intros i out; simpl; [exists 0; by rewrite app_nil_r|].
  destruct (full out _); [exists 0; rewrite app_nil_r; split; [done|lia]|].
  destruct (IH (i + 1)%Z (out ++ [{| de_ino := de_ino e; de_off := i + 1; de_kind := de_kind e; de_name := de_name e |}]))
    as (k & -> & Hk). exists (S k). rewrite <- app_assoc. split; [done|lia].
Qed.

Lemma page_from_some i e l : exists k, page_from full i (e :: l) [] = numbered i (take (S k) (e :: l)) /\ (k <= length l)%nat.
Proof.
  simpl. rewrite full_empty. simpl. destruct (page_from_app (i + 1) l
    [{| de_ino := de_ino e; de_off := i + 1; de_kind := de_kind e; de_name := de_name e |}]) as (k & -> & Hk).
  by exists k.
Qed.

Lemma numbered_length i l : length (numbered i l) = length l.
Proof. revert i. induction l as [|e l IH]; intros i; simpl; [done|]. by rewrite IH. Qed.

Lemma numbered_take i k l : numbered i l = numbered i (take k l) ++ numbered (i + Z.of_nat (length (take k l))) (drop k l).
Proof.
  revert i l. induction k as [|k IH]; intros i [|e l]; simpl; try done.
  - by rewrite Z.add_0_r.
  - rewrite (IH (i + 1)%Z l). do 3 f_equal. lia.
Qed.

Lemma numbered_last i l e : last (numbered i l) = Some e -> de_off e = (i + Z.of_nat (length l))%Z.
Proof.
  revert i. induction l as [|x l IH]; intros i; simpl; [done|]. destruct l as [|y l].
  - simpl. intros [= <-]. simpl. lia.
  - intros H. specialize (IH (i + 1)%Z). simpl in *. rewrite IH by exact H. lia.
Qed.

Lemma numbered_some_last i e l : is_Some (last (numbered i (e :: l))).
Proof. apply last_is_Some. done. Qed.

Lemma read_pages_from turns entries k :
  (k <= length entries)%nat -> (length entries - k < turns)%nat ->
  read_pages turns entries (Z.of_nat k) = numbered (Z.of_nat k) (drop k entries).
Proof.
  revert k. induction turns as [|turns IH]; intros k Hk Ht; [lia|]. simpl. unfold page_list.
  rewrite (proj2 (Z.ltb_ge _ _)) by lia. rewrite Nat2Z.id.
  destruct (drop k entries) as [|e l] eqn:Hd; [done|].
  destruct (page_from_some (Z.of_nat k) e l) as (j & Hp & Hj). rewrite Hp.
  destruct (numbered_some_last (Z.of_nat k) e (take j l)) as [x Hx].
  assert (take (S j) (e :: l) = e :: take j l) as He by done. rewrite He, Hx.
  apply numbered_last in Hx. rewrite Hx.
  assert (length (e :: l) = length entries - k)%nat as Hlen by by rewrite <- Hd, length_drop.
  assert (length (e :: take j l) = S j) as Hl by (simpl; rewrite length_take; lia). rewrite Hl.
  replace (Z.of_nat k + Z.of_nat (S j))%Z with (Z.of_nat (k + S j)) by lia.
  simpl in Hlen. rewrite IH by lia.
  rewrite (numbered_take (Z.of_nat k) (S j) (e :: l)), He, Hl. f_equal.
  replace (Z.of_nat (k + S j)) with (Z.of_nat k + Z.of_nat (S j))%Z by lia. f_equal.
  by rewrite <- Hd, drop_drop.
Qed.

(** C27: a directory read page by page - each request starting at the offset of
    the last entry received - is read to its end and gives every entry exactly
    once, in order, however many entries a reply takes as long as it takes one. *)
Theorem readdir_pages_list_once entries :
  read_pages (S (length entries)) entries 0 = numbered 0 entries.
Proof. rewrite (read_pages_from _ entries 0) by lia. by rewrite drop_0. Qed.
End Pages.

Lemma readdir_pages_list_once_witness :
  let l := dot_entries 1 ++ [ctl_entry CTL_INO] in
  read_pages (fun out _ => 2 <=? length out) 4 l 0 = numbered 0 l.
Proof.
  intros l. apply (readdir_pages_list_once (fun out _ => 2 <=? length out) (fun e => eq_refl) l).
Defined.

(** ** A frozen branch *)

Section Frozen.
Context {E : Env} {J : Serde} {K : Kernel}.

(** The callbacks that would change the entry or directory at a place. *)
Inductive mutation (s : Mounted) (pl : place) : FuseOp -> Prop :=
  | mu_write i offset data flags :
      get_path i (inodes s.2) = Some (place_path pl) -> mutation s pl (OpWrite i offset data flags)
  | mu_setattr i a :
      get_path i (inodes s.2) = Some (place_path pl) ->
      bool_decide (is_Some (sa_size a)) || wants_attributes a = true -> mutation s pl (OpSetattr i a)
  | mu_create i n mode umask :
      get_path i (inodes s.2) = Some (place_path pl) -> mutation s pl (OpCreate i n mode umask)
  | mu_mkdir i n mode umask :
      get_path i (inodes s.2) = Some (place_path pl) -> mutation s pl (OpMkdir i n mode umask)
  | mu_symlink i n target :
      get_path i (inodes s.2) = Some (place_path pl) -> mutation s pl (OpSymlink i n target)
  | mu_unlink i n : get_path i (inodes s.2) = Some (place_path pl) -> mutation s pl (OpUnlink i n)
  | mu_rmdir i n : get_path i (inodes s.2) = Some (place_path pl) -> mutation s pl (OpRmdir i n)
  | mu_rename i n i' n' flags :
      get_path i (inodes s.2) = Some (place_path pl) -> mutation s pl (OpRename i n i' n' flags).

Definition frozen (b : string) (w : World) : Prop := exists br, branches w !! b = Some br /\ state br = Frozen.

Lemma frozen_not_writable b w : frozen b w -> is_branch_writable b w = false.
Proof. intros (br & Hb & Hs). unfold is_branch_writable, is_writable. by rewrite Hb, Hs. Qed.
Lemma frozen_valid b w : frozen b w -> is_branch_valid b w = true.
Proof. intros (br & Hb & _). unfold is_branch_valid. by rewrite Hb. Qed.

(** What is answered, and that host and manager are as before. *)
Definition refused (s : Mounted) (o : res exn Outcome * Mounted) : Prop :=
  exists r, o.1 = Ok r /\ o.2.1 = s.1
    /\ match r with
       | Now r => exists e, r = RError e
       | Later j => forall s', frozen (match j with JDelete b _ _ _ | JRmdir b _ _ _ | JWrite b _ _ _ => b end) s'.1.2 ->
                    exists e, run_job j s' = (Ok (RError e), s')
       end.

Lemma refused_fail e s s0 : s.1 = s0.1 -> refused s0 (fail e s).
Proof. intros Hs. exists (Now (RError e)). split; [done|]. split; [done|]. by exists e. Qed.

Lemma ensure_cow_frozen b rel (s : Mounted) :
  frozen b s.1.2 -> ensure_cow_for_branch b rel s = (Ok (Err None), s).
Proof.
  intros (br & Hb & Hs). destruct s as [[h w] f]. unfold ensure_cow_for_branch, attempt, bind, ret.
  rewrite mgr_eq. unfold ensure_delta_path_for_write. by rewrite (writable_frozen b _ h w br).
Qed.

Lemma write_job_frozen b rel o d (s : Mounted) :
  frozen b s.1.2 -> exists e, run_job (JWrite b rel o d) s = (Ok (RError e), s).
Proof.
  intros (br & Hb & Hs). destruct s as [[h w] f]. unfold run_job, attempt, bind, ret. rewrite mgr_eq.
  unfold write_data_to_branch. destruct (o <? 0)%Z; [by eexists|]. destruct (u64_max <? _)%Z; [by eexists|].
  rewrite (writable_frozen b _ h w br) by done. by eexists.
Qed.

Lemma frozen_error_now {A} b (c : MIO unit) (k : res BranchError unit -> FIO A) (s : Mounted) :
  c s.1 = (Err (Throw (frozen_error b)), s.1) ->
  bind (attempt (mgr c)) k s = k (Err (frozen_error b)) s.
Proof. destruct s as [hw f]. simpl. intros H. unfold bind, attempt. by rewrite mgr_eq, H. Qed.

Lemma delete_result_frozen b p st (s : Mounted) :
  frozen b s.1.2 ->
  exists e, reply_from_delete_result b p st (Err (frozen_error b)) s = (Ok (RError e), s).
Proof.
  intros Hb. unfold reply_from_delete_result, branch_valid. rewrite (run_bind _ _ s true s).
  - destruct st as [e|]; simpl; by eexists.
  - unfold gets. by rewrite frozen_valid.
Qed.

(** A job that was waiting when its branch was frozen. *)
Lemma job_frozen j (s : Mounted) :
  frozen (match j with JDelete b _ _ _ | JRmdir b _ _ _ | JWrite b _ _ _ => b end) s.1.2 ->
  exists e, run_job j s = (Ok (RError e), s).
Proof.
  destruct j as [b rel p st|b rel p st|b rel o d]; intros Hb; [| |by apply write_job_frozen];
    pose proof Hb as (br & Hbr & Hst); destruct s as [[h w] f]; unfold run_job;
    (rewrite (frozen_error_now b); [by apply delete_result_frozen|]).
  - unfold delete_path_in_branch. by apply (writable_frozen b _ h w br).
  - unfold rmdir_path_in_branch. by apply (writable_frozen b _ h w br).
Qed.

Lemma refused_write_later b rel o d (s s0 : Mounted) :
  s.1 = s0.1 -> refused s0 (ret (Later (JWrite b rel o d)) s).
Proof. intros Hs. exists (Later (JWrite b rel o d)). split; [done|]. split; [done|]. intros s' H. by apply job_frozen. Qed.

Lemma refused_bind {A} (c : FIO A) k (s s0 : Mounted) a s1 :
  c s = (Ok a, s1) -> refused s0 (k a s1) -> refused s0 (bind c k s).
Proof. intros Hc. by rewrite (run_bind _ _ _ _ _ Hc). Qed.

Lemma denied_frozen b (s : Mounted) : frozen b s.1.2 -> write_denied_error b s = (Ok (Some EROFS), s).
Proof. intros Hb. rewrite write_denied_eq. by rewrite frozen_not_writable. Qed.

Lemma valid_frozen b (s : Mounted) : frozen b s.1.2 -> branch_valid b s = (Ok true, s).
Proof. intros Hb. unfold branch_valid, gets. by rewrite frozen_valid. Qed.

Lemma resolve_total b p (s : Mounted) :
  world_ok s.1.2 -> path_ok p -> is_branch_valid b s.1.2 = true -> exists o, resolve_for_branch b (show p) s = (Ok o, s).
Proof.
  intros Hw Hp Hb. destruct s as [[h w] f]. unfold is_branch_valid in Hb. apply bool_decide_eq_true in Hb.
  destruct (resolve_path_ok b p h w) as (l & r & _ & Heq); [done|done|exact Hb|].
  eexists. by apply resolve_for_branch_eq.
Qed.

Lemma file_len_total p (s : Mounted) : exists o, file_len p s = (Ok o, s).
Proof.
  destruct s as [[h w] f]. unfold file_len. destruct p as [p|]; [|by eexists].
  unfold hostio, attempt. unfold bind at 1. rewrite mgr_eq.
  unfold on_host, zoom, metadata, real_path, symlink_metadata, get_tree, gets, bind, ret, io_error, throw, raise.
  simpl. destruct (follow max_links (h_tree h) p) as [[q ?]|e]; simpl; [|by eexists].
  destruct (h_tree h !! q); by eexists.
Qed.

Lemma append_len_total b p fl (s : Mounted) :
  world_ok s.1.2 -> path_ok p -> is_branch_valid b s.1.2 = true -> exists o, append_len b (show p) fl s = (Ok o, s).
Proof.
  intros Hw Hp Hb. unfold append_len. destruct (flag_set fl O_APPEND); [|by eexists].
  destruct (resolve_total b p s Hw Hp Hb) as [o Ho]. rewrite (run_bind _ _ _ _ _ Ho). apply file_len_total.
Qed.

Lemma has_delta_total b rel (s : Mounted) :
  exists d, mgr (branch_has_delta b rel) s = (Ok d, s).
Proof.
  destruct s as [[h w] f]. rewrite mgr_eq. unfold branch_has_delta, gets, bind. cbn [fst snd].
  destruct (branches w !! b) as [br|]; [|by eexists].
  unfold on_host, zoom, has_delta, symlink_metadata, get_tree, gets, bind, attempt, ret, io_error, throw, raise.
  simpl. destruct (h_tree h !! delta_path br rel); by eexists.
Qed.

Lemma write_path_frozen i e b q root fl o d (s s0 : Mounted) :
  frozen b s.1.2 -> world_ok s.1.2 -> path_ok q -> s.1 = s0.1 ->
  refused s0 (write_path i e b (show q) root fl o d s).
Proof.
  intros Hb Hw Hq Hs. unfold write_path.
  destruct (append_len_total b q fl s Hw Hq (frozen_valid _ _ Hb)) as [v Hv]. apply (refused_bind _ _ _ _ _ _ Hv).
  destruct (effective_write_offset fl o v); [|by apply refused_fail].
  destruct (has_delta_total b (show q) s) as [d' Hd]. apply (refused_bind _ _ _ _ _ _ Hd).
  destruct d'; cbn [negb]; [|by apply refused_write_later].
  apply (refused_bind _ _ _ _ _ _ (ensure_cow_frozen b (show q) s Hb)). by apply refused_fail.
Qed.

Lemma place_class pl :
  place_ok pl ->
  classify_path (place_path pl) =
    match pl with
    | AtRoot q => RootPath (show q)
    | InBranch b [] => BranchDir b
    | InBranch b q => BranchPath b (show q)
    end.
Proof.
  intros Hpl. destruct pl as [q|b [|c q]]; cbn [place_path]; [by apply classify_root| |by apply classify_branch_path].
  cbn [show_rel]. rewrite app_nil_r_str. apply classify_branch_dir, Hpl.
Qed.

(** The mount's own state does not matter for the places of the branch. *)
Lemma write_slow_frozen i e fl o d pl (s s0 : Mounted) :
  get_path i (inodes s.2) = Some (place_path pl) -> place_ok pl ->
  frozen (place_branch s.1.2 s.2 pl) s.1.2 -> world_ok s.1.2 -> s.1 = s0.1 ->
  refused s0 (write_slow i e fl o d s).
Proof.
  intros Hi Hpl Hb Hw Hs. unfold write_slow.
  apply (refused_bind _ _ _ _ (Some (place_path pl)) s); [unfold inode_path, gets; by rewrite Hi|].
  cbv beta iota. rewrite (place_class pl Hpl). destruct pl as [q|b [|c q]]; cbn [place_path place_branch] in *.
  - apply (refused_bind _ _ _ _ (branch_of_mount s.1.2 s.2) s); [done|].
    apply write_path_frozen; [done|done|apply Hpl|done].
  - by apply refused_fail.
  - apply (refused_bind _ _ _ _ _ _ (denied_frozen b s Hb)). by apply refused_fail.
Qed.

Lemma setattr_denied_frozen b a (s : Mounted) :
  frozen b s.1.2 -> bool_decide (is_Some (sa_size a)) || wants_attributes a = true ->
  setattr_denied b a s = (Ok (Some EROFS), s).
Proof. intros Hb Ha. unfold setattr_denied. rewrite Ha. by apply denied_frozen. Qed.

Lemma make_entry_frozen i n d mk undo ans pl (s : Mounted) :
  get_path i (inodes s.2) = Some (place_path pl) -> place_ok pl ->
  frozen (place_branch s.1.2 s.2 pl) s.1.2 -> refused s (make_entry i n d mk undo ans s).
Proof.
  intros Hi Hpl Hb. unfold make_entry.
  apply (refused_bind _ _ _ _ (Some (place_path pl)) s); [unfold inode_path, gets; by rewrite Hi|].
  cbv beta iota. rewrite branch_ctx_place by done. destruct pl as [q|b q]; cbn [place_branch] in Hb.
  - rewrite (place_class (AtRoot q) Hpl). unfold make_at_root.
    apply (refused_bind _ _ _ _ (branch_of_mount s.1.2 s.2) s); [done|].
    apply (refused_bind _ _ _ _ _ _ (denied_frozen _ s Hb)). by apply refused_fail.
  - unfold make_in_branch. apply (refused_bind _ _ _ _ _ _ (valid_frozen b s Hb)).
    apply (refused_bind _ _ _ _ _ _ (denied_frozen _ s Hb)). by apply refused_fail.
Qed.

Lemma remove_async_frozen i n j pl (s : Mounted) :
  get_path i (inodes s.2) = Some (place_path pl) -> place_ok pl ->
  frozen (place_branch s.1.2 s.2 pl) s.1.2 -> refused s (remove_entry_async i n j s).
Proof.
  intros Hi Hpl Hb. unfold remove_entry_async.
  apply (refused_bind _ _ _ _ (Some (place_path pl)) s); [unfold inode_path, gets; by rewrite Hi|].
  cbv beta iota. rewrite branch_ctx_place by done. destruct pl as [q|b q]; cbn [place_branch] in Hb.
  - rewrite (place_class (AtRoot q) Hpl).
    apply (refused_bind _ _ _ _ (branch_of_mount s.1.2 s.2) s); [done|].
    apply (refused_bind _ _ _ _ _ _ (denied_frozen _ s Hb)). by apply refused_fail.
  - destruct (starts_with "@" n || bool_decide (n = CTL_FILE)); [by apply refused_fail|].
    apply (refused_bind _ _ _ _ _ _ (valid_frozen b s Hb)).
    apply (refused_bind _ _ _ _ _ _ (denied_frozen _ s Hb)). by apply refused_fail.
Qed.

Lemma rename_frozen i n i' n' fl pl (s : Mounted) :
  get_path i (inodes s.2) = Some (place_path pl) -> place_ok pl ->
  frozen (place_branch s.1.2 s.2 pl) s.1.2 -> refused s (fuse_rename i n i' n' fl s).
Proof.
  intros Hi Hpl Hb. unfold fuse_rename. destruct (check_rename_flags fl); [|by apply refused_fail].
  apply (refused_bind _ _ _ _ (Some (place_path pl)) s); [unfold inode_path, gets; by rewrite Hi|].
  apply (refused_bind _ _ _ _ (get_path i' (inodes s.2)) s); [done|]. cbv beta iota.
  destruct (get_path i' (inodes s.2)) as [np|]; [|by apply refused_fail].
  unfold rename_parent at 1. rewrite (place_class pl Hpl).
  destruct pl as [q|b [|c q]]; cbn [place_branch] in Hb; cbv beta iota zeta;
    destruct (rename_parent np) as [[[[nb nr] npre] nroot]|]; try (by apply refused_fail);
    match goal with |- context [if ?x then fail EXDEV else _] => destruct x end; try (by apply refused_fail).
  - apply (refused_bind _ _ _ _ (branch_of_mount s.1.2 s.2) s); [done|].
    apply (refused_bind _ _ _ _ true s); [done|]. unfold rename_in_branch.
    apply (refused_bind _ _ _ _ _ _ (denied_frozen _ s Hb)). by apply refused_fail.
  - apply (refused_bind _ _ _ _ b s); [done|].
    apply (refused_bind _ _ _ _ _ _ (valid_frozen b s Hb)). unfold rename_in_branch.
    apply (refused_bind _ _ _ _ _ _ (denied_frozen _ s Hb)). by apply refused_fail.
  - apply (refused_bind _ _ _ _ b s); [done|].
    apply (refused_bind _ _ _ _ _ _ (valid_frozen b s Hb)). unfold rename_in_branch.
    apply (refused_bind _ _ _ _ _ _ (denied_frozen _ s Hb)). by apply refused_fail.
Qed.

Lemma setattr_frozen i a pl (s : Mounted) :
  get_path i (inodes s.2) = Some (place_path pl) -> place_ok pl -> numbers_ok s.2 ->
  frozen (place_branch s.1.2 s.2 pl) s.1.2 -> bool_decide (is_Some (sa_size a)) || wants_attributes a = true ->
  refused s (fuse_setattr i a s).
Proof.
  intros Hi Hpl Hf Hb Ha. unfold fuse_setattr.
  set (g := fun f => with_caches (invalidate_ino i (open_cache f)) (invalidate_ino i (write_cache f)) f).
  assert (exists s1, when (bool_decide (is_Some (sa_size a))) (upd_fs g) s = (Ok tt, s1)
    /\ s1.1 = s.1 /\ inodes s1.2 = inodes s.2 /\ branch_ctl_inodes s1.2 = branch_ctl_inodes s.2
    /\ place_branch s1.1.2 s1.2 pl = place_branch s.1.2 s.2 pl) as (s1 & Hs1 & H1 & H2 & H3 & H4).
  { destruct (bool_decide _); [by exists (s.1, g s.2)|by exists s]. }
  apply (refused_bind _ _ _ _ _ _ Hs1). rewrite bool_decide_false by by eapply table_not_ctl.
  apply (refused_bind _ _ _ _ None s1).
  { by rewrite branch_for_ctl_eq, H3, (table_not_branch_ctl _ Hf _ _ Hi). }
  apply (refused_bind _ _ _ _ (Some (place_path pl)) s1); [unfold inode_path, gets; by rewrite H2, Hi|].
  rewrite <- H4, <- H1 in Hb. cbv beta iota. rewrite (place_class pl Hpl).
  destruct pl as [q|b [|c q]]; cbn [place_path place_branch] in *.
  - apply (refused_bind _ _ _ _ (branch_of_mount s1.1.2 s1.2) s1); [done|].
    apply (refused_bind _ _ _ _ _ _ (setattr_denied_frozen _ a s1 Hb Ha)). by apply refused_fail.
  - by apply refused_fail.
  - apply (refused_bind _ _ _ _ _ _ (setattr_denied_frozen _ a s1 Hb Ha)). by apply refused_fail.
Qed.

Lemma write_frozen i o d fl pl (s : Mounted) :
  get_path i (inodes s.2) = Some (place_path pl) -> place_ok pl -> numbers_ok s.2 -> world_ok s.1.2 ->
  frozen (place_branch s.1.2 s.2 pl) s.1.2 -> c_epoch (write_cache s.2) <> epoch s.1.2 ->
  refused s (fuse_write i o d fl s).
Proof.
  intros Hi Hpl Hf Hw Hb Hc. unfold fuse_write.
  set (s1 := (s.1, with_caches (invalidate_ino i (open_cache s.2)) (write_cache s.2) s.2) : Mounted).
  apply (refused_bind _ _ _ _ tt s1); [done|]. apply (refused_bind _ _ _ _ s1.2 s1); [done|].
  rewrite bool_decide_false by by eapply table_not_ctl.
  apply (refused_bind _ _ _ _ None s1).
  { rewrite branch_for_ctl_eq. change (branch_ctl_inodes s1.2) with (branch_ctl_inodes s.2).
    by rewrite (table_not_branch_ctl _ Hf _ _ Hi). }
  cbv beta iota. apply (refused_bind _ _ _ _ _ _ (is_stale_eq s1)).
  destruct (negb _); [by apply refused_fail|]. destruct (o <? 0)%Z; [by apply refused_fail|].
  apply (refused_bind _ _ _ _ (synced s1).2 (synced s1)); [done|]. cbv beta.
  rewrite cache_get_other_epoch by done. by apply (write_slow_frozen _ _ _ _ _ pl).
Qed.

(** C14: once a branch is frozen no callback changes it: a write - through the
    root of the mount or through "@branch", buffered handle or not -, truncation,
    change of attributes, create, mkdir, symlink, unlink, rmdir and rename all
    answer an error and leave host and manager exactly as they were, and a job
    that was already waiting for the worker is refused as well.  The cached
    write handle of the mount is not used, since freezing moved the epoch on. *)
Theorem frozen_branch_refuses_callbacks pl o s :
  mutation s pl o -> place_ok pl -> numbers_ok s.2 -> world_ok s.1.2 ->
  frozen (place_branch s.1.2 s.2 pl) s.1.2 -> c_epoch (write_cache s.2) <> epoch s.1.2 ->
  refused s (handle o s).
Proof.
  intros Ho Hpl Hf Hw Hb Hc. destruct Ho; cbn [handle].
  - by apply (write_frozen _ _ _ _ pl).
  - by apply (setattr_frozen _ _ pl).
  - by apply (make_entry_frozen _ _ _ _ _ _ pl).
  - by apply (make_entry_frozen _ _ _ _ _ _ pl).
  - by apply (make_entry_frozen _ _ _ _ _ _ pl).
  - by apply (remove_async_frozen _ _ _ pl).
  - by apply (remove_async_frozen _ _ _ pl).
  - by apply (rename_frozen _ _ _ _ _ pl).
Qed.
End Frozen.

(** The mount of the example, its branch frozen at epoch 1 after a write at epoch 0. *)
#[local] Existing Instances example_env example_serde example_kernel.

Definition frozen_mount : Mounted :=
  let '(h, w, f) := (example_mount true) in
  let f := with_inodes (get_or_create "/c" false (inodes f)).2 f in
  let f := with_caches (open_cache f)
    {| c_ino := 2; c_epoch := 0; c_file := Some {| f_path := ["store"; "branches"; "fix"; "files"; "c"]; f_id := 0 |} |} f in
  (h, bump_epoch (with_branches (<["fix" := with_state Frozen example_fix]> (branches w)) w), f).

Lemma frozen_mount_ok : world_ok frozen_mount.1.2 /\ numbers_ok frozen_mount.2.
Proof.
  split.
  - assert (same_world example_world frozen_mount.1.2) as Hs; [|by apply (same_world_ok _ _ Hs), example_world_ok].
    split; [|done|done]. intros n. change (branches frozen_mount.1.2) with
      (<["fix" := with_state Frozen example_fix]> (branches example_world)).
    destruct (decide (n = "fix")) as [->|Hn]; [|by rewrite lookup_insert_ne].
    rewrite lookup_insert_eq. change (branches example_world !! "fix") with (Some example_fix). by split.
  - split.
    + apply get_or_create_ok; [apply inode_new_ok|done].
    + done.
    + intros b i H. change (branch_ctl_inodes frozen_mount.2) with (∅ : gmap string Z) in H. by rewrite lookup_empty in H.
    + intros b b' i H. change (branch_ctl_inodes frozen_mount.2) with (∅ : gmap string Z) in H. by rewrite lookup_empty in H.
Qed.

Lemma frozen_branch_refuses_callbacks_witness :
  refused frozen_mount (handle (OpWrite 2 0 (bytes_of "x") 1) frozen_mount).
Proof.
  apply (frozen_branch_refuses_callbacks (AtRoot ["c"])).
  - apply mu_write. by vm_compute.
  - by repeat constructor.
  - apply frozen_mount_ok.
  - apply frozen_mount_ok.
  - eexists. split; [by vm_compute|done].
  - done.
Defined.

Lemma example_numbers_ok c : numbers_ok (example_mount c).2.
Proof.
  split; [apply inode_new_ok|done| |].
  - intros b i Hb. change (branch_ctl_inodes (example_mount c).2) with (∅ : gmap string Z) in Hb. by rewrite lookup_empty in Hb.
  - intros b b' i Hb. change (branch_ctl_inodes (example_mount c).2) with (∅ : gmap string Z) in Hb. by rewrite lookup_empty in Hb.
Qed.

Lemma example_lookup_b :
  (fuse_lookup ROOT_INO "b" (example_mount true)).1 = Ok (Now (REntry (attr_of_node 2 (example_file "B")))).
Proof. by vm_compute. Qed.

Lemma getattr_agrees_with_lookup_witness :
  let s' := (fuse_lookup ROOT_INO "b" (example_mount true)).2 in
  fuse_getattr 2 s' = (Ok (Now (RAttr (attr_of_node 2 (example_file "B")))), s').
Proof.
  intros s'.
  apply (getattr_agrees_with_lookup ROOT_INO (AtRoot []) "b" (example_mount true) (attr_of_node 2 (example_file "B")) s').
  - by vm_compute.
  - by repeat constructor.
  - by repeat constructor.
  - by vm_compute.
  - apply example_numbers_ok.
  - by vm_compute.
  - apply run_ok, example_lookup_b.
Defined.
