(* ===== verification/FuseIO.v ===== *)
(** * Reading and writing through a mount

    What the data callbacks do on a file the branch shows: a read returns its
    bytes, through the cached handle as through a fresh one; a write, and an
    append at whatever offset the kernel passes, becomes the write of the
    manager.  And what mkdir of a name "@b" at the root of a mount opens. *)

From S2P Require Import Prelude Strs Inode HostFs Handles Quota TextMerge Branch Codec View Manager Commit.
From S2P Require Import Frame Isolation WorldInv ManagerSpec EditSpec WriteSpec Quiet Platform Mount Ctl Fuse FuseFacts FuseSpec.
From S2P Require Import FuseInv.

Open Scope bool_scope.

Section IO.
Context {E : Env} {J : Serde} {K : Kernel}.

(** *** Reads *)

(** Running the host calls behind a handle. *)
Lemma hostio_eq {A} (c : IO A) (s : Mounted) : hostio c s = ((c s.1.1).1, ((c s.1.1).2, s.1.2, s.2)).
Proof. destruct s as [[h w] f]. unfold hostio. rewrite mgr_eq. unfold on_host, zoom. simpl. by destruct (c h). Qed.

Lemma real_path_file h q n : h_tree h !! q = Some n -> is_symlink n = false -> real_path q h = (Ok q, h).
Proof.
  intros Hq Hn. unfold real_path, get_tree, gets, bind, ret. unfold follow.
  assert (follow max_links (h_tree h) q = Ok (q, max_links)) as Hf.
  { unfold max_links, follow. rewrite Hq. unfold is_symlink in Hn. by destruct n as [[]]. }
  unfold follow in Hf. by rewrite Hf.
Qed.

Definition handle_on (q : path) (n : node) : File := {| f_path := q; f_id := s_id (n_stamp n) |}.

Lemma symlink_metadata_eq h q n : h_tree h !! q = Some n -> symlink_metadata q h = (Ok n, h).
Proof. intros Hq. unfold symlink_metadata, get_tree, gets, bind, ret. by rewrite Hq. Qed.

Lemma file_open_eq h q n c :
  h_tree h !! q = Some n -> n_kind n = KFile c -> file_open q h = (Ok (handle_on q n), h).
Proof.
  intros Hq Hk. unfold file_open. rewrite (bind_step _ _ h q h).
  - rewrite (bind_step _ _ h n h) by by apply symlink_metadata_eq. rewrite Hk. unfold handle_of.
    by rewrite (bind_step _ _ h n h) by by apply symlink_metadata_eq.
  - apply (real_path_file h q n Hq). unfold is_symlink. by rewrite Hk.
Qed.

Lemma file_read_eq h q n c off size :
  h_tree h !! q = Some n -> n_kind n = KFile c -> (0 <= off < 2 ^ 63)%Z ->
  file_read (handle_on q n) off size h = (Ok (take (Z.to_nat size) (drop (Z.to_nat off) c)), h).
Proof.
  intros Hq Hk Ho. unfold file_read, seekable. rewrite bool_decide_true by lia. cbn [negb].
  rewrite (bind_step _ _ h n h).
  - by rewrite Hk.
  - unfold file_metadata. by rewrite (file_node_intact h q n (handle_on q n) Hq eq_refl).
Qed.

Lemma read_handle_eq (s : Mounted) q n c off size :
  h_tree s.1.1 !! q = Some n -> n_kind n = KFile c -> (0 <= off < 2 ^ 63)%Z ->
  read_handle (handle_on q n) off size false s
  = (Ok (Now (RData (take (Z.to_nat size) (drop (Z.to_nat off) c)))), s).
Proof.
  intros Hq Hk Ho. unfold read_handle. rewrite wrap_u64_small by lia.
  rewrite (bind_step _ _ s (Ok (take (Z.to_nat size) (drop (Z.to_nat off) c))) s); [done|].
  unfold attempt. rewrite hostio_eq, (file_read_eq _ q n c) by done. by destruct s as [[h w] f].
Qed.

Lemma shown_node n p h w c :
  shown n p (h, w) = Some (KFile c) ->
  exists q x, resolve_path n (show p) (h, w) = (Ok (Some q), (h, w)) /\ h_tree h !! q = Some x /\ n_kind x = KFile c.
Proof.
  unfold shown, look. pose proof (resolve_path_state n (show p) (h, w)) as Hs.
  destruct (resolve_path n (show p) (h, w)) as [[[q|]|] s']; simpl in *; try done. subst.
  intros (x & Hx & Hk)%fmap_Some. by exists q, x.
Qed.

(** A mount one can read on: its branch exists and its epoch is the manager's. *)
Definition mount_live (s : Mounted) : Prop := is_branch_valid (branch_of_mount s.1.2 s.2) s.1.2 = true.

Lemma stale_live s : mount_live s -> is_stale s = (Ok false, synced s).
Proof. intros H. by rewrite is_stale_eq, H. Qed.

Lemma read_opening_eq i e q n c off size r (s : Mounted) :
  h_tree s.1.1 !! q = Some n -> n_kind n = KFile c -> (0 <= off < 2 ^ 63)%Z ->
  mount_live s -> e = epoch s.1.2 ->
  exists s', read_opening i e q off size r s
      = (Ok (Now (RData (take (Z.to_nat size) (drop (Z.to_nat off) c)))), s')
    /\ s'.1 = s.1 /\ inodes s'.2 = inodes s.2 /\ mount_live s'
    /\ cache_get i e (open_cache s'.2) = Some (handle_on q n).
Proof.
  intros Hq Hk Ho Hl He. unfold read_opening.
  rewrite (run_bind _ _ s (Ok (handle_on q n)) s).
  2:{ unfold attempt. rewrite hostio_eq, (file_open_eq _ q n c) by done. by destruct s as [[h w] f]. }
  set (s1 := (s.1, with_caches (cache_insert i e (handle_on q n) (open_cache s.2)) (write_cache s.2) s.2) : Mounted).
  rewrite (run_bind _ _ s tt s1) by done. rewrite (run_bind _ _ s1 s1.2 s1) by done.
  cbv beta. assert (cache_get i e (open_cache s1.2) = Some (handle_on q n)) as -> by apply cache_get_insert.
  unfold read_handle. rewrite wrap_u64_small by lia.
  rewrite (run_bind _ _ s1 (Ok (take (Z.to_nat size) (drop (Z.to_nat off) c))) s1).
  2:{ unfold attempt. rewrite hostio_eq. change s1.1.1 with s.1.1. rewrite (file_read_eq _ q n c) by done.
      by destruct s as [[h w] f]. }
  cbv beta iota. destruct r.
  - rewrite (run_bind _ _ _ _ _ (stale_live s1 Hl)). exists (synced s1). do 4 (split; [done|]). apply cache_get_insert.
  - rewrite (run_bind _ _ s1 false s1) by done. exists s1. do 4 (split; [done|]). apply cache_get_insert.
Qed.

Lemma read_slow_eq i pl c off size (s : Mounted) :
  get_path i (inodes s.2) = Some (place_path pl) -> place_ok pl -> place_rel pl <> [] -> numbers_ok s.2 ->
  i <> ROOT_INO -> mount_live s -> is_branch_valid (place_branch s.1.2 s.2 pl) s.1.2 = true ->
  shown (place_branch s.1.2 s.2 pl) (place_rel pl) s.1 = Some (KFile c) -> (0 <= off < 2 ^ 63)%Z ->
  exists s' q n, read_slow i (epoch s.1.2) off size s
      = (Ok (Now (RData (take (Z.to_nat size) (drop (Z.to_nat off) c)))), s')
    /\ s'.1 = s.1 /\ inodes s'.2 = inodes s.2 /\ mount_live s'
    /\ h_tree s.1.1 !! q = Some n /\ n_kind n = KFile c
    /\ cache_get i (epoch s.1.2) (open_cache s'.2) = Some (handle_on q n).
Proof.
  intros Hi Hpl Hne Hf Hr Hl Hv Hsh Ho.
  assert (exists q n, resolve_for_branch (place_branch s.1.2 s.2 pl) (show (place_rel pl)) s = (Ok (Some q), s)
    /\ h_tree s.1.1 !! q = Some n /\ n_kind n = KFile c) as (q & n & Hres & Hq & Hk).
  { destruct s as [[h w] f]. apply shown_node in Hsh as (q & n & Hres & Hq & Hk). exists q, n.
    split; [by apply resolve_for_branch_eq|done]. }
  unfold read_slow. rewrite (run_bind _ _ s (Some (classify_path (place_path pl))) s).
  2:{ unfold classify_ino. rewrite bool_decide_false by done. rewrite bool_decide_false by by eapply table_not_ctl.
      rewrite (run_bind _ _ _ _ _ (branch_for_ctl_eq i s)), (table_not_branch_ctl _ Hf _ _ Hi).
      rewrite (run_bind _ _ s (Some (place_path pl)) s); [done|]. unfold inode_path, gets. by rewrite Hi. }
  rewrite (place_class pl Hpl). cbv beta iota. destruct pl as [p|b p]; cbn [place_rel place_branch place_path] in *.
  - rewrite (run_bind _ _ _ _ _ (stale_live s Hl)).
    rewrite (run_bind _ _ (synced s) (Some (show p)) (synced s)) by by (unfold inode_path, gets; rewrite <- Hi).
    rewrite (run_bind _ _ (synced s) (Some q) (synced s)).
    2:{ rewrite resolve_eq. apply resolve_for_branch_eq. apply resolve_for_branch_state in Hres as [_ [|Hres]]; [done|].
        exact Hres. }
    destruct (read_opening_eq i (epoch s.1.2) q n c off size true (synced s)) as (s' & H1 & H2 & H3 & H4 & H5); try done.
    by exists s', q, n.
  - destruct p as [|c0 p]; [done|]. rewrite (run_bind _ _ s true s) by by (unfold branch_valid, gets; rewrite Hv).
    rewrite (run_bind _ _ _ _ _ Hres).
    destruct (read_opening_eq i (epoch s.1.2) q n c off size false s) as (s' & H1 & H2 & H3 & H4 & H5); try done.
    by exists s', q, n.
Qed.

Lemma read_uncached_eq i pl c off size (s : Mounted) :
  get_path i (inodes s.2) = Some (place_path pl) -> place_ok pl -> place_rel pl <> [] -> numbers_ok s.2 ->
  i <> ROOT_INO -> mount_live s -> is_branch_valid (place_branch s.1.2 s.2 pl) s.1.2 = true ->
  shown (place_branch s.1.2 s.2 pl) (place_rel pl) s.1 = Some (KFile c) ->
  cache_get i (epoch s.1.2) (open_cache s.2) = None -> (0 <= off < 2 ^ 63)%Z ->
  exists s' q n, fuse_read i off size s = (Ok (Now (RData (take (Z.to_nat size) (drop (Z.to_nat off) c)))), s')
    /\ s'.1 = s.1 /\ inodes s'.2 = inodes s.2 /\ mount_live s' /\ h_tree s.1.1 !! q = Some n /\ n_kind n = KFile c
    /\ cache_get i (epoch s.1.2) (open_cache s'.2) = Some (handle_on q n).
Proof.
  intros Hi Hpl Hne Hf Hr Hl Hv Hsh Hc Ho.
  assert (numbers_ok (synced s).2) as Hf' by by apply numbers_synced.
  destruct (read_slow_eq i pl c off size (synced s)) as (s' & q & n & H1 & H2 & H3 & H4 & Hq & Hk & H5); try done.
  exists s', q, n. split; [|done].
  unfold fuse_read. rewrite bool_decide_false by by eapply table_not_ctl. rewrite (run_bind _ _ _ _ _ (stale_live s Hl)).
  rewrite (run_bind _ _ (synced s) (synced s).2 (synced s)) by done. cbn [synced snd current_epoch with_epoch open_cache].
  rewrite Hc. exact H1.
Qed.

(** The handle reads are served from is one on the file shown. *)
Definition handle_on_shown (i : Z) (b : string) (p : path) (s : Mounted) : Prop :=
  forall file, cache_get i (epoch s.1.2) (open_cache s.2) = Some file ->
    exists q n, resolve_path b (show p) s.1 = (Ok (Some q), s.1) /\ h_tree s.1.1 !! q = Some n /\ file = handle_on q n.

Lemma read_eq i pl c off size (s : Mounted) :
  get_path i (inodes s.2) = Some (place_path pl) -> place_ok pl -> place_rel pl <> [] -> numbers_ok s.2 ->
  i <> ROOT_INO -> mount_live s -> is_branch_valid (place_branch s.1.2 s.2 pl) s.1.2 = true ->
  shown (place_branch s.1.2 s.2 pl) (place_rel pl) s.1 = Some (KFile c) ->
  handle_on_shown i (place_branch s.1.2 s.2 pl) (place_rel pl) s -> (0 <= off < 2 ^ 63)%Z ->
  exists s', fuse_read i off size s = (Ok (Now (RData (take (Z.to_nat size) (drop (Z.to_nat off) c)))), s') /\ s'.1 = s.1.
Proof.
  intros Hi Hpl Hne Hf Hr Hl Hv Hsh Hc Ho. destruct (cache_get i (epoch s.1.2) (open_cache s.2)) as [file|] eqn:Hcache.
  - destruct (Hc file Hcache) as (q & n & Hq & Hn & ->). unfold shown in Hsh. rewrite Hq in Hsh. simpl in Hsh.
    unfold look in Hsh. rewrite Hn in Hsh. injection Hsh as Hk. exists (synced s). split; [|done].
    unfold fuse_read. rewrite bool_decide_false by by eapply table_not_ctl. rewrite (run_bind _ _ _ _ _ (stale_live s Hl)).
    rewrite (run_bind _ _ (synced s) (synced s).2 (synced s)) by done.
    cbn [synced snd current_epoch with_epoch open_cache]. rewrite Hcache. by apply read_handle_eq.
  - destruct (read_uncached_eq i pl c off size s) as (s' & q & n & H1 & H2 & _); try done. by exists s'.
Qed.

(** C12: reading a file of a mount - through its root or through "@branch" -
    answers the bytes the branch shows there, from the offset asked for and as
    many as asked for; it changes neither host nor manager.  The handle it keeps
    serves the next read: as long as nothing else happens any offset and size
    read the same content, now through the cache. *)
Theorem read_returns_shown i pl c off size s :
  get_path i (inodes s.2) = Some (place_path pl) -> place_ok pl -> place_rel pl <> [] -> numbers_ok s.2 ->
  i <> ROOT_INO -> mount_live s -> is_branch_valid (place_branch s.1.2 s.2 pl) s.1.2 = true ->
  shown (place_branch s.1.2 s.2 pl) (place_rel pl) s.1 = Some (KFile c) ->
  cache_get i (epoch s.1.2) (open_cache s.2) = None -> (0 <= off < 2 ^ 63)%Z ->
  exists s', fuse_read i off size s = (Ok (Now (RData (take (Z.to_nat size) (drop (Z.to_nat off) c)))), s')
    /\ s'.1 = s.1
    /\ forall off' size', (0 <= off' < 2 ^ 63)%Z ->
         exists s'', fuse_read i off' size' s' = (Ok (Now (RData (take (Z.to_nat size') (drop (Z.to_nat off') c)))), s'')
           /\ s''.1 = s.1.
Proof.
  intros Hi Hpl Hne Hf Hr Hl Hv Hsh Hc Ho.
  destruct (read_uncached_eq i pl c off size s) as (s' & q & n & H1 & H2 & H3 & H4 & Hq & Hk & H5); try done.
  exists s'. split; [done|]. split; [done|].
  intros off' size' Ho'. exists (synced s'). split; [|done].
  unfold fuse_read. rewrite bool_decide_false by by eapply table_not_ctl. rewrite (run_bind _ _ _ _ _ (stale_live s' H4)).
  rewrite (run_bind _ _ (synced s') (synced s').2 (synced s')) by done.
  cbn [synced snd current_epoch with_epoch open_cache]. rewrite H2, H5. apply read_handle_eq; [|done|done].
  change (synced s').1 with s'.1. by rewrite H2.
Qed.

(** *** The first write to an inherited file *)

Lemma splice_end c d : splice (length c) d c = c ++ d.
Proof.
  unfold splice. destruct d as [|x d]; [by rewrite app_nil_r|].
  rewrite Nat.sub_diag, app_nil_r, firstn_all, drop_ge by lia. by rewrite app_nil_r.
Qed.

(** Where the bytes of a write go. *)
Definition write_offset (flags offset : Z) (c : bytes) : Z :=
  if flag_set flags O_APPEND then Z.of_nat (length c) else offset.

Lemma metadata_file h q n c : h_tree h !! q = Some n -> n_kind n = KFile c -> metadata q h = (Ok n, h).
Proof.
  intros Hq Hk. unfold metadata. rewrite (bind_step _ _ h q h); [by apply symlink_metadata_eq|].
  apply (real_path_file h q n Hq). unfold is_symlink. by rewrite Hk.
Qed.

Lemma append_len_eq b p q n c fl (s : Mounted) :
  resolve_for_branch b p s = (Ok (Some q), s) -> h_tree s.1.1 !! q = Some n -> n_kind n = KFile c ->
  append_len b p fl s = (Ok (if flag_set fl O_APPEND then Some (Z.of_nat (length c)) else None), s).
Proof.
  intros Hr Hq Hk. unfold append_len. destruct (flag_set fl O_APPEND); [|done].
  rewrite (run_bind _ _ _ _ _ Hr). unfold file_len.
  rewrite (run_bind _ _ s (Ok n) s); [by unfold node_len; rewrite Hk|].
  unfold attempt. rewrite hostio_eq, (metadata_file _ q n c) by done. by destruct s as [[h w] f].
Qed.

Lemma effective_offset_eq fl o c :
  (0 <= o)%Z -> (Z.of_nat (length c) < 2 ^ 63)%Z ->
  effective_write_offset fl o (if flag_set fl O_APPEND then Some (Z.of_nat (length c)) else None)
  = Ok (write_offset fl o c).
Proof.
  intros Ho Hc. unfold effective_write_offset, write_offset. rewrite (proj2 (Z.ltb_ge _ _)) by done.
  destruct (flag_set fl O_APPEND); simpl; [|done]. by rewrite (proj2 (Z.ltb_lt _ _)).
Qed.

Lemma no_delta_eq b br p (s : Mounted) :
  branches s.1.2 !! b = Some br -> path_ok p -> h_tree s.1.1 !! (files_dir br ++ p) = None ->
  mgr (branch_has_delta b (show p)) s = (Ok false, s).
Proof.
  intros Hb Hp Hd. destruct s as [[h w] f]. rewrite mgr_eq. cbn [fst snd] in *.
  unfold branch_has_delta, gets, bind. cbn [fst snd]. rewrite Hb.
  unfold on_host, zoom. cbn [fst]. rewrite has_delta_eq by done.
  rewrite bool_decide_false; [done|]. rewrite Hd. by intros [].
Qed.

Lemma write_path_queues i e b br p q n c root fl o d (s : Mounted) :
  branches s.1.2 !! b = Some br -> path_ok p -> h_tree s.1.1 !! (files_dir br ++ p) = None ->
  resolve_for_branch b (show p) s = (Ok (Some q), s) -> h_tree s.1.1 !! q = Some n -> n_kind n = KFile c ->
  (0 <= o)%Z -> (Z.of_nat (length c) < 2 ^ 63)%Z ->
  write_path i e b (show p) root fl o d s = (Ok (Later (JWrite b (show p) (write_offset fl o c) d)), s).
Proof.
  intros Hb Hp Hd Hr Hq Hk Ho Hc. unfold write_path.
  rewrite (run_bind _ _ _ _ _ (append_len_eq b (show p) q n c fl s Hr Hq Hk)).
  rewrite effective_offset_eq by done. by rewrite (run_bind _ _ _ _ _ (no_delta_eq b br p s Hb Hp Hd)).
Qed.

(** What [fuse_write] comes down to when the write cache is of no use. *)
Lemma write_uncached i o d fl (s : Mounted) :
  i <> CTL_INO -> ctl_branch i (branch_ctl_inodes s.2) = None -> mount_live s -> (0 <= o)%Z ->
  cache_get i (epoch s.1.2) (write_cache s.2) = None ->
  exists s1, fuse_write i o d fl s = write_slow i (epoch s1.1.2) fl o d s1 /\ s1.1 = s.1
    /\ inodes s1.2 = inodes s.2 /\ branch_ctl_inodes s1.2 = branch_ctl_inodes s.2
    /\ mountpoint s1.2 = mountpoint s.2.
Proof.
  intros Hi Hb Hl Ho Hc.
  set (s0 := (s.1, with_caches (invalidate_ino i (open_cache s.2)) (write_cache s.2) s.2) : Mounted).
  exists (synced s0). split; [|done]. unfold fuse_write.
  rewrite (run_bind _ _ s tt s0), (run_bind _ _ s0 s0.2 s0), bool_decide_false by done.
  rewrite (run_bind _ _ _ _ _ (branch_for_ctl_eq i s0)). change (branch_ctl_inodes s0.2) with (branch_ctl_inodes s.2).
  rewrite Hb, (run_bind _ _ _ _ _ (stale_live s0 Hl)), (proj2 (Z.ltb_ge _ _)) by done.
  rewrite (run_bind _ _ (synced s0) (synced s0).2 (synced s0)) by done.
  change (cache_get i (current_epoch (synced s0).2) (write_cache (synced s0).2))
    with (cache_get i (epoch s.1.2) (write_cache s.2)). by rewrite Hc.
Qed.

Lemma write_slow_queues i pl br c o d fl (s : Mounted) :
  get_path i (inodes s.2) = Some (place_path pl) -> place_ok pl -> place_rel pl <> [] ->
  let b := place_branch s.1.2 s.2 pl in
  branches s.1.2 !! b = Some br -> is_writable br = true ->
  h_tree s.1.1 !! (files_dir br ++ place_rel pl) = None -> shown b (place_rel pl) s.1 = Some (KFile c) ->
  (0 <= o)%Z -> (Z.of_nat (length c) < 2 ^ 63)%Z ->
  write_slow i (epoch s.1.2) fl o d s
  = (Ok (Later (JWrite b (show (place_rel pl)) (write_offset fl o c) d)), s).
Proof.
  intros Hi Hpl Hne b Hb Hw Hd Hsh Ho Hc.
  assert (path_ok (place_rel pl)) as Hp by by destruct pl; apply Hpl.
  destruct s as [[h w] f]. apply shown_node in Hsh as (q & n & Hres & Hq & Hk).
  apply (resolve_for_branch_eq _ _ (h, w, f)) in Hres. set (s := (h, w, f) : Mounted) in *.
  unfold write_slow. rewrite (run_bind _ _ s (Some (place_path pl)) s) by by (unfold inode_path, gets; rewrite Hi).
  rewrite (place_class pl Hpl). destruct pl as [p|b' [|c0 p]]; cbn [place_rel place_branch] in *; [|done|].
  - rewrite (run_bind _ _ s b s) by done. by apply (write_path_queues _ _ b br p q n).
  - rewrite (run_bind _ _ _ _ _ (write_denied_eq b' s)). unfold is_branch_writable.
    change b' with b. rewrite Hb, Hw. rewrite (run_bind _ _ s true s).
    + by apply (write_path_queues _ _ b br (c0 :: p) q n).
    + unfold branch_valid, gets, is_branch_valid. by rewrite Hb.
Qed.

Lemma shown_not_deleted b br p h w k :
  world_ok w -> branches w !! b = Some br -> path_ok p -> h_tree h !! (files_dir br ++ p) = None ->
  shown b p (h, w) = Some k -> is_deleted br (show p) = false.
Proof.
  intros Hw Hb Hp Hd Hsh. destruct (forest_lineage (base_path w) (branches w) b) as (l & r & Hl); [apply Hw|by eexists|].
  unfold shown in Hsh. destruct (resolve_path_lineage b p h w _ _ Hw Hp Hl) as [He _]. rewrite He in Hsh.
  assert (exists l', l = br :: l') as [l' ->] by (inversion Hl; simplify_eq; eauto).
  simpl in Hsh. rewrite decide_False in Hsh by (rewrite Hd; by intros []). by destruct (is_deleted br (show p)).
Qed.

Lemma write_job_ok b rel o d k (s s' : Mounted) :
  run_job (JWrite b rel o d) s = (Ok (RWritten k), s') -> write_data_to_branch b rel o d s.1 = (Ok k, s'.1).
Proof.
  destruct s as [hw f]. unfold run_job, attempt, bind, ret. rewrite mgr_eq. cbn [fst].
  destruct (write_data_to_branch b rel o d hw) as [[x|[x| |]] hw']; simpl; intros; by simplify_eq.
Qed.

(** C11: the first write to a file the branch has only inherited, through the
    root of a mount or through "@branch": the callback changes nothing and hands
    the worker a write at the offset asked for - with O_APPEND at the end of the
    file as the branch shows it, whatever offset the kernel sent.  When the job
    succeeds, all bytes were written and the branch shows the old contents with
    the new bytes in place, or appended. *)
Theorem first_write_reads_back i pl br c o d fl s :
  get_path i (inodes s.2) = Some (place_path pl) -> place_ok pl -> place_rel pl <> [] -> numbers_ok s.2 ->
  world_ok s.1.2 -> mount_live s ->
  let b := place_branch s.1.2 s.2 pl in
  let p := place_rel pl in
  branches s.1.2 !! b = Some br -> is_writable br = true -> store_ok (branch_dir br) s.1.1 ->
  write_target_plain b (show p) s.1 ->
  h_tree s.1.1 !! (files_dir br ++ p) = None -> shown b p s.1 = Some (KFile c) ->
  (0 <= o)%Z -> (Z.of_nat (length c) < 2 ^ 63)%Z -> cache_get i (epoch s.1.2) (write_cache s.2) = None ->
  exists s1, fuse_write i o d fl s = (Ok (Later (JWrite b (show p) (write_offset fl o c) d)), s1) /\ s1.1 = s.1
    /\ forall k s2, run_job (JWrite b (show p) (write_offset fl o c) d) s1 = (Ok (RWritten k), s2) ->
         k = Z.of_nat (length d)
         /\ shown b p s2.1 = Some (KFile (if flag_set fl O_APPEND then c ++ d else splice (Z.to_nat o) d c)).
Proof.
  intros Hi Hpl Hne Hf Hwok Hl b p Hb Hw Hst Hplain Hd Hsh Ho Hc Hcache.
  assert (path_ok p) as Hp by by destruct pl; apply Hpl.
  destruct (write_uncached i o d fl s) as (s1 & -> & H1 & H2 & H3 & H4); try done;
    [by eapply table_not_ctl|by eapply table_not_branch_ctl|].
  assert (place_branch s1.1.2 s1.2 pl = b) as Hbr.
  { unfold b, place_branch, branch_of_mount. destruct pl; [|done]. by rewrite H1, H4. }
  exists s1. split; [|split; [done|]].
  - rewrite <- Hbr. apply (write_slow_queues i pl br c); rewrite ?Hbr, ?H1, ?H2; try done.
  - intros k s2 Hj%write_job_ok. rewrite H1 in Hj. destruct s as [[h w] f]. cbn [fst snd] in *.
    destruct s2 as [hw2 f2]. cbn [fst] in *.
    pose proof (written_data_reads_back b br p (write_offset fl o c) d h w k hw2 Hwok Hb Hst Hp
      (shown_not_deleted b br p h w _ Hwok Hb Hp Hd Hsh) Hplain) as Hrb. cbv zeta in Hrb. rewrite Hsh in Hrb.
    destruct Hrb as (Hk & _ & Hshown); [intros kd [= <-]; by eexists|done|]. split; [done|]. rewrite Hshown.
    unfold write_offset. cbn [file_data]. destruct (flag_set fl O_APPEND); [|done]. by rewrite Nat2Z.id, splice_end.
Qed.
(** *** A directory named "@b" *)

Lemma attempt_mgr_fs {A} (c : MIO A) (s : Mounted) r s' : attempt (mgr c) s = (r, s') -> s'.2 = s.2.
Proof.
  destruct s as [hw f]. unfold attempt. rewrite mgr_eq. destruct (c hw).1 as [|[]]; intros; by simplify_eq.
Qed.

Lemma mkdir_make_fs m u p (s s' : Mounted) r : mkdir_make m u p s = (Ok r, s') -> s'.2 = s.2.
Proof.
  unfold mkdir_make. intros (x & s1 & H1%attempt_mgr_fs & H)%bind_ok.
  unfold ret in H. destruct (negb (is_ok x)); [by simplify_eq|]. apply bind_ok in H as ([] & s2 & H2 & H). simplify_eq.
  unfold set_mode_umask, ret in H2. apply bind_ok in H2 as (y & s3 & H3%attempt_mgr_fs & H2). simplify_eq. congruence.
Qed.

Lemma ensure_cow_fs p (s s' : Mounted) r : ensure_cow p s = (Ok r, s') -> s'.2 = s.2.
Proof.
  unfold ensure_cow. rewrite (run_bind _ _ s (branch_of_mount s.1.2 s.2) s) by done.
  unfold ensure_cow_for_branch, ret. intros (x & s1 & H%attempt_mgr_fs & Hr)%bind_ok. by simplify_eq.
Qed.

(** The number a successful mkdir at the root of a mount hands out. *)
Lemma mkdir_root_number n m u a (s s' : Mounted) :
  get_path ROOT_INO (inodes s.2) = Some "/" -> numbers_ok s.2 -> (next_ino (inodes s.2) + 1 < FIRST_CTL_INO)%Z ->
  fuse_mkdir ROOT_INO n m u s = (Ok (Now (REntry a)), s') ->
  get_path (a_ino a) (inodes s'.2) = Some ("/" +:+ n) /\ numbers_ok s'.2.
Proof.
  intros Hroot Hf Hn H. unfold fuse_mkdir, make_entry in H.
  rewrite (run_bind _ _ s (Some "/") s) in H by by (unfold inode_path, gets; rewrite Hroot).
  change (branch_ctx "/") with (@None (string * string)) in H. change (classify_path "/") with (RootPath "/") in H.
  unfold make_at_root in H. change (child_rel "/" n) with ("/" +:+ n) in H.
  rewrite (run_bind _ _ s (branch_of_mount s.1.2 s.2) s) in H by done.
  rewrite (run_bind _ _ _ _ _ (write_denied_eq _ s)) in H. destruct (is_branch_writable _ _); [|done].
  apply bind_ok in H as (cow & s1 & H1%ensure_cow_fs & H). destruct cow as [delta|]; [|done].
  apply bind_ok in H as (r & s2 & H2%mkdir_make_fs & H). destruct r; [|done].
  rewrite (run_bind _ _ _ _ _ (is_stale_eq s2)) in H.
  destruct (negb _); [by apply bind_ok in H as (? & ? & _ & ?)|]. unfold created_reply in H.
  rewrite (run_bind _ _ _ _ _ (new_inode_eq _ true _)) in H.
  rewrite (run_bind _ _ _ _ _ (make_attr_eq _ delta _)) in H.
  assert (inodes (synced s2).2 = inodes s.2) as He by (cbn [synced snd with_epoch inodes]; congruence).
  destruct (h_tree _ !! delta) as [x|]; cbn [fmap option_fmap option_map] in H; [|done].
  assert (numbers_ok (synced s2).2) as Hf2 by (apply numbers_synced; congruence).
  destruct (new_number_ok ("/" +:+ n) true (synced s2).2 Hf2) as [Hok Hpath]; [by rewrite He|].
  unfold reply, ret in H. simplify_eq. by split.
Qed.

(** A directory named "@b", once made at the root of a mount, is taken for
    the door to the branch b - also on an agent's mount, which has no control
    files and is meant to show its own branch only.  Looking a name up in it
    finds the entries of b, and create makes a file in the delta of b. *)
Theorem at_directory_opens_branch b m u a s s' :
  get_path ROOT_INO (inodes s.2) = Some "/" -> numbers_ok s.2 -> (next_ino (inodes s.2) + 1 < FIRST_CTL_INO)%Z ->
  contains_char slash b = false -> expose_control s'.2 = false ->
  fuse_mkdir ROOT_INO ("@" +:+ b) m u s = (Ok (Now (REntry a)), s') ->
  (forall n mode umask, fuse_create (a_ino a) n mode umask s'
     = make_in_branch b "/" n false (create_make mode umask) RCreated s')
  /\ forall n q x, name_ok n = true -> starts_with "@" n = false -> is_branch_valid b s'.1.2 = true ->
     resolve_path b (show [n]) s'.1 = (Ok (Some q), s'.1) -> h_tree s'.1.1 !! q = Some x ->
     exists i s'', fuse_lookup (a_ino a) n s' = (Ok (Now (REntry (attr_of_node i x))), s'').
Proof.
  intros Hroot Hf Hn Hb He H. apply mkdir_root_number in H as [Hp Hf']; [|done..].
  change ("/" +:+ "@" +:+ b) with ("/@" +:+ b) in Hp.
  assert (branch_ctx ("/@" +:+ b) = Some (b, "/")) as Hctx.
  { unfold branch_ctx. by rewrite classify_branch_dir. }
  split.
  - intros n mode umask. unfold fuse_create, make_entry.
    rewrite (run_bind _ _ s' (Some ("/@" +:+ b)) s') by by (unfold inode_path, gets; rewrite Hp).
    cbv beta iota. by rewrite Hctx.
  - intros n q x Hname Hat Hv Hr Hx. unfold fuse_lookup.
    rewrite (run_bind _ _ s' (Some ("/@" +:+ b)) s') by by (unfold inode_path, gets; rewrite Hp).
    cbv beta iota. rewrite bool_decide_false by done. rewrite Hctx. unfold lookup_in_branch.
    rewrite (run_bind _ _ s' s'.2 s') by done. rewrite He, Hat. cbn [andb].
    rewrite (run_bind _ _ s' true s') by by (unfold branch_valid, gets; rewrite Hv).
    change (child_rel "/" n) with (child_rel (show []) n). rewrite (child_rel_path [] n) by (by repeat constructor). cbn [app].
    rewrite (run_bind _ _ s' (Some q) s') by by apply resolve_for_branch_eq.
    unfold lookup_resolved. rewrite (run_bind _ _ _ _ _ (is_dir_entry_eq q s')).
    rewrite (run_bind _ _ _ _ _ (new_inode_eq _ _ s')). unfold reply_entry.
    rewrite (run_bind _ _ _ _ _ (make_attr_eq _ q _)). cbn [fst]. rewrite Hx. by do 2 eexists.
Qed.
End IO.

(** ** Examples *)

#[local] Existing Instances example_env example_serde example_kernel.

(** The example mount after a lookup of "b": its number is 2. *)
Definition looked_up : Mounted :=
  let s := example_mount true in (s.1, with_inodes (get_or_create "/b" false (inodes s.2)).2 s.2).

Lemma looked_up_numbers : numbers_ok looked_up.2.
Proof. apply (new_number_ok "/b" false); [apply example_numbers_ok|done]. Qed.

Lemma looked_up_world : world_ok looked_up.1.2.
Proof.
  assert (same_world example_world looked_up.1.2) as Hs; [by split|]. by apply (same_world_ok _ _ Hs), example_world_ok.
Qed.

Lemma looked_up_shows : shown "fix" ["b"] looked_up.1 = Some (KFile (bytes_of "B")).
Proof. by vm_compute. Qed.

Lemma read_returns_shown_witness :
  exists s', fuse_read 2 0 100 looked_up = (Ok (Now (RData (bytes_of "B"))), s') /\ s'.1 = looked_up.1.
Proof.
  destruct (read_returns_shown 2 (AtRoot ["b"]) (bytes_of "B") 0 100 looked_up) as (s' & H1 & H2 & _).
  - by vm_compute.
  - by repeat constructor.
  - done.
  - apply looked_up_numbers.
  - done.
  - by vm_compute.
  - by vm_compute.
  - apply looked_up_shows.
  - by vm_compute.
  - lia.
  - exists s'. split; [exact H1|exact H2].
Defined.

Lemma append_job_runs :
  (run_job (JWrite "fix" "/b" 1 (bytes_of "xy")) looked_up).1 = Ok (RWritten 2).
Proof. by vm_compute. Qed.

Lemma first_write_reads_back_witness :
  exists s1, fuse_write 2 7 (bytes_of "xy") O_APPEND looked_up = (Ok (Later (JWrite "fix" "/b" 1 (bytes_of "xy"))), s1)
    /\ forall k s2, run_job (JWrite "fix" "/b" 1 (bytes_of "xy")) s1 = (Ok (RWritten k), s2) ->
         shown "fix" ["b"] s2.1 = Some (KFile (bytes_of "Bxy")).
Proof.
  destruct (first_write_reads_back 2 (AtRoot ["b"]) example_fix (bytes_of "B") 7 (bytes_of "xy") O_APPEND looked_up)
    as (s1 & H1 & _ & H3).
  - by vm_compute.
  - by repeat constructor.
  - done.
  - apply looked_up_numbers.
  - apply looked_up_world.
  - by vm_compute.
  - by vm_compute.
  - done.
  - exact example_store_ok.
  - intros b Hb. injection Hb as <-. split; [|intros src _]; apply link_free_plain; vm_compute; reflexivity.
  - by vm_compute.
  - apply looked_up_shows.
  - done.
  - done.
  - by vm_compute.
  - exists s1. split; [exact H1|]. intros k s2 H. by destruct (H3 k s2 H).
Defined.

Lemma resolve_now n p s r : (resolve_path n p s).1 = r -> resolve_path n p s = (r, s).
Proof. intros <-. rewrite <- (resolve_path_state n p s) at 3. by destruct (resolve_path n p s). Qed.

(** An agent's mount of "fix" gets at the branch "main". *)
Definition agent_mkdir : res exn Outcome * Mounted := fuse_mkdir ROOT_INO "@main" 493 0 (example_mount false).

Lemma at_directory_opens_branch_witness :
  exists a i s'', agent_mkdir.1 = Ok (Now (REntry a))
    /\ fuse_create (a_ino a) "x" 420 0 agent_mkdir.2
       = make_in_branch "main" "/" "x" false (create_make 420 0) RCreated agent_mkdir.2
    /\ fuse_lookup (a_ino a) "a" agent_mkdir.2 = (Ok (Now (REntry (attr_of_node i (example_file "A")))), s'')
    /\ (resolve_path "fix" "/a" agent_mkdir.2.1).1 = Ok None.
Proof.
  destruct agent_mkdir.1 as [[[]|]|] eqn:Ha; try (exfalso; vm_compute in Ha; discriminate).
  destruct (at_directory_opens_branch "main" 493 0 a (example_mount false) agent_mkdir.2) as [H1 H2].
  - by vm_compute.
  - apply example_numbers_ok.
  - by vm_compute.
  - done.
  - by vm_compute.
  - by apply run_ok.
  - destruct (H2 "a" ["base"; "a"] (example_file "A")) as (i & s'' & Hl).
    + done.
    + done.
    + by vm_compute.
    + apply resolve_now. by vm_compute.
    + by vm_compute.
    + exists a, i, s''. split; [done|]. split; [apply H1|]. split; [exact Hl|]. by vm_compute.
Defined.
