(* ===== verification/ReadOnly.v ===== *)
(** * Callbacks that only look

    Lookups, attributes, listings, reads, links, opens and the callbacks that hand
    a removal to the worker change neither the host nor anything of the manager
    but the register of opened numbers, however they end ([looking_around]); nor
    does any callback that leaves a job ([queued_looks]). *)

From S2P Require Import Prelude Strs Inode HostFs Handles Quota TextMerge Branch Codec View Manager Commit.
From S2P Require Import Frame BranchLaws Isolation Platform Mount Ctl Fuse FuseFacts FuseSpec FuseIO.

Open Scope bool_scope.

Record looking (s s' : Mounted) : Prop := {
  lk_host : s'.1.1 = s.1.1;
  lk_world : exists o, s'.1.2 = with_opened o s.1.2;
}.
#[export] Instance looking_preorder : PreOrder looking.
Proof.
  split; [intros [[h w] f]; split; try done; by exists (opened_inodes w); destruct w|].
  intros a b c [H1 [o1 H2]] [H4 [o2 H5]]. split; [congruence|].
  exists o2. rewrite H5, H2. by destruct (a.1.2).
Qed.

Section Looking.
Context {E : Env} {J : Serde} {K : Kernel}.

Lemma mgr_looking {A} (c : MIO A) : keeps eq c -> keeps looking (mgr c).
Proof. intros Hc [hw f]. rewrite mgr_eq, <- (Hc hw). reflexivity. Qed.
Lemma hostio_looking {A} (c : IO A) : keeps eq c -> keeps looking (hostio c).
Proof. intros Hc [[h w] f]. rewrite hostio_eq. cbn [fst snd]. rewrite <- (Hc h). reflexivity. Qed.
Lemma same_looking (s s' : Mounted) : s'.1 = s.1 -> looking s s'.
Proof. destruct s as [[h w] f]. intros H. split; rewrite H; [done|]. by exists (opened_inodes w); destruct w. Qed.
Lemma upd_fs_looking g : keeps looking (upd_fs g).
Proof. intros s. by apply same_looking. Qed.
Lemma opened_looking b i : keeps looking (upd_world (register_opened_inode b i)).
Proof. intros s. split; [done|by eexists]. Qed.
Lemma new_inode_looking p d : keeps looking (new_inode p d).
Proof. intros s. rewrite new_inode_eq. by apply same_looking. Qed.

(** Host calls that only read. *)
Lemma file_metadata_keeps f : keeps eq (file_metadata f).
Proof. intros h. unfold file_metadata. by destruct (file_node f h). Qed.
#[local] Hint Resolve file_metadata_keeps : keeps.
Lemma file_len_or_0_keeps f : keeps eq (file_len_or_0 f).
Proof. unfold file_len_or_0. keeps_auto. Qed.
Lemma file_open_keeps p : keeps eq (file_open p).
Proof. unfold file_open, handle_of. keeps_auto. Qed.
Lemma file_open_existing_keeps p : keeps eq (file_open_existing p).
Proof. unfold file_open_existing, handle_of. keeps_auto. Qed.
Lemma file_read_keeps f o z : keeps eq (file_read f o z).
Proof. unfold file_read, io_error. keeps_auto. Qed.
Lemma view_keeps {A} (c : path -> branch_map -> nat -> IO A) : (forall x y z, keeps eq (c x y z)) -> keeps eq (view c).
Proof.
  intros Hc. unfold view. apply keeps_bind; [apply _|apply keeps_gets, _|]. intros w. by apply on_host_eq.
Qed.

Lemma branch_valid_looking b : keeps looking (branch_valid b).
Proof. apply keeps_gets, _. Qed.
Lemma get_fs_looking : keeps looking get_fs.
Proof. apply keeps_gets, _. Qed.
Lemma get_world_looking : keeps looking get_world.
Proof. apply keeps_gets, _. Qed.
End Looking.

Create HintDb looking discriminated.
#[export] Hint Resolve opened_looking new_inode_looking branch_valid_looking get_fs_looking get_world_looking
  file_metadata_keeps file_len_or_0_keeps file_open_keeps file_open_existing_keeps file_read_keeps : looking.

Ltac look_step :=
  cbn beta iota;
  lazymatch goal with
  | |- keeps looking (bind _ _) => apply (keeps_bind looking); [|intros ?]
  | |- keeps looking (upd_fs _) => apply upd_fs_looking
  | |- keeps looking (mgr (resolve_path _ _)) => apply mgr_looking, view_keeps; intros ? ? ?; apply resolve_keeps, _
  | |- keeps looking (mgr (collect_dir_names _ _)) => apply mgr_looking, view_keeps; intros ? ? ?; apply collect_keeps, _
  | |- keeps looking (hostio _) => apply hostio_looking; solve [eauto 2 with keeps looking typeclass_instances]
  | |- keeps looking (attempt _) => apply (keeps_attempt looking)
  | |- keeps looking (when _ _) => apply (keeps_when looking)
  | |- keeps looking (fold_m _ _ _) => apply (keeps_fold_m looking); intros ? ?
  | |- keeps looking (ret _) => apply (keeps_ret looking)
  | |- keeps looking (gets _) => apply (keeps_gets looking)
  | |- keeps looking (match ?x with _ => _ end) => destruct x
  | |- keeps looking _ => solve [eauto 3 with looking typeclass_instances]
  end.
Ltac look_auto := repeat look_step.

Section Callbacks.
Context {E : Env} {J : Serde} {K : Kernel}.

Lemma is_stale_looking : keeps looking is_stale.
Proof. unfold is_stale, get_branch_name. look_auto. Qed.
Lemma resolve_for_looking b p : keeps looking (resolve_for_branch b p).
Proof. unfold resolve_for_branch. look_auto. Qed.
Hint Resolve is_stale_looking resolve_for_looking : looking.
Lemma resolve_looking p : keeps looking (resolve p).
Proof. unfold resolve, get_branch_name. look_auto. Qed.
Lemma make_attr_looking i p : keeps looking (make_attr i p).
Proof. unfold make_attr. look_auto. Qed.
Lemma is_dir_entry_looking p : keeps looking (is_dir_entry p).
Proof. unfold is_dir_entry. look_auto. Qed.
Hint Resolve resolve_looking make_attr_looking is_dir_entry_looking : looking.
Lemma ctl_number_looking b : keeps looking (get_or_create_branch_ctl_ino b).
Proof. unfold get_or_create_branch_ctl_ino. look_auto. Qed.
Lemma readdir_entries_looking b r i pre : keeps looking (collect_readdir_entries b r i pre).
Proof. unfold collect_readdir_entries, readdir_candidate. look_auto. Qed.
Lemma classify_ino_looking i : keeps looking (classify_ino i).
Proof. unfold classify_ino, branch_for_ctl_ino, inode_path. look_auto. Qed.
Hint Resolve ctl_number_looking readdir_entries_looking classify_ino_looking : looking.

Lemma lookup_looking i n : keeps looking (fuse_lookup i n).
Proof.
  unfold fuse_lookup, lookup_in_root, lookup_in_branch, lookup_current, lookup_resolved, reply_entry, inode_path,
    reply, fail. look_auto.
Qed.
Lemma getattr_looking i : keeps looking (fuse_getattr i).
Proof.
  unfold fuse_getattr, getattr_path, root_ctl_attr, branch_ctl_attr, root_dir_attr, reply_attr, branch_for_ctl_ino,
    inode_path, reply, fail. look_auto.
Qed.
Lemma read_looking i o z : keeps looking (fuse_read i o z).
Proof.
  unfold fuse_read, read_slow, read_opening, read_handle, read_ctl, get_branch_name, inode_path, reply, fail. look_auto.
Qed.
Lemma readdir_looking i o : keeps looking (fuse_readdir i o).
Proof.
  unfold fuse_readdir, readdir_branch_root, readdir_root, readdir_subdir, branch_dirs_at_root, page, get_branch_name,
    inode_path, reply, fail. look_auto.
Qed.
Lemma remove_async_looking i n j : keeps looking (remove_entry_async i n j).
Proof.
  unfold remove_entry_async, write_denied_error, branch_writable, get_branch_name, inode_path, fail. look_auto.
Qed.
Lemma readlink_looking i : keeps looking (fuse_readlink i).
Proof. unfold fuse_readlink, read_link_reply, reply, fail. look_auto. Qed.
Lemma release_looking fh : keeps looking (fuse_release fh).
Proof. unfold fuse_release, reply. look_auto. Qed.
Lemma access_looking i m : keeps looking (fuse_access i m).
Proof. unfold fuse_access, fail, reply. look_auto. Qed.
Lemma statfs_looking : keeps looking fuse_statfs.
Proof. unfold fuse_statfs, fail, reply. look_auto. Qed.

(** An open for reading, or without passthrough. *)
Lemma open_reading_looking i fl : flag_set fl O_ACCMODE = false -> keeps looking (fuse_open i fl).
Proof.
  intros Hfl. unfold fuse_open, open_branch_path, open_root_path, opened_path, try_open_passthrough. rewrite Hfl.
  unfold fs_open_passthrough, branch_for_ctl_ino, write_denied_error, branch_writable, get_branch_name, inode_path,
    reply, fail. look_auto.
Qed.

Definition opening (s s' : Mounted) : Prop :=
  passthrough_enabled s.2 = false -> looking s s' /\ passthrough_enabled s'.2 = false.
#[local] Instance opening_preorder : PreOrder opening.
Proof.
  split; [by intros s|]. intros a b c H1 H2 Ha. destruct (H1 Ha) as [Hl1 Hb]. destruct (H2 Hb) as [Hl2 Hc].
  split; [by etransitivity|done].
Qed.

Lemma opened_path_opening i fl b rel q : keeps opening (opened_path i fl b rel q).
Proof.
  intros s Hs. unfold opened_path.
  set (s1 := (s.1.1, register_opened_inode b i s.1.2, s.2) : Mounted).
  rewrite (run_bind _ _ s tt s1), (run_bind _ _ s1 s1.2 s1) by done. change (passthrough_enabled s1.2) with (passthrough_enabled s.2).
  rewrite Hs. split; [|done]. apply (opened_looking b i s).
Qed.

Lemma resolve_for_opening b p : keeps opening (resolve_for_branch b p).
Proof.
  intros s Hs. split; [apply resolve_for_looking|]. destruct s as [hw f].
  unfold resolve_for_branch, attempt, bind, ret. rewrite mgr_eq. by destruct (resolve_path _ _ hw) as [[?|[]] ?].
Qed.

Lemma open_opening i fl : keeps opening (fuse_open i fl).
Proof.
  unfold fuse_open, open_branch_path, open_root_path, branch_for_ctl_ino, write_denied_error, branch_writable,
    get_branch_name, get_fs, branch_valid, inode_path, resolve, reply, fail.
  repeat (cbn beta iota; lazymatch goal with
    | |- keeps opening is_stale => intros st Hs; rewrite is_stale_eq; split; [by apply same_looking|done]
    | |- keeps opening get_branch_name => unfold get_branch_name; apply (keeps_gets opening)
    | |- keeps opening (resolve_for_branch _ _) => apply resolve_for_opening
    | |- keeps opening (opened_path _ _ _ _ _) => apply opened_path_opening
    | |- _ => keeps_step
    end).
Qed.

(** The callbacks of this file. *)
Inductive only_looks (s : Mounted) : FuseOp -> Prop :=
  | looks_up i n : only_looks s (OpLookup i n)
  | looks_attr i : only_looks s (OpGetattr i)
  | looks_read i o z : only_looks s (OpRead i o z)
  | looks_dir i o : only_looks s (OpReaddir i o)
  | looks_unlink i n : only_looks s (OpUnlink i n)
  | looks_rmdir i n : only_looks s (OpRmdir i n)
  | looks_open i fl : flag_set fl O_ACCMODE = false \/ passthrough_enabled s.2 = false -> only_looks s (OpOpen i fl)
  | looks_release fh : only_looks s (OpRelease fh)
  | looks_link i : only_looks s (OpReadlink i)
  | looks_access i m : only_looks s (OpAccess i m)
  | looks_statfs : only_looks s OpStatfs.

Lemma looking_around o s : only_looks s o -> looking s (handle o s).2.
Proof.
  intros [i n|i|i off z|i off|i n|i n|i fl [Hfl|Hp]|fh|i|i m|]; cbn [handle].
  - apply lookup_looking.
  - apply getattr_looking.
  - apply read_looking.
  - apply readdir_looking.
  - apply remove_async_looking.
  - apply remove_async_looking.
  - by apply open_reading_looking.
  - by apply open_opening.
  - apply release_looking.
  - apply readlink_looking.
  - apply access_looking.
  - apply statfs_looking.
Qed.

(** *** A callback that leaves a job *)

(** What leaves a job for the worker has changed nothing itself. *)
Definition defers (c : FIO Outcome) : Prop := forall s j s', c s = (Ok (Later j), s') -> looking s s'.
Definition at_once (c : FIO Outcome) : Prop := forall s j s', c s <> (Ok (Later j), s').

Lemma at_once_defers c : at_once c -> defers c.
Proof. intros Hc s j s' H. by apply Hc in H. Qed.
Lemma looking_defers c : keeps looking c -> defers c.
Proof. intros Hc s j s' H. specialize (Hc s). by rewrite H in Hc. Qed.
Lemma at_once_bind {A} (c : FIO A) k : (forall a, at_once (k a)) -> at_once (bind c k).
Proof. intros Hk s j s' (a & s1 & _ & H)%bind_ok. by apply Hk in H. Qed.
Lemma defers_bind {A} (c : FIO A) k : keeps looking c -> (forall a, defers (k a)) -> defers (bind c k).
Proof.
  intros Hc Hk s j s' (a & s1 & H1 & H)%bind_ok. specialize (Hc s). rewrite H1 in Hc. etransitivity; [exact Hc|].
  by eapply Hk.
Qed.

Ltac at_once_auto := repeat (cbn beta iota; lazymatch goal with
  | |- at_once (bind _ _) => apply at_once_bind; intros ?
  | |- at_once (match ?x with _ => _ end) => destruct x
  | |- at_once (ret (Now _)) => by intros ? ? ? ?
  end).

Lemma write_handle_at_once f o z data recheck : at_once (write_handle f o z data recheck).
Proof. unfold write_handle, fail, reply. at_once_auto. Qed.

Lemma file_len_looking p : keeps looking (file_len p).
Proof. unfold file_len. look_auto. Qed.
Lemma append_len_looking b rel fl : keeps looking (append_len b rel fl).
Proof. unfold append_len. look_auto. apply file_len_looking. Qed.
Lemma branch_has_delta_keeps b rel : keeps eq (branch_has_delta b rel).
Proof.
  intros [h w]. unfold branch_has_delta, bind, gets. cbn [snd]. destruct (branches w !! b) as [br|]; [|done].
  apply on_host_eq, (has_delta_keeps eq).
Qed.

Lemma write_path_defers i e b rel root fl o data : defers (write_path i e b rel root fl o data).
Proof.
  apply defers_bind; [apply append_len_looking|]. intros len. destruct (effective_write_offset _ _ _) as [off|x].
  2: { apply at_once_defers. unfold fail. at_once_auto. }
  apply defers_bind; [apply mgr_looking, branch_has_delta_keeps|]. intros []; cbn [negb].
  - apply at_once_defers. unfold fail. at_once_auto. apply write_handle_at_once.
  - apply looking_defers, (keeps_ret looking).
Qed.

Ltac defers_auto := repeat (cbn beta iota; lazymatch goal with
  | |- defers (write_path _ _ _ _ _ _ _ _) => apply write_path_defers
  | |- defers (write_handle _ _ _ _ _) => apply at_once_defers, write_handle_at_once
  | |- defers (bind (handle_root_ctl_write _) _) => apply at_once_defers
  | |- defers (bind (handle_branch_ctl_write _ _) _) => apply at_once_defers
  | |- defers (bind _ _) => apply defers_bind; [solve [look_auto]|intros ?]
  | |- defers (match ?x with _ => _ end) => destruct x
  | |- defers (ret _) => apply looking_defers, (keeps_ret looking)
  end).

(** A write handed to the worker has changed nothing yet. *)
Lemma write_defers i o data fl : defers (fuse_write i o data fl).
Proof.
  unfold fuse_write, write_slow, write_cached, branch_for_ctl_ino, write_denied_error, branch_writable,
    get_branch_name, inode_path, fail, reply. defers_auto; at_once_auto.
Qed.

Lemma make_entry_at_once i n dir make undo answer : at_once (make_entry i n dir make undo answer).
Proof. unfold make_entry, make_in_branch, make_at_root, created_reply, fail, reply. at_once_auto. Qed.
Lemma lookup_at_once i n : at_once (fuse_lookup i n).
Proof.
  unfold fuse_lookup, lookup_in_root, lookup_in_branch, lookup_current, lookup_resolved, reply_entry, fail, reply.
  at_once_auto.
Qed.
Lemma rename_at_once i n j m fl : at_once (fuse_rename i n j m fl).
Proof. unfold fuse_rename, rename_in_branch, fail, reply. at_once_auto. Qed.
Lemma open_at_once i fl : at_once (fuse_open i fl).
Proof.
  unfold fuse_open, open_branch_path, open_root_path, opened_path, try_open_passthrough, fs_open_passthrough, fail,
    reply. at_once_auto.
Qed.
Lemma setattr_at_once i a : at_once (fuse_setattr i a).
Proof.
  unfold fuse_setattr, root_ctl_attr, branch_ctl_attr, setattr_branch_path, setattr_root_path, setattr_reply, reply_attr,
    fail, reply. at_once_auto.
Qed.
Lemma ioctl_at_once i cmd : at_once (fuse_ioctl i cmd).
Proof.
  unfold fuse_ioctl, ioctl_create, ioctl_commit, ioctl_abort, ioctl_finished, fail, reply. at_once_auto.
Qed.

(** Whatever leaves a job for the worker has changed nothing itself. *)
Lemma queued_looks o : defers (handle o).
Proof.
  destruct o; cbn [handle]; try solve [apply at_once_defers; first [apply make_entry_at_once|apply rename_at_once
    |apply open_at_once|apply setattr_at_once|apply ioctl_at_once]].
  - apply looking_defers, lookup_looking.
  - apply looking_defers, getattr_looking.
  - apply looking_defers, read_looking.
  - apply write_defers.
  - apply looking_defers, readdir_looking.
  - apply looking_defers, remove_async_looking.
  - apply looking_defers, remove_async_looking.
  - apply looking_defers, release_looking.
  - apply looking_defers, readlink_looking.
  - apply looking_defers, access_looking.
  - apply looking_defers, statfs_looking.
Qed.
End Callbacks.
