(* ===== verification/RenameSpec.v ===== *)
(** * Renaming through a mount

    The rename callback copies both paths up, clears the destination, moves the
    source's delta and sets the tombstones.  For a file the branch shows, its own
    or inherited, a rename answered with success leaves the bytes at the
    destination and nothing at the source. *)

From S2P Require Import Prelude Strs Inode HostFs Handles Quota TextMerge Branch Codec View Manager Commit.
From S2P Require Import Frame BranchLaws Isolation WorldInv ManagerSpec EditSpec WriteSpec Quiet FileFrame Platform Mount Ctl Fuse.
From S2P Require Import FuseWalk FuseInv FuseFacts FuseSpec FuseIO.

Open Scope bool_scope.

(** ** Copying a file up *)

Section CopyUp.
Context {E : Env} {J : Serde} (n : string) (d : path).

(** The branch after a step that keeps it. *)
Lemma wstep_use P b (s s' : host * World) :
  wstep n d P s s' -> branches s.2 !! n = Some b -> branch_dir b = d -> store_ok d s.1 ->
  (exists b', branches s'.2 !! n = Some b' /\ same_branch b b' /\ branch_dir b' = d) /\ store_ok d s'.1.
Proof.
  intros H Hb Hd Hok. destruct (H b Hb Hd) as ((b' & Hb' & Hs) & _ & _ & _ & Hst).
  split; [|by apply Hst]. exists b'. split; [done|]. split; [done|]. by rewrite (sb_dir _ _ Hs).
Qed.

Lemma create_dir_keeps p h r h' q k :
  create_dir_all p h = (r, h') -> look (h_tree h) q = Some k -> look (h_tree h') q = Some k.
Proof. intros H Hk. destruct (create_dir_all_look _ _ _ _ H q) as [->|(Hn & _)]; [done|congruence]. Qed.

Lemma ensure_parent_keeps p h r h' q k :
  ensure_parent_dirs p h = (r, h') -> look (h_tree h) q = Some k -> look (h_tree h') q = Some k.
Proof.
  unfold ensure_parent_dirs. destruct p; [unfold ret; by intros [= _ <-]|]. apply create_dir_keeps.
Qed.

(** A file outside the store is copied as it is. *)
Lemma cow_copy_file src p c h w s' :
  store_ok d h -> look (h_tree h) src = Some (KFile c) -> ~ edit d src -> not_link (h_tree h) (d ++ "files" :: p) ->
  cow_copy src (d ++ "files" :: p) (h, w) = (Ok tt, s') ->
  look (h_tree s'.1) (d ++ "files" :: p) = Some (KFile c).
Proof.
  intros Hok Hsrc Hout Hpl H. unfold cow_copy in H. rewrite stat_at in H.
  assert (exists m, h_tree h !! src = Some m /\ n_kind m = KFile c) as (m & Hm & Hk).
  { unfold look in Hsrc. apply fmap_Some in Hsrc as (m & ? & ?). by exists m. }
  rewrite Hm in H. assert (is_symlink m || is_file m = true) as Hf by (unfold is_symlink, is_file; by rewrite Hk).
  rewrite Hf in H. cbn [when] in H.
  apply bind_ok in H as ([] & s1 & H1 & H). apply check_quota_same in H1 as ->.
  apply host_ok in H as ([] & h1 & H1 & H). unfold add_quota, on_mem, modify in H. simplify_eq/=.
  unfold copy_entry in H1. apply bind_ok in H1 as ([] & h2 & H2 & H1).
  pose proof (ensure_parent_keeps _ _ _ _ _ _ H2 Hsrc) as Hsrc2.
  pose proof (ensure_parent_plain (d ++ "files" :: p) h Hpl) as Hpl2. rewrite H2 in Hpl2. simpl in Hpl2.
  apply bind_ok in H1 as (m2 & h3 & H3 & H1). apply read_same in H3 as Heq; [subst h3|apply symlink_metadata_keeps, _].
  assert (is_symlink m2 = false) as Hl.
  { assert (h_tree h2 !! src = Some m2) as Hm2.
    { unfold symlink_metadata, get_tree, gets, bind, ret, io_error, throw, raise in H3.
      by destruct (h_tree h2 !! src); simplify_eq. }
    unfold look in Hsrc2. rewrite Hm2 in Hsrc2. simpl in Hsrc2. unfold is_symlink. by destruct (n_kind m2). }
  rewrite Hl in H1. apply bind_ok in H1 as (z & h4 & H4 & H1). unfold ret in H1. simplify_eq.
  apply copy_look in H4 as [_ (q & c' & Hq & Hqc & Hc & _)]; [|done].
  rewrite real_path_plain in Hq by (by eapply look_file_plain). simplify_eq. done.
Qed.

(** The end of [ensure_delta_path_for_write]. *)
Lemma prepared_ok b rel p q k h w x s' :
  branches w !! n = Some b -> branch_dir b = d -> store_ok d h -> look (h_tree h) (d ++ "files" :: q) = Some k ->
  (do* on_branch n (remove_tombstone rel); do* on_host (ensure_parent_dirs (d ++ "files" :: p));
   ret (d ++ "files" :: p)) (h, w) = (Ok x, s') ->
  x = d ++ "files" :: p /\ look (h_tree s'.1) (d ++ "files" :: q) = Some k.
Proof.
  intros Hb Hd Hok Hk H. apply bind_ok in H as ([] & [h1 w1] & H1 & H).
  apply (on_branch_book n d _ _ _ b) in H1 as [Hs1 _]; [|auto with keeps|done|done].
  destruct (book_keeps_delta d _ _ q Hok Hs1) as [_ Hl1]. rewrite <- Hl1 in Hk.
  apply host_ok in H as ([] & h2 & H2 & H). unfold ret in H. injection H as <- <-.
  split; [done|]. by eapply ensure_parent_keeps.
Qed.

Lemma ensure_delta_returns b rel h w x s' :
  branches w !! n = Some b -> ensure_delta_path_for_write n rel (h, w) = (Ok x, s') -> x = delta_path b rel.
Proof.
  intros Hb H. unfold ensure_delta_path_for_write in H. apply (writable_inv n _ h w b) in H as [_ H]; [|done].
  apply bind_ok in H as (? & ? & _ & H). apply bind_ok in H as (? & ? & _ & H).
  apply bind_ok in H as (? & ? & _ & H). apply bind_ok in H as (? & ? & _ & H). unfold ret in H. by simplify_eq.
Qed.

(** Preparing a path does not make it. *)
Lemma ensure_parent_absent p h r h' :
  ensure_parent_dirs p h = (r, h') -> look (h_tree h) p = None -> look (h_tree h') p = None.
Proof.
  unfold ensure_parent_dirs. destruct p as [|x p]; [unfold ret; by intros [= _ <-]|].
  intros H Hn. destruct (create_dir_all_look _ _ _ _ H (x :: p)) as [->|(_ & _ & _ & Hpre)]; [done|].
  exfalso. apply under_prefix in Hpre. by rewrite not_under_parent in Hpre.
Qed.

(** A directory is not copied: without a delta of its own it has none afterwards. *)
Lemma ensure_delta_dir b l r p h w x s' :
  world_ok w -> branches w !! n = Some b -> branch_dir b = d -> store_ok d h -> path_ok p ->
  lineage (base_path w) (branches w) n (b :: l) r -> h_tree h !! (d ++ "files" :: p) = None ->
  write_base b (h_tree h) l r p = Some KDir ->
  ensure_delta_path_for_write n (show p) (h, w) = (Ok x, s') ->
  x = d ++ "files" :: p /\ look (h_tree s'.1) (d ++ "files" :: p) = None.
Proof.
  intros Hw Hb Hd Hok Hp Hl Hm Hc H. split.
  { rewrite (ensure_delta_returns b _ _ _ _ _ Hb H). by apply delta_path_show. }
  unfold ensure_delta_path_for_write in H.
  apply (writable_inv n _ h w b) in H as [_ H]; [|done].
  rewrite (delta_path_show d b p Hd Hp), stat_at, Hm in H. cbn [is_ok negb when] in H.
  unfold write_base in Hc. rewrite (files_split d b p Hd), (proj2 (look_None _ _) Hm) in Hc.
  destruct (underlay b (h_tree h) l r p) as [src|] eqn:Hu; [|done].
  apply bind_ok in H as ([] & [h1 w1] & H1 & H).
  pose proof (touch_and_copy_at n d b (show p) p h w Hok Hb Hd Hm) as Hst. rewrite H1 in Hst.
  destruct (wstep_use _ b _ _ Hst Hb Hd Hok) as [(b1 & Hb1 & _ & Hd1) Hok1].
  rewrite (bind_step _ _ _ _ _ (resolve_touch_eq n b h w l r p Hw Hp Hl)), Hu in H1.
  apply bind_ok in H1 as ([] & [h2 w2] & H2 & H1).
  apply (on_branch_book n d _ _ _ b) in H2 as [Hs2 _]; [|auto with keeps|done|done].
  destruct (Hs2 Hok) as [Hok2 Hl2]. destruct (book_keeps_delta d _ _ p Hok Hs2) as [_ Hp2].
  destruct (underlay_step n b b h h w l r p Hw Hb Hl) as [_ Hout]; [reflexivity|done|].
  specialize (Hout src Hu). rewrite Hd in Hout. rewrite <- Hl2 in Hc by (intros Hbk; apply Hout; by left).
  unfold cow_copy in H1. rewrite stat_at in H1.
  assert (h1 = h2) as ->.
  { unfold look in Hc. destruct (h_tree h2 !! src) as [m|]; [|done]. injection Hc as Hk.
    unfold is_symlink, is_file in H1. rewrite Hk in H1. cbn [orb when] in H1. unfold ret in H1. by injection H1 as -> ->. }
  assert (look (h_tree h2) (d ++ "files" :: p) = None) as Hn2 by (rewrite Hp2; by apply look_None).
  apply bind_ok in H as ([] & [h3 w3] & H3 & H).
  apply (on_branch_book n d _ _ _ b1) in H3 as [Hs3 _]; [|auto with keeps|done|done].
  destruct (book_keeps_delta d _ _ p Hok1 Hs3) as [_ Hp3]. cbn [fst snd] in Hp3. rewrite <- Hp3 in Hn2.
  apply host_ok in H as ([] & h4 & H4 & H). unfold ret in H. injection H as _ <-. by eapply ensure_parent_absent.
Qed.

(** What is shown as a file is a file of the delta afterwards. *)
Lemma ensure_delta_file b l r p c h w x s' :
  world_ok w -> branches w !! n = Some b -> branch_dir b = d -> store_ok d h -> path_ok p ->
  lineage (base_path w) (branches w) n (b :: l) r -> write_base b (h_tree h) l r p = Some (KFile c) ->
  ensure_delta_path_for_write n (show p) (h, w) = (Ok x, s') ->
  x = d ++ "files" :: p /\ look (h_tree s'.1) (d ++ "files" :: p) = Some (KFile c).
Proof.
  intros Hw Hb Hd Hok Hp Hl Hc H. unfold ensure_delta_path_for_write in H.
  apply (writable_inv n _ h w b) in H as [_ H]; [|done].
  rewrite (delta_path_show d b p Hd Hp), stat_at in H. unfold write_base in Hc. rewrite (files_split d b p Hd) in Hc.
  destruct (h_tree h !! (d ++ "files" :: p)) as [m|] eqn:Hm; cbn [is_ok negb when] in H.
  - assert (look (h_tree h) (d ++ "files" :: p) = Some (n_kind m)) as Hk by (unfold look; by rewrite Hm).
    rewrite Hk in Hc. rewrite Hc in Hk. by apply (prepared_ok b _ p p (KFile c)) in H.
  - rewrite (proj2 (look_None _ _) Hm) in Hc.
    destruct (underlay b (h_tree h) l r p) as [src|] eqn:Hu; [|done].
    apply bind_ok in H as ([] & [h1 w1] & H1 & H).
    pose proof (touch_and_copy_at n d b (show p) p h w Hok Hb Hd Hm) as Hst. rewrite H1 in Hst.
    destruct (wstep_use _ b _ _ Hst Hb Hd Hok) as [(b1 & Hb1 & _ & Hd1) Hok1].
    apply (prepared_ok b1 _ p p (KFile c)) in H; [done|done|done|done|].
    rewrite (bind_step _ _ _ _ _ (resolve_touch_eq n b h w l r p Hw Hp Hl)), Hu in H1.
    apply bind_ok in H1 as ([] & [h2 w2] & H2 & H1).
    apply (on_branch_book n d _ _ _ b) in H2 as [Hs2 _]; [|auto with keeps|done|done].
    destruct (Hs2 Hok) as [Hok2 Hl2]. destruct (book_keeps_delta d _ _ p Hok Hs2) as [_ Hp2].
    destruct (underlay_step n b b h h w l r p Hw Hb Hl) as [_ Hout]; [reflexivity|done|].
    specialize (Hout src Hu). rewrite Hd in Hout.
    apply (cow_copy_file src p c h2 w2) in H1; [done|done| |done|].
    + rewrite Hl2; [done|]. intros Hbk. apply Hout. by left.
    + apply (look_plain_ext _ _ _ Hp2). by apply look_None_plain.
Qed.
End CopyUp.

(** ** The move *)

Section Move.
Context {E : Env} {J : Serde} {K : Kernel}.

Lemma attempt_mgr_ok {A B} (c : MIO A) (k : res BranchError A -> FIO B) (s s' : Mounted) b :
  bind (attempt (mgr c)) k s = (Ok b, s') ->
  exists r s1, k r s1 = (Ok b, s') /\ s1.2 = s.2 /\ s1.1 = (c s.1).2 /\ (forall a, r = Ok a -> c s.1 = (Ok a, s1.1)).
Proof.
  intros (r & s1 & H1 & H)%bind_ok. exists r, s1. split; [done|]. destruct s as [hw f]. unfold attempt in H1.
  rewrite mgr_eq in H1. cbn [fst snd].
  destruct (c hw) as [[a|[e| |]] hw'] eqn:Hc; simpl in H1; try done; injection H1 as <- <-;
    (split; [done|]; split; [done|]); intros; by simplify_eq.
Qed.

Lemma ensure_cow_ok {B} n rel (k : res (option errno) path -> FIO B) (s s' : Mounted) b :
  bind (ensure_cow_for_branch n rel) k s = (Ok b, s') ->
  exists r s1, k r s1 = (Ok b, s') /\ s1.1 = (ensure_delta_path_for_write n rel s.1).2
    /\ (forall x, r = Ok x -> ensure_delta_path_for_write n rel s.1 = (Ok x, s1.1)).
Proof.
  unfold ensure_cow_for_branch. rewrite bind_assoc. intros (r & s1 & H & _ & H1 & H2)%attempt_mgr_ok.
  eexists _, s1. split; [exact H|]. split; [done|]. intros x. destruct r; intros [= ->]. by apply H2.
Qed.

Context (n : string) (d : path).

(** The paths of the move, neither inside the other. *)
Context (p q : path) (Hp : path_ok p) (Hq : path_ok q) (Hpq : under p q = false) (Hqp : under q p = false).

Lemma not_climb : ~ climb d q (d ++ "files" :: p).
Proof.
  intros [Hb|[_ Hpre]]; [destruct (book_not_delta _ _ Hb); apply files_in_delta|].
  apply prefix_app_inv, prefix_cons_inv_2, under_prefix in Hpre. congruence.
Qed.

(** What a step of a mount does on the host and in the manager. *)
Definition mounted (P : path -> Prop) (s s' : Mounted) : Prop := wstep n d P s.1 s'.1.
#[local] Instance mounted_preorder P : PreOrder (mounted P).
Proof. split; [by intros s; unfold mounted|]. intros a b c H1 H2. unfold mounted in *. by etransitivity. Qed.

Lemma clear_destination_in : keeps (mounted (fun x => under (d ++ "files" :: q) x = true)) (clear_destination n (show q)).
Proof.
  unfold clear_destination. apply keeps_bind; [apply _| |intros _; apply keeps_ret, _].
  apply keeps_attempt, (mgr_keeps (wstep n d _)), on_branch_wstep, get_branch_bstep. intros b Hd.
  rewrite (delta_path_show d b q Hd Hq). cbv zeta. bstep_auto.
  - apply remove_dir_all_call_in; [apply under_app|apply files_ne|done].
  - apply remove_file_call_in; [apply under_refl|apply files_ne].
Qed.

(** The two paths of the move, as one region. *)
Definition both : path -> Prop := along_all d [p; q].
Lemma along_src x : along d p x -> both x.
Proof. intros H. exists p. split; [set_solver|done]. Qed.
Lemma along_dst x : along d q x -> both x.
Proof. intros H. exists q. split; [set_solver|done]. Qed.
Lemma climb_dst x : climb d q x -> both x.
Proof. intros H. by apply along_dst, climb_along. Qed.
Lemma book_both x : book d x -> both x.
Proof. intros H. by apply along_dst, book_along. Qed.

Lemma mounted_both P (s s' : Mounted) : (forall x, P x -> both x) -> mounted P s s' -> mounted both s s'.
Proof. apply wstep_mono. Qed.

(** The state after a step, for the next one. *)
Lemma mounted_use P (s s' : Mounted) :
  mounted P s s' -> (exists b, branches s.1.2 !! n = Some b /\ branch_dir b = d) -> store_ok d s.1.1 ->
  (exists b, branches s'.1.2 !! n = Some b /\ branch_dir b = d) /\ store_ok d s'.1.1
  /\ forall x, ~ P x -> look (h_tree s'.1.1) x = look (h_tree s.1.1) x.
Proof.
  intros H (b & Hb & Hd) Hok. destruct (wstep_use n d P b _ _ H Hb Hd Hok) as [(b' & Hb' & _ & Hd') Hok'].
  split; [by exists b'|]. split; [done|]. destruct (H b Hb Hd) as (_ & _ & _ & _ & Hst). by apply Hst.
Qed.

(** From the copied source to the call of [rename]. *)
Lemma rename_prepared {B} (k : path -> bool -> FIO (res errno B)) o x (s s' : Mounted) :
  (exists b, branches s.1.2 !! n = Some b /\ branch_dir b = d) -> store_ok d s.1.1 ->
  look (h_tree s.1.1) (d ++ "files" :: p) = o ->
  (let* cow := ensure_cow_for_branch n (show q) in
   match cow with
   | Err _ => ret (Err EIO)
   | Ok dst_delta =>
       let* r := attempt (hostio (ensure_parent_dirs dst_delta)) in
       if negb (is_ok r) then ret (Err EIO)
       else
         let* existed := resolve_for_branch n (show q) in
         let dst_existed := bool_decide (is_Some existed) in
         do* when dst_existed (clear_destination n (show q));
         k dst_delta dst_existed
   end) s = (Ok (Ok x), s') ->
  exists e s1, k (d ++ "files" :: q) e s1 = (Ok (Ok x), s') /\ mounted both s s1
    /\ look (h_tree s1.1.1) (d ++ "files" :: p) = o.
Proof.
  intros Hb Hok Hc H. apply ensure_cow_ok in H as (r & s1 & H & H1 & Hr). destruct r as [y|]; [|done].
  specialize (Hr y eq_refl).
  assert (mounted (climb d q) s s1 /\ y = d ++ "files" :: q) as [Hs1 ->].
  { destruct Hb as (b & Hb & Hd). pose proof (delta_path_show d b q Hd Hq) as Hdp. split.
    - unfold mounted. rewrite H1. by apply (ensure_delta_climb n d b).
    - destruct s as [[h w] f]. cbn [fst snd] in *. by rewrite (ensure_delta_returns n b _ _ _ _ _ Hb Hr). }
  destruct (mounted_use _ _ _ Hs1 Hb Hok) as (Hb1 & Hok1 & Hl1). rewrite <- (Hl1 _ not_climb) in Hc.
  apply (mounted_both _ _ _ climb_dst) in Hs1.
  apply bind_ok in H as (r2 & s2 & H2 & H).
  assert (mounted (climb d q) s1 s2) as Hs2.
  { pose proof (keeps_attempt (mounted (climb d q)) (hostio (ensure_parent_dirs (d ++ "files" :: q)))) as Hk.
    specialize (Hk (mgr_keeps _ _ (on_host_wstep n d _ _ (ensure_parent_climb d q))) s1). by rewrite H2 in Hk. }
  destruct (mounted_use _ _ _ Hs2 Hb1 Hok1) as (Hb2 & Hok2 & Hl2). rewrite <- (Hl2 _ not_climb) in Hc.
  apply (mounted_both _ _ _ climb_dst) in Hs2.
  destruct (negb (is_ok r2)); [done|]. apply bind_ok in H as (there & s3 & H3 & H).
  apply resolve_for_branch_state in H3 as [-> _]. apply bind_ok in H as ([] & s4 & H4 & H).
  eexists _, s4. split; [exact H|].
  assert (mounted (fun x => under (d ++ "files" :: q) x = true) s2 s4) as Hs4.
  { match type of H4 with ?c _ = _ => assert (keeps (mounted (fun x => under (d ++ "files" :: q) x = true)) c) as Hk end.
    { apply keeps_when; [apply _|apply clear_destination_in]. }
    specialize (Hk s2). by rewrite H4 in Hk. }
  destruct (mounted_use _ _ _ Hs4 Hb2 Hok2) as (_ & _ & Hl4). split.
  - etransitivity; [done|]. etransitivity; [done|]. apply (mounted_both _ _ _ (fun x Hx => along_dst x (along_below d q x Hx)) Hs4).
  - rewrite Hl4; [done|]. change (d ++ "files" :: q) with (d ++ ["files"] ++ q).
    change (d ++ "files" :: p) with (d ++ ["files"] ++ p). rewrite !app_assoc, under_app_cancel. congruence.
Qed.

(** The bookkeeping after the move: tombstones change, the delta does not. *)
Lemma rename_tombstones_ok {B} i e x (k : unit -> B) (s s' : Mounted) :
  (exists b, branches s.1.2 !! n = Some b /\ branch_dir b = d) -> p <> q ->
  (let* r := rename_tombstones n (show p) (show q) i e in
   ret (if is_ok r then Ok (k tt) else Err EIO) : FIO (res errno B)) s = (Ok (Ok x), s') ->
  mounted (book d) s s'
  /\ (i = true -> exists b', branches s'.1.2 !! n = Some b' /\ show p ∈ tombstones b').
Proof.
  intros (b & Hb & Hd) Hne H. unfold rename_tombstones in H.
  apply attempt_mgr_ok in H as (r & s1 & H & _ & H1 & Hr). unfold ret in H. destruct r as [[]|]; [|done].
  simplify_eq/=. specialize (Hr tt eq_refl). clear H1. split.
  - unfold mounted. match type of Hr with ?c _ = _ => assert (keeps (wstep n d (book d)) c) as Hk end.
    { apply on_branch_wstep. bstep_auto; destruct i; auto with keeps. }
    specialize (Hk s.1). by rewrite Hr in Hk.
  - intros ->. destruct s as [[h w] f]. cbn [fst snd] in *.
    apply (on_branch_inv _ _ _ _ b) in Hr as (b' & Hc & Hm); [|done].
    exists b'. rewrite Hm, lookup_insert_eq. split; [done|].
    apply bind_ok in Hc as ([] & [h1 b1] & H1 & Hc). apply add_tombstone_mem in H1.
    apply bind_ok in Hc as ([] & [h2 b2] & H2 & Hc). apply remove_tombstone_mem in Hc.
    assert (show p <> show q) as Hpq' by (intros Heq; by rewrite <- (comps_show p Hp), Heq, comps_show in Hne).
    assert (tombstones b1 ⊆ tombstones b2) as Hsub.
    { destruct e; cbn [when] in H2; [apply add_tombstone_mem in H2; set_solver|unfold ret in H2; by simplify_eq]. }
    set_solver.
Qed.

Lemma rename_call (s s' : Mounted) c r :
  (exists b, branches s.1.2 !! n = Some b /\ branch_dir b = d) -> store_ok d s.1.1 -> p <> q ->
  look (h_tree s.1.1) (d ++ "files" :: p) = Some (KFile c) ->
  attempt (hostio (rename (d ++ "files" :: p) (d ++ "files" :: q))) s = (Ok r, s') -> is_ok r = true ->
  mounted both s s' /\ look (h_tree s'.1.1) (d ++ "files" :: q) = Some (KFile c)
  /\ look (h_tree s'.1.1) (d ++ "files" :: p) = None
  /\ forall x, under p x = false -> under q x = false ->
       look (h_tree s'.1.1) (d ++ "files" :: x) = look (h_tree s.1.1) (d ++ "files" :: x).
Proof.
  intros Hb Hok Hne Hc H Hr. split.
  - pose proof (keeps_attempt (mounted both) (hostio (rename (d ++ "files" :: p) (d ++ "files" :: q)))) as Hk.
    assert (keeps (step_in d both) (rename (d ++ "files" :: p) (d ++ "files" :: q))) as Hrn.
    { apply rename_in; [apply under_app|apply files_ne|apply under_app|apply files_ne|intros x Hx; by apply along_src, along_below|intros x Hx; by apply along_dst, along_below|].
      intros Hbk. destruct (book_not_delta _ _ Hbk). apply files_in_delta. }
    specialize (Hk (mgr_keeps _ _ (on_host_wstep n d _ _ Hrn)) s). by rewrite H in Hk.
  - destruct r as [[]|]; [|done]. destruct s as [[h w] f]. unfold attempt in H. rewrite hostio_eq in H. cbn [fst snd] in *.
    destruct (rename _ _ h) as [[[]|[]] h'] eqn:Hh; simpl in H; simplify_eq/=.
    apply rename_look in Hh as (_ & _ & Hl & _); [|apply Hok].
    destruct Hl as [Heq|[_ Hl]]; [apply app_inv_head in Heq; by simplify_eq|]. rewrite !Hl.
    assert (strip (d ++ "files" :: q) (d ++ "files" :: q) = Some []) as -> by by apply strip_Some; rewrite app_nil_r.
    assert (forall x, under q x = false -> strip (d ++ "files" :: q) (d ++ "files" :: x) = None) as Hnone.
    { intros x Hqx. destruct (strip _ _) as [y|] eqn:Hx; [|done]. apply strip_Some in Hx. rewrite <- app_assoc in Hx.
      apply app_inv_head in Hx. simplify_eq/=. by rewrite under_app in Hqx. }
    rewrite (Hnone p Hqp), app_nil_r, under_refl. split; [done|]. split; [done|]. intros x Hpx Hqx.
    rewrite Hl, (Hnone x Hqx). change (d ++ "files" :: p) with (d ++ ["files"] ++ p).
    change (d ++ "files" :: x) with (d ++ ["files"] ++ x). by rewrite !app_assoc, under_app_cancel, Hpx.
Qed.

Lemma rename_in_delta_ok b l r c i x (s s' : Mounted) :
  world_ok s.1.2 -> branches s.1.2 !! n = Some b -> branch_dir b = d -> store_ok d s.1.1 ->
  lineage (base_path s.1.2) (branches s.1.2) n (b :: l) r ->
  write_base b (h_tree s.1.1) l r p = Some (KFile c) ->
  rename_in_delta n (show p) (show q) i s = (Ok (Ok x), s') ->
  mounted both s s'
  /\ look (h_tree s'.1.1) (d ++ "files" :: q) = Some (KFile c)
  /\ look (h_tree s'.1.1) (d ++ "files" :: p) = None
  /\ (i = true -> exists b', branches s'.1.2 !! n = Some b' /\ show p ∈ tombstones b')
  /\ forall x y, p = x ++ y -> y <> [] -> look (h_tree s'.1.1) (d ++ "files" :: x) = Some KDir.
Proof.
  intros Hw Hb Hd Hok Hl Hc H. unfold rename_in_delta in H.
  assert (p <> q) as Hne by (intros ->; by rewrite under_refl in Hpq).
  apply ensure_cow_ok in H as (y & s1 & H & H1 & Hr). destruct y as [y|]; [|done]. specialize (Hr y eq_refl).
  assert (mounted both s s1) as Hs1.
  { unfold mounted. rewrite H1. apply (wstep_mono n d (climb d p)); [intros z Hz; by apply along_src, climb_along|].
    by apply (ensure_delta_climb n d b); [..|apply delta_path_show|]. }
  destruct (mounted_use _ _ _ Hs1 (ex_intro _ b (conj Hb Hd)) Hok) as (Hb1 & Hok1 & _).
  destruct s as [[h w] f]. cbn [fst snd] in *.
  apply (ensure_delta_file n d b l r p c) in Hr as [-> Hc1]; [|done..].
  apply (rename_prepared (fun dst_delta dst_existed => let* r := attempt (hostio (rename (d ++ "files" :: p) dst_delta)) in
    if negb (is_ok r) then ret (Err EIO)
    else let* r := rename_tombstones n (show p) (show q) i dst_existed in
         ret (if is_ok r then Ok dst_delta else Err EIO)) (Some (KFile c))) in H as (e & s2 & H & Hs2 & Hc2); [|done..].
  destruct (mounted_use _ _ _ Hs2 Hb1 Hok1) as (Hb2 & Hok2 & _).
  apply bind_ok in H as (r3 & s3 & H3 & H). destruct (is_ok r3) eqn:Hr3; cbn [negb] in H; [|done].
  destruct (rename_call _ _ c r3 Hb2 Hok2 Hne Hc2 H3 Hr3) as (Hs3 & Hq3 & Hp3 & Hab3).
  destruct (mounted_use _ _ _ Hs3 Hb2 Hok2) as (Hb3 & Hok3 & _).
  apply (rename_tombstones_ok i e x (fun _ => d ++ "files" :: q) s3 s' Hb3 Hne) in H as [Hs4 Ht].
  destruct (mounted_use _ _ _ Hs4 Hb3 Hok3) as (_ & _ & Hl4).
  assert (forall z, ~ book d (d ++ "files" :: z)) as Hnb.
  { intros z Hbk. destruct (book_not_delta _ _ Hbk). apply files_in_delta. }
  rewrite !Hl4 by apply Hnb. split; [|split; [done|split; [done|split; [done|]]]].
  { etransitivity; [exact Hs1|]. etransitivity; [exact Hs2|]. etransitivity; [exact Hs3|].
    apply (mounted_both _ _ _ book_both Hs4). }
  intros z y Hzy Hy. rewrite Hl4 by apply Hnb. rewrite Hab3.
  - apply (wf_below _ _ y); [apply Hok2|done|]. rewrite <- app_assoc. cbn [app]. rewrite <- Hzy.
    apply look_is_Some. by eexists.
  - apply not_true_iff_false. intros (v & ->)%under_true. rewrite <- app_assoc in Hzy.
    rewrite <- (app_nil_r p) in Hzy at 1. apply app_inv_head in Hzy. by destruct v, y.
  - apply not_true_iff_false. intros Hqz. assert (under q p = true) as Hq'; [|congruence].
    rewrite Hzy. apply (under_trans q z); [done|]. apply under_app.
Qed.
Lemma rename_in_delta_dir b l r i x (s s' : Mounted) :
  world_ok s.1.2 -> branches s.1.2 !! n = Some b -> branch_dir b = d -> store_ok d s.1.1 ->
  lineage (base_path s.1.2) (branches s.1.2) n (b :: l) r ->
  h_tree s.1.1 !! (d ++ "files" :: p) = None -> write_base b (h_tree s.1.1) l r p = Some KDir ->
  rename_in_delta n (show p) (show q) i s <> (Ok (Ok x), s').
Proof.
  intros Hw Hb Hd Hok Hl Hm Hc H. unfold rename_in_delta in H.
  apply ensure_cow_ok in H as (y & s1 & H & H1 & Hr). destruct y as [y|]; [|done]. specialize (Hr y eq_refl).
  assert (mounted both s s1) as Hs1.
  { unfold mounted. rewrite H1. apply (wstep_mono n d (climb d p)); [intros z Hz; by apply along_src, climb_along|].
    by apply (ensure_delta_climb n d b); [..|apply delta_path_show|]. }
  destruct (mounted_use _ _ _ Hs1 (ex_intro _ b (conj Hb Hd)) Hok) as (Hb1 & Hok1 & _).
  destruct s as [[h w] f]. cbn [fst snd] in *.
  apply (ensure_delta_dir n d b l r p) in Hr as [-> Hc1]; [|done..].
  apply (rename_prepared (fun dst_delta dst_existed => let* r := attempt (hostio (rename (d ++ "files" :: p) dst_delta)) in
    if negb (is_ok r) then ret (Err EIO)
    else let* r := rename_tombstones n (show p) (show q) i dst_existed in
         ret (if is_ok r then Ok dst_delta else Err EIO)) None) in H as (e & s2 & H & Hs2 & Hc2); [|done..].
  destruct (mounted_use _ _ _ Hs2 Hb1 Hok1) as (_ & Hok2 & _).
  apply bind_ok in H as (r3 & s3 & H3 & H). destruct r3 as [[]|]; [|done].
  destruct s2 as [[h2 w2] f2]. unfold attempt in H3. rewrite hostio_eq in H3. cbn [fst snd] in *.
  destruct (rename _ _ h2) as [[[]|[]] h3] eqn:Hh; simpl in H3; simplify_eq/=.
  apply rename_look in Hh as ([k Hk] & _); [congruence|apply Hok2].
Qed.
End Move.

(** ** The callback *)

Section Rename.
Context {E : Env} {J : Serde} {K : Kernel}.

Lemma inherited_exists_eq n b h w l r p :
  world_ok w -> path_ok p -> branches w !! n = Some b -> lineage (base_path w) (branches w) n (b :: l) r ->
  inherited_path_exists n (show p) (h, w) = (Ok (bool_decide (is_Some (underlay b (h_tree h) l r p))), (h, w)).
Proof.
  intros Hw Hp Hb Hl. pose proof (resolve_touch_eq n b h w l r p Hw Hp Hl) as H.
  unfold inherited_path_exists. rewrite (bind_step _ _ _ b (h, w)).
  2:{ unfold lookup_branch, bind, gets, ret. simpl. by rewrite Hb. }
  unfold resolve_inherited_for_touch, view, gets, bind, on_host, zoom in *. cbn [fst snd] in *.
  unfold inherited_path_exists_locked, resolve_inherited_for_touch_locked, bind, ret in *.
  destruct (is_hidden b (show p)); [by injection H as <-|].
  destruct (inherited_resolve_path_locked _ _ _ _ _ _) as [[o|] h']; simpl in *; [|done]. by injection H as <- <-.
Qed.

(** The tables of the mount change, the host and the manager do not. *)
Definition same_store (s s' : Mounted) : Prop := s'.1 = s.1.
#[local] Instance same_store_preorder : PreOrder same_store.
Proof. split; [by intros s|]. intros a b c H1 H2. unfold same_store in *. congruence. Qed.

Lemma rename_inodes_same a b dir : keeps same_store (rename_inodes a b dir).
Proof.
  unfold rename_inodes. keeps_auto; intros s; try done. rewrite new_inode_eq. done.
Qed.
Lemma rename_reply_same (root : bool) a b x :
  keeps same_store (let* stale := (if root then is_stale else ret false) in
    if stale then fail ESTALE
    else let* dir := hostio (is_dir_path x) in do* rename_inodes a b dir; reply ROk : FIO Outcome).
Proof.
  apply keeps_bind; [apply _|destruct root; [|done]; intros s; by rewrite is_stale_eq|]. intros [|]; [done|].
  apply keeps_bind; [apply _| |intros dir; apply keeps_bind; [apply _|apply rename_inodes_same|done]].
  intros s. rewrite hostio_eq. unfold same_store. cbn [fst snd].
  pose proof (is_dir_path_keeps eq x s.1.1) as Hk. rewrite <- Hk. by destruct s as [[h w] f].
Qed.

Lemma resolve_none n q (s s' : Mounted) : resolve_for_branch n (show q) s = (Ok None, s') -> shown n q s.1 = None.
Proof.
  destruct s as [hw f]. unfold resolve_for_branch, attempt, bind, ret. rewrite mgr_eq. unfold shown. cbn [fst snd].
  by destruct (resolve_path n (show q) hw) as [[[o|]|[]] hw'].
Qed.

(** A rename answered with success went through the delta. *)
Lemma rename_in_branch_inv n b l r p q pre pre' root fl (s s' : Mounted) :
  world_ok s.1.2 -> path_ok p -> branches s.1.2 !! n = Some b ->
  lineage (base_path s.1.2) (branches s.1.2) n (b :: l) r ->
  rename_in_branch n (show p) (show q) pre pre' root fl s = (Ok (Now ROk), s') ->
  exists x s1, rename_in_delta n (show p) (show q) (bool_decide (is_Some (underlay b (h_tree s.1.1) l r p))) s
      = (Ok (Ok x), s1)
    /\ s'.1 = s1.1 /\ (check_rename_noreplace fl = true -> shown n q s.1 = None).
Proof.
  intros Hw Hp Hb Hl H. unfold rename_in_branch in H.
  rewrite (run_bind _ _ _ _ _ (write_denied_eq n s)) in H. destruct (is_branch_writable n s.1.2); [|done].
  apply bind_ok in H as (o & s1 & H1 & H). apply resolve_for_branch_state in H1 as [-> _]. destruct o as [o|]; [|done].
  set (u := underlay b (h_tree s.1.1) l r p).
  rewrite (run_bind _ _ s (Ok (bool_decide (is_Some u))) s) in H.
  2:{ destruct s as [[h w] f]. unfold attempt. rewrite mgr_eq. cbn [fst snd].
      by rewrite (inherited_exists_eq n b h w l r p). }
  apply bind_ok in H as (t & s2 & H2 & H).
  assert (s2 = s /\ (check_rename_noreplace fl = true -> t = None -> shown n q s.1 = None)) as [-> Ht].
  { destruct (check_rename_noreplace fl); [|unfold ret in H2; by simplify_eq].
    split; [by apply resolve_for_branch_state in H2 as [-> _]|]. intros _ ->. by apply resolve_none in H2. }
  destruct t; [done|]. cbn [is_Some] in H. rewrite bool_decide_false in H by by intros [].
  apply bind_ok in H as (m & s3 & H3 & H). destruct m as [x|]; [|done].
  exists x, s3. split; [exact H3|]. split; [|intros Hn; by apply Ht].
  pose proof (rename_reply_same root (pre +:+ show p) (pre' +:+ show q) x s3) as Hk.
  unfold same_store in Hk. by rewrite H in Hk.
Qed.

Lemma rename_in_branch_ok n b p q pre pre' root fl c (s s' : Mounted) :
  world_ok s.1.2 -> world_ok s'.1.2 -> branches s.1.2 !! n = Some b -> store_ok (branch_dir b) s.1.1 ->
  path_ok p -> path_ok q -> under p q = false -> under q p = false -> shown n p s.1 = Some (KFile c) ->
  rename_in_branch n (show p) (show q) pre pre' root fl s = (Ok (Now ROk), s') ->
  shown n q s'.1 = Some (KFile c) /\ (resolve_path n (show p) s'.1).1 = Ok None
  /\ (check_rename_noreplace fl = true -> shown n q s.1 = None).
Proof.
  intros Hw Hw' Hb Hok Hp Hq Hpq Hqp Hsh H.
  destruct (forest_lineage (base_path s.1.2) (branches s.1.2) n) as (l0 & r & Hl); [apply Hw|by eexists|].
  assert (exists l, l0 = b :: l) as [l ->] by (inversion Hl; simplify_eq; eauto).
  assert (write_base b (h_tree s.1.1) l r p = Some (KFile c)) as Hc.
  { destruct s as [[h w] f]. by apply (shown_write_base n b l r p h w). }
  destruct (rename_in_branch_inv n b l r p q pre pre' root fl s s' Hw Hp Hb Hl H) as (x & s3 & H3 & He & Ht).
  apply (rename_in_delta_ok n (branch_dir b) p q Hp Hq Hpq Hqp b l r c) in H3 as (Hs3 & Hq3 & Hp3 & Ht3 & _); [|done..].
  rewrite He in *. rewrite <- (files_split _ b) in Hq3, Hp3 by done.
  apply (wstep_mono n _ _ _ _ _ (along_all_edit _ _)) in Hs3.
  split; [|split; [|done]]; destruct s as [[h w] f].
  - unfold shown. by rewrite (own_resolves n b l r q h w s3.1) by (try done; rewrite Hq3; by eexists).
  - destruct (Hs3 b Hb eq_refl) as ((b' & Hb' & Hsb) & Hm & _ & Hbase & Hst). destruct (Hst Hok) as [_ Hlook].
    apply (absent_after n b b' l r p h w); try done.
    destruct (underlay b (h_tree h) l r p) as [y|] eqn:Hu; [left|by right]. cbn [fst snd] in Ht3. rewrite Hu in Ht3.
    destruct Ht3 as (b2 & Hb2 & Hin); [by rewrite bool_decide_true by by eexists|].
    unfold is_deleted, deleted_by. rewrite bool_decide_true; [done|]. congruence.
Qed.

(** What a directory of a mount is to the callback. *)
Lemma rename_parent_place pl :
  place_ok pl ->
  rename_parent (place_path pl)
  = Some (match pl with
          | AtRoot q => ("", show q, "", true)
          | InBranch b q => (b, show q, "/@" +:+ b, false)
          end).
Proof.
  intros Hpl. unfold rename_parent. rewrite (place_class pl Hpl). by destruct pl as [q|b [|c q]].
Qed.

(** The branch and the two paths a rename is about. *)
Lemma fuse_rename_inv i n j m fl pl pl' s s' :
  get_path i (inodes s.2) = Some (place_path pl) -> get_path j (inodes s.2) = Some (place_path pl') ->
  place_ok pl -> place_ok pl' -> name_ok n = true -> name_ok m = true ->
  fuse_rename i n j m fl s = (Ok (Now ROk), s') ->
  let b := place_branch s.1.2 s.2 pl in
  let p := place_rel pl ++ [n] in
  let q := place_rel pl' ++ [m] in
  path_ok p /\ path_ok q /\ place_branch s.1.2 s.2 pl' = b
  /\ exists pre pre' root, rename_in_branch b (show p) (show q) pre pre' root fl s = (Ok (Now ROk), s').
Proof.
  intros Hi Hj Hpl Hpl' Hn Hm H b p q.
  assert (path_ok (place_rel pl) /\ path_ok (place_rel pl')) as [Hr Hr'] by (by destruct pl, pl'; split; apply Hpl || apply Hpl').
  split; [apply Forall_app; split; [done|by repeat constructor]|].
  split; [apply Forall_app; split; [done|by repeat constructor]|].
  unfold fuse_rename in H. destruct (check_rename_flags fl); [|done].
  rewrite (run_bind _ _ s (Some (place_path pl)) s) in H by by (unfold inode_path, gets; rewrite Hi).
  rewrite (run_bind _ _ s (Some (place_path pl')) s) in H by by (unfold inode_path, gets; rewrite Hj).
  rewrite !rename_parent_place in H by done.
  destruct pl as [pp|bb pp], pl' as [qq|bb' qq]; cbn [place_rel place_branch] in *; cbn [eqb negb orb andb] in H; try done.
  - rewrite (run_bind _ _ s b s), (run_bind _ _ s true s) in H by done.
    rewrite !child_rel_path in H by done. split; [done|]. by do 3 eexists.
  - case_bool_decide as Hbb; [|done]. subst bb'. cbn [negb] in H. rewrite (run_bind _ _ s bb s) in H by done.
    apply bind_ok in H as (v & s1 & H1 & H). unfold branch_valid, gets in H1. injection H1 as <- <-.
    destruct (is_branch_valid bb s.1.2); [|done].
    rewrite !child_rel_path in H by done. split; [done|]. by do 3 eexists.
Qed.

(** C13: rename, through the root of a mount or through "@branch", of a file the
    branch shows - its own or inherited from any layer - onto a path that is
    neither inside it nor around it (the kernel refuses those itself).  Answered
    with success, both directories belong to the same branch, the branch shows
    the old bytes at the new path and nothing at the old one, whatever was at
    the new path before; with RENAME_NOREPLACE nothing was. *)
Theorem rename_moves_file i n j m fl pl pl' br c s s' :
  get_path i (inodes s.2) = Some (place_path pl) -> get_path j (inodes s.2) = Some (place_path pl') ->
  place_ok pl -> place_ok pl' -> name_ok n = true -> name_ok m = true ->
  let b := place_branch s.1.2 s.2 pl in
  let p := place_rel pl ++ [n] in
  let q := place_rel pl' ++ [m] in
  world_ok s.1.2 -> branches s.1.2 !! b = Some br -> store_ok (branch_dir br) s.1.1 ->
  under p q = false -> under q p = false -> shown b p s.1 = Some (KFile c) ->
  fuse_rename i n j m fl s = (Ok (Now ROk), s') ->
  place_branch s.1.2 s.2 pl' = b
  /\ shown b q s'.1 = Some (KFile c) /\ (resolve_path b (show p) s'.1).1 = Ok None
  /\ (check_rename_noreplace fl = true -> shown b q s.1 = None).
Proof.
  intros Hi Hj Hpl Hpl' Hn Hm b p q Hw Hb Hok Hpq Hqp Hsh H.
  assert (world_ok s'.1.2) as Hw'.
  { pose proof (rename_walk xstep True i n j m fl s) as Hk. rewrite H in Hk. by apply Hk. }
  apply (fuse_rename_inv i n j m fl pl pl') in H as (Hp & Hq & Hpl2 & pre & pre' & root & H); [|done..].
  split; [done|]. by apply (rename_in_branch_ok b br p q pre pre' root fl c s s').
Qed.

(** A directory the branch only inherits cannot be renamed: the copy up leaves
    directories out, so there is nothing to move and the answer is never success
    (but see [Scenarios.renamed_directory_loses_entries]). *)
Theorem inherited_directory_stays i n j m fl pl pl' br s s' :
  get_path i (inodes s.2) = Some (place_path pl) -> get_path j (inodes s.2) = Some (place_path pl') ->
  place_ok pl -> place_ok pl' -> name_ok n = true -> name_ok m = true ->
  let b := place_branch s.1.2 s.2 pl in
  let p := place_rel pl ++ [n] in
  let q := place_rel pl' ++ [m] in
  world_ok s.1.2 -> branches s.1.2 !! b = Some br -> store_ok (branch_dir br) s.1.1 ->
  under p q = false -> under q p = false ->
  h_tree s.1.1 !! (files_dir br ++ p) = None -> shown b p s.1 = Some KDir ->
  fuse_rename i n j m fl s <> (Ok (Now ROk), s').
Proof.
  intros Hi Hj Hpl Hpl' Hn Hm b p q Hw Hb Hok Hpq Hqp Hd Hsh H.
  apply (fuse_rename_inv i n j m fl pl pl') in H as (Hp & Hq & _ & pre & pre' & root & H); [|done..].
  destruct (forest_lineage (base_path s.1.2) (branches s.1.2) b) as (l0 & r & Hl); [apply Hw|by eexists|].
  assert (exists l, l0 = br :: l) as [l ->] by (inversion Hl; simplify_eq; eauto).
  destruct (rename_in_branch_inv b br l r p q pre pre' root fl s s' Hw Hp Hb Hl H) as (x & s1 & H1 & _).
  rewrite (files_split (branch_dir br)) in Hd by done.
  apply (rename_in_delta_dir b (branch_dir br) p q Hp Hq Hpq Hqp br l r) in H1; try done.
  destruct s as [[h w] f]. by apply (shown_write_base b br l r p h w).
Qed.
End Rename.

(** ** Examples *)

#[local] Existing Instances example_env example_serde example_kernel.

(** The inherited file "b" of the example mount is renamed to "new", where nothing
    may be. *)
Definition renamed : res exn Outcome * Mounted := fuse_rename ROOT_INO "b" ROOT_INO "new" 1 (example_mount true).

Lemma renamed_answer : renamed = (Ok (Now ROk), renamed.2).
Proof. apply run_ok. by vm_compute. Qed.

Lemma example_mount_world b : world_ok (example_mount b).1.2.
Proof.
  assert (same_world example_world (example_mount b).1.2) as Hs; [by split|].
  by apply (same_world_ok _ _ Hs), example_world_ok.
Qed.

Lemma rename_moves_file_witness :
  shown "fix" ["new"] renamed.2.1 = Some (KFile (bytes_of "B")) /\ (resolve_path "fix" "/b" renamed.2.1).1 = Ok None.
Proof.
  destruct (rename_moves_file ROOT_INO "b" ROOT_INO "new" 1 (AtRoot []) (AtRoot []) example_fix
    (bytes_of "B") (example_mount true) renamed.2) as (_ & H1 & H2 & _).
  - by vm_compute.
  - by vm_compute.
  - by repeat constructor.
  - by repeat constructor.
  - done.
  - done.
  - apply example_mount_world.
  - by vm_compute.
  - exact example_store_ok.
  - by vm_compute.
  - by vm_compute.
  - by vm_compute.
  - apply renamed_answer.
  - split; [exact H1|exact H2].
Defined.
