(* ===== verification/FileView.v ===== *)
(** * Callbacks, seen as updates of one file

    What create, write, truncate, unlink, rename, mkdir, rmdir and symlink do to
    the files a process finds through a mount: each changes the file it names and
    no other ([becomes]). *)

From S2P Require Import Prelude Strs Inode HostFs Handles Quota TextMerge Branch Codec View Manager Commit.
From S2P Require Import Frame BranchLaws Isolation WorldInv ManagerSpec EditSpec WriteSpec Quiet FileFrame.
From S2P Require Import Platform Mount Ctl Fuse FuseWalk FuseInv FuseFacts FuseSpec FuseIO RenameSpec.

Open Scope bool_scope.

Section Steps.
Context {E : Env} {J : Serde} {K : Kernel}.

(** *** Tombstones through a mount *)

#[local] Existing Instance mounted_preorder.
Definition mmem (n : string) (P : string -> Prop) (s s' : Mounted) : Prop := wmem n P s.1 s'.1.
#[local] Instance mmem_preorder n P : PreOrder (mmem n P).
Proof. split; [by intros s; unfold mmem|]. intros a b c H1 H2. unfold mmem in *. by etransitivity. Qed.

Lemma mgr_mmem n P {A} (c : MIO A) : keeps (wmem n P) c -> keeps (mmem n P) (mgr c).
Proof. apply mgr_keeps. Qed.
Lemma hostio_mmem n P {A} (c : IO A) : keeps (mmem n P) (hostio c).
Proof. apply mgr_mmem, on_host_wmem. Qed.

(** Steps that change the tables of the mount only. *)
Lemma same_store_mmem n P {A} (c : FIO A) : keeps same_store c -> keeps (mmem n P) c.
Proof. intros Hc s. unfold mmem. by rewrite (Hc s). Qed.

Lemma ensure_cow_mmem n (P : string -> Prop) m rel : P rel -> m = n -> keeps (mmem n P) (ensure_cow_for_branch m rel).
Proof.
  intros Hp ->. unfold ensure_cow_for_branch. apply keeps_bind; [apply _| |intros r; apply keeps_ret, _].
  by apply keeps_attempt, mgr_mmem, ensure_delta_wmem.
Qed.

(** *** The state a callback on one file starts from and what it leaves *)

Definition ready (b : string) (br : Branch) (s : Mounted) : Prop :=
  world_ok s.1.2 /\ branches s.1.2 !! b = Some br /\ store_ok (branch_dir br) s.1.1.

(** One file becomes [v], the others stay. *)
Definition becomes (b : string) (p : path) (v : option bytes) (s s' : Mounted) : Prop :=
  forall q, path_ok q -> file_of b s'.1 q = if decide (q = p) then v else file_of b s.1 q.

Lemma ready_after b br (s s' : Mounted) :
  ready b br s -> wstep b (branch_dir br) (edit (branch_dir br)) s.1 s'.1 -> world_ok s'.1.2 -> exists br', ready b br' s'.
Proof.
  intros (Hw & Hb & Hok) Hstep Hw'. destruct (Hstep br Hb eq_refl) as ((br' & Hb' & Hs) & _ & _ & _ & Hst).
  exists br'. split; [done|]. split; [done|]. rewrite (sb_dir _ _ Hs). by apply Hst.
Qed.

(** A step on the host and in the manager that works along [p] only. *)
Definition working (n : string) (d p : path) (s s' : Mounted) : Prop :=
  mounted n d (along d p) s s' /\ mmem n (fun t => exists a, a ∈ [p] /\ t = show a) s s'.
#[local] Instance working_preorder n d p : PreOrder (working n d p).
Proof. split; [by intros s; split|]. intros a b c [H1 H2] [H3 H4]. split; by etransitivity. Qed.

(** A callback that works along [p] and leaves a file or link in the delta there. *)
Lemma put_becomes b br p k s s' :
  ready b br s -> world_ok s'.1.2 -> path_ok p -> walk b [] p s.1 = true -> shown b p s.1 <> Some KDir ->
  working b (branch_dir br) p s s' ->
  look (h_tree s'.1.1) (branch_dir br ++ "files" :: p) = Some k -> k <> KDir ->
  becomes b p (data_of k) s s' /\ exists br', ready b br' s'.
Proof.
  intros Hr Hw' Hp Hwalk Hd [Hm Hmem] Hc Hk. pose proof Hr as (Hw & Hb & Hok).
  destruct (standing_intro b br s.1 Hw Hb Hok) as (l & r & Hst). split.
  - intros q Hq. apply (put_leaf b br l r p k s.1 s'.1); try done.
    + by apply one_touches.
    + by rewrite (files_split (branch_dir br)).
  - apply (ready_after b br s); [done| |done]. eapply wstep_mono; [apply along_edit|exact Hm].
Qed.

(** A path whose delta and inherited entry are no links is none after the copy up. *)
Lemma cow_copy_plain d src p h w s' :
  not_link (h_tree h) src -> not_link (h_tree h) (d ++ "files" :: p) ->
  cow_copy src (d ++ "files" :: p) (h, w) = (Ok tt, s') -> not_link (h_tree s'.1) (d ++ "files" :: p).
Proof.
  intros Hsrc Hp H. unfold cow_copy in H. rewrite stat_at in H.
  destruct (h_tree h !! src) as [m|] eqn:Hm; [|unfold ret in H; by injection H as <-].
  assert (is_symlink m = false) as Hl.
  { unfold is_symlink. destruct (n_kind m) eqn:Hk; try done. destruct (Hsrc target). unfold look. by rewrite Hm, <- Hk. }
  rewrite Hl in H. destruct (is_file m); cbn [orb when] in H; [|unfold ret in H; by injection H as <-].
  apply bind_ok in H as ([] & s1 & H1 & H). apply check_quota_same in H1 as ->.
  apply host_ok in H as ([] & h1 & H1 & H). unfold add_quota, on_mem, modify in H. injection H as <-. cbn [fst].
  unfold copy_entry in H1. apply bind_ok in H1 as ([] & h2 & H2 & H1).
  pose proof (ensure_parent_plain (d ++ "files" :: p) h Hp) as Hp2. rewrite H2 in Hp2.
  apply bind_ok in H1 as (m2 & h3 & H3 & H1). apply read_same in H3 as Heq; [subst h3|apply symlink_metadata_keeps, _].
  destruct (is_symlink m2) eqn:Hl2.
  - exfalso. unfold symlink_metadata, get_tree, gets, bind, ret, io_error, throw, raise in H3.
    destruct (h_tree h2 !! src) as [m3|] eqn:Hm3; [|done]. injection H3 as ->.
    unfold ensure_parent_dirs in H2. destruct (d ++ "files" :: p) as [|x0 q0]; [unfold ret in H2; injection H2 as <-; congruence|].
    unfold is_symlink in Hl2. destruct (n_kind m2) eqn:Hk2; try done.
    destruct (create_dir_all_look _ _ _ _ H2 src) as [He|(_ & He & _)]; unfold look in He; rewrite Hm3 in He; simpl in He.
    + apply (Hsrc target). unfold look. by rewrite <- He, Hk2.
    + congruence.
  - apply bind_ok in H1 as (z & h4 & H4 & H1). unfold ret in H1. injection H1 as <-.
    apply copy_look in H4 as [_ (q & c' & _ & _ & Hc & _)]; [|done]. by eapply look_file_plain.
Qed.

Lemma prepared_plain n b d rel p h w x s' :
  branches w !! n = Some b -> branch_dir b = d -> store_ok d h -> not_link (h_tree h) (d ++ "files" :: p) ->
  (do* on_branch n (remove_tombstone rel); do* on_host (ensure_parent_dirs (d ++ "files" :: p));
   ret (d ++ "files" :: p)) (h, w) = (Ok x, s') -> not_link (h_tree s'.1) (d ++ "files" :: p).
Proof.
  intros Hb Hd Hok Hp H. apply bind_ok in H as ([] & [h1 w1] & H1 & H).
  apply (on_branch_book n d _ _ _ b) in H1 as [Hs1 _]; [|auto with keeps|done|done].
  destruct (book_keeps_delta d _ _ p Hok Hs1) as [_ Hl1]. apply (look_plain_ext _ _ _ Hl1) in Hp.
  apply host_ok in H as ([] & h2 & H2 & H). unfold ret in H. injection H as _ <-.
  pose proof (ensure_parent_plain _ _ Hp) as Hp2. by rewrite H2 in Hp2.
Qed.

Lemma ensure_delta_plain n b d p h w x s' :
  branches w !! n = Some b -> branch_dir b = d -> store_ok d h -> path_ok p ->
  write_target_plain n (show p) (h, w) ->
  ensure_delta_path_for_write n (show p) (h, w) = (Ok x, s') -> not_link (h_tree s'.1) (d ++ "files" :: p).
Proof.
  intros Hb Hd Hok Hp Hplain H. destruct (Hplain b Hb) as [Hp1 Hp2]. rewrite (delta_path_show d b p Hd Hp) in Hp1.
  unfold ensure_delta_path_for_write in H. apply (writable_inv n _ h w b) in H as [_ H]; [|done].
  rewrite (delta_path_show d b p Hd Hp), stat_at in H.
  destruct (h_tree h !! (d ++ "files" :: p)) as [m|] eqn:Hm; cbn [is_ok negb when] in H.
  { by apply (prepared_plain n b d) in H. }
  apply bind_ok in H as ([] & [h1 w1] & H1 & H).
  pose proof (touch_and_copy_at n d b (show p) p h w Hok Hb Hd Hm) as Hst. rewrite H1 in Hst.
  destruct (wstep_use n d _ b _ _ Hst Hb Hd Hok) as [(b1 & Hb1 & _ & Hd1) Hok1].
  apply (prepared_plain n b1 d) in H; [done|done|done|done|].
  apply bind_ok in H1 as (inh & s2 & H2 & H1). pose proof (resolve_touch_same _ _ _ _ _ H2) as ->.
  apply bind_ok in H1 as ([] & [h3 w3] & H3 & H1).
  apply (on_branch_book n d _ _ _ b) in H3 as [Hs3 _]; [|auto with keeps|done|done].
  destruct (Hs3 Hok) as [Hok3 Hl3]. destruct (book_keeps_delta d _ _ p Hok Hs3) as [_ Hp3].
  apply (look_plain_ext _ _ _ Hp3) in Hp1. destruct inh as [src|]; [|unfold ret in H1; by injection H1 as <- _].
  apply (cow_copy_plain d src p h3 w3 (h1, w1)) in H1; [done| |done].
  assert (not_link (h_tree h) src) as Hsrc by (apply Hp2; by rewrite H2).
  destruct (decide (book d src)) as [Hbk|Hbk]; [by apply (so_plain _ _ Hok3)|].
  by apply (look_plain_ext _ _ _ (Hl3 src Hbk)).
Qed.

(** *** Host calls on the delta *)

Lemma attempt_hostio {A} (c : IO A) (s s' : Mounted) r :
  attempt (hostio c) s = (Ok r, s') ->
  s' = ((c s.1.1).2, s.1.2, s.2) /\ (forall a, r = Ok a -> (c s.1.1).1 = Ok a).
Proof.
  unfold attempt. rewrite hostio_eq. destruct (c s.1.1) as [[a|[e| |]] h']; simpl; intros [= <- <-]; split; try done.
  by intros a' [= ->].
Qed.

Lemma host_working n d p (s : Mounted) h' : step_in d (along d p) s.1.1 h' -> working n d p s (h', s.1.2, s.2).
Proof.
  intros H. split; intros b Hb; [intros Hd|]; simpl; [|by exists b].
  split; [by exists b|]. split; [done|]. split; [done|]. split; [done|]. by intros ?%H.
Qed.

(** The copy up works along its path. *)
Lemma ensure_delta_working n br d p (s s' : Mounted) r :
  branches s.1.2 !! n = Some br -> branch_dir br = d -> store_ok d s.1.1 -> path_ok p ->
  ensure_delta_path_for_write n (show p) s.1 = (r, s'.1) -> working n d p s s'.
Proof.
  intros Hb Hd Hok Hp H. split.
  - apply (wstep_mono n d (climb d p)); [apply climb_along|].
    pose proof (ensure_delta_climb n d br (show p) p s.1) as Hk. rewrite H in Hk.
    apply Hk; [done|done|by apply delta_path_show|done].
  - pose proof (ensure_delta_wmem n (fun t => exists a, a ∈ [p] /\ t = show a) (show p) ltac:(exists p; set_solver) s.1) as Hk.
    by rewrite H in Hk.
Qed.

Lemma same_working n d p (s s' : Mounted) : s'.1 = s.1 -> working n d p s s'.
Proof. intros H. unfold working, mounted, mmem. by rewrite H. Qed.

Lemma write_at d p data h :
  not_link (h_tree h) (d ++ "files" :: p) -> step_in d (along d p) h (write (d ++ "files" :: p) data h).2.
Proof.
  intros Hp. apply step_in_at; [apply write_wf|]. intros _ r h' Hw q.
  apply write_look in Hw as (H1 & _); [|done].
  destruct (decide (q = d ++ "files" :: p)) as [->|Hq]; [|left; by apply H1].
  right. split; [apply along_own|]. split; [apply files_ne|].
  intros Hb. destruct (book_not_delta _ _ Hb). apply files_in_delta.
Qed.

(** *** Making a file *)

Lemma create_make_ok n d p mode umask (s s' : Mounted) :
  not_link (h_tree s.1.1) (d ++ "files" :: p) ->
  create_make mode umask (d ++ "files" :: p) s = (Ok (Ok tt), s') ->
  working n d p s s' /\ look (h_tree s'.1.1) (d ++ "files" :: p) = Some (KFile []).
Proof.
  intros Hp H. unfold create_make in H. apply bind_ok in H as (r1 & s1 & H1 & H).
  apply attempt_hostio in H1 as [-> _]. pose proof (ensure_parent_plain _ _ Hp) as Hp1.
  pose proof (ensure_parent_along d p s.1.1) as Hs1. set (h1 := (ensure_parent_dirs _ _).2) in *.
  destruct (negb (is_ok r1)); [done|]. apply bind_ok in H as (r2 & s2 & H2 & H).
  apply attempt_hostio in H2 as [-> Hok2]. cbn [fst snd] in *.
  pose proof (write_at d p [] h1 Hp1) as Hs2. destruct r2 as [[]|]; [|done]. specialize (Hok2 tt eq_refl).
  destruct (write _ _ h1) as [r2 h2] eqn:H2. cbn [fst snd] in *. subst r2.
  apply write_look in H2 as [_ Hc]; [|done]. cbn [is_ok negb] in H.
  apply bind_ok in H as ([] & s3 & H3 & H). unfold ret in H. injection H as <-.
  unfold set_mode_umask in H3. apply bind_ok in H3 as (r3 & s4 & H3 & H). unfold ret in H. injection H as <-.
  apply attempt_hostio in H3 as [-> _]. cbn [fst snd].
  pose proof (set_permissions_in d (along d p) (d ++ "files" :: p) (Z.land (Z.land mode (Z.lnot umask)) 4095) h2) as Hs3.
  split.
  - apply (host_working n d p s). etransitivity; [exact Hs1|]. by etransitivity.
  - destruct (set_permissions _ _ h2) as [r4 h4] eqn:H4. by rewrite (set_permissions_look _ _ _ _ _ H4).
Qed.

(** The copy up and what the callback makes of the path. *)
Lemma made_file b br p mode umask (s s1 s2 : Mounted) x :
  ready b br s -> path_ok p -> write_target_plain b (show p) s.1 ->
  ensure_delta_path_for_write b (show p) s.1 = (Ok x, s1.1) ->
  create_make mode umask x s1 = (Ok (Ok tt), s2) ->
  working b (branch_dir br) p s s2
  /\ look (h_tree s2.1.1) (branch_dir br ++ "files" :: p) = Some (KFile []).
Proof.
  intros (Hw & Hb & Hok) Hp Hplain H1 H2. pose proof (ensure_delta_working b br _ p s s1 _ Hb eq_refl Hok Hp H1) as Hm1.
  destruct s as [[h w] f]. cbn [fst snd] in *.
  pose proof (ensure_delta_returns b br _ _ _ _ _ Hb H1) as Hx. rewrite (delta_path_show (branch_dir br)) in Hx by done. subst x.
  pose proof (ensure_delta_plain b br (branch_dir br) p h w _ _ Hb eq_refl Hok Hp Hplain H1) as Hpl.
  apply (create_make_ok b (branch_dir br) p mode umask s1 s2) in H2 as (Hm & Hc); [|done].
  split; [by etransitivity|done].
Qed.

Lemma created_reply_same ip dir x ans (s s' : Mounted) r :
  created_reply ip dir x ans s = (r, s') -> s'.1 = s.1.
Proof.
  unfold created_reply. rewrite (run_bind _ _ _ _ _ (new_inode_eq ip dir s)), (run_bind _ _ _ _ _ (make_attr_eq _ x _)).
  destruct (attr_of_node _ <$> _); unfold fail, reply, ret; by intros [= _ <-].
Qed.

Lemma fail_now e (s s' : Mounted) r : fail e s = (Ok (Now r), s') -> r = RError e.
Proof. unfold fail, ret. by intros [= ->]. Qed.

(** What create, mkdir and symlink have done when the answer is an entry. *)
Lemma make_entry_inv i n dir make undo ans pl a (s s' : Mounted) :
  (forall x e, ans x <> RError e) -> get_path i (inodes s.2) = Some (place_path pl) -> place_ok pl -> name_ok n = true ->
  make_entry i n dir make undo ans s = (Ok (Now (ans a)), s') ->
  exists x s1 s2,
    ensure_delta_path_for_write (place_branch s.1.2 s.2 pl) (show (place_rel pl ++ [n])) s.1 = (Ok x, s1.1)
    /\ make x s1 = (Ok (Ok tt), s2) /\ s'.1 = s2.1.
Proof.
  intros Hans Hi Hpl Hn H. unfold make_entry in H.
  rewrite (run_bind _ _ s (Some (place_path pl)) s) in H by by (unfold inode_path, gets; rewrite Hi).
  rewrite (branch_ctx_place pl Hpl) in H.
  assert (path_ok (place_rel pl)) as Hr by (by destruct pl; apply Hpl).
  destruct pl as [q|b q]; cbn [place_rel place_branch] in *.
  - rewrite (place_class (AtRoot q) Hpl) in H. unfold make_at_root in H. rewrite child_rel_path in H by done.
    rewrite (run_bind _ _ s (branch_of_mount s.1.2 s.2) s) in H by done.
    rewrite (run_bind _ _ _ _ _ (write_denied_eq _ s)) in H. destruct (is_branch_writable _ _); [|by apply fail_now, Hans in H].
    unfold ensure_cow in H. rewrite bind_assoc, (run_bind _ _ s (branch_of_mount s.1.2 s.2) s) in H by done.
    apply ensure_cow_ok in H as (y & s1 & H & _ & H1). destruct y as [x|]; [|by apply fail_now, Hans in H].
    apply bind_ok in H as (r & s2 & H2 & H). destruct r as [[]|]; [|by apply fail_now, Hans in H].
    rewrite (run_bind _ _ _ _ _ (is_stale_eq s2)) in H.
    destruct (negb _); [by apply bind_ok in H as (? & ? & _ & ?%fail_now%Hans)|].
    exists x, s1, s2. split; [by apply H1|]. split; [done|]. by apply created_reply_same in H.
  - unfold make_in_branch in H. rewrite child_rel_path in H by done.
    rewrite (run_bind _ _ s (is_branch_valid b s.1.2) s) in H by done. destruct (is_branch_valid b s.1.2); [|by apply fail_now, Hans in H].
    rewrite (run_bind _ _ _ _ _ (write_denied_eq _ s)) in H. destruct (is_branch_writable _ _); [|by apply fail_now, Hans in H].
    apply ensure_cow_ok in H as (y & s1 & H & _ & H1). destruct y as [x|]; [|by apply fail_now, Hans in H].
    apply bind_ok in H as (r & s2 & H2 & H). destruct r as [[]|]; [|by apply fail_now, Hans in H].
    exists x, s1, s2. split; [by apply H1|]. split; [done|]. by apply created_reply_same in H.
Qed.

Lemma create_becomes i n mode umask pl br a (s s' : Mounted) :
  get_path i (inodes s.2) = Some (place_path pl) -> place_ok pl -> name_ok n = true ->
  let b := place_branch s.1.2 s.2 pl in
  let p := place_rel pl ++ [n] in
  ready b br s -> walk b [] p s.1 = true -> shown b p s.1 <> Some KDir -> write_target_plain b (show p) s.1 ->
  fuse_create i n mode umask s = (Ok (Now (RCreated a)), s') ->
  becomes b p (Some []) s s' /\ exists br', ready b br' s'.
Proof.
  intros Hi Hpl Hn b p Hr Hwalk Hd Hplain H.
  assert (world_ok s'.1.2) as Hw'.
  { pose proof (handle_keeps xstep True (OpCreate i n mode umask) I s) as Hk. cbn [handle] in Hk. rewrite H in Hk. by apply Hk, Hr. }
  apply (make_entry_inv i n false _ _ RCreated pl a s s') in H as (x & s1 & s2 & H1 & H2 & He); [|done..].
  assert (path_ok p) as Hp.
  { apply Forall_app. split; [by destruct pl; apply Hpl|by repeat constructor]. }
  destruct (made_file b br p mode umask s s1 s2 x Hr Hp Hplain H1 H2) as (Hm & Hc).
  apply (put_becomes b br p (KFile []) s s' Hr Hw' Hp Hwalk Hd); unfold working, mounted, mmem in *; by rewrite ?He.
Qed.

(** *** The worker's jobs *)

Lemma removal_reply_ok (c : MIO unit) b ip st (s s' : Mounted) :
  (let* r := attempt (mgr c) in reply_from_delete_result b ip st r) s = (Ok ROk, s') -> c s.1 = (Ok tt, s'.1).
Proof.
  intros (r & s1 & H & _ & _ & Hr)%attempt_mgr_ok. unfold reply_from_delete_result in H.
  rewrite (run_bind _ _ s1 (is_branch_valid b s1.1.2) s1) in H by done.
  assert (r = Ok tt /\ s'.1 = s1.1) as [-> ->].
  { destruct r as [[]|], st; [destruct (negb _)| |destruct (negb _)|]; unfold ret in H; simplify_eq;
      split; try done; apply bind_ok in H as (? & s2 & H2 & H); unfold ret in H; simplify_eq;
      unfold remove_inode, upd_fs, on_mem, modify in H2; by simplify_eq. }
  by apply Hr.
Qed.
Lemma delete_job_ok b rel ip st (s s' : Mounted) :
  run_job (JDelete b rel ip st) s = (Ok ROk, s') -> delete_path_in_branch b rel s.1 = (Ok tt, s'.1).
Proof. apply removal_reply_ok. Qed.

Lemma write_becomes b br p off data c k (s s' : Mounted) :
  ready b br s -> path_ok p -> walk b [] p s.1 = true -> shown b p s.1 = Some (KFile c) ->
  run_job (JWrite b (show p) off data) s = (Ok (RWritten k), s') ->
  k = Z.of_nat (length data)
  /\ becomes b p (Some (splice (Z.to_nat off) data c)) s s' /\ exists br', ready b br' s'.
Proof.
  intros Hr Hp Hwalk Hsh H%write_job_ok. pose proof Hr as (Hw & Hb & Hok).
  destruct (standing_intro b br s.1 Hw Hb Hok) as (l & r & Hst).
  destruct (write_effect b br l r p off data c s.1 s'.1 k Hst Hp Hwalk Hsh H) as (Hs & Hw' & Hk & Heff).
  split; [done|]. split; [done|]. by apply (ready_after b br s).
Qed.

(** The directories above [p] are the branch's own or inherited, as a process
    finds them. *)
Definition reachable_parents (b : string) (p : path) (s : host * World) : Prop :=
  forall br l r, standing b br l r s -> rooted br (h_tree s.1) l r p.

Lemma unlink_becomes b br p ip st k (s s' : Mounted) :
  ready b br s -> path_ok p -> walk b [] p s.1 = true -> shown b p s.1 = Some k -> k <> KDir ->
  reachable_parents b p s.1 ->
  run_job (JDelete b (show p) ip st) s = (Ok ROk, s') ->
  becomes b p None s s' /\ exists br', ready b br' s'.
Proof.
  intros Hr Hp Hwalk Hsh Hk Hroot H%delete_job_ok. pose proof Hr as (Hw & Hb & Hok).
  destruct (standing_intro b br s.1 Hw Hb Hok) as (l & r & Hst).
  destruct (delete_effect b br l r p k s.1 s'.1 Hst Hp Hwalk Hsh Hk (Hroot _ _ _ Hst) H) as (Hs & Hw' & Heff).
  split; [done|]. by apply (ready_after b br s).
Qed.

(** *** Renaming *)

Lemma resolve_for_mmem n P b p : keeps (mmem n P) (resolve_for_branch b p).
Proof.
  intros [hw f]. unfold resolve_for_branch, attempt, bind, ret. rewrite mgr_eq.
  pose proof (resolve_path_state b p hw) as Hs. destruct (resolve_path b p hw) as [r hw']. cbn [fst snd] in *. subst hw'.
  by destruct r as [?|[]].
Qed.

Lemma rename_in_delta_mmem n p q i (P : string -> Prop) :
  P (show p) -> P (show q) -> keeps (mmem n P) (rename_in_delta n (show p) (show q) i).
Proof.
  intros Hp Hq. unfold rename_in_delta, clear_destination, rename_tombstones.
  repeat (cbn beta iota; lazymatch goal with
    | |- keeps (mmem _ _) (ensure_cow_for_branch _ _) => apply ensure_cow_mmem; done
    | |- keeps (mmem _ _) (hostio _) => apply hostio_mmem
    | |- keeps (mmem _ _) (mgr (on_branch _ _)) => apply mgr_mmem, on_branch_wmem; repeat bmem_step_tac
    | |- keeps (mmem _ _) (resolve_for_branch _ _) => apply resolve_for_mmem
    | |- _ => keeps_step
    end).
Qed.

Lemma fuse_rename_becomes i n j m fl pl pl' br c (s s' : Mounted) :
  get_path i (inodes s.2) = Some (place_path pl) -> get_path j (inodes s.2) = Some (place_path pl') ->
  place_ok pl -> place_ok pl' -> name_ok n = true -> name_ok m = true ->
  let b := place_branch s.1.2 s.2 pl in
  let p := place_rel pl ++ [n] in
  let q := place_rel pl' ++ [m] in
  ready b br s -> under p q = false -> under q p = false ->
  walk b [] p s.1 = true -> shown b p s.1 = Some (KFile c) -> walk b [] q s.1 = true -> shown b q s.1 <> Some KDir ->
  fuse_rename i n j m fl s = (Ok (Now ROk), s') ->
  place_branch s.1.2 s.2 pl' = b
  /\ (forall x, path_ok x -> file_of b s'.1 x = if decide (x = q) then Some c
                                              else if decide (x = p) then None else file_of b s.1 x)
  /\ exists br', ready b br' s'.
Proof.
  intros Hi Hj Hpl Hpl' Hn Hm b p q Hr Hpq Hqp Hwp Hsh Hwq Hdq H. pose proof Hr as (Hw & Hb & Hok).
  assert (world_ok s'.1.2) as Hw'.
  { pose proof (rename_walk xstep True i n j m fl s) as Hk. rewrite H in Hk. by apply Hk. }
  apply (fuse_rename_inv i n j m fl pl pl') in H as (Hp & Hq & Hpl2 & pre & pre' & root & H); [|done..]. split; [done|].
  fold b p q in H. destruct (standing_intro b br s.1 Hw Hb Hok) as (l & r & Hst).
  destruct (rename_in_branch_ok b br p q pre pre' root fl c s s' Hw Hw' Hb Hok Hp Hq Hpq Hqp Hsh H) as (Hq' & Hp' & _).
  assert (shown b p s'.1 = None) as Hnone by (unfold shown; by rewrite Hp').
  pose proof (standing_write_base b br l r p _ s.1 Hst Hp Hsh) as Hwb.
  destruct (rename_in_branch_inv b br l r p q pre pre' root fl s s' Hw Hp Hb (sd_layers _ _ _ _ _ Hst) H) as (x & s3 & H3 & He & _).
  pose proof (rename_in_delta_mmem b p q (bool_decide (is_Some (underlay br (h_tree s.1.1) l r p)))
    (fun t => exists a, a ∈ [p; q] /\ t = show a)) as Hmem.
  specialize (Hmem ltac:(exists p; set_solver) ltac:(exists q; set_solver) s). rewrite H3 in Hmem.
  apply (rename_in_delta_ok b (branch_dir br) p q Hp Hq Hpq Hqp br l r c) in H3 as (Hs3 & Hq3 & Hp3 & _ & Hab); [|done..|apply Hst|done].
  unfold mounted, mmem in *. cbn [snd] in Hmem. rewrite <- He in *.
  assert (touches_only b br [p; q] s.1 s'.1) as Hto by by apply region_touches.
  destruct (standing_step b br l r s.1 s'.1 Hst Hw' (to_step _ _ _ _ _ Hto)) as (br' & Hst' & Hsb).
  split; [|exists br'; split; [done|]; split; [apply Hst'|apply Hst']].
  assert (files_dir br' = files_dir br) as Hfd by (unfold files_dir; by rewrite (sb_dir _ _ Hsb)).
  assert (look (h_tree s'.1.1) (files_dir br' ++ q) = Some (KFile c)) as Hq4 by by rewrite Hfd, (files_split (branch_dir br)).
  intros z Hz. case_decide as Hzq; [subst z; by apply (file_of_own b br' l r q c s'.1)|].
  case_decide as Hzp; [subst z; unfold file_of; rewrite Hnone; by destruct (walk b [] p s'.1)|].
  apply (file_frame b br l r s.1 s'.1 [p; q] Hst Hw' Hto); [| | |done|set_solver].
  - intros a [-> | ->%list_elem_of_singleton]%elem_of_cons.
    + split; [done|]. split; [done|]. split; apply nondir_bare; rewrite ?Hnone, ?Hsh; congruence.
    + split; [done|]. split; [done|]. split; apply nondir_bare; [done|rewrite Hq'; congruence].
  - intros a a' [-> | ->%list_elem_of_singleton]%elem_of_cons [-> | ->%list_elem_of_singleton]%elem_of_cons
      Hpre%under_prefix; congruence.
  - intros a y y' [-> | ->%list_elem_of_singleton]%elem_of_cons Hxy Hy; left.
    + rewrite (files_split (branch_dir br)) by done. by apply (Hab y y').
    + rewrite <- Hfd. destruct (own_walk b br' l r q s'.1 Hst' Hq) as (_ & _ & Ho); [by eexists|]. by apply (Ho y y').
Qed.

(** *** Through a handle on the delta *)

Lemma store_at d p n c c' h :
  h_tree h !! (d ++ "files" :: p) = Some n -> n_kind n = KFile c ->
  step_in d (along d p) h (store_file (d ++ "files" :: p) (Some n) c' h).2
  /\ look (h_tree (store_file (d ++ "files" :: p) (Some n) c' h).2) (d ++ "files" :: p) = Some (KFile c').
Proof.
  intros Hn Hk. set (q := d ++ "files" :: p). pose proof (store_file_look q (Some n) c' h) as Hl. split.
  - intros [Hwf Hdir Hplain]. split; [split|].
    + apply (restore_file_wf q n c' h); [done| |done]. unfold is_dir. by rewrite Hk.
    + rewrite Hl, decide_False; [done|]. apply files_ne.
    + intros x Hx. apply (look_plain_ext (h_tree h)); [|by apply Hplain]. rewrite Hl, decide_False; [done|].
      intros <-. destruct (book_not_delta _ _ Hx). apply files_in_delta.
    + intros x Hx. rewrite Hl, decide_False; [done|]. intros <-. apply Hx, along_own.
  - by rewrite Hl, decide_True.
Qed.

Lemma store_file_ok q n c h : store_file q (Some n) c h = (Ok tt, (store_file q (Some n) c h).2).
Proof. done. Qed.

Lemma file_metadata_eq h q n : h_tree h !! q = Some n -> file_metadata (handle_on q n) h = (Ok n, h).
Proof. intros Hq. unfold file_metadata. by rewrite (file_node_intact h q n (handle_on q n) Hq eq_refl). Qed.

Lemma file_store_eq h q n c' : h_tree h !! q = Some n -> file_store (handle_on q n) n c' h = store_file q (Some n) c' h.
Proof.
  intros Hq. unfold file_store. rewrite (bind_step _ _ h (h_tree h) h) by done.
  by rewrite (file_at_intact _ q n (handle_on q n) Hq eq_refl).
Qed.

Lemma file_len_eq h q n c : h_tree h !! q = Some n -> n_kind n = KFile c ->
  file_len_or_0 (handle_on q n) h = (Ok (Z.of_nat (length c)), h).
Proof.
  intros Hq Hk. unfold file_len_or_0, attempt, bind, ret. rewrite (file_metadata_eq _ _ _ Hq). unfold node_len. by rewrite Hk.
Qed.

(** The file behind a handle gets new contents. *)
Lemma set_len_at d p n c len h :
  h_tree h !! (d ++ "files" :: p) = Some n -> n_kind n = KFile c ->
  let h' := (file_set_len (handle_on (d ++ "files" :: p) n) len h).2 in
  step_in d (along d p) h h' /\ look (h_tree h') (d ++ "files" :: p) = Some (KFile (resize_bytes (Z.to_nat len) c)).
Proof.
  intros Hn Hk. unfold file_set_len. rewrite (bind_step _ _ h n h), Hk, file_store_eq by (done || by apply file_metadata_eq).
  by apply store_at with c.
Qed.

Lemma write_through_at d p n c off data k h h' :
  h_tree h !! (d ++ "files" :: p) = Some n -> n_kind n = KFile c ->
  file_write (handle_on (d ++ "files" :: p) n) off data h = (Ok k, h') ->
  step_in d (along d p) h h' /\ k = Z.of_nat (length data)
  /\ look (h_tree h') (d ++ "files" :: p) = Some (KFile (splice (Z.to_nat off) data c)).
Proof.
  intros Hn Hk H. unfold file_write in H. destruct (negb (seekable off)); [done|].
  rewrite (bind_step _ _ h n h) in H by by apply file_metadata_eq.
  assert (node_data (Some n) = c) as Hc by (destruct n; simpl in *; by subst). rewrite Hc in H. case_bool_decide as Hd; cbn [negb when] in H.
  - unfold bind, ret in H. injection H as <- <-. subst data. split; [done|]. split; [done|]. unfold look. rewrite Hn. simpl. by rewrite Hk.
  - apply bind_ok in H as ([] & h1 & H1 & H). unfold ret in H. injection H as <- <-.
    rewrite file_store_eq in H1 by done.
    destruct (store_at d p n c (splice (Z.to_nat off) data c) h Hn Hk) as [Hs Hl]. rewrite H1 in Hs, Hl. done.
Qed.


(** The quota's counters are memory of the manager. *)
Lemma room_same (c : MIO unit) (s s1 : Mounted) r (b : bool) z :
  c = (if b then check_quota z else ret tt) -> attempt (mgr c) s = (Ok r, s1) -> s1 = s.
Proof.
  intros -> H. destruct s as [hw f]. unfold attempt in H. rewrite mgr_eq in H.
  assert (((if b then check_quota z else ret tt) hw).2 = hw) as Hs.
  { destruct b; [|done]. destruct (check_quota z hw) as [x y] eqn:Hy. by apply check_quota_same in Hy. }
  destruct ((if b then check_quota z else ret tt) hw) as [[|[]] hw']; simpl in *; by simplify_eq.
Qed.

Lemma charge_working n d p (c : MIO unit) (s s1 : Mounted) r :
  keeps (wstep n d (along d p)) c -> (forall P, keeps (wmem n P) c) -> keeps (fun s s' => s'.1 = s.1) c ->
  mgr c s = (r, s1) -> working n d p s s1 /\ s1.1.1 = s.1.1.
Proof.
  intros H1 H2 H3 H. destruct s as [hw f]. rewrite mgr_eq in H. injection H as _ <-.
  split; [split|]; unfold mounted, mmem; cbn [fst snd]; [apply H1|apply H2|apply H3].
Qed.

Lemma write_handle_ok b d p n c off old data recheck k (s s' : Mounted) :
  h_tree s.1.1 !! (d ++ "files" :: p) = Some n -> n_kind n = KFile c ->
  write_handle (handle_on (d ++ "files" :: p) n) off old data recheck s = (Ok (Now (RWritten k)), s') ->
  working b d p s s' /\ k = Z.of_nat (length data)
  /\ look (h_tree s'.1.1) (d ++ "files" :: p) = Some (KFile (splice (Z.to_nat off) data c)).
Proof.
  intros Hn Hk H. unfold write_handle in H. apply bind_ok in H as (room & s1 & H1 & H).
  apply (room_same _ _ _ _ _ _ eq_refl) in H1 as ->. destruct (negb (is_ok room)); [by apply fail_now in H|].
  apply bind_ok in H as (w & s1 & H1 & H). apply attempt_hostio in H1 as [-> Hw].
  destruct w as [k'|]; [|by apply fail_now in H]. specialize (Hw k' eq_refl).
  destruct (file_write _ off data s.1.1) as [r h'] eqn:Hfw. cbn [fst snd] in *. subst r.
  destruct (write_through_at d p n c off data k' s.1.1 h' Hn Hk Hfw) as (Hs & Hk' & Hl).
  pose proof (host_working b d p s h' Hs) as Hwk. set (s1 := (h', s.1.2, s.2) : Mounted) in *.
  apply bind_ok in H as (stale & s2 & H2 & H).
  assert (s2.1 = s1.1) as He.
  { destruct recheck; [rewrite is_stale_eq in H2|unfold ret in H2]; injection H2 as _ <-; done. }
  destruct stale; [by apply fail_now in H|]. apply bind_ok in H as ([] & s3 & H3 & H).
  unfold reply, ret in H. injection H as <- <-.
  apply (charge_working b d p) in H3 as [Hwk3 He3];
    [|keeps_auto|intros P; keeps_auto|intros hw; by destruct (old <? off + k')%Z].
  split; [|split; [done|by rewrite He3, He]].
  etransitivity; [exact Hwk|]. etransitivity; [by apply (same_working b d p)|done].
Qed.

(** The handle a write is cached with is one on the branch's own file. *)
Definition fresh_handle (i : Z) (br : Branch) (p : path) (s : Mounted) : Prop :=
  forall file, cache_get i (epoch s.1.2) (write_cache s.2) = Some file ->
    exists n, h_tree s.1.1 !! (files_dir br ++ p) = Some n /\ file = handle_on (files_dir br ++ p) n.

(** Which way a write goes. *)
Lemma fuse_write_inv i pl o data fl k (s s' : Mounted) :
  get_path i (inodes s.2) = Some (place_path pl) -> numbers_ok s.2 ->
  fuse_write i o data fl s = (Ok (Now (RWritten k)), s') ->
  (0 <= o)%Z /\ exists s1, s1.1 = s.1 /\ inodes s1.2 = inodes s.2 /\ mountpoint s1.2 = mountpoint s.2
    /\ match cache_get i (epoch s.1.2) (write_cache s.2) with
       | Some file => write_cached file fl o data s1
       | None => write_slow i (epoch s.1.2) fl o data s1
       end = (Ok (Now (RWritten k)), s').
Proof.
  intros Hi Hf H. unfold fuse_write in H.
  set (s0 := (s.1, with_caches (invalidate_ino i (open_cache s.2)) (write_cache s.2) s.2) : Mounted).
  rewrite (run_bind _ _ s tt s0), (run_bind _ _ s0 s0.2 s0), bool_decide_false in H by (done || by eapply table_not_ctl).
  rewrite (run_bind _ _ _ _ _ (branch_for_ctl_eq i s0)) in H.
  change (branch_ctl_inodes s0.2) with (branch_ctl_inodes s.2) in H.
  rewrite (table_not_branch_ctl _ Hf _ _ Hi), (run_bind _ _ _ _ _ (is_stale_eq s0)) in H.
  destruct (negb _); [by apply fail_now in H|]. destruct (o <? 0)%Z eqn:Ho; [by apply fail_now in H|].
  apply Z.ltb_ge in Ho. split; [done|]. exists (synced s0). split; [done|]. split; [done|]. split; [done|].
  rewrite (run_bind _ _ (synced s0) (synced s0).2 (synced s0)) in H by done.
  change (current_epoch (synced s0).2) with (epoch s.1.2) in H. change (write_cache (synced s0).2) with (write_cache s.2) in H.
  by destruct (cache_get i (epoch s.1.2) (write_cache s.2)).
Qed.

Lemma write_slow_inv i e pl o data fl k (s s' : Mounted) :
  get_path i (inodes s.2) = Some (place_path pl) -> place_ok pl ->
  write_slow i e fl o data s = (Ok (Now (RWritten k)), s') ->
  exists root, write_path i e (place_branch s.1.2 s.2 pl) (show (place_rel pl)) root fl o data s = (Ok (Now (RWritten k)), s').
Proof.
  intros Hi Hpl H. unfold write_slow in H.
  rewrite (run_bind _ _ s (Some (place_path pl)) s) in H by by (unfold inode_path, gets; rewrite Hi).
  rewrite (place_class pl Hpl) in H. destruct pl as [p|b [|c0 p]]; cbn [place_rel place_branch] in *.
  - rewrite (run_bind _ _ s (branch_of_mount s.1.2 s.2) s) in H by done. by exists true.
  - by apply fail_now in H.
  - rewrite (run_bind _ _ _ _ _ (write_denied_eq b s)) in H. destruct (is_branch_writable b s.1.2); [|done].
    rewrite (run_bind _ _ s (is_branch_valid b s.1.2) s) in H by done. destruct (is_branch_valid b s.1.2); [|done].
    by exists false.
Qed.

Lemma look_node t q k : look t q = Some k -> exists n, t !! q = Some n /\ n_kind n = k.
Proof. unfold look. intros (n & ? & ?)%fmap_Some. eauto. Qed.

(** Opening a file that is there makes nothing. *)
Lemma file_open_create_eq h q n c :
  h_tree h !! q = Some n -> n_kind n = KFile c -> file_open_create q h = (Ok (handle_on q n), h).
Proof.
  intros Hn Hk. unfold file_open_create. rewrite (bind_step _ _ h (q, Some n) h).
  - rewrite (bind_step _ _ h tt h) by done. unfold handle_of. by rewrite (bind_step _ _ h n h) by by apply symlink_metadata_eq.
  - unfold open_write. rewrite (bind_step _ _ h q h), (bind_step _ _ h (h_tree h) h), Hn; [|done|].
    + unfold is_dir. by rewrite Hk.
    + apply (real_path_file h q n Hn). unfold is_symlink. by rewrite Hk.
Qed.

Lemma write_path_now i e b br p root fl o data c k (s s' : Mounted) :
  ready b br s -> path_ok p -> shown b p s.1 = Some (KFile c) ->
  (0 <= o)%Z -> (Z.of_nat (length c) < 2 ^ 63)%Z ->
  write_path i e b (show p) root fl o data s = (Ok (Now (RWritten k)), s') ->
  working b (branch_dir br) p s s' /\ k = Z.of_nat (length data)
  /\ look (h_tree s'.1.1) (branch_dir br ++ "files" :: p) = Some (KFile (splice (Z.to_nat (write_offset fl o c)) data c)).
Proof.
  intros (Hw & Hb & Hok) Hp Hsh Ho Hc H. destruct (standing_intro b br s.1 Hw Hb Hok) as (l & r & Hst).
  pose proof (standing_write_base b br l r p _ s.1 Hst Hp Hsh) as Hwb. unfold write_path in H.
  assert (exists q n, resolve_for_branch b (show p) s = (Ok (Some q), s) /\ h_tree s.1.1 !! q = Some n /\ n_kind n = KFile c)
    as (q & n & Hres & Hq & Hk).
  { destruct s as [[h w] f]. apply shown_node in Hsh as (q & n & Hres & Hq & Hk). exists q, n.
    split; [by apply resolve_for_branch_eq|done]. }
  rewrite (run_bind _ _ _ _ _ (append_len_eq b (show p) q n c fl s Hres Hq Hk)), effective_offset_eq in H by done.
  destruct (has_delta_total b (show p) s) as [dd Hd]. rewrite (run_bind _ _ _ _ _ Hd) in H.
  destruct dd; cbn [negb] in H; [|done].
  apply ensure_cow_ok in H as (y & s1 & H & _ & H1). destruct y as [x|]; [|by apply fail_now in H].
  specialize (H1 x eq_refl). pose proof (ensure_delta_working b br _ p s s1 _ Hb eq_refl Hok Hp H1) as Hm1.
  assert (x = branch_dir br ++ "files" :: p /\ look (h_tree s1.1.1) (branch_dir br ++ "files" :: p) = Some (KFile c)) as [-> Hc1].
  { destruct s as [[h w] f]. by apply (ensure_delta_file b (branch_dir br) br l r p c) in H1; [..|apply Hst|]. }
  destruct (look_node _ _ _ Hc1) as (n1 & Hn1 & Hk1).
  apply bind_ok in H as (r2 & s2 & H2 & H). apply attempt_hostio in H2 as [-> Hop].
  rewrite (file_open_create_eq _ _ n1 c) in Hop, H by done. destruct r2 as [file|]; [|by apply fail_now in H].
  specialize (Hop file eq_refl). cbn [fst] in Hop. injection Hop as <-.
  apply bind_ok in H as ([] & s2 & H2 & H). unfold upd_fs, modify in H2. injection H2 as <-.
  apply bind_ok in H as (f2 & s2 & H2 & H). unfold get_fs, gets in H2. injection H2 as <- <-.
  cbn [snd write_cache with_caches] in H. rewrite cache_get_insert in H.
  apply bind_ok in H as (len & s2 & H2 & H). rewrite hostio_eq in H2. cbn [fst snd] in H2.
  rewrite (file_len_eq _ _ _ c) in H2 by done. cbn [fst snd] in H2. injection H2 as <- <-.
  apply (write_handle_ok b (branch_dir br) p n1 c _ _ data root k) in H as (Hm2 & Hk2 & Hl); [|done..].
  split; [|done]. etransitivity; [exact Hm1|]. etransitivity; [|exact Hm2]. by apply same_working; destruct s1 as [[] ].
Qed.

Lemma write_cached_now b d p n fl o data c k (s s' : Mounted) :
  h_tree s.1.1 !! (d ++ "files" :: p) = Some n -> n_kind n = KFile c ->
  (0 <= o)%Z -> (Z.of_nat (length c) < 2 ^ 63)%Z ->
  write_cached (handle_on (d ++ "files" :: p) n) fl o data s = (Ok (Now (RWritten k)), s') ->
  working b d p s s' /\ k = Z.of_nat (length data)
  /\ look (h_tree s'.1.1) (d ++ "files" :: p) = Some (KFile (splice (Z.to_nat (write_offset fl o c)) data c)).
Proof.
  intros Hn Hk Ho Hc H. unfold write_cached in H. apply bind_ok in H as (len & s1 & H1 & H). rewrite hostio_eq in H1.
  rewrite (file_len_eq _ _ _ c) in H1 by done. cbn [fst snd] in H1. injection H1 as <- <-.
  assert (effective_write_offset fl o (Some (Z.of_nat (length c))) = Ok (write_offset fl o c)) as He.
  { unfold effective_write_offset, write_offset. rewrite (proj2 (Z.ltb_ge _ _)) by done.
    destruct (flag_set fl O_APPEND); simpl; [|done]. by rewrite (proj2 (Z.ltb_lt _ _)). }
  rewrite He in H. destruct s as [[h w] f]. by apply (write_handle_ok b d p n c) in H.
Qed.

(** A write the callback does itself, on a file of the branch's own. *)
Lemma write_now_becomes i pl br o data fl c k (s s' : Mounted) :
  get_path i (inodes s.2) = Some (place_path pl) -> place_ok pl -> numbers_ok s.2 ->
  let b := place_branch s.1.2 s.2 pl in
  let p := place_rel pl in
  ready b br s -> walk b [] p s.1 = true -> shown b p s.1 = Some (KFile c) -> (Z.of_nat (length c) < 2 ^ 63)%Z ->
  fresh_handle i br p s ->
  fuse_write i o data fl s = (Ok (Now (RWritten k)), s') ->
  k = Z.of_nat (length data)
  /\ becomes b p (Some (splice (Z.to_nat (write_offset fl o c)) data c)) s s' /\ exists br', ready b br' s'.
Proof.
  intros Hi Hpl Hf b p Hr Hwalk Hsh Hc Hfresh H. pose proof Hr as (Hw & Hb & Hok).
  assert (world_ok s'.1.2) as Hw'.
  { pose proof (handle_keeps xstep True (OpWrite i o data fl) I s) as Hk. cbn [handle] in Hk. rewrite H in Hk. by apply Hk. }
  assert (path_ok p) as Hp by by destruct pl; apply Hpl.
  apply (fuse_write_inv i pl) in H as (Ho & s1 & H1 & H2 & H3 & H); [|done..].
  assert (working b (branch_dir br) p s s' /\ k = Z.of_nat (length data)
    /\ look (h_tree s'.1.1) (branch_dir br ++ "files" :: p)
       = Some (KFile (splice (Z.to_nat (write_offset fl o c)) data c))) as (Hm & Hk & Hl).
  { enough (working b (branch_dir br) p s1 s' /\ k = Z.of_nat (length data)
      /\ look (h_tree s'.1.1) (branch_dir br ++ "files" :: p)
         = Some (KFile (splice (Z.to_nat (write_offset fl o c)) data c))) as [Hm Hrest].
    { split; [|done]. etransitivity; [by apply same_working|done]. }
    destruct (cache_get i (epoch s.1.2) (write_cache s.2)) as [file|] eqn:Hcache.
    - destruct (Hfresh file Hcache) as (n & Hn & ->). rewrite (files_split (branch_dir br)) in * by done.
      apply (write_cached_now b (branch_dir br) p n fl o data c k s1 s'); [by rewrite H1| |done..|done].
      destruct (standing_intro b br s.1 Hw Hb Hok) as (l & r & Hst).
      rewrite (shown_shows b br l r p s.1 Hst Hp) in Hsh. unfold shows in Hsh.
      assert (look (h_tree s.1.1) (files_dir br ++ p) = Some (n_kind n)) as Hk.
      { unfold look. by rewrite (files_split (branch_dir br)), Hn by done. }
      rewrite Hk in Hsh. by injection Hsh.
    - apply (write_slow_inv _ _ pl) in H as [root H]; [|by rewrite H2|done].
      assert (place_branch s1.1.2 s1.2 pl = b) as Hbr.
      { unfold b, place_branch, branch_of_mount. destruct pl; [|done]. by rewrite H1, H3. }
      rewrite Hbr in H. apply (write_path_now i (epoch s.1.2) b br p root fl o data c k s1 s'); try done.
      + unfold ready. by rewrite H1.
      + by rewrite H1. }
  split; [done|]. apply (put_becomes b br p (KFile _) s s' Hr Hw' Hp Hwalk); [by rewrite Hsh|done..].
Qed.

(** *** Truncating *)

Lemma file_open_existing_eq h q n c :
  h_tree h !! q = Some n -> n_kind n = KFile c -> file_open_existing q h = (Ok (handle_on q n), h).
Proof.
  intros Hn Hk. unfold file_open_existing. rewrite (bind_step _ _ h q h).
  - rewrite (bind_step _ _ h n h) by by apply symlink_metadata_eq. unfold is_dir. rewrite Hk. unfold handle_of.
    by rewrite (bind_step _ _ h n h) by by apply symlink_metadata_eq.
  - apply (real_path_file h q n Hn). unfold is_symlink. by rewrite Hk.
Qed.

Lemma attempt_hostio_eq {A} (c : IO A) a h' (s : Mounted) :
  c s.1.1 = (Ok a, h') -> attempt (hostio c) s = (Ok (Ok a), (h', s.1.2, s.2)).
Proof. intros H. unfold attempt. by rewrite hostio_eq, H. Qed.

Lemma truncate_delta_ok b d p len c (s s' : Mounted) :
  look (h_tree s.1.1) (d ++ "files" :: p) = Some (KFile c) ->
  truncate_delta (d ++ "files" :: p) len s = (Ok None, s') ->
  working b d p s s' /\ look (h_tree s'.1.1) (d ++ "files" :: p) = Some (KFile (resize_bytes (Z.to_nat len) c)).
Proof.
  intros Hc H. destruct (look_node _ _ _ Hc) as (n & Hn & Hk). unfold truncate_delta in H.
  rewrite (run_bind _ _ _ _ _ (attempt_hostio_eq _ _ _ s (file_open_existing_eq _ _ n c Hn Hk))) in H.
  apply bind_ok in H as (old & s1 & H1 & H). rewrite hostio_eq in H1. cbn [fst snd] in H1.
  rewrite (file_len_eq _ _ _ c) in H1 by done. cbn [fst snd] in H1. injection H1 as <- <-.
  apply bind_ok in H as (room & s1 & H1 & H). apply (room_same _ _ _ _ _ _ eq_refl) in H1 as ->.
  destruct (negb (is_ok room)); [done|]. apply bind_ok in H as (r & s1 & H1 & H).
  apply attempt_hostio in H1 as [-> _]. cbn [fst snd] in H.
  destruct (set_len_at d p n c len s.1.1 Hn Hk) as [Hs Hl].
  set (h' := (file_set_len _ len s.1.1).2) in *. pose proof (host_working b d p s h' Hs) as Hm.
  apply bind_ok in H as ([] & s2 & H2 & H). unfold ret in H. injection H as <-.
  apply (charge_working b d p) in H2 as [Hm2 He2]; [|destruct (_ <? len)%Z; keeps_auto|intros P; destruct (_ <? len)%Z; keeps_auto|].
  - split; [by etransitivity|]. by rewrite He2.
  - intros hw. destruct (_ <? len)%Z; [done|]. by destruct (len <? _)%Z.
Qed.

Lemma ensure_delta_keeps_own n b d p k (s : host * World) :
  branches s.2 !! n = Some b -> branch_dir b = d -> store_ok d s.1 -> path_ok p ->
  look (h_tree s.1) (d ++ "files" :: p) = Some k ->
  look (h_tree (ensure_delta_path_for_write n (show p) s).2.1) (d ++ "files" :: p) = Some k.
Proof.
  intros Hb Hd Hok Hp Hk. destruct s as [h w]. cbn [fst snd] in *. unfold ensure_delta_path_for_write.
  rewrite (writable_at n _ h w b Hb). destruct (is_writable b); [|done].
  rewrite (delta_path_show d b p Hd Hp), stat_at. destruct (look_node _ _ _ Hk) as (m & -> & _). cbn [is_ok negb when].
  rewrite (run_bind _ _ _ tt (h, w)) by done. unfold bind at 1.
  destruct (on_branch n (remove_tombstone (show p)) (h, w)) as [r [h1 w1]] eqn:H1.
  apply (on_branch_book n d _ _ _ b) in H1 as [Hs1 _]; [|auto with keeps|done|done].
  destruct (book_keeps_delta d _ _ p Hok Hs1) as [_ Hl1]. rewrite <- Hl1 in Hk.
  destruct r as [[]|]; [|done]. unfold bind, on_host, zoom, ret. cbn [fst snd].
  destruct (ensure_parent_dirs _ h1) as [r2 h2] eqn:H2. pose proof (ensure_parent_keeps _ _ _ _ _ _ H2 Hk). by destruct r2.
Qed.

(** Attributes leave contents alone. *)
Lemma alter_node_same p f :
  (forall z n, n_kind (f z n) = n_kind n) -> keeps same_look (alter_node p f).
Proof.
  intros Hf h q. unfold alter_node, real_path, symlink_metadata, get_tree, io_error, throw, raise, ret, gets, modify, bind.
  destruct (follow _ _ _) as [[x ?]|]; [|done]. destruct (h_tree h !! x) as [m|] eqn:Hm; [|done]. simpl.
  unfold look. destruct (decide (x = q)) as [->|Hx].
  - rewrite lookup_alter_eq, Hm. simpl. by rewrite Hf.
  - by rewrite lookup_alter_ne.
Qed.

Definition attributes_only (s s' : Mounted) : Prop := s'.1.2 = s.1.2 /\ same_look s.1.1 s'.1.1.
#[local] Instance attributes_only_preorder : PreOrder attributes_only.
Proof. split; [by intros s; split|]. intros a b c [H1 H2] [H3 H4]. split; [congruence|by etransitivity]. Qed.

Lemma hostio_attributes {A} (c : IO A) : keeps same_look c -> keeps attributes_only (hostio c).
Proof. intros Hc s. rewrite hostio_eq. split; [done|apply Hc]. Qed.

Lemma apply_setattr_attributes q a : keeps attributes_only (apply_setattr q a).
Proof.
  unfold apply_setattr.
  repeat (cbn beta iota; lazymatch goal with
    | |- keeps attributes_only (hostio (set_permissions _ _)) => apply hostio_attributes, set_permissions_same
    | |- keeps attributes_only (hostio (alter_node _ _)) => apply hostio_attributes, alter_node_same; by intros z [[]]
    | |- _ => keeps_step
    end).
Qed.

Lemma attributes_working n d p (s s' : Mounted) :
  attributes_only s s' -> working n d p s s'.
Proof.
  intros [Hw Hl]. destruct s' as [[h' w'] f']. cbn [fst snd] in *. subst w'.
  etransitivity; [apply (host_working n d p s h')|by apply same_working].
  intros [Hwf Hdir Hplain]. split; [|done]. split; [by eapply wf_look_ext|by rewrite Hl|].
  intros q Hq target. rewrite Hl. by apply Hplain.
Qed.

Lemma setattr_attributes_ok b br p a c (s s' : Mounted) :
  branches s.1.2 !! b = Some br -> store_ok (branch_dir br) s.1.1 -> path_ok p ->
  look (h_tree s.1.1) (branch_dir br ++ "files" :: p) = Some (KFile c) ->
  setattr_attributes b (show p) a s = (Ok tt, s') ->
  working b (branch_dir br) p s s' /\ look (h_tree s'.1.1) (branch_dir br ++ "files" :: p) = Some (KFile c).
Proof.
  intros Hb Hok Hp Hc H. unfold setattr_attributes in H. destruct (wants_attributes a).
  2:{ unfold ret in H. by injection H as <-. }
  apply ensure_cow_ok in H as (y & s1 & H & H1 & Hr).
  pose proof (ensure_delta_keeps_own b br _ p _ s.1 Hb eq_refl Hok Hp Hc) as Hc1. rewrite <- H1 in Hc1.
  assert (working b (branch_dir br) p s s1) as Hm1.
  { apply (ensure_delta_working b br _ p s s1 (ensure_delta_path_for_write b (show p) s.1).1 Hb eq_refl Hok Hp).
    rewrite H1. by destruct (ensure_delta_path_for_write b (show p) s.1). }
  destruct y as [x|]; [|unfold ret in H; by injection H as <-].
  pose proof (ensure_delta_returns b br (show p) s.1.1 s.1.2 x s1.1 Hb) as Hx.
  rewrite (delta_path_show (branch_dir br)) in Hx by done.
  assert (x = branch_dir br ++ "files" :: p) as ->.
  { apply Hx. rewrite <- (Hr x eq_refl). by destruct s as [[]]. }
  pose proof (apply_setattr_attributes (branch_dir br ++ "files" :: p) a s1) as Ha. rewrite H in Ha. cbn [snd] in Ha.
  split; [etransitivity; [exact Hm1|by apply attributes_working]|]. destruct Ha as [_ ->]. done.
Qed.

(** Copying up a file the branch shows. *)
Lemma cow_file b br p c {B} (k : res (option errno) path -> FIO B) (s s' : Mounted) y :
  ready b br s -> path_ok p -> shown b p s.1 = Some (KFile c) ->
  is_ok (ensure_delta_path_for_write b (show p) s.1).1 = true ->
  bind (ensure_cow_for_branch b (show p)) k s = (Ok y, s') ->
  exists s1, k (Ok (branch_dir br ++ "files" :: p)) s1 = (Ok y, s') /\ working b (branch_dir br) p s s1
    /\ look (h_tree s1.1.1) (branch_dir br ++ "files" :: p) = Some (KFile c) /\ s1.2 = s.2.
Proof.
  intros (Hw & Hb & Hok) Hp Hsh Hroom H. destruct (standing_intro b br s.1 Hw Hb Hok) as (l & r & Hst).
  pose proof (standing_write_base b br l r p _ s.1 Hst Hp Hsh) as Hwb.
  unfold ensure_cow_for_branch in H. rewrite bind_assoc in H.
  destruct (ensure_delta_path_for_write b (show p) s.1) as [[x|] hw] eqn:He; [|done].
  pose proof (ensure_delta_working b br _ p s (hw, s.2) _ Hb eq_refl Hok Hp He) as Hm1.
  rewrite (run_bind _ _ s (Ok x) (hw, s.2)) in H.
  2:{ destruct s as [hw0 f]. unfold attempt. rewrite mgr_eq. cbn [fst snd] in *. by rewrite He. }
  rewrite (run_bind _ _ (hw, s.2) (Ok x) (hw, s.2)) in H by done.
  destruct s as [[h w] f]. cbn [fst snd] in *.
  apply (ensure_delta_file b (branch_dir br) br l r p c) in He as [-> Hc1]; [|done..|apply Hst|done]. by eexists.
Qed.

Lemma setattr_size_ok b br p len c (s s' : Mounted) :
  ready b br s -> path_ok p -> shown b p s.1 = Some (KFile c) ->
  is_ok (ensure_delta_path_for_write b (show p) s.1).1 = true ->
  setattr_size b (show p) (Some len) s = (Ok None, s') ->
  working b (branch_dir br) p s s'
  /\ look (h_tree s'.1.1) (branch_dir br ++ "files" :: p) = Some (KFile (resize_bytes (Z.to_nat len) c)).
Proof.
  intros Hr Hp Hsh Hroom H. unfold setattr_size in H.
  apply (cow_file b br p c) in H as (s1 & H & Hm1 & Hc1 & _); [|done..].
  apply (truncate_delta_ok b (branch_dir br) p len c) in H as [Hm2 Hl]; [|done]. split; [by etransitivity|done].
Qed.

Lemma setattr_reply_same i b rel (s s' : Mounted) r : setattr_reply i b rel s = (Ok r, s') -> s' = s.
Proof.
  unfold setattr_reply. intros (o & s1 & H1 & H)%bind_ok. apply resolve_for_branch_state in H1 as [-> _].
  destruct o as [q|]; [|unfold fail, ret in H; by injection H]. unfold reply_attr in H.
  rewrite (run_bind _ _ _ _ _ (make_attr_eq _ _ _)) in H. destruct (_ <$> _); unfold fail, reply, ret in H; by injection H.
Qed.

(** The two steps of a change of attributes or length that is answered. *)
Lemma setattr_inv i pl a at0 (s s' : Mounted) :
  get_path i (inodes s.2) = Some (place_path pl) -> place_ok pl -> numbers_ok s.2 ->
  fuse_setattr i a s = (Ok (Now (RAttr at0)), s') ->
  let b := place_branch s.1.2 s.2 pl in
  let p := place_rel pl in
  exists s1 s2 s3, s1.1 = s.1 /\ setattr_size b (show p) (sa_size a) s1 = (Ok None, s2)
    /\ setattr_attributes b (show p) a s2 = (Ok tt, s3) /\ s'.1 = s3.1.
Proof.
  intros Hi Hpl Hf H b p. unfold fuse_setattr in H.
  set (g := fun f => with_caches (invalidate_ino i (open_cache f)) (invalidate_ino i (write_cache f)) f) in *.
  set (s1 := (s.1, if bool_decide (is_Some (sa_size a)) then g s.2 else s.2) : Mounted).
  assert (inodes s1.2 = inodes s.2 /\ branch_ctl_inodes s1.2 = branch_ctl_inodes s.2
    /\ place_branch s1.1.2 s1.2 pl = place_branch s.1.2 s.2 pl) as (Hin & Hctl & Hpb).
  { subst s1 g. cbn [snd fst]. by case_bool_decide. }
  rewrite (run_bind _ _ s tt s1), bool_decide_false in H by ((by eapply table_not_ctl) || (subst s1 g; destruct s; by case_bool_decide)).
  rewrite (run_bind _ _ _ _ _ (branch_for_ctl_eq i s1)), Hctl, (table_not_branch_ctl _ Hf _ _ Hi) in H.
  rewrite (run_bind _ _ s1 (Some (place_path pl)) s1) in H by (unfold inode_path, gets; by rewrite Hin, Hi).
  rewrite (place_class pl Hpl) in H.
  assert (forall e, exists o, setattr_denied e a s1 = (Ok o, s1)) as Hden.
  { intros e. unfold setattr_denied. destruct (_ || _); by eexists. }
  destruct pl as [q|b' [|c0 q]]; cbn [place_rel place_branch place_path] in *; [|by apply fail_now in H|].
  - unfold setattr_root_path in H. rewrite (run_bind _ _ s1 b s1) in H by exact (f_equal (fun x => (Ok x, s1)) Hpb).
    destruct (Hden b) as [o Ho]. rewrite (run_bind _ _ _ _ _ Ho) in H. destruct o; [by apply fail_now in H|].
    apply bind_ok in H as (full & s2 & H2 & H). destruct full; [by apply fail_now in H|].
    apply bind_ok in H as ([] & s3 & H3 & H). rewrite (run_bind _ _ _ _ _ (is_stale_eq s3)) in H.
    destruct (negb _); [by apply fail_now in H|]. apply setattr_reply_same in H as ->. by exists s1, s2, s3.
  - unfold setattr_branch_path in H. destruct (Hden b') as [o Ho]. rewrite (run_bind _ _ _ _ _ Ho) in H.
    destruct o; [by apply fail_now in H|].
    rewrite (run_bind _ _ s1 (is_branch_valid b' s.1.2) s1) in H by done.
    destruct (is_branch_valid b' s.1.2); [|by apply fail_now in H].
    apply bind_ok in H as (full & s2 & H2 & H). destruct full; [by apply fail_now in H|].
    apply bind_ok in H as ([] & s3 & H3 & H). apply setattr_reply_same in H as ->. by exists s1, s2, s3.
Qed.

Lemma truncate_becomes i pl br a len at0 c (s s' : Mounted) :
  get_path i (inodes s.2) = Some (place_path pl) -> place_ok pl -> numbers_ok s.2 -> sa_size a = Some len ->
  let b := place_branch s.1.2 s.2 pl in
  let p := place_rel pl in
  ready b br s -> walk b [] p s.1 = true -> shown b p s.1 = Some (KFile c) ->
  is_ok (ensure_delta_path_for_write b (show p) s.1).1 = true ->
  fuse_setattr i a s = (Ok (Now (RAttr at0)), s') ->
  becomes b p (Some (resize_bytes (Z.to_nat len) c)) s s' /\ exists br', ready b br' s'.
Proof.
  intros Hi Hpl Hf Ha b p Hr Hwalk Hsh Hroom H. pose proof Hr as (Hw & Hb & Hok).
  assert (world_ok s'.1.2) as Hw'.
  { pose proof (setattr_walk xstep True i a s) as Hk. rewrite H in Hk. by apply Hk. }
  assert (path_ok p) as Hp by by destruct pl; apply Hpl.
  apply (setattr_inv i pl a) in H as (s1 & s2 & s3 & He & H1 & H2 & He'); [|done..]. fold b p in H1, H2. rewrite Ha in H1.
  rewrite <- He in Hsh, Hroom. assert (ready b br s1) as Hr1 by (unfold ready; by rewrite He).
  destruct (setattr_size_ok b br p len c s1 s2 Hr1 Hp Hsh Hroom H1) as [Hm1 Hl1].
  destruct (Hm1) as [Hst1 _]. destruct Hr1 as (_ & Hb1 & Hok1).
  destruct (wstep_use b _ _ br _ _ Hst1 Hb1 eq_refl Hok1) as [(br2 & Hb2 & _ & Hd2) Hok2]. rewrite <- Hd2 in Hok2, Hl1.
  destruct (setattr_attributes_ok b br2 p a _ s2 s3 Hb2 Hok2 Hp Hl1 H2) as [Hm2 Hl2]. rewrite Hd2 in Hm2, Hl2.
  apply (put_becomes b br p (KFile _) s s' Hr Hw' Hp Hwalk); [rewrite <- He; by rewrite Hsh| |by rewrite He'|done].
  etransitivity; [by apply (same_working b _ p s s1)|]. etransitivity; [exact Hm1|]. etransitivity; [exact Hm2|].
  by apply same_working.
Qed.

(** *** Links and directories *)

Lemma symlink_make_ok n d p target (s s' : Mounted) :
  symlink_make target (d ++ "files" :: p) s = (Ok (Ok tt), s') ->
  working n d p s s' /\ look (h_tree s'.1.1) (d ++ "files" :: p) = Some (KSymlink target).
Proof.
  intros H. unfold symlink_make in H. apply bind_ok in H as (r1 & s1 & H1 & H).
  apply attempt_hostio in H1 as [-> _]. pose proof (ensure_parent_along d p s.1.1) as Hs1.
  set (h1 := (ensure_parent_dirs _ _).2) in *. destruct (negb (is_ok r1)); [done|].
  apply bind_ok in H as (r2 & s2 & H2 & H). apply attempt_hostio in H2 as [-> Hr2]. cbn [fst snd] in *.
  destruct r2 as [[]|]; [|done]. specialize (Hr2 tt eq_refl). unfold ret in H. cbn [is_ok negb] in H. injection H as <-.
  assert (~ book d (d ++ "files" :: p)) as Hnb by (intros Hb; destruct (book_not_delta _ _ Hb); apply files_in_delta).
  pose proof (symlink_in d (along d p) target (d ++ "files" :: p) (along_own d p) (files_ne d p) Hnb h1) as Hs2.
  destruct (symlink _ _ h1) as [r2 h2] eqn:H2. cbn [fst snd] in *. subst r2.
  split; [apply (host_working n d p s); by etransitivity|].
  apply symlink_look in H2 as [_ Hl]. by rewrite Hl, decide_True.
Qed.

Lemma symlink_becomes i n target pl br a (s s' : Mounted) :
  get_path i (inodes s.2) = Some (place_path pl) -> place_ok pl -> name_ok n = true ->
  let b := place_branch s.1.2 s.2 pl in
  let p := place_rel pl ++ [n] in
  ready b br s -> walk b [] p s.1 = true -> shown b p s.1 <> Some KDir ->
  fuse_symlink i n target s = (Ok (Now (REntry a)), s') ->
  becomes b p None s s' /\ exists br', ready b br' s'.
Proof.
  intros Hi Hpl Hn b p Hr Hwalk Hd H. pose proof Hr as (Hw & Hb & Hok).
  assert (world_ok s'.1.2) as Hw'.
  { pose proof (handle_keeps xstep True (OpSymlink i n target) I s) as Hk. cbn [handle] in Hk. rewrite H in Hk. by apply Hk. }
  apply (make_entry_inv i n false _ _ REntry pl a s s') in H as (x & s1 & s2 & H1 & H2 & He); [|done..]. fold b p in H1.
  assert (path_ok p) as Hp.
  { apply Forall_app. split; [by destruct pl; apply Hpl|by repeat constructor]. }
  pose proof (ensure_delta_working b br _ p s s1 _ Hb eq_refl Hok Hp H1) as Hm1.
  assert (x = branch_dir br ++ "files" :: p) as ->.
  { destruct s as [[h w] f]. rewrite (ensure_delta_returns b br _ _ _ _ _ Hb H1). by apply delta_path_show. }
  destruct (symlink_make_ok b (branch_dir br) p target s1 s2 H2) as [Hm2 Hl].
  apply (put_becomes b br p (KSymlink target) s s' Hr Hw' Hp Hwalk Hd); [|by rewrite He|done].
  etransitivity; [exact Hm1|]. etransitivity; [exact Hm2|]. by apply same_working.
Qed.

Lemma create_dir_all_along d p : keeps (step_in d (along d p)) (create_dir_all (d ++ "files" :: p)).
Proof.
  apply create_dir_all_in; [apply under_app|]. intros q Hq (x & ->)%under_true Hne.
  apply prefix_app_inv in Hq. destruct x as [|c x]; [by rewrite app_nil_r in Hne|].
  apply prefix_cons_inv_1 in Hq as Hc. apply prefix_cons_inv_2 in Hq. subst c. by apply along_above.
Qed.

Lemma create_dir_all_fresh p h h' :
  create_dir_all p h = (Ok tt, h') -> look (h_tree h) p = None -> p <> [] ->
  look (h_tree h') p = Some KDir
  /\ forall z, z <> [] -> look (h_tree h') (p ++ z) = look (h_tree h) (p ++ z).
Proof.
  intros H Hn Hp. split.
  - destruct (create_dir_all_look _ _ _ _ H p) as [He|(_ & He & _)]; [|done].
    destruct (create_dir_all_made p h h' H Hp) as [k Hk]. congruence.
  - intros z Hz. destruct (create_dir_all_look _ _ _ _ H (p ++ z)) as [He|(_ & _ & _ & Hpre)]; [done|].
    apply prefix_length in Hpre. rewrite length_app in Hpre. destruct z; [done|]. simpl in Hpre. lia.
Qed.

Lemma mkdir_make_ok n d p mode umask (s s' : Mounted) :
  look (h_tree s.1.1) (d ++ "files" :: p) = None ->
  mkdir_make mode umask (d ++ "files" :: p) s = (Ok (Ok tt), s') ->
  working n d p s s' /\ look (h_tree s'.1.1) (d ++ "files" :: p) = Some KDir
  /\ forall z, z <> [] -> look (h_tree s'.1.1) ((d ++ "files" :: p) ++ z) = look (h_tree s.1.1) ((d ++ "files" :: p) ++ z).
Proof.
  intros Hnone H. unfold mkdir_make in H. apply bind_ok in H as (r1 & s1 & H1 & H).
  apply attempt_hostio in H1 as [-> Hr1]. pose proof (create_dir_all_along d p s.1.1) as Hs1.
  destruct r1 as [[]|]; [|done]. specialize (Hr1 tt eq_refl). cbn [is_ok negb] in H.
  destruct (create_dir_all _ s.1.1) as [r1 h1] eqn:H1. cbn [fst snd] in *. subst r1.
  apply create_dir_all_fresh in H1 as [Hd Hz]; [|done|by destruct d].
  apply bind_ok in H as ([] & s3 & H3 & H). unfold ret in H. injection H as <-.
  unfold set_mode_umask in H3. apply bind_ok in H3 as (r3 & s4 & H3 & H). unfold ret in H. injection H as <-.
  apply attempt_hostio in H3 as [-> _]. cbn [fst snd].
  pose proof (set_permissions_in d (along d p) (d ++ "files" :: p) (Z.land (Z.land mode (Z.lnot umask)) 4095) h1) as Hs3.
  destruct (set_permissions _ _ h1) as [r4 h4] eqn:H4. pose proof (set_permissions_look _ _ _ _ _ H4) as Hl4.
  split; [apply (host_working n d p s); by etransitivity|]. cbn [fst snd] in *. rewrite Hl4. split; [done|].
  intros z Hne. by rewrite Hl4, Hz.
Qed.

(** Nothing is inherited at [p] or below. *)
Definition unclaimed (b : string) (p : path) (s : host * World) : Prop :=
  forall br l r z, standing b br l r s -> path_ok (p ++ z) -> base_kind br (h_tree s.1) l r (p ++ z) = None.

Lemma base_kind_None b t l r p : base_kind b t l r p = None -> underlay b t l r p = None.
Proof.
  unfold base_kind. destruct (underlay b t l r p) as [q|] eqn:Hu; [|done]. intros Hn.
  unfold underlay in Hu. destruct (is_hidden b (show p)); [done|].
  apply first_layer_served in Hu as [[k Hk] _]. apply look_None in Hn. congruence.
Qed.

(** Where nothing is, the copy up leaves nothing. *)
Lemma ensure_delta_nothing n b d l r p h w x s' :
  world_ok w -> branches w !! n = Some b -> branch_dir b = d -> store_ok d h -> path_ok p ->
  lineage (base_path w) (branches w) n (b :: l) r -> look (h_tree h) (d ++ "files" :: p) = None ->
  underlay b (h_tree h) l r p = None ->
  ensure_delta_path_for_write n (show p) (h, w) = (Ok x, s') ->
  x = d ++ "files" :: p /\ look (h_tree s'.1) (d ++ "files" :: p) = None.
Proof.
  intros Hw Hb Hd Hok Hp Hl Hm Hu H. split.
  { rewrite (ensure_delta_returns n b _ _ _ _ _ Hb H). by apply delta_path_show. }
  unfold ensure_delta_path_for_write in H. apply (writable_inv n _ h w b) in H as [_ H]; [|done].
  rewrite (delta_path_show d b p Hd Hp), stat_at, (proj1 (look_None _ _) Hm) in H. cbn [is_ok negb when] in H.
  apply bind_ok in H as ([] & [h1 w1] & H1 & H).
  pose proof (touch_and_copy_at n d b (show p) p h w Hok Hb Hd (proj1 (look_None _ _) Hm)) as Hst. rewrite H1 in Hst.
  destruct (wstep_use n d _ b _ _ Hst Hb Hd Hok) as [(b1 & Hb1 & _ & Hd1) Hok1].
  rewrite (bind_step _ _ _ _ _ (resolve_touch_eq n b h w l r p Hw Hp Hl)), Hu in H1.
  apply bind_ok in H1 as ([] & [h2 w2] & H2 & H1). unfold ret in H1. injection H1 as -> ->.
  apply (on_branch_book n d _ _ _ b) in H2 as [Hs2 _]; [|auto with keeps|done|done].
  destruct (book_keeps_delta d _ _ p Hok Hs2) as [_ Hp2].
  apply bind_ok in H as ([] & [h3 w3] & H3 & H).
  apply (on_branch_book n d _ _ _ b1) in H3 as [Hs3 _]; [|auto with keeps|done|done].
  destruct (book_keeps_delta d _ _ p Hok1 Hs3) as [_ Hp3].
  apply host_ok in H as ([] & h4 & H4 & H). unfold ret in H. injection H as _ <-.
  apply (ensure_parent_absent _ _ _ _ H4). cbn [fst snd] in Hp3. by rewrite Hp3, Hp2.
Qed.

(** A directory with nothing in the delta below it and nothing inherited. *)
Lemma empty_bare b br br' l r p (s s' : host * World) :
  standing b br l r s -> standing b br' l r s' -> same_branch br br' -> touches_only b br [p] s s' ->
  (forall z, path_ok (p ++ z) -> base_kind br (h_tree s.1) l r (p ++ z) = None) ->
  (forall z, z <> [] -> look (h_tree s'.1) (files_dir br ++ p ++ z) = None) -> bare b p s'.
Proof.
  intros Hst Hst' Hsb Hto Hun Hnone z Hpz Hne. unfold file_of.
  rewrite (shown_shows b br' l r (p ++ z) s' Hst' Hpz). unfold shows.
  assert (files_dir br' = files_dir br) as -> by (unfold files_dir; by rewrite (sb_dir _ _ Hsb)).
  rewrite (base_kind_step b br br' l r s s' (p ++ z) Hst (to_step _ _ _ _ _ Hto) Hsb), (Hun z Hpz), (Hnone z Hne).
  by destruct (walk b [] (p ++ z) s'), (is_deleted br' (show (p ++ z))).
Qed.

Lemma mkdir_becomes i n mode umask pl br a (s s' : Mounted) :
  get_path i (inodes s.2) = Some (place_path pl) -> place_ok pl -> name_ok n = true ->
  let b := place_branch s.1.2 s.2 pl in
  let p := place_rel pl ++ [n] in
  ready b br s -> walk b [] p s.1 = true -> shown b p s.1 = None -> unclaimed b p s.1 ->
  fuse_mkdir i n mode umask s = (Ok (Now (REntry a)), s') ->
  becomes b p None s s' /\ exists br', ready b br' s'.
Proof.
  intros Hi Hpl Hn b p Hr Hwalk Hsh Hun H. pose proof Hr as (Hw & Hb & Hok).
  assert (world_ok s'.1.2) as Hw'.
  { pose proof (handle_keeps xstep True (OpMkdir i n mode umask) I s) as Hk. cbn [handle] in Hk. rewrite H in Hk. by apply Hk. }
  apply (make_entry_inv i n true _ _ REntry pl a s s') in H as (x & s1 & s2 & H1 & H2 & He); [|done..]. fold b p in H1.
  assert (path_ok p) as Hp.
  { apply Forall_app. split; [by destruct pl; apply Hpl|by repeat constructor]. }
  destruct (standing_intro b br s.1 Hw Hb Hok) as (l & r & Hst).
  pose proof (Hun br l r [] Hst) as Hbase. rewrite app_nil_r in Hbase. specialize (Hbase Hp).
  assert (look (h_tree s.1.1) (branch_dir br ++ "files" :: p) = None) as Hnone.
  { rewrite (shown_shows b br l r p s.1 Hst Hp) in Hsh. unfold shows in Hsh.
    rewrite (files_split (branch_dir br)) in Hsh by done. by destruct (look _ _). }
  pose proof (ensure_delta_working b br _ p s s1 _ Hb eq_refl Hok Hp H1) as Hm1.
  assert (x = branch_dir br ++ "files" :: p /\ look (h_tree s1.1.1) (branch_dir br ++ "files" :: p) = None) as [-> Hn1].
  { destruct s as [[h w] f]. apply (ensure_delta_nothing b br _ l r p h w x _ Hw Hb eq_refl Hok Hp (sd_layers _ _ _ _ _ Hst) Hnone
      (base_kind_None _ _ _ _ _ Hbase) H1). }
  destruct (mkdir_make_ok b (branch_dir br) p mode umask s1 s2 Hn1 H2) as (Hm2 & Hd & Hz).
  assert (working b (branch_dir br) p s s') as [Hm Hmem].
  { etransitivity; [exact Hm1|]. etransitivity; [exact Hm2|]. by apply same_working. }
  rewrite <- He in Hd, Hz. split; [|by apply (ready_after b br s); [|eapply wstep_mono; [apply along_edit|exact Hm]|]].
  intros q Hq. pose proof (one_touches b br p s.1 s'.1 Hb Hok Hm Hmem) as Hto.
  destruct (standing_step b br l r s.1 s'.1 Hst Hw' (to_step _ _ _ _ _ Hto)) as (br' & Hst' & Hsb).
  apply (put_entry b br l r p KDir s.1 s'.1); try done;
    [apply nondir_bare; congruence| |by rewrite (files_split (branch_dir br))].
  apply (empty_bare b br br' l r p s.1 s'.1); try done; [by intros z; apply (Hun br l r)|].
  intros z Hne. rewrite (files_split (branch_dir br)) by done.
  change (branch_dir br ++ "files" :: p ++ z) with (branch_dir br ++ ("files" :: p) ++ z).
  rewrite app_assoc, Hz by done. apply look_None, eq_None_not_Some. intros Hs.
  assert (store_ok (branch_dir br) s1.1.1) as [Hwf _ _].
  { destruct (proj1 Hm1 br Hb eq_refl) as (_ & _ & _ & _ & Hst1). by apply Hst1. }
  by rewrite (wf_below _ _ z Hwf Hne Hs) in Hn1.
Qed.

Lemma rmdir_job_ok b rel ip st (s s' : Mounted) :
  run_job (JRmdir b rel ip st) s = (Ok ROk, s') -> rmdir_path_in_branch b rel s.1 = (Ok tt, s'.1).
Proof. apply removal_reply_ok. Qed.

(** The layers of the branch list [p] without going through a link. *)
Definition listed_plainly (b : string) (p : path) (s : host * World) : Prop :=
  forall br l r, standing b br l r s -> plain_layers (h_tree s.1) (br :: l) r p.

Lemma rmdir_becomes `{!EnvLaws E} b br p ip st (s s' : Mounted) :
  ready b br s -> path_ok p -> walk b [] p s.1 = true -> shown b p s.1 = Some KDir ->
  reachable_parents b p s.1 -> listed_plainly b p s.1 ->
  run_job (JRmdir b (show p) ip st) s = (Ok ROk, s') ->
  becomes b p None s s' /\ exists br', ready b br' s'.
Proof.
  intros Hr Hp Hwalk Hsh Hroot Hplain H%rmdir_job_ok. pose proof Hr as (Hw & Hb & Hok).
  destruct (standing_intro b br s.1 Hw Hb Hok) as (l & r & Hst).
  assert (world_ok s'.1.2) as Hw'.
  { pose proof (rmdir_sstep b (show p) s.1) as Hs. rewrite H in Hs. by apply (sstep_istep _ _ Hs). }
  destruct (rmdir_inv b br l r p s.1 s'.1 Hst Hp H) as [Ht Hc].
  pose proof (unlisted_bare b br l r p s.1 Hst Hp (Hplain _ _ _ Hst) Hc) as Hbare.
  destruct (take_away_effect b br l r p s.1 s'.1 Hst Hw' Hp Hwalk Hbare (Hroot _ _ _ Hst) Ht) as [Hs Heff].
  split; [done|]. by apply (ready_after b br s).
Qed.

(** *** What happens on another branch *)

(** A step on a branch this one does not descend from leaves its files alone. *)
Lemma elsewhere_same n a b br l root (s s' : Mounted) :
  ready b br s -> world_ok s'.1.2 -> branches s.1.2 !! n = Some a -> store_ok (branch_dir a) s.1.1 ->
  wstep n (branch_dir a) (edit (branch_dir a)) s.1 s'.1 ->
  lineage (base_path s.1.2) (branches s.1.2) b l root -> a ∉ l ->
  (forall q, path_ok q -> file_of b s'.1 q = file_of b s.1 q) /\ ready b br s'.
Proof.
  intros (Hw & Hb & Hst) Hw' Ha Hok Hstep Hl Hal. split.
  - assert (forall p, path_ok p -> shown b p s'.1 = shown b p s.1) as Hsh.
    { intros p Hp. destruct (elsewhere_step n a b l root p s.1 s'.1 Hw Hw' Ha Hok Hstep Hl Hal Hp) as [Hr Hlk].
      unfold shown. rewrite Hr. destruct (resolve_path b (show p) s.1).1 as [[q|]|]; [by apply Hlk|done..]. }
    intros q Hq. unfold file_of. rewrite (Hsh q Hq). rewrite (walk_ext b q s.1 s'.1); [done|].
    intros y z -> Hz. apply path_ok_app in Hq as [Hy _]. by rewrite (Hsh y Hy).
  - destruct (Hstep a Ha eq_refl) as (_ & Ho & _ & _ & Hhost). destruct (Hhost Hok) as [[Hwf _ _] Hlk].
    assert (n <> b) as Hne.
    { intros ->. assert (a = br) as -> by congruence. apply Hal. inversion Hl; simplify_eq; by left. }
    assert (forall x, look (h_tree s'.1.1) (branch_dir br ++ x) = look (h_tree s.1.1) (branch_dir br ++ x)) as Hsame.
    { intros x. apply Hlk. intros Hx%edit_within. rewrite (wo_dirs _ Hw n a Ha), (wo_dirs _ Hw b br Hb) in Hx.
      apply outside_other in Hx; [done|congruence]. }
    split; [done|]. split; [by rewrite Ho by done|]. destruct Hst as [_ Hdir Hplain]. split; [done| |].
    + specialize (Hsame []). by rewrite app_nil_r in Hsame; rewrite Hsame.
    + intros q Hq target. pose proof Hq as (c & x & -> & _). rewrite Hsame. by apply Hplain.
Qed.
End Steps.
