(* ===== verification/Untouched.v ===== *)
(** * Callbacks that leave every file as it is

    Whatever only looks or leaves a job ([ReadOnly]), an open for writing, which
    may copy the file up, and a change of mode, owner or times: afterwards a
    process finds the same files with the same contents ([untouched]). *)

From S2P Require Import Prelude Strs Inode HostFs Handles Quota TextMerge Branch Codec View Manager Commit.
From S2P Require Import Frame BranchLaws Isolation WorldInv ManagerSpec EditSpec WriteSpec Quiet FileFrame.
From S2P Require Import Platform Mount Ctl Fuse FuseWalk FuseInv FuseFacts FuseSpec FuseIO ReadOnly RenameSpec FileView.

Open Scope bool_scope.

Section Untouched.
Context {E : Env} {J : Serde} {K : Kernel} (b : string).

#[local] Existing Instance working_preorder.

Definition untouched (s s' : Mounted) : Prop :=
  (forall q, path_ok q -> file_of b s'.1 q = file_of b s.1 q) /\ exists br, ready b br s'.

Lemma file_of_Some n p c s : file_of n s p = Some c <-> walk n [] p s = true /\ shown n p s = Some (KFile c).
Proof.
  unfold file_of. split; [|by intros [-> ->]].
  destruct (walk n [] p s); [|done]. destruct (shown n p s) as [[]|]; intros; by simplify_eq.
Qed.

Lemma shown_opened n p h w o : shown n p (h, with_opened o w) = shown n p (h, w).
Proof.
  unfold shown, resolve_path, view, bind, gets, on_host, zoom. cbn [fst snd].
  change (base_path (with_opened o w)) with (base_path w). change (branches (with_opened o w)) with (branches w).
  by destruct (resolve_path_locked _ _ _ _ _ _).
Qed.
Lemma walk_opened n x p h w o : walk n x p (h, with_opened o w) = walk n x p (h, w).
Proof. revert x. induction p as [|c p IH]; intros x; [done|]. simpl. by rewrite shown_opened, IH. Qed.
Lemma file_opened n p h w o : file_of n (h, with_opened o w) p = file_of n (h, w) p.
Proof. unfold file_of. by rewrite walk_opened, shown_opened. Qed.

Lemma looking_file n p (s s' : Mounted) : looking s s' -> file_of n s'.1 p = file_of n s.1 p.
Proof.
  destruct s as [[h w] f], s' as [[h' w'] f']. intros [H1 [o H2]]. cbn [fst snd] in *. subst. apply file_opened.
Qed.
Lemma looking_world (s s' : Mounted) : looking s s' -> same_world s.1.2 s'.1.2 /\ same_world s'.1.2 s.1.2.
Proof. intros [_ [o ->]]. destruct (s.1.2). split; (split; [intros n; reflexivity|done..]). Qed.
Lemma looking_ready br (s s' : Mounted) : looking s s' -> ready b br s -> ready b br s'.
Proof.
  intros Hl (Hw & Hb & Hok). pose proof (looking_world s s' Hl) as [H _]. destruct Hl as [Hh [o Ho]].
  unfold ready. rewrite Hh. split; [by apply (same_world_ok s.1.2)|]. rewrite Ho. by destruct (s.1.2).
Qed.
Lemma looking_untouched br (s s' : Mounted) : ready b br s -> looking s s' -> untouched s s'.
Proof. intros Hr H. split; [intros q _; by apply looking_file|exists br; by eapply looking_ready]. Qed.

(** What becomes what it was is untouched. *)
Lemma becomes_untouched p c (s s' : Mounted) :
  file_of b s.1 p = Some c -> becomes b p (Some c) s s' /\ (exists br, ready b br s') -> untouched s s'.
Proof. intros Hc [Hb Hr]. split; [|done]. intros q Hq. rewrite (Hb q Hq). by case_decide; subst. Qed.

Lemma untouched_trans (s1 s2 s3 : Mounted) : untouched s1 s2 -> untouched s2 s3 -> untouched s1 s3.
Proof. intros [H1 _] [H2 Hr]. split; [|done]. intros q Hq. by rewrite H2, H1. Qed.

(** *** Mode, owner and times *)

Lemma attributes_untouched {L : EnvLaws E} i pl br a at0 c (s s' : Mounted) :
  get_path i (inodes s.2) = Some (place_path pl) -> place_ok pl -> numbers_ok s.2 -> sa_size a = None ->
  place_branch s.1.2 s.2 pl = b -> ready b br s -> file_of b s.1 (place_rel pl) = Some c ->
  is_ok (ensure_delta_path_for_write b (show (place_rel pl)) s.1).1 = true ->
  fuse_setattr i a s = (Ok (Now (RAttr at0)), s') -> untouched s s'.
Proof.
  intros Hi Hpl Hf Ha Hbr Hr Hc Hroom H. set (p := place_rel pl) in *. pose proof Hr as (Hw & Hb & Hok).
  pose proof Hc as [Hwalk Hsh]%file_of_Some.
  assert (world_ok s'.1.2) as Hw'.
  { pose proof (setattr_walk xstep True i a s) as Hk. rewrite H in Hk. by apply Hk. }
  assert (path_ok p) as Hp by by destruct pl; apply Hpl.
  apply (setattr_inv i pl a) in H as (s1 & s2 & s3 & He & H1 & H2 & He'); [|done..].
  rewrite Hbr in H1, H2. fold p in H1, H2. rewrite Ha in H1. injection H1 as <-.
  unfold setattr_attributes in H2. destruct (wants_attributes a).
  2:{ injection H2 as <-. apply (looking_untouched br); [done|]. apply same_looking. congruence. }
  rewrite <- He in Hsh, Hroom. assert (ready b br s1) as Hr1 by (unfold ready; by rewrite He).
  apply (cow_file b br p c) in H2 as (s2 & H2 & Hm1 & Hc1 & _); [|done..].
  pose proof (apply_setattr_attributes (branch_dir br ++ "files" :: p) a s2) as Hat. rewrite H2 in Hat.
  apply (becomes_untouched p c); [done|].
  apply (put_becomes b br p (KFile c) s s' Hr Hw' Hp Hwalk); [rewrite <- He; by rewrite Hsh| | |done].
  - etransitivity; [by apply (same_working b _ p s s1)|]. etransitivity; [exact Hm1|].
    etransitivity; [by apply attributes_working|]. by apply same_working.
  - rewrite He'. destruct Hat as [_ Hat]. cbn [snd] in Hat. by rewrite Hat.
Qed.

(** *** Opens for writing *)

Definition opened (r : Reply) : Prop := match r with ROpened | ROpenedPassthrough _ _ => True | _ => False end.

Lemma register_untouched br i (s : Mounted) :
  ready b br s -> let s1 := (s.1.1, register_opened_inode b i s.1.2, s.2) in ready b br s1 /\ untouched s s1.
Proof.
  intros Hr s1. assert (looking s s1) as Hl by apply (opened_looking b i s).
  split; [by eapply looking_ready|by eapply looking_untouched].
Qed.

Lemma try_open_untouched {L : EnvLaws E} br p q fl c r (s s' : Mounted) :
  ready b br s -> path_ok p -> file_of b s.1 p = Some c -> world_ok s'.1.2 -> flag_set fl O_ACCMODE = true ->
  try_open_passthrough fl b (show p) q s = (Ok (Now r), s') -> opened r -> untouched s s'.
Proof.
  intros Hr Hp Hc Hw' Hfl H Hop. pose proof Hc as [Hwalk Hsh]%file_of_Some.
  unfold try_open_passthrough in H. rewrite Hfl in H.
  assert (exists o, write_denied_error b s = (Ok o, s)) as [o Ho] by (unfold write_denied_error, branch_writable; unfold_m; by eexists).
  rewrite (run_bind _ _ _ _ _ Ho) in H. destruct o; [by apply fail_now in H as ->|].
  pose proof H as (y & s1 & H1 & _ & Hx)%ensure_cow_ok. destruct y as [x|]; [|by apply fail_now in H1 as ->].
  apply (cow_file b br p c) in H as (s2 & H & Hm & Hc2 & _); [|done..|by rewrite (Hx x eq_refl)].
  assert (looking s2 s') as Hl.
  { match type of H with ?k s2 = _ => assert (keeps looking k) as Hk by (unfold fs_open_passthrough, reply; look_auto) end.
    specialize (Hk s2). by rewrite H in Hk. }
  assert (world_ok s2.1.2) as Hw2 by (apply (same_world_ok s'.1.2); [by apply looking_world|done]).
  assert (untouched s s2) as Hu.
  { apply (becomes_untouched p c); [done|]. apply (put_becomes b br p (KFile c) s s2); by rewrite ?Hsh. }
  destruct Hu as [Hu (br2 & Hr2)]. apply (untouched_trans s s2); [by split; [|exists br2]|].
  by apply (looking_untouched br2).
Qed.

Lemma denied_state (x : bool) n d (s s' : Mounted) :
  (if x then write_denied_error n else ret None) s = (Ok d, s') -> s' = s.
Proof. destruct x; unfold write_denied_error, branch_writable; unfold_m; by intros [= _ <-]. Qed.

(** Opening a file, whatever the flags, leaves it and all others. *)
Lemma open_untouched {L : EnvLaws E} i pl br fl c r (s s' : Mounted) :
  get_path i (inodes s.2) = Some (place_path pl) -> place_ok pl -> numbers_ok s.2 ->
  place_branch s.1.2 s.2 pl = b -> ready b br s -> file_of b s.1 (place_rel pl) = Some c ->
  fuse_open i fl s = (Ok (Now r), s') -> opened r -> untouched s s'.
Proof.
  intros Hi Hpl Hf Hbr Hr Hc H Hop. set (p := place_rel pl) in *.
  assert (path_ok p) as Hp by by destruct pl; apply Hpl.
  assert (world_ok s'.1.2) as Hw'.
  { pose proof (handle_keeps xstep True (OpOpen i fl) I s) as Hk. cbn [handle] in Hk. rewrite H in Hk. apply Hk, Hr. }
  destruct (flag_set fl O_ACCMODE) eqn:Hfl.
  2:{ pose proof (open_reading_looking i fl Hfl s) as Hl. rewrite H in Hl. by apply (looking_untouched br). }
  assert (forall q (s1 : Mounted), s1.1 = s.1 -> opened_path i fl b (show p) q s1 = (Ok (Now r), s') -> untouched s s')
    as Hopen.
  { intros q s1 He H1. unfold opened_path in H1. assert (looking s s1) as Hl by by apply same_looking.
    pose proof (looking_ready br s s1 Hl Hr) as Hr1. destruct (register_untouched br i s1 Hr1) as [Hr2 Hu2].
    set (s2 := (s1.1.1, register_opened_inode b i s1.1.2, s1.2) : Mounted) in *. cbn zeta in Hr2.
    rewrite (run_bind _ _ s1 tt s2), (run_bind _ _ s2 s2.2 s2) in H1 by done.
    apply (untouched_trans s s2).
    { apply (untouched_trans s s1); [by apply (looking_untouched br)|done]. }
    destruct (passthrough_enabled s2.2); [|injection H1 as <- <-; by apply (looking_untouched br)].
    apply (try_open_untouched br p q fl c r s2 s'); try done.
    destruct Hu2 as [Hu2 _]. rewrite Hu2 by done. by rewrite He. }
  unfold fuse_open in H.
  rewrite (run_bind _ _ _ _ _ (branch_for_ctl_eq i s)), (table_not_branch_ctl _ Hf _ _ Hi) in H.
  rewrite bool_decide_false in H by by eapply table_not_ctl. rewrite bool_decide_false in H by by intros [].
  cbn [orb] in H.
  rewrite (run_bind _ _ s (Some (place_path pl)) s) in H by (unfold inode_path, gets; by rewrite Hi).
  rewrite (place_class pl Hpl) in H.
  destruct pl as [q|b' [|c0 q]]; cbn [place_rel place_branch place_path] in *.
  - unfold open_root_path in H. rewrite (run_bind _ _ _ _ _ (is_stale_eq s)) in H.
    destruct (negb _); [by apply fail_now in H as ->|]. apply bind_ok in H as (o & s1 & H1 & H).
    unfold resolve in H1. rewrite (run_bind _ _ (synced s) (branch_of_mount s.1.2 s.2) (synced s)) in H1 by done.
    apply resolve_for_branch_state in H1 as [-> _]. destruct o as [x|]; [|by apply fail_now in H as ->].
    rewrite (run_bind _ _ (synced s) (branch_of_mount s.1.2 s.2) (synced s)), Hbr in H by done.
    apply bind_ok in H as (d & s2 & H2 & H). apply denied_state in H2 as ->.
    destruct d; [by apply fail_now in H as ->|]. by apply (Hopen x (synced s)).
  - injection H as <- <-. by apply (looking_untouched br).
  - subst b'. unfold open_branch_path in H. apply bind_ok in H as (d & s2 & H2 & H). apply denied_state in H2 as ->.
    destruct d; [by apply fail_now in H as ->|].
    rewrite (run_bind _ _ s (is_branch_valid b s.1.2) s) in H by done.
    destruct (is_branch_valid b s.1.2); [|by apply fail_now in H as ->]. apply bind_ok in H as (o & s1 & H1 & H).
    apply resolve_for_branch_state in H1 as [-> _]. destruct o as [x|]; [|by apply fail_now in H as ->].
    by apply (Hopen x s).
Qed.
End Untouched.
