(* ===== verification/FileSystem.v ===== *)
(** * A mount is a file system

    The abstract machine is one map from paths to contents: reading answers what
    the map holds, creating, writing, truncating, unlinking and renaming update
    it at the paths named, directories and links hold nothing.  The callbacks of a
    mount and the jobs of its worker simulate it ([mount_refines_files]). *)

From S2P Require Import Prelude Strs Inode HostFs Handles Quota TextMerge Branch Codec View Manager Commit.
From S2P Require Import Frame BranchLaws Isolation WorldInv ManagerSpec EditSpec WriteSpec Quiet FileFrame.
From S2P Require Import Platform Mount Ctl Fuse FuseWalk FuseInv FuseFacts FuseSpec FuseIO ReadOnly RenameSpec FileView Untouched.

Open Scope bool_scope.

(** ** The abstract machine *)

Section Machine.
Context {K : Kernel}.

Definition files := path -> option bytes.

Inductive file_event :=
  | FRead (p : path) (off size : Z) (data : bytes)
  | FCreate (p : path)
  | FWrite (p : path) (flags off : Z) (data : bytes)
  | FTruncate (p : path) (len : Z)
  | FUnlink (p : path)
  | FRename (p q : path)
  | FMkdir (p : path)
  | FRmdir (p : path)
  | FSymlink (p : path)
  | FOther.

Definition put (p : path) (v : option bytes) (m : files) : files := fun q => if decide (q = p) then v else m q.

Inductive file_step : files -> file_event -> files -> Prop :=
  | file_read m p off size c :
      m p = Some c -> file_step m (FRead p off size (take (Z.to_nat size) (drop (Z.to_nat off) c))) m
  | file_create m p : file_step m (FCreate p) (put p (Some []) m)
  | file_write m p flags off data c :
      m p = Some c ->
      file_step m (FWrite p flags off data) (put p (Some (splice (Z.to_nat (write_offset flags off c)) data c)) m)
  | file_truncate m p len c :
      m p = Some c -> file_step m (FTruncate p len) (put p (Some (resize_bytes (Z.to_nat len) c)) m)
  | file_unlink m p : file_step m (FUnlink p) (put p None m)
  | file_rename m p q c : m p = Some c -> file_step m (FRename p q) (put q (Some c) (put p None m))
  | file_mkdir m p : file_step m (FMkdir p) (put p None m)
  | file_rmdir m p : file_step m (FRmdir p) (put p None m)
  | file_symlink m p : file_step m (FSymlink p) (put p None m)
  | file_other m : file_step m FOther m.

Inductive file_run : files -> list file_event -> files -> Prop :=
  | file_stop m : file_run m [] m
  | file_go m e m1 es m2 : file_step m e m1 -> file_run m1 es m2 -> file_run m (e :: es) m2.

End Machine.

(** ** The mount *)

Section Mount.
Context {E : Env} {J : Serde} {K : Kernel} (b : string).

(** The kernel asks about number [i], which stands for [pl], of branch [b]. *)
Record located (i : Z) (pl : place) (s : Mounted) : Prop := {
  at_number : get_path i (inodes s.2) = Some (place_path pl);
  at_ok : place_ok pl;
  at_branch : place_branch s.1.2 s.2 pl = b;
}.

(** One event of a mount that succeeds, with what the kernel guarantees of it
    and what the file system needs of the branch:
    - a file is created where no directory is and no link is followed;
    - a read and a write go through no stale handle;
    - a truncation finds room for the copy up;
    - the directories above a file that goes are the branch's or inherited;
    - a directory is made where nothing is inherited, and the layers list one that
      goes without following a link. *)
Inductive mount_step : file_event -> Mounted -> Mounted -> Prop :=
  | mount_read i pl off size data s s' :
      located i pl s -> place_rel pl <> [] -> i <> ROOT_INO -> numbers_ok s.2 -> mount_live s ->
      is_Some (file_of b s.1 (place_rel pl)) ->
      handle_on_shown i b (place_rel pl) s -> (0 <= off < 2 ^ 63)%Z ->
      fuse_read i off size s = (Ok (Now (RData data)), s') ->
      mount_step (FRead (place_rel pl) off size data) s s'
  | mount_create i pl n mode umask a s s' :
      located i pl s -> name_ok n = true -> walk b [] (place_rel pl ++ [n]) s.1 = true ->
      shown b (place_rel pl ++ [n]) s.1 <> Some KDir -> write_target_plain b (show (place_rel pl ++ [n])) s.1 ->
      fuse_create i n mode umask s = (Ok (Now (RCreated a)), s') ->
      mount_step (FCreate (place_rel pl ++ [n])) s s'
  | mount_write i pl flags off data c k s s' :
      located i pl s -> numbers_ok s.2 -> file_of b s.1 (place_rel pl) = Some c -> (Z.of_nat (length c) < 2 ^ 63)%Z ->
      (forall br, branches s.1.2 !! b = Some br -> fresh_handle i br (place_rel pl) s) ->
      fuse_write i off data flags s = (Ok (Now (RWritten k)), s') ->
      mount_step (FWrite (place_rel pl) flags off data) s s'
  | mount_write_job p off data k s s' :
      path_ok p -> is_Some (file_of b s.1 p) ->
      run_job (JWrite b (show p) off data) s = (Ok (RWritten k), s') ->
      mount_step (FWrite p 0 off data) s s'
  | mount_truncate i pl a len at0 s s' :
      located i pl s -> numbers_ok s.2 -> is_Some (file_of b s.1 (place_rel pl)) -> sa_size a = Some len ->
      is_ok (ensure_delta_path_for_write b (show (place_rel pl)) s.1).1 = true ->
      fuse_setattr i a s = (Ok (Now (RAttr at0)), s') ->
      mount_step (FTruncate (place_rel pl) len) s s'
  | mount_unlink_job p ip st k s s' :
      path_ok p -> walk b [] p s.1 = true -> shown b p s.1 = Some k -> k <> KDir -> reachable_parents b p s.1 ->
      run_job (JDelete b (show p) ip st) s = (Ok ROk, s') ->
      mount_step (FUnlink p) s s'
  | mount_rename i pl n j pl' m flags s s' :
      located i pl s -> get_path j (inodes s.2) = Some (place_path pl') -> place_ok pl' ->
      name_ok n = true -> name_ok m = true ->
      under (place_rel pl ++ [n]) (place_rel pl' ++ [m]) = false ->
      under (place_rel pl' ++ [m]) (place_rel pl ++ [n]) = false ->
      is_Some (file_of b s.1 (place_rel pl ++ [n])) -> walk b [] (place_rel pl' ++ [m]) s.1 = true ->
      shown b (place_rel pl' ++ [m]) s.1 <> Some KDir ->
      fuse_rename i n j m flags s = (Ok (Now ROk), s') ->
      mount_step (FRename (place_rel pl ++ [n]) (place_rel pl' ++ [m])) s s'
  | mount_mkdir i pl n mode umask a s s' :
      located i pl s -> name_ok n = true -> walk b [] (place_rel pl ++ [n]) s.1 = true ->
      shown b (place_rel pl ++ [n]) s.1 = None -> unclaimed b (place_rel pl ++ [n]) s.1 ->
      fuse_mkdir i n mode umask s = (Ok (Now (REntry a)), s') ->
      mount_step (FMkdir (place_rel pl ++ [n])) s s'
  | mount_rmdir_job p ip st s s' :
      path_ok p -> walk b [] p s.1 = true -> shown b p s.1 = Some KDir ->
      reachable_parents b p s.1 -> listed_plainly b p s.1 ->
      run_job (JRmdir b (show p) ip st) s = (Ok ROk, s') ->
      mount_step (FRmdir p) s s'
  | mount_symlink i pl n target a s s' :
      located i pl s -> name_ok n = true -> walk b [] (place_rel pl ++ [n]) s.1 = true ->
      shown b (place_rel pl ++ [n]) s.1 <> Some KDir ->
      fuse_symlink i n target s = (Ok (Now (REntry a)), s') ->
      mount_step (FSymlink (place_rel pl ++ [n])) s s'
  | mount_elsewhere n a r l root s s' :
      branches s.1.2 !! n = Some a -> local n r -> store_ok (branch_dir a) s.1.1 -> walked_plainly n r s.1 ->
      (forall rel o data, r = WriteData n rel o data -> write_target_plain n rel s.1) ->
      lineage (base_path s.1.2) (branches s.1.2) b l root -> a ∉ l ->
      s'.1 = (serve r s.1).2 -> mount_step FOther s s'
  | mount_open i pl flags r s s' :
      located i pl s -> numbers_ok s.2 -> is_Some (file_of b s.1 (place_rel pl)) ->
      fuse_open i flags s = (Ok (Now r), s') -> opened r -> mount_step FOther s s'
  | mount_attributes i pl a at0 s s' :
      located i pl s -> numbers_ok s.2 -> is_Some (file_of b s.1 (place_rel pl)) -> sa_size a = None ->
      is_ok (ensure_delta_path_for_write b (show (place_rel pl)) s.1).1 = true ->
      fuse_setattr i a s = (Ok (Now (RAttr at0)), s') -> mount_step FOther s s'
  | mount_looks o s : only_looks s o -> mount_step FOther s (handle o s).2
  | mount_queues o j s s' : handle o s = (Ok (Later j), s') -> mount_step FOther s s'.

Inductive mount_run : list file_event -> Mounted -> Mounted -> Prop :=
  | mount_stop s : mount_run [] s s
  | mount_go e es s s1 s2 : mount_step e s s1 -> mount_run es s1 s2 -> mount_run (e :: es) s s2.

(** The map is what a process finds on the branch, which is in order. *)
Definition agrees (m : files) (s : Mounted) : Prop :=
  (exists br, ready b br s) /\ forall q, path_ok q -> m q = file_of b s.1 q.

End Mount.

Section Simulation.
Context {E : Env} {L : EnvLaws E} {J : Serde} {K : Kernel}.

Lemma put_agrees b m p v (s s' : Mounted) :
  agrees b m s -> becomes b p v s s' /\ (exists br, ready b br s') -> agrees b (put p v m) s'.
Proof.
  intros [_ Hm] [Hb Hr]. split; [done|]. intros q Hq. unfold put. rewrite (Hb q Hq). case_decide; [done|by apply Hm].
Qed.

Lemma untouched_agrees b m (s s' : Mounted) : agrees b m s -> untouched b s s' -> agrees b m s'.
Proof. intros [_ Hm] [Hu Hr]. split; [done|]. intros q Hq. by rewrite (Hu q Hq), (Hm q Hq). Qed.
Lemma looking_agrees b m (s s' : Mounted) : agrees b m s -> looking s s' -> agrees b m s'.
Proof. intros Ha Hl. pose proof Ha as [(br & Hr) _]. apply (untouched_agrees b m s); [done|by apply (looking_untouched b br)]. Qed.

Lemma located_ok b i pl s : located b i pl s -> path_ok (place_rel pl).
Proof. intros [_ H _]. by destruct pl; apply H. Qed.
Lemma located_name b i pl n s : located b i pl s -> name_ok n = true -> path_ok (place_rel pl ++ [n]).
Proof. intros H Hn. apply Forall_app. split; [by eapply located_ok|by repeat constructor]. Qed.

Ltac updates b m s := eexists; split; [by econstructor|apply (put_agrees b m _ _ s); [done|]].

(** One event of the mount is the event of the map. *)
Lemma step_simulated b m e s s' :
  agrees b m s -> mount_step b e s s' -> exists m', file_step m e m' /\ agrees b m' s'.
Proof.
  intros Ha H. pose proof Ha as [(br & Hr) Hm]. destruct H as
    [i pl off size data s s' Hl Hne Hroot Hf Hlive [c Hc] Hcache Ho H
    |i pl n mode umask a s s' Hl Hn Hw Hd Hp H
    |i pl fl off data c k s s' Hl Hf Hc Hlen Hfresh H
    |p off data k s s' Hp [c Hc] H
    |i pl a len at0 s s' Hl Hf [c Hc] Hlen Hroom H
    |p ip st k s s' Hp Hw Hs Hk Hroot H
    |i pl n j pl' x fl s s' Hl Hj Hok' Hn Hx Hpq Hqp [c Hc] Hwq Hdq H
    |i pl n mode umask a s s' Hl Hn Hw Hd Hun H
    |p ip st s s' Hp Hw Hs Hroot Hplain H
    |i pl n target a s s' Hl Hn Hw Hd H
    |n a r l root s s' Hn Hloc Hok Hway Hplain Hl Hal H
    |i pl fl r s s' Hl Hf [c Hc] H Hop
    |i pl a at0 s s' Hl Hf [c Hc] Ha0 Hroom H
    |o s H
    |o j s s' H].
  - pose proof (located_ok _ _ _ _ Hl) as Hp. rewrite <- (Hm _ Hp) in Hc. pose proof Hc as Hc'. rewrite (Hm _ Hp) in Hc'.
    apply file_of_Some in Hc' as [_ Hsh]. destruct Hl as [Hi Hok Hbr]. rewrite <- Hbr in Hsh.
    destruct (read_eq i pl c off size s) as (s1 & H1 & He); try done; [|by rewrite Hbr|].
    { rewrite Hbr. unfold is_branch_valid. apply bool_decide_eq_true. destruct Hr as (_ & Hb & _). by eexists. }
    rewrite H in H1. injection H1 as -> ->. exists m. split; [by constructor|by apply (looking_agrees b m s), same_looking].
  - updates b m s. destruct Hl as [Hi Hok Hbr]. subst b. by apply (create_becomes i n mode umask pl br a s s').
  - pose proof (located_ok _ _ _ _ Hl) as Hp. pose proof Hc as [Hw Hsh]%file_of_Some. rewrite <- (Hm _ Hp) in Hc.
    updates b m s. destruct Hl as [Hi Hok Hbr]. destruct Hr as (Hwok & Hb & Hst). specialize (Hfresh br Hb). subst b.
    by destruct (write_now_becomes i pl br off data fl c k s s') as (_ & Hbe).
  - pose proof Hc as [Hw Hsh]%file_of_Some. rewrite <- (Hm _ Hp) in Hc.
    updates b m s. by destruct (write_becomes b br p off data c k s s' Hr Hp Hw Hsh H) as (_ & Hbe).
  - pose proof (located_ok _ _ _ _ Hl) as Hp. pose proof Hc as [Hw Hsh]%file_of_Some. rewrite <- (Hm _ Hp) in Hc.
    updates b m s. destruct Hl as [Hi Hok Hbr]. subst b. by apply (truncate_becomes i pl br a len at0 c s s').
  - updates b m s. by apply (unlink_becomes b br p ip st k s s').
  - pose proof (located_name _ _ _ _ _ Hl Hn) as Hp. pose proof Hc as [Hw Hsh]%file_of_Some. rewrite <- (Hm _ Hp) in Hc.
    eexists. split; [by apply file_rename|]. destruct Hl as [Hi Hok Hbr]. subst b.
    destruct (fuse_rename_becomes i n j x fl pl pl' br c s s') as (_ & Hbe & Hr'); try done.
    split; [done|]. intros y Hy. unfold put. rewrite (Hbe y Hy). repeat case_decide; try done. by apply Hm.
  - updates b m s. destruct Hl as [Hi Hok Hbr]. subst b. by apply (mkdir_becomes i n mode umask pl br a s s').
  - updates b m s. by apply (rmdir_becomes b br p ip st s s').
  - updates b m s. destruct Hl as [Hi Hok Hbr]. subst b. by apply (symlink_becomes i n target pl br a s s').
  - exists m. split; [constructor|]. pose proof Hr as (Hw & _).
    pose proof (local_wstep n (branch_dir a) r s.1 Hloc Hok Hway Hplain) as Hstep. rewrite <- H in Hstep.
    destruct (elsewhere_same n a b br l root s s') as [Hsame Hr']; try done.
    { rewrite H. by apply serve_istep. }
    split; [by exists br|]. intros q Hq. by rewrite (Hsame q Hq), (Hm q Hq).
  - exists m. split; [constructor|]. destruct Hl as [Hi Hok Hbr]. apply (untouched_agrees b m s); [done|].
    by apply (open_untouched b i pl br fl c r).
  - exists m. split; [constructor|]. destruct Hl as [Hi Hok Hbr]. apply (untouched_agrees b m s); [done|].
    by apply (attributes_untouched b i pl br a at0 c).
  - exists m. split; [constructor|]. by apply (looking_agrees b m s), looking_around.
  - exists m. split; [constructor|]. apply (looking_agrees b m s); [done|by eapply queued_looks].
Qed.

(** C3: a mount refines a file system.  Let [m] be the files a process finds on a
    branch in order, name by name from the top.  Through any sequence of events
    that succeed - reads, creates, writes done at once through a handle or by the
    worker, also appending, truncations, unlinks, renames of files, mkdir, rmdir,
    symlink, in between lookups, attributes, listings, opens, changes of mode, owner
    or times, callbacks that leave a job for the worker, in any order,
    and any operation on a branch this one does not descend from -
    the machine whose only state is the map takes
    the same steps: what is read is what the map holds, a created file is empty
    even where one was before, written bytes are spliced in, a renamed file
    replaces what was there, a new directory or link holds nothing; and afterwards
    the files found are the map again, so no event changes any file but those it
    names. *)
Theorem mount_refines_files b m es s s' :
  agrees b m s -> mount_run b es s s' -> exists m', file_run m es m' /\ agrees b m' s'.
Proof.
  intros Ha H. revert m Ha. induction H as [s|e es s s1 s2 Hs _ IH]; intros m Ha; [by exists m; split; [constructor|]|].
  destruct (step_simulated b m e s s1 Ha Hs) as (m1 & Hm1 & Ha1). destruct (IH m1 Ha1) as (m2 & Hm2 & Ha2).
  exists m2. split; [by econstructor|done].
Qed.
End Simulation.

(** ** Examples *)

#[local] Existing Instances example_env example_serde example_kernel.

(** A process reads the inherited file "b", makes "n", writes and truncates it,
    changes its mode, opens it for writing and renames it to "m"; the worker is left
    a write to "b", does it and deletes the file; a directory comes and goes, a link
    is made, and the root listed. *)
Definition cut : SetAttr :=
  {| sa_mode := None; sa_uid := None; sa_gid := None; sa_size := Some 2%Z; sa_atime := None; sa_mtime := None |}.
Definition x1 : res exn Outcome * Mounted := fuse_read 2 0 10 looked_up.
Definition x2 : res exn Outcome * Mounted := fuse_create ROOT_INO "n" 420 0 x1.2.
Definition x3 : res exn Outcome * Mounted := fuse_write 3 0 (bytes_of "hello") 1 x2.2.
Definition x4 : res exn Outcome * Mounted := fuse_setattr 3 cut x3.2.
Definition chmod : SetAttr :=
  {| sa_mode := Some 384%Z; sa_uid := None; sa_gid := None; sa_size := None; sa_atime := None; sa_mtime := None |}.
Definition y1 : res exn Outcome * Mounted := fuse_setattr 3 chmod x4.2.
Definition y2 : res exn Outcome * Mounted := fuse_open 3 1 y1.2.
Definition y3 : res exn Outcome * Mounted := fuse_write 2 1 (bytes_of "!") 0 y2.2.
Definition x5 : res exn Reply * Mounted := run_job (JWrite "fix" "/b" 1 (bytes_of "!")) y3.2.
Definition x6 : res exn Outcome * Mounted := fuse_rename ROOT_INO "n" ROOT_INO "m" 0 x5.2.
Definition x7 : res exn Reply * Mounted := run_job (JDelete "fix" "/b" "/b" (Some ESTALE)) x6.2.
Definition x8 : res exn Outcome * Mounted := fuse_mkdir ROOT_INO "d" 493 0 x7.2.
Definition x9 : res exn Reply * Mounted := run_job (JRmdir "fix" "/d" "/d" (Some ESTALE)) x8.2.
Definition x10 : res exn Outcome * Mounted := fuse_symlink ROOT_INO "l" "/etc" x9.2.
Definition x11 : res exn Outcome * Mounted := handle (OpReaddir ROOT_INO 0) x10.2.

Definition example_events : list file_event :=
  [FRead ["b"] 0 10 (bytes_of "B"); FCreate ["n"]; FWrite ["n"] 1 0 (bytes_of "hello"); FTruncate ["n"] 2;
   FOther; FOther; FOther; FWrite ["b"] 0 1 (bytes_of "!"); FRename ["n"] ["m"]; FUnlink ["b"]; FMkdir ["d"];
   FRmdir ["d"]; FSymlink ["l"]; FOther].

Lemma numbers_ext f f' :
  inodes f' = inodes f -> branch_ctl_inodes f' = branch_ctl_inodes f -> numbers_ok f -> numbers_ok f'.
Proof. intros H1 H2 [Ha Hb Hc Hd]. split; by rewrite ?H1, ?H2. Qed.

Lemma x2_numbers : numbers_ok x2.2.2.
Proof.
  apply (numbers_ext (with_inodes (get_or_create "/n" false (inodes looked_up.2)).2 looked_up.2)); [by vm_compute..|].
  apply (new_number_ok "/n" false); [apply looked_up_numbers|by vm_compute].
Qed.
Lemma x3_numbers : numbers_ok x3.2.2.
Proof. apply (numbers_ext x2.2.2); [by vm_compute..|apply x2_numbers]. Qed.

Lemma x4_numbers : numbers_ok x4.2.2.
Proof. apply (numbers_ext x3.2.2); [by vm_compute..|apply x3_numbers]. Qed.
Lemma y1_numbers : numbers_ok y1.2.2.
Proof. apply (numbers_ext x4.2.2); [by vm_compute..|apply x4_numbers]. Qed.

Ltac at_example := split; [by vm_compute|by repeat constructor|by vm_compute].
Ltac now_example := apply run_ok; by vm_compute.
Ltac there_example := eexists; by vm_compute.

Lemma example_reads : mount_step "fix" (FRead ["b"] 0 10 (bytes_of "B")) looked_up x1.2.
Proof.
  apply (mount_read "fix" 2 (AtRoot ["b"])); [at_example|done|done|apply looked_up_numbers|by vm_compute| |by vm_compute|lia|now_example].
  there_example.
Qed.
Lemma example_creates : mount_step "fix" (FCreate ["n"]) x1.2 x2.2.
Proof.
  destruct x2.1 as [[[]|]|] eqn:Ha; try (exfalso; vm_compute in Ha; discriminate).
  apply (mount_create "fix" ROOT_INO (AtRoot []) "n" 420 0 a); [at_example|done|by vm_compute|by vm_compute| |by apply run_ok].
  intros br _. split; [|intros src _]; apply link_free_plain; vm_compute; reflexivity.
Qed.
Lemma example_writes : mount_step "fix" (FWrite ["n"] 1 0 (bytes_of "hello")) x2.2 x3.2.
Proof.
  apply (mount_write "fix" 3 (AtRoot ["n"]) 1 0 (bytes_of "hello") [] 5);
    [at_example|apply x2_numbers|by vm_compute|by vm_compute| |now_example].
  intros br _ file Hf. by vm_compute in Hf.
Qed.
Lemma example_truncates : mount_step "fix" (FTruncate ["n"] 2) x3.2 x4.2.
Proof.
  destruct x4.1 as [[[]|]|] eqn:Ha; try (exfalso; vm_compute in Ha; discriminate).
  apply (mount_truncate "fix" 3 (AtRoot ["n"]) cut 2 a);
    [at_example|apply x3_numbers|there_example|done|by vm_compute|by apply run_ok].
Qed.
Lemma example_chmod : mount_step "fix" FOther x4.2 y1.2.
Proof.
  destruct y1.1 as [[[]|]|] eqn:Ha; try (exfalso; vm_compute in Ha; discriminate).
  apply (mount_attributes "fix" 3 (AtRoot ["n"]) chmod a);
    [at_example|apply x4_numbers|there_example|done|by vm_compute|by apply run_ok].
Qed.
Lemma example_opens : mount_step "fix" FOther y1.2 y2.2.
Proof.
  apply (mount_open "fix" 3 (AtRoot ["n"]) 1 ROpened); [at_example|apply y1_numbers|there_example|now_example|done].
Qed.
Lemma example_queues : mount_step "fix" FOther y2.2 y3.2.
Proof. apply (mount_queues "fix" (OpWrite 2 1 (bytes_of "!") 0) (JWrite "fix" "/b" 1 (bytes_of "!"))). now_example. Qed.
Lemma example_lists : mount_step "fix" FOther x10.2 x11.2.
Proof. unfold x11. generalize x10.2. intros s. apply mount_looks. constructor. Qed.
Lemma example_job_writes : mount_step "fix" (FWrite ["b"] 0 1 (bytes_of "!")) y3.2 x5.2.
Proof. apply (mount_write_job "fix" ["b"] 1 (bytes_of "!") 1); [by repeat constructor|there_example|now_example]. Qed.
Lemma example_renames : mount_step "fix" (FRename ["n"] ["m"]) x5.2 x6.2.
Proof.
  apply (mount_rename "fix" ROOT_INO (AtRoot []) "n" ROOT_INO (AtRoot []) "m" 0);
    [at_example|by vm_compute|by repeat constructor|done|done|done|done|there_example|by vm_compute|by vm_compute|now_example].
Qed.
(** At the top of the mount there is no directory in between. *)
Lemma top_reachable n (s : host * World) : reachable_parents "fix" [n] s.
Proof. intros br l r _ x y Hxy Hx Hy. exfalso. by destruct x as [|c [|c' x]], y. Qed.
Lemma example_unlinks : mount_step "fix" (FUnlink ["b"]) x6.2 x7.2.
Proof.
  apply (mount_unlink_job "fix" ["b"] "/b" (Some ESTALE) (KFile (bytes_of "B!")));
    [by repeat constructor|by vm_compute|by vm_compute|done|apply top_reachable|now_example].
Qed.

Lemma absent_below t x z : wf_tree t -> look t x = None -> t !! (x ++ z) = None.
Proof.
  intros Hwf Hx. destruct z as [|c z]; [rewrite app_nil_r; by apply look_None|]. apply eq_None_not_Some. intros Hs.
  by rewrite (wf_below t x (c :: z) Hwf) in Hx.
Qed.

(** A branch on top of one that has nothing at [c], nor has the base. *)
Lemma unclaimed_child b pn m c (s : host * World) :
  br_parent <$> branches s.2 !! b = Some (Some pn) -> inheritance <$> branches s.2 !! b = Some Lazy ->
  branches s.2 !! pn = Some m -> br_parent m = None ->
  look (h_tree s.1) (files_dir m ++ [c]) = None -> look (h_tree s.1) (base_path s.2 ++ [c]) = None ->
  unclaimed b [c] s.
Proof.
  intros Hpar Hinh Hm Hmp Hlm Hlb br l r z [Hw Hb [Hwf _ _] Hl] _.
  rewrite Hb in Hpar, Hinh. injection Hpar as Hpar. injection Hinh as Hinh.
  assert (l = [m] /\ r = base_path s.2) as [-> ->].
  { inversion Hl as [? ? ? Hp|? ? ? ? Hp Hi|? ? p ? ? ? Hp Hi Hl']; subst; try congruence.
    assert (p = pn) as -> by congruence. inversion Hl'; split; congruence. }
  unfold base_kind, underlay. destruct (is_hidden br _); [done|]. cbn [first_layer].
  rewrite !decide_False; [by destruct (_ || _)| |].
  - rewrite app_assoc, absent_below; [by intros []|done..].
  - rewrite app_assoc, absent_below; [by intros []|done..].
Qed.

Lemma example_unclaimed : unclaimed "fix" ["d"] x7.2.1.
Proof. apply (unclaimed_child "fix" "main" (example_branch "main" None ∅ [])); by vm_compute. Qed.

Lemma example_makes_directory : mount_step "fix" (FMkdir ["d"]) x7.2 x8.2.
Proof.
  destruct x8.1 as [[[]|]|] eqn:Ha; try (exfalso; vm_compute in Ha; discriminate).
  apply (mount_mkdir "fix" ROOT_INO (AtRoot []) "d" 493 0 a);
    [at_example|done|by vm_compute|by vm_compute|exact example_unclaimed|by apply run_ok].
Qed.
Lemma example_removes_directory : mount_step "fix" (FRmdir ["d"]) x8.2 x9.2.
Proof.
  apply (mount_rmdir_job "fix" ["d"] "/d" (Some ESTALE));
    [by repeat constructor|by vm_compute|by vm_compute|apply top_reachable| |now_example].
  intros br l r _. split; [apply Forall_forall; intros y _|]; apply link_free_plain; by vm_compute.
Qed.
Lemma example_links : mount_step "fix" (FSymlink ["l"]) x9.2 x10.2.
Proof.
  destruct x10.1 as [[[]|]|] eqn:Ha; try (exfalso; vm_compute in Ha; discriminate).
  apply (mount_symlink "fix" ROOT_INO (AtRoot []) "l" "/etc" a);
    [at_example|done|by vm_compute|by vm_compute|by apply run_ok].
Qed.

Lemma looked_up_ready : ready "fix" example_fix looked_up.
Proof. split; [apply looked_up_world|]. split; [done|exact example_store_ok]. Qed.

Lemma mount_refines_files_witness :
  exists m', file_run (file_of "fix" looked_up.1) example_events m'
    /\ forall q, path_ok q -> m' q = file_of "fix" x11.2.1 q.
Proof.
  destruct (mount_refines_files "fix" (file_of "fix" looked_up.1) example_events looked_up x11.2) as (m' & H1 & _ & H2).
  - split; [exists example_fix; exact looked_up_ready|reflexivity].
  - eapply mount_go; [exact example_reads|]. eapply mount_go; [exact example_creates|].
    eapply mount_go; [exact example_writes|]. eapply mount_go; [exact example_truncates|].
    eapply mount_go; [exact example_chmod|]. eapply mount_go; [exact example_opens|].
    eapply mount_go; [exact example_queues|]. eapply mount_go; [exact example_job_writes|]. eapply mount_go; [exact example_renames|].
    eapply mount_go; [exact example_unlinks|]. eapply mount_go; [exact example_makes_directory|].
    eapply mount_go; [exact example_removes_directory|]. eapply mount_go; [exact example_links|]. eapply mount_go; [exact example_lists|]. apply mount_stop.
  - exists m'. split; [exact H1|exact H2].
Defined.
