(* ===== verification/Ledger.v ===== *)
(** * The quota's ledger

    Every operation of the manager, every callback and job of a mount and every
    request to the daemon leaves the usage counter as a ledger of Quota.v does:
    bytes are added only after a check at that very counter allowed at least as
    many, and only bytes of removed or shortened files are taken off ([paid]). *)

From S2P Require Import Prelude Strs Inode HostFs Handles Quota TextMerge Branch Codec View Manager Commit.
From S2P Require Import Frame Isolation WorldInv ManagerSpec EditSpec WriteSpec Quiet Platform Mount Ctl Fuse.
From S2P Require Import FuseInv FuseFacts FuseSpec FuseIO ReadOnly Daemon.

Open Scope bool_scope.

(** ** Lengths of files *)

Lemma node_len_nonneg n : (0 <= node_len n)%Z.
Proof. unfold node_len. destruct (n_kind n); lia. Qed.

Lemma splice_length o data d : length (splice o data d) <= Nat.max (o + length data) (length d).
Proof.
  unfold splice. destruct data as [|x data]; [lia|]. rewrite !length_app, length_take, length_drop, length_app, length_replicate. lia.
Qed.

(** A path resolves the same way after the file it leads to was written. *)
Definition written_at (q : path) (t t' : tree) : Prop :=
  exists d, forall x, look t' x = if decide (q = x) then Some (KFile d) else look t x.

Lemma follow_ends fuel t p q links : follow fuel t p = Ok (q, links) -> not_link t q.
Proof.
  revert p. induction fuel as [|f IH]; intros p; unfold follow; fold follow; unfold not_link, look;
    destruct (t !! p) as [[[] m z s]|] eqn:Hp; intros H; simplify_eq; rewrite ?Hp; try done; by apply IH in H.
Qed.

Lemma follow_written fuel t t' p q links :
  written_at q t t' -> follow fuel t p = Ok (q, links) -> follow fuel t' p = Ok (q, links).
Proof.
  intros [d Hw]. revert p. induction fuel as [|f IH]; intros p H; specialize (Hw p) as Hp.
  all: destruct (decide (q = p)) as [->|Hne].
  1,3: rewrite follow_plain in H by (by eapply follow_ends); injection H as <-;
    apply follow_plain; intros target Ht; congruence.
  all: revert H Hp; unfold follow; fold follow; unfold look.
  all: destruct (t !! p) as [[[] m z s]|], (t' !! p) as [[[] m' z' s']|]; cbn; intros H Hp; simplify_eq; auto.
Qed.

Section Lengths.
Context {E : Env}.

(** What a call that follows links finds at [p]. *)
Definition found_at (h : host) (p q : path) : Prop := exists l, follow max_links (h_tree h) p = Ok (q, l).
Definition len_of (k : option kind) : Z :=
  match k with Some (KFile d) => Z.of_nat (length d) | Some (KSymlink t) => Z.of_nat (String.length t) | _ => 0 end.

Lemma metadata_found h p q : found_at h p q ->
  match h_tree h !! q with
  | Some n => metadata p h = (Ok n, h) /\ node_len n = len_of (look (h_tree h) q)
  | None => exists x, metadata p h = (Err (Throw x), h)
  end.
Proof.
  intros [l Hf]. unfold metadata, real_path, symlink_metadata, get_tree, io_error, throw, raise, gets, ret, bind.
  rewrite Hf. unfold look. destruct (h_tree h !! q) as [n|]; [|eauto]. split; [done|]. by destruct n as [[]].
Qed.

Lemma open_write_found p h q old h' :
  open_write p h = (Ok (q, old), h') -> h' = h /\ found_at h p q /\ old = h_tree h !! q.
Proof.
  intros H. pose proof (open_write_unchanged p h) as He. rewrite H in He. simpl in He. subst h'. revert H.
  unfold open_write, real_path, need_parent, symlink_metadata, get_tree, io_error, throw, raise, gets, ret, bind.
  destruct (follow max_links (h_tree h) p) as [[q' l]|] eqn:Hf; [|done].
  assert (found_at h p q') as Hq by by exists l.
  destruct (h_tree h !! q') as [n|] eqn:Hn.
  - destruct (is_dir n); intros; simplify_eq. by rewrite Hn.
  - destruct (h_tree h !! parent q') as [n'|]; [destruct (is_dir n')|]; intros; simplify_eq. by rewrite Hn.
Qed.

Lemma store_file_written q old d h : written_at q (h_tree h) (h_tree (store_file q old d h).2).
Proof. exists d. intros x. by rewrite store_file_look. Qed.

(** A write through [write_data_to_file] leaves the file no longer than the longer of
    what it was and where the write ends. *)
Lemma write_data_len p o data h k h' q :
  (0 <= o)%Z -> found_at h p q -> write_data_to_file p o data h = (Ok k, h') ->
  found_at h' p q /\ (len_of (look (h_tree h') q) <= Z.max (len_of (look (h_tree h) q)) (o + Z.of_nat (length data)))%Z.
Proof.
  intros Ho [l Hf] H. unfold write_data_to_file in H. apply bind_ok in H as ([q' old] & h1 & H1 & H).
  apply open_write_found in H1 as (-> & [l' Hf'] & ->). rewrite Hf in Hf'. injection Hf' as <- <-.
  apply bind_ok in H as (u & h2 & H2 & H).
  assert (found_at h2 p q /\ len_of (look (h_tree h2) q) = len_of (look (h_tree h) q)) as [[l2 Hf2] Hl2].
  { unfold look at 2. destruct (h_tree h !! q) as [n|] eqn:Hn.
    - unfold ret in H2. injection H2 as _ <-. split; [by exists l|]. unfold look. by rewrite Hn.
    - pose proof (store_file_written q None [] h) as Hw. pose proof (store_file_look q None [] h q) as Hl. rewrite H2 in Hw, Hl. cbn [snd] in *.
      split; [exists l; by eapply follow_written|]. rewrite Hl. by rewrite decide_True. }
  rewrite <- Hl2. clear Hl2 H2. case_bool_decide; [|done].
  apply bind_ok in H as (n & h3 & H3 & H). unfold symlink_metadata, get_tree, gets, io_error, throw, raise, ret, bind in H3.
  destruct (h_tree h2 !! q) as [n'|] eqn:Hn; [|done]. injection H3 as <- <-.
  apply bind_ok in H as ([] & h4 & H4 & H). unfold ret in H. injection H as _ <-.
  destruct (bool_decide (data = [])); cbn [negb when] in H4.
  - unfold ret in H4. injection H4 as <-. split; [by exists l2|]. lia.
  - pose proof (store_file_written q (Some n') (splice (Z.to_nat o) data (node_data (Some n'))) h2) as Hw.
    pose proof (store_file_look q (Some n') (splice (Z.to_nat o) data (node_data (Some n'))) h2 q) as Hl.
    rewrite H4 in Hw, Hl. cbn [snd] in *. split; [exists l2; by eapply follow_written|]. rewrite Hl, decide_True by done.
    pose proof (splice_length (Z.to_nat o) data (node_data (Some n'))) as Hs. cbn [len_of].
    assert (Z.of_nat (length (node_data (Some n'))) <= len_of (look (h_tree h2) q))%Z; [|lia].
    unfold look. rewrite Hn. destruct n' as [[]]; cbn; lia.
Qed.

Lemma found_plain h p : not_link (h_tree h) p -> found_at h p p.
Proof. intros Hp. exists max_links. by apply follow_plain. Qed.

Lemma copy_found a b h c z h' :
  look (h_tree h) a = Some (KFile c) -> copy a b h = (Ok z, h') ->
  exists q, found_at h' b q /\ look (h_tree h') q = Some (KFile c).
Proof.
  intros Ha H. unfold copy in H. apply bind_ok in H as (n & h1 & H1 & H).
  pose proof (metadata_found h a a (found_plain h a (look_file_plain _ _ _ Ha))) as Hm.
  unfold look in Ha. destruct (h_tree h !! a) as [n'|]; [|done]. injection Ha as Ha. destruct Hm as [Hm _].
  rewrite Hm in H1. injection H1 as -> ->. rewrite Ha in H.
  apply bind_ok in H as ([q old] & h2 & H2 & H). apply open_write_found in H2 as (-> & [l Hq] & ->).
  apply bind_ok in H as ([] & h3 & H3 & H).
  pose proof (store_file_look q (h_tree h1 !! q) c h1) as Hl. rewrite H3 in Hl. cbn [snd] in Hl.
  unfold get_tree, gets, modify, bind, ret in H. injection H as _ <-. exists q. cbn [h_tree]. split.
  - exists l. cbn [h_tree]. eapply follow_written; [|exact Hq]. exists c. intros x. by rewrite look_alter_mode.
  - by rewrite look_alter_mode, Hl, decide_True.
Qed.

Lemma write_data_found p o data h k h' :
  write_data_to_file p o data h = (Ok k, h') -> exists q, found_at h p q.
Proof.
  intros H. unfold write_data_to_file in H. apply bind_ok in H as ([q old] & h1 & H1 & _).
  apply open_write_found in H1 as (_ & Hq & _). by exists q.
Qed.

(** [Metadata::len] of what a path leads to. *)
Lemma metadata_len h p q r h' :
  found_at h p q -> attempt (metadata p) h = (Ok r, h') ->
  h' = h /\ match r with Ok m => node_len m = len_of (look (h_tree h) q) | Err _ => len_of (look (h_tree h) q) = 0%Z end.
Proof.
  intros Hq%metadata_found H. unfold attempt in H. unfold look. destruct (h_tree h !! q) as [n|].
  - destruct Hq as [Hq Hl]. rewrite Hq in H. by simplify_eq.
  - destruct Hq as [x Hq]. rewrite Hq in H. by simplify_eq.
Qed.
End Lengths.

(** ** Operations on the ledger *)

Definition pays (q q' : StorageQuota) : Prop := exists l, books q l q'.
#[export] Instance pays_preorder : PreOrder pays.
Proof.
  split; [intros q; exists []; constructor|]. intros a b c [l1 H1] [l2 H2]. exists (l1 ++ l2). by eapply books_app.
Qed.
Definition paid (s s' : host * World) : Prop := pays (quota s.2) (quota s'.2).
#[export] Instance paid_preorder : PreOrder paid.
Proof. split; [intros s; unfold paid; reflexivity|]. intros a b c. unfold paid. apply transitivity. Qed.

Lemma same_quota_paid (s s' : host * World) : quota s'.2 = quota s.2 -> paid s s'.
Proof. unfold paid. intros ->. reflexivity. Qed.

Section Leaves.
Context {E : Env} {J : Serde}.

Lemma on_host_paid {A} (c : IO A) : keeps paid (on_host c).
Proof. intros [h w]. apply same_quota_paid. unfold on_host, zoom. simpl. by destruct (c h). Qed.
Lemma on_mem_paid f : (forall w, quota (f w) = quota w) -> keeps paid (on_mem f).
Proof. intros Hf [h w]. apply same_quota_paid, Hf. Qed.
Lemma lookup_paid n : keeps paid (lookup_branch n).
Proof. unfold lookup_branch. keeps_auto. Qed.
Lemma on_branch_paid {A} n (c : BIO A) : keeps paid (on_branch n c).
Proof.
  intros [h w]. unfold on_branch, bind. destruct (lookup_branch n (h, w)) as [r s1] eqn:Hl.
  apply lookup_same in Hl as [-> Hb]. destruct r as [b|x]; [|reflexivity]. simpl.
  destruct (c (h, b)) as [r [h' b']]. by apply same_quota_paid.
Qed.
Lemma view_paid {A} (c : path -> branch_map -> nat -> IO A) : keeps paid (view c).
Proof. unfold view. apply keeps_bind; [apply _|apply keeps_gets, _|]. intros w. apply on_host_paid. Qed.
Lemma of_exn_paid {A} (r : res exn A) : keeps paid (of_exn r).
Proof. unfold of_exn. keeps_auto. Qed.
Lemma resolve_touch_paid b rel : keeps paid (resolve_inherited_for_touch b rel).
Proof. apply view_paid. Qed.

(** One step at a time, with what it answered. *)
Lemma paid_bind {A B} (c : MIO A) (k : A -> MIO B) s :
  paid s (c s).2 -> (forall a s1, c s = (Ok a, s1) -> paid s1 (k a s1).2) -> paid s (bind c k s).2.
Proof.
  intros Hc Hk. unfold bind. destruct (c s) as [[a|x] s1]; [|done]. etransitivity; [exact Hc|]. by apply Hk.
Qed.
Lemma paid_host {A B} (c : IO A) (k : A -> MIO B) h w :
  (forall a h1, c h = (Ok a, h1) -> paid (h, w) (k a (h1, w)).2) -> paid (h, w) (bind (on_host c) k (h, w)).2.
Proof.
  intros Hk. unfold bind, on_host, zoom. cbn [fst snd]. destruct (c h) as [[a|x] h1]; [by apply Hk|by apply same_quota_paid].
Qed.
Lemma paid_attempt_host {A B} (c : IO A) (k : res BranchError A -> MIO B) h w :
  (forall a h1, c h = (Ok a, h1) -> paid (h, w) (k (Ok a) (h1, w)).2) ->
  (forall e h1, c h = (Err (Throw e), h1) -> paid (h, w) (k (Err e) (h1, w)).2) ->
  paid (h, w) (bind (attempt (on_host c)) k (h, w)).2.
Proof.
  intros H1 H2. unfold bind, attempt, on_host, zoom. cbn [fst snd].
  destruct (c h) as [[a|[e| |]] h1]; [by apply H1|by apply H2|by apply same_quota_paid..].
Qed.

(** After a check that passed. *)
Lemma check_passed {A} z (k : unit -> MIO A) s :
  (quota_check (quota s.2) z = Ok tt -> paid s (k tt s).2) -> paid s (bind (check_quota z) k s).2.
Proof.
  intros Hk. unfold bind, check_quota, gets, throw, raise, ret. unfold bind.
  destruct (quota_check (quota s.2) z) as [[]|e]; [by apply Hk|reflexivity].
Qed.
Lemma add_paid b z s : quota_check (quota s.2) z = Ok tt -> (0 <= b <= z)%Z -> paid s (add_quota b s).2.
Proof. intros Hc Hb. exists [Charged z b]. apply books_charged; [done|done|apply books_nil]. Qed.
Lemma sub_paid b : (0 <= b)%Z -> keeps paid (sub_quota b).
Proof. intros Hb s. exists [Refunded b]. apply books_refunded; [done|apply books_nil]. Qed.

Lemma cow_copy_paid src delta : keeps paid (cow_copy src delta).
Proof.
  intros [h w]. unfold cow_copy. apply paid_attempt_host; [|intros; by apply same_quota_paid].
  intros meta h1 _. destruct (_ || _); [|by apply same_quota_paid]. cbn [when].
  etransitivity; [by apply (same_quota_paid _ (h1, w))|]. apply check_passed. intros Hc.
  apply paid_host. intros [] h2 _. etransitivity; [by apply (same_quota_paid _ (h2, w))|].
  apply (add_paid _ (node_len meta)); [done|]. pose proof (node_len_nonneg meta). lia.
Qed.

(** ... or was not asked for, because nothing is to be added. *)
Lemma paid_room {A} (b : bool) z (k : unit -> MIO A) s :
  ((b = true -> quota_check (quota s.2) z = Ok tt) -> paid s (k tt s).2) ->
  paid s (bind (when b (check_quota z)) k s).2.
Proof. intros Hk. destruct b; cbn [when]; [apply check_passed|]; naive_solver. Qed.
Lemma paid_growth (b b' : bool) x z (s : host * World) :
  (b = true -> quota_check (quota s.2) z = Ok tt) -> (b' = true -> b = true /\ (0 <= x <= z)%Z) ->
  paid s (when b' (add_quota x) s).2.
Proof.
  intros Hc Hb. destruct b'; cbn [when]; [|by apply same_quota_paid]. destruct (Hb eq_refl) as [-> Hx].
  by apply (add_paid x z); [apply Hc|].
Qed.

Lemma paid_stat {B} p (k : res BranchError node -> MIO B) h w :
  (forall r h1, attempt (metadata p) h = (Ok r, h1) -> paid (h, w) (k r (h1, w)).2) ->
  paid (h, w) (bind (attempt (on_host (metadata p))) k (h, w)).2.
Proof. intros Hk. apply paid_attempt_host; intros ? h1 H; apply Hk; unfold attempt; by rewrite H. Qed.

Lemma delta_write_paid n rel delta o data :
  (0 <= o)%Z -> keeps paid (delta_write n rel delta o (o + Z.of_nat (length data)) data).
Proof.
  intros Ho s. unfold delta_write. set (we := (o + Z.of_nat (length data))%Z).
  apply paid_bind; [apply on_branch_paid|]. intros [] [h w] _.
  apply paid_stat. intros r1 h1 H1. set (old := match r1 with Ok m => node_len m | Err _ => 0%Z end).
  etransitivity; [by apply (same_quota_paid _ (h1, w))|]. apply paid_room. intros Hc.
  apply paid_host. intros k h2 H2. etransitivity; [by apply (same_quota_paid _ (h2, w))|].
  apply paid_stat. intros r3 h3 H3.
  set (new := match r3 with Ok m => node_len m | Err _ => old end).
  etransitivity; [by apply (same_quota_paid _ (h3, w))|]. apply paid_bind; [|intros; by apply same_quota_paid].
  apply (paid_growth (old <? we)%Z _ _ (we - old)); [exact Hc|]. intros Hlt%Z.ltb_lt.
  destruct (write_data_found _ _ _ _ _ _ H2) as [q Hq].
  assert (h1 = h) as ->.
  { unfold attempt in H1. pose proof (metadata_keeps eq delta h) as He. destruct (metadata delta h) as [[?|[]] ?]; by simplify_eq/=. }
  apply (metadata_len _ _ q) in H1 as [_ H1]; [|done].
  destruct (write_data_len _ _ _ _ _ _ _ Ho Hq H2) as [Hq2 Hle]. apply (metadata_len _ _ q) in H3 as [_ H3]; [|done].
  assert (old = len_of (look (h_tree h) q)) as Hold by (unfold old; by destruct r1).
  assert (new <= Z.max old we)%Z as Hnew by (unfold new; destruct r3; lia).
  split; [apply Z.ltb_lt|]; lia.
Qed.

(** The file that is staged is no longer than the longer of the file it is a copy
    of and where the write ends. *)
Lemma create_dir_all_file p h r h' q c :
  create_dir_all p h = (r, h') -> look (h_tree h) q = Some (KFile c) -> look (h_tree h') q = Some (KFile c).
Proof. intros H Hq. destruct (create_dir_all_look _ _ _ _ H q) as [->|[? _]]; congruence. Qed.

Lemma staged_write_len b src delta o data c h w k len s' :
  (0 <= o)%Z -> look (h_tree h) src = Some (KFile c) ->
  staged_write b src delta o data (h, w) = (Ok (k, len), s') ->
  s'.2 = w /\ (0 <= len <= Z.max (Z.of_nat (length c)) (o + Z.of_nat (length data)))%Z.
Proof.
  intros Ho Hc H. unfold staged_write in H.
  apply host_ok in H as ([] & h1 & H1 & H).
  assert (look (h_tree h1) src = Some (KFile c)) as Hc1.
  { unfold ensure_parent_dirs in H1. destruct delta; [by injection H1 as <-|]. by eapply create_dir_all_file. }
  apply host_ok in H as ([] & h2 & H2 & H). pose proof (create_dir_all_file _ _ _ _ _ _ H2 Hc1) as Hc2.
  apply host_ok in H as (st & h3 & H3 & H).
  assert (h_tree h3 = h_tree h2) as Ht3 by (unfold staging_path, fresh_uuid, bind, ret in H3; by simplify_eq).
  apply attempt_host_ok in H as (h4 & [(x & H4 & H)|(e & _ & H)]); unfold ret in H.
  2:{ unfold bind in H. destruct (attempt _ _) as [[]]; done. }
  injection H as -> <-. split; [done|].
  apply bind_ok in H4 as (z & h5 & H5 & H). rewrite <- Ht3 in Hc2.
  destruct (copy_found _ _ _ _ _ _ Hc2 H5) as (q & Hq & Hl).
  apply bind_ok in H as (k' & h6 & H6 & H). apply bind_ok in H as (m & h7 & H7 & H).
  destruct (write_data_len _ _ _ _ _ _ _ Ho Hq H6) as [Hq6 Hle].
  assert (attempt (metadata st) h6 = (Ok (Ok m), h7)) as H7' by (unfold attempt; by rewrite H7).
  apply (metadata_len _ _ q) in H7' as [-> Hm]; [|done].
  apply bind_ok in H as ([] & h8 & _ & H). unfold ret in H. injection H as -> <- _.
  pose proof (node_len_nonneg m). rewrite Hl in Hle. cbn [len_of] in Hle. lia.
Qed.

Lemma staged_write_same b src delta o data (s : host * World) : (staged_write b src delta o data s).2.2 = s.2.
Proof.
  assert (keeps (fun s s' : host * World => s'.2 = s.2) (staged_write b src delta o data)) as H; [|by apply H].
  assert (PreOrder (fun s s' : host * World => s'.2 = s.2)) by (split; [done|intros ? ? ?; congruence]).
  assert (forall A (c : IO A), keeps (fun s s' : host * World => s'.2 = s.2) (on_host c)) as Hh.
  { intros A c [h w]. unfold on_host, zoom. cbn [fst snd]. by destruct (c h). }
  unfold staged_write. keeps_auto; auto.
Qed.

(** A first write to an inherited file or link. *)
Lemma link_copy_paid src delta meta (b : bool) :
  keeps paid (when b (do* check_quota (node_len meta); do* on_host (copy_entry src delta); add_quota (node_len meta))).
Proof.
  intros [h w]. destruct b; cbn [when]; [|by apply same_quota_paid]. apply check_passed. intros Hc.
  apply paid_host. intros [] h2 _. etransitivity; [by apply (same_quota_paid _ (h2, w))|].
  apply (add_paid _ (node_len meta)); [done|]. pose proof (node_len_nonneg meta). lia.
Qed.

Lemma staged_paid n b rel src delta meta o data h w :
  (0 <= o)%Z -> h_tree h !! src = Some meta -> is_file meta = true ->
  paid (h, w) ((do* check_quota (Z.max (node_len meta) (o + Z.of_nat (length data)));
    let* (written, final_len) := staged_write b src delta o data in
    do* add_quota final_len;
    do* on_branch n (remove_tombstone rel);
    ret written) (h, w)).2.
Proof.
  intros Ho Hm Hf. apply check_passed. intros Hc. pose proof (staged_write_same b src delta o data (h, w)) as Hs.
  assert (exists c, look (h_tree h) src = Some (KFile c) /\ node_len meta = Z.of_nat (length c)) as (c & Hl & Hlen).
  { unfold look. rewrite Hm. destruct meta as [[c| | |]]; try done. by exists c. }
  destruct (staged_write b src delta o data (h, w)) as [[[k len]|x] s1] eqn:Hst.
  2:{ rewrite (bind_fail _ _ _ _ _ Hst). apply same_quota_paid. cbn [snd] in *. by rewrite Hs. }
  rewrite (bind_step _ _ _ _ _ Hst). cbn [snd] in Hs. destruct (staged_write_len _ _ _ _ _ _ _ _ _ _ _ Ho Hl Hst) as [_ Hle].
  etransitivity; [by apply (same_quota_paid _ s1); rewrite Hs|]. apply paid_bind.
  - apply (add_paid _ (Z.max (node_len meta) (o + Z.of_nat (length data)))); [by rewrite Hs|lia].
  - intros [] s2 _. revert s2. apply (keeps_bind paid); [apply on_branch_paid|]. intros []. apply (keeps_ret paid).
Qed.

Lemma first_write_paid n b rel inherited delta o data :
  (0 <= o)%Z ->
  keeps paid (
    let* meta := (match inherited with
                  | Some src => let* r := attempt (on_host (symlink_metadata src)) in ret (ok r)
                  | None => ret None
                  end) in
    match inherited, meta with
    | Some src, Some meta =>
        if is_file meta then
          do* check_quota (Z.max (node_len meta) (o + Z.of_nat (length data)));
          let* (written, final_len) := staged_write b src delta o data in
          do* add_quota final_len;
          do* on_branch n (remove_tombstone rel);
          ret written
        else
          do* when (is_symlink meta) (
            do* check_quota (node_len meta);
            do* on_host (copy_entry src delta);
            add_quota (node_len meta));
          do* on_host (ensure_parent_dirs delta);
          delta_write n rel delta o (o + Z.of_nat (length data)) data
    | _, _ =>
        do* on_host (ensure_parent_dirs delta);
        delta_write n rel delta o (o + Z.of_nat (length data)) data
    end).
Proof.
  intros Ho [h w].
  assert (keeps paid (do* on_host (ensure_parent_dirs delta); delta_write n rel delta o (o + Z.of_nat (length data)) data)) as Hplain.
  { apply (keeps_bind paid); [apply on_host_paid|]. intros _. by apply delta_write_paid. }
  destruct inherited as [src|]; [|apply Hplain]. rewrite bind_assoc. apply paid_attempt_host.
  - intros meta h1 Hm. etransitivity; [by apply (same_quota_paid _ (h1, w))|]. unfold ret at 1. unfold bind at 1. cbn [ok].
    destruct (is_file meta) eqn:Hf.
    + apply staged_paid; [done| |done]. unfold symlink_metadata, get_tree, gets, io_error, throw, raise, ret, bind in Hm.
      destruct (h_tree h !! src) eqn:Hs; by simplify_eq.
    + apply (keeps_bind paid); [apply link_copy_paid|]. intros _. apply Hplain.
  - intros e h1 _. etransitivity; [by apply (same_quota_paid _ (h1, w))|]. apply Hplain.
Qed.

Lemma write_paid n rel o data : keeps paid (write_data_to_branch n rel o data).
Proof.
  unfold write_data_to_branch. destruct (Z.ltb_spec o 0); [apply (keeps_throw paid)|].
  destruct (_ <? _)%Z; [apply (keeps_throw paid)|].
  apply (keeps_bind paid); [unfold writable_branch; keeps_auto; apply lookup_paid|]. intros b.
  apply (keeps_bind paid); [apply (keeps_attempt paid), on_host_paid|]. intros r.
  destruct (is_ok r); [by apply delta_write_paid|].
  apply (keeps_bind paid); [apply resolve_touch_paid|]. intros inherited.
  apply (keeps_bind paid); [apply on_branch_paid|]. intros _.
  apply first_write_paid. lia.
Qed.
End Leaves.

(** ** What is given back *)

Section Freed.
Context {E : Env}.

Definition counts (c : IO Z) : Prop := forall h z h', c h = (Ok z, h') -> (0 <= z)%Z.

Lemma counts_ret z : (0 <= z)%Z -> counts (ret z).
Proof. by intros Hz h z' h' [= <- _]. Qed.
Lemma counts_bind {A} (c : IO A) k : (forall a, counts (k a)) -> counts (bind c k).
Proof. intros Hk h z h' (a & h1 & _ & H)%bind_ok. by eapply Hk. Qed.
Lemma counts_fold {A} (f : Z -> A -> IO Z) l : forall b,
  (0 <= b)%Z -> (forall b a, (0 <= b)%Z -> counts (f b a)) -> counts (fold_m f b l).
Proof.
  induction l as [|a l IH]; intros b Hb Hf; simpl; [by apply counts_ret|].
  intros h z h' (b' & h1 & H1 & H)%bind_ok. apply Hf in H1; [|done]. by eapply IH in H.
Qed.
Lemma counts_through p (c : path -> IO Z) : (forall q, counts (c q)) -> counts (through p c).
Proof. intros Hc. unfold through. destruct p; [done|]. by apply counts_bind. Qed.

Lemma dir_size_counts p : counts (dir_size p).
Proof.
  apply counts_bind. intros t. generalize max_links at 2. generalize (S max_links * tree_fuel t). intros fuel.
  revert p. induction fuel as [|f IH]; intros p links; simpl; [by intros ? ? ?|].
  apply counts_bind. intros [names|e]; [|by apply counts_ret]. apply counts_fold; [done|]. intros total name Ht.
  assert (forall m : res BranchError node, counts (ret (match m with Ok n => wrap_u64 (total + node_len n) | Err _ => total end))) as Hm.
  { intros [n|e]; apply counts_ret; [apply wrap_u64_range|done]. }
  apply counts_bind. intros t'. destruct (follow links t' (p ++ [name])) as [[q links']|e]; [|apply counts_bind, Hm].
  destruct (match t' !! q with Some n => is_dir n | None => false end); [|apply counts_bind, Hm].
  apply counts_bind. intros z. apply counts_ret, wrap_u64_range.
Qed.
End Freed.

(** ** The manager *)

Ltac paid_step :=
  cbn beta iota;
  lazymatch goal with
  | |- keeps paid (on_branch _ _) => apply on_branch_paid
  | |- keeps paid (on_host _) => apply on_host_paid
  | |- keeps paid (view _) => apply view_paid
  | |- keeps paid (lookup_branch _) => apply lookup_paid
  | |- keeps paid (of_exn _) => apply of_exn_paid
  | |- keeps paid (on_mem _) => apply on_mem_paid; intros ?; reflexivity
  | |- _ => keeps_step
  end.
Ltac paid_auto := repeat paid_step.

Section Manager.
Context {E : Env} {J : Serde}.

Lemma freed_paid {B} (c : IO Z) (k : Z -> MIO B) :
  counts c -> (forall z, (0 <= z)%Z -> keeps paid (k z)) -> keeps paid (bind (on_host c) k).
Proof.
  intros Hc Hk [h w]. apply paid_host. intros z h1 H. etransitivity; [by apply (same_quota_paid _ (h1, w))|].
  apply Hk. by eapply Hc.
Qed.

Lemma drop_delta_paid n rel : keeps paid (drop_delta n rel).
Proof.
  unfold drop_delta. paid_step; [paid_auto|]. paid_step; [paid_auto|]. destruct a0 as [meta|]; [|paid_auto].
  apply freed_paid; [destruct (is_dir meta); [apply dir_size_counts|apply counts_ret, node_len_nonneg]|].
  intros z Hz. paid_auto. by apply sub_paid.
Qed.
Lemma drop_through_paid n rel : keeps paid (drop_delta_through n rel).
Proof.
  unfold drop_delta_through. paid_step; [paid_auto|]. paid_step; [paid_auto|]. destruct a0 as [meta|]; [|paid_auto].
  apply freed_paid.
  { destruct (is_dir meta); [apply counts_through, dir_size_counts|apply counts_ret, node_len_nonneg]. }
  intros z Hz. paid_auto. by apply sub_paid.
Qed.
Hint Resolve drop_delta_paid drop_through_paid cow_copy_paid write_paid : keeps.

Lemma ensure_delta_paid n rel : keeps paid (ensure_delta_path_for_write n rel).
Proof. unfold ensure_delta_path_for_write, writable_branch, resolve_inherited_for_touch. paid_auto. Qed.
Lemma delete_paid n rel : keeps paid (delete_path_in_branch n rel).
Proof. unfold delete_path_in_branch, writable_branch, resolve_inherited_for_touch, mark_deleted. paid_auto. Qed.
Lemma rmdir_paid n rel : keeps paid (rmdir_path_in_branch n rel).
Proof.
  unfold rmdir_path_in_branch, writable_branch, resolve_inherited_for_touch, mark_deleted, resolve_path, collect_dir_names.
  paid_auto.
Qed.
Lemma revert_paid n rel : keeps paid (revert_path_in_branch n rel).
Proof. unfold revert_path_in_branch, writable_branch. paid_auto. Qed.
Lemma change_state_paid st n : keeps paid (change_state st n).
Proof. unfold change_state. paid_auto. Qed.

Lemma check_deletion_paid b m rel : keeps paid (check_deletion b m rel).
Proof. unfold check_deletion, resolve_inherited_for_touch. paid_auto. Qed.
Lemma try_merge_paid b r c i src : keeps paid (try_merge b r c i src).
Proof. unfold try_merge. paid_auto. Qed.
Hint Resolve check_deletion_paid try_merge_paid : keeps.
Lemma check_delta_paid b dir m f : keeps paid (check_delta b dir m f).
Proof. unfold check_delta, resolve_inherited_for_touch. destruct f as [rel src]. paid_auto. Qed.
Hint Resolve check_delta_paid : keeps.
Lemma commit_with_report_paid n : keeps paid (commit_with_report n).
Proof.
  unfold commit_with_report, leaf_with_parent, merge_phase, commit_to_main, commit_nested, forget_branch. paid_auto.
Qed.
Hint Resolve commit_with_report_paid : keeps.
Lemma commit_paid n : keeps paid (commit n).
Proof. unfold commit. paid_auto. Qed.
Lemma abort_paid n : keeps paid (abort n).
Proof. unfold abort, leaf_with_parent, forget_branch. paid_auto. Qed.
Lemma create_paid n p inh hides : keeps paid (create_branch_with_options n p inh hides).
Proof. unfold create_branch_with_options. paid_auto. Qed.
Lemma create_plain_paid n p : keeps paid (create_branch n p).
Proof. apply create_paid. Qed.
Lemma resolve_path_paid n p : keeps paid (resolve_path n p).
Proof. apply view_paid. Qed.
Lemma collect_paid n p : keeps paid (collect_dir_names n p).
Proof. apply view_paid. Qed.
Lemma has_delta_paid n p : keeps paid (branch_has_delta n p).
Proof. unfold branch_has_delta. paid_auto. Qed.
Lemma inherited_exists_paid n p : keeps paid (inherited_path_exists n p).
Proof. unfold inherited_path_exists. paid_auto. Qed.
End Manager.
#[export] Hint Resolve ensure_delta_paid write_paid delete_paid rmdir_paid revert_paid change_state_paid
  commit_with_report_paid commit_paid abort_paid create_paid create_plain_paid resolve_path_paid collect_paid
  has_delta_paid inherited_exists_paid : keeps.

(** ** Mounts *)

Definition xpaid {X} (s s' : host * World * X) : Prop := paid s.1 s'.1.
#[export] Instance xpaid_preorder {X} : PreOrder (@xpaid X).
Proof. split; [intros s; unfold xpaid; reflexivity|]. intros a b c. unfold xpaid. apply transitivity. Qed.

Section XSteps.
Context {E : Env} {J : Serde} {X : Type}.

Lemma mgr_xpaid {A} (c : MIO A) : keeps paid c -> keeps (@xpaid X) (mgr c).
Proof. apply mgr_keeps. Qed.
Lemma hostio_xpaid {A} (c : IO A) : keeps (@xpaid X) (hostio c).
Proof. apply mgr_xpaid, on_host_paid. Qed.
Lemma modify_xpaid (f : X -> X) : keeps (@xpaid X) (modify (fun s => (s.1, f s.2))).
Proof. intros s. by apply same_quota_paid. Qed.
Lemma upd_world_xpaid f : (forall w, quota (f w) = quota w) -> keeps (@xpaid X) (upd_world f).
Proof. intros Hf. by apply mgr_xpaid, on_mem_paid. Qed.
End XSteps.

Lemma switch_quota mp b w : quota (switch_mount_branch mp b w) = quota w.
Proof. unfold switch_mount_branch. destruct (mount_branches w !! mp) as [old|]; [|done]. by destruct (notifiers w !! (old, mp)). Qed.
Lemma unregister_quota mp w : quota (unregister_mount mp w) = quota w.
Proof. unfold unregister_mount. by destruct (mount_branches w !! mp). Qed.

Create HintDb paid discriminated.
Ltac xpaid_step :=
  cbn beta iota;
  lazymatch goal with
  | |- keeps xpaid (bind _ _) => apply (keeps_bind xpaid); [|intros ?]
  | |- keeps xpaid (mgr _) => apply mgr_xpaid; paid_auto
  | |- keeps xpaid (hostio _) => apply hostio_xpaid
  | |- keeps xpaid (upd_world (switch_mount_branch _ _)) => apply upd_world_xpaid, switch_quota
  | |- keeps xpaid (upd_world (unregister_mount _)) => apply upd_world_xpaid, unregister_quota
  | |- keeps xpaid (upd_world _) => apply upd_world_xpaid; intros ?; reflexivity
  | |- keeps xpaid (upd_fs _) => apply modify_xpaid
  | |- keeps xpaid (upd_daemon _) => apply modify_xpaid
  | |- keeps xpaid (attempt _) => apply (keeps_attempt xpaid)
  | |- keeps xpaid (when _ _) => apply (keeps_when xpaid)
  | |- keeps xpaid (for_each _ _) => apply (keeps_for_each xpaid); intros ? ?
  | |- keeps xpaid (fold_m _ _ _) => apply (keeps_fold_m xpaid); intros ? ?
  | |- keeps xpaid (ret _) => apply (keeps_ret xpaid)
  | |- keeps xpaid (gets _) => apply (keeps_gets xpaid)
  | |- keeps xpaid (match ?x with _ => _ end) => destruct x
  | |- keeps xpaid _ => solve [eauto 3 with paid typeclass_instances]
  end.
Ltac xpaid_auto := repeat xpaid_step.

Section Callbacks.
Context {E : Env} {J : Serde} {K : Kernel}.

(** What only looks leaves the counter as it is. *)
Lemma looking_paid {A} (c : FIO A) : keeps looking c -> keeps xpaid c.
Proof. intros Hc s. destruct (Hc s) as [_ [o Ho]]. apply same_quota_paid. by rewrite Ho. Qed.
Lemma hostio_state {A} (c : IO A) (s : Mounted) : (hostio c s).2.1.2 = s.1.2.
Proof. rewrite hostio_eq. reflexivity. Qed.

(** The two places of fs.rs that charge the quota themselves. *)
Lemma room_eq (b : bool) z (s : Mounted) :
  exists r, attempt (mgr (if b then check_quota z else ret tt)) s = (Ok r, s)
    /\ (is_ok r = true -> b = true -> quota_check (quota s.1.2) z = Ok tt).
Proof.
  destruct s as [hw f]. unfold attempt. rewrite mgr_eq. destruct b; cbn [fst snd]; [|by exists (Ok tt)].
  unfold check_quota, gets, throw, raise, ret, bind. cbn [fst snd].
  destruct (quota_check (quota hw.2) z) as [[]|e]; cbn [fst snd]; [by exists (Ok tt)|by exists (Err (Io e))].
Qed.

(** A step that leaves the counter, and what comes after it. *)
Lemma quiet_then {A B} (c : FIO A) (k : A -> FIO B) s :
  quota (c s).2.1.2 = quota s.1.2 ->
  (forall a s1, c s = (Ok a, s1) -> quota s1.1.2 = quota s.1.2 -> xpaid s1 (k a s1).2) -> xpaid s (bind c k s).2.
Proof.
  intros Hq Hk. unfold bind. destruct (c s) as [[a|x] s1]; cbn [snd] in Hq; [|by apply same_quota_paid].
  etransitivity; [by apply same_quota_paid|]. by apply Hk.
Qed.
Lemma attempt_state {S A} (c : M S A) s : (attempt c s).2 = (c s).2.
Proof. unfold attempt. by destruct (c s) as [[a|[]] s1]. Qed.

(** Bytes added after the check [Hc]. *)
Lemma growth_paid (b : bool) z (s0 s : Mounted) :
  quota s.1.2 = quota s0.1.2 -> (b = true -> (0 <= z)%Z /\ quota_check (quota s0.1.2) z = Ok tt) ->
  xpaid s (mgr (when b (add_quota z)) s).2.
Proof.
  destruct s as [hw f]. intros Hq Hc. rewrite mgr_eq. unfold xpaid. cbn [fst snd] in *. destruct b; cbn [when]; [|reflexivity].
  destruct (Hc eq_refl). apply (add_paid z z); [by rewrite Hq|lia].
Qed.

Lemma write_handle_paid f o z data recheck : keeps xpaid (write_handle f o z data recheck).
Proof.
  intros s. unfold write_handle. set (we := (o + Z.of_nat (length data))%Z).
  destruct (room_eq (z <? we)%Z (we - z) s) as (room & Hroom & Hc). rewrite (bind_step _ _ _ _ _ Hroom).
  destruct (is_ok room); cbn [negb]; [|unfold fail; reflexivity]. specialize (Hc eq_refl).
  apply quiet_then; [by rewrite attempt_state, hostio_state|]. intros r s1 H1 Hq1.
  destruct r as [n|]; [|unfold fail; reflexivity].
  assert (n = Z.of_nat (length data)) as ->.
  { apply attempt_ok in H1 as [(n' & [= <-] & H1)|(e & ? & _)]; [|done]. rewrite hostio_eq in H1. injection H1 as H1 _.
    unfold file_write in H1. destruct (negb (seekable o)); [done|].
    destruct ((let* m := file_metadata f in _) s.1.1) as [r h2] eqn:He. cbn [fst] in H1. subst r.
    apply bind_ok in He as (m & h3 & _ & He). apply bind_ok in He as ([] & h4 & _ & He). by injection He as <- _. }
  apply quiet_then; [destruct recheck; [by rewrite is_stale_eq|done]|]. intros stale s2 _ Hq2.
  destruct stale; [unfold fail; reflexivity|].
  assert (xpaid s2 (mgr (when (z <? we)%Z (add_quota (we - z))) s2).2) as Hg.
  { apply (growth_paid _ _ s); [congruence|]. intros Hlt. split; [apply Z.ltb_lt in Hlt; lia|by apply Hc]. }
  unfold bind. change (o + Z.of_nat (length data))%Z with we.
  destruct (mgr (when (z <? we)%Z (add_quota (we - z))) s2) as [[[]|x] s3]; exact Hg.
Qed.
Lemma truncate_paid p z : keeps xpaid (truncate_delta p z).
Proof.
  intros s. unfold truncate_delta. apply quiet_then; [by rewrite attempt_state, hostio_state|]. intros [file|] s1 _ Hq1; [|reflexivity].
  apply quiet_then; [by rewrite hostio_state|]. intros old s2 _ Hq2.
  destruct (room_eq (old <? z)%Z (z - old) s2) as (room & Hroom & Hc). rewrite (bind_step _ _ _ _ _ Hroom).
  destruct (is_ok room); cbn [negb]; [|reflexivity]. specialize (Hc eq_refl).
  apply quiet_then; [by rewrite attempt_state, hostio_state|]. intros r s3 _ Hq3.
  assert (xpaid s3 (mgr (if (old <? z)%Z then add_quota (z - old) else when (z <? old)%Z (sub_quota (old - z))) s3).2) as Hg.
  { destruct (Z.ltb_spec old z) as [Hlt|Hge].
    - apply (growth_paid true (z - old) s2 s3); [done|]. intros _. split; [lia|by apply Hc].
    - apply mgr_xpaid. destruct (Z.ltb_spec z old); cbn [when]; [apply sub_paid; lia|apply (keeps_ret paid)]. }
  unfold bind. destruct (mgr _ s3) as [[[]|x] s4]; exact Hg.
Qed.

Hint Resolve write_handle_paid truncate_paid : paid.
Hint Extern 2 (keeps xpaid _) => (apply looking_paid; solve [auto with looking]) : paid.
Hint Resolve is_stale_looking resolve_for_looking resolve_looking make_attr_looking is_dir_entry_looking
  classify_ino_looking file_len_looking append_len_looking ctl_number_looking : looking.

(** *** Writes, new entries, removals, renames *)
Lemma ensure_cow_paid b p : keeps xpaid (ensure_cow_for_branch b p).
Proof. unfold ensure_cow_for_branch. xpaid_auto. Qed.
Hint Resolve ensure_cow_paid : paid.
Lemma root_cow_paid p : keeps xpaid (ensure_cow p).
Proof. unfold ensure_cow, get_branch_name. xpaid_auto. Qed.
Hint Resolve root_cow_paid : paid.
Lemma write_path_paid i e b r root fl o data : keeps xpaid (write_path i e b r root fl o data).
Proof. unfold write_path, reply, fail. xpaid_auto. Qed.
Hint Resolve write_path_paid : paid.

Lemma refresh_paid : keeps xpaid refresh_epoch.
Proof. unfold refresh_epoch. xpaid_auto. Qed.
Hint Resolve refresh_paid : paid.
Lemma switch_to_paid b : keeps xpaid (switch_to_branch b).
Proof. unfold switch_to_branch. xpaid_auto. Qed.
Lemma finalize_paid b r n : keeps xpaid (finalize_branch_op b r n).
Proof. unfold finalize_branch_op, switch_to_branch. xpaid_auto. Qed.
Hint Resolve switch_to_paid finalize_paid : paid.
Lemma root_ctl_paid d : keeps xpaid (handle_root_ctl_write d).
Proof.
  unfold handle_root_ctl_write, commit_command, abort_command, create_command, switch_command, fresh_branch_name,
    get_branch_name, reply, fail. xpaid_auto.
Qed.
Lemma branch_ctl_paid b d : keeps xpaid (handle_branch_ctl_write b d).
Proof.
  unfold handle_branch_ctl_write, commit_command, abort_command, create_command, switch_command, fresh_branch_name,
    get_branch_name, reply, fail. xpaid_auto.
Qed.
Hint Resolve root_ctl_paid branch_ctl_paid : paid.
Lemma write_fuse_paid i o d fl : keeps xpaid (fuse_write i o d fl).
Proof.
  unfold fuse_write, write_cached, write_slow, branch_for_ctl_ino, write_denied_error, branch_writable, get_branch_name,
    inode_path, reply, fail. xpaid_auto.
Qed.

Lemma set_mode_paid p m u : keeps xpaid (set_mode_umask p m u).
Proof. unfold set_mode_umask. xpaid_auto. Qed.
Lemma remove_inode_paid p : keeps xpaid (remove_inode p).
Proof. unfold remove_inode. xpaid_auto. Qed.
Hint Resolve set_mode_paid remove_inode_paid : paid.
Lemma make_entry_paid i n d make undo ans :
  (forall p, keeps xpaid (make p)) -> keeps xpaid (make_entry i n d make undo ans).
Proof.
  intros Hm. unfold make_entry, make_in_branch, make_at_root, created_reply, write_denied_error, branch_writable,
    get_branch_name, inode_path, reply, fail. xpaid_auto.
Qed.
Lemma run_job_paid j : keeps xpaid (run_job j).
Proof. unfold run_job, reply_from_delete_result, reply, fail. destruct j; xpaid_auto. Qed.

Lemma clear_destination_paid b r : keeps xpaid (clear_destination b r).
Proof. unfold clear_destination. xpaid_auto. Qed.
Lemma rename_tombstones_paid b x y i e : keeps xpaid (rename_tombstones b x y i e).
Proof. unfold rename_tombstones. xpaid_auto. Qed.
Hint Resolve clear_destination_paid rename_tombstones_paid : paid.
Lemma rename_paid i n j m f : keeps xpaid (fuse_rename i n j m f).
Proof.
  unfold fuse_rename, rename_in_branch, rename_in_delta, rename_inodes, write_denied_error, branch_writable,
    get_branch_name, inode_path, reply, fail. xpaid_auto.
Qed.

Lemma open_paid i f : keeps xpaid (fuse_open i f).
Proof.
  unfold fuse_open, open_branch_path, open_root_path, opened_path, try_open_passthrough, fs_open_passthrough,
    branch_for_ctl_ino, write_denied_error, branch_writable, get_branch_name, inode_path, reply, fail. xpaid_auto.
Qed.
Lemma apply_setattr_paid p a : keeps xpaid (apply_setattr p a).
Proof. unfold apply_setattr. xpaid_auto. Qed.
Hint Resolve apply_setattr_paid : paid.
Lemma setattr_paid i a : keeps xpaid (fuse_setattr i a).
Proof.
  unfold fuse_setattr, setattr_branch_path, setattr_root_path, setattr_denied, setattr_size, setattr_attributes,
    setattr_reply, reply_attr, root_ctl_attr, branch_ctl_attr, write_denied_error, branch_writable, get_branch_name, inode_path, reply, fail. xpaid_auto.
Qed.
Lemma ioctl_paid i c : keeps xpaid (fuse_ioctl i c).
Proof.
  unfold fuse_ioctl, ioctl_create, ioctl_commit, ioctl_abort, ioctl_finished, fresh_branch_name, get_branch_name,
    reply, fail. xpaid_auto.
Qed.

Hint Resolve lookup_looking getattr_looking read_looking readdir_looking remove_async_looking readlink_looking
  release_looking access_looking statfs_looking : looking.
Hint Resolve write_fuse_paid rename_paid open_paid setattr_paid ioctl_paid : paid.
Lemma handle_paid o : keeps xpaid (handle o).
Proof.
  destruct o; simpl; unfold fuse_create, fuse_mkdir, fuse_symlink, create_make, mkdir_make, symlink_make,
    fuse_unlink, fuse_rmdir; try (apply make_entry_paid; intros ?); xpaid_auto.
Qed.
End Callbacks.

(** ** The system *)

Section System.
Context {E : Env} {J : Serde} {K : Kernel} {F : Sessions}.

Lemma on_mount_paid {A} mp (c : FIO A) : keeps xpaid c -> keeps xpaid (on_mount mp c).
Proof.
  intros Hc [hw d]. unfold on_mount. cbn [fst snd]. destruct (mounts d !! mp) as [m|]; [|by apply same_quota_paid].
  specialize (Hc (hw, served_fs m)). destruct (c (hw, served_fs m)) as [r [hw' f]]. apply Hc.
Qed.
Lemma get_daemon_paid : keeps xpaid get_daemon.
Proof. apply keeps_gets, _. Qed.
Lemma get_world_paid {X} : keeps (@xpaid X) get_world.
Proof. apply keeps_gets, _. Qed.
Hint Resolve get_daemon_paid get_world_paid : paid.
Lemma branch_status_paid n : keeps paid (branch_status n).
Proof. unfold branch_status. paid_auto. Qed.
Hint Resolve branch_status_paid : keeps.

Lemma request_paid r : keeps xpaid (handle_request r).
Proof.
  destruct r; simpl; unfold mount_request, list_request, daemon_create_branch, spawn_mount, unmount,
    cleanup_all_mounts, answer; xpaid_auto.
Qed.

Lemma run_paid es s : xpaid s (run_events es s).
Proof.
  revert s; induction es as [|e es IH]; intros s; [unfold run_events; simpl; reflexivity|]. simpl.
  etransitivity; [|apply IH]. destruct e as [r|mp o|mp j]; simpl; revert s; apply (keeps_bind xpaid);
    try (intros; by apply keeps_ret, _).
  - apply request_paid.
  - apply on_mount_paid, handle_paid.
  - apply on_mount_paid, run_job_paid.
Qed.

End System.

(** ** Example *)

#[local] Existing Instances example_env example_serde example_kernel example_sessions.

(** A mount on which a file of three bytes is written, under the limit of the
    example store. *)
Definition ledger_events : list event :=
  [EvRequest (ReqMount "fix" "/base/m" false true false);
   EvCallback ["base"; "m"] (OpCreate ROOT_INO "x" 420 0); EvCallback ["base"; "m"] (OpWrite 2 0 (bytes_of "abc") 1)].
Definition ledger_run := run_events ledger_events (example_host, example_world, example_daemon).

