(* ===== verification/DaemonSpec.v ===== *)
(** * What the daemon promises

    The whole system refines the life of branches; the daemon's answers are the
    manager's; it ends when its last mount goes; what a failed second mount
    does; and the sizes the command line accepts. *)

From S2P Require Import Prelude Strs Inode HostFs Handles Quota TextMerge Branch Codec View Manager Commit.
From S2P Require Import Frame BranchLaws Isolation WorldInv ManagerSpec Quiet Platform Mount Ctl Fuse Lifecycle FuseWalk Daemon FuseInv.

Open Scope bool_scope.

(** ** The system refines the life of branches *)

Definition xrefines {X} (s s' : host * World * X) : Prop := rtc lstep (life s.1.2) (life s'.1.2).
#[export] Instance xrefines_preorder {X} : PreOrder (@xrefines X).
Proof. split; [intros s; unfold xrefines; reflexivity|]. intros a b c. unfold xrefines. apply transitivity. Qed.

Section Steps.
Context {X : Type}.

Lemma mgr_xrefines {A} (c : MIO A) : keeps refines c -> keeps (@xrefines X) (mgr c).
Proof. intros Hc. apply (mgr_keeps (fun s s' => rtc lstep (life s.2) (life s'.2))). intros s. apply Hc. Qed.
Lemma hostio_xrefines {A} (c : IO A) : keeps (@xrefines X) (hostio c).
Proof. apply mgr_xrefines, keeps_msame, on_host_msame. Qed.
Lemma upd_world_xrefines f : (forall w, life (f w) = life w) -> keeps (@xrefines X) (upd_world f).
Proof. intros Hf [[h w] x]. unfold xrefines. simpl. by rewrite Hf. Qed.
Lemma modify_xrefines (f : X -> X) : keeps (@xrefines X) (modify (fun s => (s.1, f s.2))).
Proof. intros s. unfold xrefines. simpl. reflexivity. Qed.
Lemma get_world_xrefines : keeps (@xrefines X) get_world.
Proof. apply keeps_gets, _. Qed.
End Steps.

Lemma switch_life mp b w : life (switch_mount_branch mp b w) = life w.
Proof.
  unfold switch_mount_branch. destruct (mount_branches w !! mp) as [old|]; [|done].
  by destruct (notifiers w !! (old, mp)).
Qed.
Lemma unregister_life mp w : life (unregister_mount mp w) = life w.
Proof. unfold unregister_mount. by destruct (mount_branches w !! mp). Qed.

Section System.
Context {E : Env} {J : Serde} {K : Kernel} {F : Sessions}.

#[export] Instance xrefines_closed : Closed (@xrefines BranchFs) True.
Proof.
  split.
  - apply _.
  - intros A c Hc. by apply mgr_xrefines, keeps_msame, keeps_quiet.
  - intros s f _ _. unfold xrefines. simpl. reflexivity.
  - intros n _. apply mgr_xrefines, commit_refines.
  - intros n _. apply mgr_xrefines, abort_refines.
  - intros n p _. apply mgr_xrefines, create_refines.
  - intros mp b _. apply upd_world_xrefines. intros w. apply switch_life.
  - intros m n _. apply modify_xrefines.
  - intros A k Hk. apply keeps_get_fs. intros f. by apply Hk.
  - intros i A k Hs Hn. apply keeps_for_ctl; [|done]. intros b. by apply Hs.
Qed.

Lemma on_mount_xrefines {A} mp (c : FIO A) : keeps xrefines c -> keeps xrefines (on_mount mp c).
Proof.
  intros Hc [hw d]. unfold on_mount. simpl. destruct (mounts d !! mp) as [m|]; [|unfold xrefines; reflexivity].
  specialize (Hc (hw, served_fs m)). destruct (c (hw, served_fs m)) as [r [hw' f]]. apply Hc.
Qed.

Lemma branch_status_msame n : keeps msame (branch_status n).
Proof. unfold branch_status. msame_auto. Qed.
Hint Resolve commit_with_report_refines abort_refines create_refines change_state_refines revert_msame
  branch_status_msame get_world_xrefines : keeps.

Ltac xrefines_step :=
  cbn beta iota;
  lazymatch goal with
  | |- keeps xrefines (mgr (revert_path_in_branch _ _)) => apply mgr_xrefines, keeps_msame, revert_msame
  | |- keeps xrefines (mgr (branch_status _)) => apply mgr_xrefines, keeps_msame, branch_status_msame
  | |- keeps xrefines (mgr _) => apply mgr_xrefines; first [solve [eauto 2 with keeps]|apply change_state_refines]
  | |- keeps xrefines (hostio _) => apply hostio_xrefines
  | |- keeps xrefines (upd_world (unregister_mount _)) => apply upd_world_xrefines, unregister_life
  | |- keeps xrefines (upd_world _) => apply upd_world_xrefines; intros ?; reflexivity
  | |- keeps xrefines (upd_daemon _) => apply modify_xrefines
  | |- keeps xrefines get_daemon => apply keeps_gets, _
  | |- keeps xrefines (answer _ _) => unfold answer
  | |- _ => keeps_step
  end.
Ltac xrefines_auto := repeat xrefines_step.

Lemma request_xrefines r : keeps xrefines (handle_request r).
Proof.
  destruct r; simpl; unfold mount_request, list_request, daemon_create_branch, spawn_mount, unmount, cleanup_all_mounts;
    xrefines_auto.
Qed.

Lemma sys_event_xrefines e : keeps xrefines (sys_event e).
Proof.
  destruct e; simpl; (apply (keeps_bind xrefines); [|intros ?; apply (keeps_ret xrefines)]);
    first [apply request_xrefines|apply on_mount_xrefines].
  - apply (handle_keeps _ True). by destruct o.
  - apply (run_job_keeps _ True).
Qed.

(** C2: the whole system - requests of clients, callbacks of every mount, jobs of
    the worker, in any interleaving, successful or not - refines the abstract
    life of branches: seen through [life], each run is a run of that machine, so
    a branch is only made below a branch that is there and under a valid new
    name, and nothing is removed that another branch is built on.  The branch
    "main" in particular stays for ever, open if it was. *)
Theorem system_refines_lifecycle es s :
  let s' := run_events es s in
  rtc lstep (life s.1.2) (life s'.1.2)
  /\ forall e, life s.1.2 !! "main" = Some e -> exists e', life s'.1.2 !! "main" = Some e' /\ e_state e' = e_state e.
Proof.
  assert (rtc lstep (life s.1.2) (life (run_events es s).1.2)) as H.
  { revert s. induction es as [|e es IH]; intros s; simpl; [apply rtc_refl|].
    etransitivity; [apply (sys_event_xrefines e s)|apply IH]. }
  split; [exact H|]. intros e. by apply life_keeps_main.
Qed.

(** ** Requests *)

(** The requests that are the manager's. *)
Definition manager_request (r : Request) : option request :=
  match r with
  | ReqCreate n parent lazy hide => Some (CreateBranch n parent (if lazy then Lazy else Snapshot) hide)
  | ReqFreeze b => Some (FreezeBranch b)
  | ReqThaw b => Some (ThawBranch b)
  | ReqCommitBranch b => Some (CommitBranch b)
  | ReqAbortBranch b => Some (AbortBranch b)
  | ReqRevertPath b p => Some (RevertPath b p)
  | _ => None
  end.

Lemma answer_mgr {A} (c : MIO A) (f : A -> Response) hw (d : Daemon) :
  answer (mgr c) f (hw, d) =
    (match (c hw).1 with
     | Ok a => Ok (f a)
     | Err (Throw e) => Ok (error (MsgOf e))
     | Err x => Err x
     end, ((c hw).2, d)).
Proof. unfold answer, bind, attempt, ret, mgr, zoom. simpl. by destruct (c hw) as [[a|[e| |]] hw']. Qed.

(** What the manager did with a request, as the daemon reports it. *)
Definition reported (r : res exn unit) (o : res exn Response) : Prop :=
  match r with
  | Ok _ => exists resp, o = Ok resp /\ resp_ok resp = true
  | Err (Throw e) => o = Ok (error (MsgOf e))
  | Err x => o = Err x
  end.

Lemma answer_reported {A} (c : MIO A) (f : A -> Response) (c' : MIO unit) (s : host * World * Daemon) :
  (forall a, resp_ok (f a) = true) ->
  ((c s.1).2 = (c' s.1).2 /\ (c' s.1).1 = match (c s.1).1 with Ok _ => Ok tt | Err x => Err x end) ->
  (answer (mgr c) f s).2 = ((c' s.1).2, s.2) /\ reported (c' s.1).1 (answer (mgr c) f s).1.
Proof.
  destruct s as [hw d]. intros Hf [H1 H2]. rewrite answer_mgr. simpl in *. rewrite H2, H1.
  split; [done|]. destruct (c hw).1 as [a|[e| |]]; simpl; try done. by exists (f a).
Qed.

Lemma plain_reported {A} (c : MIO A) s :
  (c s).2 = ((let* _ := c in ret tt) s).2
  /\ ((let* _ := c in ret tt) s).1 = match (c s).1 with Ok _ => Ok tt | Err x => Err x end.
Proof. unfold bind. by destruct (c s) as [[a|x] s']. Qed.

(** C22: a request about branches does to host and manager exactly what the
    manager's operation does, leaves the daemon's mounts alone, and is answered
    by success when the operation succeeded and by its error when it failed. *)
Theorem requests_are_the_managers r q s :
  manager_request r = Some q ->
  (handle_request r s).2 = ((serve q s.1).2, s.2) /\ reported (serve q s.1).1 (handle_request r s).1.
Proof.
  destruct r; simpl; intros Hq; simplify_eq; simpl; apply answer_reported; try done; try apply plain_reported;
    try (unfold daemon_create_branch, freeze_branch, thaw_branch);
    try (match goal with |- context [?c s.1] => destruct (c s.1) as [[[]|x] s'] end; by split).
  unfold commit, bind. by destruct (commit_with_report branch s.1) as [[o|x] s'].
Qed.

(** ** Mounts come and go *)

Lemma unmount_eq mp m hw (d : Daemon) :
  mounts d !! mp = Some m ->
  let rest := delete mp (mounts d) in
  unmount mp (hw, d) =
    (Ok tt, ((hw.1, unregister_mount mp hw.2),
             if bool_decide (rest = ∅) then with_shutdown (with_daemon_mounts rest d) else with_daemon_mounts rest d)).
Proof.
  intros Hm rest. destruct hw as [h w]. unfold unmount, get_daemon, gets, bind. cbn [snd]. rewrite Hm.
  unfold upd_daemon, upd_world, mgr, on_mem, zoom, modify, when. cbn [fst snd].
  fold rest. by destruct (bool_decide (rest = ∅)).
Qed.

Lemma unmount_request_eq mp m hw (d : Daemon) :
  path_ok mp -> mounts d !! mp = Some m ->
  handle_request (ReqUnmount (show mp)) (hw, d) = (Ok success, (unmount mp (hw, d)).2).
Proof.
  intros Hp Hm. simpl. rewrite comps_show by done. unfold answer, attempt, bind, ret.
  by rewrite (unmount_eq mp m hw d Hm).
Qed.

Lemma delete_dom {A} (mp : path) (m : gmap path A) l :
  NoDup (mp :: l) -> dom m = list_to_set (mp :: l) -> dom (delete mp m) = list_to_set l.
Proof.
  intros [Hn _]%NoDup_cons Hd. rewrite dom_delete_L, Hd. simpl. apply set_eq. intros x.
  rewrite elem_of_difference, elem_of_union, elem_of_list_to_set, !elem_of_singleton.
  split; [by intros [[->|?] ?]|]. intros Hx. split; [by right|]. intros ->. done.
Qed.

Lemma dom_empty_iff {A} (m : gmap path A) : dom m = (∅ : gset path) <-> m = ∅.
Proof. apply dom_empty_iff_L. Qed.

(** A client that unmounts all there is, mount by mount. *)
Lemma unmount_all l hw (d : Daemon) :
  l <> [] -> NoDup l -> Forall path_ok l -> dom (mounts d) = list_to_set l -> shutdown d = false ->
  exists hw' d', handle_client (map (fun mp => Some (ReqUnmount (show mp))) l) (hw, d)
      = (Ok (replicate (length l) success), (hw', d'))
    /\ mounts d' = ∅ /\ shutdown d' = true.
Proof.
  revert hw d. induction l as [|mp l IH]; intros hw d Hne Hnd Hp Hd Hsh; [done|].
  assert (exists m, mounts d !! mp = Some m) as [m Hm].
  { apply (elem_of_dom (D := gset path)). rewrite Hd. simpl. set_solver. }
  apply Forall_cons in Hp as [Hmp Hp]. pose proof (delete_dom _ _ _ Hnd Hd) as Hdel.
  cbn [map handle_client]. rewrite (bind_step _ _ _ _ _ (unmount_request_eq mp m hw d Hmp Hm)).
  rewrite (unmount_eq mp m hw d Hm). cbn [snd]. destruct l as [|mp' l].
  - rewrite bool_decide_true by by (apply dom_empty_iff; rewrite Hdel).
    do 2 eexists. split; [done|]. split; [|done]. apply dom_empty_iff. exact Hdel.
  - rewrite bool_decide_false.
    2:{ intros He%dom_empty_iff. rewrite Hdel in He. assert (mp' ∈ (∅ : gset path)) as []%not_elem_of_empty.
        rewrite <- He. simpl. set_solver. }
    apply NoDup_cons in Hnd as [_ Hnd].
    destruct (IH (hw.1, unregister_mount mp hw.2) (with_daemon_mounts (delete mp (mounts d)) d))
      as (hw' & d' & He & H1 & H2); try done.
    exists hw', d'. split; [|done]. unfold bind at 1, get_daemon, gets. cbn [snd shutdown with_daemon_mounts].
    rewrite Hsh. by rewrite (bind_step _ _ _ _ _ He).
Qed.

(** C24: the daemon ends when its work is done: whoever unmounts every mount - in
    any order, one request after the other - gets each request answered with
    success, and the serving loop returns after this client, without waiting for
    another one. *)
Theorem unmounting_all_stops_daemon l hw d others :
  l <> [] -> NoDup l -> Forall path_ok l -> dom (mounts d) = list_to_set l -> shutdown d = false ->
  exists hw' d', serve_clients (map (fun mp => Some (ReqUnmount (show mp))) l :: others) (hw, d)
      = (Ok (Some [replicate (length l) success]), (hw', d'))
    /\ mounts d' = ∅.
Proof.
  intros H1 H2 H3 H4 Hsh. destruct (unmount_all l hw d H1 H2 H3 H4 Hsh) as (hw' & d' & He & Hm & Hs).
  exists hw', d'. split; [|done]. cbn [serve_clients]. unfold bind at 1, get_daemon, gets. cbn [snd]. rewrite Hsh.
  rewrite (bind_step _ _ _ _ _ He).
  assert (serve_clients others (hw', d') = (Ok (Some []), (hw', d'))) as Hr.
  { destruct others; simpl; unfold bind, get_daemon, gets; cbn [snd]; by rewrite Hs. }
  by rewrite (bind_step _ _ _ _ _ Hr).
Qed.

(** A second mount request for a mountpoint that is in use, when the session
    cannot be started, is refused - and the session that is there loses its
    branch: it is still in the table and still served, but the manager forgot
    which branch it shows, so from now on it shows "main". *)
Theorem failed_remount_shows_main branch mp pt ct ao e m h w d :
  is_branch_valid branch w = true -> mounts d !! mp = Some m -> mountpoint (served_fs m) = mp ->
  spawn_mount2 (sessions d) mp (mount_options ao) = Some e ->
  exists w' d', spawn_mount branch mp pt ct ao (h, w, d) = (Err (Throw (Io e)), (h, w', d'))
    /\ mounts d' !! mp = Some m /\ branch_of_mount w' (served_fs m) = "main".
Proof.
  intros Hv Hm Hmp He.
  exists (unregister_mount mp (set_mount_branch mp branch w)), (with_session d).
  split; [|split; [done|]].
  - unfold spawn_mount, get_world, get_daemon, upd_world, upd_daemon, mgr, on_mem, zoom. unfold_m. cbn [fst snd].
    rewrite Hv. cbn [negb fst snd]. rewrite He. done.
  - unfold branch_of_mount, get_mount_branch. rewrite Hmp. unfold unregister_mount.
    assert (mount_branches (set_mount_branch mp branch w) !! mp = Some branch) as -> by apply lookup_insert_eq.
    unfold with_mounts. cbn [mount_branches]. by rewrite lookup_delete_eq.
Qed.
End System.

(** ** Sizes on the command line *)

Definition number_from (acc : Z) (l : list nat) : Z := foldl (fun a d => a * 10 + Z.of_nat d)%Z acc l.

(** Nothing, or one of the letters KMGT in either case. *)
Definition suffix_of (suf : string) (m : Z) : Prop :=
  (suf = "" /\ m = 1%Z) \/ exists a, suf = String a "" /\ suffix_multiplier a = Some m.

Lemma digit_cases (P : nat -> Prop) :
  P 0 -> P 1 -> P 2 -> P 3 -> P 4 -> P 5 -> P 6 -> P 7 -> P 8 -> P 9 -> forall d, d < 10 -> P d.
Proof. intros. do 10 (destruct d as [|d]; [done|]). lia. Qed.

Lemma digit_value_char d : d < 10 -> digit_value (digit_char d) = Some (Z.of_nat d).
Proof. revert d. by apply digit_cases; vm_compute. Qed.
Lemma digit_not_suffix d : d < 10 -> suffix_multiplier (digit_char d) = None.
Proof. revert d. by apply digit_cases; vm_compute. Qed.
Lemma digit_not_ws d : d < 10 -> solid is_ws (digit_char d).
Proof. revert d. by apply digit_cases; apply solid_intro. Qed.
Lemma digit_not_plus d : d < 10 -> digit_char d <> "+"%char.
Proof. revert d. by apply digit_cases; vm_compute. Qed.
Lemma suffix_not_ws a m : suffix_multiplier a = Some m -> solid is_ws a.
Proof.
  unfold suffix_multiplier. repeat case_bool_decide; simpl; intros; try done;
    destruct_or?; subst; by apply solid_intro.
Qed.

Lemma number_from_ge acc l : (0 <= acc)%Z -> (acc <= number_from acc l)%Z.
Proof.
  revert acc. induction l as [|d l IH]; intros acc Ha; simpl; [lia|].
  specialize (IH (acc * 10 + Z.of_nat d)%Z). unfold number_from in *. lia.
Qed.

Lemma parse_digits_number acc l :
  Forall (fun d => d < 10) l -> (0 <= acc)%Z -> (acc <= u64_max)%Z ->
  parse_digits acc (digits l) = if (number_from acc l <=? u64_max)%Z then Some (number_from acc l) else None.
Proof.
  intros Hl. revert acc. induction Hl as [|d l Hd Hl IH]; intros acc Ha Hmax.
  - simpl. by rewrite (proj2 (Z.leb_le _ _)).
  - change (digits (d :: l)) with (String (digit_char d) (digits l)). cbn [parse_digits].
    rewrite digit_value_char by done. change (number_from acc (d :: l)) with (number_from (acc * 10 + Z.of_nat d) l).
    destruct (Z.leb_spec (acc * 10 + Z.of_nat d) u64_max) as [Hle|Hgt]; [apply IH; lia|].
    pose proof (number_from_ge (acc * 10 + Z.of_nat d) l ltac:(lia)).
    by rewrite (proj2 (Z.leb_gt _ _)) by lia.
Qed.

Lemma parse_u64_number l :
  l <> [] -> Forall (fun d => d < 10) l ->
  parse_u64 (digits l) = if (number_from 0 l <=? u64_max)%Z then Some (number_from 0 l) else None.
Proof.
  intros Hne Hl. rewrite <- parse_digits_number by (try done; unfold u64_max; lia).
  destruct l as [|d l]; [done|]. apply Forall_cons in Hl as [Hd _].
  change (digits (d :: l)) with (String (digit_char d) (digits l)). unfold parse_u64.
  by rewrite bool_decide_false by by apply digit_not_plus.
Qed.

Lemma split_size_suffix l suf m :
  l <> [] -> Forall (fun d => d < 10) l -> suffix_of suf m -> split_size (digits l +:+ suf) = (digits l, m).
Proof.
  intros Hne Hl [[-> ->]|(a & -> & Ha)]; unfold split_size, digits.
  - rewrite app_nil_r_str, bytes_of_string_of. destruct l as [|d l] using rev_ind; [done|].
    apply Forall_app in Hl as [_ [Hd _]%Forall_cons]. rewrite map_app, rev_app_distr. cbn [map rev app].
    by rewrite digit_not_suffix.
  - change (String a "") with (string_of [a]). rewrite <- string_of_app, bytes_of_string_of, rev_app_distr. cbn [rev app].
    by rewrite Ha, rev_involutive.
Qed.

(** C40: a size on the command line is read as its decimal value times its unit,
    exactly when that fits 64 bits; a number that does not fit by itself is called
    invalid, one that only its unit takes out of range an overflow. *)
Theorem parse_size_value l suf m :
  l <> [] -> Forall (fun d => d < 10) l -> suffix_of suf m ->
  let s := digits l +:+ suf in
  let n := number_from 0 l in
  parse_size s =
    if (n <=? u64_max)%Z then
      if (n * m <=? u64_max)%Z then Ok (n * m)%Z else Err (SizeOverflow s)
    else Err (InvalidSize s).
Proof.
  intros Hne Hl Hs s n. assert (trim s = s) as Htrim.
  { assert (exists b, s = string_of b /\ Forall (solid is_ws) b) as (b & -> & Hb); [|by apply trim_all].
    assert (Forall (solid is_ws) (map digit_char l)) as Hd.
    { apply Forall_map. eapply Forall_impl; [exact Hl|]. intros d. apply digit_not_ws. }
    unfold s. destruct Hs as [[-> _]|(a & -> & Ha)].
    - exists (map digit_char l). by rewrite app_nil_r_str.
    - exists (map digit_char l ++ [a]). rewrite string_of_app. split; [done|]. apply Forall_app. split; [done|].
      constructor; [by eapply suffix_not_ws|done]. }
  unfold parse_size. rewrite Htrim. rewrite bool_decide_false.
  2:{ unfold s. destruct l as [|d l]; [done|]. done. }
  unfold s. rewrite (split_size_suffix l suf m), parse_u64_number by done. fold n s.
  destruct (n <=? u64_max)%Z; [|done]. by destruct (n * m <=? u64_max)%Z.
Qed.

(** ** Examples *)

#[local] Existing Instances example_env example_serde example_kernel.

Lemma parse_size_value_witness : parse_size "10G" = Ok (10 * 1024 * 1024 * 1024)%Z.
Proof.
  apply (parse_size_value [1; 0] "G" (1024 * 1024 * 1024)).
  - done.
  - repeat constructor; lia.
  - right. by exists "G"%char.
Defined.

#[local] Existing Instances example_env example_serde example_kernel example_sessions.

Definition serving (m : gmap path MountInfo) : Daemon :=
  {| mounts := m; socket_path := ["store"; "daemon.sock"]; shutdown := false; sessions := 1 |}.
Definition example_info : MountInfo := {| session := 0; served_fs := (example_mount true).2 |}.

Lemma unmounting_all_stops_daemon_witness :
  exists hw' d', serve_clients
      [[Some (ReqUnmount "/mnt")]; [Some ReqList]] ((example_mount true).1, serving {[["mnt"] := example_info]})
      = (Ok (Some [[success]]), (hw', d')) /\ mounts d' = ∅.
Proof.
  apply (unmounting_all_stops_daemon [["mnt"]]
    (example_mount true).1 (serving {[["mnt"] := example_info]}) [[Some ReqList]]).
  - done.
  - apply NoDup_singleton.
  - by repeat constructor.
  - simpl. rewrite dom_singleton_L. set_solver.
  - done.
Defined.

Lemma requests_are_the_managers_witness :
  let s : host * World * Daemon := (example_host, example_world, serving ∅) in
  (handle_request (ReqFreeze "fix") s).2
  = ((serve (FreezeBranch "fix") s.1).2, s.2).
Proof.
  intros s. exact (proj1 (requests_are_the_managers (ReqFreeze "fix") (FreezeBranch "fix") s eq_refl)).
Defined.

(** Sessions fail after the first one. *)
Definition one_session : Sessions := {| spawn_mount2 := fun n _ _ => if decide (n = 0) then None else Some EIO |}.

Lemma failed_remount_shows_main_witness :
  let '(h, w, _) := example_mount true in
  let d := serving {[["mnt"] := example_info]} in
  exists w' d', spawn_mount (F:=one_session) "main" ["mnt"] false true false (h, w, d) = (Err (Throw (Io EIO)), (h, w', d'))
    /\ mounts d' !! ["mnt"] = Some example_info /\ branch_of_mount w' (served_fs example_info) = "main".
Proof.
  unfold example_mount.
  apply (failed_remount_shows_main (F:=one_session) "main" ["mnt"] false true false EIO example_info).
  - by vm_compute.
  - by vm_compute.
  - reflexivity.
  - reflexivity.
Defined.
