(* ===== verification/CtlSpec.v ===== *)
(** * What the control files promise

    Committing or aborting the branch of a mount through its control file: the
    branch is finished and the mount goes on with the parent. *)

From S2P Require Import Prelude Strs Inode HostFs Handles Quota TextMerge Branch Codec View Manager Commit.
From S2P Require Import Frame Isolation WorldInv ManagerSpec CommitSpec Lifecycle Platform Mount Ctl Fuse FuseFacts FuseInv FuseSpec FuseIO.

Open Scope bool_scope.

Section Ctl.
Context {E : Env} {J : Serde} {K : Kernel}.

(** The two commands, and what they do with the branch. *)
Inductive finish_command : string -> (string -> MIO string) -> Prop :=
  | fin_commit : finish_command "commit" commit
  | fin_abort : finish_command "abort" abort.

Lemma finish_drops cmd op n s : finish_command cmd op -> drops n s (op n s).
Proof. intros []; [apply commit_drops|apply abort_drops]. Qed.
Lemma finish_parent cmd op n s p s' : finish_command cmd op -> op n s = (Ok p, s') -> finishing n p (life s.2).
Proof. intros []; [apply commit_parent|apply abort_parent]. Qed.

Lemma valid_life n w : is_branch_valid n w = bool_decide (n ∈ (dom (life w) : gset string)).
Proof.
  unfold is_branch_valid. apply bool_decide_ext. rewrite elem_of_dom, life_lookup. by rewrite fmap_is_Some.
Qed.

Lemma parent_stays n p w : world_ok w -> finishing n p (life w) -> p <> n /\ is_branch_valid p w = true.
Proof.
  intros [[rank Hr] _ _ _] (_ & (e & He & Hp) & _). rewrite life_lookup in He.
  apply fmap_Some in He as (b & Hb & ->). destruct (Hr n b p Hb Hp) as [Hs Hlt].
  split; [intros ->; lia|]. by apply bool_decide_eq_true.
Qed.

Lemma switch_get mp b w : get_mount_branch mp (switch_mount_branch mp b w) = Some b.
Proof.
  unfold get_mount_branch, switch_mount_branch. destruct (mount_branches w !! mp) as [old|].
  - destruct (notifiers w !! (old, mp)); apply lookup_insert_eq.
  - apply lookup_insert_eq.
Qed.
Lemma switch_get_other mp mp' b w :
  mp' <> mp -> get_mount_branch mp' (switch_mount_branch mp b w) = get_mount_branch mp' w.
Proof.
  intros Hne. unfold get_mount_branch, switch_mount_branch. destruct (mount_branches w !! mp) as [old|].
  - destruct (notifiers w !! (old, mp)); by apply lookup_insert_ne.
  - by apply lookup_insert_ne.
Qed.
Lemma switch_valid mp b n w : is_branch_valid n (switch_mount_branch mp b w) = is_branch_valid n w.
Proof.
  unfold switch_mount_branch. destruct (mount_branches w !! mp) as [old|]; [|done].
  by destruct (notifiers w !! (old, mp)).
Qed.
Lemma switch_epoch mp b w : epoch (switch_mount_branch mp b w) = epoch w.
Proof.
  unfold switch_mount_branch. destruct (mount_branches w !! mp) as [old|]; [|done].
  by destruct (notifiers w !! (old, mp)).
Qed.

(** The state after [finalize_branch_op] on the mount that showed the branch. *)
Lemma finalize_own n p len (s : Mounted) :
  branch_of_mount s.1.2 s.2 = n ->
  finalize_branch_op n (Ok p) len s =
    (Ok (RWritten len),
     (s.1.1, switch_mount_branch (mountpoint s.2) p s.1.2,
      with_epoch (epoch s.1.2) (with_inodes (clear_prefix ("/@" +:+ n) (inodes s.2)) s.2))).
Proof.
  intros Hn. destruct s as [[h w] f]. cbn [fst snd] in *.
  unfold finalize_branch_op, refresh_epoch, upd_fs, get_branch_name, get_fs, get_world, upd_world, mgr, on_mem, zoom.
  unfold_m. cbn [fst snd]. unfold branch_of_mount in *. cbn [mountpoint with_epoch with_inodes]. rewrite Hn.
  by rewrite bool_decide_true.
Qed.

Lemma root_ctl_finish cmd op (s : Mounted) :
  finish_command cmd op ->
  handle_root_ctl_write (bytes_of cmd) s
  = (let* r := attempt (mgr (op (branch_of_mount s.1.2 s.2))) in
     finalize_branch_op (branch_of_mount s.1.2 s.2) r (Z.of_nat (String.length cmd))) s.
Proof.
  intros Hc. unfold handle_root_ctl_write.
  assert (to_lowercase (ctl_command (bytes_of cmd)) = cmd) as -> by by destruct Hc; vm_compute.
  assert (starts_with "switch:" cmd = false) as -> by by destruct Hc; vm_compute.
  assert (is_create cmd = false) as -> by by destruct Hc; vm_compute.
  by destruct Hc.
Qed.

Lemma finish_written cmd op n p hw f o fl s :
  finish_command cmd op -> s = (hw, f) -> expose_control f = true -> branch_of_mount hw.2 f = n ->
  forall hw', op n hw = (Ok p, hw') -> branch_of_mount hw'.2 f = n ->
  exists f', fuse_write CTL_INO o (bytes_of cmd) fl s
      = (Ok (Now (RWritten (Z.of_nat (String.length cmd)))),
         (hw'.1, switch_mount_branch (mountpoint f) p hw'.2, f'))
    /\ mountpoint f' = mountpoint f /\ current_epoch f' = epoch hw'.2.
Proof.
  intros Hc -> He Hn hw' Hop Hn'.
  set (f1 := with_caches (invalidate_ino CTL_INO (open_cache f)) (write_cache f) f).
  assert (branch_of_mount hw.2 f1 = n /\ branch_of_mount hw'.2 f1 = n) as [H1 H1'] by done.
  assert (fuse_write CTL_INO o (bytes_of cmd) fl (hw, f)
    = (let* r := attempt (mgr (op n)) in let* r := finalize_branch_op n r (Z.of_nat (String.length cmd)) in reply r) (hw, f1))
    as ->.
  { unfold fuse_write. rewrite (run_bind _ _ _ tt (hw, f1)), (run_bind _ _ (hw, f1) f1 (hw, f1)) by done.
    rewrite bool_decide_true by done. change (expose_control f1) with (expose_control f). rewrite He.
    unfold bind at 1. rewrite (root_ctl_finish cmd op) by done. cbn [fst snd]. rewrite H1.
    symmetry. etransitivity; [symmetry; apply bind_assoc|]. unfold bind at 1. done. }
  unfold bind at 1, attempt. rewrite mgr_eq, Hop. cbn [fst snd].
  rewrite (run_bind _ _ _ _ _ (finalize_own n p _ (hw', f1) H1')). by eexists.
Qed.

(** C15: committing or aborting through a mount's control file the branch the
    mount shows: when the branch is finished the write is answered with its
    length, the branch is gone, and this mount shows the parent at once - it is
    not stale and its epoch is the manager's.  Every other mount keeps the branch
    it had, so one that showed the finished branch is stale from then on.
    (The comment on the function that takes this write, fs_ctl.rs lines 38-40, says
    that the root control file supports only "switch:" and that commit and abort go
    through the control files of the branches; the code takes both here too.) *)
Theorem finishing_moves_mount_to_parent cmd op n p o fl s hw' :
  finish_command cmd op -> world_ok s.1.2 -> expose_control s.2 = true ->
  get_mount_branch (mountpoint s.2) s.1.2 = Some n -> op n s.1 = (Ok p, hw') ->
  exists s', fuse_write CTL_INO o (bytes_of cmd) fl s = (Ok (Now (RWritten (Z.of_nat (String.length cmd)))), s')
    /\ branch_of_mount s'.1.2 s'.2 = p /\ mount_live s' /\ current_epoch s'.2 = epoch s'.1.2
    /\ s'.1.1 = hw'.1 /\ is_branch_valid n s'.1.2 = false
    /\ forall mp, mp <> mountpoint s.2 -> get_mount_branch mp s'.1.2 = get_mount_branch mp s.1.2.
Proof.
  intros Hc Hw He Hn Hop. destruct s as [hw f]. cbn [fst snd] in *.
  pose proof (finish_drops cmd op n hw Hc) as [[_ Hmb] Hdom]. pose proof (finish_parent cmd op n hw p hw' Hc Hop) as Hf.
  rewrite Hop in Hmb, Hdom. cbn [fst snd] in *.
  assert (branch_of_mount hw.2 f = n) as Hb by (unfold branch_of_mount; by rewrite Hn).
  assert (branch_of_mount hw'.2 f = n) as Hb'.
  { unfold branch_of_mount, get_mount_branch in *. by rewrite Hmb, Hn. }
  destruct (finish_written cmd op n p hw f o fl (hw, f) Hc eq_refl He Hb hw' Hop Hb') as (f' & Hr & Hmp & Hep).
  destruct (parent_stays n p hw.2 Hw Hf) as [Hpn Hp].
  assert (branch_of_mount (switch_mount_branch (mountpoint f) p hw'.2) f' = p) as Hbp.
  { unfold branch_of_mount. by rewrite Hmp, switch_get. }
  eexists. split; [exact Hr|]. cbn [fst snd]. split; [exact Hbp|]. split; [|split; [|split; [done|split]]].
  - unfold mount_live. cbn [fst snd]. rewrite Hbp, switch_valid. rewrite valid_life, Hdom.
    rewrite valid_life in Hp. apply bool_decide_eq_true in Hp. apply bool_decide_eq_true. set_solver.
  - by rewrite switch_epoch.
  - rewrite switch_valid, valid_life, Hdom. apply bool_decide_eq_false. set_solver.
  - intros mp Hne. rewrite switch_get_other by done. unfold get_mount_branch. by rewrite Hmb.
Qed.

(** The same by ioctl. *)
Inductive finish_ioctl : Z -> (string -> MIO string) -> Prop :=
  | ioc_commit : finish_ioctl FS_IOC_BRANCH_COMMIT commit
  | ioc_abort : finish_ioctl FS_IOC_BRANCH_ABORT abort.

Lemma ioctl_finished_eq n cmd op p hw (f : BranchFs) hw' :
  finish_ioctl cmd op -> branch_of_mount hw.2 f = n -> op n hw = (Ok p, hw') ->
  fuse_ioctl CTL_INO cmd (hw, f)
  = (Ok (Now (RIoctl [])),
     (hw', with_epoch (epoch hw'.2) (with_inodes (clear_prefix ("/@" +:+ n) (inodes f)) f))).
Proof.
  intros Hc Hn Hop. unfold fuse_ioctl. rewrite (run_bind _ _ (hw, f) n (hw, f)) by by (unfold get_branch_name, gets; rewrite <- Hn).
  rewrite bool_decide_true by done. rewrite (run_bind _ _ (hw, f) (Some n) (hw, f)) by done.
  cbv beta iota. pose proof ioc_distinct as (D1 & D2 & D3). destruct Hc;
    [rewrite (bool_decide_false (_ = FS_IOC_BRANCH_CREATE)), (bool_decide_true (_ = FS_IOC_BRANCH_COMMIT)) by done
    |rewrite (bool_decide_false (_ = FS_IOC_BRANCH_CREATE)), (bool_decide_false (_ = FS_IOC_BRANCH_COMMIT)),
      (bool_decide_true (_ = FS_IOC_BRANCH_ABORT)) by done];
    unfold ioctl_commit, ioctl_abort; rewrite (run_bind _ _ (hw, f) (Ok p) (hw', f));
    first [done|by unfold attempt; rewrite mgr_eq, Hop].
Qed.

(** C38: the control ioctl on the number of the root control file commits or
    aborts the branch of the mount whether or not the mount has control files.
    The mount is not moved: it still is on the branch that is gone, so every
    access through its root answers ESTALE from then on.  (The README says of commit,
    item 6, and of abort, item 4, that the mount switches to the parent by itself;
    that holds for the control files, [finishing_moves_mount_to_parent], and not for
    the ioctl, where the log message says "no mount switch".) *)
Theorem control_ioctl_needs_no_control_files cmd op n p s hw' :
  finish_ioctl cmd op -> get_mount_branch (mountpoint s.2) s.1.2 = Some n -> op n s.1 = (Ok p, hw') ->
  exists s', fuse_ioctl CTL_INO cmd s = (Ok (Now (RIoctl [])), s') /\ s'.1 = hw'
    /\ is_branch_valid n s'.1.2 = false
    /\ forall q, (lookup_current q s').1 = Ok (Now (RError ESTALE)).
Proof.
  intros Hc Hn Hop. destruct s as [hw f]. cbn [fst snd] in *.
  assert (branch_of_mount hw.2 f = n) as Hb by (unfold branch_of_mount; by rewrite Hn).
  assert (drops n hw (op n hw)) as [[_ Hmb] Hdom] by (destruct Hc; [apply commit_drops|apply abort_drops]).
  rewrite Hop in Hmb, Hdom. cbn [fst snd] in *.
  eexists. split; [by apply (ioctl_finished_eq n cmd op p)|]. cbn [fst snd]. split; [done|].
  assert (is_branch_valid n hw'.2 = false) as Hv.
  { rewrite valid_life, Hdom. apply bool_decide_eq_false. set_solver. }
  split; [done|]. intros q. unfold lookup_current. rewrite (run_bind _ _ _ _ _ (is_stale_eq _)). cbn [fst snd].
  assert (branch_of_mount hw'.2 (with_epoch (epoch hw'.2) (with_inodes (clear_prefix ("/@" +:+ n) (inodes f)) f)) = n) as ->.
  { unfold branch_of_mount, get_mount_branch in *. cbn [mountpoint with_epoch with_inodes]. by rewrite Hmb, Hn. }
  by rewrite Hv.
Qed.
End Ctl.

(** ** Example: the example branch is aborted through its mount. *)

#[local] Existing Instances example_env example_serde example_kernel.

Lemma example_abort :
  abort "fix" (example_mount true).1 = (Ok "main", (abort "fix" (example_mount true).1).2).
Proof. apply run_ok. by vm_compute. Qed.

Lemma finishing_moves_mount_to_parent_witness :
  exists s', fuse_write CTL_INO 0 (bytes_of "abort") 1 (example_mount true) = (Ok (Now (RWritten 5)), s')
    /\ branch_of_mount s'.1.2 s'.2 = "main" /\ mount_live s'.
Proof.
  destruct (finishing_moves_mount_to_parent "abort" abort "fix" "main" 0 1 (example_mount true)
    (abort "fix" (example_mount true).1).2) as (s' & H1 & H2 & H3 & _).
  - constructor.
  - apply looked_up_world.
  - reflexivity.
  - by vm_compute.
  - apply example_abort.
  - exists s'. split; [exact H1|]. split; [exact H2|exact H3].
Defined.

Lemma control_ioctl_needs_no_control_files_witness :
  exists s', fuse_ioctl CTL_INO FS_IOC_BRANCH_ABORT (example_mount false) = (Ok (Now (RIoctl [])), s')
    /\ is_branch_valid "fix" s'.1.2 = false.
Proof.
  destruct (control_ioctl_needs_no_control_files FS_IOC_BRANCH_ABORT abort "fix" "main" (example_mount false)
    (abort "fix" (example_mount true).1).2) as (s' & H1 & _ & H3 & _).
  - constructor.
  - by vm_compute.
  - apply example_abort.
  - exists s'. split; [exact H1|exact H3].
Defined.
