(* ===== verification/CliSpec.v ===== *)
(** * What the client promises

    A command that asks the daemon does what the daemon does with the request and
    reports it; committing or aborting a mount through the client; a daemon that dies;
    how one is started. *)

From S2P Require Import Prelude Strs Inode HostFs Handles Quota TextMerge Branch Codec View Manager Commit.
From S2P Require Import Frame Isolation WorldInv ManagerSpec Quiet Lifecycle Platform Mount Ctl Fuse Daemon Json Cli.
From S2P Require Import FuseWalk FuseInv FuseFacts FuseSpec FuseIO DaemonSpec CtlSpec.

Open Scope bool_scope.

(** ** Running the pieces *)

(** Process [i] is the daemon of the store [st], and takes clients. *)
Record listening (m : Machine) (st : path) (i : nat) (w : World) (d : Daemon) : Prop := {
  li_dir : canonicalize st (m_host m) = (Ok st, m_host m);
  li_sock : exists mode t s, h_tree (m_host m) !! get_socket_path st = Some (Node KOther mode t s);
  li_find : list_find (fun p => socket_path p.2 = get_socket_path st) (procs m) = Some (i, (w, d));
  li_up : shutdown d = false;
}.

Definition put_process (i : nat) (s : host * World * Daemon) (m : Machine) : Machine :=
  with_procs (<[i := (s.1.2, s.2)]> (procs m)) (with_host s.1.1 m).

Section Client.
Context {E : Env} {J : Serde} {K : Kernel} {F : Sessions} {V : Json} {W : Wire V} {Y : Os}.
Context {VL : JsonLaws V} {WL : WireLaws W}.

Lemma listening_proc m st i w d : listening m st i w d -> procs m !! i = Some (w, d).
Proof. intros []. by apply list_find_Some in li_find0 as [? _]. Qed.

Lemma io_eq {A} (c : IO A) m a h :
  c (m_host m) = (Ok a, h) -> io c m = (Ok (Ok a), with_host h m).
Proof. intros H. unfold io, map_error, attempt, on_machine, zoom, bind. by rewrite H. Qed.

Lemma with_host_same m : with_host (m_host m) m = m.
Proof. by destruct m. Qed.

Lemma on_process_ok {A} i (c : M (host * World * Daemon) A) m w d a s :
  procs m !! i = Some (w, d) -> c (m_host m, w, d) = (Ok a, s) ->
  on_process i c m = (Ok (Some a), put_process i s m).
Proof. intros Hp Hc. unfold on_process. rewrite Hp, Hc. by destruct s as [[h w'] d']. Qed.

Lemma connect_listening m st i w d : listening m st i w d -> connect (get_socket_path st) m = (Ok (Ok i), m).
Proof.
  intros [_ (mode & t & s & Hs) Hf _]. unfold connect, gets, bind, ret. cbn [id]. by rewrite Hs, Hf.
Qed.

(** What becomes of the machine when the daemon has answered. *)
Definition after_answer (i : nat) (s : host * World * Daemon) (m : Machine) : Machine :=
  if shutdown s.2 then (leave i (put_process i s m)).2 else put_process i s m.

Lemma exists_total p h : exists b, exists_ p h = (Ok b, h).
Proof.
  unfold exists_, attempt, metadata, real_path, symlink_metadata, get_tree, gets, bind, ret, io_error, throw, raise.
  destruct (follow max_links (h_tree h) p) as [[q n]|e]; [|by eexists]. cbn beta iota.
  destruct (h_tree h !! q); by eexists.
Qed.

Lemma remove_file_total p h : exists r h', attempt (remove_file_call p) h = (Ok r, h').
Proof.
  unfold attempt, remove_file_call, symlink_metadata, get_tree, gets, bind, ret, io_error, throw, raise.
  destruct (h_tree h !! p) as [n|]; [|by do 2 eexists]. destruct (is_dir n); by do 2 eexists.
Qed.

Lemma hostio_run {X A} (c : IO A) h w (x : X) : hostio c (h, w, x) = ((c h).1, ((c h).2, w, x)).
Proof. unfold hostio, mgr, on_host, zoom. cbn [fst snd]. by destruct (c h). Qed.

Lemma remove_socket_total s : exists b s', remove_socket s = (Ok b, s').
Proof.
  destruct s as [[h w] d]. unfold remove_socket.
  rewrite (bind_step _ _ (h, w, d) d (h, w, d)) by done.
  destruct (exists_total (socket_path d) h) as [b Hb].
  rewrite (bind_step _ _ (h, w, d) b (h, w, d)) by by rewrite hostio_run, Hb.
  destruct b; [|by do 2 eexists].
  destruct (remove_file_total (socket_path d) h) as (r & h' & Hr).
  assert (attempt (hostio (remove_file_call (socket_path d))) (h, w, d) = (Ok r, (h', w, d))) as Ha.
  { unfold attempt in *. rewrite hostio_run. destruct (remove_file_call _ h) as [[[]|[e| |]] h1]; simplify_eq; done. }
  rewrite (bind_step _ _ _ _ _ Ha). by do 2 eexists.
Qed.

Lemma leave_total i m : exists m', leave i m = (Ok tt, m').
Proof.
  unfold leave, on_process, bind at 1. destruct (procs m !! i) as [[w d]|]; [|by eexists].
  destruct (remove_socket_total (m_host m, w, d)) as (b & [[h w'] d'] & ->). by eexists.
Qed.

Lemma send_request_eq m st i w d r resp s :
  listening m st i w d -> handle_request r (m_host m, w, d) = (Ok resp, s) ->
  send_request (get_socket_path st) r m = (Ok (Ok (answer_of resp)), after_answer i s m).
Proof.
  intros Hl Hr. unfold send_request. unfold map_error at 1.
  rewrite (bind_step _ _ m (Ok i) m).
  2:{ by rewrite (bind_step _ _ _ _ _ (connect_listening _ _ _ _ _ Hl)). }
  cbv beta iota.
  assert (serve_client [dec_request (enc_request r)] (m_host m, w, d) = (Ok ([resp], shutdown s.2), s)) as Hc.
  { rewrite dec_enc_request. unfold serve_client. cbn [handle_client].
    assert ((let* resp0 := handle_request r in let* d0 := get_daemon in
             if shutdown d0 then ret [resp0] else let* out := ret [] in ret (resp0 :: out)) (m_host m, w, d)
            = (Ok [resp], s)) as Hh.
    { rewrite (bind_step _ _ _ _ _ Hr). rewrite (bind_step _ _ s s.2 s) by done. by destruct (shutdown s.2). }
    by rewrite (bind_step _ _ _ _ _ Hh). }
  rewrite (bind_step _ _ _ _ _ (on_process_ok i _ m w d _ s (listening_proc _ _ _ _ _ Hl) Hc)).
  cbv beta iota. rewrite dec_enc_answer. unfold when, after_answer. destruct (shutdown s.2); [|done].
  destruct (leave_total i (put_process i s m)) as [m' Hm]. by rewrite (bind_step _ _ _ _ _ Hm), Hm.
Qed.

(** ** Commands that are one request *)

(** The store and the request of a command that asks the daemon and no more. *)
Definition asks (c : Commands) : option (path * Request) :=
  match c with
  | CmdCreate n None parent snapshot hide st => Some (st, ReqCreate n parent (negb snapshot) hide)
  | CmdCommitBranch b st _ => Some (st, ReqCommitBranch b)
  | CmdAbortBranch b st => Some (st, ReqAbortBranch b)
  | CmdRevertPath b p st => Some (st, ReqRevertPath b p)
  | CmdFreeze b st => Some (st, ReqFreeze b)
  | CmdThaw b st => Some (st, ReqThaw b)
  | CmdStatus b st _ => Some (st, ReqStatus b)
  | CmdList st => Some (st, ReqList)
  | _ => None
  end.

(** The answer has the data the client waits for. *)
Definition has_data (r : Request) (resp : Response) : Prop :=
  match r with
  | ReqStatus _ => exists s, resp_data resp = Some (VStatus s)
  | ReqCommitBranch _ => exists o, resp_data resp = Some (VOutcome o)
  | _ => True
  end.

Lemma answer_data {A} (c : DIO A) f s resp s' :
  answer c f s = (Ok resp, s') -> resp_ok resp = true -> exists a, resp = f a.
Proof.
  unfold answer, attempt, bind, ret. intros H Hok. destruct (c s) as [[a|[e| |]] s1]; simplify_eq; try discriminate Hok; by eexists.
Qed.

Lemma request_data r s resp s' :
  handle_request r s = (Ok resp, s') -> resp_ok resp = true -> has_data r resp.
Proof. destruct r; simpl; try done; intros H Hok; destruct (answer_data _ _ _ _ _ H Hok) as [a ->]; by eexists. Qed.

Lemma order_eq m st i w d r resp s :
  listening m st i w d -> handle_request r (m_host m, w, d) = (Ok resp, s) ->
  order st r m = (Ok (if resp_ok resp then Ok (json_of <$> resp_data resp) else Err (CRefused (resp_error resp))),
                  after_answer i s m).
Proof.
  intros Hl Hr. unfold order, talk, map_error. unfold bind at 1.
  rewrite (bind_step _ _ _ _ _ (send_request_eq _ _ _ _ _ _ _ _ Hl Hr)). cbn beta iota.
  unfold answer_of at 1. cbn [ans_ok]. by destruct (resp_ok resp).
Qed.

(** C23: a command that asks the daemon - create without a mountpoint, commit-branch,
    abort-branch, revert-path, freeze, thaw, status, list - does to the machine
    exactly what the daemon does with its request, and ends with code 0 precisely
    when the daemon said yes; otherwise it prints nothing and complains with the
    daemon's own error. *)
Theorem command_is_its_request c st r m i w d resp s :
  asks c = Some (st, r) -> listening m st i w d -> handle_request r (m_host m, w, d) = (Ok resp, s) ->
  exists x, main c m = (Ok x, after_answer i s m)
    /\ (code x = 0%Z <-> resp_ok resp = true)
    /\ (resp_ok resp = true -> exists p, x = {| code := 0; printed := Some p; complaint := None |})
    /\ (resp_ok resp = false -> x = {| code := 1; printed := None; complaint := Some (CRefused (resp_error resp)) |}).
Proof.
  intros Ha Hl Hr.
  assert (forall said, (resp_ok resp = true -> exists p, said (json_of <$> resp_data resp) = Ok p) ->
    exists x, (let* r0 := say (cmd_request st r said) in ret (exit_of r0)) m = (Ok x, after_answer i s m)
      /\ (code x = 0%Z <-> resp_ok resp = true)
      /\ (resp_ok resp = true -> exists p, x = {| code := 0; printed := Some p; complaint := None |})
      /\ (resp_ok resp = false ->
            x = {| code := 1; printed := None; complaint := Some (CRefused (resp_error resp)) |})) as Hgen.
  { intros said Hsaid. unfold say, cmd_request.
    rewrite !bind_assoc. rewrite (bind_step _ _ _ _ _ (io_eq _ _ _ _ (li_dir _ _ _ _ _ Hl))), with_host_same.
    cbn beta iota. rewrite !bind_assoc. rewrite (bind_step _ _ _ _ _ (order_eq _ _ _ _ _ _ _ _ Hl Hr)).
    destruct (resp_ok resp) eqn:Hok.
    - destruct Hsaid as [p Hp]; [done|]. cbn. unfold bind, ret. rewrite Hp. cbn. eexists. split; [done|].
      split; [done|]. split; [by eexists|done].
    - cbn. eexists. split; [done|]. split; [done|]. by split. }
  destruct c as [| |n [mp|] parent snapshot hide st0| | |b st0 json|b st0|b p st0|b st0|b st0|b st0 json|st0| |];
    simpl in Ha; simplify_eq; unfold main; cbn [command].
  all: apply Hgen; intros Hok; pose proof (request_data _ _ _ _ Hr Hok) as Hd; cbn [has_data] in Hd; try by eexists.
  - destruct Hd as [o ->]. unfold said_commit. simpl. destruct json; by eexists.
  - destruct Hd as [x ->]. by eexists.
Qed.

(** ** Files of a mount *)

(** Process [i] serves [mp] in the state [s]. *)
Definition at_mount (m : Machine) (i : nat) (mp : path) (s : Mounted) : Prop :=
  exists d info, procs m !! i = Some (s.1.2, d) /\ mounts d !! mp = Some info
    /\ served_fs info = s.2 /\ m_host m = s.1.1.

(** The other processes stay as they are. *)
Definition but (i : nat) (m m' : Machine) : Prop := forall j, j <> i -> procs m' !! j = procs m !! j.
#[local] Instance but_preorder i : PreOrder (but i).
Proof. split; [by intros m j|]. intros a b c H1 H2 j Hj. by rewrite H2, H1. Qed.

Definition reply_result (r : Reply) : res errno Reply := match r with RError e => Err e | r => Ok r end.

Lemma callback_at m i mp s o r s' :
  at_mount m i mp s -> answered o s = (Ok r, s') ->
  exists m', callback i mp o m = (Ok (reply_result r), m') /\ at_mount m' i mp s' /\ but i m m'.
Proof.
  intros (d & info & Hp & Hm & Hf & Hh) Ho. destruct s as [[h w] f], s' as [[h' w'] f']. cbn [fst snd] in *.
  set (d' := with_daemon_mounts (<[mp := {| session := session info; served_fs := f' |}]> (mounts d)) d).
  assert (on_mount mp (answered o) (m_host m, w, d) = (Ok (Some r), (h', w', d'))) as Hon.
  { unfold on_mount. cbn [fst snd]. by rewrite Hm, Hf, Hh, Ho. }
  exists (put_process i (h', w', d') m). split; [|split].
  - unfold callback. rewrite (bind_step _ _ m (Some (Some r)) (put_process i (h', w', d') m)).
    2:{ unfold on_session. by rewrite Hp, Hon. }
    by destruct r.
  - exists d', {| session := session info; served_fs := f' |}. cbn [put_process with_procs with_host procs m_host fst snd].
    split; [apply list_lookup_insert_eq; by eapply lookup_lt_Some|]. split; [|done].
    unfold d'. cbn [with_daemon_mounts mounts]. apply lookup_insert_eq.
  - intros j Hj. cbn. by apply list_lookup_insert_ne.
Qed.

Lemma answered_now o s r s' : handle o s = (Ok (Now r), s') -> answered o s = (Ok r, s').
Proof. intros H. unfold answered. by rewrite (bind_step _ _ _ _ _ H). Qed.

(** The numbers handed to control files are fresh. *)
Record ctl_fresh (f : BranchFs) : Prop := {
  cf_range : (FIRST_CTL_INO <= next_ctl_ino f < CTL_INO)%Z;
  cf_below : forall b i, branch_ctl_inodes f !! b = Some i -> (i < next_ctl_ino f)%Z;
}.

Lemma lookup_at_branch b (s : Mounted) :
  get_path ROOT_INO (inodes s.2) = Some "/" -> expose_control s.2 = true -> is_branch_valid b s.1.2 = true ->
  let '(i, t) := get_or_create ("/@" +:+ b) true (inodes s.2) in
  fuse_lookup ROOT_INO ("@" +:+ b) s = (Ok (Now (REntry (synthetic_dir_attr i s.2))), (s.1, with_inodes t s.2)).
Proof.
  intros Hr He Hb. pose proof (new_inode_eq ("/@" +:+ b) true s) as Hn.
  destruct (get_or_create ("/@" +:+ b) true (inodes s.2)) as [i t]. cbn [fst snd] in Hn.
  unfold fuse_lookup, inode_path. rewrite (run_bind _ _ s (Some "/") s) by (unfold gets; by rewrite Hr).
  cbv beta iota. rewrite bool_decide_true by done. unfold lookup_in_root.
  rewrite (run_bind _ _ s s.2 s) by done. rewrite He.
  rewrite (bool_decide_false ("@" +:+ b = CTL_FILE)) by (by intros [=]). cbn [andb].
  assert (strip_prefix "@" ("@" +:+ b) = Some b) as -> by by apply strip_prefix_Some.
  rewrite (run_bind _ _ s true s) by by (unfold branch_valid, gets; rewrite Hb).
  by rewrite (run_bind _ _ _ _ _ Hn).
Qed.

Lemma lookup_control b i (s : Mounted) :
  get_path i (inodes s.2) = Some ("/@" +:+ b) -> contains_char slash b = false -> expose_control s.2 = true ->
  numbers_ok s.2 -> ctl_fresh s.2 ->
  exists j f, fuse_lookup i CTL_FILE s = (Ok (Now (REntry (ctl_file_attr j f))), (s.1, f))
    /\ ctl_branch j (branch_ctl_inodes f) = Some b /\ j <> CTL_INO
    /\ mountpoint f = mountpoint s.2 /\ expose_control f = true.
Proof.
  intros Hi Hb He [Hn1 Hn2 Hn3 Hn4] [Hc1 Hc2]. unfold fuse_lookup, inode_path.
  rewrite (run_bind _ _ s (Some ("/@" +:+ b)) s) by (unfold gets; by rewrite Hi).
  cbv beta iota. rewrite bool_decide_false by done.
  unfold branch_ctx. rewrite classify_branch_dir by done. unfold lookup_in_branch.
  rewrite (run_bind _ _ s s.2 s) by done. rewrite He, !bool_decide_true by done. cbn [andb].
  unfold get_or_create_branch_ctl_ino. rewrite bind_assoc. rewrite (run_bind _ _ s s.2 s) by done.
  destruct (branch_ctl_inodes s.2 !! b) as [j|] eqn:Hj.
  - exists j, s.2. destruct s as [hw f]. cbn [fst snd] in *. split; [done|]. split; [|split; [|done]].
    + apply ctl_branch_of; [done|]. intros b' Hb'. by eapply Hn4.
    + apply Hn3 in Hj. lia.
  - set (f := with_ctl_inodes (<[b := next_ctl_ino s.2]> (branch_ctl_inodes s.2)) (wrap_u64 (next_ctl_ino s.2 + 1)) s.2).
    exists (next_ctl_ino s.2), f. split; [done|]. split; [|split; [lia|done]].
    apply ctl_branch_of; cbn [f with_ctl_inodes branch_ctl_inodes]; [apply lookup_insert_eq|].
    intros b' Hb'. destruct (decide (b' = b)) as [|Hne]; [done|]. rewrite lookup_insert_ne in Hb' by done.
    apply Hc2 in Hb'. lia.
Qed.

Lemma open_control_number j b fl (s : Mounted) :
  ctl_branch j (branch_ctl_inodes s.2) = Some b -> fuse_open j fl s = (Ok (Now ROpened), s).
Proof.
  intros Hj. unfold fuse_open. rewrite (run_bind _ _ _ _ _ (branch_for_ctl_eq j s)), Hj.
  rewrite (bool_decide_true (is_Some (Some b))) by by eexists. by rewrite orb_true_r.
Qed.

Lemma branch_ctl_finish cmd op b s :
  finish_command cmd op ->
  handle_branch_ctl_write b (bytes_of cmd) s
  = (let* r := attempt (mgr (op b)) in finalize_branch_op b r (Z.of_nat (String.length cmd))) s.
Proof.
  intros Hc. unfold handle_branch_ctl_write.
  assert (to_lowercase (ctl_command (bytes_of cmd)) = cmd) as -> by by destruct Hc; vm_compute.
  by destruct Hc.
Qed.

(** The write of a command to the control file of the branch the mount shows. *)
Lemma write_control cmd op b p j o fl hw f hw' :
  finish_command cmd op -> ctl_branch j (branch_ctl_inodes f) = Some b -> j <> CTL_INO ->
  expose_control f = true -> get_mount_branch (mountpoint f) hw.2 = Some b -> op b hw = (Ok p, hw') ->
  exists f', fuse_write j o (bytes_of cmd) fl (hw, f)
      = (Ok (Now (RWritten (Z.of_nat (String.length cmd)))),
         (hw'.1, switch_mount_branch (mountpoint f) p hw'.2, f'))
    /\ mountpoint f' = mountpoint f.
Proof.
  intros Hc Hj Hne He Hb Hop. pose proof (finish_drops cmd op b hw Hc) as [[_ Hmb] _].
  rewrite Hop in Hmb. cbn [fst snd] in Hmb.
  set (f1 := with_caches (invalidate_ino j (open_cache f)) (write_cache f) f).
  assert (branch_of_mount hw'.2 f1 = b) as Hb'.
  { unfold branch_of_mount, get_mount_branch in *. cbn [mountpoint with_caches f1]. by rewrite Hmb, Hb. }
  assert (fuse_write j o (bytes_of cmd) fl (hw, f)
    = (let* r := attempt (mgr (op b)) in
       let* r := finalize_branch_op b r (Z.of_nat (String.length cmd)) in reply r) (hw, f1)) as ->.
  { unfold fuse_write. rewrite (run_bind _ _ _ tt (hw, f1)), (run_bind _ _ (hw, f1) f1 (hw, f1)) by done.
    rewrite bool_decide_false by done. rewrite (run_bind _ _ _ _ _ (branch_for_ctl_eq j (hw, f1))).
    change (branch_ctl_inodes (hw, f1).2) with (branch_ctl_inodes f). rewrite Hj.
    change (expose_control f1) with (expose_control f). rewrite He. unfold bind at 1.
    rewrite (branch_ctl_finish cmd op) by done. symmetry. etransitivity; [symmetry; apply bind_assoc|].
    unfold bind at 1. done. }
  unfold bind at 1, attempt. rewrite mgr_eq, Hop. cbn [fst snd].
  rewrite (run_bind _ _ _ _ _ (finalize_own b p _ (hw', f1) Hb')). by eexists.
Qed.

(** Opening the control file of the branch a mount shows. *)
Lemma open_below_control m i mp s b :
  at_mount m i mp s -> fst <$> list_find (fun p => is_Some (mounts p.2 !! mp)) (procs m) = Some i ->
  mountpoint s.2 = mp -> expose_control s.2 = true -> contains_char slash b = false ->
  get_path ROOT_INO (inodes s.2) = Some "/" -> numbers_ok s.2 -> ctl_fresh s.2 ->
  (next_ino (inodes s.2) + 1 < FIRST_CTL_INO)%Z -> is_branch_valid b s.1.2 = true ->
  exists m' j f, open_below mp ["@" +:+ b; CTL_FILE] m = (Ok (Ok (MountFile i mp j)), m')
    /\ at_mount m' i mp (s.1, f) /\ but i m m' /\ ctl_branch j (branch_ctl_inodes f) = Some b /\ j <> CTL_INO
    /\ mountpoint f = mp /\ expose_control f = true.
Proof.
  intros Ha Hf Hmp He Hsl Hr Hn Hc Hroom Hv. unfold open_below. rewrite (bind_step _ _ m m m) by done.
  destruct (list_find _ (procs m)) as [[i' pr]|]; [|done]. injection Hf as ->.
  pose proof (lookup_at_branch b s Hr He Hv) as H1.
  pose proof (new_number_ok ("/@" +:+ b) true s.2 Hn Hroom) as [Hn1 Hp1].
  destruct (get_or_create ("/@" +:+ b) true (inodes s.2)) as [k t]. cbn [fst snd] in *.
  destruct (callback_at m i mp s _ _ _ Ha (answered_now (OpLookup ROOT_INO ("@" +:+ b)) _ _ _ H1)) as (m1 & C1 & A1 & B1).
  destruct (lookup_control b k (s.1, with_inodes t s.2)) as (j & f & H2 & Hj & Hne & Hm2 & He2); [done..| |].
  { by destruct Hc. }
  destruct (callback_at m1 i mp _ _ _ _ A1 (answered_now (OpLookup k CTL_FILE) _ _ _ H2)) as (m2 & C2 & A2 & B2).
  destruct (callback_at m2 i mp _ _ _ _ A2 (answered_now (OpOpen j O_WRONLY) _ _ _ (open_control_number j b O_WRONLY (s.1, f) Hj)))
    as (m3 & C3 & A3 & B3).
  exists m3, j, f. split; [|split; [done|split; [by rewrite B1, B2|]]].
  2:{ split; [done|]. split; [done|]. split; [by rewrite Hm2|done]. }
  assert (walk_names i mp ROOT_INO ["@" +:+ b; CTL_FILE] m = (Ok (Ok j), m2)) as Hw.
  { cbn [walk_names]. rewrite (bind_step _ _ _ _ _ C1). cbn [reply_result]. cbv beta iota.
    cbn [a_ino synthetic_dir_attr]. by rewrite (bind_step _ _ _ _ _ C2). }
  rewrite (bind_step _ _ _ _ _ Hw). cbv beta iota. by rewrite (bind_step _ _ _ _ _ C3).
Qed.

Lemma put_process_same i w d m : procs m !! i = Some (w, d) -> put_process i (m_host m, w, d) m = m.
Proof.
  intros Hp. unfold put_process. cbn [fst snd]. rewrite with_host_same, list_insert_id by done. by destruct m.
Qed.

Lemma mount_branch_of_eq m st i w d mp b :
  listening m st i w d -> path_ok mp -> get_mount_branch mp w = Some b ->
  mount_branch_of st mp m = (Ok (Ok b), m).
Proof.
  intros Hl Hp Hb.
  assert (handle_request (ReqGetMountBranch (show mp)) (m_host m, w, d)
          = (Ok (success_with_data (VBranch b)), (m_host m, w, d))) as Hr.
  { simpl. rewrite comps_show by done. rewrite (bind_step _ _ (m_host m, w, d) w (m_host m, w, d)) by done. by rewrite Hb. }
  unfold mount_branch_of, talk, map_error. rewrite !bind_assoc.
  rewrite (bind_step _ _ _ _ _ (send_request_eq _ _ _ _ _ _ _ _ Hl Hr)).
  unfold after_answer. cbn [snd]. rewrite (li_up _ _ _ _ _ Hl), (put_process_same i) by by eapply listening_proc.
  unfold bind, ret. cbn. by rewrite as_str_str.
Qed.

(** The mount at [mp], served by process [i] with control files and showing [b]. *)
Record controlled (m : Machine) (i : nat) (mp : path) (s : Mounted) (b : string) : Prop := {
  co_at : at_mount m i mp s;
  co_find : fst <$> list_find (fun p => is_Some (mounts p.2 !! mp)) (procs m) = Some i;
  co_dir : canonicalize mp (m_host m) = (Ok mp, m_host m);
  co_path : path_ok mp;
  co_mp : mountpoint s.2 = mp;
  co_expose : expose_control s.2 = true;
  co_root : get_path ROOT_INO (inodes s.2) = Some "/";
  co_numbers : numbers_ok s.2;
  co_fresh : ctl_fresh s.2;
  co_room : (next_ino (inodes s.2) + 1 < FIRST_CTL_INO)%Z;
  co_branch : get_mount_branch mp s.1.2 = Some b;
}.

Lemma write_all_once fl data m m' :
  data <> [] -> write_once fl 0 data m = (Ok (Ok (Z.of_nat (length data))), m') ->
  write_all fl data m = (Ok (Ok tt), m').
Proof.
  intros Hne H. unfold write_all. destruct data as [|a data]; [done|]. cbn [length write_from].
  rewrite (bind_step _ _ _ _ _ H). cbv beta iota. rewrite (proj2 (Z.leb_gt _ _)) by (cbn [length]; lia).
  rewrite Nat2Z.id, drop_all. by destruct (length data).
Qed.

(** The two commands of the client that finish a mount's branch. *)
Inductive finishes (mp st : path) : Commands -> string -> (string -> MIO string) -> Printed -> Prop :=
  | finishes_commit : finishes mp st (CmdCommit mp st) "commit" commit (SaidCommitted mp)
  | finishes_abort : finishes mp st (CmdAbort mp st) "abort" abort (SaidAborted mp).

Lemma finishes_command mp st c cmd op said : finishes mp st c cmd op said -> finish_command cmd op.
Proof. intros []; constructor. Qed.

Lemma cmd_finish_run m i mp st w d s b p cmd op said hw' :
  finish_command cmd op -> listening m st i w d -> s.1 = (m_host m, w) -> controlled m i mp s b ->
  contains_char slash b = false -> world_ok w -> op b s.1 = (Ok p, hw') ->
  exists m' f, cmd_finish cmd said mp st m = (Ok (Ok (said mp)), m')
    /\ at_mount m' i mp (hw'.1, switch_mount_branch mp p hw'.2, f) /\ but i m m' /\ mountpoint f = mp.
Proof.
  intros Hc Hl Hs [Ha Hf Hdir Hp Hmp He Hr Hn Hfr Hroom Hb] Hsl Hw Hop.
  pose proof (finish_parent cmd op b s.1 p hw' Hc Hop) as (Hne & (e & Hlife & _) & _).
  assert (is_branch_valid b s.1.2 = true) as Hv.
  { rewrite valid_life. apply bool_decide_eq_true. by apply elem_of_dom_2 in Hlife. }
  destruct (open_below_control m i mp s b) as (m1 & j & f & H1 & A1 & B1 & Hj & Hj' & Hm1 & He1); [done..|].
  assert (get_mount_branch (mountpoint f) s.1.2 = Some b) as Hb1 by by rewrite Hm1.
  destruct (write_control cmd op b p j 0 O_WRONLY s.1 f hw' Hc Hj Hj' He1 Hb1 Hop) as (f2 & H2 & Hm2).
  rewrite Hm1 in H2, Hm2.
  destruct (callback_at m1 i mp _ _ _ _ A1 (answered_now (OpWrite j 0 (bytes_of cmd) O_WRONLY) (s.1, f) _ _ H2))
    as (m2 & C2 & A2 & B2).
  exists m2, f2. split; [|split; [done|split; [by rewrite B1, B2|done]]].
  unfold cmd_finish. rewrite (bind_step _ _ _ _ _ (io_eq _ _ _ _ Hdir)), with_host_same. cbv beta iota.
  rewrite (bind_step _ _ _ _ _ (io_eq _ _ _ _ (li_dir _ _ _ _ _ Hl))), with_host_same. cbv beta iota.
  rewrite (bind_step _ _ m (Ok b) m).
  2:{ apply (mount_branch_of_eq m st i w d); [done..|]. by rewrite <- Hb, Hs. }
  cbv beta iota. rewrite bool_decide_false by done. unfold map_error. rewrite !bind_assoc.
  rewrite (bind_step _ _ _ _ _ H1). unfold ret at 1. unfold bind at 1. cbv beta iota.
  rewrite !bind_assoc.
  assert (write_all (MountFile i mp j) (bytes_of cmd) m1 = (Ok (Ok tt), m2)) as Hwr.
  { apply write_all_once; [by destruct Hc|]. cbn [write_once].
    rewrite (bind_step _ _ _ _ _ C2). cbn [reply_result]. cbv beta iota.
    do 3 f_equal. by destruct Hc. }
  by rewrite (bind_step _ _ _ _ _ Hwr).
Qed.

Lemma valid_name_no_slash n : validate_branch_name n = Ok tt -> contains_char slash n = false.
Proof.
  unfold validate_branch_name. destruct (contains_char slash n); [|done].
  destruct (bool_decide (n = "")); [done|]. by destruct (_ || _).
Qed.

(** C16: [branchfs commit <mountpoint>] and [branchfs abort <mountpoint>], from the
    command to the store: the client asks the daemon which branch the mount
    shows, walks through the kernel to that branch's control file and writes the
    word.  When the branch can be finished the client says so and ends with code
    0, the host is what the operation makes of it, the branch is gone, this mount
    shows the parent, and every other mount and process is as before. *)
Theorem client_finishes_branch c cmd op said m i mp st w d s b p hw' :
  finishes mp st c cmd op said -> listening m st i w d -> s.1 = (m_host m, w) -> controlled m i mp s b ->
  validate_branch_name b = Ok tt -> world_ok w -> op b s.1 = (Ok p, hw') ->
  exists m' s', main c m = (Ok {| code := 0; printed := Some said; complaint := None |}, m')
    /\ at_mount m' i mp s' /\ m_host m' = hw'.1
    /\ is_branch_valid b s'.1.2 = false /\ branch_of_mount s'.1.2 s'.2 = p /\ mount_live s'
    /\ (forall mp', mp' <> mp -> get_mount_branch mp' s'.1.2 = get_mount_branch mp' w)
    /\ forall j, j <> i -> procs m' !! j = procs m !! j.
Proof.
  intros Hc Hl Hs Hco Hname Hw Hop. pose proof (finishes_command _ _ _ _ _ _ Hc) as Hfc.
  apply valid_name_no_slash in Hname.
  destruct (cmd_finish_run m i mp st w d s b p cmd op (match c with CmdCommit _ _ => SaidCommitted | _ => SaidAborted end)
    hw' Hfc Hl Hs Hco Hname Hw Hop) as (m' & f & Hrun & Ha & Hbut & Hmf).
  exists m', (hw'.1, switch_mount_branch mp p hw'.2, f). split.
  { unfold main. destruct Hc; cbn [command]; unfold say; rewrite !bind_assoc;
      by rewrite (bind_step _ _ _ _ _ Hrun). }
  split; [done|]. split; [by destruct Ha as (? & ? & ? & ? & ? & ->)|].
  pose proof (finish_drops cmd op b s.1 Hfc) as [[_ Hmb] Hdom]. rewrite Hop in Hmb, Hdom.
  pose proof (finish_parent cmd op b s.1 p hw' Hfc Hop) as Hfin. cbn [fst snd] in *.
  rewrite Hs in *. cbn [snd] in *. destruct (parent_stays b p w Hw Hfin) as [Hpb Hp].
  rewrite valid_life in Hp. apply bool_decide_eq_true in Hp.
  assert (branch_of_mount (switch_mount_branch mp p hw'.2) f = p) as Hbp.
  { unfold branch_of_mount. by rewrite Hmf, switch_get. }
  split; [rewrite switch_valid, valid_life, Hdom; apply bool_decide_eq_false; set_solver|].
  split; [done|]. split; [|split; [|done]].
  - unfold mount_live. cbn [fst snd]. rewrite Hbp, switch_valid, valid_life, Hdom.
    apply bool_decide_eq_true. set_solver.
  - intros mp' Hne. rewrite switch_get_other by done. unfold get_mount_branch. by rewrite Hmb.
Qed.

(** ** A daemon that dies *)

Lemma on_process_panic {A} i (c : M (host * World * Daemon) A) m w d s :
  procs m !! i = Some (w, d) -> c (m_host m, w, d) = (Err Panic, s) ->
  on_process i c m = (Ok None, with_procs (delete i (procs m)) (with_host s.1.1 m)).
Proof. intros Hp Hc. unfold on_process. rewrite Hp, Hc. by destruct s as [[h w'] d']. Qed.

Lemma no_listener l sock :
  Forall (fun p : Process => socket_path p.2 <> sock) l -> list_find (fun p => socket_path p.2 = sock) l = None.
Proof. intros H. apply list_find_None. eapply Forall_impl; [exact H|]. done. Qed.

(** A command that talks to the daemon and does not get an answer. *)
Lemma asks_refused c st r m e :
  asks c = Some (st, r) -> canonicalize st (m_host m) = (Ok st, m_host m) ->
  (let! i := map_error TIo (connect (get_socket_path st)) in ok_ i) m = (Ok (Err e), m) ->
  main c m = (Ok {| code := 1; printed := None; complaint := Some (CTalk e) |}, m).
Proof.
  intros Ha Hd Hs.
  assert (map_error TIo (connect (get_socket_path st)) m = (Ok (Err e), m)) as Hc.
  { unfold bind at 1 in Hs. destruct (map_error TIo _ m) as [[[j|e']|x] m1]; unfold ok_, ret in Hs; by simplify_eq. }
  assert (forall said, (let* r0 := say (cmd_request st r said) in ret (exit_of r0)) m
    = (Ok {| code := 1; printed := None; complaint := Some (CTalk e) |}, m)) as Hgen.
  { intros said. unfold say, cmd_request. rewrite !bind_assoc.
    rewrite (bind_step _ _ _ _ _ (io_eq _ _ _ _ Hd)), with_host_same. cbv beta iota.
    rewrite !bind_assoc. unfold order, talk, map_error at 1, send_request. rewrite !bind_assoc.
    by rewrite (bind_step _ _ _ _ _ Hc). }
  destruct c as [| |n [mp|] parent snapshot hide st0| | |b st0 json|b st0|b p st0|b st0|b st0|b st0 json|st0| |];
    simpl in Ha; simplify_eq; unfold main; cbn [command]; apply Hgen.
Qed.

Lemma exists_socket p h mode t x : h_tree h !! p = Some (Node KOther mode t x) -> exists_ p h = (Ok true, h).
Proof.
  intros Hp. unfold exists_, attempt, metadata, bind. rewrite (real_path_file h p _ Hp) by done.
  by rewrite (symlink_metadata_eq _ _ _ Hp).
Qed.

(** C26: a panic takes the daemon down.  When a request panics in the daemon - the
    merge of a commit can - the client only sees that no answer comes; the process
    is gone with all its mounts, the socket file stays behind, and from then on
    every command that asks is refused the connection.  (The next [mount] finds no
    daemon running and starts one.) *)
Theorem panic_takes_daemon_down c st r m i w d s' :
  asks c = Some (st, r) -> listening m st i w d -> handle_request r (m_host m, w, d) = (Err Panic, s') ->
  canonicalize st s'.1.1 = (Ok st, s'.1.1) ->
  (exists mode t x, h_tree s'.1.1 !! get_socket_path st = Some (Node KOther mode t x)) ->
  Forall (fun p : Process => socket_path p.2 <> get_socket_path st) (delete i (procs m)) ->
  let m' := with_procs (delete i (procs m)) (with_host s'.1.1 m) in
  main c m = (Ok {| code := 1; printed := None; complaint := Some (CTalk TNoAnswer) |}, m')
  /\ (forall c' r', asks c' = Some (st, r') ->
        main c' m' = (Ok {| code := 1; printed := None; complaint := Some (CTalk (TIo ECONNREFUSED)) |}, m'))
  /\ is_daemon_running (get_socket_path st) m' = (Ok false, m').
Proof.
  intros Ha Hl Hr Hd (mode & t & x & Hsock) Hno m'. pose proof (exists_socket _ _ _ _ _ Hsock) as He.
  assert (connect (get_socket_path st) m' = (Ok (Err ECONNREFUSED), m')) as Hcon.
  { unfold connect, gets, bind, ret. cbn [id m_host procs with_procs with_host m']. by rewrite Hsock, no_listener. }
  split; [|split].
  - assert (send_request (get_socket_path st) r m = (Ok (Err TNoAnswer), m')) as Hs.
    { unfold send_request. unfold map_error at 1. rewrite (bind_step _ _ m (Ok i) m).
      2:{ by rewrite (bind_step _ _ _ _ _ (connect_listening _ _ _ _ _ Hl)). }
      cbv beta iota.
      assert (serve_client [dec_request (enc_request r)] (m_host m, w, d) = (Err Panic, s')) as Hp.
      { rewrite dec_enc_request. unfold serve_client. cbn [handle_client]. unfold bind at 1 2. by rewrite Hr. }
      by rewrite (bind_step _ _ _ _ _ (on_process_panic i _ m w d s' (listening_proc _ _ _ _ _ Hl) Hp)). }
    assert (forall said, (let* r0 := say (cmd_request st r said) in ret (exit_of r0)) m
      = (Ok {| code := 1; printed := None; complaint := Some (CTalk TNoAnswer) |}, m')) as Hgen.
    { intros said. unfold say, cmd_request. rewrite !bind_assoc.
      rewrite (bind_step _ _ _ _ _ (io_eq _ _ _ _ (li_dir _ _ _ _ _ Hl))), with_host_same. cbv beta iota.
      rewrite !bind_assoc. unfold order, talk, map_error. rewrite !bind_assoc.
      by rewrite (bind_step _ _ _ _ _ Hs). }
    destruct c as [| |n [mp|] parent snapshot hide st0| | |b st0 json|b st0|b p st0|b st0|b st0|b st0 json|st0| |];
      simpl in Ha; simplify_eq; unfold main; cbn [command]; apply Hgen.
  - intros c' r' Hc'. apply (asks_refused c' st r'); [done|exact Hd|].
    unfold map_error. rewrite !bind_assoc. by rewrite (bind_step _ _ _ _ _ Hcon).
  - unfold is_daemon_running. rewrite (bind_step _ _ m' true m').
    2:{ unfold on_machine, zoom. cbn [m_host with_procs with_host m']. by rewrite He. }
    cbn [negb]. by rewrite (bind_step _ _ _ _ _ Hcon).
Qed.

(** ** Starting a daemon *)

(** A number the parent prints for its child is the number the child reads. *)
Lemma digits_step n z :
  digits_of (S n) z = if (z <? 10)%Z then [Z.to_nat z] else digits_of n (z / 10) ++ [Z.to_nat (z mod 10)].
Proof. done. Qed.

Lemma digits_of_small n z :
  (0 <= z < 10 ^ Z.of_nat (S n))%Z -> digits_of (S n) z <> [] /\ Forall (fun d => d < 10) (digits_of (S n) z).
Proof.
  revert z; induction n as [|n IH]; intros z Hz; rewrite digits_step; destruct (Z.ltb_spec z 10) as [Hlt|Hge].
  1, 3: split; [done|apply Forall_singleton; lia].
  - change (10 ^ Z.of_nat 1)%Z with 10%Z in Hz. lia.
  - destruct (IH (z / 10)%Z) as [_ H].
    { split; [apply Z.div_pos; lia|]. apply Z.div_lt_upper_bound; [lia|].
      replace (Z.of_nat (S (S n))) with (Z.succ (Z.of_nat (S n))) in Hz by lia. rewrite Z.pow_succ_r in Hz; lia. }
    split; [by intros [_ ?]%app_nil|]. apply Forall_app. split; [exact H|]. apply Forall_singleton.
    pose proof (Z.mod_pos_bound z 10). lia.
Qed.

Lemma number_from_app a l l' : number_from a (l ++ l') = number_from (number_from a l) l'.
Proof. apply foldl_app. Qed.

Lemma digits_of_value n z : (0 <= z < 10 ^ Z.of_nat (S n))%Z -> number_from 0 (digits_of (S n) z) = z.
Proof.
  revert z; induction n as [|n IH]; intros z Hz; rewrite digits_step; destruct (Z.ltb_spec z 10) as [Hlt|Hge].
  1, 3: unfold number_from; simpl; lia.
  - change (10 ^ Z.of_nat 1)%Z with 10%Z in Hz. lia.
  - rewrite number_from_app.
    rewrite IH.
    2:{ split; [apply Z.div_pos; lia|]. apply Z.div_lt_upper_bound; [lia|].
        replace (Z.of_nat (S (S n))) with (Z.succ (Z.of_nat (S n))) in Hz by lia. rewrite Z.pow_succ_r in Hz; lia. }
    unfold number_from. simpl. pose proof (Z.mod_pos_bound z 10). rewrite Z2Nat.id by lia.
    pose proof (Z.div_mod z 10). lia.
Qed.

Lemma parse_decimal z : (0 <= z <= u64_max)%Z -> parse_u64 (decimal z) = Some z.
Proof.
  intros Hz. assert (0 <= z < 10 ^ Z.of_nat 20)%Z as Hr.
  { unfold u64_max in *. change (10 ^ Z.of_nat 20)%Z with 100000000000000000000%Z. lia. }
  unfold decimal. destruct (digits_of_small 19 z Hr) as [Hne Hd]. rewrite parse_u64_number by done.
  rewrite (digits_of_value 19) by done. by rewrite (proj2 (Z.leb_le _ _)) by lia.
Qed.

(** Whether a daemon runs depends on the host and the processes. *)
Definition runs_at (sock : path) (h : host) (l : list Process) : bool :=
  is_ok (attempt (metadata sock) h).1
  && match attempt (metadata sock) h with
     | (Ok (Ok _), _) => match (connect sock {| m_host := h; procs := l; children := 0 |}).1 with
                         | Ok r => is_ok r
                         | Err _ => false
                         end
     | _ => false
     end.

Lemma running_eq sock m : is_daemon_running sock m = (Ok (runs_at sock (m_host m) (procs m)), m).
Proof.
  unfold is_daemon_running, runs_at. destruct (exists_total sock (m_host m)) as [b Hb].
  assert (on_machine (exists_ sock) m = (Ok b, m)) as Hm.
  { unfold on_machine, zoom. rewrite Hb. by rewrite with_host_same. }
  rewrite (bind_step _ _ _ _ _ Hm). unfold exists_, bind in Hb.
  destruct (attempt (metadata sock) (m_host m)) as [[[n|e]|x] h]; unfold ret in Hb; simplify_eq; done.
Qed.

(** The polls: the child comes up after [k] of them, and nothing moves before. *)
Lemma wait_until_up n sock a k m m' :
  is_daemon_running sock m = (Ok false, m) -> child a m = (Ok tt, m') -> is_daemon_running sock m' = (Ok true, m') ->
  wait_daemon n sock a (Some k) m = (Ok (if k <? n then Ok tt else Err TTimedOut), m').
Proof.
  intros Hdown Hc Hup. revert k; induction n as [|n IH]; intros k; cbn [wait_daemon].
  - by rewrite (bind_step _ _ _ _ _ Hc).
  - destruct k as [|k].
    + rewrite (bind_step _ _ m None m') by by rewrite (bind_step _ _ _ _ _ Hc).
      by rewrite (bind_step _ _ _ _ _ Hup).
    + rewrite (bind_step _ _ m (Some k) m) by done. rewrite (bind_step _ _ _ _ _ Hdown). apply IH.
Qed.

(** C25: starting a daemon.  Where one runs, [ensure_daemon] changes nothing,
    whatever base directory and limit it is given.  Where none runs it starts a
    child that gets the base, the store and the limit as they were given - the
    limit goes through its decimal text unharmed - and when that child gets to
    listen within fifty polls the daemon runs; when it takes longer the client
    gives up with an error although the daemon comes up all the same. *)
Theorem ensure_daemon_starts_one base st mx m k m' :
  let sock := get_socket_path st in
  (forall z, mx = Some z -> (0 <= z <= u64_max)%Z) ->
  is_daemon_running sock m = (Ok false, m) -> spawn_child (children m) = Ok k ->
  run_daemon (show base) st mx (with_child m) = (Ok (Ok tt), m') ->
  is_daemon_running sock m' = (Ok true, m') ->
  ensure_daemon (Some base) st mx m = (Ok (if k <? 50 then Ok tt else Err TTimedOut), m')
  /\ forall base' mx', ensure_daemon base' st mx' m' = (Ok (Ok tt), m').
Proof.
  intros sock Hmx Hdown Hk Hrun Hup. split.
  - unfold ensure_daemon. rewrite (bind_step _ _ _ _ _ Hdown). rewrite (bind_step _ _ m (Ok (show base)) m) by done.
    cbv beta iota. unfold start_daemon_background. rewrite (bind_step _ _ m m m) by done.
    rewrite (bind_step _ _ m tt (with_child m)) by done. rewrite Hk. apply wait_until_up; [| |done].
    + rewrite running_eq in Hdown |- *. cbn [m_host procs with_child]. injection Hdown as Hdown. unfold sock, get_socket_path in Hdown. by rewrite Hdown.
    + unfold child. cbn [arg_max_storage arg_base arg_storage]. rewrite (bind_step _ _ _ (Ok mx) (with_child m)).
      2:{ unfold ret, child_max. destruct mx as [z|]; [|done]. cbn [fmap option_fmap option_map]. by rewrite parse_decimal by by apply Hmx. }
      cbv beta iota. by rewrite Hrun.
  - intros base' mx'. unfold ensure_daemon. by rewrite (bind_step _ _ _ _ _ Hup).
Qed.

(** A mount without [--base] works on the base directory of the first one:
    with the path the first daemon wrote into the store the start is the same as
    with that path on the command line, as long as the path has no white space at
    its ends, which is trimmed away when it is read back. *)
Theorem base_is_remembered base st mx m mode t x :
  h_tree (m_host m) !! (st ++ ["base_path"]) = Some (Node (KFile (bytes_of (show base))) mode t x) ->
  utf8_valid (bytes_of (show base)) = true -> trim (show base) = show base ->
  ensure_daemon None st mx m = ensure_daemon (Some base) st mx m.
Proof.
  intros Hf Hu Ht. unfold ensure_daemon. rewrite !(bind_step _ _ _ _ _ (running_eq (st ++ ["daemon.sock"]) m)).
  destruct (runs_at _ _ _); [done|].
  assert (remembered_base st m = (Ok (Ok (show base)), m)) as Hr.
  { assert (metadata (st ++ ["base_path"]) (m_host m) = (Ok (Node (KFile (bytes_of (show base))) mode t x), m_host m)) as Hm.
    { unfold metadata, bind. rewrite (real_path_file _ _ _ Hf) by done. by rewrite (symlink_metadata_eq _ _ _ Hf). }
    unfold remembered_base. rewrite (bind_step _ _ m true m).
    2:{ unfold on_machine, zoom, exists_, attempt, bind. rewrite Hm. cbn. by rewrite with_host_same. }
    rewrite (bind_step _ _ m (Ok (show base)) m).
    2:{ unfold attempt, on_machine, zoom, read_to_string, read, bind. rewrite Hm. cbn [n_kind]. unfold ret at 1.
        rewrite Hu, string_of_bytes_of. cbn. by rewrite with_host_same. }
    cbv beta iota. by rewrite Ht. }
  by rewrite (bind_step _ _ _ _ _ Hr).
Qed.
End Client.

(** ** Example: a machine with an empty store *)

#[local] Existing Instances example_env example_serde example_kernel example_sessions example_json example_wire example_os.

Definition bare_machine : Machine :=
  {| m_host := Host (list_to_map [([], Node KDir 493 0 (Stamp 0 0 0 0));
                                  (["base"], Node KDir 493 0 (Stamp 1 0 0 0));
                                  (["base"; "a"], Node (KFile (bytes_of "A")) 420 0 (Stamp 2 0 0 0))]) 10 0 ∅;
     procs := []; children := 0 |}.
Definition after_commands (cs : list Commands) (m : Machine) : Machine := foldl (fun m c => (main c m).2) m cs.
Definition first_process (m : Machine) : Process :=
  match procs m with p :: _ => p | [] => (example_world, example_daemon) end.

(** A daemon with the branch "fix"; the same with the branch mounted. *)
Definition with_daemon : Machine :=
  after_commands [CmdStartDaemon (Some ["base"]) ["store"] None; CmdCreate "fix" None "main" false [] ["store"]] bare_machine.
Definition with_mount (agent : bool) : Machine :=
  after_commands [CmdMount None ["store"] "fix" false agent false false None ["mnt"]] with_daemon.

(** [listening] and the directories, as tests. *)
Definition canonicalb (p : path) (h : host) : bool :=
  match (canonicalize p h).1 with Ok q => bool_decide (q = p) | Err _ => false end.
Definition sockb (h : host) : bool :=
  match h_tree h !! ["store"; "daemon.sock"] with Some (Node KOther _ _ _) => true | _ => false end.
Definition listeningb (m : Machine) : bool :=
  canonicalb ["store"] (m_host m) && sockb (m_host m)
  && match procs m with p :: _ => bool_decide (socket_path p.2 = ["store"; "daemon.sock"]) | [] => false end
  && negb (shutdown (first_process m).2).

Lemma canonical_example p h : canonicalb p h = true -> canonicalize p h = (Ok p, h).
Proof.
  unfold canonicalb. assert ((canonicalize p h).2 = h) as Hs.
  { assert (keeps eq (canonicalize p)) as Hk by (unfold canonicalize; keeps_auto). by rewrite <- (Hk h). }
  destruct (canonicalize p h) as [[q|x] h']; cbn [fst snd] in *; [|done]. intros H%bool_decide_eq_true. by subst.
Qed.

Lemma sock_example h :
  sockb h = true -> exists mode t s, h_tree h !! get_socket_path ["store"] = Some (Node KOther mode t s).
Proof.
  unfold sockb, get_socket_path. simpl. destruct (h_tree h !! _) as [[[] mode t s]|]; try done. by do 3 eexists.
Qed.

Lemma listening_example m : listeningb m = true -> listening m ["store"] 0 (first_process m).1 (first_process m).2.
Proof.
  unfold listeningb. rewrite !andb_true_iff. intros [[[H1 H2] H3] H4].
  split; [by apply canonical_example| | |by apply negb_true_iff].
  - by apply sock_example.
  - unfold first_process. destruct (procs m) as [|[w d] l]; [done|]. apply bool_decide_eq_true in H3.
    cbn [list_find]. rewrite decide_True by done. done.
Qed.

Lemma example_freeze :
  (handle_request (ReqFreeze "fix") (m_host with_daemon, (first_process with_daemon).1, (first_process with_daemon).2)).1
  = Ok success.
Proof. by vm_compute. Qed.
Lemma with_daemon_listens : listeningb with_daemon = true.
Proof. by vm_compute. Qed.

Lemma command_is_its_request_witness :
  exists x, (main (CmdFreeze "fix" ["store"]) with_daemon).1 = Ok x /\ code x = 0%Z.
Proof.
  destruct (command_is_its_request (CmdFreeze "fix" ["store"]) ["store"] (ReqFreeze "fix") with_daemon 0
    (first_process with_daemon).1 (first_process with_daemon).2 success _ eq_refl
    (listening_example _ with_daemon_listens) (run_ok _ _ _ example_freeze)) as (x & H1 & H2 & _).
  exists x. split; [by rewrite H1|]. by apply H2.
Defined.

(** [world_ok] of a store whose branches are all children of [main], as a test. *)
Definition world_test (w : World) : bool :=
  forallb (fun e : string * Branch =>
      bool_decide (branch_dir e.2 = branch_dir_of (storage_path w) e.1)
      && match br_parent e.2 with
         | None => true
         | Some p => bool_decide (p = "main") && negb (bool_decide (e.1 = "main"))
         end) (map_to_list (branches w))
  && bool_decide (is_Some (branches w !! "main"))
  && negb (under (storage_path w) (base_path w)) && negb (under (base_path w) (storage_path w)).

Lemma world_test_ok w : world_test w = true -> world_ok w.
Proof.
  unfold world_test. rewrite !andb_true_iff, !negb_true_iff, forallb_forall, bool_decide_eq_true.
  intros [[[Hall Hm] H1] H2].
  assert (forall n b, branches w !! n = Some b -> branch_dir b = branch_dir_of (storage_path w) n
    /\ forall p, br_parent b = Some p -> p = "main" /\ n <> "main") as Hb.
  { intros n b Hn. apply elem_of_map_to_list, list_elem_of_In in Hn. apply Hall in Hn. cbn [fst snd] in Hn.
    apply andb_true_iff in Hn as [Hd Hp]. apply bool_decide_eq_true in Hd. split; [done|]. intros p Hpb.
    by rewrite Hpb, andb_true_iff, negb_true_iff, bool_decide_eq_true, bool_decide_eq_false in Hp. }
  split; [|done| |done].
  - exists (fun n => if decide (n = "main") then 0 else 1). intros n b p Hn Hp.
    destruct (Hb n b Hn) as [_ H]. destruct (H p Hp) as [-> Hne]. split; [done|].
    rewrite decide_True, decide_False by done. lia.
  - intros n b Hn. by apply Hb in Hn as [? _].
Qed.

(** A machine with one daemon and one mount, at [mnt], as [do_mount] makes it. *)
Definition fresh_mount (m : Machine) (agent : bool) : Mounted :=
  (m_host m, (first_process m).1, fs_new (first_process m).1 ["mnt"] false (negb agent)).

Definition mountedb (m : Machine) : bool :=
  listeningb m && canonicalb ["mnt"] (m_host m) && world_test (first_process m).1
  && bool_decide (get_mount_branch ["mnt"] (first_process m).1 = Some "fix")
  && match procs m with [_] => true | _ => false end.

Definition serves (m : Machine) (agent : bool) : Prop :=
  mounts (first_process m).2 !! ["mnt"] = Some {| session := 0; served_fs := (fresh_mount m agent).2 |}.

Record is_mounted (m : Machine) : Prop := {
  im_listens : listening m ["store"] 0 (first_process m).1 (first_process m).2;
  im_dir : canonicalize ["mnt"] (m_host m) = (Ok ["mnt"], m_host m);
  im_world : world_ok (first_process m).1;
  im_branch : get_mount_branch ["mnt"] (first_process m).1 = Some "fix";
  im_procs : procs m = [first_process m];
}.

Lemma mounted_facts m : mountedb m = true -> is_mounted m.
Proof.
  unfold mountedb. rewrite !andb_true_iff. intros [[[[H1 H2] H3] H4%bool_decide_eq_true] H5]. split; [| | |done|].
  - by apply listening_example.
  - by apply canonical_example.
  - by apply world_test_ok.
  - unfold first_process. by destruct (procs m) as [|p []].
Qed.

Lemma mounted_at m agent : is_mounted m -> serves m agent -> at_mount m 0 ["mnt"] (fresh_mount m agent).
Proof.
  intros Hm Hs. exists (first_process m).2, {| session := 0; served_fs := (fresh_mount m agent).2 |}.
  split; [|by split; [exact Hs|]]. rewrite (im_procs _ Hm). change (Some (first_process m) = Some ((first_process m).1, (first_process m).2)). by destruct (first_process m).
Qed.

Lemma mounted_find m agent : is_mounted m -> serves m agent ->
  fst <$> list_find (fun p : Process => is_Some (mounts p.2 !! ["mnt"])) (procs m) = Some 0.
Proof.
  intros Hm Hs. rewrite (im_procs _ Hm). cbn [list_find]. by rewrite decide_True by (rewrite Hs; by eexists).
Qed.

Lemma fresh_numbers m agent : numbers_ok (fresh_mount m agent).2 /\ ctl_fresh (fresh_mount m agent).2.
Proof.
  unfold fresh_mount, fs_new. split; split; cbn [snd inodes branch_ctl_inodes next_ctl_ino]; intros *;
    try rewrite lookup_empty; try discriminate; [apply inode_new_ok|done..].
Qed.

Lemma mounted_controlled m :
  is_mounted m -> serves m false -> controlled m 0 ["mnt"] (fresh_mount m false) "fix".
Proof.
  intros Hm Hs. split; try (apply Hm || apply fresh_numbers || reflexivity).
  - by apply mounted_at.
  - by eapply mounted_find.
  - by repeat constructor.
Qed.

Lemma mounted_agent m : agent (fresh_mount m true).
Proof. by split. Qed.

Lemma with_mount_test agent : mountedb (with_mount agent) = true.
Proof. destruct agent; by vm_compute. Qed.
Lemma with_mount_serves agent : serves (with_mount agent) agent.
Proof. destruct agent; by vm_compute. Qed.
Lemma mounted_commits : (commit "fix" (fresh_mount (with_mount false) false).1).1 = Ok "main".
Proof. by vm_compute. Qed.

Lemma client_finishes_branch_witness :
  exists m' (s' : Mounted), main (CmdCommit ["mnt"] ["store"]) (with_mount false)
      = (Ok {| code := 0; printed := Some (SaidCommitted ["mnt"]); complaint := None |}, m')
    /\ branch_of_mount s'.1.2 s'.2 = "main" /\ is_branch_valid "fix" s'.1.2 = false.
Proof.
  pose proof (mounted_facts _ (with_mount_test false)) as Hm.
  destruct (client_finishes_branch _ _ _ _ _ 0 ["mnt"] ["store"] _ _ (fresh_mount _ false) "fix" "main" _
    (finishes_commit ["mnt"] ["store"]) (im_listens _ Hm) eq_refl (mounted_controlled _ Hm (with_mount_serves false))
    eq_refl (im_world _ Hm) (run_ok _ _ _ mounted_commits)) as (m' & s' & H1 & _ & _ & H2 & H3 & _).
  exists m', s'. split; [exact H1|split; [exact H3|exact H2]].
Defined.

(** Two branches that change the same text: "one" is committed, the commit of
    "two" panics in the merge. *)
Definition edit_below (mp : path) (n : string) (data : bytes) (m : Machine) : Machine :=
  ((let! i := walk_names 0 mp ROOT_INO [n] in callback 0 mp (OpWrite i 0 data O_WRONLY)) m).2.
Definition text_machine : Machine :=
  with_host (Host (<[["base"; "t"] := Node (KFile (bytes_of ("a" +:+ nl +:+ "b" +:+ nl))) 420 0 (Stamp 3 0 0 0)]>
    (h_tree (m_host bare_machine))) 10 0 ∅) bare_machine.
Definition edited : Machine :=
  let m := after_commands [CmdMount (Some ["base"]) ["store"] "main" false false false false None ["m1"];
                           CmdMount None ["store"] "main" false false false false None ["m2"];
                           CmdCreate "one" (Some ["m1"]) "main" false [] ["store"];
                           CmdCreate "two" (Some ["m2"]) "main" false [] ["store"]] text_machine in
  let m := edit_below ["m1"] "t" (bytes_of ("A" +:+ nl)) m in
  let m := edit_below ["m2"] "t" (bytes_of ("new" +:+ nl +:+ "a" +:+ nl +:+ "b" +:+ nl)) m in
  after_commands [CmdCommitBranch "one" ["store"] false] m.

#[local] Abbreviation edited_commit :=
  (handle_request (ReqCommitBranch "two") (m_host edited, (first_process edited).1, (first_process edited).2)).

Lemma edited_listens : listeningb edited = true.
Proof. by vm_compute. Qed.
Lemma edited_panics : edited_commit.1 = Err Panic.
Proof. by vm_compute. Qed.
Lemma edited_after : canonicalb ["store"] edited_commit.2.1.1 && sockb edited_commit.2.1.1 = true.
Proof. by vm_compute. Qed.
Lemma edited_alone : forallb (fun p : Process => negb (bool_decide (socket_path p.2 = get_socket_path ["store"])))
    (delete 0 (procs edited)) = true.
Proof. by vm_compute. Qed.

Lemma no_socket_example l sock :
  forallb (fun p : Process => negb (bool_decide (socket_path p.2 = sock))) l = true ->
  Forall (fun p : Process => socket_path p.2 <> sock) l.
Proof.
  rewrite forallb_forall. intros H. apply Forall_forall. intros p Hp%list_elem_of_In%H.
  by apply negb_true_iff, bool_decide_eq_false in Hp.
Qed.

#[local] Abbreviation edited_down := (with_procs (delete 0 (procs edited)) (with_host edited_commit.2.1.1 edited)).

Lemma panic_takes_daemon_down_witness :
  main (CmdCommitBranch "two" ["store"] false) edited
    = (Ok {| code := 1; printed := None; complaint := Some (CTalk TNoAnswer) |}, edited_down)
  /\ main (CmdList ["store"]) edited_down
     = (Ok {| code := 1; printed := None; complaint := Some (CTalk (TIo ECONNREFUSED)) |}, edited_down).
Proof.
  pose proof edited_after as [H1 H2]%andb_true_iff.
  pose proof (panic_takes_daemon_down (CmdCommitBranch "two" ["store"] false) ["store"] (ReqCommitBranch "two") edited 0
    (first_process edited).1 (first_process edited).2
    edited_commit.2 eq_refl (listening_example _ edited_listens) (run_err _ _ _ edited_panics)
    (canonical_example _ _ H1) (sock_example _ H2) (no_socket_example _ _ edited_alone)) as (Ha & Hb & _).
  split; [exact Ha|exact (Hb (CmdList ["store"]) ReqList eq_refl)].
Defined.

#[local] Abbreviation bare_start := (run_daemon (show ["base"]) ["store"] (Some 5%Z) (with_child bare_machine)).
Lemma bare_machine_down : runs_at (get_socket_path ["store"]) (m_host bare_machine) (procs bare_machine) = false.
Proof. by vm_compute. Qed.
Lemma bare_machine_starts : bare_start.1 = Ok (Ok tt).
Proof. by vm_compute. Qed.
Lemma bare_machine_up : runs_at (get_socket_path ["store"]) (m_host bare_start.2) (procs bare_start.2) = true.
Proof. by vm_compute. Qed.

Lemma ensure_daemon_starts_one_witness :
  ensure_daemon (Some ["base"]) ["store"] (Some 5%Z) bare_machine = (Ok (Ok tt), bare_start.2)
  /\ ensure_daemon None ["store"] (Some 7%Z) bare_start.2 = (Ok (Ok tt), bare_start.2).
Proof.
  assert (forall z, Some 5%Z = Some z -> (0 <= z <= u64_max)%Z) as Hz by (intros z [= <-]; unfold u64_max; lia).
  pose proof (ensure_daemon_starts_one ["base"] ["store"] (Some 5%Z) bare_machine 1 bare_start.2 Hz) as H.
  destruct H as [Ha Hb].
  - by rewrite running_eq, bare_machine_down.
  - reflexivity.
  - apply (run_ok _ _ _ bare_machine_starts).
  - by rewrite running_eq, bare_machine_up.
  - split; [exact Ha|exact (Hb None (Some 7%Z))].
Defined.

(** The daemon has gone with its last mount; the store knows its base. *)
Definition left_behind : Machine :=
  after_commands [CmdMount (Some ["base"]) ["store"] "main" false false false false None ["mnt"];
                  CmdUnmount ["mnt"] ["store"]] bare_machine.
Definition keeps_base (base : path) (h : host) : bool :=
  match h_tree h !! (["store"] ++ ["base_path"]) with
  | Some (Node (KFile data) _ _ _) => bool_decide (data = bytes_of (show base))
  | _ => false
  end.
Lemma keeps_base_true base h : keeps_base base h = true ->
  exists mode t x, h_tree h !! (["store"] ++ ["base_path"]) = Some (Node (KFile (bytes_of (show base))) mode t x).
Proof.
  unfold keeps_base. destruct (h_tree h !! _) as [[[] mode t x]|]; try done. intros ->%bool_decide_eq_true. by do 3 eexists.
Qed.
Lemma left_behind_base : match procs left_behind with [] => keeps_base ["base"] (m_host left_behind) | _ => false end = true.
Proof. by vm_compute. Qed.

Lemma base_is_remembered_witness :
  procs left_behind = []
  /\ ensure_daemon None ["store"] (Some 9%Z) left_behind = ensure_daemon (Some ["base"]) ["store"] (Some 9%Z) left_behind.
Proof.
  pose proof left_behind_base as H. destruct (procs left_behind) as [|p l]; [|discriminate H]. split; [reflexivity|].
  apply keeps_base_true in H as (mode & t & x & H).
  apply (base_is_remembered ["base"] ["store"] (Some 9%Z) left_behind mode t x H); reflexivity.
Defined.
