(* ===== verification/AgentCli.v ===== *)
(** * The client at an agent's mount

    A mount without control files keeps [branchfs commit] and [branchfs abort] from
    its branch, whatever the agent has put in the way of their walk. *)

From S2P Require Import Prelude Strs Inode HostFs Handles Quota TextMerge Branch Codec View Manager Commit.
From S2P Require Import Frame Isolation WorldInv ManagerSpec Quiet Lifecycle Platform Mount Ctl Fuse Daemon Json Cli.
From S2P Require Import FuseWalk FuseInv FuseFacts FuseSpec FuseIO ReadOnly DaemonSpec CtlSpec CliSpec.

Open Scope bool_scope.

Section Agent.
Context {E : Env} {J : Serde} {K : Kernel} {F : Sessions} {V : Json} {W : Wire V} {Y : Os}.
Context {VL : JsonLaws V} {WL : WireLaws W}.
#[local] Existing Instance but_preorder.

(** ** An agent's mount *)

Ltac kept_ret := lazymatch goal with |- keeps ?R _ => solve [apply (keeps_ret R)|apply (keeps_raise R)] end.

(** Steps by which process [i] keeps an agent's mount at [mp]. *)
Definition agent_kept (i : nat) (mp : path) (m m' : Machine) : Prop :=
  forall s, at_mount m i mp s -> agent s ->
  exists s', at_mount m' i mp s' /\ (quiet_world s.1.2 s'.1.2 /\ fs_quiet s.2 s'.2 /\ agent s') /\ but i m m'.
#[local] Instance agent_kept_preorder i mp : PreOrder (agent_kept i mp).
Proof.
  split.
  - intros m s Hs Ha. exists s. split; [done|]. split; [|done]. split; [reflexivity|]. by split; [reflexivity|].
  - intros a b c Hab Hbc s Hs Ha. destruct (Hab s Hs Ha) as (s1 & H1 & (Q1 & F1 & A1) & B1).
    destruct (Hbc s1 H1 A1) as (s2 & H2 & (Q2 & F2 & A2) & B2). exists s2. split; [done|].
    split; [|by etransitivity]. split; [by etransitivity|]. by split; [etransitivity|].
Qed.

Lemma answered_agent o : allowed False o -> keeps agent_step (answered o).
Proof.
  intros Ho. assert (PreOrder agent_step) as Hp by apply cl_pre. unfold answered.
  apply (keeps_bind agent_step); [by apply (handle_keeps _ False)|]. intros [r|j]; [kept_ret|].
  apply (run_job_keeps _ False).
Qed.

Lemma callback_agent i mp o : allowed False o -> keeps (agent_kept i mp) (callback i mp o).
Proof.
  intros Ho m s (d & info & Hp & Hm & Hf & Hh) Ha. destruct s as [[h w] f]. cbn [fst snd] in *.
  pose proof (answered_agent o Ho (h, w, f) Ha) as Hstep. destruct (answered o (h, w, f)) as [r [[h' w'] f']] eqn:Hr.
  set (d' := with_daemon_mounts (<[mp := {| session := session info; served_fs := f' |}]> (mounts d)) d).
  assert ((callback i mp o m).2 = put_process i (h', w', d') m) as ->.
  { unfold callback, on_session, bind. rewrite Hp. unfold on_mount. cbn [fst snd]. rewrite Hm, Hf, Hh, Hr. cbn.
    by destruct r as [[]|]. }
  exists (h', w', f'). split; [|split; [exact Hstep|]].
  - exists d', {| session := session info; served_fs := f' |}. cbn [put_process with_procs with_host procs m_host fst snd].
    split; [apply list_lookup_insert_eq; by eapply lookup_lt_Some|]. split; [|done].
    unfold d'. cbn [with_daemon_mounts mounts]. apply lookup_insert_eq.
  - intros j Hj. cbn. by apply list_lookup_insert_ne.
Qed.

Lemma walk_agent i mp names : forall ino, keeps (agent_kept i mp) (walk_names i mp ino names).
Proof.
  induction names as [|n names IH]; intros ino; cbn [walk_names]; [kept_ret|].
  apply (keeps_bind (agent_kept i mp)); [by apply callback_agent|].
  intros [[]|]; try (kept_ret). apply IH.
Qed.

(** What is opened below a mountpoint is a file of its mount. *)
Lemma open_below_agent i mp names m :
  fst <$> list_find (fun p => is_Some (mounts p.2 !! mp)) (procs m) = Some i ->
  agent_kept i mp m (open_below mp names m).2
  /\ forall f m', open_below mp names m = (Ok (Ok f), m') -> exists ino, f = MountFile i mp ino.
Proof.
  intros Hf. unfold open_below. rewrite (bind_step _ _ m m m) by done.
  destruct (list_find _ (procs m)) as [[i' pr]|]; [|done]. injection Hf as ->. split.
  - apply (keeps_bind (agent_kept i mp)); [apply walk_agent|]. intros [ino|e]; [|kept_ret].
    apply (keeps_bind (agent_kept i mp)); [by apply callback_agent|]. intros [r|e]; kept_ret.
  - intros f m' H. apply bind_ok in H as ([ino|e] & m1 & _ & H); [|done].
    apply bind_ok in H as ([r|e] & m2 & _ & H); [|done]. exists ino. by unfold ok_, ret in H; simplify_eq.
Qed.

Lemma write_once_agent i mp ino o data : keeps (agent_kept i mp) (write_once (MountFile i mp ino) o data).
Proof.
  cbn [write_once]. apply (keeps_bind (agent_kept i mp)); [by apply callback_agent|].
  intros [[]|]; kept_ret.
Qed.
Lemma write_from_agent i mp ino n : forall o data, keeps (agent_kept i mp) (write_from n (MountFile i mp ino) o data).
Proof.
  induction n as [|n IH]; intros o [|a data]; cbn [write_from]; try (kept_ret).
  apply (keeps_bind (agent_kept i mp)); [apply write_once_agent|]. intros [z|e]; [|kept_ret].
  destruct (z <=? 0)%Z; [kept_ret|apply IH].
Qed.

Lemma map_error_agent i mp {T T' A} (g : T -> T') (c : Fallible T A) :
  keeps (agent_kept i mp) c -> keeps (agent_kept i mp) (map_error g c).
Proof. intros Hc. apply (keeps_bind (agent_kept i mp)); [done|]. intros [a|e]; kept_ret. Qed.

(** *** The walk to the control file *)

(** A lookup of a mount without control files. *)
Definition child_path (parent n : string) : string :=
  if bool_decide (parent = "/") then "/" +:+ n
  else match branch_ctx parent with
       | Some (branch, rel) => branch_inode branch (child_rel rel n)
       | None => parent +:+ "/" +:+ n
       end.

Record looked_up_at (p : string) (s : Mounted) (a : FileAttr) (s1 : Mounted) : Prop := {
  lu_store : s1.1 = s.1;
  lu_agent : agent s1;
  lu_cache : write_cache s1.2 = write_cache s.2;
  lu_numbers : numbers_ok s1.2;
  lu_next : (next_ino (inodes s.2) <= next_ino (inodes s1.2) <= next_ino (inodes s.2) + 1)%Z;
  lu_path : get_path (a_ino a) (inodes s1.2) = Some p;
  lu_known : forall k q, get_path k (inodes s1.2) = Some q ->
    get_path k (inodes s.2) = Some q \/ (next_ino (inodes s.2) <= k)%Z;
}.

Lemma lookup_resolved_inv p q a (s s1 : Mounted) :
  agent s -> numbers_ok s.2 -> (next_ino (inodes s.2) + 1 < FIRST_CTL_INO)%Z ->
  lookup_resolved p q s = (Ok (Now (REntry a)), s1) -> looked_up_at p s a s1.
Proof.
  intros [He Hc] Hn Hroom H. unfold lookup_resolved in H.
  rewrite (run_bind _ _ _ _ _ (is_dir_entry_eq q s)) in H. revert H.
  generalize (match h_tree s.1.1 !! q with Some n => is_dir n | None => false end). intros d H.
  rewrite (run_bind _ _ _ _ _ (new_inode_eq p d s)) in H. unfold reply_entry in H.
  rewrite (run_bind _ _ _ _ _ (make_attr_eq _ _ _)) in H. cbn [fst snd] in H.
  destruct (h_tree s.1.1 !! q) as [m|]; [|done]. cbn [fmap option_fmap option_map] in H. injection H as <- <-.
  destruct (new_number_ok p d s.2 Hn Hroom) as [Hn1 Hp].
  split; cbn [fst snd with_inodes inodes write_cache]; try done.
  - pose proof (ok_next _ (no_table _ Hn)). unfold get_or_create. destruct (path_to_ino (inodes s.2) !! p); cbn [snd next_ino]; [lia|].
    rewrite wrap_u64_small; unfold FIRST_CTL_INO, u64_max in *; lia.
  - intros k x. unfold get_or_create. destruct (path_to_ino (inodes s.2) !! p) as [i|]; [by left|]. cbn [snd].
    unfold get_path. cbn [ino_to_info]. destruct (decide (k = next_ino (inodes s.2))) as [->|Hk]; [by right|].
    rewrite lookup_insert_ne by done. by left.
Qed.

Lemma lookup_in_branch_inv b n a (s s1 : Mounted) :
  agent s -> numbers_ok s.2 -> (next_ino (inodes s.2) + 1 < FIRST_CTL_INO)%Z ->
  lookup_in_branch b "/" n s = (Ok (Now (REntry a)), s1) -> looked_up_at (branch_inode b ("/" +:+ n)) s a s1.
Proof.
  intros Ha Hn Hroom H. pose proof Ha as [He _]. unfold lookup_in_branch in H. rewrite (run_bind _ _ s s.2 s), He in H by done.
  cbn [andb] in H. destruct (starts_with "@" n); [done|].
  rewrite (run_bind _ _ s (is_branch_valid b s.1.2) s) in H by done. destruct (is_branch_valid b s.1.2); [|done].
  apply bind_ok in H as (o & s0 & H0 & H). apply resolve_for_branch_state in H0 as [-> _].
  destruct o as [q|]; [|done]. by apply lookup_resolved_inv in H.
Qed.
Lemma lookup_current_inv p a (s s1 : Mounted) :
  agent s -> numbers_ok s.2 -> (next_ino (inodes s.2) + 1 < FIRST_CTL_INO)%Z ->
  lookup_current p s = (Ok (Now (REntry a)), s1) -> looked_up_at p s a s1.
Proof.
  intros Ha Hn Hroom H. unfold lookup_current in H. rewrite (run_bind _ _ _ _ _ (is_stale_eq s)) in H.
  destruct (negb _); [done|]. apply bind_ok in H as (o & s0 & H0 & H). unfold resolve in H0.
  rewrite (run_bind _ _ (synced s) (branch_of_mount s.1.2 s.2) (synced s)) in H0 by done.
  apply resolve_for_branch_state in H0 as [-> _]. destruct o as [q|]; [|done].
  apply lookup_resolved_inv in H as [H1 H2 H3 H4 H5 H6 H7]; [by split|exact Ha|by apply numbers_synced|exact Hroom].
Qed.

Lemma agent_at_lookup b a (s s1 : Mounted) :
  agent s -> numbers_ok s.2 -> (next_ino (inodes s.2) + 1 < FIRST_CTL_INO)%Z ->
  get_path ROOT_INO (inodes s.2) = Some "/" ->
  fuse_lookup ROOT_INO ("@" +:+ b) s = (Ok (Now (REntry a)), s1) -> looked_up_at ("/@" +:+ b) s a s1.
Proof.
  intros Ha Hn Hroom Hr H. pose proof Ha as [He _]. unfold fuse_lookup in H.
  rewrite (run_bind _ _ s (Some "/") s) in H by (unfold inode_path, gets; by rewrite Hr). cbv beta iota in H.
  rewrite bool_decide_true in H by done. unfold lookup_in_root in H. rewrite (run_bind _ _ s s.2 s), He in H by done.
  cbn [andb] in H. by apply lookup_current_inv in H.
Qed.

(** The path of the file found there: that of a control file. *)
Definition control_path (b : string) : string := "/@" +:+ b +:+ "/" +:+ CTL_FILE.
Lemma agent_control_lookup b i a (s s1 : Mounted) :
  agent s -> numbers_ok s.2 -> (next_ino (inodes s.2) + 1 < FIRST_CTL_INO)%Z -> contains_char slash b = false ->
  get_path i (inodes s.2) = Some ("/@" +:+ b) ->
  fuse_lookup i CTL_FILE s = (Ok (Now (REntry a)), s1) -> looked_up_at (control_path b) s a s1.
Proof.
  intros Ha Hn Hroom Hb Hi H. unfold fuse_lookup in H.
  rewrite (run_bind _ _ s (Some ("/@" +:+ b)) s) in H by (unfold inode_path, gets; by rewrite Hi). cbv beta iota in H.
  rewrite bool_decide_false in H by done. unfold branch_ctx in H. rewrite classify_branch_dir in H by done.
  by apply lookup_in_branch_inv in H.
Qed.

Lemma classify_control b : contains_char slash b = false -> classify_path (control_path b) = BranchCtl b.
Proof.
  intros Hb. unfold classify_path, control_path. rewrite bool_decide_false by done.
  assert (strip_prefix "/@" ("/@" +:+ b +:+ "/" +:+ CTL_FILE) = Some (b +:+ "/" +:+ CTL_FILE)) as ->
    by by apply strip_prefix_Some.
  change ("/" +:+ CTL_FILE) with (String slash CTL_FILE). rewrite cut_at_app by done.
  by rewrite bool_decide_true.
Qed.

(** A write to it is refused. *)
Lemma agent_control_write b j data fl (s : Mounted) :
  agent s -> numbers_ok s.2 -> contains_char slash b = false -> get_path j (inodes s.2) = Some (control_path b) ->
  cache_get j (epoch s.1.2) (write_cache s.2) = None ->
  exists e s', fuse_write j 0 data fl s = (Ok (Now (RError e)), s') /\ s'.1 = s.1.
Proof.
  intros [He _] Hn Hb Hj Hcache. unfold fuse_write.
  set (f1 := with_caches (invalidate_ino j (open_cache s.2)) (write_cache s.2) s.2). set (s1 := (s.1, f1) : Mounted).
  rewrite (run_bind _ _ s tt s1), (run_bind _ _ s1 f1 s1) by done.
  rewrite bool_decide_false by by eapply table_not_ctl.
  rewrite (run_bind _ _ _ _ _ (branch_for_ctl_eq j s1)). change (branch_ctl_inodes s1.2) with (branch_ctl_inodes s.2).
  rewrite (table_not_branch_ctl _ Hn _ _ Hj), (run_bind _ _ _ _ _ (is_stale_eq s1)).
  destruct (negb _); [by eexists _, _|]. cbv beta iota.
  change (0 <? 0)%Z with false. cbv iota.
  rewrite (run_bind _ _ (synced s1) (synced s1).2 (synced s1)) by done.
  change (cache_get j (current_epoch (synced s1).2) (write_cache (synced s1).2))
    with (cache_get j (epoch s.1.2) (write_cache s.2)). rewrite Hcache. unfold write_slow.
  rewrite (run_bind _ _ (synced s1) (Some (control_path b)) (synced s1)) by by (unfold inode_path, gets; rewrite <- Hj).
  cbv beta iota. rewrite classify_control by done. by eexists _, _.
Qed.
Lemma agent_control_open b j fl (s : Mounted) :
  numbers_ok s.2 -> contains_char slash b = false -> get_path j (inodes s.2) = Some (control_path b) ->
  fuse_open j fl s = (Ok (Now ROpened), s).
Proof.
  intros Hn Hb Hj. unfold fuse_open. rewrite (run_bind _ _ _ _ _ (branch_for_ctl_eq j s)), (table_not_branch_ctl _ Hn _ _ Hj).
  destruct (_ || _); [done|]. rewrite (run_bind _ _ s (Some (control_path b)) s) by by (unfold inode_path, gets; rewrite Hj).
  cbv beta iota. by rewrite classify_control.
Qed.

(** What the client does once it knows the branch of the mount. *)
Definition at_control (operation : string) (said : Printed) (mp : path) (b : string) : Fallible Complaint Printed :=
  if bool_decide (b = "main") then err (CMain operation)
  else
    let! file := map_error COpenBranchControl (open_below mp ["@" +:+ b; CTL_FILE]) in
    let! _ := map_error (CWrite operation) (write_all file (bytes_of operation)) in
    ok_ said.
Lemma finish_main c cmd op said m i mp st w d b :
  finishes mp st c cmd op said -> listening m st i w d -> canonicalize mp (m_host m) = (Ok mp, m_host m) ->
  path_ok mp -> get_mount_branch mp w = Some b ->
  main c m = (let* r := say (at_control cmd said mp b) in ret (exit_of r)) m.
Proof.
  intros Hc Hl Hdir Hp Hb. assert (exists said', said = said' mp
    /\ main c m = (let* r := say (cmd_finish cmd said' mp st) in ret (exit_of r)) m) as (said' & -> & ->)
    by by destruct Hc; eexists.
  unfold say, cmd_finish. rewrite !bind_assoc. rewrite (bind_step _ _ _ _ _ (io_eq _ _ _ _ Hdir)), with_host_same.
  cbv beta iota. rewrite !bind_assoc.
  rewrite (bind_step _ _ _ _ _ (io_eq _ _ _ _ (li_dir _ _ _ _ _ Hl))), with_host_same. cbv beta iota.
  rewrite !bind_assoc. by rewrite (bind_step _ _ m (Ok b) m) by by eapply mount_branch_of_eq.
Qed.

Lemma at_control_agent i mp cmd said b m :
  fst <$> list_find (fun p => is_Some (mounts p.2 !! mp)) (procs m) = Some i ->
  agent_kept i mp m ((let* r := say (at_control cmd said mp b) in ret (exit_of r)) m).2.
Proof.
  intros Hfind. unfold say, at_control. case_bool_decide; [reflexivity|]. rewrite !bind_assoc. unfold map_error at 1.
  rewrite !bind_assoc. destruct (open_below_agent i mp ["@" +:+ b; CTL_FILE] m Hfind) as [Hk Hfile].
  unfold bind at 1. destruct (open_below mp ["@" +:+ b; CTL_FILE] m) as [[[f|e]|x] m1]; cbn [snd] in Hk; [|exact Hk..].
  destruct (Hfile f m1 eq_refl) as [ino ->]. etransitivity; [exact Hk|].
  unfold ret at 1. unfold bind at 1. cbv beta iota. rewrite !bind_assoc.
  apply (keeps_bind (agent_kept i mp)); [apply map_error_agent, write_from_agent|].
  intros [[]|e]; kept_ret.
Qed.

(** The mount's tables hold no write handle for the control file's path. *)
Definition control_unwritten (b : string) (s : Mounted) : Prop :=
  forall j file, cache_get j (epoch s.1.2) (write_cache s.2) = Some file ->
    (j < next_ino (inodes s.2))%Z /\ get_path j (inodes s.2) <> Some (control_path b).

Lemma callback_run m i mp s o r s' :
  at_mount m i mp s -> answered o s = (r, s') ->
  exists m', callback i mp o m = (match r with Ok r => Ok (reply_result r) | Err x => Err x end, m') /\ at_mount m' i mp s'.
Proof.
  intros Hat Ho. destruct r as [r|x].
  { destruct (callback_at m i mp s o r s' Hat Ho) as (m' & H & H' & _). by exists m'. }
  destruct Hat as (d & info & Hp & Hm & Hf & Hh). destruct s as [[h w] f], s' as [[h' w'] f']. cbn [fst snd] in *.
  set (d' := with_daemon_mounts (<[mp := {| session := session info; served_fs := f' |}]> (mounts d)) d).
  exists (put_process i (h', w', d') m). split.
  - unfold callback, on_session, bind. rewrite Hp. unfold on_mount. cbn [fst snd]. by rewrite Hm, Hf, Hh, Ho.
  - exists d', {| session := session info; served_fs := f' |}. cbn [put_process with_procs with_host procs m_host fst snd].
    split; [apply list_lookup_insert_eq; by eapply lookup_lt_Some|]. split; [|done].
    unfold d'. cbn [with_daemon_mounts mounts]. apply lookup_insert_eq.
Qed.

(** A lookup, seen from the client. *)
Lemma callback_lookup m i mp s ino n :
  at_mount m i mp s ->
  exists r m' s', callback i mp (OpLookup ino n) m = (r, m') /\ at_mount m' i mp s' /\ looking s s'
    /\ forall a, r = Ok (Ok (REntry a)) -> fuse_lookup ino n s = (Ok (Now (REntry a)), s').
Proof.
  intros Hat. destruct (answered (OpLookup ino n) s) as [r s'] eqn:Ho.
  destruct (callback_run m i mp s _ r s' Hat Ho) as (m' & H1 & H2). eexists _, m', s'. split; [exact H1|]. split; [done|].
  pose proof (lookup_looking ino n s) as Hl. unfold answered in Ho. cbn [handle] in Ho. unfold bind in Ho.
  destruct (fuse_lookup ino n s) as [[[r1|j]|x] s1] eqn:Hf; cbn [snd] in Hl.
  - unfold ret in Ho. injection Ho as <- <-. split; [done|]. intros a Ha. by destruct r1; simplify_eq/=.
  - by apply lookup_at_once in Hf.
  - injection Ho as <- <-. by split.
Qed.

Lemma at_control_looks i mp cmd said b m s :
  fst <$> list_find (fun p => is_Some (mounts p.2 !! mp)) (procs m) = Some i -> at_mount m i mp s -> agent s ->
  get_path ROOT_INO (inodes s.2) = Some "/" -> numbers_ok s.2 -> (next_ino (inodes s.2) + 2 < FIRST_CTL_INO)%Z ->
  contains_char slash b = false -> cmd <> "" -> control_unwritten b s ->
  exists s', at_mount ((let* r := say (at_control cmd said mp b) in ret (exit_of r)) m).2 i mp s' /\ looking s s'.
Proof.
  intros Hfind Hat Ha Hr Hn Hroom Hb Hcmd Hcache. unfold say, at_control. case_bool_decide; [by exists s|].
  unfold open_below. destruct (list_find _ (procs m)) as [[i' pr]|] eqn:Hlf; [|done]. injection Hfind as ->.
  destruct (callback_lookup m i mp s ROOT_INO ("@" +:+ b) Hat) as (r1 & m1 & s1 & C1 & A1 & L1 & F1).
  unfold map_error, bind, gets, id. rewrite Hlf. cbn [walk_names]. unfold bind. rewrite C1.
  destruct r1 as [[[]|]|]; try by exists s1.
  specialize (F1 _ eq_refl). apply agent_at_lookup in F1; [|done..|lia|done].
  destruct F1 as [E1 Ha1 Hc1 Hn1 Hx1 Hp1 Hk1].
  destruct (callback_lookup m1 i mp s1 (a_ino a) CTL_FILE A1) as (r2 & m2 & s2 & C2 & A2 & L2 & F2). rewrite C2.
  assert (looking s s2) as L by by etransitivity.
  destruct r2 as [[[]|]|]; try by exists s2.
  specialize (F2 _ eq_refl). apply (agent_control_lookup b) in F2; [|done..|lia|done|done].
  destruct F2 as [E2 Ha2 Hc2 Hn2 Hx2 Hp2 Hk2]. unfold ok_, ret.
  destruct (callback_at m2 i mp s2 (OpOpen (a_ino a0) O_WRONLY) ROpened s2 A2) as (m3 & C3 & A3 & _).
  { apply answered_now. cbn [handle]. by apply (agent_control_open b). }
  rewrite C3. cbn [reply_result]. unfold write_all. destruct (bytes_of cmd) as [|c0 data] eqn:Hdata.
  { destruct Hcmd. rewrite <- (string_of_bytes_of cmd), Hdata. done. }
  cbn [length write_from write_once]. unfold bind.
  destruct (agent_control_write b (a_ino a0) (c0 :: data) O_WRONLY s2) as (e & s4 & H4 & E4); [done..| |].
  { rewrite E2, E1, Hc2, Hc1. destruct (cache_get _ _ _) as [file|] eqn:Hg; [|done].
    apply Hcache in Hg as [Hlt Hne]. destruct (Hk2 _ _ Hp2) as [Hq|Hq]; [|lia].
    destruct (Hk1 _ _ Hq) as [Hq'|Hq']; [done|lia]. }
  destruct (callback_at m3 i mp s2 (OpWrite (a_ino a0) 0 (c0 :: data) O_WRONLY) (RError e) s4 A3) as (m4 & C4 & A4 & _).
  { by apply answered_now. }
  rewrite C4. cbn [reply_result]. exists s4. split; [exact A4|]. etransitivity; [exact L|]. by apply same_looking.
Qed.

(** C21: an agent cannot finish its own branch with the client either.  At a mount
    without control files [branchfs commit] and [branchfs abort] - whatever names
    the walk to the control file finds in the branch, and however the command
    ends - keep every branch, frozen or not as it was, with its parent, its mode
    and its hide rules, the mount on its branch and every other mount and process.
    Nor does any file change on the host, in this branch or another: where the
    agent has made an entry "@" and the name of the branch, to be walked into in
    place of the control directory, what is found below is still a control file's
    path, and the write to it is refused ([trap_is_refused]). *)
Theorem client_leaves_agents_branch c cmd op said m i mp st w d s b :
  finishes mp st c cmd op said -> listening m st i w d -> s.1 = (m_host m, w) -> at_mount m i mp s -> agent s ->
  fst <$> list_find (fun p => is_Some (mounts p.2 !! mp)) (procs m) = Some i ->
  canonicalize mp (m_host m) = (Ok mp, m_host m) -> path_ok mp -> get_mount_branch mp w = Some b ->
  let m' := (main c m).2 in
  exists s', at_mount m' i mp s' /\ agent s' /\ quiet_world w s'.1.2
    /\ (forall n, is_branch_valid n s'.1.2 = is_branch_valid n w /\ is_branch_writable n s'.1.2 = is_branch_writable n w)
    /\ (forall mp', get_mount_branch mp' s'.1.2 = get_mount_branch mp' w)
    /\ (forall j, j <> i -> procs m' !! j = procs m !! j)
    /\ (get_path ROOT_INO (inodes s.2) = Some "/" -> numbers_ok s.2 -> (next_ino (inodes s.2) + 2 < FIRST_CTL_INO)%Z ->
        contains_char slash b = false -> control_unwritten b s ->
        m_host m' = m_host m /\ exists o, s'.1.2 = with_opened o w).
Proof.
  intros Hc Hl Hs Hat Ha Hfind Hdir Hp Hb m'. subst m'. rewrite (finish_main c cmd op said m i mp st w d b) by done.
  set (m' := ((let* r := say (at_control cmd said mp b) in ret (exit_of r)) m).2).
  destruct (at_control_agent i mp cmd said b m Hfind s Hat Ha) as (s' & Hat' & (Hq & _ & Ha') & Hbut).
  fold m' in Hat', Hbut. rewrite Hs in Hq. cbn [snd] in Hq.
  exists s'. split; [done|]. split; [done|]. split; [done|]. split; [|split; [|split; [exact Hbut|]]].
  - intros n. split; [by apply quiet_valid|by apply quiet_writable].
  - intros mp'. unfold get_mount_branch. by rewrite (qw_mounts _ _ Hq).
  - intros Hr Hn Hroom Hsl Hcache.
    destruct (at_control_looks i mp cmd said b m s) as (s2 & (d2 & i2 & H1 & _ & _ & H2) & [Hh [o Ho]]); try done.
    { by destruct Hc. }
    fold m' in H1, H2. destruct Hat' as (d' & info' & Hp' & _ & _ & _). rewrite Hp' in H1. injection H1 as H1 _.
    rewrite Hs in *. cbn [fst snd] in *. split; [congruence|]. exists o. congruence.
Qed.
End Agent.

(** ** Example *)

#[local] Existing Instances example_env example_serde example_kernel example_sessions example_json example_wire example_os.

Lemma fresh_unwritten b m agent : control_unwritten b (fresh_mount m agent).
Proof.
  intros j file. unfold fresh_mount, fs_new, cache_get. cbn [snd write_cache]. by destruct (_ && _).
Qed.

Lemma client_leaves_agents_branch_witness :
  exists s', at_mount (main (CmdCommit ["mnt"] ["store"]) (with_mount true)).2 0 ["mnt"] s'
    /\ is_branch_valid "fix" s'.1.2 = is_branch_valid "fix" (first_process (with_mount true)).1
    /\ m_host (main (CmdCommit ["mnt"] ["store"]) (with_mount true)).2 = m_host (with_mount true).
Proof.
  pose proof (mounted_facts _ (with_mount_test true)) as Hm. pose proof (with_mount_serves true) as Hs.
  destruct (client_leaves_agents_branch _ _ _ _ _ 0 ["mnt"] ["store"] _ _ (fresh_mount _ true) "fix"
    (finishes_commit ["mnt"] ["store"]) (im_listens _ Hm) eq_refl (mounted_at _ _ Hm Hs) (mounted_agent _)
    (mounted_find _ _ Hm Hs) (im_dir _ Hm)) as (s' & H1 & _ & _ & H2 & _ & _ & H3).
  - by repeat constructor.
  - apply (im_branch _ Hm).
  - exists s'. split; [exact H1|]. split; [apply (H2 "fix")|].
    apply H3; [reflexivity|apply fresh_numbers|reflexivity|reflexivity|apply fresh_unwritten].
Defined.

(** The agent makes the directory "@fix" and in it a file named like a control
    file: the client's commit is refused, and the file stays empty. *)
Definition agent_trap : Machine :=
  let m := (callback 0 ["mnt"] (OpMkdir ROOT_INO "@fix" 493 0) (with_mount true)).2 in
  ((let! i := walk_names 0 ["mnt"] ROOT_INO ["@fix"] in callback 0 ["mnt"] (OpCreate i CTL_FILE 420 0)) m).2.
Definition trapped : res exn Exit * Machine := main (CmdCommit ["mnt"] ["store"]) agent_trap.
Definition trap_file (m : Machine) : option kind :=
  look (h_tree (m_host m)) ["store"; "branches"; "fix"; "files"; CTL_FILE].

Definition write_refused (r : res exn Exit) : bool :=
  match r with
  | Ok {| code := c; complaint := Some (CWrite op e) |} =>
      (c =? 1)%Z && String.eqb op "commit" && bool_decide (e = EPERM)
  | _ => false
  end.

Example trap_is_refused :
  write_refused trapped.1 = true
  /\ trap_file agent_trap = Some (KFile []) /\ trap_file trapped.2 = Some (KFile []).
Proof. split_and!; vm_compute; reflexivity. Qed.
