(* ===== verification/UnitTests.v ===== *)
(** * The unit tests of branch.rs and fs.rs

    The tests of the sources, translated like the rest of the program - an
    assertion or an [unwrap] that fails panics - and run on the model: each ends
    without a panic.  These are regression runs of the translation, on fixed inputs;
    they prove no property of the code in general.  A test is a program of its own:
    it makes a directory, starts managers in it, and removes it when it is left.
    Not among them are the test of the worker thread in fs.rs (the queue is a step
    of the model, see Fuse.v) and, of the test with two threads, anything but its
    two orders.  The host of the model keeps modes and does not enforce them, so the
    tests with directories of mode 000 pass with or without the guards of
    branch.rs, and say nothing about them. *)

From S2P Require Import Prelude Strs Inode HostFs Handles Quota TextMerge Staged Branch Codec View Manager Commit.
From S2P Require Import Platform Mount Ctl Fuse.

Open Scope bool_scope.

(** ** The vocabulary of a test *)

Definition assert {S} (b : bool) : M S unit := if b then ret tt else raise Panic.
Definition expect {S A} (o : option A) : M S A := match o with Some a => ret a | None => raise Panic end.
Definition unwrap {S A} (c : M S A) : M S A :=
  let* r := attempt c in match r with Ok a => ret a | Err _ => raise Panic end.

(** [assert!] of a call, of a failing call, and [assert_eq!]. *)
Definition holds {S} (c : M S bool) : M S unit := let* b := c in assert b.
Definition fails_ {S A} (c : M S A) : M S unit := let* r := attempt c in assert (negb (is_ok r)).
Definition equal {A} `{EqDecision A} {S} (a b : A) : M S unit := assert (bool_decide (a = b)).

(** What is dropped at the end of a scope, also when it is left by a panic. *)
Definition finally {S A} (c : M S A) (drop : M S unit) : M S A :=
  fun s => let '(r, s1) := c s in (r, (drop s1).2).

Fixpoint contains_str (p s : string) : bool :=
  starts_with p s || match s with EmptyString => false | String _ t => contains_str p t end.
(** A text given by its lines. *)
Definition lines (l : list string) : string := foldr (fun a s => a +:+ nl +:+ s) "" l.

Section UnitTests.
Context {E : Env} {J : Serde}.
(** serde_json's text of a map of touch records. *)
Context (snapshot_text : list TouchRecord -> bytes).

(** ** Fixtures *)

Definition tmp_dir_new : IO path :=
  let* u := fresh_uuid in
  let p := ["tmp"; "branchfs-test-" +:+ u] in
  do* unwrap (create_dir_all p); ret p.
Definition tmp_dir_drop (tmp : path) : IO unit := let* _ := attempt (remove_dir_all_call tmp) in ret tt.
Definition in_tmp (body : path -> IO unit) : IO unit :=
  let* tmp := tmp_dir_new in finally (body tmp) (tmp_dir_drop tmp).

Definition test_write (p : path) (data : string) : IO unit :=
  do* unwrap (create_dir_all (parent p));
  unwrap (write p (bytes_of data)).

Definition make_mode_000_dir (p : path) : IO (list path) :=
  do* unwrap (create_dir_all p);
  do* unwrap (set_permissions p 0);
  ret [p].
Definition mode_reset_drop (l : list path) : IO unit :=
  for_each (rev l) (fun p =>
    let* e := exists_ p in
    when e (let* _ := attempt (set_permissions p owner_rwx) in ret tt)).

(** [BranchManager::new] in the directories of a test, and the life of one. *)
Definition manager_at (tmp : path) : IO World :=
  unwrap (start (join tmp "storage") (join tmp "base") (join tmp "work") None).
Definition manager (tmp : path) : IO World :=
  do* unwrap (create_dir_all (join tmp "base"));
  do* unwrap (create_dir_all (join tmp "work"));
  manager_at tmp.
Definition live {A} (mgr : IO World) (c : MIO A) : IO A :=
  let* w := mgr in fun h => let '(r, (h1, _)) := c (h, w) in (r, h1).
Definition with_manager (tmp : path) (c : MIO unit) : IO unit := live (manager tmp) c.

Definition write_delta (branch rel : string) (data : string) : MIO unit :=
  let* delta := unwrap (ensure_delta_path_for_write branch rel) in
  on_host (test_write delta data).
Definition mkdir_delta (branch rel : string) : MIO unit :=
  let* delta := unwrap (ensure_delta_path_for_write branch rel) in
  on_host (unwrap (create_dir_all delta)).

(** Calls the tests make over and over. *)
Definition lazy_branch (n parent : string) : MIO unit := unwrap (create_branch_with_mode n parent Lazy).
Definition host_write (p : path) (data : string) : MIO unit := on_host (test_write p data).
Definition on_disk {X} (p : path) : M (host * X) bool := on_host (exists_ p).
Definition not_on_disk {X} (p : path) : M (host * X) bool := let* b := on_disk p in ret (negb b).
Definition reads {X} (p : path) (data : string) : M (host * X) unit :=
  let* d := on_host (unwrap (read p)) in equal d (bytes_of data).
Definition visible (n rel : string) : MIO bool :=
  let* r := unwrap (resolve_path n rel) in ret (bool_decide (is_Some r)).
Definition hidden (n rel : string) : MIO bool := let* b := visible n rel in ret (negb b).
Definition shown_file (n rel : string) : MIO path := let* r := unwrap (resolve_path n rel) in expect r.
Definition shows (n rel data : string) : MIO unit := let* p := shown_file n rel in reads p data.
Definition names_at (n rel : string) : MIO (gset string) := unwrap (collect_dir_names n rel).
Definition status_of (n : string) : MIO BranchStatus := unwrap (branch_status n).
Definition no_diff (n : string) : MIO unit :=
  let* s := status_of n in equal (length (diff s)) 0.
Definition diff_has (f : DiffEntry -> bool) (s : BranchStatus) : bool := existsb f (diff s).
Definition is_entry (o p : string) (e : DiffEntry) : bool := bool_decide (op e = o) && bool_decide (d_path e = p).
Definition with_branch {A} (n : string) (c : Branch -> BIO A) : MIO A :=
  unwrap (on_branch n (let* b := gets snd in c b)).
Definition branch_named (n : string) : MIO Branch := let* w := gets snd in expect (branches w !! n).

(** ** Deletions and directories *)

Definition deleting_child_directory_keeps_explicit_empty_delta_parents : IO unit :=
  in_tmp (fun tmp => with_manager tmp (
    do* lazy_branch "work" "main";
    do* mkdir_delta "work" "/fake-nfs";
    do* mkdir_delta "work" "/fake-nfs/nfs-session";
    do* mkdir_delta "work" "/fake-nfs/nfs-session/.ccc-storage";
    do* unwrap (delete_path_in_branch "work" "/fake-nfs/nfs-session/.ccc-storage");
    do* holds (on_host (is_dir_path (join tmp "storage/branches/work/files/fake-nfs/nfs-session")));
    holds (visible "work" "/fake-nfs/nfs-session"))).

Definition deleting_file_still_prunes_untouched_structural_delta_parents : IO unit :=
  in_tmp (fun tmp => with_manager tmp (
    do* lazy_branch "work" "main";
    do* write_delta "work" "/structural/only/file.txt" "payload";
    do* unwrap (delete_path_in_branch "work" "/structural/only/file.txt");
    holds (not_on_disk (join tmp "storage/branches/work/files/structural")))).

Definition rmdir_refuses_non_empty_inherited_directory_without_hiding_it : IO unit :=
  in_tmp (fun tmp => with_manager tmp (
    do* host_write (join tmp "base/.scratch/fake-nfs/nfs-session/.ccc-storage/events/log") (lines ["event"]);
    do* lazy_branch "work" "main";
    do* fails_ (rmdir_path_in_branch "work" "/.scratch/fake-nfs");
    do* holds (visible "work" "/.scratch/fake-nfs");
    let* names := names_at "work" "/.scratch/fake-nfs" in
    assert (bool_decide ("nfs-session" ∈ names)))).

Definition rmdir_removes_empty_inherited_directory_after_children_are_deleted : IO unit :=
  in_tmp (fun tmp => with_manager tmp (
    do* on_host (unwrap (create_dir_all (join tmp "base/.scratch/fake-nfs/nfs-session")));
    do* lazy_branch "work" "main";
    do* unwrap (rmdir_path_in_branch "work" "/.scratch/fake-nfs/nfs-session");
    holds (hidden "work" "/.scratch/fake-nfs/nfs-session"))).

Definition rmdir_removes_inherited_directory_after_all_children_are_tombstoned : IO unit :=
  in_tmp (fun tmp => with_manager tmp (
    do* host_write (join tmp "base/subdir/nested.txt") (lines ["nested"]);
    do* lazy_branch "work" "main";
    do* unwrap (delete_path_in_branch "work" "/subdir/nested.txt");
    let* names := names_at "work" "/subdir" in
    do* assert (bool_decide (names = ∅));
    do* unwrap (rmdir_path_in_branch "work" "/subdir");
    holds (hidden "work" "/subdir"))).

(** ** Legacy snapshots *)

Definition untouched_before (rel : string) : TouchRecord :=
  {| t_path := rel; base_at_first_touch := identity_missing; base_content_key := None |}.
Definition branches_dir (tmp : path) : path := join tmp "storage/branches/work".
Definition text_of (p : path) : IO string := unwrap (read_to_string p).
Definition touched (n rel : string) : MIO bool :=
  let* b := branch_named n in ret (bool_decide (is_Some (get_touch_record b rel))).
Definition deleted (n rel : string) : MIO bool := let* b := branch_named n in ret (is_deleted b rel).
Definition negated {S} (c : M S bool) : M S bool := let* b := c in ret (negb b).

Definition legacy_touch_and_tombstone_snapshots_migrate_to_incremental_logs_on_load : IO unit :=
  in_tmp (fun tmp =>
    do* with_manager tmp (lazy_branch "work" "main");
    let d := branches_dir tmp in
    do* unwrap (write (touches_file d) (snapshot_text [untouched_before "/legacy-touch"]));
    do* unwrap (write (tombstones_file d) (bytes_of (lines ["/legacy-delete"; "/removed-before-migration"])));
    do* unwrap (write (tombstones_log_file d) (bytes_of (lines ["- /removed-before-migration"; "+ /already-logged"])));
    let* _ := attempt (remove_file_call (touches_log_file d)) in
    live (manager_at tmp) (
      do* holds (touched "work" "/legacy-touch");
      do* holds (deleted "work" "/legacy-delete");
      do* holds (negated (deleted "work" "/removed-before-migration"));
      do* holds (deleted "work" "/already-logged");
      let* touch_log_text := on_host (text_of (touches_log_file d)) in
      do* assert (contains_str "/legacy-touch" touch_log_text);
      let* tombstone_log_text := on_host (text_of (tombstones_log_file d)) in
      do* assert (starts_with (lines ["+ /legacy-delete"; "+ /removed-before-migration"]) tombstone_log_text);
      do* assert (contains_str "- /removed-before-migration" tombstone_log_text);
      let* tombs := on_host (text_of (tombstones_file d)) in
      do* equal tombs "";
      let* touches := on_host (text_of (touches_file d)) in
      equal touches (lines ["{}"]))).

Definition first_touch_appends_incrementally_after_migrating_legacy_snapshot : IO unit :=
  in_tmp (fun tmp =>
    do* with_manager tmp (lazy_branch "work" "main");
    let d := branches_dir tmp in
    do* unwrap (write (touches_file d) (snapshot_text [untouched_before "/already-touched"]));
    do* unwrap (create_dir_all (join tmp "base/empty-old-scratch/.ccc-storage"));
    do* live (manager_at tmp) (
      do* unwrap (delete_path_in_branch "work" "/empty-old-scratch");
      let* touches := on_host (text_of (touches_file d)) in
      do* equal touches (lines ["{}"]);
      let* log := on_host (text_of (touches_log_file d)) in
      do* assert (contains_str "/already-touched" log);
      assert (contains_str "/empty-old-scratch" log));
    live (manager_at tmp) (
      do* holds (touched "work" "/already-touched");
      holds (touched "work" "/empty-old-scratch"))).

Definition tombstone_removal_appends_incrementally_after_migrating_legacy_snapshot : IO unit :=
  in_tmp (fun tmp =>
    do* with_manager tmp (lazy_branch "work" "main");
    let d := branches_dir tmp in
    do* unwrap (write (tombstones_file d) (bytes_of (lines ["/old-empty-scratch"; "/old-empty-scratch/.ccc-storage"])));
    do* live (manager_at tmp) (
      do* unwrap (delete_path_in_branch "work" "/old-empty-scratch");
      let* tombs := on_host (text_of (tombstones_file d)) in
      do* equal tombs "";
      let* log := on_host (text_of (tombstones_log_file d)) in
      do* assert (contains_str (lines ["+ /old-empty-scratch"]) log);
      assert (contains_str "- /old-empty-scratch" log));
    live (manager_at tmp) (
      do* holds (negated (deleted "work" "/old-empty-scratch"));
      holds (deleted "work" "/old-empty-scratch/.ccc-storage"))).

(** ** First touches and writes *)

Definition touch_key (n rel : string) : MIO (option string) :=
  let* b := branch_named n in
  let* r := expect (get_touch_record b rel) in ret (base_content_key r).

Definition delete_first_touch_does_not_copy_inherited_text_content : IO unit :=
  in_tmp (fun tmp => with_manager tmp (
    do* host_write (join tmp "base/file.txt") (lines ["base text"]);
    do* lazy_branch "work" "main";
    do* unwrap (delete_path_in_branch "work" "/file.txt");
    let* k := touch_key "work" "/file.txt" in
    equal k None)).

Definition write_first_touch_keeps_inherited_text_content_for_merge : IO unit :=
  in_tmp (fun tmp => with_manager tmp (
    do* host_write (join tmp "base/file.txt") (lines ["base text"]);
    do* lazy_branch "work" "main";
    do* write_delta "work" "/file.txt" (lines ["changed"]);
    let* k := touch_key "work" "/file.txt" in
    assert (bool_decide (is_Some k)))).

Definition cow_write_to_inherited_file_preserves_unwritten_ranges : IO unit :=
  in_tmp (fun tmp => with_manager tmp (
    do* host_write (join tmp "base/file.txt") "0123456789";
    do* lazy_branch "work" "main";
    let* written := unwrap (write_data_to_branch "work" "/file.txt" 3 (bytes_of "ABC")) in
    do* equal written 3%Z;
    reads (join tmp "storage/branches/work/files/file.txt") "012ABC6789")).

(** The two threads, in the order they get the lock of the path. *)
Definition concurrent_cow_writes_to_same_inherited_file_preserve_both_writes (first_wins : bool) : IO unit :=
  in_tmp (fun tmp => with_manager tmp (
    do* host_write (join tmp "base/file.txt") "0123456789";
    do* lazy_branch "work" "main";
    let t1 := unwrap (write_data_to_branch "work" "/file.txt" 0 (bytes_of "AA")) in
    let t2 := unwrap (write_data_to_branch "work" "/file.txt" 8 (bytes_of "BB")) in
    let* n := (if first_wins then t1 else t2) in
    let* k := (if first_wins then t2 else t1) in
    do* equal n 2%Z;
    do* equal k 2%Z;
    reads (join tmp "storage/branches/work/files/file.txt") "AA234567BB")).

(** ** Sibling branches *)

(** Two children of main. *)
Definition siblings : MIO unit := do* lazy_branch "a" "main"; lazy_branch "b" "main".
Definition report (n : string) : MIO CommitOutcome := unwrap (commit_with_report n).
Definition clean (o : CommitOutcome) : MIO unit :=
  do* equal (length (conflicts o)) 0; equal (length (auto_merges o)) 0.

Definition sibling_disjoint_commits_do_not_conflict_after_parent_version_changes : IO unit :=
  in_tmp (fun tmp => with_manager tmp (
    do* siblings;
    do* write_delta "a" "/a.txt" (lines ["a"]);
    do* write_delta "b" "/b.txt" (lines ["b"]);
    let* b_outcome := report "b" in
    do* clean b_outcome;
    let* a_outcome := report "a" in
    do* clean a_outcome;
    do* reads (join tmp "base/a.txt") (lines ["a"]);
    reads (join tmp "base/b.txt") (lines ["b"]))).

Definition sibling_same_text_file_non_overlapping_edits_auto_merge_cleanly : IO unit :=
  in_tmp (fun tmp => with_manager tmp (
    do* host_write (join tmp "base/file.txt") (lines ["line1"; "base-a"; "line3"; "base-b"; "line5"]);
    do* siblings;
    do* write_delta "a" "/file.txt" (lines ["line1"; "A-a"; "line3"; "base-b"; "line5"]);
    do* write_delta "b" "/file.txt" (lines ["line1"; "base-a"; "line3"; "B-b"; "line5"]);
    let* _ := report "b" in
    let* a_outcome := report "a" in
    do* equal (length (conflicts a_outcome)) 0;
    do* equal (length (auto_merges a_outcome)) 1;
    let* m := expect (auto_merges a_outcome !! 0) in
    do* equal (am_path m) "/file.txt";
    reads (join tmp "base/file.txt") (lines ["line1"; "A-a"; "line3"; "B-b"; "line5"]))).

Definition sibling_same_text_file_overlapping_edits_report_conflict_but_latest_wins : IO unit :=
  in_tmp (fun tmp => with_manager tmp (
    do* host_write (join tmp "base/file.txt") (lines ["one"; "base"; "three"]);
    do* siblings;
    do* write_delta "a" "/file.txt" (lines ["one"; "A"; "three"]);
    do* write_delta "b" "/file.txt" (lines ["one"; "B"; "three"]);
    let* _ := report "b" in
    let* a_outcome := report "a" in
    do* equal (length (conflicts a_outcome)) 1;
    let* c := expect (conflicts a_outcome !! 0) in
    do* equal (cf_path c) "/file.txt";
    do* equal (cf_resolution c) "session_won";
    reads (join tmp "base/file.txt") (lines ["one"; "A"; "three"]))).

Definition sibling_delete_vs_modify_reports_conflict_but_latest_delete_wins : IO unit :=
  in_tmp (fun tmp => with_manager tmp (
    do* host_write (join tmp "base/file.txt") (lines ["base"]);
    do* siblings;
    do* unwrap (delete_path_in_branch "a" "/file.txt");
    do* write_delta "b" "/file.txt" (lines ["b"]);
    let* _ := report "b" in
    let* a_outcome := report "a" in
    do* equal (length (conflicts a_outcome)) 1;
    let* c := expect (conflicts a_outcome !! 0) in
    do* equal (cf_path c) "/file.txt";
    do* equal (session_action c) "delete";
    holds (not_on_disk (join tmp "base/file.txt")))).

Definition running_branch_delta_survives_foreign_same_path_commit : IO unit :=
  in_tmp (fun tmp => with_manager tmp (
    do* host_write (join tmp "base/file.txt") (lines ["base"]);
    do* siblings;
    do* write_delta "a" "/file.txt" (lines ["a"]);
    do* write_delta "b" "/file.txt" (lines ["b"]);
    let* _ := report "b" in
    shows "a" "/file.txt" (lines ["a"]))).

(** ** The view *)

Definition lazy_branch_resolves_base_without_inherited_snapshot_and_prefers_delta : IO unit :=
  in_tmp (fun tmp => with_manager tmp (
    let base_file := join tmp "base/dir/base.txt" in
    do* host_write base_file "base";
    do* lazy_branch "lazy" "main";
    do* with_branch "lazy" (fun b => holds (not_on_disk (inherited_path b "/dir/base.txt")));
    let* resolved := shown_file "lazy" "/dir/base.txt" in
    do* equal resolved base_file;
    do* reads resolved "base";
    do* with_branch "lazy" (fun b =>
      do* on_host (test_write (delta_path b "/dir/base.txt") "delta");
      add_tombstone "/dir/base.txt");
    shows "lazy" "/dir/base.txt" "delta")).

Definition removed_tombstone_does_not_reappear_after_manager_reload : IO unit :=
  in_tmp (fun tmp =>
    do* test_write (join tmp "base/existing.txt") "base";
    do* with_manager tmp (
      do* lazy_branch "work" "main";
      with_branch "work" (fun b =>
        do* add_tombstone "/existing.txt";
        do* remove_tombstone "/existing.txt";
        on_host (test_write (delta_path b "/existing.txt") "rewritten")));
    with_manager tmp (
      let* status := status_of "work" in
      do* assert (diff_has (is_entry "delta" "/existing.txt") status);
      assert (negb (diff_has (is_entry "delete" "/existing.txt") status)))).

Definition lazy_directory_tombstone_hides_inherited_descendants_but_not_delta_children : IO unit :=
  in_tmp (fun tmp => with_manager tmp (
    do* host_write (join tmp "base/dir/base.txt") "base";
    do* lazy_branch "lazy" "main";
    do* with_branch "lazy" (fun b =>
      do* add_tombstone "/dir";
      on_host (test_write (delta_path b "/dir/new.txt") "new"));
    do* holds (hidden "lazy" "/dir/base.txt");
    shows "lazy" "/dir/new.txt" "new")).

(** ** Reverting a path *)

Definition revert_path_drops_added_file_delta : IO unit :=
  in_tmp (fun tmp => with_manager tmp (
    do* lazy_branch "work" "main";
    do* write_delta "work" "/scratch/current_date.txt" (lines ["2026-07-07"]);
    do* unwrap (revert_path_in_branch "work" "/scratch/current_date.txt");
    do* holds (hidden "work" "/scratch/current_date.txt");
    no_diff "work")).

Definition revert_path_restores_inherited_file_after_modification : IO unit :=
  in_tmp (fun tmp => with_manager tmp (
    do* host_write (join tmp "base/config.txt") (lines ["base"]);
    do* lazy_branch "work" "main";
    let* _ := unwrap (write_data_to_branch "work" "/config.txt" 0 (bytes_of (lines ["branch"]))) in
    do* unwrap (revert_path_in_branch "work" "/config.txt");
    do* shows "work" "/config.txt" (lines ["base"]);
    do* no_diff "work";
    holds (negated (touched "work" "/config.txt")))).

Definition revert_path_removes_tombstone_and_restores_inherited_file : IO unit :=
  in_tmp (fun tmp => with_manager tmp (
    do* host_write (join tmp "base/old.txt") (lines ["old"]);
    do* lazy_branch "work" "main";
    do* unwrap (delete_path_in_branch "work" "/old.txt");
    do* holds (hidden "work" "/old.txt");
    do* unwrap (revert_path_in_branch "work" "/old.txt");
    do* shows "work" "/old.txt" (lines ["old"]);
    no_diff "work")).

Definition revert_path_drops_directory_tombstone_and_delta_descendants : IO unit :=
  in_tmp (fun tmp => with_manager tmp (
    do* host_write (join tmp "base/dir/base.txt") (lines ["base"]);
    do* lazy_branch "work" "main";
    do* with_branch "work" (fun b =>
      do* add_tombstone "/dir";
      on_host (test_write (delta_path b "/dir/new.txt") (lines ["new"])));
    do* holds (hidden "work" "/dir/base.txt");
    do* holds (visible "work" "/dir/new.txt");
    do* unwrap (revert_path_in_branch "work" "/dir");
    do* shows "work" "/dir/base.txt" (lines ["base"]);
    do* holds (hidden "work" "/dir/new.txt");
    no_diff "work")).

(** ** States and status *)

Definition state_is (n : string) (st : BranchState) : MIO unit :=
  let* s := status_of n in equal (st_state s) st.
Definition writable (n : string) : MIO bool := gets (fun s => is_branch_writable n s.2).
Definition valid (n : string) : MIO bool := gets (fun s => is_branch_valid n s.2).

Definition freeze_and_thaw_state_persist_across_manager_reloads : IO unit :=
  in_tmp (fun tmp =>
    do* with_manager tmp (
      do* lazy_branch "review" "main";
      do* unwrap (freeze_branch "review");
      do* state_is "review" Frozen;
      holds (negated (writable "review")));
    do* with_manager tmp (
      do* state_is "review" Frozen;
      do* holds (negated (writable "review"));
      do* unwrap (thaw_branch "review");
      do* state_is "review" Open;
      holds (writable "review"));
    with_manager tmp (
      do* state_is "review" Open;
      holds (writable "review"))).

Definition has_entry (o k p : string) (s : BranchStatus) : bool :=
  diff_has (fun e => is_entry o p e && bool_decide (d_kind e = k)) s.

Definition branch_status_reports_only_delta_and_tombstone_changes : IO unit :=
  in_tmp (fun tmp => with_manager tmp (
    do* host_write (join tmp "base/unchanged.txt") "unchanged";
    do* host_write (join tmp "base/deleted.txt") "deleted";
    do* lazy_branch "work" "main";
    do* with_branch "work" (fun b =>
      do* on_host (test_write (delta_path b "/new.txt") "new");
      do* on_host (test_write (delta_path b "/nested/file.txt") "nested");
      add_tombstone "/deleted.txt");
    let* status := status_of "work" in
    do* equal (delta_entries status) 2;
    do* equal (st_tombstones status) 1;
    do* assert (has_entry "delta" "file" "/new.txt" status);
    do* assert (has_entry "delta" "file" "/nested/file.txt" status);
    do* assert (has_entry "delete" "tombstone" "/deleted.txt" status);
    do* assert (negb (diff_has (fun e => bool_decide (d_kind e = "dir")) status));
    assert (negb (diff_has (fun e => bool_decide (d_path e = "/unchanged.txt")) status)))).

(** ** Directories without any permission *)

(** The rest of a test, after the modes it has taken away. *)
Definition with_reset (make : MIO (list path)) (rest : MIO unit) : MIO unit :=
  let* reset := make in finally rest (on_host (mode_reset_drop reset)).

Definition branch_status_survives_mode_000_delta_dir_and_reports_accessible_deltas : IO unit :=
  in_tmp (fun tmp => with_manager tmp (
    do* lazy_branch "work" "main";
    with_reset
      (with_branch "work" (fun b =>
        do* on_host (test_write (delta_path b "/new.txt") "new");
        on_host (make_mode_000_dir (delta_path b "/.scratch/cap-probe/kern-ovl-test/work/work"))))
      (let* status := status_of "work" in
       assert (has_entry "delta" "file" "/new.txt" status)))).

Definition gone (tmp : path) (n : string) : MIO unit :=
  do* holds (negated (valid n));
  holds (not_on_disk (join tmp "storage/branches/work")).

Definition abort_discards_branch_with_mode_000_nested_delta_dir : IO unit :=
  in_tmp (fun tmp => with_manager tmp (
    do* lazy_branch "work" "main";
    with_reset
      (with_branch "work" (fun b =>
        on_host (make_mode_000_dir (delta_path b "/.scratch/cap-probe/kern-ovl-test/work/work"))))
      (let* p := unwrap (abort "work") in
       do* equal p "main";
       gone tmp "work"))).

Definition private_dir (b : Branch) (rel : string) : BIO (list path) :=
  let private := delta_path b rel in
  do* on_host (test_write (private ++ ["inside.txt"]) "inside");
  on_host (make_mode_000_dir private).

Definition commit_walks_mode_000_delta_dir_and_commits_files_inside_it : IO unit :=
  in_tmp (fun tmp => with_manager tmp (
    do* lazy_branch "work" "main";
    with_reset
      (with_branch "work" (fun b => private_dir b "/private"))
      (let* p := unwrap (commit "work") in
       do* equal p "main";
       do* reads (join tmp "base/private/inside.txt") "inside";
       gone tmp "work"))).

(** Nothing is left of some paths of a branch, nor a tombstone. *)
Definition nothing_left (n : string) (rels : list string) : MIO unit :=
  do* no_diff n;
  with_branch n (fun b =>
    do* for_each rels (fun rel => holds (not_on_disk (delta_path b rel)));
    equal (get_tombstones b) ∅).

Definition deleting_branch_local_temp_file_leaves_no_tombstone_or_empty_parent_delta : IO unit :=
  in_tmp (fun tmp => with_manager tmp (
    do* lazy_branch "work" "main";
    do* with_branch "work" (fun b =>
      on_host (test_write (delta_path b "/domen-cuda10/.bash_history-00002.tmp") "transient history"));
    do* unwrap (delete_path_in_branch "work" "/domen-cuda10/.bash_history-00002.tmp");
    nothing_left "work" ["/domen-cuda10/.bash_history-00002.tmp"; "/domen-cuda10"])).

Definition deleting_branch_local_mode_000_dir_leaves_no_tombstone_or_delta : IO unit :=
  in_tmp (fun tmp => with_manager tmp (
    do* lazy_branch "work" "main";
    with_reset
      (with_branch "work" (fun b => private_dir b "/scratch/private"))
      (do* unwrap (delete_path_in_branch "work" "/scratch/private");
       nothing_left "work" ["/scratch/private"; "/scratch"]))).

Definition nested_delete_of_parent_created_file_leaves_no_parent_tombstone : IO unit :=
  in_tmp (fun tmp => with_manager tmp (
    do* lazy_branch "work" "main";
    do* write_delta "work" "/tmp/session-only.tmp" "transient";
    do* lazy_branch "child" "work";
    do* unwrap (delete_path_in_branch "child" "/tmp/session-only.tmp");
    let* child_status := status_of "child" in
    do* equal (st_tombstones child_status) 1;
    let* p := unwrap (commit "child") in
    do* equal p "work";
    do* nothing_left "work" ["/tmp/session-only.tmp"; "/tmp"];
    let* p := unwrap (commit "work") in
    do* equal p "main";
    holds (not_on_disk (join tmp "base/tmp/session-only.tmp")))).

Definition deleting_modified_inherited_file_reports_only_delete_tombstone : IO unit :=
  in_tmp (fun tmp => with_manager tmp (
    do* host_write (join tmp "base/existing.txt") "base";
    do* lazy_branch "work" "main";
    do* with_branch "work" (fun b => on_host (test_write (delta_path b "/existing.txt") "modified"));
    do* unwrap (delete_path_in_branch "work" "/existing.txt");
    let* status := status_of "work" in
    do* equal (delta_entries status) 0;
    do* equal (st_tombstones status) 1;
    do* equal (length (diff status)) 1;
    let* e := expect (diff status !! 0) in
    do* equal (op e) "delete";
    equal (d_path e) "/existing.txt")).

(** ** Hidden paths *)

Definition agent_branch (hides : list string) : MIO unit :=
  unwrap (create_branch_with_options "agent" "main" Lazy hides).

Definition hidden_paths_do_not_resolve_through_inheritance : IO unit :=
  in_tmp (fun tmp => with_manager tmp (
    do* host_write (join tmp "base/.ssh/id_rsa") "SECRET";
    do* host_write (join tmp "base/.env") "TOKEN=x";
    do* host_write (join tmp "base/Projects/ok.py") "fine";
    do* agent_branch [".ssh"; "/.env"];
    do* holds (hidden "agent" "/.ssh");
    do* holds (hidden "agent" "/.ssh/id_rsa");
    do* holds (hidden "agent" "/.env");
    do* holds (visible "agent" "/Projects/ok.py");
    holds (visible "main" "/.ssh/id_rsa"))).

Definition hidden_paths_filtered_from_readdir_but_delta_shadow_visible : IO unit :=
  in_tmp (fun tmp => with_manager tmp (
    do* host_write (join tmp "base/.env") "TOKEN=real";
    do* host_write (join tmp "base/visible.txt") "data";
    do* agent_branch [".env"];
    let* names := names_at "agent" "/" in
    do* assert (negb (bool_decide (".env" ∈ names)));
    do* assert (bool_decide ("visible.txt" ∈ names));
    do* host_write (join tmp "storage/branches/agent/files/.env") "TOKEN=agent-own";
    do* shows "agent" "/.env" "TOKEN=agent-own";
    let* names := names_at "agent" "/" in
    do* assert (bool_decide (".env" ∈ names));
    let* status := status_of "agent" in
    assert (diff_has (is_entry "delta" "/.env") status))).

Definition hide_paths_survive_metadata_reload : IO unit :=
  in_tmp (fun tmp =>
    do* test_write (join tmp "base/.netrc") "machine x login y";
    do* with_manager tmp (agent_branch [".netrc"]);
    with_manager tmp (
      do* holds (hidden "agent" "/.netrc");
      holds (visible "main" "/.netrc"))).

(** ** Staged merges *)

Definition src_and_dst (body : path -> path -> IO unit) : IO unit :=
  in_tmp (fun tmp =>
    let src := join tmp "src" in
    let dst := join tmp "dst" in
    do* unwrap (create_dir_all src);
    do* unwrap (create_dir_all dst);
    body src dst).
Definition put (p : path) (data : string) : IO unit := unwrap (write p (bytes_of data)).
Definition tmp_of (dest : path) : path := commit_side_path dest "tmp".
Definition trash_of (target : path) : path := commit_side_path target "trash".
Definition absent (p : path) : IO unit := let* b := exists_ p in assert (negb b).
Definition present (p : path) : IO unit := holds (exists_ p).
Definition holds_data (p : path) (data : string) : IO unit := let* d := unwrap (read p) in equal d (bytes_of data).

Definition commit_publishes_all_staged_files : IO unit :=
  src_and_dst (fun src dst =>
    do* put (join src "a") "new-a";
    do* put (join src "b") "new-b";
    let* merged := with_staged (
      do* unwrap (stage_copy "/a" (join src "a") dst);
      do* unwrap (stage_copy "/b" (join src "b") dst);
      unwrap publish) in
    do* equal (length merged) 2;
    do* holds_data (join dst "a") "new-a";
    do* holds_data (join dst "b") "new-b";
    do* absent (tmp_of (join dst "a"));
    absent (tmp_of (join dst "b"))).

Definition commit_publishes_nested_paths : IO unit :=
  src_and_dst (fun src dst =>
    do* unwrap (create_dir_all (join src "sub"));
    do* put (join src "sub/x") "new-x";
    let* _ := with_staged (
      do* unwrap (stage_copy "/sub/x" (join src "sub/x") dst);
      unwrap publish) in
    do* holds_data (join dst "sub/x") "new-x";
    absent (tmp_of (join dst "sub/x"))).

Definition drop_without_commit_removes_temps_and_preserves_dest : IO unit :=
  src_and_dst (fun src dst =>
    do* put (join src "a") "new-a";
    do* put (join dst "a") "old-a";
    do* with_staged (
      do* unwrap (stage_copy "/a" (join src "a") dst);
      do* on_host (present (tmp_of (join dst "a")));
      on_host (holds_data (join dst "a") "old-a"));
    do* absent (tmp_of (join dst "a"));
    holds_data (join dst "a") "old-a").

Definition failed_stage_propagates_and_cleans_up : IO unit :=
  src_and_dst (fun src dst =>
    do* put (join src "a") "new-a";
    do* put (join dst "a") "old-a";
    do* with_staged (
      do* unwrap (stage_copy "/a" (join src "a") dst);
      fails_ (stage_copy "/missing" (join src "missing") dst));
    do* absent (tmp_of (join dst "a"));
    holds_data (join dst "a") "old-a").

Definition only_dst (body : path -> IO unit) : IO unit :=
  in_tmp (fun tmp =>
    let dst := join tmp "dst" in
    do* unwrap (create_dir_all dst);
    body dst).

Definition stage_delete_then_commit_removes_target : IO unit :=
  only_dst (fun dst =>
    do* put (join dst "a") "old-a";
    let* _ := with_staged (
      do* unwrap (stage_delete (join dst "a"));
      do* on_host (absent (join dst "a"));
      do* on_host (present (trash_of (join dst "a")));
      unwrap publish) in
    do* absent (join dst "a");
    absent (trash_of (join dst "a"))).

Definition stage_delete_rolled_back_on_drop : IO unit :=
  only_dst (fun dst =>
    do* put (join dst "a") "old-a";
    do* with_staged (
      do* unwrap (stage_delete (join dst "a"));
      on_host (absent (join dst "a")));
    do* holds_data (join dst "a") "old-a";
    absent (trash_of (join dst "a"))).

Definition stage_delete_missing_target_is_noop : IO unit :=
  only_dst (fun dst =>
    let* _ := with_staged (
      do* unwrap (stage_delete (join dst "does-not-exist"));
      unwrap publish) in
    ret tt).

Definition is_plain_file (p : path) : IO unit := let* m := unwrap (symlink_metadata p) in assert (is_file m).

Definition replace_directory_with_file : IO unit :=
  src_and_dst (fun src dst =>
    do* unwrap (create_dir_all (join dst "p"));
    do* put (join dst "p/inner") "inner";
    do* put (join src "p") "now-a-file";
    let* _ := with_staged (
      do* unwrap (stage_delete (join dst "p"));
      do* unwrap (stage_copy "/p" (join src "p") dst);
      unwrap publish) in
    do* is_plain_file (join dst "p");
    holds_data (join dst "p") "now-a-file").

Definition stage_copy_replaces_directory_without_explicit_tombstone : IO unit :=
  src_and_dst (fun src dst =>
    do* unwrap (create_dir_all (join dst "d"));
    do* put (join dst "d/inner") "inner";
    do* put (join src "d") "now-a-file";
    let* _ := with_staged (
      do* unwrap (stage_copy "/d" (join src "d") dst);
      unwrap publish) in
    do* is_plain_file (join dst "d");
    holds_data (join dst "d") "now-a-file").

Definition replace_directory_with_file_rolls_back_on_failure : IO unit :=
  src_and_dst (fun src dst =>
    do* unwrap (create_dir_all (join dst "p"));
    do* put (join dst "p/inner") "inner";
    do* with_staged (
      do* unwrap (stage_delete (join dst "p"));
      fails_ (stage_copy "/p" (join src "p") dst));
    let* m := unwrap (symlink_metadata (join dst "p")) in
    do* assert (is_dir m);
    do* holds_data (join dst "p/inner") "inner";
    absent (trash_of (join dst "p"))).

Definition distinct_non_utf8_names_get_distinct_side_paths : IO unit :=
  let dir := ["dir"] in
  let p1 := dir ++ [String "255" ""] in
  let p2 := dir ++ [String "254" ""] in
  assert (negb (bool_decide (commit_side_path p1 "tmp" = commit_side_path p2 "tmp"))).
End UnitTests.

(** ** The tests of fs.rs *)

Section MountTests.
Context {E : Env} {J : Serde} {K : Kernel}.

Definition test_manager : IO World :=
  let* u := fresh_uuid in
  let root := ["tmp"; "branchfs-isstale-" +:+ u] in
  do* unwrap (create_dir_all (join root "base"));
  do* unwrap (create_dir_all (join root "work"));
  unwrap (start (join root "storage") (join root "base") (join root "work") None).

(** A manager and the mounts made on it: the body gets [BranchFs::new]. *)
Definition on_mount_of (branch : string) (setup : MIO unit) (body : FIO unit) : IO unit :=
  live test_manager (
    do* setup;
    let mp := ["mnt"; "a"] in
    do* on_mem (set_mount_branch mp branch);
    fun s => let '(r, (hw, _)) := body (s, fs_new s.2 mp false true) in (r, hw)).

Definition is_stale_false_when_in_sync : IO unit :=
  on_mount_of "main" (ret tt) (let* b := is_stale in assert (negb b)).

Definition is_stale_false_after_unrelated_branch_epoch_change : IO unit :=
  on_mount_of "agent" (unwrap (create_branch "agent" "main")) (
    let* b := is_stale in
    do* assert (negb b);
    do* mgr (unwrap (create_branch "other" "main"));
    let* _ := mgr (unwrap (commit "other")) in
    let* w := get_world in
    let manager_epoch := epoch w in
    let* f := get_fs in
    do* assert (negb (bool_decide (current_epoch f = manager_epoch)));
    let* b := is_stale in
    do* assert (negb b);
    let* f := get_fs in
    equal (current_epoch f) manager_epoch).

Definition append_writes_use_visible_file_length_as_offset : IO unit :=
  let offset_is c n := match c with Ok z => equal z n | Err _ => raise Panic end in
  do* offset_is (effective_write_offset O_APPEND 0 (Some 12%Z)) 12%Z;
  do* offset_is (effective_write_offset O_APPEND 5 (Some 12%Z)) 12%Z;
  offset_is (effective_write_offset 0 5 (Some 12%Z)) 5%Z.

Definition is_stale_true_after_branch_aborted : IO unit :=
  on_mount_of "feat" (unwrap (create_branch "feat" "main")) (
    let* b := is_stale in
    do* assert (negb b);
    let* _ := mgr (unwrap (abort "feat")) in
    let* b := is_stale in
    assert b).
End MountTests.

(** ** Running them *)

#[local] Existing Instances example_env named_serde example_kernel.

(** A host with an empty [/tmp]. *)
Definition test_host : host :=
  Host (list_to_map [([], Node KDir 493 0 (Stamp 0 0 0 0)); (["tmp"], Node KDir 1023 0 (Stamp 1 0 0 0))]) 10 0 ∅.
Definition passes (t : IO unit) : Prop := (t test_host).1 = Ok tt.

Definition directory_tests : list (IO unit) := [
  deleting_child_directory_keeps_explicit_empty_delta_parents;
  deleting_file_still_prunes_untouched_structural_delta_parents;
  rmdir_refuses_non_empty_inherited_directory_without_hiding_it;
  rmdir_removes_empty_inherited_directory_after_children_are_deleted;
  rmdir_removes_inherited_directory_after_all_children_are_tombstoned;
  legacy_touch_and_tombstone_snapshots_migrate_to_incremental_logs_on_load touches_text;
  first_touch_appends_incrementally_after_migrating_legacy_snapshot touches_text;
  tombstone_removal_appends_incrementally_after_migrating_legacy_snapshot;
  delete_first_touch_does_not_copy_inherited_text_content;
  write_first_touch_keeps_inherited_text_content_for_merge;
  cow_write_to_inherited_file_preserves_unwritten_ranges;
  concurrent_cow_writes_to_same_inherited_file_preserve_both_writes true;
  concurrent_cow_writes_to_same_inherited_file_preserve_both_writes false].
Definition sibling_tests : list (IO unit) := [
  sibling_disjoint_commits_do_not_conflict_after_parent_version_changes;
  sibling_same_text_file_non_overlapping_edits_auto_merge_cleanly;
  sibling_same_text_file_overlapping_edits_report_conflict_but_latest_wins;
  sibling_delete_vs_modify_reports_conflict_but_latest_delete_wins;
  running_branch_delta_survives_foreign_same_path_commit;
  lazy_branch_resolves_base_without_inherited_snapshot_and_prefers_delta;
  removed_tombstone_does_not_reappear_after_manager_reload;
  lazy_directory_tombstone_hides_inherited_descendants_but_not_delta_children;
  revert_path_drops_added_file_delta;
  revert_path_restores_inherited_file_after_modification;
  revert_path_removes_tombstone_and_restores_inherited_file;
  revert_path_drops_directory_tombstone_and_delta_descendants].
Definition status_tests : list (IO unit) := [
  freeze_and_thaw_state_persist_across_manager_reloads;
  branch_status_reports_only_delta_and_tombstone_changes;
  branch_status_survives_mode_000_delta_dir_and_reports_accessible_deltas;
  abort_discards_branch_with_mode_000_nested_delta_dir;
  commit_walks_mode_000_delta_dir_and_commits_files_inside_it;
  deleting_branch_local_temp_file_leaves_no_tombstone_or_empty_parent_delta;
  deleting_branch_local_mode_000_dir_leaves_no_tombstone_or_delta;
  nested_delete_of_parent_created_file_leaves_no_parent_tombstone;
  deleting_modified_inherited_file_reports_only_delete_tombstone;
  hidden_paths_do_not_resolve_through_inheritance;
  hidden_paths_filtered_from_readdir_but_delta_shadow_visible;
  hide_paths_survive_metadata_reload].
Definition staged_tests : list (IO unit) := [
  commit_publishes_all_staged_files;
  commit_publishes_nested_paths;
  drop_without_commit_removes_temps_and_preserves_dest;
  failed_stage_propagates_and_cleans_up;
  stage_delete_then_commit_removes_target;
  stage_delete_rolled_back_on_drop;
  stage_delete_missing_target_is_noop;
  replace_directory_with_file;
  stage_copy_replaces_directory_without_explicit_tombstone;
  replace_directory_with_file_rolls_back_on_failure;
  distinct_non_utf8_names_get_distinct_side_paths].
Definition mount_tests : list (IO unit) := [
  is_stale_false_when_in_sync;
  is_stale_false_after_unrelated_branch_epoch_change;
  append_writes_use_visible_file_length_as_offset;
  is_stale_true_after_branch_aborted].

Definition all_pass (l : list (IO unit)) : bool := forallb (fun t => bool_decide (ok (t test_host).1 = Some tt)) l.
Lemma all_pass_ok l : all_pass l = true -> Forall passes l.
Proof.
  unfold all_pass. rewrite forallb_forall, Forall_forall. intros H t Ht%list_elem_of_In%H.
  apply bool_decide_eq_true in Ht. unfold passes. destruct (t test_host).1 as [[]|]; [done|discriminate Ht].
Qed.

Lemma directory_tests_pass : all_pass directory_tests = true.
Proof. vm_cast_no_check (eq_refl true). Qed.
Lemma sibling_tests_pass : all_pass sibling_tests = true.
Proof. vm_cast_no_check (eq_refl true). Qed.
Lemma status_tests_pass : all_pass status_tests = true.
Proof. vm_cast_no_check (eq_refl true). Qed.
Lemma staged_tests_pass : all_pass staged_tests = true.
Proof. vm_cast_no_check (eq_refl true). Qed.
Lemma mount_tests_pass : all_pass mount_tests = true.
Proof. vm_cast_no_check (eq_refl true). Qed.

(** The tests translated here pass on the model: started on a host with an empty
    [/tmp], each runs to its end, so every assertion in it holds and no [unwrap]
    panics. *)
Lemma unit_tests_pass :
  Forall passes (directory_tests ++ sibling_tests ++ status_tests ++ staged_tests ++ mount_tests).
Proof.
  rewrite !Forall_app. repeat split; apply all_pass_ok.
  - exact directory_tests_pass.
  - exact sibling_tests_pass.
  - exact status_tests_pass.
  - exact staged_tests_pass.
  - exact mount_tests_pass.
Qed.
