(* ===== verification/Answers.v ===== *)
(** * Every request is answered

    No callback of a mount hangs or dies: whatever the host holds, it ends with a
    reply or a job for the worker, and the reply is of the kind the kernel waits
    for.  [safe] is the statement for a call below the callbacks - it returns or
    fails with an error the caller sees - and [answers] the one for callbacks,
    which handle every error. *)

From S2P Require Import Prelude Strs Inode HostFs Handles Quota TextMerge Branch Codec View Manager Commit.
From S2P Require Import Frame BranchLaws Isolation WorldInv ManagerSpec Quiet Platform Mount Ctl Fuse FuseWalk FuseInv FuseFacts.

Open Scope bool_scope.

(** ** Calls that return or fail *)

Definition throws_only {A} (r : res exn A) : Prop := match r with Ok _ | Err (Throw _) => True | _ => False end.

(** As long as [I] holds, which the call keeps. *)
Definition safe {S A} (I : S -> Prop) (c : M S A) : Prop := forall s, I s -> I (c s).2 /\ throws_only (c s).1.

Section Safe.
Context {S : Type} (I : S -> Prop).

Lemma safe_ret {A} (a : A) : safe I (ret a).
Proof. by intros s Hs. Qed.
Lemma safe_throw {A} e : safe I (throw (A := A) e).
Proof. by intros s Hs. Qed.
Lemma safe_gets {A} (f : S -> A) : safe I (gets f).
Proof. by intros s Hs. Qed.
Lemma safe_of_res {A} (r : res BranchError A) : safe I (of_res r).
Proof. destruct r; [apply safe_ret|apply safe_throw]. Qed.
Lemma safe_bind {A B} (c : M S A) (k : A -> M S B) : safe I c -> (forall a, safe I (k a)) -> safe I (bind c k).
Proof.
  intros Hc Hk s Hs. destruct (Hc s Hs) as [H1 H2]. unfold bind. destruct (c s) as [[a|x] s1]; [by apply Hk|by split].
Qed.
(** A first call that is known to be safe in this state only. *)
Lemma safe_bind_at {A B} (c : M S A) (k : A -> M S B) s :
  I (c s).2 -> throws_only (c s).1 -> (forall a, safe I (k a)) -> I (bind c k s).2 /\ throws_only (bind c k s).1.
Proof. intros H1 H2 Hk. unfold bind. destruct (c s) as [[a|x] s1]; [by apply Hk|by split]. Qed.
Lemma safe_attempt {A} (c : M S A) : safe I c -> safe I (attempt c).
Proof.
  intros Hc s Hs. destruct (Hc s Hs) as [H1 H2]. unfold attempt. by destruct (c s) as [[a|[e| |]] s1].
Qed.
Lemma safe_when b (c : M S unit) : safe I c -> safe I (when b c).
Proof. intros Hc. destruct b; [done|apply safe_ret]. Qed.
Lemma safe_for_each {A} (l : list A) f : (forall a, safe I (f a)) -> safe I (for_each l f).
Proof. intros Hf. induction l; simpl; [apply safe_ret|]. by apply safe_bind. Qed.
Lemma safe_fold_m {A B} (f : B -> A -> M S B) b l : (forall b a, safe I (f b a)) -> safe I (fold_m f b l).
Proof. intros Hf. revert b. induction l; intros b; simpl; [apply safe_ret|]. by apply safe_bind. Qed.
End Safe.

(** Calls of the host and of a branch need nothing. *)
Definition anyway {S} (_ : S) : Prop := True.
Lemma safe_modify {S} (f : S -> S) : safe anyway (modify f).
Proof. by intros s Hs. Qed.
Lemma safe_on_host {X A} (c : IO A) : safe anyway c -> safe (@anyway (host * X)) (on_host c).
Proof. intros Hc [h x] _. unfold on_host, zoom. simpl. destruct (Hc h I) as [_ H]. by destruct (c h). Qed.
Lemma safe_on_mem {X} (f : X -> X) : safe (@anyway (host * X)) (on_mem f).
Proof. by intros s Hs. Qed.
Lemma safe_zoomed (c : BIO unit) b : safe anyway c -> safe anyway (fun h : host => let '(r, (h1, _)) := c (h, b) in (r, h1)).
Proof. intros Hc h _. destruct (Hc (h, b) I) as [_ H]. by destruct (c (h, b)) as [r [h1 b1]]. Qed.

Create HintDb safe discriminated.

(** One step: the structure of the call, then its definition. *)
Ltac head_of c := lazymatch c with ?f _ => head_of f | _ => c end.
Ltac safe_head c := let f := head_of c in unfold f.
Ltac safe_step :=
  cbn beta iota;
  lazymatch goal with
  | |- safe _ (bind _ _) => apply safe_bind; [|intros ?]
  | |- safe _ (attempt _) => apply safe_attempt
  | |- safe _ (when _ _) => apply safe_when
  | |- safe _ (for_each _ _) => apply safe_for_each; intros ?
  | |- safe _ (fold_m _ _ _) => apply safe_fold_m; intros ? ?
  | |- safe _ (ret _) => apply safe_ret
  | |- safe _ (throw _) => apply safe_throw
  | |- safe _ (gets _) => apply safe_gets
  | |- safe _ (of_res _) => apply safe_of_res
  | |- safe _ (modify _) => apply safe_modify
  | |- safe _ (on_host _) => apply safe_on_host
  | |- safe _ (on_mem _) => apply safe_on_mem
  | |- safe _ (match ?x with _ => _ end) => destruct x
  | |- safe _ ?c => first [solve [eauto 2 with safe] | safe_head c]
  end.
Ltac safe_auto := repeat safe_step.

(** ** The host and the branch store *)

Section Calls.
Context {E : Env} {J : Serde}.

Lemma fresh_uuid_safe : safe anyway fresh_uuid.
Proof. by intros h Hh. Qed.
Hint Resolve fresh_uuid_safe : safe.
Lemma symlink_metadata_safe p : safe anyway (symlink_metadata p).
Proof. safe_auto. Qed.
Lemma real_path_safe p : safe anyway (real_path p).
Proof. safe_auto. Qed.
Hint Resolve symlink_metadata_safe real_path_safe : safe.
Lemma metadata_safe p : safe anyway (metadata p).
Proof. safe_auto. Qed.
Lemma store_file_safe q o d : safe anyway (store_file q o d).
Proof. safe_auto. Qed.
Lemma need_parent_safe p : safe anyway (need_parent p).
Proof. safe_auto. Qed.
Hint Resolve metadata_safe store_file_safe need_parent_safe : safe.
Lemma open_write_safe p : safe anyway (open_write p).
Proof. safe_auto. Qed.
Lemma create_dir_all_safe p : safe anyway (create_dir_all p).
Proof. safe_auto. Qed.
Hint Resolve open_write_safe create_dir_all_safe : safe.
Lemma parent_dirs_safe p : safe anyway (ensure_parent_dirs p).
Proof. safe_auto. Qed.
Lemma write_safe p d : safe anyway (write p d).
Proof. safe_auto. Qed.
Lemma append_safe p d : safe anyway (append p d).
Proof. safe_auto. Qed.
Lemma read_safe p : safe anyway (read p).
Proof. safe_auto. Qed.
Lemma read_dir_safe p : safe anyway (read_dir p).
Proof. safe_auto. Qed.
Lemma copy_safe a b : safe anyway (copy a b).
Proof. safe_auto. Qed.
Lemma remove_file_safe p : safe anyway (remove_file_call p).
Proof. safe_auto. Qed.
Lemma remove_dir_all_safe p : safe anyway (remove_dir_all_call p).
Proof. safe_auto. Qed.
Lemma symlink_safe t p : safe anyway (symlink t p).
Proof. safe_auto. Qed.
Lemma rename_safe a b : safe anyway (rename a b).
Proof. safe_auto. Qed.
Lemma set_permissions_safe p m : safe anyway (set_permissions p m).
Proof. safe_auto. Qed.
Lemma read_link_safe p : safe anyway (read_link p).
Proof. safe_auto. Qed.
Hint Resolve parent_dirs_safe write_safe append_safe read_safe read_dir_safe copy_safe remove_file_safe
  remove_dir_all_safe symlink_safe rename_safe set_permissions_safe read_link_safe : safe.
Lemma copy_entry_safe a b : safe anyway (copy_entry a b).
Proof. safe_auto. Qed.
Lemma write_data_safe p o d : safe anyway (write_data_to_file p o d).
Proof. safe_auto. Qed.
Lemma file_store_safe f n d : safe anyway (file_store f n d).
Proof. safe_auto. Qed.
Lemma file_metadata_safe f : safe anyway (file_metadata f).
Proof. intros h Hh. unfold file_metadata. by destruct (file_node f h). Qed.
Hint Resolve copy_entry_safe write_data_safe file_store_safe file_metadata_safe : safe.

Lemma add_tombstone_safe p : safe anyway (add_tombstone p).
Proof. safe_auto. Qed.
Lemma remove_tombstone_safe p : safe anyway (remove_tombstone p).
Proof. safe_auto. Qed.
Lemma record_touch_safe p i c : safe anyway (record_first_touch p i c).
Proof. safe_auto. Qed.
End Calls.

#[export] Hint Resolve fresh_uuid_safe symlink_metadata_safe real_path_safe metadata_safe store_file_safe
  need_parent_safe open_write_safe create_dir_all_safe parent_dirs_safe write_safe append_safe read_safe
  read_dir_safe copy_safe remove_file_safe remove_dir_all_safe symlink_safe rename_safe set_permissions_safe
  read_link_safe copy_entry_safe write_data_safe file_store_safe file_metadata_safe
  add_tombstone_safe remove_tombstone_safe record_touch_safe : safe.

(** ** Walks over directories have enough fuel

    Every directory a walk is inside of is an entry of the tree, so it is never
    deeper than the tree is large. *)

Definition same_dom (D : gset path) (h : host) : Prop := dom (h_tree h) = D.

(** The directories above [p] that a walk has come through. *)
Record walked_through (D : gset path) (K : list path) (p : path) : Prop := {
  wt_nodup : NoDup K;
  wt_in : forall q, q ∈ K -> q ∈ D;
  wt_above : forall q, q ∈ K -> length q < length p;
}.

Lemma walked_room D K p : walked_through D K p -> p ∈ D -> length K < size D.
Proof.
  intros [Hn Hi Ha] Hp. assert (NoDup (p :: K)) as Hn'.
  { apply NoDup_cons. split; [|done]. intros H%Ha. lia. }
  cut (length (p :: K) <= size D); [simpl; lia|]. rewrite <- (size_list_to_set (C:=gset path) (p :: K)) by done.
  apply subseteq_size. intros q. rewrite elem_of_list_to_set, elem_of_cons. intros [->|Hq]; auto.
Qed.

Lemma walked_deeper D K p c : walked_through D K p -> p ∈ D -> walked_through D (p :: K) (p ++ [c]).
Proof.
  intros [Hn Hi Ha] Hp. split.
  - apply NoDup_cons. split; [|done]. intros H%Ha. lia.
  - intros q [->|Hq]%elem_of_cons; auto.
  - intros q. rewrite length_app. simpl. intros [->|Hq%Ha]%elem_of_cons; lia.
Qed.

Lemma walked_afresh D p : walked_through D [] p.
Proof. split; [constructor|intros q []%not_elem_of_nil|intros q []%not_elem_of_nil]. Qed.

(** A call that changes nothing, or no entry. *)
Lemma same_dom_reads {A} D (c : IO A) : keeps eq c -> safe anyway c -> safe (same_dom D) c.
Proof. intros Hk Hc h Hh. split; [by rewrite <- (Hk h)|]. by apply (Hc h I). Qed.

Section Walks.
Context {E : Env}.

Lemma is_dir_in D h p (n : node) : same_dom D h -> h_tree h !! p = Some n -> p ∈ D.
Proof. intros <- Hp. apply elem_of_dom. by exists n. Qed.

Lemma symlink_metadata_dom D p : safe (same_dom D) (symlink_metadata p).
Proof. apply same_dom_reads; [keeps_auto|safe_auto]. Qed.
Lemma set_permissions_dom D p m : safe (same_dom D) (set_permissions p m).
Proof.
  unfold set_permissions. apply safe_bind; [apply same_dom_reads; [keeps_auto|safe_auto]|]. intros q.
  apply safe_bind; [apply symlink_metadata_dom|]. intros n h Hh. split; [|done].
  unfold same_dom in *. simpl. by rewrite dom_alter_L.
Qed.
Lemma add_owner_dom D p : safe (same_dom D) (add_owner_rwx_if_dir p).
Proof.
  unfold add_owner_rwx_if_dir. apply safe_bind; [apply symlink_metadata_dom|]. intros n.
  destruct (negb _); [apply safe_ret|]. case_bool_decide; [apply safe_ret|].
  apply safe_bind; [apply set_permissions_dom|]. intros _. apply safe_ret.
Qed.
Lemma read_dir_dom D p : safe (same_dom D) (read_dir p).
Proof. apply same_dom_reads; [keeps_auto|safe_auto]. Qed.

(** [make_branch_store_tree_removable] *)
Lemma make_removable_safe D f : forall K p,
  walked_through D K p -> size D < f + length K -> safe (same_dom D) (make_branch_store_tree_removable f p).
Proof.
  induction f as [|f IH]; intros K p Hw Hf h Hh.
  - exfalso. assert (length K <= size D) as Hle; [|lia]. rewrite <- (size_list_to_set (C:=gset path)) by apply Hw.
    apply subseteq_size. intros q. rewrite elem_of_list_to_set. apply Hw.
  - cbn [make_branch_store_tree_removable]. rewrite (bind_step _ _ _ _ _ (attempt_stat p h)).
    destruct (h_tree h !! p) as [n|] eqn:Hp; [|by destruct (missing (h_tree h) p)].
    destruct (is_dir n); [|by split]. pose proof (is_dir_in D h p n Hh Hp) as HpD.
    refine (safe_bind (same_dom D) _ _ (add_owner_dom D p) _ h Hh). intros _.
    apply safe_bind; [apply read_dir_dom|]. intros names. apply safe_for_each. intros c.
    apply safe_bind; [apply safe_attempt, symlink_metadata_dom|]. intros r. apply safe_when.
    apply (IH (p :: K)); [by apply walked_deeper|simpl; lia].
Qed.

Lemma remove_store_dir_safe p : safe anyway (remove_branch_store_dir_all p).
Proof.
  unfold remove_branch_store_dir_all. apply safe_bind; [safe_auto|]. intros [n|e]; [|safe_auto].
  destruct (is_dir n); [|safe_auto]. intros h _. unfold bind, get_tree, gets.
  destruct (make_removable_safe (dom (h_tree h)) (tree_fuel (h_tree h)) [] p (walked_afresh _ _)) with (s := h) as [_ H];
    [unfold tree_fuel; rewrite size_dom; simpl; lia|done|].
  destruct (make_branch_store_tree_removable _ p h) as [[[]|[e| |]] h1]; try done.
  by apply remove_dir_all_safe.
Qed.

(** [dir_size]: following a link uses up one of the links allowed. *)
Lemma follow_left f t p q f' : follow f t p = Ok (q, f') -> (q = p /\ f' = f) \/ f' < f.
Proof.
  revert p. induction f as [|f IH]; intros p; unfold follow; fold follow; destruct (t !! p) as [[[] m z s]|]; intros H; simplify_eq; auto.
  right. apply IH in H as [[_ ->]|?]; lia.
Qed.

Lemma dir_size_safe D f : forall links K p h n,
  same_dom D h -> h_tree h !! p = Some n -> walked_through D K p ->
  links * S (size D) + S (size D) <= f + length K -> throws_only (dir_size_go f links p h).1.
Proof.
  induction f as [|f IH]; intros links K p h n Hh Hp Hw Hf.
  - exfalso. pose proof (walked_room _ _ _ Hw (is_dir_in _ _ _ _ Hh Hp)). nia.
  - pose proof (walked_room _ _ _ Hw (is_dir_in _ _ _ _ Hh Hp)) as Hroom.
    cbn [dir_size_go].
    assert (safe (fun h' => h' = h) (attempt (read_dir p))) as Hr.
    { intros h' ->. split; [|by apply (safe_attempt anyway), I; apply read_dir_safe].
      symmetry. apply (fun H : keeps eq (attempt (read_dir p)) => H h). keeps_auto. }
    apply (fun H => proj2 (safe_bind (fun h' => h' = h) (attempt (read_dir p)) _ Hr H h eq_refl)). intros [names|e]; [|apply safe_ret]. apply safe_fold_m. intros total c.
    intros h' ->. rewrite (bind_step _ _ h (h_tree h) h) by done.
    assert (safe (fun h' => h' = h) (let* m := attempt (symlink_metadata (p ++ [c])) in
      ret (match m with Ok n => wrap_u64 (total + node_len n) | Err _ => total end))) as Hlen.
    { apply safe_bind; [|intros ?; apply safe_ret]. intros h2 ->. split; [|by apply (safe_attempt anyway), I; apply symlink_metadata_safe].
      symmetry. apply (fun H : keeps eq (attempt (symlink_metadata (p ++ [c]))) => H h). keeps_auto. }
    destruct (follow links (h_tree h) (p ++ [c])) as [[q links']|e] eqn:Hfol; [|by apply Hlen].
    destruct (h_tree h !! q) as [m|] eqn:Hq; [|by apply Hlen].
    destruct (is_dir m); [|by apply Hlen].
    assert (throws_only (dir_size_go f links' q h).1 /\ (dir_size_go f links' q h).2 = h) as [Hr1 Hr2].
    { split; [|symmetry; apply (dir_size_go_keeps eq f links' q h)].
      apply follow_left in Hfol as [[-> ->]|Hless].
      - apply (IH links (p :: K) _ h m); try done; [by apply (walked_deeper D); [|eapply is_dir_in]|simpl; lia].
      - apply (IH links' [] _ h m); try done; [apply walked_afresh|simpl; nia]. }
    unfold bind. destruct (dir_size_go f links' q h) as [[z|x] h1]; simpl in *; by subst.
Qed.

Lemma dir_size_total p h n : h_tree h !! p = Some n -> throws_only (dir_size p h).1.
Proof.
  intros Hp. unfold dir_size, bind, get_tree, gets.
  apply (dir_size_safe (dom (h_tree h)) _ _ [] p h n); [done|done|apply walked_afresh|].
  unfold tree_fuel. rewrite size_dom. simpl. lia.
Qed.
End Walks.

(** ** Lookups in a forest *)

Section Views.
Context {E : Env} {J : Serde}.

Lemma below_safe {A} b (base inh : IO A) up :
  safe anyway base -> safe anyway inh -> (forall p, safe anyway (up p)) -> safe anyway (below b base inh up).
Proof. intros. unfold below. destruct (br_parent b); [|done]. by destruct (inheritance b). Qed.

Lemma resolve_fuel_safe base bs rel k : forall n,
  (forall b, bs !! n = Some b -> exists l r, lineage base bs n l r /\ length l <= k) -> 0 < k ->
  safe anyway (resolve_path_locked base bs k n rel).
Proof.
  induction k as [|k IH]; intros n Hl Hk; [lia|]. simpl. destruct (bs !! n) as [b|] eqn:Hb; [|safe_auto].
  destruct (Hl b eq_refl) as (l & r & Hlin & Hlen).
  apply safe_bind; [safe_auto|]. intros d. destruct d; [safe_auto|]. destruct (is_deleted b rel); [safe_auto|].
  destruct (is_hidden b rel); [safe_auto|]. unfold below. inversion Hlin; simplify_eq; rewrite ?H0.
  - safe_auto.
  - rewrite H1. safe_auto.
  - rewrite H1. simpl in Hlen. apply IH; [|inversion H2; subst; simpl in *; lia].
    intros b2 _. exists l0, r. split; [done|lia].
Qed.

Lemma collect_fuel_safe base bs rel k : forall n,
  (forall b, bs !! n = Some b -> exists l r, lineage base bs n l r /\ length l <= k) -> 0 < k ->
  safe anyway (collect_dir_names_locked base bs k n rel).
Proof.
  induction k as [|k IH]; intros n Hl Hk; [lia|]. simpl. destruct (bs !! n) as [b|] eqn:Hb; [|safe_auto].
  destruct (Hl b eq_refl) as (l & r & Hlin & Hlen).
  apply safe_bind; [safe_auto|]. intros d. apply safe_bind; [|intros ?; safe_auto].
  unfold below. inversion Hlin; simplify_eq; rewrite ?H0.
  - safe_auto.
  - rewrite H1. safe_auto.
  - rewrite H1. simpl in Hlen. apply IH; [|inversion H2; subst; simpl in *; lia].
    intros b2 _. exists l0, r. split; [done|lia].
Qed.

Section Forest.
Context (base : path) (bs : branch_map) (Hbs : forest bs).

Lemma chain_enough n b : bs !! n = Some b -> exists l r, lineage base bs n l r /\ length l <= chain_fuel bs.
Proof.
  intros Hb. destruct (forest_lineage base bs n) as (l & r & Hl); [done|by eexists|].
  exists l, r. split; [done|]. by eapply lineage_length.
Qed.

Lemma resolve_chain_safe n rel : safe anyway (resolve_path_locked base bs (chain_fuel bs) n rel).
Proof. apply resolve_fuel_safe; [apply chain_enough|unfold chain_fuel; lia]. Qed.
Lemma collect_chain_safe n rel : safe anyway (collect_dir_names_locked base bs (chain_fuel bs) n rel).
Proof. apply collect_fuel_safe; [apply chain_enough|unfold chain_fuel; lia]. Qed.
Lemma inherited_chain_safe b rel : safe anyway (inherited_resolve_path_locked base bs (chain_fuel bs) b rel).
Proof. apply below_safe; [safe_auto..|]. intros p. apply resolve_chain_safe. Qed.
End Forest.

(** The manager in order, which its quiet operations keep. *)
Definition in_order (s : host * World) : Prop := world_ok s.2.

Lemma quiet_safe {A} (c : MIO A) : keeps qstep c -> (forall s, in_order s -> throws_only (c s).1) -> safe in_order c.
Proof.
  intros Hq Hc s Hs. split; [|by apply Hc]. apply (same_world_ok s.2); [|done]. apply quiet_same, Hq.
Qed.

Lemma view_safe {A} (c : path -> branch_map -> nat -> IO A) :
  (forall base bs, forest bs -> safe anyway (c base bs (chain_fuel bs))) -> safe in_order (view c).
Proof.
  intros Hc. apply quiet_safe; [apply view_qstep|]. intros [h w] Hw. unfold view, gets, bind, on_host, zoom. cbn [fst snd].
  destruct (Hc (base_path w) (branches w) (wo_forest _ Hw) h I) as [_ H]. by destruct (c _ _ _ h).
Qed.

Lemma host_in_order {A} (c : IO A) : safe anyway c -> safe in_order (on_host c).
Proof.
  intros Hc. apply quiet_safe; [apply on_host_qstep|]. intros [h w] _. unfold on_host, zoom. simpl.
  destruct (Hc h I) as [_ H]. by destruct (c h).
Qed.
Lemma mem_in_order f : (forall w, quiet_world w (f w)) -> safe in_order (on_mem f).
Proof. intros Hf. apply quiet_safe; [by apply on_mem_qstep|]. by intros s _. Qed.
Lemma branch_in_order {A} n (c : BIO A) : keeps bquiet c -> safe anyway c -> safe in_order (on_branch n c).
Proof.
  intros Hq Hc. apply quiet_safe; [by apply on_branch_qstep|]. intros [h w] _.
  unfold on_branch, lookup_branch, gets, bind. cbn [fst snd]. destruct (branches w !! n) as [b|]; cbn; [|done].
  destruct (Hc (h, b) I) as [_ H]. by destruct (c (h, b)) as [r [h' b']].
Qed.
End Views.

(** ** The manager's quiet operations *)

Ltac order_step :=
  cbn beta iota;
  lazymatch goal with
  | |- safe in_order (on_host _) => apply host_in_order; solve [safe_auto]
  | |- safe in_order (on_branch _ _) => apply branch_in_order; [solve [bquiet_auto]|solve [safe_auto]]
  | |- safe in_order (on_mem _) => apply mem_in_order; intros ?; by apply quiet_branches
  | |- safe _ _ => safe_step
  end.
Ltac order_auto := repeat order_step.

Section Manager.
Context {E : Env} {J : Serde}.

Lemma resolve_in_order n rel : safe in_order (resolve_path n rel).
Proof. apply view_safe. intros base bs Hbs. by apply resolve_chain_safe. Qed.
Lemma collect_in_order n rel : safe in_order (collect_dir_names n rel).
Proof. apply view_safe. intros base bs Hbs. by apply collect_chain_safe. Qed.
Lemma touch_in_order b rel : safe in_order (resolve_inherited_for_touch b rel).
Proof.
  apply view_safe. intros base bs Hbs. unfold resolve_inherited_for_touch_locked.
  destruct (is_hidden b rel); [safe_auto|by apply inherited_chain_safe].
Qed.
Lemma inherited_exists_in_order n rel : safe in_order (inherited_path_exists n rel).
Proof.
  unfold inherited_path_exists. apply safe_bind; [order_auto|]. intros b.
  apply view_safe. intros base bs Hbs. unfold inherited_path_exists_locked.
  destruct (is_hidden b rel); [safe_auto|]. apply safe_bind; [by apply inherited_chain_safe|]. intros ?. safe_auto.
Qed.
Hint Resolve resolve_in_order collect_in_order touch_in_order inherited_exists_in_order : safe.

Lemma has_delta_in_order n rel : safe in_order (branch_has_delta n rel).
Proof. order_auto. Qed.
Lemma ensure_delta_in_order n rel : safe in_order (ensure_delta_path_for_write n rel).
Proof. order_auto. Qed.
Lemma staged_write_in_order b src delta o d : safe in_order (staged_write b src delta o d).
Proof. order_auto. Qed.
Lemma delta_write_in_order n rel delta o e d : safe in_order (delta_write n rel delta o e d).
Proof. order_auto. Qed.
Hint Resolve staged_write_in_order delta_write_in_order : safe.
Lemma write_in_order n rel o d : safe in_order (write_data_to_branch n rel o d).
Proof. order_auto. Qed.

(** Removing what a branch holds at a path. *)
Lemma remove_entry_safe p : safe anyway (remove_entry p).
Proof.
  unfold remove_entry. apply safe_bind; [safe_auto|]. intros [n|e]; [|safe_auto].
  destruct (is_dir n); [apply remove_store_dir_safe|safe_auto].
Qed.
Lemma prune_loop_safe b k : forall rel, safe anyway (prune_loop b k rel).
Proof.
  induction k as [|k IH]; intros rel; [apply safe_ret|]. cbn [prune_loop]. case_bool_decide; [apply safe_ret|].
  apply safe_bind; [safe_auto|]. intros [|]; [apply IH|apply safe_ret].
Qed.
Lemma prune_parents_safe b p : safe anyway (prune_empty_delta_parents b p).
Proof. unfold prune_empty_delta_parents. destruct (strip _ _); [apply prune_loop_safe|apply safe_ret]. Qed.

Lemma drop_delta_in_order n rel : safe in_order (drop_delta n rel).
Proof.
  unfold drop_delta. apply safe_bind; [order_auto|]. intros b [h w] Hw.
  rewrite (bind_step _ _ (h, w) (match h_tree h !! delta_path b rel with
      Some n => Ok n | None => Err (Io (missing (h_tree h) (delta_path b rel))) end) (h, w)).
  2:{ pose proof (attempt_stat (delta_path b rel) h) as Ha. unfold attempt, on_host, zoom in *. cbn [fst snd].
      destruct (symlink_metadata _ h) as [[x|[e| |]] h1]; try discriminate Ha; injection Ha as Ha ->; by rewrite <- Ha. }
  destruct (h_tree h !! delta_path b rel) as [m|] eqn:Hm; [|by split].
  assert (throws_only (on_host (X := World) (if is_dir m then dir_size (delta_path b rel) else ret (node_len m)) (h, w)).1) as Ht.
  { unfold on_host, zoom. cbn [fst snd]. destruct (is_dir m); [|done].
    pose proof (dir_size_total _ _ _ Hm) as Ht. by destruct (dir_size _ h). }
  apply safe_bind_at; [|exact Ht|].
  - apply (same_world_ok w); [|done]. apply (quiet_same w), (on_host_qstep _ (h, w)).
  - intros freed. apply safe_bind; [apply host_in_order, remove_entry_safe|]. intros _.
    apply safe_bind; [apply mem_in_order; intros ?; by apply quiet_branches|]. intros _.
    apply host_in_order, prune_parents_safe.
Qed.
Hint Resolve drop_delta_in_order : safe.
Lemma mark_deleted_in_order n rel b : safe in_order (mark_deleted n rel b).
Proof. order_auto. Qed.
Hint Resolve mark_deleted_in_order : safe.
Lemma delete_in_order n rel : safe in_order (delete_path_in_branch n rel).
Proof. order_auto. Qed.
Lemma rmdir_in_order n rel : safe in_order (rmdir_path_in_branch n rel).
Proof. order_auto. Qed.
End Manager.
#[export] Hint Resolve resolve_in_order collect_in_order touch_in_order inherited_exists_in_order
  has_delta_in_order ensure_delta_in_order write_in_order delete_in_order rmdir_in_order : safe.

(** ** Callbacks *)

(** A mount of an agent on a manager in order. *)
Definition fit (s : Mounted) : Prop := world_ok s.1.2 /\ agent s.

(** The call ends with a value for which [P] holds. *)
Definition answers {A} (P : A -> Prop) (c : FIO A) : Prop :=
  forall s, fit s -> fit (c s).2 /\ exists a, (c s).1 = Ok a /\ P a.

Definition any {A} (_ : A) : Prop := True.

Section Callbacks.
Context {E : Env} {J : Serde} {K : Kernel}.

Lemma answers_ret {A} (P : A -> Prop) a : P a -> answers P (ret a).
Proof. intros Ha s Hs. split; [done|]. by exists a. Qed.
Lemma answers_bind {A B} (P : B -> Prop) (c : FIO A) k :
  answers any c -> (forall a, answers P (k a)) -> answers P (bind c k).
Proof.
  intros Hc Hk s Hs. destruct (Hc s Hs) as (H1 & a & H2 & _). unfold bind.
  destruct (c s) as [r s1]. simpl in *. subst r. by apply Hk.
Qed.
Lemma answers_gets {A} (f : Mounted -> A) : answers any (gets f).
Proof. intros s Hs. split; [done|]. by eexists. Qed.
Lemma answers_when b (c : FIO unit) : answers any c -> answers any (when b c).
Proof. intros Hc. destruct b; [done|by apply answers_ret]. Qed.
Lemma answers_fold_m {A B} (f : B -> A -> FIO B) b l : (forall b a, answers any (f b a)) -> answers any (fold_m f b l).
Proof. intros Hf. revert b. induction l; intros b; simpl; [by apply answers_ret|]. by apply answers_bind. Qed.

Lemma fit_mgr {A} (c : MIO A) s : keeps qstep c -> fit s -> fit ((c s.1).2, s.2).
Proof.
  intros Hc [Hw Ha]. split; [|exact Ha]. specialize (Hc s.1). by apply (same_world_ok s.1.2); [apply quiet_same|].
Qed.
Lemma answers_attempt {A} (c : MIO A) : keeps qstep c -> safe in_order c -> answers any (attempt (mgr c)).
Proof.
  intros Hq Hc s Hs. pose proof (fit_mgr c s Hq Hs) as Hf. destruct (Hc s.1 (proj1 Hs)) as [_ H].
  destruct s as [hw f]. unfold attempt. rewrite mgr_eq. cbn [fst snd] in *.
  destruct (c hw) as [[a|[e| |]] hw']; try done; split; try done; by eexists.
Qed.
Lemma answers_mgr {A} (c : MIO A) : keeps qstep c -> (forall s, exists a, (c s).1 = Ok a) -> answers any (mgr c).
Proof.
  intros Hq Hc s Hs. pose proof (fit_mgr c s Hq Hs) as Hf. destruct (Hc s.1) as [a Ha].
  destruct s as [hw f]. rewrite mgr_eq. split; [exact Hf|]. by exists a.
Qed.
Lemma answers_attempt_host {A} (c : IO A) : safe anyway c -> answers any (attempt (hostio c)).
Proof. intros Hc. apply answers_attempt; [apply on_host_qstep|by apply host_in_order]. Qed.
Lemma answers_host {A} (c : IO A) : (forall h, exists a, (c h).1 = Ok a) -> answers any (hostio c).
Proof.
  intros Hc. apply answers_mgr; [apply on_host_qstep|]. intros [h w]. destruct (Hc h) as [a Ha].
  exists a. unfold on_host, zoom. simpl. by destruct (c h).
Qed.
Lemma answers_upd_fs g :
  (forall f, fs_quiet f (g f) /\ branch_ctl_inodes (g f) = branch_ctl_inodes f) -> answers any (upd_fs g).
Proof.
  intros Hg s [Hw [He Hc]]. destruct (Hg s.2) as [Hq Hb]. split; [|by exists tt].
  split; [done|]. split; simpl; [by rewrite (fq_expose _ _ Hq)|congruence].
Qed.
Lemma answers_get_fs {A} (P : A -> Prop) k :
  (forall f, expose_control f = false -> answers P (k f)) -> answers P (bind get_fs k).
Proof. intros Hk s Hs. apply (Hk s.2); [|done]. apply Hs. Qed.
Lemma answers_for_ctl {A} (P : A -> Prop) i k : answers P (k None) -> answers P (bind (branch_for_ctl_ino i) k).
Proof. intros Hk s Hs. rewrite for_ctl_pure. destruct Hs as [Hw [He Hc]]. rewrite Hc. by apply Hk. Qed.
Lemma answers_new_inode p d : answers any (new_inode p d).
Proof.
  intros s [Hw [He Hc]]. unfold new_inode. destruct (get_or_create p d (inodes s.2)) as [i m].
  split; [|by exists i]. by split.
Qed.

Lemma exists_ok {A} (c : IO A) h : safe anyway c -> exists a, (attempt c h).1 = Ok a.
Proof.
  intros Hc. destruct (Hc h I) as [_ H]. unfold attempt. destruct (c h) as [[a|[e| |]] h']; try done; by eexists.
Qed.
Lemma answers_is_dir p : answers any (hostio (is_dir_path p)).
Proof.
  apply answers_host. intros h. unfold is_dir_path, bind. destruct (exists_ok (metadata p) h) as [a Ha]; [safe_auto|].
  destruct (attempt (metadata p) h) as [r h']. simpl in Ha. subst. by eexists.
Qed.
Lemma answers_file_len f : answers any (hostio (file_len_or_0 f)).
Proof.
  apply answers_host. intros h. unfold file_len_or_0, bind. destruct (exists_ok (file_metadata f) h) as [a Ha]; [safe_auto|].
  destruct (attempt (file_metadata f) h) as [r h']. simpl in Ha. subst. by eexists.
Qed.
Lemma answers_has_delta n rel : answers any (mgr (branch_has_delta n rel)).
Proof.
  apply answers_mgr; [apply has_delta_qstep|]. intros [h w]. unfold branch_has_delta, gets, bind. cbn [fst snd].
  destruct (branches w !! n) as [b|]; [|by eexists]. unfold on_host, zoom, has_delta, bind. cbn [fst snd].
  destruct (exists_ok (symlink_metadata (delta_path b rel)) h) as [a Ha]; [safe_auto|].
  destruct (attempt _ h) as [r h']. simpl in Ha. subst. by eexists.
Qed.
Lemma answers_add_quota b z : answers any (mgr (when b (add_quota z))).
Proof. apply answers_mgr; [destruct b; cbn [when]; qstep_auto|]. intros s. destruct b; by eexists. Qed.
Lemma answers_quota_change b b' z z' : answers any (mgr (if b : bool then add_quota z else when b' (sub_quota z'))).
Proof. apply answers_mgr; [destruct b, b'; cbn [when]; qstep_auto|]. intros s. destruct b, b'; by eexists. Qed.
Lemma answers_opened b i : answers any (upd_world (register_opened_inode b i)).
Proof. apply answers_mgr; [apply opened_qstep|]. intros s. by eexists. Qed.
End Callbacks.

Create HintDb answers discriminated.
#[export] Hint Resolve answers_new_inode answers_is_dir answers_file_len answers_has_delta answers_add_quota
  answers_quota_change answers_opened : answers.

(** What a request may be answered with. *)
Definition fitting (o : FuseOp) (r : Outcome) : Prop :=
  match o, r with
  | _, Now (RError _) => True
  | (OpLookup _ _ | OpMkdir _ _ _ _ | OpSymlink _ _ _), Now (REntry _) => True
  | (OpGetattr _ | OpSetattr _ _), Now (RAttr _) => True
  | (OpRead _ _ _ | OpReadlink _), Now (RData _) => True
  | OpWrite _ _ _ _, (Now (RWritten _) | Later (JWrite _ _ _ _)) => True
  | OpReaddir _ _, Now (RDirectory _) => True
  | OpCreate _ _ _ _, Now (RCreated _) => True
  | OpUnlink _ _, Later (JDelete _ _ _ _) => True
  | OpRmdir _ _, Later (JRmdir _ _ _ _) => True
  | OpOpen _ _, Now (ROpened | ROpenedPassthrough _ _) => True
  | OpIoctl _ _, Now (RIoctl _) => True
  | OpStatfs, Now (RStatfs _) => True
  | (OpRename _ _ _ _ _ | OpRelease _ | OpAccess _ _), Now ROk => True
  | _, _ => False
  end.

Ltac ans_step :=
  cbn beta iota;
  lazymatch goal with
  | H : expose_control ?f = false |- context [expose_control ?f] => rewrite H; cbn [andb negb]
  | |- answers _ (bind get_fs _) => apply answers_get_fs; intros ? ?
  | |- answers _ (bind (branch_for_ctl_ino _) _) => apply answers_for_ctl
  | |- answers _ (bind _ _) => apply answers_bind; [|intros ?]
  | |- answers _ (attempt (mgr (if ?b then _ else _))) => destruct b
  | |- answers _ (attempt (hostio (if ?b then _ else _))) => destruct b
  | |- answers _ (attempt (mgr _)) =>
      apply answers_attempt; [first [solve [eauto 2 with keeps]|solve [qstep_auto]]|solve [order_auto]]
  | |- answers _ (attempt (hostio _)) => apply answers_attempt_host; solve [safe_auto]
  | |- answers _ (when _ _) => apply answers_when
  | |- answers _ (fold_m _ _ _) => apply answers_fold_m; intros ? ?
  | |- answers _ (ret _) => apply answers_ret; solve [exact I|done]
  | |- answers _ (gets _) => apply answers_gets
  | |- answers _ (upd_fs _) => apply answers_upd_fs; by repeat split
  | |- answers _ (match ?x with _ => _ end) => destruct x
  | |- answers _ ?c => first [solve [eauto 2 with answers] | safe_head c]
  end.
Ltac ans_auto := repeat ans_step.

Section Theorems.
Context {E : Env} {J : Serde} {K : Kernel}.

Lemma resolve_for_answers b p : answers any (resolve_for_branch b p).
Proof. ans_auto. Qed.
Lemma ensure_cow_answers b p : answers any (ensure_cow_for_branch b p).
Proof. ans_auto. Qed.
Lemma is_stale_answers : answers any is_stale.
Proof. ans_auto. Qed.
Lemma make_attr_answers i p : answers any (make_attr i p).
Proof. ans_auto. Qed.
Hint Resolve resolve_for_answers ensure_cow_answers is_stale_answers make_attr_answers : answers.
Lemma entries_answers b r i pre : answers any (collect_readdir_entries b r i pre).
Proof. ans_auto. Qed.
Hint Resolve entries_answers : answers.

Lemma lookup_answers i n : answers (fitting (OpLookup i n)) (fuse_lookup i n).
Proof. ans_auto. Qed.
Lemma getattr_answers i : answers (fitting (OpGetattr i)) (fuse_getattr i).
Proof. ans_auto. Qed.
Lemma read_answers i o z : answers (fitting (OpRead i o z)) (fuse_read i o z).
Proof. ans_auto. Qed.
Lemma write_answers i o d fl : answers (fitting (OpWrite i o d fl)) (fuse_write i o d fl).
Proof. ans_auto. Qed.
Lemma readdir_answers i o : answers (fitting (OpReaddir i o)) (fuse_readdir i o).
Proof. ans_auto. Qed.
Lemma create_answers i n m u : answers (fitting (OpCreate i n m u)) (fuse_create i n m u).
Proof. ans_auto. Qed.
Lemma mkdir_answers i n m u : answers (fitting (OpMkdir i n m u)) (fuse_mkdir i n m u).
Proof. ans_auto. Qed.
Lemma symlink_answers i n t : answers (fitting (OpSymlink i n t)) (fuse_symlink i n t).
Proof. ans_auto. Qed.
Lemma unlink_answers i n : answers (fitting (OpUnlink i n)) (fuse_unlink i n).
Proof. ans_auto. Qed.
Lemma rmdir_answers i n : answers (fitting (OpRmdir i n)) (fuse_rmdir i n).
Proof. ans_auto. Qed.
Lemma rename_answers i n j m f : answers (fitting (OpRename i n j m f)) (fuse_rename i n j m f).
Proof. ans_auto. Qed.
Lemma open_answers i f : answers (fitting (OpOpen i f)) (fuse_open i f).
Proof. ans_auto; apply answers_ret; by destruct o as [[]|]. Qed.
Lemma release_answers i : answers (fitting (OpRelease i)) (fuse_release i).
Proof. ans_auto. Qed.
Lemma setattr_answers i a : answers (fitting (OpSetattr i a)) (fuse_setattr i a).
Proof. ans_auto. Qed.
Lemma readlink_answers i : answers (fitting (OpReadlink i)) (fuse_readlink i).
Proof. ans_auto. Qed.
Lemma statfs_answers : answers (fitting OpStatfs) fuse_statfs.
Proof. ans_auto. Qed.
Lemma ioctl_answers i c : i <> CTL_INO -> answers (fitting (OpIoctl i c)) (fuse_ioctl i c).
Proof. intros Hi. unfold fuse_ioctl. rewrite bool_decide_false by done. ans_auto. Qed.

(** A job's answer. *)
Definition fitting_job (j : Job) (r : Reply) : Prop :=
  match j, r with
  | _, RError _ => True
  | JWrite _ _ _ _, RWritten _ => True
  | (JDelete _ _ _ _ | JRmdir _ _ _ _), ROk => True
  | _, _ => False
  end.
Lemma job_answers j : answers (fitting_job j) (run_job j).
Proof. destruct j; cbn [run_job]; ans_auto. apply answers_ret. by destruct a. Qed.

Lemma handle_answers o : allowed False o -> answers (fitting o) (handle o).
Proof.
  intros Ho. destruct o; cbn [handle];
    eauto using lookup_answers, getattr_answers, read_answers, write_answers, readdir_answers, create_answers,
      mkdir_answers, symlink_answers, unlink_answers, rmdir_answers, rename_answers, open_answers, release_answers,
      setattr_answers, readlink_answers, statfs_answers.
  - apply ioctl_answers. exact Ho.
  - cbn beta iota. unfold fuse_access. destruct handle_access; apply answers_ret; exact I.
Qed.

(** C4: every request to an agent's mount is answered.  Whatever the host holds
    and whatever was done before, each callback ends - no walk over directories
    or up the branches runs on, nothing panics - with a reply of the kind the
    request waits for, an error being one of every kind, or with a job of its
    kind for the worker; and the worker answers each job in the same way.  Mount
    and manager stay in the order this takes, so the next request finds it. *)
Theorem every_request_is_answered o s :
  world_ok s.1.2 -> agent s -> allowed False o ->
  exists r s', handle o s = (Ok r, s') /\ fitting o r /\ world_ok s'.1.2 /\ agent s'
    /\ forall j s1, r = Later j -> world_ok s1.1.2 -> agent s1 ->
         exists a s2, run_job j s1 = (Ok a, s2) /\ fitting_job j a /\ world_ok s2.1.2 /\ agent s2.
Proof.
  intros Hw Ha Ho. destruct (handle_answers o Ho s (conj Hw Ha)) as ([Hw' Ha'] & r & Hr & Hf).
  exists r, (handle o s).2. split; [by apply run_ok|]. do 3 (split; [done|]). intros j s1 _ Hw1 Ha1.
  destruct (job_answers j s1 (conj Hw1 Ha1)) as ([Hw2 Ha2] & a & Hra & Hfa). exists a, (run_job j s1).2.
  split; [by apply run_ok|done].
Qed.
End Theorems.

#[local] Existing Instances example_env example_serde example_kernel.

Lemma every_request_is_answered_witness :
  exists r s', handle (OpUnlink ROOT_INO "b") (example_mount false) = (Ok r, s') /\ fitting (OpUnlink ROOT_INO "b") r.
Proof.
  destruct (every_request_is_answered (OpUnlink ROOT_INO "b") (example_mount false)) as (r & s' & H1 & H2 & _).
  - assert (same_world example_world (example_mount false).1.2) as Hs; [by split|].
    by apply (same_world_ok _ _ Hs), example_world_ok.
  - by split.
  - exact I.
  - exists r, s'. split; [exact H1|exact H2].
Defined.
