(* ===== verification/Scenarios.v ===== *)
(** * Runs of a mount

    Short runs of the example mount, each request and the job it leaves carried
    out in turn, that show what the callbacks do in corners: an alias read after
    a write, a write to a frozen branch's own file, links, directories and files
    made over deleted names, renames onto files and directories, and of directories
    seen in part, a write through a handle gone stale, a read while a write waits;
    and a commit over a direct edit of its parent. *)

From S2P Require Import Prelude Strs Inode HostFs Handles Quota TextMerge Branch Codec View Manager Commit.
From S2P Require Import Platform Mount Ctl Fuse FuseInv UnitTests.

#[local] Existing Instances example_env example_serde example_kernel.

(** A request, and its job as soon as it is queued. *)
Definition answered (o : FuseOp) (s : Mounted) : res exn Reply * Mounted :=
  match handle o s with
  | (Ok (Now r), s') => (Ok r, s')
  | (Ok (Later j), s') => run_job j s'
  | (Err x, s') => (Err x, s')
  end.
Definition after (os : list FuseOp) (s : Mounted) : Mounted := foldl (fun s o => (answered o s).2) s os.
Definition answer_to (o : FuseOp) (s : Mounted) : res exn Reply := (answered o s).1.

(** The file "b" read through the root (2), written through "@fix" (4), and read
    again: the root still answers the old byte, from the handle it keeps. *)
Definition alias_run : Mounted :=
  after [OpLookup ROOT_INO "b"; OpRead 2 0 10; OpLookup ROOT_INO "@fix"; OpLookup 3 "b";
         OpWrite 4 0 (bytes_of "X") 1] (example_mount true).
Example alias_reads_old_bytes :
  answer_to (OpRead 2 0 10) alias_run = Ok (RData (bytes_of "B"))
  /\ answer_to (OpRead 4 0 10) alias_run = Ok (RData (bytes_of "X")).
Proof. split; by vm_compute. Qed.

(** A file of the branch's own (2), the branch then frozen: through the root the
    write answers EIO, through "@fix" EROFS. *)
Definition frozen_own : Mounted :=
  let s := after [OpCreate ROOT_INO "x" 420 0] (example_mount true) in ((freeze_branch "fix" s.1).2, s.2).
Example frozen_own_file_answers_eio :
  answer_to (OpWrite 2 0 (bytes_of "d") 1) frozen_own = Ok (RError EIO)
  /\ answer_to (OpWrite 4 0 (bytes_of "d") 1) (after [OpLookup ROOT_INO "@fix"; OpLookup 3 "x"] frozen_own)
     = Ok (RError EROFS).
Proof. split; by vm_compute. Qed.

(** The name "a" is deleted in the branch and "main" has a file there: symlink
    fails, and the deleted file is back. *)
Example symlink_brings_deleted_file_back :
  answer_to (OpLookup ROOT_INO "a") (example_mount true) = Ok (RError ENOENT)
  /\ answer_to (OpSymlink ROOT_INO "a" "t") (example_mount true) = Ok (RError EIO)
  /\ exists a, answer_to (OpLookup ROOT_INO "a") (after [OpSymlink ROOT_INO "a" "t"] (example_mount true)) = Ok (REntry a)
       /\ a_kind a = RegularFile.
Proof.
  split; [by vm_compute|]. split; [by vm_compute|].
  destruct (answer_to (OpLookup ROOT_INO "a") (after [OpSymlink ROOT_INO "a" "t"] (example_mount true)))
    as [[]|] eqn:He; vm_compute in He; try discriminate He.
  eexists. split; [done|]. by injection He as <-.
Qed.

(** Two files of five bytes, one renamed onto the other: ten stay on the account. *)
Definition two_files : Mounted :=
  let '(h, w, f) := example_mount true in
  after [OpCreate ROOT_INO "x" 420 0; OpWrite 2 0 (bytes_of "hello") 1;
         OpCreate ROOT_INO "y" 420 0; OpWrite 3 0 (bytes_of "hello") 1]
    (h, with_quota {| used_bytes := 0; max_bytes := Some 1000%Z |} w, f).
Example rename_onto_file_keeps_its_bytes :
  used_bytes (quota two_files.1.2) = 10%Z
  /\ answer_to (OpRename ROOT_INO "x" ROOT_INO "y" 0) two_files = Ok ROk
  /\ used_bytes (quota (after [OpRename ROOT_INO "x" ROOT_INO "y" 0] two_files).1.2) = 10%Z.
Proof. split; [by vm_compute|]. split; by vm_compute. Qed.

(** Under a limit of five bytes: three are written, six are refused, and the
    counter stays where it was. *)
Definition small_store : Mounted :=
  let '(h, w, f) := example_mount true in
  after [OpCreate ROOT_INO "x" 420 0; OpWrite 2 0 (bytes_of "abc") 1]
    (h, with_quota {| used_bytes := 0; max_bytes := Some 5%Z |} w, f).
Example full_store_refuses :
  used_bytes (quota small_store.1.2) = 3%Z
  /\ answer_to (OpWrite 2 0 (bytes_of "abcdef") 1) small_store = Ok (RError ENOSPC)
  /\ used_bytes (quota (after [OpWrite 2 0 (bytes_of "abcdef") 1] small_store).1.2) = 3%Z
  /\ used_bytes (quota (after [OpWrite 2 0 (bytes_of "abcde") 1] small_store).1.2) = 5%Z.
Proof. split_and!; by vm_compute. Qed.

(** "work" and "main" both write a file they inherit, and no commit lies between:
    the commit of "work" reports nothing, and what "main" had written is gone. *)
Definition direct_edit_run : IO unit :=
  in_tmp (fun tmp => with_manager tmp (
    do* host_write (join tmp "base/file.txt") "base";
    do* lazy_branch "work" "main";
    do* write_delta "work" "/file.txt" "work";
    do* write_delta "main" "/file.txt" "main";
    do* shows "main" "/file.txt" "main";
    let* o := report "work" in
    do* clean o;
    do* reads (join tmp "base/file.txt") "work";
    shows "main" "/file.txt" "work")).
Example direct_edit_is_overwritten_unreported : passes direct_edit_run.
Proof. by vm_compute. Qed.

(** A directory is renamed onto one that has an entry: the answer is success and
    the entry is gone, where the system call fails with ENOTEMPTY. *)
Definition two_dirs : Mounted :=
  after [OpMkdir ROOT_INO "d" 493 0; OpMkdir ROOT_INO "e" 493 0; OpCreate 3 "x" 420 0] (example_mount true).
Example rename_removes_full_directory :
  (exists a, answer_to (OpLookup 3 "x") two_dirs = Ok (REntry a))
  /\ answer_to (OpRename ROOT_INO "d" ROOT_INO "e" 0) two_dirs = Ok ROk
  /\ answer_to (OpLookup 5 "x") (after [OpRename ROOT_INO "d" ROOT_INO "e" 0] two_dirs) = Ok (RError ENOENT).
Proof.
  split; [|split; by vm_compute].
  destruct (answer_to (OpLookup 3 "x") two_dirs) as [[]|] eqn:He; vm_compute in He; try discriminate He. by eexists.
Qed.

(** A file made and renamed: its number is not in the table any more, and what is
    open under it is answered with ENOENT. *)
Definition renamed_open : Mounted :=
  after [OpCreate ROOT_INO "x" 420 0; OpRename ROOT_INO "x" ROOT_INO "y" 0] (example_mount true).
Example renamed_number_is_forgotten :
  answer_to (OpGetattr 2) (after [OpCreate ROOT_INO "x" 420 0] (example_mount true)) <> Ok (RError ENOENT)
  /\ answer_to (OpGetattr 2) renamed_open = Ok (RError ENOENT)
  /\ answer_to (OpRead 2 0 10) renamed_open = Ok (RError ENOENT)
  /\ answer_to (OpWrite 2 0 (bytes_of "d") 1) renamed_open = Ok (RError ENOENT).
Proof. split; [by vm_compute|]. split_and!; by vm_compute. Qed.

(** A directory "d" with a file "f" on "main", seen from "fix": renaming it fails;
    once "fix" has made a file "g" in it the rename succeeds, moves "g" and leaves
    "f" behind under a tombstone. *)
Definition dir_below : Mounted :=
  after [OpLookup ROOT_INO "@main"; OpMkdir 2 "d" 493 0; OpCreate 3 "f" 420 0; OpLookup ROOT_INO "d"]
        (example_mount true).
Definition dir_own : Mounted := after [OpCreate 5 "g" 420 0] dir_below.
Definition dir_moved : Mounted := after [OpRename ROOT_INO "d" ROOT_INO "e" 0; OpLookup ROOT_INO "e"] dir_own.
Definition names_of (r : res exn Reply) : option (list string) :=
  match r with Ok (RDirectory es) => Some (de_name <$> es) | _ => None end.
Example renamed_directory_loses_entries :
  answer_to (OpRename ROOT_INO "d" ROOT_INO "e" 0) dir_below = Ok (RError EIO)
  /\ names_of (answer_to (OpReaddir 5 0) dir_own) = Some ["."; ".."; "f"; "g"]
  /\ answer_to (OpRename ROOT_INO "d" ROOT_INO "e" 0) dir_own = Ok ROk
  /\ names_of (answer_to (OpReaddir 7 0) dir_moved) = Some ["."; ".."; "g"]
  /\ answer_to (OpLookup ROOT_INO "d") dir_moved = Ok (RError ENOENT).
Proof. split_and!; by vm_compute. Qed.

(** The new directory "e" has no record of a first touch for what moved with it:
    when the last file of its subdirectory goes, the subdirectory goes too.  In a
    directory made in place it stays. *)
Definition nested_dir : Mounted :=
  after [OpMkdir ROOT_INO "e" 493 0; OpMkdir 2 "s" 493 0; OpCreate 3 "f" 420 0] (example_mount true).
Definition nested_moved : Mounted :=
  after [OpRename ROOT_INO "e" ROOT_INO "g" 0; OpLookup ROOT_INO "g"; OpLookup 5 "s"; OpLookup 6 "f"] nested_dir.
Example moved_directory_is_pruned :
  names_of (answer_to (OpReaddir 2 0) (after [OpUnlink 3 "f"] nested_dir)) = Some ["."; ".."; "s"]
  /\ names_of (answer_to (OpReaddir 5 0) nested_moved) = Some ["."; ".."; "s"]
  /\ names_of (answer_to (OpReaddir 5 0) (after [OpUnlink 6 "f"] nested_moved)) = Some ["."; ".."].
Proof. split_and!; by vm_compute. Qed.

(** After the rename of "d" above, making "d" anew shows its inherited entry. *)
Example new_directory_shows_old_entries :
  answer_to (OpLookup ROOT_INO "d") dir_moved = Ok (RError ENOENT)
  /\ names_of (answer_to (OpReaddir 8 0) (after [OpMkdir ROOT_INO "d" 493 0; OpLookup ROOT_INO "d"] dir_moved))
     = Some ["."; ".."; "f"].
Proof. split; by vm_compute. Qed.

(** A directory made over the deleted "b": the answer is EIO, and the inherited
    file is there again. *)
Definition b_deleted : Mounted := after [OpUnlink ROOT_INO "b"] (example_mount true).
Definition kind_of (r : res exn Reply) : option FileType :=
  match r with Ok (REntry a) | Ok (RCreated a) => Some (a_kind a) | _ => None end.
Example mkdir_brings_deleted_file_back :
  answer_to (OpLookup ROOT_INO "b") b_deleted = Ok (RError ENOENT)
  /\ answer_to (OpMkdir ROOT_INO "b" 493 0) b_deleted = Ok (RError EIO)
  /\ kind_of (answer_to (OpLookup ROOT_INO "b") (after [OpMkdir ROOT_INO "b" 493 0] b_deleted)) = Some RegularFile.
Proof. split_and!; by vm_compute. Qed.

(** A file made over a deleted name that is a link further up, here to a file of
    the base: the link is copied up and followed, and its target is emptied. *)
Definition link_deleted : Mounted :=
  after [OpLookup ROOT_INO "@main"; OpSymlink 2 "l" "/base/a"; OpUnlink ROOT_INO "l"] (example_mount true).
Example create_follows_deleted_link :
  answer_to (OpLookup ROOT_INO "l") link_deleted = Ok (RError ENOENT)
  /\ kind_of (answer_to (OpCreate ROOT_INO "l" 420 0) link_deleted) = Some Symlink
  /\ look (h_tree link_deleted.1.1) ["base"; "a"] = Some (KFile (bytes_of "A"))
  /\ look (h_tree (after [OpCreate ROOT_INO "l" 420 0] link_deleted).1.1) ["base"; "a"] = Some (KFile []).
Proof. split_and!; by vm_compute. Qed.

(** The file "n" written through the root, deleted and made anew through "@fix":
    a write through the root still goes to the deleted file, and is confirmed. *)
Definition remade : Mounted :=
  after [OpCreate ROOT_INO "n" 420 0; OpWrite 2 0 (bytes_of "old") 1; OpLookup ROOT_INO "@fix"; OpLookup 3 "n";
         OpUnlink 3 "n"; OpCreate 3 "n" 420 0] (example_mount true).
Example alias_write_is_lost :
  answer_to (OpWrite 2 0 (bytes_of "new") 1) remade = Ok (RWritten 3)
  /\ kind_of (answer_to (OpLookup 3 "n") (after [OpWrite 2 0 (bytes_of "new") 1] remade)) = Some RegularFile
  /\ answer_to (OpRead 5 0 10) (after [OpWrite 2 0 (bytes_of "new") 1] remade) = Ok (RData []).
Proof. split_and!; by vm_compute. Qed.

(** The first write to the inherited file "b" (2) waits for the worker when another
    process reads the file: that read keeps a handle on the inherited file, and once
    the write is done the root still answers the old byte. *)
Definition read_while_waiting : res exn Reply * Mounted :=
  match handle (OpWrite 2 0 (bytes_of "X") 1) (after [OpLookup ROOT_INO "b"] (example_mount true)) with
  | (Ok (Later j), s) => run_job j (after [OpRead 2 0 10] s)
  | (Ok (Now r), s) => (Ok r, s)
  | (Err x, s) => (Err x, s)
  end.
Example waiting_write_is_not_seen :
  read_while_waiting.1 = Ok (RWritten 1)
  /\ answer_to (OpRead 2 0 10) read_while_waiting.2 = Ok (RData (bytes_of "B"))
  /\ answer_to (OpRead 4 0 10) (after [OpLookup ROOT_INO "@fix"; OpLookup 3 "b"] read_while_waiting.2)
     = Ok (RData (bytes_of "X")).
Proof. split_and!; by vm_compute. Qed.

(** A link "l" of the branch to the base directory, and a revert of "l/b": the file
    "b" of the base is removed, outside the store. *)
Definition with_link : Mounted := after [OpSymlink ROOT_INO "l" "/base"] (example_mount true).
Example revert_follows_link :
  look (h_tree with_link.1.1) ["base"; "b"] = Some (KFile (bytes_of "B"))
  /\ (revert_path_in_branch "fix" "l/b" with_link.1).1 = Ok tt
  /\ look (h_tree (revert_path_in_branch "fix" "l/b" with_link.1).2.1) ["base"; "b"] = None.
Proof. split_and!; by vm_compute. Qed.
